(* ===== verification/_CoqProject ===== *)
-Q . S2P
Prelude.v
Postgres.v
GoData.v
Config.v
Policy.v
Routing.v
Budget.v
Edge.v
Auth.v
Handlers.v
Json.v
Capability.v
Cost.v
Stream.v
Transformer.v
Classifier.v
OpenAI.v
Provider.v
Pipeline.v
Relay.v
Reload.v
Calendar.v
LocalState.v
Watcher.v
Ledger.v
GwClient.v
LocalProxy.v
Envelope.v
Stats.v
Cli.v
RepoBinding.v
Storage.v
Dashboard.v
Gateway.v
Server.v
EndToEnd.v
Replay.v
