(* ===== verification/Prelude.v ===== *)
(** * AgentGate: a verification library

    AgentGate is a Go gateway between coding agents and LLM providers, with a
    local proxy on the developer's machine.  The agent posts a Messages request
    to the proxy, which wraps it in an envelope and sends it on; the gateway
    authenticates it, evaluates policy rules, selects an endpoint of a pool,
    reserves budget, translates the request to the endpoint's wire format,
    relays the provider's event stream while it counts tokens, and settles cost
    and budget at the end.  The proxy relays the stream once more, removes the
    gateway's own events and keeps a ledger.  Configuration is reloaded while
    requests are in flight.  This library is a shallow embedding of both
    programs: Go functions are Rocq functions under the same names, records are
    structs, errors are values, panics are a third outcome, and shared state is
    passed explicitly.

    ** Files and the code they model (paths under [src/])

    - [Prelude]: results of Go calls ([outcome]: [Ok], [Err], [Panic]) and
      their monad, 64-bit arithmetic with wrap-around, ranges over maps,
      the package [strings], the tactics and hint databases shared by the
      other files ([no_panic] among them).
    - [Postgres]: the column types the tables share: UUID, INTEGER and the
      microseconds of TIMESTAMPTZ, with the texts and values they accept.
    - [GoData]: [any] and [float64] (IEEE 754 through [SpecFloat]).
    - [Config]: [internal/gw/config] types.go, pools.go, pricing.go,
      policy.go, identity.go.  Data and validators.
    - [Policy]: [internal/gw/policy] decision.go, engine.go.
    - [Routing]: [internal/gw/routing] selector.go, execute.go, breaker.go.
    - [Budget]: [internal/gw/budget] service.go (in memory), pg_service.go
      (Postgres), settler.go.
    - [Edge]: [internal/gw/edge] router.go.
    - [Auth]: [internal/gw/auth] auth.go, pg_keystore.go, pg_invitestore.go.
    - [Handlers]: [internal/gw/server] handlers.go (setup exchange,
      repository binding), handlers_invite.go; [internal/gw/audit] writer.go.
    - [Json]: the rules of [encoding/json] for decoding into structs.
    - [Capability]: [internal/gw/policy] capability_detect.go.
    - [Cost]: [internal/gw/cost] cost.go.
    - [Stream]: [internal/shared/wire] sse.go; [internal/gw/server]
      stream_accounting.go.
    - [Transformer]: [internal/shared/ir]; [internal/shared/transformer]
      anthropic.go, degraded.go.
    - [Classifier]: [internal/gw/classifier], [internal/lp/tagger].
    - [OpenAI]: [internal/shared/transformer] openai.go.
    - [Provider]: [internal/gw/provider] and the error types of
      [internal/gw/server].
    - [Pipeline]: [internal/gw/server] ingress_pipeline.go,
      egress_pipeline.go, [HandleForward]; the reload callback of
      [cmd/aicg-gw/main.go].
    - [Relay]: the handler's read loop against the accounting goroutine, as a
      step relation over the pipe between them.
    - [Reload]: [internal/gw/secretref]; [internal/gw/config] loader.go.
    - [Calendar]: the parts of package [time] the sources use (civil dates,
      RFC 3339), proved to read back what they print.
    - [LocalState]: [internal/lp] localconfig/config.go, repobinder/binder.go,
      session/session.go, on a disk; the parts of [path/filepath] they use.
    - [Watcher]: the event loop, debounce timer and reload goroutines of
      [internal/gw/config] loader.go, as a state machine.
    - [Ledger]: [internal/lp/ledger] sqlite.go.
    - [GwClient]: [internal/lp/gwclient] client.go.
    - [LocalProxy]: [internal/lp/server] anthropic.go, meta.go;
      [internal/shared/version].
    - [Envelope]: [internal/shared/envelope] types.go, and that the proxy's
      envelope is one of them.
    - [Stats]: [internal/lp/cli] stats.go.
    - [Cli]: [internal/lp/cli] commands.go, cli.go; [cmd/aicg-lp/main.go].
    - [RepoBinding]: [internal/gw/repobinding].
    - [Storage]: the Postgres writers ([internal/gw] audit/pg_writer.go,
      cost/pg_writer.go, routing/event_writer.go, rawstore/metadata.go) on the
      tables of the migrations, audit/writer.go, [internal/gw/db].
    - [Dashboard]: [internal/gw/dashboard] api.go, cost_summary.go, and the
      routing-event handler of [cmd/aicg-gw/main.go].
    - [Gateway]: [cmd/aicg-gw/main.go] (start-up, bootstrap, HTTP server,
      routes, reload callback), [cmd/aicg-db/main.go].
    - [Server]: the gateway as one program: the middleware stack, every
      handler on the state it shares with the others ([Live]), reloads, the
      settler and the reaper as steps ([gw_step]).
    - [EndToEnd]: the commands of the proxy, and the proxy serving an agent,
      against that gateway.
    - [Replay]: [aicg routingctl replay] over the history of that gateway.

    ** How the parts interact

    [Pipeline.Run] calls [Policy.Decide], [Capability.DetectCapabilities],
    [Routing.BuildChain] (once itself, once in [Egress_Run]),
    [Budget.Pg_Reserve], the transformers and an adapter; its result carries
    the accounting configuration that [Stream.run] uses and the reservation
    that [PostAccount] settles.  The engine, the selector, the calculator and
    the configuration are replaced by a reload, so [Run] takes the state seen
    at each of its reads ([ReadPoint], [View]): a theorem about [fun _ => v] is
    about a request without a reload, one about an arbitrary [live] holds
    under every interleaving.  [Reload.reload] produces the configuration that
    [Pipeline.reload_steps] installs, one shared object at a time, and
    [Gateway.on_reload] is the callback as a whole.

    On the developer's machine [Cli] runs commands on a [World] (disk, ledger,
    requests sent, text printed); [runStart] gives the [LPEnv] and the client
    with which [LocalProxy.route] serves the agent.  A request goes through
    [GwClient.Forward], whose gateway is any function of the requests sent
    before; in [EndToEnd] that function is [Server.gateway_of]: the trace id,
    [AuthMiddleware], [gw_route], the role guard and one of the handlers of
    [Handlers], [Pipeline] and [Dashboard], on keys, tokens, invites, tables
    and budget.  What surrounds one request (clock, database, random source,
    how far the client reads) is its [ReqEnv]; what is outside the repository
    altogether is [Outside].  The calls that the accounting goroutine gets to
    make are those of [Relay.performed], which the step machine of [Relay]
    justifies; the bytes that [Stream.run] writes are the body that the frame
    reader of [LocalProxy] relays, in any pieces.

    ** Parameters

    Code outside the repository is a class or an argument, with only its
    documented behaviour assumed: [CEL] (cel-go), [SortSlice] (a sorted
    permutation), [Random] (a 32-byte digest, [IntN] in range), [Bcrypt],
    [Sha256], [JSON] (text to document), [Files] and [Yaml], [MapOrder] (some
    enumeration of a map), [upstream] (the network),
    the clock, [uuid.New], random bytes, the outcome of each SQL statement;
    [JSONDecoder] (the first document of a text), [LocalYaml] (two documents
    with their read-back), [SortRows] and [SQLOrder] (sorted permutations),
    [PgTypes] (the text of a UUID column), [Ed25519], [Machine] and [LedgerIO]
    (what the operating system and sqlite answer).
    Every class has an instance in the file that introduces it or in the file
    that first uses it, on which the witnesses compute.

    ** What the theorems show

    - Requests: a forward without a reload calls one eligible endpoint with
      its own key; what is retried, and what the client is told, for every
      pair of replies; [HandleForward] does not panic on any request while pool
      weights are positive, which validation ensures; an Anthropic request
      reaches an Anthropic endpoint with the same content; an OpenAI request
      of the shape the gateway writes survives the internal representation
      ([openai_translation] gives what a translated Anthropic request
      loses); a reload between the two selections sends the old key to the new
      address.
    - Settlement: a stream read to its end commits or releases its reservation,
      whatever other budget calls come in between, unless the settler has
      expired it; the relay completes with a client that reads, and calls the
      cost writer and [PostAccount] once each if they are set.  What happens
      after a client has left is [relay_any_client].
    - The gateway as a whole, after any sequence of requests, reloads and
      ticks: outside the public paths nothing changes without a key that the
      store vouches for; every key and every invite goes back, through
      administrators, to a consumed setup token, and there are no more keys
      than consumed tokens and redeemed invites; tables, reservations, keys and
      invites stay well-formed.
    - Policy and routing: a policy that compiles always decides, by its
      default when no rule matches and by its matching rules when they agree
      ([decide_lowest_priority_pool] says which pool wins when they do not); a
      chain is duplicate-free and holds only eligible members, and all of those
      with positive weight when the limit of attempts allows as many
      ([build_chain_ignores_limits] shows that the limit has no effect); every
      error; replay.
    - Budget: [used] is the sum over live reservations under every sequence of
      operations; the life cycle of a reservation; the Postgres service
      refines the in-memory one, calls refused by the column types or by the
      database included; expiry is independent of map order.
    - Authentication: a guarded route runs only for a stored key with an
      allowed role; a deleted key is refused five minutes after the last
      lookup that was under way at the deletion has ended;
      invites and setup tokens work once, and redeeming is all or nothing.
    - Configuration: each validator accepts exactly the well-formed tables;
      what loads is consistent; a failed reload changes nothing; after any
      changes of configuration and secret files that fsnotify reports, the
      watcher ends with the configuration on the disk unless two reloads
      overlap (a secret file replaced by another file is not reported:
      [replaced_secret_missed]).
    - Start-up: a gateway that starts serves the configuration it loaded if
      no reload ends during the start, and has an adapter for every pool member
      in any case; the bootstrap token is minted once
      and redeemed once; connecting to the database ends.
    - Storage and dashboard: every row of the four tables fits its columns
      whatever is written; which trace ids are accounted; the cost summary
      loses nothing; guarded handlers show no foreign rows; a repository
      binding is accepted exactly when its signature verifies.
    - Local proxy: every request is answered; the relay depends only on the
      frames of the stream, not on how the network cuts it; the agent receives
      exactly the provider's bytes and the ledger the gateway's figures; a
      saved repository binding is the one loaded; login writes files only when
      the gateway accepted the token.
    - End to end: from a new gateway with a setup token over the
      administrator's login, an invite and the user's login to a proxy whose
      requests pass the authentication with the invited identity; one request
      of an agent with a stream that ends regularly, whose ledger row, cost event and committed reservation carry
      the same trace id and cost while the agent gets the provider's bytes
      ([agent_request_outcome] has broken streams too);
      [aicg stats] prints the sums of exactly the events of the days asked for,
      per team and, up to the hundred teams of one answer, in total;
      [aicg routingctl replay] shows, at any later time, the one routing event
      of a relayed request with the endpoint and model it went to;
      the proxy's envelope conforms to the shared schema.
    - Data formats: SSE and OpenAI round trips, UUIDv7 layout of trace ids,
      usage counted from the stream, costs of the right sign, source and
      currency.

    ** Bounds

    Integers of type [int] and [int64] are [Z] with [wrap64] where the code
    can overflow.  Recursion is structural except over nested content blocks,
    which is cut at [max_depth] = 10000, the nesting limit of [encoding/json]:
    a deeper document is refused by both.  The scanner's limit of 64 KiB per
    line, the handler's buffer of 4096 bytes and the 1024 bytes kept of an
    error body are those of the source.  Loops over a map take its visiting
    order as an argument and are proved for every order.  Fuel: the relay of
    the proxy takes one more than the bytes of the body (each frame but the
    last takes at least one), [FindRoot] one more than the elements of the
    path, [ParseDuration] one more than the bytes of its text, and [db_Open] 19
    rounds, which are enough because the pauses double up to two seconds
    against a deadline of thirty; each bound is proved sufficient where a
    theorem depends on it.

    ** Not modelled

    The metrics and the process log are output.  The contents of TLS, the
    network listeners and the signal handlers are the operating system's.
    chi's router and its own middlewares (the request id, the five-minute
    timeout), file modes and the client's timeouts are left out; the answer to
    a path without a route is a parameter.  Requests are served one at a time
    in [Server]; interleavings inside a request are those of [Pipeline] (reads
    of the configuration), [Relay], [Budget] and [Auth].  The conformance
    harness is test code. *)

From Stdlib Require Import ZArith Lia Ascii.
From stdpp Require Import sorting base gmap strings fin_maps numbers list.

(** Appending computes on constructor-headed strings. *)
#[global] Arguments String.append !_ _ / : simpl nomatch.

Declare Scope go_scope.
Delimit Scope go_scope with go.

(** ** Go results

    A Go function returning [(v, err)] either yields a value, an error, or
    panics at run time (index out of range, nil dereference, division by
    zero).  The three outcomes are kept apart. *)

Inductive outcome (E A : Type) : Type :=
| Ok (a : A)
| Err (e : E)
| Panic.
Arguments Ok {E A} a.
Arguments Err {E A} e.
Arguments Panic {E A}.

#[export] Instance outcome_ret E : MRet (outcome E) := fun A => Ok.
#[export] Instance outcome_bind E : MBind (outcome E) := fun A B f m =>
  match m with Ok a => f a | Err e => Err e | Panic => Panic end.

(** [if cond { return err }] as a monadic guard. *)
Definition reject {E} (cond : bool) (e : E) : outcome E unit :=
  if cond then Err e else Ok tt.

(** [fmt.Errorf("...: %w", err)]: wrap an error, leaving values alone. *)
Definition wrap_err {E F A} (f : E -> F) (m : outcome E A) : outcome F A :=
  match m with Ok a => Ok a | Err e => Err (f e) | Panic => Panic end.

Definition is_ok {E A} (m : outcome E A) : bool :=
  match m with Ok _ => true | _ => false end.

Lemma reject_ok {E} b (e : E) u : reject b e = Ok u <-> b = false.
Proof. destruct b, u; unfold reject; split; congruence. Qed.

Lemma bind_ok {E A B} (m : outcome E A) (f : A -> outcome E B) b :
  (m ≫= f) = Ok b <-> exists a, m = Ok a /\ f a = Ok b.
Proof. destruct m; simpl; naive_solver. Qed.

Lemma bind_reject_ok {E B} c (e : E) (k : unit -> outcome E B) b :
  (reject c e ≫= k) = Ok b <-> c = false /\ k tt = Ok b.
Proof. destruct c; simpl; naive_solver. Qed.

Lemma bind_reject_err {E B} c (e : E) (k : unit -> outcome E B) x :
  (reject c e ≫= k) = Err x -> x = e \/ k tt = Err x.
Proof. destruct c; simpl; naive_solver. Qed.

Lemma bind_unit_ok {E B} (m : outcome E unit) (k : unit -> outcome E B) b :
  (m ≫= k) = Ok b <-> m = Ok tt /\ k tt = Ok b.
Proof. destruct m as [[]| |]; simpl; naive_solver. Qed.

Lemma wrap_err_ok {E F A} (f : E -> F) (m : outcome E A) a :
  wrap_err f m = Ok a <-> m = Ok a.
Proof. destruct m; simpl; naive_solver. Qed.

(** A validation loop: [for i, x := range xs { if err := f(i, x) ... }]. *)
Fixpoint forM_i {E A} (i : nat) (f : nat -> A -> outcome E unit) (xs : list A) : outcome E unit :=
  match xs with
  | [] => Ok tt
  | x :: xs => f i x ≫= fun _ => forM_i (S i) f xs
  end.

Definition forM {E A} (f : A -> outcome E unit) (xs : list A) : outcome E unit :=
  forM_i 0 (fun _ => f) xs.

Lemma forM_i_ok {E A} (f : nat -> A -> outcome E unit) xs i u :
  forM_i i f xs = Ok u <-> forall k x, xs !! k = Some x -> f (i + k)%nat x = Ok tt.
Proof.
  destruct u. revert i. induction xs as [|x xs IH]; intros i; cbn [forM_i].
  - naive_solver.
  - rewrite bind_ok. split.
    + intros ([] & Hx & Hxs) [|k] y; simpl; intros Hk; simplify_eq.
      * by rewrite Nat.add_0_r.
      * rewrite <- Nat.add_succ_comm. by eapply IH.
    + intros H. exists tt. split.
      * rewrite <- (Nat.add_0_r i). by apply H.
      * apply IH. intros k y Hk. rewrite Nat.add_succ_comm. by apply H.
Qed.

Lemma forM_ok {E A} (f : A -> outcome E unit) xs u :
  forM f xs = Ok u <-> Forall (fun x => f x = Ok tt) xs.
Proof. unfold forM. rewrite forM_i_ok, Forall_lookup. done. Qed.

(** A validation loop never panics when its body does not. *)
Lemma forM_i_no_panic {E A} (f : nat -> A -> outcome E unit) xs i :
  (forall j x, f j x <> Panic) -> forM_i i f xs <> Panic.
Proof.
  intros Hf. revert i. induction xs as [|x xs IH]; intros i; cbn; [done|].
  destruct (f i x) eqn:Hx; cbn; [apply IH|done|]. by destruct (Hf i x).
Qed.

(** *** Panic freedom

    Code built from guards, loops, wrappers and matches panics only where one
    of its leaves does. *)

Lemma bind_no_panic {E A B} (m : outcome E A) (f : A -> outcome E B) :
  m <> Panic -> (forall a, f a <> Panic) -> m ≫= f <> Panic.
Proof. intros Hm Hf. destruct m; cbn; [apply Hf|done|done]. Qed.

Lemma reject_no_panic {E} b (e : E) : reject b e <> Panic.
Proof. by destruct b. Qed.

Lemma wrap_err_no_panic {E F A} (f : E -> F) (m : outcome E A) : m <> Panic -> wrap_err f m <> Panic.
Proof. by destruct m. Qed.

Lemma forM_no_panic {E A} (f : A -> outcome E unit) xs : (forall x, f x <> Panic) -> forM f xs <> Panic.
Proof. intros Hf. apply forM_i_no_panic. intros _. apply Hf. Qed.

Create HintDb no_panic.
#[export] Hint Resolve reject_no_panic : no_panic.
Ltac no_panic :=
  repeat first
    [ discriminate
    | solve [auto 1 with no_panic]
    | apply wrap_err_no_panic
    | apply forM_i_no_panic; intros ? ?
    | apply forM_no_panic; intros ?
    | apply bind_no_panic; [|intros ?]
    | case_match ].

(** ** 64-bit integers

    Go's [int] on the supported platforms: two's complement, wrapping. *)

Definition wrap64 (z : Z) : Z := ((z + 2 ^ 63) mod 2 ^ 64 - 2 ^ 63)%Z.
Definition int_add (a b : Z) : Z := wrap64 (a + b).
Definition int_sub (a b : Z) : Z := wrap64 (a - b).
Definition int_mul (a b : Z) : Z := wrap64 (a * b).
(** Go's [/] truncates towards zero; the caller guards against zero. *)
Definition int_quo (a b : Z) : Z := wrap64 (Z.quot a b).
Definition int_rem (a b : Z) : Z := wrap64 (Z.rem a b).
Definition int64 (z : Z) : Prop := (- 2 ^ 63 <= z < 2 ^ 63)%Z.

Lemma wrap64_id z : int64 z -> wrap64 z = z.
Proof. unfold int64, wrap64. intros. rewrite Z.mod_small; lia. Qed.

Lemma wrap64_range z : int64 (wrap64 z).
Proof. unfold int64, wrap64. pose proof (Z.mod_pos_bound (z + 2 ^ 63) (2 ^ 64)). lia. Qed.

Lemma wrap64_eq a b k : a = (b + k * 2 ^ 64)%Z -> wrap64 a = wrap64 b.
Proof.
  intros ->. unfold wrap64. f_equal.
  replace (b + k * 2 ^ 64 + 2 ^ 63)%Z with (b + 2 ^ 63 + k * 2 ^ 64)%Z by lia.
  by rewrite Z_mod_plus_full.
Qed.

(** Wrapping is a congruence, so intermediate wraps can be dropped. *)
Lemma wrap64_decomp z : exists k, wrap64 z = (z + k * 2 ^ 64)%Z.
Proof.
  exists (- ((z + 2 ^ 63) / 2 ^ 64))%Z. unfold wrap64.
  pose proof (Z.div_mod (z + 2 ^ 63) (2 ^ 64)). lia.
Qed.

Lemma wrap64_add_l a b : wrap64 (wrap64 a + b) = wrap64 (a + b).
Proof. destruct (wrap64_decomp a) as [k ->]. apply wrap64_eq with k. lia. Qed.
Lemma wrap64_add_r a b : wrap64 (a + wrap64 b) = wrap64 (a + b).
Proof. rewrite (Z.add_comm a), wrap64_add_l. by rewrite Z.add_comm. Qed.
Lemma wrap64_sub_l a b : wrap64 (wrap64 a - b) = wrap64 (a - b).
Proof. apply (wrap64_add_l a (- b)). Qed.
Lemma wrap64_sub_r a b : wrap64 (a - wrap64 b) = wrap64 (a - b).
Proof. destruct (wrap64_decomp b) as [k ->]. apply wrap64_eq with (- k)%Z. lia. Qed.
Lemma wrap64_idemp a : wrap64 (wrap64 a) = wrap64 a.
Proof. apply wrap64_id, wrap64_range. Qed.

Create Rewrite HintDb wrap64.
#[export] Hint Rewrite wrap64_add_l wrap64_add_r wrap64_sub_l wrap64_sub_r wrap64_idemp : wrap64.

Ltac wrap64 :=
  unfold int_add, int_sub in *; autorewrite with wrap64;
  try (f_equal; lia).

(** ** Strings

    Go strings are byte sequences; [string] over 8-bit [ascii] is the same
    thing.  The functions below are the ones of package [strings] the sources
    call. *)

Section Strings.
Local Open Scope string_scope.

Fixpoint str_drop (n : nat) (s : string) : string :=
  match n, s with
  | S n, String _ s => str_drop n s
  | _, _ => s
  end.

Fixpoint str_take (n : nat) (s : string) : string :=
  match n, s with
  | S n, String c s => String c (str_take n s)
  | _, _ => ""
  end.

Definition HasPrefix (s p : string) : bool := String.prefix p s.

Definition TrimPrefix (s p : string) : string :=
  if HasPrefix s p then str_drop (String.length p) s else s.

Definition HasSuffix (s suf : string) : bool :=
  (String.length suf <=? String.length s)%nat &&
  String.eqb (str_drop (String.length s - String.length suf) s) suf.

Fixpoint Contains (s sub : string) : bool :=
  HasPrefix s sub ||
  match s with EmptyString => false | String _ s' => Contains s' sub end.

(** ASCII lower-casing, byte by byte. *)
Definition lower_ascii (c : ascii) : ascii :=
  let n := nat_of_ascii c in
  if ((65 <=? n) && (n <=? 90))%nat then ascii_of_nat (n + 32) else c.

Fixpoint ToLower (s : string) : string :=
  match s with EmptyString => "" | String c s => String (lower_ascii c) (ToLower s) end.

(** [for i < len(s) { if s[i] == sep { return s[:i], s[i+1:] } }] *)
Fixpoint split_at (sep : ascii) (s : string) : option (string * string) :=
  match s with
  | EmptyString => None
  | String c s =>
      if Ascii.eqb c sep then Some ("", s)
      else '(a, b) ← split_at sep s; Some (String c a, b)
  end.

(** No byte of [s] is [c]. *)
Fixpoint free_of (c : ascii) (s : string) : bool :=
  match s with
  | EmptyString => true
  | String d s => negb (Ascii.eqb d c) && free_of c s
  end.

Definition is_empty (s : string) : bool :=
  match s with EmptyString => true | _ => false end.
End Strings.
#[global] Arguments HasPrefix : simpl never.

Lemma is_empty_true s : is_empty s = true <-> s = EmptyString.
Proof. by destruct s. Qed.
Lemma is_empty_false s : is_empty s = false <-> s <> EmptyString.
Proof. by destruct s. Qed.

Lemma str_app_assoc s t u : (s +:+ t) +:+ u = s +:+ (t +:+ u).
Proof. induction s as [|c s IH]; [done|]. cbn. by f_equal. Qed.

Lemma str_app_nil_r s : s +:+ EmptyString = s.
Proof. induction s as [|c s IH]; [done|]. cbn. by f_equal. Qed.

Lemma str_length_app s t :
  String.length (s +:+ t) = (String.length s + String.length t)%nat.
Proof. induction s as [|c s IH]; [done|]. cbn. by f_equal. Qed.

Lemma str_drop_app s t : str_drop (String.length s) (s +:+ t) = t.
Proof. induction s as [|c s IH]; done. Qed.

Lemma str_take_app s t : str_take (String.length s) (s +:+ t) = s.
Proof. induction s as [|c s IH]; cbn; [by destruct t|]. by f_equal. Qed.

Lemma str_take_all n s : String.length s <= n -> str_take n s = s.
Proof. revert n. induction s as [|c s IH]; intros [|n] H; cbn in *; [done|done|lia|]. by rewrite IH by lia. Qed.

Lemma HasPrefix_spec s p : HasPrefix s p = true <-> exists t, s = p +:+ t.
Proof.
  unfold HasPrefix. revert s. induction p as [|c p IH]; intros s; cbn.
  - split; [intros _; by exists s|]. by destruct s.
  - destruct s as [|d s]; cbn.
    { split; [done|]. by intros [t [=]]. }
    destruct (ascii_dec c d) as [->|Hne].
    + rewrite IH. split; intros [t Ht]; exists t; [by subst|by inversion Ht].
    + split; [done|]. intros [t Ht]. inversion Ht. congruence.
Qed.

Lemma HasPrefix_app p t : HasPrefix (p +:+ t) p = true.
Proof. apply HasPrefix_spec. by exists t. Qed.

Lemma TrimPrefix_app p t : TrimPrefix (p +:+ t) p = t.
Proof. unfold TrimPrefix. by rewrite HasPrefix_app, str_drop_app. Qed.

Lemma Contains_app s p t : Contains (s +:+ (p +:+ t)) p = true.
Proof.
  induction s as [|c s IH].
  - cbn. assert (Hp := HasPrefix_app p t).
    destruct (p +:+ t); cbn; by rewrite Hp.
  - cbn. by rewrite IH, orb_true_r.
Qed.

Lemma Contains_app_l s t p : Contains s p = true -> Contains (s +:+ t) p = true.
Proof.
  induction s as [|c s IH]; cbn.
  - rewrite orb_false_r. intros [u Hu]%HasPrefix_spec.
    destruct p; [|done]. by destruct t.
  - intros [Hp|Hc]%orb_true_iff.
    + apply HasPrefix_spec in Hp as [u Hu].
      assert (HasPrefix (String c (s +:+ t)) p = true) as ->; [|done].
      apply HasPrefix_spec. exists (u +:+ t).
      change (String c (s +:+ t)) with (String c s +:+ t). by rewrite Hu, str_app_assoc.
    + by rewrite IH, orb_true_r.
Qed.

Lemma Contains_app_r s t p : Contains t p = true -> Contains (s +:+ t) p = true.
Proof. intros H. induction s as [|c s IH]; cbn; [done|]. by rewrite IH, orb_true_r. Qed.

(** Splitting at the first separator inverts joining with it. *)
Lemma split_at_join sep a b :
  free_of sep a = true -> split_at sep (a +:+ String sep b) = Some (a, b).
Proof.
  induction a as [|c a IH]; cbn.
  - intros _. by rewrite Ascii.eqb_refl.
  - intros [Hc Ha]%andb_true_iff. apply negb_true_iff in Hc. by rewrite Hc, IH.
Qed.

Lemma split_at_sound sep s a b :
  split_at sep s = Some (a, b) -> s = a +:+ String sep b /\ free_of sep a = true.
Proof.
  revert a b. induction s as [|c s IH]; intros a b; cbn; [done|].
  destruct (Ascii.eqb c sep) eqn:Hc.
  - apply Ascii.eqb_eq in Hc as ->. by intros [= <- <-].
  - destruct (split_at sep s) as [[a' b']|] eqn:Hs; cbn; [|done].
    intros [= <- <-]. destruct (IH a' b' eq_refl) as [-> Hf].
    split; [done|]. cbn. by rewrite Hc, Hf.
Qed.

Lemma split_at_None sep s : split_at sep s = None <-> free_of sep s = true.
Proof.
  induction s as [|c s IH]; cbn; [done|].
  destruct (Ascii.eqb c sep); cbn; [done|].
  rewrite <- IH. destruct (split_at sep s) as [[]|]; cbn; naive_solver.
Qed.

Lemma free_of_app c s t : free_of c (s +:+ t) = free_of c s && free_of c t.
Proof. induction s as [|d s IH]; cbn; [done|]. by rewrite IH, andb_assoc. Qed.

(** Joining with a separator that the left part does not contain is injective. *)
Lemma join_inj sep a b a' b' :
  free_of sep a = true -> free_of sep a' = true ->
  a +:+ String sep b = a' +:+ String sep b' -> a = a' /\ b = b'.
Proof.
  intros Ha Ha' Heq. apply split_at_join with (b := b) in Ha.
  rewrite Heq, split_at_join in Ha by done. naive_solver.
Qed.

(** *** Splitting and joining

    [strings.Split] with a one-byte separator, and its inverse. *)
Fixpoint split_on (sep : ascii) (s : string) : list string :=
  match s with
  | EmptyString => [EmptyString]
  | String c s =>
      if Ascii.eqb c sep then EmptyString :: split_on sep s
      else match split_on sep s with
           | [] => [String c EmptyString]
           | h :: t => String c h :: t
           end
  end.

Fixpoint join_with (sep : ascii) (l : list string) : string :=
  match l with
  | [] => EmptyString
  | [s] => s
  | s :: l => s +:+ String sep (join_with sep l)
  end.

(** The hand-written splitting loops of the sources: like [strings.Split],
    without a last empty piece. *)
Fixpoint split_pieces (sep : ascii) (s : string) : list string :=
  match s with
  | EmptyString => []
  | String c s =>
      if Ascii.eqb c sep then EmptyString :: split_pieces sep s
      else match split_pieces sep s with
           | [] => [String c EmptyString]
           | h :: t => String c h :: t
           end
  end.

Lemma split_on_app sep s t :
  free_of sep s = true -> split_on sep (s +:+ String sep t) = s :: split_on sep t.
Proof.
  induction s as [|c s IH]; cbn.
  - intros _. by rewrite Ascii.eqb_refl.
  - intros [Hc Hs]%andb_true_iff. apply negb_true_iff in Hc. by rewrite Hc, IH.
Qed.

Lemma split_on_free sep s : free_of sep s = true -> split_on sep s = [s].
Proof.
  induction s as [|c s IH]; cbn; [done|]. intros [Hc Hs]%andb_true_iff. apply negb_true_iff in Hc.
  by rewrite Hc, IH.
Qed.

Lemma split_on_join sep l :
  l <> [] -> Forall (fun s => free_of sep s = true) l -> split_on sep (join_with sep l) = l.
Proof.
  induction l as [|s [|s' l] IH]; intros Hl Hf; [done|apply split_on_free; by inversion Hf|].
  inversion Hf as [|? ? Hs Hf']; subst. change (join_with sep (s :: s' :: l)) with
    (s +:+ String sep (join_with sep (s' :: l))). by rewrite split_on_app, IH.
Qed.

Lemma split_pieces_app sep s t :
  free_of sep s = true -> split_pieces sep (s +:+ String sep t) = s :: split_pieces sep t.
Proof.
  induction s as [|c s IH]; cbn.
  - intros _. by rewrite Ascii.eqb_refl.
  - intros [Hc Hs]%andb_true_iff. apply negb_true_iff in Hc. by rewrite Hc, IH.
Qed.

Lemma split_pieces_free sep s : free_of sep s = true -> s <> EmptyString -> split_pieces sep s = [s].
Proof.
  induction s as [|c s IH]; cbn; [done|]. intros [Hc Hs]%andb_true_iff _. apply negb_true_iff in Hc. rewrite Hc.
  destruct s as [|d s]; [done|]. by rewrite IH.
Qed.

Lemma join_split_on sep s : join_with sep (split_on sep s) = s.
Proof.
  induction s as [|c s IH]; cbn; [done|].
  assert (split_on sep s <> []) as Hne by (destruct s as [|d s]; cbn; [done|]; destruct (Ascii.eqb d sep); [done|];
    by destruct (split_on sep s)).
  destruct (Ascii.eqb c sep) eqn:Hc.
  - apply Ascii.eqb_eq in Hc as ->. destruct (split_on sep s); [done|]. cbn in *. by rewrite IH.
  - destruct (split_on sep s) as [|h [|h' t]]; [done|by cbn in *; rewrite IH|]. cbn in *. by rewrite IH.
Qed.

(** ** The [appendUnique*] family

    [policy.appendUniqueMod], [policy.appendUniqueSE], [policy.appendUniqueStr]
    and [server.appendUniqueStr] are the same loop at three element types: a
    [seen] set initialised from the slice, then one pass over the items. *)

Section AppendUnique.
Context {A : Type} `{Countable A}.
Implicit Types (slice items : list A) (seen : gset A).

Fixpoint appendUnique_loop slice seen items : list A :=
  match items with
  | [] => slice
  | m :: items =>
      if decide (m ∈ seen) then appendUnique_loop slice seen items
      else appendUnique_loop (slice ++ [m]) ({[m]} ∪ seen) items
  end.

Definition appendUnique slice items : list A :=
  appendUnique_loop slice (list_to_set slice) items.

(** The fresh items, in order, each once: what the loop appends. *)
Fixpoint fresh_items seen items : list A :=
  match items with
  | [] => []
  | m :: items =>
      if decide (m ∈ seen) then fresh_items seen items
      else m :: fresh_items ({[m]} ∪ seen) items
  end.

Lemma appendUnique_loop_fresh slice seen items :
  appendUnique_loop slice seen items = slice ++ fresh_items seen items.
Proof.
  revert slice seen. induction items as [|m items IH]; intros slice seen; cbn.
  - by rewrite app_nil_r.
  - case_decide; [apply IH|]. rewrite IH, <- app_assoc. done.
Qed.

Lemma appendUnique_fresh slice items :
  appendUnique slice items = slice ++ fresh_items (list_to_set slice) items.
Proof. apply appendUnique_loop_fresh. Qed.

Lemma elem_of_fresh_items seen items x :
  x ∈ fresh_items seen items <-> x ∈ items /\ x ∉ seen.
Proof.
  revert seen. induction items as [|m items IH]; intros seen; cbn; [set_solver|].
  case_decide; rewrite ?elem_of_cons, IH, ?elem_of_union, ?elem_of_singleton;
    destruct (decide (x = m)) as [->|]; naive_solver.
Qed.

Lemma NoDup_fresh_items seen items : NoDup (fresh_items seen items).
Proof.
  revert seen. induction items as [|m items IH]; intros seen; cbn; [constructor|].
  case_decide; [apply IH|]. constructor; [|apply IH].
  rewrite elem_of_fresh_items. set_solver.
Qed.

Lemma elem_of_appendUnique slice items x :
  x ∈ appendUnique slice items <-> x ∈ slice \/ x ∈ items.
Proof.
  rewrite appendUnique_fresh, elem_of_app, elem_of_fresh_items, elem_of_list_to_set.
  destruct (decide (x ∈ slice)); naive_solver.
Qed.

Lemma NoDup_appendUnique slice items :
  NoDup slice -> NoDup (appendUnique slice items).
Proof.
  intros Hs. rewrite appendUnique_fresh. apply list.NoDup_app. split; [done|].
  split; [|apply NoDup_fresh_items].
  intros x Hx. rewrite elem_of_fresh_items, elem_of_list_to_set. tauto.
Qed.

Lemma appendUnique_nil_r slice : appendUnique slice [] = slice.
Proof. done. Qed.

Lemma fresh_items_proper seen seen' items :
  seen ≡ seen' -> fresh_items seen items = fresh_items seen' items.
Proof. by intros ->%leibniz_equiv. Qed.

Lemma fresh_items_app seen xs ys :
  fresh_items seen (xs ++ ys) =
  fresh_items seen xs ++ fresh_items (seen ∪ list_to_set xs) ys.
Proof.
  revert seen. induction xs as [|x xs IH]; intros seen; cbn.
  - apply fresh_items_proper. set_solver.
  - case_decide; cbn; rewrite IH; f_equal; [|f_equal];
      apply fresh_items_proper; set_solver.
Qed.

(** Filtering twice against nested sets is filtering against the union. *)
Lemma fresh_items_fresh_items s t items :
  fresh_items s (fresh_items t items) = fresh_items (s ∪ t) items.
Proof.
  revert s t. induction items as [|m items IH]; intros s t; cbn; [done|].
  destruct (decide (m ∈ t)) as [Ht|Ht].
  - rewrite IH, decide_True by set_solver. done.
  - cbn. destruct (decide (m ∈ s)) as [Hs|Hs].
    + rewrite IH, decide_True by set_solver. apply fresh_items_proper. set_solver.
    + rewrite IH, decide_False by set_solver. f_equal. apply fresh_items_proper. set_solver.
Qed.

Lemma appendUnique_assoc xs ys zs :
  appendUnique (appendUnique xs ys) zs = appendUnique xs (appendUnique ys zs).
Proof.
  rewrite !appendUnique_fresh, fresh_items_app, fresh_items_fresh_items, <- app_assoc.
  do 2 f_equal. apply fresh_items_proper. intros x.
  rewrite list_to_set_app, !elem_of_union, !elem_of_list_to_set, elem_of_fresh_items,
    elem_of_list_to_set.
  destruct (decide (x ∈ xs)); tauto.
Qed.
End AppendUnique.

(** ** Sorted lists *)

Lemma StronglySorted_filter {A} (R : relation A) (P : A -> Prop) `{!forall x, Decision (P x)} l :
  StronglySorted R l -> StronglySorted R (filter P l).
Proof.
  induction 1 as [|x l Hs IH Hx]; [constructor|]. rewrite filter_cons.
  case_decide; [|done]. constructor; [done|]. rewrite list.Forall_forall in Hx |- *.
  intros y [_ Hy]%list_elem_of_filter. by apply Hx.
Qed.

Lemma StronglySorted_fmap {A B} (f : A -> B) (R : relation A) (S : relation B) l :
  (forall x y, R x y -> S (f x) (f y)) -> StronglySorted R l -> StronglySorted S (f <$> l).
Proof.
  intros Hf. induction 1 as [|x l Hs IH Hx]; cbn; constructor; [done|].
  apply list.Forall_forall. intros y (z & -> & Hz)%list_elem_of_fmap. pose proof (proj1 (list.Forall_forall _ _) Hx). auto.
Qed.

Lemma filter_all {A} (P : A -> Prop) `{!forall x, Decision (P x)} (l : list A) :
  (forall x, x ∈ l -> P x) -> filter P l = l.
Proof.
  induction l as [|x l IH]; intros Hl; [done|]. rewrite filter_cons_True by (apply Hl; by left).
  f_equal. apply IH. intros y Hy. apply Hl. by right.
Qed.

Lemma NoDup_fmap_inj_in {A B} (f : A -> B) (l : list A) x y :
  NoDup (f <$> l) -> x ∈ l -> y ∈ l -> f x = f y -> x = y.
Proof.
  induction l as [|z l IH]; intros Hn Hx Hy He; [by apply not_elem_of_nil in Hx|].
  rewrite fmap_cons, NoDup_cons in Hn. destruct Hn as [Hz Hn].
  assert (forall w, w ∈ l -> f w = f z -> False) as Hno by (intros w Hw Hf; apply Hz; rewrite <- Hf; by apply list_elem_of_fmap_2).
  apply elem_of_cons in Hx as [->|Hx], Hy as [->|Hy]; [done|exfalso; by eapply Hno|exfalso; by eapply Hno|by apply IH].
Qed.
