(* ===== verification/Postgres.v ===== *)
(** * Postgres columns

    The column types of [internal/gw/db/migrations] that the gateway's writers
    rely on: integers of two widths, UUIDs and timestamps.  How pgx encodes a
    string for a UUID column is the class [PgTypes]. *)

From Stdlib Require Import Ascii.
From stdpp Require Import base strings numbers list.
From S2P Require Import Prelude.
Local Open Scope string_scope.

(** SMALLINT and INTEGER: a value out of range is not encoded. *)
Definition int2 (z : Z) : bool := ((- 2 ^ 15 <=? z) && (z <? 2 ^ 15))%Z.
Definition int4 (z : Z) : bool := ((- 2 ^ 31 <=? z) && (z <? 2 ^ 31))%Z.

Definition is_hex (c : ascii) : bool :=
  let n := N_of_ascii c in ((48 <=? n) && (n <=? 57) || (97 <=? n) && (n <=? 102))%N.
(** The canonical text of a UUID: 8-4-4-4-12 lower-case digits. *)
Fixpoint uuid_from (i : nat) (s : string) : bool :=
  match s with
  | EmptyString => (i =? 36)%nat
  | String c r =>
      (if (i =? 8)%nat || (i =? 13)%nat || (i =? 18)%nat || (i =? 23)%nat then Ascii.eqb c "-" else is_hex c) &&
      uuid_from (S i) r
  end.
Definition uuid_shape (s : string) : bool := uuid_from 0 s.

(** The UUID a string parameter stands for, as Postgres prints it; [None] when
    it cannot be encoded. *)
Class PgTypes := {
  uuid_text : string -> option string;
  uuid_text_shape s u : uuid_text s = Some u -> uuid_shape u = true;
  uuid_canonical s : uuid_shape s = true -> uuid_text s = Some s;
  uuid_length s : uuid_text s <> None -> String.length s = 32%nat \/ String.length s = 36%nat }.

(** Timestamps in microseconds; [tm] is in nanoseconds. *)
Definition micros (tm : Z) : Z := (tm / 1000)%Z.
(** A timestamp as it is read back, in nanoseconds. *)
Definition pg_time (tm : Z) : Z := (micros tm * 1000)%Z.

Lemma pg_time_le tm : (pg_time tm <= tm < pg_time tm + 1000)%Z.
Proof. unfold pg_time, micros. pose proof (Z.div_mod tm 1000). pose proof (Z.mod_pos_bound tm 1000). lia. Qed.
Lemma pg_time_idemp tm : pg_time (pg_time tm) = pg_time tm.
Proof. unfold pg_time, micros. by rewrite Z.div_mul. Qed.
Lemma pg_time_mono a b : (a <= b)%Z -> (pg_time a <= pg_time b)%Z.
Proof. intros H. unfold pg_time, micros. pose proof (Z.div_le_mono a b 1000). lia. Qed.
(** Going back by whole microseconds commutes with rounding. *)
Lemma pg_time_sub tm age : (age mod 1000 = 0)%Z -> pg_time (tm - age) = (pg_time tm - age)%Z.
Proof.
  intros Ha. apply Z.div_exact in Ha; [|done]. unfold pg_time, micros. rewrite Ha.
  replace (tm - 1000 * (age / 1000))%Z with (tm + (- (age / 1000)) * 1000)%Z by lia. rewrite Z.div_add by done. lia.
Qed.

(** ** A concrete encoding *)

Lemma uuid_from_length i s : uuid_from i s = true -> (i + String.length s = 36)%nat.
Proof.
  revert i. induction s as [|c s IH]; intros i; cbn [uuid_from String.length].
  - intros H%Nat.eqb_eq. lia.
  - intros [_ H]%andb_true_iff. apply IH in H. lia.
Qed.

(** Only the canonical text is accepted. *)
Definition strict_uuid (s : string) : option string := if uuid_shape s then Some s else None.
Lemma strict_uuid_shape s u : strict_uuid s = Some u -> uuid_shape u = true.
Proof. unfold strict_uuid. destruct (uuid_shape s) eqn:Hs; [|done]. by intros [= <-]. Qed.
Lemma strict_uuid_canonical s : uuid_shape s = true -> strict_uuid s = Some s.
Proof. unfold strict_uuid. by intros ->. Qed.
Lemma strict_uuid_length s : strict_uuid s <> None -> String.length s = 32%nat \/ String.length s = 36%nat.
Proof. unfold strict_uuid. destruct (uuid_shape s) eqn:Hs; [|done]. intros _. right. by apply uuid_from_length in Hs. Qed.
Definition strict_types : PgTypes :=
  {| uuid_text := strict_uuid; uuid_text_shape := strict_uuid_shape; uuid_canonical := strict_uuid_canonical;
     uuid_length := strict_uuid_length |}.

Definition sample_trace : string := "018f0000-0000-7000-8000-000000000000".
