(* ===== verification/GoData.v ===== *)
(** * Dynamic values and IEEE 754 doubles

    Two pieces of the Go language the data model needs: [any] (values decoded
    from YAML or JSON into an interface) and [float64].  Doubles are the
    executable IEEE 754 operations of [SpecFloat] at precision 53 and maximal
    exponent 1024, with rounding to nearest even, which is what the Go
    specification prescribes for [float64]. *)

From Stdlib Require Import SpecFloat.
From S2P Require Import Prelude.
From stdpp Require Import sorting base gmap strings fin_maps numbers list.

(** ** float64 *)

Abbreviation float64 := spec_float.
Definition prec64 : Z := 53.
Definition emax64 : Z := 1024.

Definition f64_mul : float64 -> float64 -> float64 := SFmul prec64 emax64.
Definition f64_div : float64 -> float64 -> float64 := SFdiv prec64 emax64.
Definition f64_add : float64 -> float64 -> float64 := SFadd prec64 emax64.
(** [x < y]; comparisons with a NaN are false. *)
Definition f64_lt : float64 -> float64 -> bool := SFltb.

(** The conversion [float64(n)] of an integer: round to nearest even. *)
Definition f64_of_int (n : Z) : float64 := binary_normalize prec64 emax64 n 0 false.

Definition f64_zero : float64 := S754_zero false.

(** The integer part of a finite double, rounded towards zero. *)
Definition f64_trunc (x : float64) : option Z :=
  match x with
  | S754_zero _ => Some 0%Z
  | S754_finite s m e =>
      let a := match e with
               | Z0 => Zpos m
               | Zpos _ => (Zpos m * 2 ^ e)%Z
               | Zneg _ => (Zpos m / 2 ^ (- e))%Z
               end in
      Some (if s then (- a)%Z else a)
  | _ => None
  end.

(** ** any *)

Inductive any : Type :=
| ANil
| ABool (b : bool)
| AInt (z : Z)
| AFloat (f : float64)
| AString (s : string)
| AList (l : list any)
| AMap (m : list (string * any)).

(** ** Sign facts

    Products, quotients and sums of doubles that are not negative are not
    negative, and a value that is not negative truncates to a natural number.
    A double is [nonneg] when it is a zero, a positive finite number or
    [+Inf]; a NaN is not. *)

Definition nonneg (x : float64) : Prop :=
  match x with
  | S754_zero _ => True
  | S754_finite s _ _ => s = false
  | S754_infinity s => s = false
  | S754_nan => False
  end.

Definition finite (x : float64) : Prop :=
  match x with S754_zero _ | S754_finite _ _ _ => True | _ => False end.

(** Right shifts and rounding never make a natural significand negative. *)
Lemma shr_1_nonneg mrs : (0 <= shr_m mrs)%Z -> (0 <= shr_m (shr_1 mrs))%Z.
Proof. destruct mrs as [[|[p|p|]|p] r s]; cbn; lia. Qed.

Lemma shr_nonneg mrs e n : (0 <= shr_m mrs)%Z -> (0 <= shr_m (fst (shr mrs e n)))%Z.
Proof.
  intros H. destruct n as [|p|p]; cbn [shr fst]; [done| |done].
  revert mrs H. induction p as [p IH|p IH|]; intros mrs H; cbn [SpecFloat.iter_pos];
    auto using shr_1_nonneg.
Qed.

Lemma shr_fexp_nonneg m e l : (0 <= m)%Z -> (0 <= shr_m (fst (shr_fexp prec64 emax64 m e l)))%Z.
Proof. intros H. apply shr_nonneg. destruct l as [|[]]; exact H. Qed.

Lemma round_nearest_even_nonneg m l : (0 <= m)%Z -> (0 <= round_nearest_even m l)%Z.
Proof. intros. destruct l as [|[]]; cbn; [lia|destruct (Z.even m); lia|lia|lia]. Qed.

Lemma binary_round_aux_nonneg mx ex lx :
  (0 <= mx)%Z -> nonneg (binary_round_aux prec64 emax64 false mx ex lx).
Proof.
  intros Hm. unfold binary_round_aux.
  pose proof (shr_fexp_nonneg mx ex lx Hm) as H1.
  destruct (shr_fexp _ _ mx ex lx) as [mrs' e']; cbn [fst] in H1.
  pose proof (shr_fexp_nonneg _ e' loc_Exact
    (round_nearest_even_nonneg _ (loc_of_shr_record mrs') H1)) as H2.
  destruct (shr_fexp _ _ _ e' _) as [mrs'' e'']; cbn [fst] in H2.
  destruct (shr_m mrs'') as [|p|p]; [done| |lia]. by destruct (e'' <=? _)%Z.
Qed.

Lemma binary_normalize_nonneg m e :
  (0 <= m)%Z -> nonneg (binary_normalize prec64 emax64 m e false).
Proof.
  intros Hm. destruct m as [|p|p]; cbn; [done| |lia].
  unfold binary_round. destruct (shl_align _ _ _) as [mz ez]. by apply binary_round_aux_nonneg.
Qed.

Lemma f64_of_int_nonneg n : (0 <= n)%Z -> nonneg (f64_of_int n).
Proof. apply binary_normalize_nonneg. Qed.

(** A product is not negative unless it is the invalid [0 * Inf]. *)
Lemma f64_mul_nonneg x y :
  nonneg x -> nonneg y -> finite x -> finite y -> nonneg (f64_mul x y).
Proof.
  destruct x, y; cbn; try done; intros -> -> _ _. by apply binary_round_aux_nonneg.
Qed.

Lemma SFdiv_core_nonneg m1 e1 m2 e2 q e l :
  SFdiv_core_binary prec64 emax64 (Zpos m1) e1 (Zpos m2) e2 = (q, e, l) -> (0 <= q)%Z.
Proof.
  unfold SFdiv_core_binary. set (s := (e1 - e2 - _)%Z).
  assert (0 <= match s with 0 => Zpos m1 | Zpos _ => Z.shiftl (Zpos m1) s | Zneg _ => 0 end)%Z
    as Hm.
  { destruct s; [lia| |lia]. by apply Z.shiftl_nonneg. }
  revert Hm. generalize (match s with 0%Z => Zpos m1 | Zpos _ => Z.shiftl (Zpos m1) s
                          | Zneg _ => 0%Z end). intros m' Hm.
  destruct (Z.div_eucl m' (Zpos m2)) as [q' r] eqn:Hd. intros [= <- _ _].
  assert (q' = m' / Zpos m2)%Z as -> by (unfold Z.div; by rewrite Hd).
  apply Z.div_pos; lia.
Qed.

Lemma f64_div_nonneg x m e :
  nonneg x -> nonneg (f64_div x (S754_finite false m e)).
Proof.
  destruct x as [s|s| |s mx ex]; cbn; try done; [by intros ->|]. intros ->.
  unfold f64_div, SFdiv. destruct (SFdiv_core_binary _ _ _ _ _ _) as [[q e'] l] eqn:Hd.
  apply binary_round_aux_nonneg. by eapply SFdiv_core_nonneg.
Qed.

Lemma f64_add_nonneg x y : nonneg x -> nonneg y -> nonneg (f64_add x y).
Proof.
  destruct x as [[]|[]| |[] mx ex], y as [[]|[]| |[] my ey]; cbn; try done.
  intros _ _. by apply binary_normalize_nonneg.
Qed.

Lemma f64_trunc_nonneg x z : nonneg x -> f64_trunc x = Some z -> (0 <= z)%Z.
Proof.
  destruct x as [s|s| |s m e]; cbn; try done; [intros _ [= <-]; lia|].
  intros -> [= <-]. destruct e as [|p|p]; [lia| |].
  - apply Z.mul_nonneg_nonneg; [lia|]. by apply Z.pow_nonneg.
  - apply Z.div_pos; [lia|]. by apply Z.pow_pos_nonneg.
Qed.

Lemma f64_lt_zero_nonneg x : x <> S754_nan -> f64_lt x f64_zero = false -> nonneg x.
Proof. destruct x as [[]|[]| |[] m e]; cbn; done. Qed.
