(* ===== verification/Config.v ===== *)
(** * Gateway configuration: data model and validators

    [internal/gw/config]: the records of [types.go] and the validators of
    [pools.go], [pricing.go], [policy.go] and [identity.go].  A Go map is a
    [gmap]; a [range] over a map visits its entries in an unspecified order,
    so every function with such a loop takes the visiting order as an extra
    list argument, and the theorems quantify over all of them ([ranges]). *)

From S2P Require Import Prelude GoData.
From stdpp Require Import sorting base gmap strings fin_maps numbers list.
Local Open Scope string_scope.

(** ** types.go *)

Record EndpointSupports := { Streaming : bool }.

Record ProviderEndpoint := {
  ep_Wire : string;
  ep_Vendor : string;
  ep_URL : string;
  ep_DataResidency : string;
  ep_TrustTier : string;
  ep_Deployments : list string;
  ep_Supports : EndpointSupports;
  ep_KeyRef : string }.

Record EndpointWithKey := { ewk_Endpoint : ProviderEndpoint; ResolvedKey : string }.

Record ModelCapabilities := {
  cap_Tools : bool;
  cap_CacheControl : bool;
  cap_ExtendedThinking : bool;
  cap_Vision : bool }.

Record PoolMember := { pm_EndpointID : string; pm_Model : string; pm_Weight : Z }.

Record Pool := {
  Members : list PoolMember;
  FallbackPool : string;
  MaxAttempts : Z;
  TimeoutMs : Z }.

Record PoolsConfig := {
  ProviderEndpoints : gmap string ProviderEndpoint;
  Pools : gmap string Pool }.

Record DegradationConfig := { AllowedCapabilities : list string }.

Record ActionSpec := { as_Action : string; as_ModelPool : string; as_Reasons : list string }.

Record Defaults := { OnNoMatch : ActionSpec }.

Record PolicyRule := {
  rule_ID : string;
  rule_Description : string;
  rule_Priority : Z;
  rule_When : string;
  rule_Action : string;
  rule_ModelPool : string;
  rule_Reasons : list string }.

Record PolicyConfig := {
  Version : string;
  pol_Defaults : Defaults;
  Degradation : DegradationConfig;
  Rules : list PolicyRule;
  Variables : list (string * any) }.

Record ModelPricing := {
  mp_Vendor : string;
  mp_Model : string;
  mp_Currency : string;
  InputPricePer1KTokens : float64;
  OutputPricePer1KTokens : float64;
  CacheReadPricePer1KTokens : option float64;
  CacheCreatePricePer1KTokens : option float64;
  Capabilities : ModelCapabilities }.

Record PricingConfig := { Models : list ModelPricing }.

Record UserIdentity := { user_UserID : string; user_TeamID : string; user_Role : string;
                         user_APIKeyHash : string }.
Record TeamIdentity := { team_TeamID : string; team_Name : string;
                         team_BudgetMonthlyCapCents : Z }.
Record RepoIdentity := { repo_RepoID : string; repo_RemoteURL : string;
                         repo_DefaultTeamID : string; repo_Restricted : bool }.

Record IdentityConfig := {
  Users : list UserIdentity;
  Teams : list TeamIdentity;
  Repos : list RepoIdentity }.

(** The bundle [config.Config]. *)
Record Config := {
  cfg_Pools : PoolsConfig;
  cfg_Policy : PolicyConfig;
  cfg_Pricing : PricingConfig;
  cfg_Identity : IdentityConfig;
  cfg_ResolvedEndpoints : gmap string EndpointWithKey }.

(** One iteration order of a map: each entry exactly once. *)
Definition ranges {V} (l : list (string * V)) (m : gmap string V) : Prop := l ≡ₚ map_to_list m.

Lemma ranges_elem {V} l (m : gmap string V) k v :
  ranges l m -> (k, v) ∈ l <-> m !! k = Some v.
Proof. intros Hl. unfold ranges in Hl. by rewrite Hl, elem_of_map_to_list. Qed.

Lemma ranges_refl {V} (m : gmap string V) : ranges (map_to_list m) m.
Proof. unfold ranges. reflexivity. Qed.

(** ** CEL

    cel-go is not part of this repository.  [compileCEL] (policy.go) and the
    engine use an environment with fixed variables, compile an expression to
    an AST, plan it to a program and evaluate the program on variable
    bindings; an evaluation yields a value, an error or a panic. *)

Inductive celResult := CelValue (v : any) | CelError | CelPanic.

Class CEL := {
  Ast : Type;
  Program : Type;
  celNewEnv : bool;                       (** the environment was created *)
  celCompile : string -> option Ast;
  celProgram : Ast -> option Program;
  celEval : Program -> list (string * any) -> celResult }.

(** ** pools.go *)

Inductive PoolsError :=
| EmptyRegistry
| PoolNoMembers (pool : string)
| MemberUnknownEndpoint (pool : string) (i : nat) (endpoint : string)
| MemberWeight (pool : string) (i : nat) (weight : Z)
| PoolTimeout (pool : string)
| PoolMaxAttempts (pool : string).

Definition validate_member (c : PoolsConfig) (poolName : string) (i : nat) (m : PoolMember)
    : outcome PoolsError unit :=
  match ProviderEndpoints c !! pm_EndpointID m with
  | None => Err (MemberUnknownEndpoint poolName i (pm_EndpointID m))
  | Some _ => reject (pm_Weight m <=? 0)%Z (MemberWeight poolName i (pm_Weight m))
  end.

Definition validate_pool (c : PoolsConfig) (np : string * Pool) : outcome PoolsError unit :=
  let '(poolName, pool) := np in
  reject (bool_decide (Members pool = [])) (PoolNoMembers poolName) ≫= fun _ =>
  forM_i 0 (validate_member c poolName) (Members pool) ≫= fun _ =>
  reject (TimeoutMs pool <=? 0)%Z (PoolTimeout poolName) ≫= fun _ =>
  reject (MaxAttempts pool <=? 0)%Z (PoolMaxAttempts poolName).

(** [(c *PoolsConfig) Validate] *)
Definition PoolsConfig_Validate (order : list (string * Pool)) (c : PoolsConfig)
    : outcome PoolsError unit :=
  reject (bool_decide (ProviderEndpoints c = ∅)) EmptyRegistry ≫= fun _ =>
  forM (validate_pool c) order.

(** ** identity.go *)

Inductive IdentityError :=
| UserMissingID
| UserMissingRole (user : string)
| UserUnknownTeam (user team : string)
| RepoMissingID.

(** [(c *IdentityConfig) Validate] *)
Definition IdentityConfig_Validate (c : IdentityConfig) : outcome IdentityError unit :=
  let teamIDs : gset string := list_to_set (team_TeamID <$> Teams c) in
  forM (fun u =>
    reject (is_empty (user_UserID u)) UserMissingID ≫= fun _ =>
    reject (is_empty (user_Role u)) (UserMissingRole (user_UserID u)) ≫= fun _ =>
    reject (negb (is_empty (user_TeamID u)) && negb (bool_decide (user_TeamID u ∈ teamIDs)))
           (UserUnknownTeam (user_UserID u) (user_TeamID u))) (Users c) ≫= fun _ =>
  forM (fun r => reject (is_empty (repo_RepoID r)) RepoMissingID) (Repos c).

(** ** pricing.go *)

Inductive PricingError :=
| NoModels
| ModelVendorRequired (i : nat)
| ModelNameRequired (i : nat)
| ModelNegativePrice (i : nat) (vendor model : string)
| ModelCurrency (i : nat) (vendor model : string)
| ModelCacheReadRequired (i : nat) (vendor model : string)
| ModelCacheCreateRequired (i : nat) (vendor model : string)
| ModelCacheReadNegative (i : nat) (vendor model : string)
| ModelCacheCreateNegative (i : nat) (vendor model : string)
| ModelDuplicate (i : nat) (vendor model : string) (first : nat).

(** [m.Vendor + ":" + m.Model] *)
Definition priceKey (vendor model : string) : string := vendor +:+ (":" +:+ model).

Definition is_nil {A} (o : option A) : bool := match o with None => true | Some _ => false end.

(** [p != nil && *p < 0] *)
Definition neg_price (p : option float64) : bool :=
  match p with None => false | Some x => f64_lt x f64_zero end.

(** The per-row checks of the loop body, before the uniqueness test. *)
Definition validate_row (i : nat) (m : ModelPricing) : outcome PricingError unit :=
  let v := mp_Vendor m in
  let n := mp_Model m in
  reject (is_empty v) (ModelVendorRequired i) ≫= fun _ =>
  reject (is_empty n) (ModelNameRequired i) ≫= fun _ =>
  reject (f64_lt (InputPricePer1KTokens m) f64_zero
          || f64_lt (OutputPricePer1KTokens m) f64_zero) (ModelNegativePrice i v n) ≫= fun _ =>
  reject (negb (is_empty (mp_Currency m)) && negb (String.length (mp_Currency m) =? 3)%nat)
         (ModelCurrency i v n) ≫= fun _ =>
  reject (cap_CacheControl (Capabilities m) && is_nil (CacheReadPricePer1KTokens m))
         (ModelCacheReadRequired i v n) ≫= fun _ =>
  reject (cap_CacheControl (Capabilities m) && is_nil (CacheCreatePricePer1KTokens m))
         (ModelCacheCreateRequired i v n) ≫= fun _ =>
  reject (neg_price (CacheReadPricePer1KTokens m)) (ModelCacheReadNegative i v n) ≫= fun _ =>
  reject (neg_price (CacheCreatePricePer1KTokens m)) (ModelCacheCreateNegative i v n).

Fixpoint validate_models (i : nat) (seen : gmap string nat) (ms : list ModelPricing)
    : outcome PricingError unit :=
  match ms with
  | [] => Ok tt
  | m :: ms =>
      validate_row i m ≫= fun _ =>
      let key := priceKey (mp_Vendor m) (mp_Model m) in
      match seen !! key with
      | Some first => Err (ModelDuplicate i (mp_Vendor m) (mp_Model m) first)
      | None => validate_models (S i) (<[key := i]> seen) ms
      end
  end.

(** [(c *PricingConfig) Validate] *)
Definition PricingConfig_Validate (c : PricingConfig) : outcome PricingError unit :=
  reject (bool_decide (length (Models c) = 0)) NoModels ≫= fun _ =>
  validate_models 0 ∅ (Models c).

(** [(c *PricingConfig) Lookup]: the first row with this vendor and model. *)
Fixpoint Lookup_models (ms : list ModelPricing) (vendor model : string) : option ModelPricing :=
  match ms with
  | [] => None
  | m :: ms =>
      if String.eqb (mp_Vendor m) vendor && String.eqb (mp_Model m) model then Some m
      else Lookup_models ms vendor model
  end.
Definition PricingConfig_Lookup (c : PricingConfig) (vendor model : string)
    : option ModelPricing := Lookup_models (Models c) vendor model.

(** [(c *PricingConfig) DefaultCurrencies] *)
Definition default_currency (m : ModelPricing) : ModelPricing :=
  if is_empty (mp_Currency m) then
    {| mp_Vendor := mp_Vendor m; mp_Model := mp_Model m; mp_Currency := "USD";
       InputPricePer1KTokens := InputPricePer1KTokens m;
       OutputPricePer1KTokens := OutputPricePer1KTokens m;
       CacheReadPricePer1KTokens := CacheReadPricePer1KTokens m;
       CacheCreatePricePer1KTokens := CacheCreatePricePer1KTokens m;
       Capabilities := Capabilities m |}
  else m.
Definition DefaultCurrencies (c : PricingConfig) : PricingConfig :=
  {| Models := default_currency <$> Models c |}.

Inductive EndpointPricingError :=
| VendorUnpriced (endpoint vendor : string)
| NoPricedModel (endpoint vendor : string).

(** The inner loop over one pool's members: stops at the first priced member
    of the endpoint.  Returns (hasAnyMember, hasPricedModel). *)
Fixpoint scan_members (priced : gset string) (endpointID vendor : string)
    (ms : list PoolMember) (hasAny : bool) : bool * bool :=
  match ms with
  | [] => (hasAny, false)
  | m :: ms =>
      if String.eqb (pm_EndpointID m) endpointID then
        if bool_decide (priceKey vendor (pm_Model m) ∈ priced) then (true, true)
        else scan_members priced endpointID vendor ms true
      else scan_members priced endpointID vendor ms hasAny
  end.

Fixpoint scan_pools (priced : gset string) (endpointID vendor : string)
    (ps : list (string * Pool)) (hasAny : bool) : bool * bool :=
  match ps with
  | [] => (hasAny, false)
  | (_, p) :: ps =>
      let '(any', hasPriced) := scan_members priced endpointID vendor (Members p) hasAny in
      if hasPriced then (any', true) else scan_pools priced endpointID vendor ps any'
  end.

(** [ValidateEndpointsAgainstPricing] *)
Definition ValidateEndpointsAgainstPricing
    (epOrder : list (string * ProviderEndpoint)) (poolOrder : list (string * Pool))
    (pricing : PricingConfig) : outcome EndpointPricingError unit :=
  let priced : gset string :=
    list_to_set ((fun mp => priceKey (mp_Vendor mp) (mp_Model mp)) <$> Models pricing) in
  let vendorsInPricing : gset string := list_to_set (mp_Vendor <$> Models pricing) in
  forM (fun '(endpointID, ep) =>
    let '(hasAnyMember, hasPricedModel) :=
      scan_pools priced endpointID (ep_Vendor ep) poolOrder false in
    if negb hasAnyMember then Ok tt
    else
      reject (negb (bool_decide (ep_Vendor ep ∈ vendorsInPricing)))
             (VendorUnpriced endpointID (ep_Vendor ep)) ≫= fun _ =>
      reject (negb hasPricedModel) (NoPricedModel endpointID (ep_Vendor ep))) epOrder.

(** ** policy.go *)

Inductive PolicyError :=
| VersionRequired
| DefaultActionRequired
| DefaultActionNotAllowed (action : string)
| DefaultPoolRequired (action : string)
| NotDegradable (cap : string)
| RuleIDRequired (i : nat)
| RuleIDPrefix (i : nat) (id : string)
| RuleWhenRequired (i : nat) (id : string)
| RuleActionNotAllowed (i : nat) (id action : string)
| RulePoolRequired (i : nat) (id action : string)
| RuleCELCompile (i : nat) (id : string).

(** [validP0Actions] and [validateP0Action] *)
Definition validateP0Action (action : string) : bool :=
  String.eqb action "route" || String.eqb action "allow".

(** [(a ActionSpec) validateModelPoolRequired] *)
Definition validateModelPoolRequired (action modelPool : string) : bool :=
  negb (String.eqb action "route" && is_empty modelPool).

Definition validDegradableCapabilities : list string := ["cache_control"; "extended_thinking"].

(** [(d DegradationConfig) validate] *)
Definition DegradationConfig_validate (d : DegradationConfig) : outcome PolicyError unit :=
  forM (fun cap => reject (negb (bool_decide (cap ∈ validDegradableCapabilities)))
                          (NotDegradable cap)) (AllowedCapabilities d).

Section PolicyValidate.
Context {cel : CEL}.

(** [compileCEL] *)
Definition compileCEL (expr : string) : option Ast :=
  if celNewEnv then celCompile expr else None.

Definition validate_rule (i : nat) (rule : PolicyRule) : outcome PolicyError unit :=
  let id := rule_ID rule in
  reject (is_empty id) (RuleIDRequired i) ≫= fun _ =>
  reject (negb (HasPrefix id "P-")) (RuleIDPrefix i id) ≫= fun _ =>
  reject (is_empty (rule_When rule)) (RuleWhenRequired i id) ≫= fun _ =>
  reject (negb (validateP0Action (rule_Action rule)))
         (RuleActionNotAllowed i id (rule_Action rule)) ≫= fun _ =>
  reject (negb (validateModelPoolRequired (rule_Action rule) (rule_ModelPool rule)))
         (RulePoolRequired i id (rule_Action rule)) ≫= fun _ =>
  reject (is_nil (compileCEL (rule_When rule))) (RuleCELCompile i id).

(** [(c *PolicyConfig) Validate] *)
Definition PolicyConfig_Validate (c : PolicyConfig) : outcome PolicyError unit :=
  let d := OnNoMatch (pol_Defaults c) in
  reject (is_empty (Version c)) VersionRequired ≫= fun _ =>
  reject (is_empty (as_Action d)) DefaultActionRequired ≫= fun _ =>
  reject (negb (validateP0Action (as_Action d))) (DefaultActionNotAllowed (as_Action d)) ≫= fun _ =>
  reject (negb (validateModelPoolRequired (as_Action d) (as_ModelPool d)))
         (DefaultPoolRequired (as_Action d)) ≫= fun _ =>
  DegradationConfig_validate (Degradation c) ≫= fun _ =>
  forM_i 0 validate_rule (Rules c).
End PolicyValidate.

(** The error of [ValidatePolicyAgainstPools] lists the missing pools sorted. *)
Inductive PolicyPoolsError := MissingPools (sorted : list string).

(** A pool the policy routes to and [pools.yaml] does not declare. *)
Definition missing_pool (poolNames : gset string) (action pool : string) : list string :=
  if String.eqb action "route" && negb (is_empty pool) && negb (bool_decide (pool ∈ poolNames))
  then [pool] else [].

(** [ValidatePolicyAgainstPools] *)
Definition ValidatePolicyAgainstPools (policy : PolicyConfig) (pools : PoolsConfig)
    : outcome PolicyPoolsError unit :=
  let poolNames : gset string := dom (Pools pools) in
  let d := OnNoMatch (pol_Defaults policy) in
  let missingPools : gset string :=
    list_to_set (missing_pool poolNames (as_Action d) (as_ModelPool d)
                 ++ (r ← Rules policy; missing_pool poolNames (rule_Action r) (rule_ModelPool r))) in
  if decide (missingPools = ∅) then Ok tt
  else Err (MissingPools (merge_sort String.le (elements missingPools))).

(** ** What validation establishes *)

(** The well-formedness [PoolsConfig.Validate] stands for. *)
Definition wf_member (c : PoolsConfig) (m : PoolMember) : Prop :=
  is_Some (ProviderEndpoints c !! pm_EndpointID m) /\ (0 < pm_Weight m)%Z.
Definition wf_pool (c : PoolsConfig) (p : Pool) : Prop :=
  Members p <> [] /\ Forall (wf_member c) (Members p) /\
  (0 < TimeoutMs p)%Z /\ (0 < MaxAttempts p)%Z.
Definition wf_pools (c : PoolsConfig) : Prop :=
  ProviderEndpoints c <> ∅ /\ map_Forall (fun _ p => wf_pool c p) (Pools c).

(** The well-formedness of one pricing row. *)
Definition wf_row (m : ModelPricing) : Prop :=
  mp_Vendor m <> "" /\ mp_Model m <> "" /\
  f64_lt (InputPricePer1KTokens m) f64_zero = false /\
  f64_lt (OutputPricePer1KTokens m) f64_zero = false /\
  (mp_Currency m = "" \/ String.length (mp_Currency m) = 3) /\
  (cap_CacheControl (Capabilities m) = true ->
     is_Some (CacheReadPricePer1KTokens m) /\ is_Some (CacheCreatePricePer1KTokens m)) /\
  neg_price (CacheReadPricePer1KTokens m) = false /\
  neg_price (CacheCreatePricePer1KTokens m) = false.
Definition rowKey (m : ModelPricing) : string := priceKey (mp_Vendor m) (mp_Model m).
Definition wf_pricing (c : PricingConfig) : Prop :=
  Models c <> [] /\ Forall wf_row (Models c) /\ NoDup (rowKey <$> Models c).

Lemma validate_member_ok c n i m u : validate_member c n i m = Ok u <-> wf_member c m.
Proof.
  unfold validate_member, wf_member. destruct (ProviderEndpoints c !! _).
  - rewrite reject_ok, Z.leb_gt. naive_solver.
  - split; [done|]. by intros [[? [=]] _].
Qed.

Lemma validate_pool_ok c n p u : validate_pool c (n, p) = Ok u <-> wf_pool c p.
Proof.
  unfold validate_pool, wf_pool.
  rewrite !bind_unit_ok, !reject_ok, bool_decide_eq_false, Forall_lookup, forM_i_ok, !Z.leb_gt.
  setoid_rewrite validate_member_ok. done.
Qed.

Lemma PoolsConfig_Validate_wf order c :
  ranges order (Pools c) -> PoolsConfig_Validate order c = Ok tt <-> wf_pools c.
Proof.
  intros Ho. unfold PoolsConfig_Validate, wf_pools, map_Forall.
  rewrite bind_reject_ok, bool_decide_eq_false, forM_ok, list.Forall_forall.
  apply and_iff_compat_l. split.
  - intros H n p Hn. eapply validate_pool_ok, (H (n, p)). by eapply ranges_elem.
  - intros H [n p] Hn. eapply validate_pool_ok, (H n). by eapply ranges_elem.
Qed.

Lemma validate_row_ok i m u : validate_row i m = Ok u <-> wf_row m.
Proof.
  unfold validate_row, wf_row. rewrite !bind_reject_ok, reject_ok, orb_false_iff, !is_empty_false.
  rewrite !andb_false_iff, !negb_false_iff, is_empty_true, Nat.eqb_eq.
  destruct (CacheReadPricePer1KTokens m), (CacheCreatePricePer1KTokens m),
    (cap_CacheControl (Capabilities m)); cbn;
    rewrite ?is_Some_alt; split; intuition (try done).
Qed.

Lemma validate_models_ok i seen ms :
  validate_models i seen ms = Ok tt <->
  Forall wf_row ms /\ NoDup (rowKey <$> ms) /\ (forall m, m ∈ ms -> seen !! rowKey m = None).
Proof.
  revert i seen. induction ms as [|m ms IH]; intros i seen; cbn [validate_models fmap list_fmap].
  { split; [intros _|done]. repeat split; [constructor..|]. intros m. by rewrite elem_of_nil. }
  rewrite bind_unit_ok, list.Forall_cons, list.NoDup_cons, validate_row_ok.
  change (priceKey _ _) with (rowKey m). destruct (seen !! rowKey m) eqn:Hm.
  - split; [by intros [_ [=]]|]. intros (_ & _ & H). specialize (H m). rewrite Hm in H.
    discriminate H. by constructor.
  - rewrite (IH (S i)). split.
    + intros (Hm1 & Hms & Hnd & Hs). split_and!; [done|done| |done|].
      * rewrite list_elem_of_fmap. intros (m' & Hk & Hin). specialize (Hs m' Hin).
        rewrite Hk, lookup_insert_eq in Hs. done.
      * intros m' [->|Hin]%elem_of_cons; [done|]. specialize (Hs m' Hin).
        by apply lookup_insert_None in Hs as [? _].
    + intros ((Hm1 & Hms) & (Hni & Hnd) & Hs). split_and!; [done|done|done|].
      intros m' Hin. apply lookup_insert_None. split; [apply Hs; by constructor|].
      intros Hk. apply Hni, list_elem_of_fmap. by exists m'.
Qed.

Lemma PricingConfig_Validate_wf c : PricingConfig_Validate c = Ok tt <-> wf_pricing c.
Proof.
  unfold PricingConfig_Validate, wf_pricing.
  rewrite bind_reject_ok, bool_decide_eq_false, length_zero_iff_nil, validate_models_ok.
  setoid_rewrite lookup_empty. naive_solver.
Qed.

Lemma Lookup_models_elem ms v n m :
  Lookup_models ms v n = Some m -> m ∈ ms /\ mp_Vendor m = v /\ mp_Model m = n.
Proof.
  induction ms as [|m' ms IH]; cbn; [done|].
  destruct (String.eqb _ v) eqn:Hv, (String.eqb _ n) eqn:Hn; cbn;
    try (intros H; destruct (IH H) as (? & ? & ?); split_and!; [by constructor|done..]).
  intros [= <-]. apply String.eqb_eq in Hv, Hn. split_and!; [by constructor|done..].
Qed.

Lemma Lookup_models_None ms v n :
  Lookup_models ms v n = None <-> (forall m, m ∈ ms -> ~ (mp_Vendor m = v /\ mp_Model m = n)).
Proof.
  induction ms as [|m' ms IH]; cbn.
  { split; [|done]. intros _ m. by rewrite elem_of_nil. }
  destruct (String.eqb_spec (mp_Vendor m') v), (String.eqb_spec (mp_Model m') n); cbn.
  { split; [done|]. intros H. destruct (H m'); [by constructor|done]. }
  all: rewrite IH; split; [|intros H m Hm; apply H; by constructor];
    intros H m [->|Hm]%elem_of_cons; [tauto|by apply H].
Qed.

(** After validation the pricing table is a function of (vendor, model). *)
Lemma Lookup_row c m :
  wf_pricing c -> m ∈ Models c -> PricingConfig_Lookup c (mp_Vendor m) (mp_Model m) = Some m.
Proof.
  intros (_ & _ & Hnd) Hm. unfold PricingConfig_Lookup.
  destruct (Lookup_models (Models c) (mp_Vendor m) (mp_Model m)) as [m'|] eqn:Hl.
  - apply Lookup_models_elem in Hl as (Hm' & Hv & Hn). f_equal.
    apply list_elem_of_lookup in Hm as [i Hi], Hm' as [j Hj].
    assert (i = j) as ->.
    { eapply (NoDup_lookup _ i j (rowKey m)); [done| |]; rewrite list_lookup_fmap.
      - by rewrite Hi.
      - rewrite Hj. cbn. unfold rowKey. by rewrite Hv, Hn. }
    congruence.
  - rewrite Lookup_models_None in Hl. by destruct (Hl m Hm).
Qed.

(** The nested scan of [ValidateEndpointsAgainstPricing], without the early
    exits: does the endpoint serve any pool member, and a priced one? *)
Definition serves (endpointID : string) (ps : list (string * Pool)) (P : PoolMember -> Prop) : Prop :=
  exists n p m, (n, p) ∈ ps /\ m ∈ Members p /\ pm_EndpointID m = endpointID /\ P m.

Lemma serves_nil id P : ~ serves id [] P.
Proof. intros (n & p & m & Hin & _). by apply elem_of_nil in Hin. Qed.

Lemma serves_cons id n p ps P :
  serves id ((n, p) :: ps) P <->
  (exists m, m ∈ Members p /\ pm_EndpointID m = id /\ P m) \/ serves id ps P.
Proof.
  unfold serves. split.
  - intros (n' & p' & m & [[= -> ->]|Hin]%elem_of_cons & H); [left|right]; naive_solver.
  - intros [(m & H)|(n' & p' & m & Hin & H)].
    + exists n, p, m. split; [by constructor|done].
    + exists n', p', m. split; [by constructor|done].
Qed.

Lemma scan_members_spec priced id v ms any0 b1 b2 :
  scan_members priced id v ms any0 = (b1, b2) ->
  (b2 = true <-> exists m, m ∈ ms /\ pm_EndpointID m = id /\ priceKey v (pm_Model m) ∈ priced) /\
  (b1 = true <-> any0 = true \/ exists m, m ∈ ms /\ pm_EndpointID m = id).
Proof.
  revert any0. induction ms as [|m ms IH]; intros any0; cbn [scan_members].
  { intros [= <- <-]. setoid_rewrite elem_of_nil. naive_solver. }
  setoid_rewrite elem_of_cons.
  destruct (String.eqb_spec (pm_EndpointID m) id) as [Hid|Hid]; [case_bool_decide as Hp|].
  - intros [= <- <-]. split; (split; [intros _|done]); naive_solver.
  - intros [H1 H2]%IH. rewrite H1, H2. split; [naive_solver|]. split; naive_solver.
  - intros [H1 H2]%IH. rewrite H1, H2. naive_solver.
Qed.

Lemma scan_pools_spec priced id v ps any0 b1 b2 :
  scan_pools priced id v ps any0 = (b1, b2) ->
  (b2 = true <-> serves id ps (fun m => priceKey v (pm_Model m) ∈ priced)) /\
  (b1 = true <-> any0 = true \/ serves id ps (fun _ => True)).
Proof.
  revert any0. induction ps as [|[n p] ps IH]; intros any0; cbn [scan_pools].
  { intros [= <- <-]. split; split; try done; try tauto.
    - by intros ?%serves_nil.
    - by intros [?| ?%serves_nil]. }
  destruct (scan_members _ _ _ _ _) as [a1 a2] eqn:Hs.
  apply scan_members_spec in Hs as [Hp Ha]. rewrite !serves_cons. destruct a2.
  - intros [= <- <-]. destruct Hp as [Hp _]. destruct Hp as (m & ? & ? & ?); [done|].
    split; [split; [|done]; intros _; left; eauto|].
    rewrite Ha. split; [intros [?|(m' & ? & ?)]; [by left|right; left; eauto]|].
    intros _. right. eauto.
  - intros [H1 H2]%IH. rewrite H1, H2, Ha. clear H1 H2 Ha IH. split.
    + split; [by right|]. intros [(m & H)|H]; [|done]. exfalso.
      destruct Hp as [_ Hp]. discriminate Hp. by exists m.
    + split.
      * intros [[?|(m & ? & ?)]|?]; [by left|right; left; eauto|by right; right].
      * intros [?|[(m & ? & ? & _)|?]]; [by do 2 left|left; right; eauto|by right].
Qed.

(** The endpoints of [pools] that serve at least one member are priced. *)
Definition wf_endpoint_pricing (pools : PoolsConfig) (pricing : PricingConfig) : Prop :=
  forall id ep, ProviderEndpoints pools !! id = Some ep ->
  serves id (map_to_list (Pools pools)) (fun _ => True) ->
  ep_Vendor ep ∈ (mp_Vendor <$> Models pricing) /\
  serves id (map_to_list (Pools pools))
    (fun m => priceKey (ep_Vendor ep) (pm_Model m) ∈ (rowKey <$> Models pricing)).

Lemma serves_ranges id ps pools P :
  ranges ps (Pools pools) -> serves id ps P <-> serves id (map_to_list (Pools pools)) P.
Proof. intros Hr. unfold serves. by setoid_rewrite Hr. Qed.

Lemma ValidateEndpointsAgainstPricing_wf epOrder poolOrder pools pricing :
  ranges epOrder (ProviderEndpoints pools) -> ranges poolOrder (Pools pools) ->
  ValidateEndpointsAgainstPricing epOrder poolOrder pricing = Ok tt <->
  wf_endpoint_pricing pools pricing.
Proof.
  intros He Hp. unfold ValidateEndpointsAgainstPricing. rewrite forM_ok, list.Forall_forall.
  assert (forall id ep,
    (let '(hasAny, hasPriced) := scan_pools (list_to_set (rowKey <$> Models pricing)) id
       (ep_Vendor ep) poolOrder false in
     if negb hasAny then Ok tt
     else reject (negb (bool_decide (ep_Vendor ep ∈@{gset string} list_to_set (mp_Vendor <$> Models pricing))))
            (VendorUnpriced id (ep_Vendor ep)) ≫= fun _ =>
          reject (negb hasPriced) (NoPricedModel id (ep_Vendor ep))) = Ok tt <->
    (serves id (map_to_list (Pools pools)) (fun _ => True) ->
     ep_Vendor ep ∈ (mp_Vendor <$> Models pricing) /\
     serves id (map_to_list (Pools pools))
       (fun m => priceKey (ep_Vendor ep) (pm_Model m) ∈ (rowKey <$> Models pricing)))) as Hone.
  { intros id ep. destruct (scan_pools _ _ _ _ _) as [b1 b2] eqn:Hs.
    apply scan_pools_spec in Hs as [H2 H1].
    rewrite (serves_ranges _ _ _ _ Hp) in H1. rewrite (serves_ranges _ _ _ _ Hp) in H2.
    assert (b2 = true <-> serves id (map_to_list (Pools pools))
       (fun m => priceKey (ep_Vendor ep) (pm_Model m) ∈ (rowKey <$> Models pricing))) as H2'.
    { rewrite H2. unfold serves. by setoid_rewrite elem_of_list_to_set. }
    clear H2. destruct b1; cbn.
    - rewrite bind_unit_ok, !reject_ok, !negb_false_iff, bool_decide_eq_true, elem_of_list_to_set, H2'.
      split; [done|]. intros H. apply H. by destruct H1 as [[] _].
    - split; [|done]. intros _ Hs. destruct H1 as [_ H1]. discriminate H1. by right. }
  split.
  - intros H id ep Hep. apply Hone, (H (id, ep)). by eapply ranges_elem.
  - intros H [id ep] Hep. apply Hone, H. by eapply ranges_elem.
Qed.

(** Every pool a [route] action of the policy names is declared. *)
Definition declared (pools : PoolsConfig) (action pool : string) : Prop :=
  action = "route" -> pool <> "" -> is_Some (Pools pools !! pool).

Definition policy_targets (policy : PolicyConfig) : list (string * string) :=
  let d := OnNoMatch (pol_Defaults policy) in
  (as_Action d, as_ModelPool d) :: ((fun r => (rule_Action r, rule_ModelPool r)) <$> Rules policy).

Definition wf_policy_pools (policy : PolicyConfig) (pools : PoolsConfig) : Prop :=
  Forall (fun '(a, p) => declared pools a p) (policy_targets policy).

Lemma elem_of_missing_pool names a p x :
  x ∈ missing_pool names a p <-> x = p /\ a = "route" /\ p <> "" /\ p ∉ names.
Proof.
  unfold missing_pool. rewrite <- is_empty_false.
  destruct (String.eqb_spec a "route"), (is_empty p); cbn; try case_bool_decide; cbn;
    rewrite ?elem_of_nil, ?list_elem_of_singleton; naive_solver.
Qed.

(** The set of undeclared route targets. *)
Definition missing (policy : PolicyConfig) (pools : PoolsConfig) : gset string :=
  list_to_set (policy_targets policy ≫= fun '(a, p) => missing_pool (dom (Pools pools)) a p).

Lemma elem_of_missing policy pools x :
  x ∈ missing policy pools <->
  ("route", x) ∈ policy_targets policy /\ x <> "" /\ Pools pools !! x = None.
Proof.
  unfold missing. rewrite elem_of_list_to_set, list_elem_of_bind. split.
  - intros ([a p] & (-> & -> & Hp & Hd)%elem_of_missing_pool & Hin).
    by rewrite <- not_elem_of_dom.
  - intros (Hin & Hp & Hd). exists ("route", x). split; [|done].
    apply elem_of_missing_pool. by rewrite not_elem_of_dom.
Qed.

Lemma ValidatePolicyAgainstPools_missing policy pools :
  ValidatePolicyAgainstPools policy pools =
  if decide (missing policy pools = ∅) then Ok tt
  else Err (MissingPools (merge_sort String.le (elements (missing policy pools)))).
Proof.
  unfold ValidatePolicyAgainstPools, missing, policy_targets. cbn [mbind list_bind].
  assert (((fun r => (rule_Action r, rule_ModelPool r)) <$> Rules policy)
            ≫= (fun '(a, p) => missing_pool (dom (Pools pools)) a p)
          = Rules policy ≫= fun r => missing_pool (dom (Pools pools)) (rule_Action r) (rule_ModelPool r))
    as ->; [|done].
  induction (Rules policy) as [|r rs IH]; [done|]. cbn. by rewrite IH.
Qed.

Lemma ValidatePolicyAgainstPools_wf policy pools :
  ValidatePolicyAgainstPools policy pools = Ok tt <-> wf_policy_pools policy pools.
Proof.
  rewrite ValidatePolicyAgainstPools_missing. unfold wf_policy_pools, declared.
  rewrite list.Forall_forall. case_decide as Hm.
  - split; [intros _|done]. intros [a p] Hin -> Hp. destruct (Pools pools !! p) eqn:Hl; [done|].
    assert (p ∈ missing policy pools) as H by (by apply elem_of_missing). rewrite Hm in H. by apply not_elem_of_empty in H.
  - split; [done|]. intros H. destruct Hm. apply set_eq. intros x.
    rewrite elem_of_missing, elem_of_empty. split; [|done]. intros (Hin & Hx & Hn).
    destruct (H _ Hin eq_refl Hx) as [? Hs]. congruence.
Qed.

Lemma validate_rule_ok `{CEL} i r u :
  validate_rule i r = Ok u ->
  (rule_Action r = "route" /\ rule_ModelPool r <> "" \/ rule_Action r = "allow") /\
  is_Some (compileCEL (rule_When r)).
Proof.
  unfold validate_rule. rewrite !bind_reject_ok, reject_ok, !negb_false_iff.
  unfold validateP0Action, validateModelPoolRequired.
  rewrite orb_true_iff, negb_true_iff, andb_false_iff, !is_empty_false, !String.eqb_eq.
  intros (_ & _ & _ & Ha & Hp & Hc). split; [|destruct (compileCEL _); [by eexists|done]].
  destruct Ha as [Ha|Ha]; [left|by right]. split; [done|]. destruct Hp as [Hp|Hp]; [|done].
  by rewrite Ha in Hp.
Qed.

Lemma PolicyConfig_Validate_rules `{CEL} c :
  PolicyConfig_Validate c = Ok tt ->
  Forall (fun r => (rule_Action r = "route" /\ rule_ModelPool r <> "" \/ rule_Action r = "allow") /\
                   is_Some (compileCEL (rule_When r))) (Rules c).
Proof.
  unfold PolicyConfig_Validate. rewrite !bind_reject_ok, bind_unit_ok, forM_i_ok.
  intros (_ & _ & _ & _ & _ & Hr). apply Forall_lookup. intros i r Hi.
  by eapply validate_rule_ok, Hr.
Qed.

(** ** Properties *)

(** C39: [PoolsConfig.Validate] accepts a pools file exactly when it is well
    formed: a non-empty registry, and every pool has members, each member's
    endpoint is registered and its weight positive, and the timeout and the
    attempt bound are positive.  Acceptance does not depend on the order in
    which Go iterates over the pools map. *)
Theorem pools_validate_exact c order :
  ranges order (Pools c) -> (PoolsConfig_Validate order c = Ok tt <-> wf_pools c).
Proof. apply PoolsConfig_Validate_wf. Qed.

Definition sample_endpoint : ProviderEndpoint :=
  {| ep_Wire := "anthropic"; ep_Vendor := "anthropic"; ep_URL := "https://api.anthropic.com";
     ep_DataResidency := "us"; ep_TrustTier := "vendor"; ep_Deployments := [];
     ep_Supports := {| Streaming := true |}; ep_KeyRef := "" |}.
Definition sample_pool : Pool :=
  {| Members := [{| pm_EndpointID := "ep1"; pm_Model := "claude"; pm_Weight := 3 |}];
     FallbackPool := ""; MaxAttempts := 2; TimeoutMs := 1000 |}.
Definition sample_pools : PoolsConfig :=
  {| ProviderEndpoints := {["ep1" := sample_endpoint]}; Pools := {["standard" := sample_pool]} |}.

Lemma pools_validate_exact_witness : wf_pools sample_pools.
Proof.
  apply (pools_validate_exact sample_pools [("standard", sample_pool)]); [|vm_compute; reflexivity].
  unfold ranges. cbn [sample_pools Pools]. rewrite map_to_list_singleton. reflexivity.
Defined.

(** A pricing file accepted by [PricingConfig.Validate] is a function:
    every row is the one [Lookup] returns for its vendor and model, so no row
    is shadowed by an earlier one. *)
Theorem pricing_validate_lookup c m :
  PricingConfig_Validate c = Ok tt -> m ∈ Models c ->
  PricingConfig_Lookup c (mp_Vendor m) (mp_Model m) = Some m.
Proof. intros Hv%PricingConfig_Validate_wf. by apply Lookup_row. Qed.

Definition sample_row (v n : string) (cents : positive) : ModelPricing :=
  {| mp_Vendor := v; mp_Model := n; mp_Currency := "USD";
     InputPricePer1KTokens := f64_of_int (Zpos cents);
     OutputPricePer1KTokens := f64_of_int (Zpos cents);
     CacheReadPricePer1KTokens := None; CacheCreatePricePer1KTokens := None;
     Capabilities := {| cap_Tools := true; cap_CacheControl := false;
                        cap_ExtendedThinking := false; cap_Vision := false |} |}.
Definition sample_pricing : PricingConfig :=
  {| Models := [sample_row "anthropic" "claude" 3; sample_row "ollama" "qwen:7b" 1] |}.

Lemma pricing_validate_lookup_witness :
  PricingConfig_Lookup sample_pricing "ollama" "qwen:7b" = Some (sample_row "ollama" "qwen:7b" 1).
Proof.
  apply (pricing_validate_lookup sample_pricing (sample_row "ollama" "qwen:7b" 1)).
  - vm_compute. reflexivity.
  - apply list_elem_of_further, list_elem_of_here.
Defined.

(** [ValidatePolicyAgainstPools] succeeds exactly when every pool that a
    [route] action of the policy names (rules and default) is declared; when
    it fails, the error lists precisely the undeclared pools, in
    lexicographic order and without repetition. *)
Theorem policy_pools_validate_exact policy pools :
  (ValidatePolicyAgainstPools policy pools = Ok tt /\ wf_policy_pools policy pools) \/
  (exists l, ValidatePolicyAgainstPools policy pools = Err (MissingPools l) /\
     ~ wf_policy_pools policy pools /\ Sorted String.le l /\ NoDup l /\
     forall p, p ∈ l <-> ("route", p) ∈ policy_targets policy /\ p <> "" /\ Pools pools !! p = None).
Proof.
  pose proof (ValidatePolicyAgainstPools_wf policy pools) as Hw.
  destruct (decide (missing policy pools = ∅)) as [He|He];
    pose proof (ValidatePolicyAgainstPools_missing policy pools) as Hv.
  - left. rewrite decide_True in Hv by done. naive_solver.
  - right. rewrite decide_False in Hv by done. eexists. split; [done|].
    pose proof (merge_sort_Permutation String.le (elements (missing policy pools))) as Hperm.
    split_and!.
    + intros H%Hw. by rewrite Hv in H.
    + apply Sorted_merge_sort, _.
    + rewrite Hperm. apply NoDup_elements.
    + intros p. by rewrite Hperm, elem_of_elements, elem_of_missing.
Qed.

(** [ValidateEndpointsAgainstPricing] succeeds exactly when every
    registered endpoint that some pool member uses has a vendor with pricing
    rows and at least one used model that is priced, whatever the iteration
    orders of the two maps: the early exits of the scan lose nothing. *)
Theorem endpoint_pricing_exact pools pricing epOrder poolOrder :
  ranges epOrder (ProviderEndpoints pools) -> ranges poolOrder (Pools pools) ->
  (ValidateEndpointsAgainstPricing epOrder poolOrder pricing = Ok tt <->
   wf_endpoint_pricing pools pricing).
Proof. apply ValidateEndpointsAgainstPricing_wf. Qed.

Lemma endpoint_pricing_exact_witness : wf_endpoint_pricing sample_pools sample_pricing.
Proof.
  apply (endpoint_pricing_exact sample_pools sample_pricing
           [("ep1", sample_endpoint)] [("standard", sample_pool)]); [| |vm_compute; reflexivity];
    unfold ranges; cbn [sample_pools Pools ProviderEndpoints];
    rewrite map_to_list_singleton; reflexivity.
Defined.

(** The uniqueness key joins vendor and model with a colon, so two different
    pairs can collide when a vendor name contains one: the second row of this
    table is refused as a duplicate although (vendor, model) differ. *)
Example price_key_collision :
  PricingConfig_Validate {| Models := [sample_row "a:b" "c" 1; sample_row "a" "b:c" 1] |}
  = Err (ModelDuplicate 1 "a" "b:c" 0).
Proof. vm_compute. reflexivity. Qed.
