(* ===== verification/Policy.v ===== *)
(** * Policy decisions and the policy engine

    [internal/gw/policy]: the three-slot [Decision] and its merge
    (decision.go), and the CEL rule engine (engine.go).  cel-go is the
    [CEL] interface of [Config]; [sort.Slice], which is not stable, is an
    arbitrary function that returns a sorted permutation ([SortSlice]). *)

From S2P Require Import Prelude GoData Config.
From stdpp Require Import sorting base gmap strings fin_maps numbers list.
Local Open Scope string_scope.

(** ** decision.go *)

Definition ActionAllow := "allow".
Definition ActionRoute := "route".
Definition ActionBlock := "block".
Definition ActionRedact := "redact".
Definition ActionRequireApproval := "require_approval".

Record Decision := {
  PrimaryAction : string;
  Modifiers : list string;
  SideEffects : list string;
  ModelPool : string;
  ShadowPool : string;
  Redactions : list string;
  Reasons : list string;
  RequiredTrustTier : string;
  RequiredDataResidency : list string;
  RequiredCapabilities : list string;
  DegradedFeatures : list string }.

Definition AllowDecision (reasons : list string) : Decision :=
  {| PrimaryAction := ActionAllow; Modifiers := []; SideEffects := []; ModelPool := "";
     ShadowPool := ""; Redactions := []; Reasons := reasons; RequiredTrustTier := "";
     RequiredDataResidency := []; RequiredCapabilities := []; DegradedFeatures := [] |}.

Definition RouteDecision (pool : string) (reasons : list string) : Decision :=
  {| PrimaryAction := ActionRoute; Modifiers := []; SideEffects := []; ModelPool := pool;
     ShadowPool := ""; Redactions := []; Reasons := reasons; RequiredTrustTier := "";
     RequiredDataResidency := []; RequiredCapabilities := []; DegradedFeatures := [] |}.

(** The [rank] map literal of [mergePrimary]; a missing key reads as 0. *)
Definition rank : gmap string Z :=
  list_to_map [(ActionBlock, 5); (ActionRequireApproval, 4); (ActionRoute, 3);
               (ActionAllow, 2); ("", 1)]%Z.
Definition rank_of (a : string) : Z := default 0%Z (rank !! a).

Definition mergePrimary (a b : string) : string :=
  if (rank_of b <=? rank_of a)%Z then a else b.

(** [if b.F != "" { out.F = b.F }] *)
Definition override (a b : string) : string := if is_empty b then a else b.

(** [if len(b.F) > 0 { out.F = appendUniqueStr(out.F, b.F) }] *)
Definition union_constraint (a b : list string) : list string :=
  match b with [] => a | _ :: _ => appendUnique a b end.

Definition Merge (a b : option Decision) : option Decision :=
  match a, b with
  | None, _ => b
  | _, None => a
  | Some a, Some b => Some
      {| PrimaryAction := mergePrimary (PrimaryAction a) (PrimaryAction b);
         Modifiers := appendUnique (Modifiers a) (Modifiers b);
         SideEffects := appendUnique (SideEffects a) (SideEffects b);
         ModelPool := override (ModelPool a) (ModelPool b);
         ShadowPool := override (ShadowPool a) (ShadowPool b);
         Redactions := appendUnique (Redactions a) (Redactions b);
         Reasons := appendUnique (Reasons a) (Reasons b);
         RequiredTrustTier := override (RequiredTrustTier a) (RequiredTrustTier b);
         RequiredDataResidency := union_constraint (RequiredDataResidency a) (RequiredDataResidency b);
         RequiredCapabilities := union_constraint (RequiredCapabilities a) (RequiredCapabilities b);
         DegradedFeatures := appendUnique (DegradedFeatures a) (DegradedFeatures b) |}
  end.

(** ** engine.go *)

Record EvalInput := {
  ServerClass : list (string * any);
  TaskHints : list (string * any);
  Envelope : list (string * any);
  User : list (string * any);
  Team : list (string * any);
  Repo : list (string * any);
  Budget : list (string * any);
  Endpoints : list (string * any) }.

Definition eval_vars (input : EvalInput) : list (string * any) :=
  [("server_class", AMap (ServerClass input)); ("task_hints", AMap (TaskHints input));
   ("envelope", AMap (Envelope input)); ("user", AMap (User input));
   ("team", AMap (Team input)); ("repo", AMap (Repo input));
   ("budget", AMap (Budget input)); ("endpoints", AMap (Endpoints input))].

Inductive EngineError :=
| RuleEnv (i : nat) (id : string)
| RuleCompile (i : nat) (id : string)
| EvalEnv.

Definition ruleToDecision (r : PolicyRule) : Decision :=
  if String.eqb (rule_Action r) "route" then RouteDecision (rule_ModelPool r) (rule_Reasons r)
  else AllowDecision (rule_Reasons r).

Definition actionToDecision (a : ActionSpec) : Decision :=
  if String.eqb (as_Action a) "route" then RouteDecision (as_ModelPool a) (as_Reasons a)
  else AllowDecision (as_Reasons a).

Section Engine.
Context {cel : CEL}.

Record compiledRule := { cr_rule : PolicyRule; cr_ast : Ast }.

(** [compiled[i].rule.Priority > compiled[j].rule.Priority], as the relation
    the sorted slice satisfies between neighbours. *)
Definition by_priority (x y : compiledRule) : Prop :=
  (rule_Priority (cr_rule y) <= rule_Priority (cr_rule x))%Z.

Record Engine := { compiledRules : list compiledRule; defaultAction : ActionSpec }.

Fixpoint compile_rules (i : nat) (rules : list PolicyRule)
    : outcome EngineError (list compiledRule) :=
  match rules with
  | [] => Ok []
  | rule :: rules =>
      reject (negb celNewEnv) (RuleEnv i (rule_ID rule)) ≫= fun _ =>
      match celCompile (rule_When rule) with
      | None => Err (RuleCompile i (rule_ID rule))
      | Some ast =>
          compile_rules (S i) rules ≫= fun rest => Ok ({| cr_rule := rule; cr_ast := ast |} :: rest)
      end
  end.

Definition evalSafely (prog : Program) (vars : list (string * any)) : bool :=
  match celEval prog vars with
  | CelPanic | CelError => false
  | CelValue (ABool m) => m
  | CelValue _ => false
  end.

(** The guard of the loop body: the program is planned and evaluates to true. *)
Definition matches (input : EvalInput) (cr : compiledRule) : bool :=
  match celProgram (cr_ast cr) with
  | None => false
  | Some prog => evalSafely prog (eval_vars input)
  end.

Fixpoint decide_loop (input : EvalInput) (rules : list compiledRule)
    (finalDecision : option Decision) : option Decision :=
  match rules with
  | [] => finalDecision
  | cr :: rules =>
      if matches input cr then
        decide_loop input rules (Merge finalDecision (Some (ruleToDecision (cr_rule cr))))
      else decide_loop input rules finalDecision
  end.

(** [(e *Engine) Decide] *)
Definition Decide (e : Engine) (input : EvalInput) : outcome EngineError Decision :=
  if negb celNewEnv then Err EvalEnv
  else match decide_loop input (compiledRules e) None with
       | Some d => Ok d
       | None => Ok (actionToDecision (defaultAction e))
       end.

(** [sort.Slice(compiled, ...)] *)
Class SortSlice := {
  sortSlice : list compiledRule -> list compiledRule;
  sortSlice_perm l : sortSlice l ≡ₚ l;
  sortSlice_sorted l : StronglySorted by_priority (sortSlice l) }.

Context {srt : SortSlice}.

(** [NewEngine] *)
Definition NewEngine (policyCfg : PolicyConfig) : outcome EngineError Engine :=
  compile_rules 0 (Rules policyCfg) ≫= fun compiled =>
  Ok {| compiledRules := sortSlice compiled; defaultAction := OnNoMatch (pol_Defaults policyCfg) |}.

(** [(e *Engine) SetPolicy]: the new engine state and the returned error. *)
Definition SetPolicy (e : Engine) (policyCfg : PolicyConfig) : Engine * outcome EngineError unit :=
  match compile_rules 0 (Rules policyCfg) with
  | Ok compiled =>
      ({| compiledRules := sortSlice compiled;
          defaultAction := OnNoMatch (pol_Defaults policyCfg) |}, Ok tt)
  | Err err => (e, Err err)
  | Panic => (e, Panic)
  end.
End Engine.
#[global] Arguments compiledRule : clear implicits.
#[global] Arguments compiledRule {cel}.
#[global] Arguments Engine : clear implicits.
#[global] Arguments Engine {cel}.

(** ** Merging *)

Lemma rank_cases a :
  rank_of a = 5%Z /\ a = ActionBlock \/ rank_of a = 4%Z /\ a = ActionRequireApproval \/
  rank_of a = 3%Z /\ a = ActionRoute \/ rank_of a = 2%Z /\ a = ActionAllow \/
  rank_of a = 1%Z /\ a = "" \/
  rank_of a = 0%Z /\ a ∉ [ActionBlock; ActionRequireApproval; ActionRoute; ActionAllow; ""].
Proof.
  destruct (decide (a = ActionBlock)) as [->|]; [by left|right].
  destruct (decide (a = ActionRequireApproval)) as [->|]; [by left|right].
  destruct (decide (a = ActionRoute)) as [->|]; [by left|right].
  destruct (decide (a = ActionAllow)) as [->|]; [by left|right].
  destruct (decide (a = "")) as [->|]; [by left|right].
  split; [|set_solver]. unfold rank_of, rank. cbn [list_to_map foldr].
  by rewrite !lookup_insert_ne, lookup_empty by done.
Qed.

Lemma rank_block a : rank_of a = 5%Z <-> a = ActionBlock.
Proof. split; [|by intros ->]. destruct (rank_cases a) as [[]|[[]|[[]|[[]|[[]|[]]]]]]; (done || lia). Qed.

Lemma rank_bound a : (rank_of a <= 5)%Z.
Proof. destruct (rank_cases a) as [[]|[[]|[[]|[[]|[[]|[]]]]]]; lia. Qed.

Lemma mergePrimary_assoc a b c :
  mergePrimary (mergePrimary a b) c = mergePrimary a (mergePrimary b c).
Proof.
  unfold mergePrimary.
  destruct (Z.leb_spec (rank_of b) (rank_of a)), (Z.leb_spec (rank_of c) (rank_of b));
    destruct (Z.leb_spec (rank_of c) (rank_of a)); destruct (Z.leb_spec (rank_of b) (rank_of a));
    try done; try lia; destruct (Z.leb_spec (rank_of c) (rank_of b)); done || lia.
Qed.

Lemma override_assoc a b c : override (override a b) c = override a (override b c).
Proof. unfold override. by destruct (is_empty c) eqn:Hc; [|rewrite Hc]. Qed.

Lemma union_constraint_appendUnique a b : union_constraint a b = appendUnique a b.
Proof. by destruct b. Qed.

Lemma Merge_assoc a b c : Merge (Merge a b) c = Merge a (Merge b c).
Proof.
  destruct a as [a|], b as [b|], c as [c|]; try done. cbn. f_equal.
  rewrite !union_constraint_appendUnique, !appendUnique_assoc, !override_assoc, mergePrimary_assoc.
  done.
Qed.

Lemma Merge_None_r a : Merge a None = a.
Proof. by destruct a. Qed.

(** ** Deciding *)

Section Deciding.
Context {cel : CEL}.

Definition hits (input : EvalInput) (rules : list compiledRule) : list PolicyRule :=
  cr_rule <$> filter (fun cr => matches input cr = true) rules.

(** Merging all the decisions of a list of rules, from the left. *)
Definition merge_all (acc : option Decision) (rs : list PolicyRule) : option Decision :=
  fold_left (fun d r => Merge d (Some (ruleToDecision r))) rs acc.

Lemma decide_loop_hits input rules acc :
  decide_loop input rules acc = merge_all acc (hits input rules).
Proof.
  revert acc. induction rules as [|cr rules IH]; intros acc; [done|].
  cbn [decide_loop]. unfold hits in *. rewrite filter_cons.
  destruct (matches input cr) eqn:Hm; [rewrite decide_True by done|rewrite decide_False by done];
    by rewrite IH.
Qed.

Lemma Decide_hits e input :
  celNewEnv = true ->
  Decide e input =
  Ok (default (actionToDecision (defaultAction e)) (merge_all None (hits input (compiledRules e)))).
Proof.
  intros He. unfold Decide. rewrite He, decide_loop_hits. cbn. by destruct (merge_all _ _).
Qed.

(** The pool a rule contributes. *)
Definition rule_pool (r : PolicyRule) : string :=
  if String.eqb (rule_Action r) "route" then rule_ModelPool r else "".

Lemma ruleToDecision_pool r : ModelPool (ruleToDecision r) = rule_pool r.
Proof. unfold ruleToDecision, rule_pool. by destruct (String.eqb _ _). Qed.

Lemma ruleToDecision_primary r :
  PrimaryAction (ruleToDecision r) = if String.eqb (rule_Action r) "route" then "route" else "allow".
Proof. unfold ruleToDecision. by destruct (String.eqb _ _). Qed.

Lemma ruleToDecision_reasons r : Reasons (ruleToDecision r) = rule_Reasons r.
Proof. unfold ruleToDecision. by destruct (String.eqb _ _). Qed.

(** One projection of a merged decision is a fold of that projection. *)
Lemma merge_all_proj {B} (f : Decision -> B) (g : B -> B -> B) :
  (forall a b, option_map f (Merge (Some a) (Some b)) = Some (g (f a) (f b))) ->
  forall rs d, exists d', merge_all (Some d) rs = Some d' /\
    f d' = fold_left (fun x r => g x (f (ruleToDecision r))) rs (f d).
Proof.
  intros Hg rs. induction rs as [|r rs IH]; intros d; cbn; [by exists d|].
  specialize (Hg d (ruleToDecision r)). cbn in Hg. injection Hg as Hg.
  edestruct IH as (d' & Hm & Hf). exists d'. split; [exact Hm|]. by rewrite Hf, Hg.
Qed.

Lemma fold_override x rs :
  fold_left (fun p r => override p (ModelPool (ruleToDecision r))) rs x =
  default x (last (filter (fun p => p <> "") (rule_pool <$> rs))).
Proof.
  revert x. induction rs as [|r rs IH]; intros x; [done|]. cbn [fold_left fmap list_fmap].
  rewrite IH, ruleToDecision_pool, filter_cons. unfold override.
  destruct (is_empty (rule_pool r)) eqn:He.
  - apply is_empty_true in He. rewrite He, decide_False by naive_solver. done.
  - apply is_empty_false in He. rewrite decide_True by done.
    destruct (filter _ (rule_pool <$> rs)) as [|y ys]; [done|].
    rewrite last_cons_cons. by destruct (last (y :: ys)) eqn:Hl; [|apply last_None in Hl].
Qed.

Lemma fold_mergePrimary x rs :
  x = "route" \/ x = "allow" ->
  fold_left (fun p r => mergePrimary p (PrimaryAction (ruleToDecision r))) rs x =
  if bool_decide (x = "route" \/ Exists (fun r => rule_Action r = "route") rs)
  then "route" else "allow".
Proof.
  revert x. induction rs as [|r rs IH]; intros x Hx; cbn.
  - case_bool_decide as Hb; rewrite Exists_nil in Hb; naive_solver.
  - rewrite ruleToDecision_primary. destruct (String.eqb_spec (rule_Action r) "route") as [Hr|Hr].
    + assert (mergePrimary x "route" = "route") as -> by (by destruct Hx as [->| ->]).
      rewrite IH by (by left). rewrite !bool_decide_eq_true_2; [done| |by left].
      right. by left.
    + assert (mergePrimary x "allow" = x) as -> by (by destruct Hx as [->| ->]).
      rewrite IH by done. erewrite bool_decide_ext; [done|]. rewrite Exists_cons. tauto.
Qed.

(** What [Decide] returns when at least one rule matches. *)
Lemma merge_all_route rs d :
  merge_all None rs = Some d ->
  ModelPool d = default "" (last (filter (fun p => p <> "") (rule_pool <$> rs))) /\
  PrimaryAction d = (if bool_decide (Exists (fun r => rule_Action r = "route") rs)
                     then "route" else "allow") /\
  (forall x, x ∈ Reasons d <-> exists r, r ∈ rs /\ x ∈ rule_Reasons r).
Proof.
  destruct rs as [|r rs]; [done|]. unfold merge_all. cbn [fold_left Merge].
  change (merge_all (Some (ruleToDecision r)) rs = Some d -> ModelPool d = default "" (last
    (filter (fun p => p <> "") (rule_pool <$> (r :: rs)))) /\ PrimaryAction d =
    (if bool_decide (Exists (fun r => rule_Action r = "route") (r :: rs)) then "route" else "allow")
    /\ (forall x, x ∈ Reasons d <-> exists r', r' ∈ r :: rs /\ x ∈ rule_Reasons r')).
  intros Hm. split_and!.
  - destruct (merge_all_proj ModelPool override (fun _ _ => eq_refl) rs (ruleToDecision r))
      as (d' & Hd & Hf). rewrite Hm in Hd. injection Hd as <-.
    rewrite Hf. change (ModelPool (ruleToDecision r)) with (ModelPool (ruleToDecision r)).
    pose proof (fold_override "" (r :: rs)) as Hfo. cbn [fold_left] in Hfo.
    rewrite <- Hfo. unfold override at 3. by destruct (ModelPool (ruleToDecision r)).
  - destruct (merge_all_proj PrimaryAction mergePrimary (fun _ _ => eq_refl) rs (ruleToDecision r))
      as (d' & Hd & Hf). rewrite Hm in Hd. injection Hd as <-.
    rewrite Hf, ruleToDecision_primary.
    destruct (String.eqb_spec (rule_Action r) "route") as [Hr|Hr].
    + rewrite fold_mergePrimary by (by left). rewrite !bool_decide_eq_true_2; [done| |by left].
      by left.
    + rewrite fold_mergePrimary by (by right). erewrite bool_decide_ext; [done|].
      rewrite Exists_cons. naive_solver.
  - destruct (merge_all_proj Reasons appendUnique (fun _ _ => eq_refl) rs (ruleToDecision r))
      as (d' & Hd & Hf). rewrite Hm in Hd. injection Hd as <-.
    intros x. rewrite Hf. clear.
    assert (forall rs l, x ∈ fold_left (fun y r => appendUnique y (Reasons (ruleToDecision r))) rs l
      <-> x ∈ l \/ exists r', r' ∈ rs /\ x ∈ rule_Reasons r') as ->.
    { intros rs'. induction rs' as [|r' rs' IH]; intros l; cbn.
      - setoid_rewrite elem_of_nil. naive_solver.
      - rewrite IH, elem_of_appendUnique, ruleToDecision_reasons. setoid_rewrite elem_of_cons.
        naive_solver. }
    rewrite ruleToDecision_reasons. setoid_rewrite elem_of_cons. naive_solver.
Qed.
End Deciding.

(** ** Building engines *)

Section Building.
Context {cel : CEL}.

#[export] Instance by_priority_dec : RelDecision by_priority.
Proof. intros x y. unfold by_priority. apply _. Defined.
#[export] Instance by_priority_total : Total by_priority.
Proof. intros x y. unfold by_priority. lia. Qed.
#[export] Instance by_priority_trans : Transitive by_priority.
Proof. intros x y z. unfold by_priority. lia. Qed.

(** Merge sort is one admissible [sort.Slice]. *)
Definition mergeSortSlice : SortSlice :=
  {| sortSlice := merge_sort by_priority;
     sortSlice_perm := merge_sort_Permutation by_priority;
     sortSlice_sorted := StronglySorted_merge_sort by_priority |}.

Lemma compile_rules_rules i rules compiled :
  compile_rules i rules = Ok compiled -> cr_rule <$> compiled = rules.
Proof.
  revert i compiled. induction rules as [|r rules IH]; intros i compiled; cbn.
  { by intros [= <-]. }
  rewrite bind_unit_ok. intros [_ H]. destruct (celCompile _); [|done].
  apply bind_ok in H as (rest & Hr & [= <-]). cbn. f_equal. by eapply IH.
Qed.

Definition rule_by_priority (x y : PolicyRule) : Prop := (rule_Priority y <= rule_Priority x)%Z.

Lemma hits_sorted `{!SortSlice} cfg e input :
  NewEngine cfg = Ok e -> StronglySorted rule_by_priority (hits input (compiledRules e)).
Proof.
  unfold NewEngine. intros (compiled & _ & [= <-])%bind_ok. cbn [compiledRules]. unfold hits.
  apply StronglySorted_fmap with by_priority; [done|].
  apply StronglySorted_filter, sortSlice_sorted.
Qed.

(** In a list sorted by decreasing priority, the pool of the lowest-priority
    rule that names one is the last pool named. *)
Lemma last_pool_sorted rs r :
  StronglySorted rule_by_priority rs -> r ∈ rs -> rule_pool r <> "" ->
  (forall r', r' ∈ rs -> rule_pool r' <> "" -> rule_pool r' <> rule_pool r ->
              (rule_Priority r < rule_Priority r')%Z) ->
  last (filter (fun p => p <> "") (rule_pool <$> rs)) = Some (rule_pool r).
Proof.
  intros Hs Hr Hp Hlow. induction Hs as [|x rs Hs IH Hx]; [by apply elem_of_nil in Hr|].
  rewrite list.Forall_forall in Hx. cbn [fmap list_fmap]. rewrite filter_cons.
  destruct (last (filter (fun p => p <> "") (rule_pool <$> rs))) as [q|] eqn:Hl.
  - assert (q = rule_pool r) as ->.
    { pose proof Hl as Hq. apply last_Some_elem_of in Hq.
      apply list_elem_of_filter in Hq as [Hq (r' & -> & Hr')%list_elem_of_fmap].
      apply elem_of_cons in Hr as [->|Hr].
      - destruct (decide (rule_pool r' = rule_pool x)) as [|Hne]; [done|].
        specialize (Hx r' Hr'). unfold rule_by_priority in Hx.
        specialize (Hlow r'). rewrite elem_of_cons in Hlow. specialize (Hlow (or_intror Hr') Hq Hne). lia.
      - destruct (filter (fun p => p <> "") (rule_pool <$> rs)); [done|].
        enough (Some (rule_pool r') = Some (rule_pool r)) by congruence. apply IH; [done|].
        intros r'' Hin. apply Hlow. by constructor. }
    case_decide; [|done]. destruct (filter (fun p => p <> "") (rule_pool <$> rs)); [done|].
    by rewrite last_cons_cons.
  - apply last_None in Hl. rewrite Hl. apply elem_of_cons in Hr as [->|Hr].
    + by rewrite decide_True.
    + exfalso. assert (rule_pool r ∈ filter (fun p => p <> "") (rule_pool <$> rs)) as Hin.
      { apply list_elem_of_filter. split; [done|]. by apply list_elem_of_fmap_2. }
      rewrite Hl in Hin. by apply elem_of_nil in Hin.
Qed.

Lemma hits_elem `{!SortSlice} cfg e input r :
  NewEngine cfg = Ok e -> r ∈ hits input (compiledRules e) ->
  r ∈ Rules cfg.
Proof.
  unfold NewEngine. intros (compiled & Hc & [= <-])%bind_ok. cbn [compiledRules]. unfold hits.
  intros (cr & -> & [_ Hin]%list_elem_of_filter)%list_elem_of_fmap.
  rewrite sortSlice_perm in Hin. apply compile_rules_rules in Hc as <-. by apply list_elem_of_fmap_2.
Qed.

(** ** Claims *)

(** Where the matching rules disagree about the pool, the one with the LOWEST
    priority that names a pool decides it (rules that name another pool having
    strictly higher priorities). *)
Theorem decide_lowest_priority_pool `{!SortSlice} cfg e input d r :
  celNewEnv = true ->
  NewEngine cfg = Ok e ->
  Decide e input = Ok d ->
  r ∈ hits input (compiledRules e) -> rule_pool r <> "" ->
  (forall r', r' ∈ hits input (compiledRules e) -> rule_pool r' <> "" ->
     rule_pool r' <> rule_pool r -> (rule_Priority r < rule_Priority r')%Z) ->
  PrimaryAction d = ActionRoute /\ ModelPool d = rule_pool r.
Proof.
  intros Henv He Hd Hr Hp Hlow. rewrite Decide_hits in Hd by done.
  destruct (merge_all None _) as [d'|] eqn:Hm; injection Hd as Hd; cbn in Hd; subst.
  - destruct (merge_all_route _ _ Hm) as (-> & -> & _).
    erewrite last_pool_sorted by (done || by eapply hits_sorted). split; [|done].
    rewrite bool_decide_eq_true_2; [done|]. apply list.Exists_exists. exists r. split; [done|].
    unfold rule_pool in Hp. by destruct (String.eqb_spec (rule_Action r) "route").
  - exfalso. destruct (hits input (compiledRules e)) as [|r0 rs]; [by apply elem_of_nil in Hr|].
    unfold merge_all in Hm. cbn [fold_left Merge] in Hm.
    destruct (merge_all_proj ModelPool override (fun _ _ => eq_refl) rs (ruleToDecision r0))
      as (d' & Hd & _). unfold merge_all in Hd. congruence.
Qed.

(** A rule of the policy whose condition evaluates to true. *)
Definition applies (input : EvalInput) (r : PolicyRule) : Prop :=
  exists ast, celCompile (rule_When r) = Some ast /\ matches input {| cr_rule := r; cr_ast := ast |} = true.

Lemma compile_rules_ast i rules compiled cr :
  compile_rules i rules = Ok compiled -> cr ∈ compiled -> celCompile (rule_When (cr_rule cr)) = Some (cr_ast cr).
Proof.
  revert i compiled. induction rules as [|r rules IH]; intros i compiled; cbn.
  { intros [= <-]. by intros ?%elem_of_nil. }
  rewrite bind_unit_ok. intros [_ H]. destruct (celCompile (rule_When r)) as [ast|] eqn:Ha; [|done].
  apply bind_ok in H as (rest & Hr & [= <-]). intros [->|Hin]%elem_of_cons; [done|by eapply IH].
Qed.

(** The rules that count are those of the policy that apply. *)
Lemma elem_of_hits `{!SortSlice} cfg e input r :
  NewEngine cfg = Ok e -> (r ∈ hits input (compiledRules e) <-> r ∈ Rules cfg /\ applies input r).
Proof.
  unfold NewEngine. intros (compiled & Hc & [= <-])%bind_ok. cbn [compiledRules]. unfold hits, applies.
  rewrite list_elem_of_fmap. setoid_rewrite list_elem_of_filter. setoid_rewrite sortSlice_perm. split.
  - intros (cr & -> & Hm & Hin). split.
    + apply compile_rules_rules in Hc as <-. by apply list_elem_of_fmap_2.
    + exists (cr_ast cr). split; [by eapply compile_rules_ast|]. by destruct cr.
  - intros (Hr & ast & Ha & Hm). pose proof (compile_rules_rules _ _ _ Hc) as Hrs. rewrite <- Hrs in Hr.
    apply list_elem_of_fmap in Hr as (cr & -> & Hin). exists cr. split_and!; [done| |done].
    apply (compile_rules_ast _ _ _ _ Hc) in Hin. rewrite Hin in Ha. injection Ha as <-. by destruct cr.
Qed.


(** [Decide] never fails once an environment can be created: with no
    matching rule it returns the default action's decision; otherwise it
    routes exactly when some matching rule routes (and allows otherwise), and
    its reasons are exactly those of the matching rules. *)
Theorem decide_outcome (e : Engine) (input : EvalInput) :
  celNewEnv = true ->
  exists d, Decide e input = Ok d /\
  (hits input (compiledRules e) = [] -> d = actionToDecision (defaultAction e)) /\
  (hits input (compiledRules e) <> [] ->
   PrimaryAction d = (if bool_decide (Exists (fun r => rule_Action r = "route")
                        (hits input (compiledRules e))) then ActionRoute else ActionAllow) /\
   forall x : string, x ∈ Reasons d <-> exists r : PolicyRule, r ∈ hits input (compiledRules e) /\ x ∈ rule_Reasons r).
Proof.
  intros Henv. rewrite Decide_hits by done. eexists. split; [done|]. split.
  - by intros ->.
  - intros Hne. destruct (merge_all None _) as [d'|] eqn:Hm; cbn.
    + by destruct (merge_all_route _ _ Hm) as (_ & -> & ?).
    + exfalso. destruct (hits input (compiledRules e)) as [|r0 rs]; [done|].
      unfold merge_all in Hm. cbn [fold_left Merge] in Hm.
      destruct (merge_all_proj ModelPool override (fun _ _ => eq_refl) rs (ruleToDecision r0))
        as (d' & Hd & _). unfold merge_all in Hd. congruence.
Qed.

(** [Merge] makes decisions a monoid: [nil] is neutral and merging is
    associative, so the result does not depend on how rule groups are merged;
    the primary action of a merge is the higher-ranked one, a block is never
    overridden, and the constraint sets of both sides are kept. *)
Theorem merge_monoid (a b c : Decision) :
  Merge None (Some a) = Some a /\ Merge (Some a) None = Some a /\
  Merge (Merge (Some a) (Some b)) (Some c) = Merge (Some a) (Merge (Some b) (Some c)) /\
  exists d, Merge (Some a) (Some b) = Some d /\
    rank_of (PrimaryAction d) = Z.max (rank_of (PrimaryAction a)) (rank_of (PrimaryAction b)) /\
    (PrimaryAction d = ActionBlock <-> PrimaryAction a = ActionBlock \/ PrimaryAction b = ActionBlock) /\
    (forall x, x ∈ RequiredCapabilities d <-> x ∈ RequiredCapabilities a \/ x ∈ RequiredCapabilities b) /\
    (forall x, x ∈ RequiredDataResidency d <->
               x ∈ RequiredDataResidency a \/ x ∈ RequiredDataResidency b).
Proof.
  split_and!; [done|done|apply Merge_assoc|]. eexists. split; [done|]. cbn. split_and!.
  - unfold mergePrimary. destruct (Z.leb_spec (rank_of (PrimaryAction b)) (rank_of (PrimaryAction a))); lia.
  - rewrite <- !rank_block. pose proof (rank_bound (PrimaryAction a)).
    pose proof (rank_bound (PrimaryAction b)). unfold mergePrimary.
    destruct (Z.leb_spec (rank_of (PrimaryAction b)) (rank_of (PrimaryAction a))); lia.
  - intros x. by rewrite union_constraint_appendUnique, elem_of_appendUnique.
  - intros x. by rewrite union_constraint_appendUnique, elem_of_appendUnique.
Qed.

(** Hot-swapping a policy is all or nothing: when the new policy compiles
    the engine becomes the one [NewEngine] would build, and otherwise the
    engine is left exactly as it was and the compile error is returned. *)
Theorem set_policy_atomic `{!SortSlice} e cfg :
  match NewEngine cfg with
  | Ok e' => SetPolicy e cfg = (e', Ok tt)
  | Err err => SetPolicy e cfg = (e, Err err)
  | Panic => False
  end.
Proof.
  unfold NewEngine, SetPolicy. destruct (compile_rules 0 (Rules cfg)) eqn:Hc; cbn; try done.
  exfalso. revert Hc. generalize 0. induction (Rules cfg) as [|r rs IH]; intros n; cbn; [done|].
  unfold reject. destruct (negb celNewEnv); cbn; [done|]. destruct (celCompile _); [|done].
  intros Hc. apply (IH (S n)). by destruct (compile_rules (S n) rs).
Qed.
End Building.

(** ** A concrete engine *)

(** A CEL whose expressions are variable names; every one evaluates to true. *)
Definition sample_cel : CEL :=
  {| Ast := string; Program := string; celNewEnv := true;
     celCompile := fun e => if is_empty e then None else Some e;
     celProgram := Some; celEval := fun _ _ => CelValue (ABool true) |}.

Definition sample_rule (id pool : string) (prio : Z) : PolicyRule :=
  {| rule_ID := id; rule_Description := ""; rule_Priority := prio; rule_When := "true"; rule_Action := "route";
     rule_ModelPool := pool; rule_Reasons := [id] |}.

Definition sample_policy : PolicyConfig :=
  {| Version := "1"; pol_Defaults := {| OnNoMatch := {| as_Action := "allow"; as_ModelPool := "";
       as_Reasons := [] |} |};
     Rules := [sample_rule "cheap-default" "cheap" 100; sample_rule "sensitive" "strong" 900];
     Degradation := {| AllowedCapabilities := [] |}; Variables := [] |}.

Definition sample_input : EvalInput :=
  {| ServerClass := []; TaskHints := []; Envelope := []; User := []; Team := []; Repo := [];
     Budget := []; Endpoints := [] |}.

Definition sample_engine : @Engine sample_cel :=
  @Build_Engine sample_cel
    [@Build_compiledRule sample_cel (sample_rule "sensitive" "strong" 900) "true";
     @Build_compiledRule sample_cel (sample_rule "cheap-default" "cheap" 100) "true"]
    (OnNoMatch (pol_Defaults sample_policy)).

Lemma decide_lowest_priority_pool_witness :
  exists d, @Decide sample_cel sample_engine sample_input = Ok d /\
  PrimaryAction d = ActionRoute /\ ModelPool d = "cheap".
Proof.
  eexists. split; [reflexivity|].
  apply (@decide_lowest_priority_pool sample_cel (@mergeSortSlice sample_cel) sample_policy
           sample_engine sample_input _ (sample_rule "cheap-default" "cheap" 100)).
  - reflexivity.
  - vm_compute. reflexivity.
  - reflexivity.
  - vm_compute. right. left.
  - discriminate.
  - intros r' Hin _ Hne. vm_compute in Hin. apply elem_of_cons in Hin as [->|Hin]; [vm_compute; reflexivity|].
    apply list_elem_of_singleton in Hin. subst. by destruct Hne.
Defined.

(** Two rules that agree. *)
Definition agreeing_policy : PolicyConfig :=
  {| Version := "1"; pol_Defaults := pol_Defaults sample_policy;
     Rules := [sample_rule "a" "strong" 100; sample_rule "b" "strong" 900];
     Degradation := {| AllowedCapabilities := [] |}; Variables := [] |}.
Definition agreeing_engine : @Engine sample_cel :=
  @Build_Engine sample_cel
    [@Build_compiledRule sample_cel (sample_rule "b" "strong" 900) "true";
     @Build_compiledRule sample_cel (sample_rule "a" "strong" 100) "true"]
    (OnNoMatch (pol_Defaults sample_policy)).

Lemma decide_outcome_witness :
  exists d, @Decide sample_cel sample_engine sample_input = Ok d /\ PrimaryAction d = ActionRoute.
Proof.
  destruct (@decide_outcome sample_cel sample_engine sample_input eq_refl) as (d & Hd & _ & H).
  exists d. split; [exact Hd|]. apply H. discriminate.
Defined.
