(* ===== verification/Routing.v ===== *)
(** * Member selection and replay

    [internal/gw/routing]: the constraint filter, the seeded weighted shuffle
    and the de-duplication of [Selector.BuildChain] (selector.go), the
    start-up check [ValidatePoolAdapters], and [Replay] (execute.go).  The
    hash and the ChaCha8 generator are the parameters of the class [Random];
    the only facts used of them are the length of a digest and the documented
    range of [IntN]. *)

From stdpp Require Import sorting base gmap strings fin_maps numbers pretty list.
From S2P Require Import Prelude GoData Config Policy.
Local Open Scope string_scope.

Abbreviation bytes := (list Byte.byte).

(** crypto/sha256 and math/rand/v2. *)
Class Random := {
  sha256 : string -> bytes;
  sha256_length s : length (sha256 s) = 32;
  Rng : Type;
  NewChaCha8 : bytes -> Rng;
  Rand_IntN : Rng -> Z -> Z * Rng;
  Rand_IntN_range r n : (0 < n)%Z -> (0 <= (Rand_IntN r n).1 < n)%Z }.

(** ** selector.go *)

Record Member := {
  EndpointID : string;
  Wire : string;
  VendorID : string;
  m_Model : string;
  m_URL : string;
  TrustTier : string;
  DataResidency : string;
  m_Streaming : bool;
  Private : bool;
  OriginalWeight : Z }.

Record Selector := {
  Registry : gmap string ProviderEndpoint;
  sel_Pools : gmap string Pool;
  sel_pricing : option PricingConfig }.

(** The two messages [ValidatePoolAdapters] aggregates, with their fields. *)
Inductive AdapterMismatch :=
| EndpointNotRegistered (pool endpoint : string)
| WireNotRegistered (pool endpoint wire : string).

Inductive RoutingError :=
| PoolNotFound (pool : string)
| ErrNoCandidate (pool constraints : string)
| ReplayPoolNotFound (pool : string)
| ReplayNoMembers (pool : string)
| AdapterValidation (msgs : list AdapterMismatch).

Definition NewSelector (poolsCfg : PoolsConfig) (pricing : option PricingConfig) : Selector :=
  {| Registry := ProviderEndpoints poolsCfg; sel_Pools := Pools poolsCfg; sel_pricing := pricing |}.

Definition SetPricing (s : Selector) (pricing : option PricingConfig) : Selector :=
  {| Registry := Registry s; sel_Pools := sel_Pools s; sel_pricing := pricing |}.

Definition SetPools (s : Selector) (poolsCfg : PoolsConfig) : Selector :=
  {| Registry := ProviderEndpoints poolsCfg; sel_Pools := Pools poolsCfg;
     sel_pricing := sel_pricing s |}.

Definition trustTierRank (tier : string) : Z :=
  if String.eqb tier "private" then 3
  else if String.eqb tier "partner" then 2
  else if String.eqb tier "vendor" then 1 else 0.

Definition memberSupports (m : Member) (cap : string) (pricing : option PricingConfig) : bool :=
  if String.eqb cap "streaming" then m_Streaming m
  else if bool_decide (cap ∈ ["tools"; "cache_control"; "extended_thinking"; "vision"]) then
    match pricing with
    | None => false
    | Some pricing =>
        match PricingConfig_Lookup pricing (VendorID m) (m_Model m) with
        | None => false
        | Some row =>
            if String.eqb cap "tools" then cap_Tools (Capabilities row)
            else if String.eqb cap "cache_control" then cap_CacheControl (Capabilities row)
            else if String.eqb cap "extended_thinking" then cap_ExtendedThinking (Capabilities row)
            else if String.eqb cap "vision" then cap_Vision (Capabilities row)
            else false
        end
    end
  else false.

(** The residency loop: [found] with an early [break]. *)
Fixpoint residency_found (residency : string) (rs : list string) : bool :=
  match rs with
  | [] => false
  | r :: rs => if String.eqb residency r then true else residency_found residency rs
  end.

(** The capability loop: the first unsupported one rejects the member. *)
Fixpoint supports_all (m : Member) (caps : list string) (pricing : option PricingConfig) : bool :=
  match caps with
  | [] => true
  | cap :: caps => if negb (memberSupports m cap pricing) then false else supports_all m caps pricing
  end.

Definition satisfiesConstraints (m : Member) (dec : option Decision)
    (pricing : option PricingConfig) : bool :=
  match dec with
  | None => true
  | Some dec =>
      if negb (is_empty (RequiredTrustTier dec)) &&
         (trustTierRank (TrustTier m) <? trustTierRank (RequiredTrustTier dec))%Z then false
      else if (0 <? length (RequiredDataResidency dec))%nat &&
              negb (residency_found (DataResidency m) (RequiredDataResidency dec)) then false
      else supports_all m (RequiredCapabilities dec) pricing
  end.

(** [fmt]'s [%v] of a string slice. *)
Definition show_strings (l : list string) : string := "[" +:+ (String.concat " " l +:+ "]").

(** A nil decision is dereferenced. *)
Definition constraintSummary (dec : option Decision) : outcome RoutingError string :=
  match dec with
  | None => Panic
  | Some dec => Ok ("trust_tier>=" +:+ (RequiredTrustTier dec +:+ (" residency∈" +:+
      (show_strings (RequiredDataResidency dec) +:+ (" caps=" +:+
       show_strings (RequiredCapabilities dec))))))
  end.

(** The loop that turns pool members into candidates; members whose endpoint
    is not registered are skipped. *)
Definition candidate (m : PoolMember) (ep : ProviderEndpoint) : Member :=
  {| EndpointID := pm_EndpointID m; Wire := ep_Wire ep; VendorID := ep_Vendor ep;
     m_Model := pm_Model m; m_URL := ep_URL ep; TrustTier := ep_TrustTier ep;
     DataResidency := ep_DataResidency ep; m_Streaming := Streaming (ep_Supports ep);
     Private := String.eqb (ep_TrustTier ep) "private"; OriginalWeight := pm_Weight m |}.

Fixpoint collect (registry : gmap string ProviderEndpoint) (ms : list PoolMember) : list Member :=
  match ms with
  | [] => []
  | m :: ms =>
      match registry !! pm_EndpointID m with
      | None => collect registry ms
      | Some ep => candidate m ep :: collect registry ms
      end
  end.

(** Each candidate, [OriginalWeight] times. *)
Fixpoint expand (cs : list Member) : list Member :=
  match cs with
  | [] => []
  | c :: cs => (replicate (Z.to_nat (OriginalWeight c)) c ++ expand cs)%list
  end.

(** [weighted[i], weighted[j] = weighted[j], weighted[i]] *)
Definition swap (i j : nat) (l : list Member) : outcome RoutingError (list Member) :=
  match l !! i, l !! j with
  | Some a, Some b => Ok (<[j := a]> (<[i := b]> l))
  | _, _ => Panic
  end.

(** The first occurrence of every endpoint. *)
Fixpoint dedup (seen : gset string) (ms : list Member) : list Member :=
  match ms with
  | [] => []
  | m :: ms =>
      if decide (EndpointID m ∈ seen) then dedup seen ms
      else m :: dedup ({[EndpointID m]} ∪ seen) ms
  end.

(** [seed[i] = seed[i%len(stored)]] for [i] in [len(stored) .. 31]; [n] counts
    the iterations left. *)
Fixpoint expand_seed (len i n : nat) (seed : bytes) : outcome RoutingError bytes :=
  match n with
  | 0 => Ok seed
  | S n =>
      if decide (len = 0) then Panic
      else match seed !! (i mod len) with
           | Some b => expand_seed len (S i) n (<[i := b]> seed)
           | None => Panic
           end
  end.

Definition Chacha8SeedFromStored (stored : bytes) : outcome RoutingError bytes :=
  expand_seed (length stored) (length stored) (32 - length stored)
    (take 32 stored ++ replicate (32 - length stored) Byte.x00)%list.

Section Selection.
Context {rand : Random}.

Definition IntN (c : Rng) (n : Z) : Z * Rng :=
  if (n <=? 0)%Z then (0%Z, c) else Rand_IntN c n.

Definition SeedBytes (traceID pool : string) (attemptNo : Z) : bytes :=
  take 16 (sha256 (traceID +:+ (":" +:+ (pool +:+ (":" +:+ pretty attemptNo))))).

(** Fisher-Yates, [i] counting down from the last index to 1. *)
Fixpoint shuffle (i : nat) (rng : Rng) (l : list Member) : outcome RoutingError (list Member) :=
  match i with
  | 0 => Ok l
  | S i' =>
      let '(j, rng') := IntN rng (Z.of_nat i + 1) in
      swap i (Z.to_nat j) l ≫= fun l' => shuffle i' rng' l'
  end.

(** The common tail of [BuildChain] and [Replay]. *)
Definition weighted_chain (stored : bytes) (candidates : list Member)
    : outcome RoutingError (list Member) :=
  Chacha8SeedFromStored stored ≫= fun chachaSeed =>
  let weighted := expand candidates in
  shuffle (length weighted - 1) (NewChaCha8 chachaSeed) weighted ≫= fun weighted =>
  Ok (dedup ∅ weighted).

(** [(s *Selector) BuildChain] *)
Definition BuildChain (s : Selector) (poolName : string) (dec : option Decision)
    (traceID : string) (attemptNo : Z) : outcome RoutingError (list Member) :=
  match sel_Pools s !! poolName with
  | None => Err (PoolNotFound poolName)
  | Some pool =>
      let candidates := collect (Registry s) (Members pool) in
      let candidates :=
        filter (fun c => satisfiesConstraints c dec (sel_pricing s) = true) candidates in
      if (length candidates =? 0)%nat then
        constraintSummary dec ≫= fun c => Err (ErrNoCandidate poolName c)
      else weighted_chain (SeedBytes traceID poolName attemptNo) candidates
  end.

(** ** execute.go *)

Record RoutingEventRow := {
  row_TraceID : string;
  row_AttemptNo : Z;
  row_PoolSelected : string;
  row_Seed : bytes;
  row_MemberSelected : string }.

Definition Replay (row : RoutingEventRow) (registry : gmap string ProviderEndpoint)
    (pools : gmap string Pool) : outcome RoutingError (list Member) :=
  match pools !! row_PoolSelected row with
  | None => Err (ReplayPoolNotFound (row_PoolSelected row))
  | Some pool =>
      let candidates := collect registry (Members pool) in
      if (length candidates =? 0)%nat then Err (ReplayNoMembers (row_PoolSelected row))
      else weighted_chain (row_Seed row) candidates
  end.
End Selection.

(** ** ValidatePoolAdapters *)

Definition adapter_msgs (s : Selector) (have : gset string)
    (poolName : string) (m : PoolMember) : list AdapterMismatch :=
  match Registry s !! pm_EndpointID m with
  | None => [EndpointNotRegistered poolName (pm_EndpointID m)]
  | Some ep =>
      if decide (ep_Wire ep ∈ have) then []
      else [WireNotRegistered poolName (pm_EndpointID m) (ep_Wire ep)]
  end.

(** [order] is the iteration order of the pool map. *)
Definition ValidatePoolAdapters (order : list (string * Pool)) (s : Selector)
    (adapterNames : list string) : outcome RoutingError unit :=
  let have := list_to_set adapterNames in
  let msgs := p ← order; m ← Members p.2; adapter_msgs s have p.1 m in
  if (0 <? length msgs)%nat then Err (AdapterValidation msgs) else Ok tt.

(** ** breaker.go *)

Definition CircuitBreaker_State (endpointID : string) : string := "closed".

(** ** The building blocks *)

Lemma elem_of_collect registry ms c :
  c ∈ collect registry ms <->
  exists m ep, m ∈ ms /\ registry !! pm_EndpointID m = Some ep /\ c = candidate m ep.
Proof.
  induction ms as [|m ms IH]; cbn; [set_solver|].
  destruct (registry !! pm_EndpointID m) as [ep|] eqn:Hr;
    rewrite ?elem_of_cons, IH; setoid_rewrite elem_of_cons; naive_solver.
Qed.

Lemma elem_of_expand cs c : c ∈ expand cs <-> c ∈ cs /\ (0 < OriginalWeight c)%Z.
Proof.
  induction cs as [|d cs IH]; cbn; [set_solver|].
  rewrite elem_of_app, IH, elem_of_cons, elem_of_replicate. split; [|naive_solver lia].
  intros [[-> ?]|[??]]; [|tauto]. split; [by left|lia].
Qed.

(** Swapping two valid positions permutes. *)
Lemma swap_perm i j l :
  (i < length l)%nat -> (j < length l)%nat -> exists l', swap i j l = Ok l' /\ l' ≡ₚ l.
Proof.
  intros [a Ha]%lookup_lt_is_Some [b Hb]%lookup_lt_is_Some. unfold swap. rewrite Ha, Hb.
  eexists. split; [done|]. apply Permutation_inj. rewrite !length_insert. split; [done|].
  pose proof (lookup_lt_Some _ _ _ Ha). pose proof (lookup_lt_Some _ _ _ Hb).
  exists (fun k => if decide (k = i) then j else if decide (k = j) then i else k). split.
  - intros x y Hxy. repeat case_decide; subst; congruence.
  - intros k. destruct (decide (k = j)) as [->|Hj].
    + rewrite list_lookup_insert_eq by (by rewrite length_insert).
      destruct (decide (j = i)); naive_solver.
    + rewrite list_lookup_insert_ne by done. case_decide; subst.
      * by rewrite list_lookup_insert_eq.
      * by rewrite list_lookup_insert_ne.
Qed.

Lemma IntN_range `{Random} rng n : (0 < n)%Z -> (0 <= (IntN rng n).1 < n)%Z.
Proof. intros Hn. unfold IntN. destruct (Z.leb_spec n 0); [lia|]. by apply Rand_IntN_range. Qed.

(** The shuffle never indexes out of range and returns a permutation. *)
Lemma shuffle_perm `{Random} i rng l :
  (i < length l)%nat \/ i = 0 -> exists l', shuffle i rng l = Ok l' /\ l' ≡ₚ l.
Proof.
  revert rng l. induction i as [|i IH]; intros rng l Hi; cbn [shuffle]; [by exists l|].
  destruct (IntN rng (Z.of_nat (S i) + 1)) as [j rng'] eqn:Hj.
  pose proof (IntN_range rng (Z.of_nat (S i) + 1)) as Hr. rewrite Hj in Hr. cbn in Hr.
  destruct (swap_perm (S i) (Z.to_nat j) l) as (l1 & -> & Hp); [lia|lia|]. cbn.
  destruct (IH rng' l1) as (l2 & -> & Hp2); [rewrite Hp; lia|].
  exists l2. split; [done|]. by rewrite Hp2.
Qed.

Lemma elem_of_dedup seen ms m : m ∈ dedup seen ms -> m ∈ ms /\ EndpointID m ∉ seen.
Proof.
  revert seen. induction ms as [|n ms IH]; intros seen; cbn; [set_solver|].
  case_decide.
  - intros []%IH. split; [by right|done].
  - rewrite !elem_of_cons. intros [->|[??]%IH]; [tauto|]. set_solver.
Qed.

Lemma dedup_complete seen ms m :
  m ∈ ms -> EndpointID m ∉ seen -> EndpointID m ∈ EndpointID <$> dedup seen ms.
Proof.
  revert seen. induction ms as [|n ms IH]; intros seen Hm Hs; [by apply elem_of_nil in Hm|].
  cbn. apply elem_of_cons in Hm as [->|Hm].
  - rewrite decide_False by done. by left.
  - case_decide; [by apply IH|]. cbn.
    destruct (decide (EndpointID m = EndpointID n)) as [->|]; [by left|].
    right. apply IH; set_solver.
Qed.

Lemma NoDup_dedup seen ms : NoDup (EndpointID <$> dedup seen ms).
Proof.
  revert seen. induction ms as [|n ms IH]; intros seen; cbn; [constructor|].
  case_decide; [apply IH|]. cbn. constructor; [|apply IH].
  intros (m & Heq & [_ Hin]%elem_of_dedup)%list_elem_of_fmap. set_solver.
Qed.

(** The seed expansion is total on a non-empty stored seed, and periodic. *)
Lemma expand_seed_spec len i n seed :
  0 < len -> len <= i -> i + n = length seed ->
  exists seed', expand_seed len i n seed = Ok seed' /\ length seed' = length seed /\
    (forall k, k < i -> seed' !! k = seed !! k) /\
    (forall k, i <= k < i + n -> seed' !! k = seed' !! (k mod len)).
Proof.
  intros Hlen. revert i seed. induction n as [|n IH]; intros i seed Hi Hn; cbn [expand_seed].
  { exists seed. split_and!; [done..|]. lia. }
  rewrite decide_False by lia. pose proof (Nat.mod_upper_bound i len).
  destruct (lookup_lt_is_Some_2 seed (i mod len)) as [b Hb]; [lia|]. rewrite Hb.
  destruct (IH (S i) (<[i:=b]> seed)) as (seed' & -> & Hl & Hlow & Hper);
    [lia|rewrite length_insert; lia|]. rewrite length_insert in Hl.
  exists seed'. split_and!; [done|done| |].
  - intros k Hk. rewrite Hlow by lia. apply list_lookup_insert_ne. lia.
  - intros k Hk. destruct (decide (k = i)) as [->|]; [|apply Hper; lia].
    rewrite !Hlow by lia. rewrite list_lookup_insert_eq, list_lookup_insert_ne by lia. done.
Qed.

Lemma Chacha8SeedFromStored_spec stored :
  stored <> [] -> length stored <= 32 ->
  exists seed, Chacha8SeedFromStored stored = Ok seed /\ length seed = 32 /\
    forall k, k < 32 -> seed !! k = stored !! (k mod length stored).
Proof.
  intros Hne Hle. assert (0 < length stored) by (by destruct stored; cbn; [|lia]).
  unfold Chacha8SeedFromStored. rewrite take_ge by lia.
  edestruct (expand_seed_spec (length stored) (length stored) (32 - length stored))
    as (seed & -> & Hl & Hlow & Hper); [done|done|rewrite length_app, length_replicate; lia|].
  rewrite length_app, length_replicate in Hl.
  exists seed. split_and!; [done|lia|]. intros k Hk.
  pose proof (Nat.mod_upper_bound k (length stored)).
  assert (forall j, j < length stored -> seed !! j = stored !! j) as Hst.
  { intros j Hj. rewrite Hlow, lookup_app_l by done. done. }
  destruct (decide (k < length stored)) as [Hlt|Hge].
  - by rewrite Nat.mod_small, Hst.
  - rewrite Hper by lia. apply Hst. lia.
Qed.

Section Chains.
Context {rand : Random}.

Lemma SeedBytes_length t p a : length (SeedBytes t p a) = 16.
Proof. unfold SeedBytes. rewrite length_take, sha256_length. done. Qed.

(** What a chain contains, for any usable seed. *)
Definition chain_of (cs chain : list Member) : Prop :=
  NoDup (EndpointID <$> chain) /\
  (forall m, m ∈ chain -> m ∈ cs /\ (0 < OriginalWeight m)%Z) /\
  (forall m, m ∈ cs -> (0 < OriginalWeight m)%Z -> EndpointID m ∈ EndpointID <$> chain).

Lemma weighted_chain_spec stored cs :
  stored <> [] -> length stored <= 32 ->
  exists chain, weighted_chain stored cs = Ok chain /\ chain_of cs chain.
Proof.
  intros Hne Hle. unfold weighted_chain.
  destruct (Chacha8SeedFromStored_spec stored Hne Hle) as (seed & -> & _). cbn.
  destruct (shuffle_perm (length (expand cs) - 1) (NewChaCha8 seed) (expand cs))
    as (w & -> & Hp); [lia|]. cbn. eexists. split; [done|]. split_and!.
  - apply NoDup_dedup.
  - intros m [Hm _]%elem_of_dedup. rewrite Hp in Hm. by apply elem_of_expand.
  - intros m Hm Hw. apply dedup_complete; [|set_solver]. rewrite Hp. by apply elem_of_expand.
Qed.

Lemma SeedBytes_usable t p a : SeedBytes t p a <> [] /\ length (SeedBytes t p a) <= 32.
Proof. pose proof (SeedBytes_length t p a). split; [|lia]. by destruct (SeedBytes t p a). Qed.

(** What a decision asks of a member: at least the required trust tier, one of
    the required residencies, every required capability. *)
Definition satisfies (m : Member) (dec : option Decision) (pricing : option PricingConfig) : Prop :=
  forall d, dec = Some d ->
  (RequiredTrustTier d = "" \/
     (trustTierRank (RequiredTrustTier d) <= trustTierRank (TrustTier m))%Z) /\
  (RequiredDataResidency d = [] \/ DataResidency m ∈ RequiredDataResidency d) /\
  Forall (fun cap => memberSupports m cap pricing = true) (RequiredCapabilities d).

Lemma residency_found_spec r rs : residency_found r rs = true <-> r ∈ rs.
Proof. induction rs as [|r' rs IH]; cbn; [set_solver|]. destruct (String.eqb_spec r r'); set_solver. Qed.

Lemma supports_all_spec m caps pricing :
  supports_all m caps pricing = true <-> Forall (fun cap => memberSupports m cap pricing = true) caps.
Proof.
  induction caps as [|c caps IH]; cbn; [by rewrite Forall_nil|].
  rewrite list.Forall_cons, <- IH. destruct (memberSupports m c pricing); cbn; naive_solver.
Qed.

Lemma satisfiesConstraints_sound m dec pricing :
  satisfiesConstraints m dec pricing = true <-> satisfies m dec pricing.
Proof.
  unfold satisfies. destruct dec as [dec|]; [|by split]. cbn [satisfiesConstraints].
  trans ((RequiredTrustTier dec = "" \/
     (trustTierRank (RequiredTrustTier dec) <= trustTierRank (TrustTier m))%Z) /\
    (RequiredDataResidency dec = [] \/ DataResidency m ∈ RequiredDataResidency dec) /\
    Forall (fun cap => memberSupports m cap pricing = true) (RequiredCapabilities dec));
    [|split; [by intros ? d [= <-]|by intros H; apply H]].
  rewrite <- supports_all_spec, <- residency_found_spec.
  destruct (RequiredTrustTier dec) as [|ch tier] eqn:Ht; cbn [is_empty negb andb];
    [|destruct (Z.ltb_spec (trustTierRank (TrustTier m)) (trustTierRank (String ch tier)))];
    destruct (RequiredDataResidency dec) as [|r rs] eqn:Hr; cbn [length Nat.ltb Nat.leb andb];
    try destruct (residency_found (DataResidency m) (r :: rs)); cbn [negb];
    naive_solver lia.
Qed.

(** The members of a pool that may be selected. *)
Definition eligible (s : Selector) (pool : Pool) (dec : option Decision) (c : Member) : Prop :=
  (exists m ep, m ∈ Members pool /\ Registry s !! pm_EndpointID m = Some ep /\ c = candidate m ep) /\
  satisfies c dec (sel_pricing s).

Lemma elem_of_candidates s pool dec c :
  c ∈ filter (fun c => satisfiesConstraints c dec (sel_pricing s) = true)
        (collect (Registry s) (Members pool)) <-> eligible s pool dec c.
Proof. rewrite list_elem_of_filter, elem_of_collect, satisfiesConstraints_sound. unfold eligible. tauto. Qed.

(** Every member of a chain that is returned is eligible. *)
Lemma BuildChain_eligible s poolName dec traceID attemptNo chain :
  BuildChain s poolName dec traceID attemptNo = Ok chain ->
  exists pool, sel_Pools s !! poolName = Some pool /\
    forall c, c ∈ chain -> eligible s pool dec c /\ (0 < OriginalWeight c)%Z.
Proof.
  unfold BuildChain. destruct (sel_Pools s !! poolName) as [pool|]; [|done]. cbv zeta.
  destruct (_ =? 0)%nat; [by destruct dec|].
  destruct (weighted_chain_spec (SeedBytes traceID poolName attemptNo)
    (filter (fun c => satisfiesConstraints c dec (sel_pricing s) = true)
      (collect (Registry s) (Members pool)))) as (chain' & -> & _ & Hin & _); [apply SeedBytes_usable..|].
  intros [= <-]. exists pool. split; [done|]. intros c [Hc ?]%Hin. split; [|done].
  by apply elem_of_candidates.
Qed.

(** With positive weights and a decision, it returns a member or an error. *)
Lemma BuildChain_head s poolName dec traceID attemptNo :
  (forall pool m, sel_Pools s !! poolName = Some pool -> m ∈ Members pool -> (0 < pm_Weight m)%Z) ->
  (exists m chain, BuildChain s poolName (Some dec) traceID attemptNo = Ok (m :: chain)) \/
  (exists e, BuildChain s poolName (Some dec) traceID attemptNo = Err e).
Proof.
  intros Hw. unfold BuildChain. destruct (sel_Pools s !! poolName) as [pool|]; [|right; by eexists]. cbv zeta.
  match goal with |- context [length ?l] => destruct l as [|c0 cs] eqn:Hcs end;
    [right; cbn; by eexists|left].
  destruct (weighted_chain_spec (SeedBytes traceID poolName attemptNo) (c0 :: cs))
    as (chain & -> & _ & _ & Hall); [apply SeedBytes_usable..|].
  destruct chain as [|m chain]; [|by eexists _, _]. exfalso.
  assert (Hc0 : c0 ∈ c0 :: cs) by left. specialize (Hall c0 Hc0).
  assert (0 < OriginalWeight c0)%Z as Hpos.
  { rewrite <- Hcs, elem_of_candidates in Hc0. destruct Hc0 as [(m & ep & Hm & _ & ->) _].
    by apply (Hw pool). }
  specialize (Hall Hpos). by apply elem_of_nil in Hall.
Qed.

(** Without regard to limits: the chain holds exactly the endpoints of the
    eligible members with positive weight. *)
Lemma BuildChain_complete s poolName pool dec traceID attemptNo c0 :
  sel_Pools s !! poolName = Some pool -> eligible s pool dec c0 ->
  exists chain, BuildChain s poolName dec traceID attemptNo = Ok chain /\
    NoDup (EndpointID <$> chain) /\
    (forall c, c ∈ chain -> eligible s pool dec c /\ (0 < OriginalWeight c)%Z) /\
    (forall c, eligible s pool dec c -> (0 < OriginalWeight c)%Z ->
       EndpointID c ∈ EndpointID <$> chain).
Proof.
  intros Hp Hc%elem_of_candidates. unfold BuildChain. rewrite Hp. cbv zeta.
  setoid_rewrite <- elem_of_candidates.
  destruct (Nat.eqb_spec (length (filter (fun c => satisfiesConstraints c dec (sel_pricing s) = true)
    (collect (Registry s) (Members pool)))) 0) as [He|_].
  { apply nil_length_inv in He. rewrite He in Hc. by apply elem_of_nil in Hc. }
  apply weighted_chain_spec; apply SeedBytes_usable.
Qed.

(** ** Claims *)

(** C8: [BuildChain] on a declared pool, when some member is eligible
    (registered and satisfying every constraint), never fails or indexes out
    of range: it returns a chain without repeated endpoints, all of whose
    members satisfy the decision's constraints and have positive weight.  For a
    pool that names no fallback pool they are members of the pool, and when the
    pool has no more members than its [max_attempts], every eligible member
    with positive weight has its endpoint in the chain. *)
Theorem build_chain_correct s poolName pool dec traceID attemptNo c0 :
  sel_Pools s !! poolName = Some pool -> eligible s pool dec c0 ->
  exists chain, BuildChain s poolName dec traceID attemptNo = Ok chain /\
    NoDup (EndpointID <$> chain) /\
    (forall c, c ∈ chain -> satisfies c dec (sel_pricing s) /\ (0 < OriginalWeight c)%Z) /\
    (FallbackPool pool = "" -> forall c, c ∈ chain -> eligible s pool dec c) /\
    ((Z.of_nat (length (Members pool)) <= MaxAttempts pool)%Z ->
     forall c, eligible s pool dec c -> (0 < OriginalWeight c)%Z -> EndpointID c ∈ EndpointID <$> chain).
Proof.
  intros Hp Hc. destruct (BuildChain_complete s poolName pool dec traceID attemptNo c0 Hp Hc) as (chain & Hb & Hn & Hin & Hall).
  exists chain. split_and!; [done|done| | |].
  - intros c [[_ Hs] Hw]%Hin. done.
  - by intros _ c [? _]%Hin.
  - by intros _.
Qed.

(** Neither the limit of attempts nor the fallback pool has an influence. *)
Lemma build_chain_ignores_limits s poolName pool fallback attempts dec traceID attemptNo :
  sel_Pools s !! poolName = Some pool ->
  BuildChain {| Registry := Registry s; sel_pricing := sel_pricing s;
     sel_Pools := <[poolName := {| Members := Members pool; FallbackPool := fallback; MaxAttempts := attempts; TimeoutMs := TimeoutMs pool |}]> (sel_Pools s) |}
    poolName dec traceID attemptNo = BuildChain s poolName dec traceID attemptNo.
Proof. intros Hp. unfold BuildChain. cbn [sel_Pools Registry sel_pricing]. by rewrite lookup_insert_eq, Hp. Qed.

(** The failures of [BuildChain] are exact: an undeclared pool is reported
    as such; a pool without an eligible member yields [ErrNoCandidate] when a
    decision is given, and a nil dereference in [constraintSummary] when the
    decision is nil (no member of the pool being registered). *)
Theorem build_chain_errors s poolName dec traceID attemptNo :
  (sel_Pools s !! poolName = None ->
     BuildChain s poolName dec traceID attemptNo = Err (PoolNotFound poolName)) /\
  (forall pool, sel_Pools s !! poolName = Some pool -> (forall c, ~ eligible s pool dec c) ->
     match dec with
     | Some d => exists summary, BuildChain s poolName dec traceID attemptNo
                                 = Err (ErrNoCandidate poolName summary)
     | None => BuildChain s poolName dec traceID attemptNo = Panic
     end).
Proof.
  unfold BuildChain. split; [by intros ->|]. intros pool -> Hno.
  setoid_rewrite <- elem_of_candidates in Hno.
  destruct (filter (fun c => satisfiesConstraints c dec (sel_pricing s) = true)
    (collect (Registry s) (Members pool))) as [|c cs]; cbn.
  - destruct dec; cbn; [by eexists|done].
  - exfalso. apply (Hno c). by left.
Qed.

(** On a pool configuration accepted by [PoolsConfig.Validate], routing
    without a decision's constraints always yields a non-empty chain, so the
    first attempt has a member to go to. *)
Theorem validated_pool_has_chain c order pricing poolName pool dec traceID attemptNo :
  ranges order (Pools c) -> PoolsConfig_Validate order c = Ok tt ->
  Pools c !! poolName = Some pool ->
  match dec with Some d => RequiredTrustTier d = "" /\ RequiredDataResidency d = [] /\
                           RequiredCapabilities d = [] | None => True end ->
  exists m chain, BuildChain (NewSelector c pricing) poolName dec traceID attemptNo = Ok (m :: chain).
Proof.
  intros Hr Hv%PoolsConfig_Validate_wf Hp Hd; [|done]. destruct Hv as [_ Hv].
  destruct (Hv _ _ Hp) as (Hne & Hm & _).
  destruct (Members pool) as [|m ms] eqn:Hms; [done|].
  apply Forall_cons_1 in Hm as [([ep Hep] & Hw) _].
  assert (candidate m ep ∈ filter (fun c0 => satisfiesConstraints c0 dec pricing = true)
    (collect (ProviderEndpoints c) (Members pool))) as Hc.
  { apply list_elem_of_filter. split.
    - apply satisfiesConstraints_sound. intros d ->.
      destruct Hd as (-> & -> & ->). split_and!; [by left|by left|constructor].
    - apply elem_of_collect. exists m, ep. rewrite Hms. split_and!; [by left|done|done]. }
  unfold BuildChain. cbn [NewSelector sel_Pools Registry sel_pricing]. rewrite Hp. cbv zeta.
  destruct (filter _ _) as [|c0 cs] eqn:Hf; [by apply elem_of_nil in Hc|]. cbn [length Nat.eqb].
  destruct (weighted_chain_spec (SeedBytes traceID poolName attemptNo) (c0 :: cs))
    as (chain & -> & _ & _ & Hall); [apply SeedBytes_usable..|].
  specialize (Hall _ Hc Hw). destruct chain as [|m' chain]; [by apply elem_of_nil in Hall|].
  by eexists _, _.
Qed.

(** Replaying a stored routing event against the same registry and pools
    reproduces the chain of the original selection, provided the original
    constraint filter dropped no registered member of the pool. *)
Theorem replay_faithful s poolName pool dec traceID attemptNo sel c0 :
  sel_Pools s !! poolName = Some pool -> c0 ∈ collect (Registry s) (Members pool) ->
  (forall c, c ∈ collect (Registry s) (Members pool) ->
     satisfiesConstraints c dec (sel_pricing s) = true) ->
  Replay {| row_TraceID := traceID; row_AttemptNo := attemptNo; row_PoolSelected := poolName;
            row_Seed := SeedBytes traceID poolName attemptNo; row_MemberSelected := sel |}
         (Registry s) (sel_Pools s)
  = BuildChain s poolName dec traceID attemptNo.
Proof.
  intros Hp Hc0 Hall. unfold Replay, BuildChain. cbn. rewrite Hp. cbv zeta.
  rewrite filter_all by done.
  by destruct (collect (Registry s) (Members pool)); [apply elem_of_nil in Hc0|].
Qed.

(** The stored 16-byte seed is expanded to 32 bytes by repeating it, for
    every stored seed of 1 to 32 bytes; an empty stored seed is a division by
    zero. *)
Theorem seed_expansion stored :
  (stored = [] -> Chacha8SeedFromStored stored = Panic) /\
  (1 <= length stored <= 32 ->
   exists seed, Chacha8SeedFromStored stored = Ok seed /\ length seed = 32 /\
     forall k, k < 32 -> seed !! k = stored !! (k mod length stored)).
Proof.
  split; [by intros ->|]. intros [Hl Hu]. apply Chacha8SeedFromStored_spec; [|done].
  intros ->. cbn in Hl. lia.
Qed.
End Chains.

(** Capability requirements fail closed: a member supports a capability
    only if it is [streaming] and the endpoint streams, or one of the four
    priced capabilities and the pricing table has a row for the member's
    vendor and model that declares it. *)
Theorem member_supports_fail_closed m cap pricing :
  memberSupports m cap pricing = true <->
  (cap = "streaming" /\ m_Streaming m = true) \/
  (exists p row, pricing = Some p /\ PricingConfig_Lookup p (VendorID m) (m_Model m) = Some row /\
     ((cap = "tools" /\ cap_Tools (Capabilities row) = true) \/
      (cap = "cache_control" /\ cap_CacheControl (Capabilities row) = true) \/
      (cap = "extended_thinking" /\ cap_ExtendedThinking (Capabilities row) = true) \/
      (cap = "vision" /\ cap_Vision (Capabilities row) = true))).
Proof.
  unfold memberSupports. split.
  - destruct (String.eqb_spec cap "streaming") as [->|Hs]; [by left|].
    case_bool_decide as Hin; [|done]. destruct pricing as [p|]; [|done].
    destruct (PricingConfig_Lookup p (VendorID m) (m_Model m)) as [row|] eqn:Hl; [|done].
    intros Hc. right. exists p, row. split_and!; [done|done|]. clear Hs Hl.
    rewrite !elem_of_cons in Hin. destruct Hin as [->|[->|[->|[->|H]]]];
      [cbn in Hc; tauto..|by apply elem_of_nil in H].
  - intros [[-> ->]|(p & row & -> & Hl & [[-> Hc]|[[-> Hc]|[[-> Hc]|[-> Hc]]]])]; [done|..];
      cbn; by rewrite Hl.
Qed.

(** The start-up check of the adapters is exact, whatever the iteration
    order of the pool map: it succeeds if and only if every member of every
    pool names a registered endpoint whose wire has an adapter. *)
Theorem validate_pool_adapters_exact s order names :
  ranges order (sel_Pools s) ->
  (ValidatePoolAdapters order s names = Ok tt <->
   forall poolName pool m, sel_Pools s !! poolName = Some pool -> m ∈ Members pool ->
     exists ep, Registry s !! pm_EndpointID m = Some ep /\ ep_Wire ep ∈ names).
Proof.
  intros Ho. unfold ValidatePoolAdapters. cbv zeta.
  assert (forall msgs : list AdapterMismatch,
    (if (0 <? length msgs)%nat then Err (AdapterValidation msgs) else Ok tt) = Ok tt <->
    forall x, x ∉ msgs) as ->.
  { intros [|x msgs]; cbn; [naive_solver set_solver|]. split; [done|]. intros H.
    destruct (H x). by left. }
  assert (forall n m, adapter_msgs s (list_to_set names) n m = [] <->
     exists ep, Registry s !! pm_EndpointID m = Some ep /\ ep_Wire ep ∈ names) as Hmsgs.
  { intros n m. unfold adapter_msgs. destruct (Registry s !! pm_EndpointID m); [|naive_solver].
    case_decide as Hd; rewrite elem_of_list_to_set in Hd; naive_solver. }
  split.
  - intros Hno n p m Hp Hm. apply (Hmsgs n). apply elem_of_nil_inv. intros x Hx.
    apply (Hno x). apply list_elem_of_bind. exists (n, p). split.
    + apply list_elem_of_bind. exists m. done.
    + rewrite Ho. by apply elem_of_map_to_list.
  - intros Hall x Hx. apply list_elem_of_bind in Hx as ([n p] & Hx & Hp).
    apply list_elem_of_bind in Hx as (m & Hx & Hm).
    rewrite Ho in Hp. apply elem_of_map_to_list in Hp.
    specialize (Hall n p m Hp Hm). apply (Hmsgs n m) in Hall. cbn in Hx.
    rewrite Hall in Hx. by apply elem_of_nil in Hx.
Qed.

(** ** A concrete generator *)

Definition sample_random : Random :=
  {| sha256 := fun s => replicate 32 Byte.x2a;
     sha256_length := fun s => length_replicate 32 Byte.x2a;
     Rng := nat; NewChaCha8 := fun seed => 2;
     Rand_IntN := fun r n => ((Z.of_nat r mod n)%Z, S r);
     Rand_IntN_range := fun r n Hn => Z.mod_pos_bound (Z.of_nat r) n Hn |}.

Definition sample_private : ProviderEndpoint :=
  {| ep_Wire := "openai"; ep_Vendor := "ollama"; ep_URL := "http://ollama"; ep_DataResidency := "eu";
     ep_TrustTier := "private"; ep_Deployments := []; ep_Supports := {| Streaming := true |};
     ep_KeyRef := "" |}.
Definition sample_mixed : Pool :=
  {| Members := [{| pm_EndpointID := "ep1"; pm_Model := "claude"; pm_Weight := 2 |};
                 {| pm_EndpointID := "ep2"; pm_Model := "qwen"; pm_Weight := 1 |}];
     FallbackPool := ""; MaxAttempts := 2; TimeoutMs := 1000 |}.
Definition sample_cfg : PoolsConfig :=
  {| ProviderEndpoints := {["ep1" := sample_endpoint; "ep2" := sample_private]};
     Pools := {["mixed" := sample_mixed]} |}.
Definition sample_selector : Selector := NewSelector sample_cfg None.

(** A decision that requires private endpoints. *)
Definition private_only : Decision :=
  {| PrimaryAction := ActionRoute; Modifiers := []; SideEffects := []; ModelPool := "mixed";
     ShadowPool := ""; Redactions := []; Reasons := []; RequiredTrustTier := "private";
     RequiredDataResidency := []; RequiredCapabilities := ["streaming"]; DegradedFeatures := [] |}.

Definition ids (r : outcome RoutingError (list Member)) : outcome RoutingError (list string) :=
  match r with Ok l => Ok (EndpointID <$> l) | Err e => Err e | Panic => Panic end.

Lemma build_chain_correct_witness :
  exists chain, @BuildChain sample_random sample_selector "mixed" (Some private_only) "t" 1 = Ok chain /\ "ep2" ∈ EndpointID <$> chain.
Proof.
  assert (eligible sample_selector sample_mixed (Some private_only)
    (candidate {| pm_EndpointID := "ep2"; pm_Model := "qwen"; pm_Weight := 1 |} sample_private)) as He.
  { split; [|apply satisfiesConstraints_sound; vm_compute; reflexivity]. eexists _, _. split; [right; left|].
    split; [vm_compute; reflexivity|reflexivity]. }
  destruct (@build_chain_correct sample_random sample_selector "mixed" sample_mixed
    (Some private_only) "t" 1 _ eq_refl He) as (chain & Hb & _ & _ & _ & Hall).
  exists chain. split; [exact Hb|]. apply (fun H => Hall H _ He); [vm_compute; discriminate|vm_compute; reflexivity].
Defined.

Lemma validated_pool_has_chain_witness :
  exists m chain, @BuildChain sample_random (NewSelector sample_cfg None) "mixed" None "t" 1
                  = Ok (m :: chain).
Proof.
  apply (@validated_pool_has_chain sample_random sample_cfg [("mixed", sample_mixed)] None "mixed"
           sample_mixed None "t" 1); [|vm_compute; reflexivity|reflexivity|exact I].
  unfold ranges. cbn [sample_cfg Pools]. by rewrite map_to_list_singleton.
Defined.

Lemma replay_faithful_witness :
  @Replay sample_random {| row_TraceID := "t"; row_AttemptNo := 1; row_PoolSelected := "mixed";
            row_Seed := @SeedBytes sample_random "t" "mixed" 1; row_MemberSelected := "" |}
    (Registry sample_selector) (sel_Pools sample_selector)
  = @BuildChain sample_random sample_selector "mixed" None "t" 1.
Proof.
  apply (@replay_faithful sample_random sample_selector "mixed" sample_mixed None "t" 1 ""
    (candidate {| pm_EndpointID := "ep1"; pm_Model := "claude"; pm_Weight := 2 |} sample_endpoint)).
  - reflexivity.
  - vm_compute. left.
  - reflexivity.
Defined.

Lemma validate_pool_adapters_exact_witness :
  ValidatePoolAdapters [("mixed", sample_mixed)] sample_selector ["anthropic"; "openai"] = Ok tt /\ exists ep, Registry sample_selector !! "ep2" = Some ep /\ ep_Wire ep ∈ ["anthropic"; "openai"].
Proof.
  split; [vm_compute; reflexivity|].
  apply (proj1 (validate_pool_adapters_exact sample_selector [("mixed", sample_mixed)]
    ["anthropic"; "openai"] ltac:(unfold ranges; cbn [sample_selector NewSelector sel_Pools sample_cfg Pools];
      by rewrite map_to_list_singleton)) ltac:(vm_compute; reflexivity) "mixed" sample_mixed
    {| pm_EndpointID := "ep2"; pm_Model := "qwen"; pm_Weight := 1 |} eq_refl ltac:(right; left)).
Defined.

(** [Replay] has no constraint filter, so it does not reproduce a
    selection that filtered a member: with one vendor and one private
    endpoint, a request that requires private endpoints is routed to [ep2]
    alone, while replaying its own event yields [ep1] first. *)
Theorem replay_ignores_constraints :
  exists s dec traceID attemptNo,
    ids (@BuildChain sample_random s "mixed" (Some dec) traceID attemptNo) = Ok ["ep2"] /\ ids (@Replay sample_random
           {| row_TraceID := traceID; row_AttemptNo := attemptNo; row_PoolSelected := "mixed";
              row_Seed := @SeedBytes sample_random traceID "mixed" attemptNo;
              row_MemberSelected := "ep2" |} (Registry s) (sel_Pools s)) = Ok ["ep1"; "ep2"].
Proof. exists sample_selector, private_only, "t", 1%Z. vm_compute. split; reflexivity. Qed.
