(* ===== verification/Budget.v ===== *)
(** * Budget reservations

    [internal/gw/budget]: the in-memory three-phase service (service.go), the
    Postgres one (pg_service.go) and the settler (settler.go).  Amounts are
    64-bit integers.  [uuid.New()] and [time.Now()] are arguments; the order
    in which a Go map is ranged over is an argument too.  The Postgres table
    is a map from primary keys to rows with the column types of migration 0001
    (a trace id that is no UUID or an amount beyond an INTEGER is refused, times
    are kept to the microsecond); whether a statement succeeds otherwise is an
    argument, so that every error path is a branch. *)

From stdpp Require Import sorting base gmap strings fin_maps numbers list.
From S2P Require Import Prelude Postgres.
Local Open Scope string_scope.

Abbreviation uuid := N.
(** [time.Time] and [time.Duration], in nanoseconds. *)
Abbreviation time := Z.

Inductive State := StateReserved | StateCommitted | StateReleased | StateExpired.
#[export] Instance State_eq_dec : EqDecision State.
Proof. solve_decision. Defined.

Record Reservation := {
  ID : uuid;
  TraceID : string;
  TenantID : string;
  UserID : string;
  TeamID : string;
  EstimatedCents : Z;
  ActualCents : option Z;
  r_State : State;
  CreatedAt : time;
  SettledAt : option time }.

Inductive BudgetError :=
| NotFound (id : uuid)
| CannotCommit (id : uuid) (st : State)
| NotReserved (id : uuid)
| DbError.

(** The reservation both services create. *)
Definition newReservation (id : uuid) (now : time) (traceID tenantID userID teamID : string)
    (estimatedCents : Z) : Reservation :=
  {| ID := id; TraceID := traceID; TenantID := tenantID; UserID := userID; TeamID := teamID;
     EstimatedCents := estimatedCents; ActualCents := None; r_State := StateReserved;
     CreatedAt := now; SettledAt := None |}.

(** [r.ActualCents = &a; r.State = StateCommitted; r.SettledAt = &now] *)
Definition committed (r : Reservation) (actual : Z) (now : time) : Reservation :=
  {| ID := ID r; TraceID := TraceID r; TenantID := TenantID r; UserID := UserID r;
     TeamID := TeamID r; EstimatedCents := EstimatedCents r; ActualCents := Some actual;
     r_State := StateCommitted; CreatedAt := CreatedAt r; SettledAt := Some now |}.

(** [r.State = st; r.SettledAt = &now] *)
Definition settled (r : Reservation) (st : State) (now : time) : Reservation :=
  {| ID := ID r; TraceID := TraceID r; TenantID := TenantID r; UserID := UserID r;
     TeamID := TeamID r; EstimatedCents := EstimatedCents r; ActualCents := ActualCents r;
     r_State := st; CreatedAt := CreatedAt r; SettledAt := Some now |}.

(** A stale reservation: still reserved and created before the cutoff. *)
Definition stale (cutoff : time) (r : Reservation) : bool :=
  bool_decide (r_State r = StateReserved) && (CreatedAt r <? cutoff)%Z.

(** ** service.go *)

Record Service := {
  reservations : gmap uuid Reservation;
  teams : gmap string Z;
  used : gmap string Z;
  alertFn : bool                            (** a callback is registered *) }.

Definition NewService : Service :=
  {| reservations := ∅; teams := ∅; used := ∅; alertFn := false |}.

Definition SetTeamCap (s : Service) (teamID : string) (capCents : Z) : Service :=
  {| reservations := reservations s; teams := <[teamID := capCents]> (teams s);
     used := used s; alertFn := alertFn s |}.

Definition OnAlert (s : Service) (fn : bool) : Service :=
  {| reservations := reservations s; teams := teams s; used := used s; alertFn := fn |}.

(** [s.used[teamID]]: a missing key reads as 0. *)
Definition TeamUsed (s : Service) (teamID : string) : Z := default 0%Z (used s !! teamID).

(** The soft warning shared by both services: the alerts sent. *)
Definition soft_warn (caps : gmap string Z) (alert : bool) (teamID : string) (usedCents : Z)
    : list (string * Z * Z) :=
  match caps !! teamID with
  | Some cap =>
      if (0 <? cap)%Z && (80 <=? int_quo (int_mul usedCents 100) cap)%Z && alert
      then [(teamID, usedCents, cap)] else []
  | None => []
  end.

(** [Reserve]: the new state, the reservation and the alerts sent.  It never
    returns an error. *)
Definition Reserve (s : Service) (id : uuid) (now : time)
    (traceID tenantID userID teamID : string) (estimatedCents : Z)
    : Service * Reservation * list (string * Z * Z) :=
  let r := newReservation id now traceID tenantID userID teamID estimatedCents in
  let used' := <[teamID := int_add (TeamUsed s teamID) estimatedCents]> (used s) in
  let s' := {| reservations := <[id := r]> (reservations s); teams := teams s;
               used := used'; alertFn := alertFn s |} in
  (s', r, soft_warn (teams s) (alertFn s) teamID (TeamUsed s' teamID)).

(** [s.used[team] += delta] *)
Definition add_used (s : Service) (teamID : string) (delta : Z) : Service :=
  {| reservations := reservations s; teams := teams s;
     used := <[teamID := int_add (TeamUsed s teamID) delta]> (used s); alertFn := alertFn s |}.
(** [s.used[team] -= delta] *)
Definition sub_used (s : Service) (teamID : string) (delta : Z) : Service :=
  {| reservations := reservations s; teams := teams s;
     used := <[teamID := int_sub (TeamUsed s teamID) delta]> (used s); alertFn := alertFn s |}.
(** A write through the [*Reservation] stored under [id]. *)
Definition set_reservation (s : Service) (id : uuid) (r : Reservation) : Service :=
  {| reservations := <[id := r]> (reservations s); teams := teams s; used := used s;
     alertFn := alertFn s |}.

Definition Commit (s : Service) (id : uuid) (actualCents : Z) (now : time)
    : Service * outcome BudgetError unit :=
  match reservations s !! id with
  | None => (s, Err (NotFound id))
  | Some r =>
      if decide (r_State r <> StateReserved) then (s, Err (CannotCommit id (r_State r)))
      else
        let s := sub_used s (TeamID r) (EstimatedCents r) in
        let s := add_used s (TeamID r) actualCents in
        (set_reservation s id (committed r actualCents now), Ok tt)
  end.

Definition Release (s : Service) (id : uuid) (now : time) : Service * outcome BudgetError unit :=
  match reservations s !! id with
  | None => (s, Err (NotFound id))
  | Some r =>
      if decide (r_State r = StateReleased \/ r_State r = StateExpired) then (s, Ok tt)
      else
        let s := sub_used s (TeamID r) (EstimatedCents r) in
        (set_reservation s id (settled r StateReleased now), Ok tt)
  end.

Definition GetReservation (s : Service) (id : uuid) : outcome BudgetError Reservation :=
  match reservations s !! id with None => Err (NotFound id) | Some r => Ok r end.

Definition ExpiredReservations (order : list (uuid * Reservation)) (now maxAge : time)
    : list Reservation :=
  filter (fun r => stale (now - maxAge) r = true) (snd <$> order).

(** [ReleaseExpired]: one pass over the map in the order [order]; the ids
    released, in that order. *)
Fixpoint release_loop (cutoff now : time) (order : list (uuid * Reservation)) (s : Service)
    (released : list uuid) : Service * list uuid :=
  match order with
  | [] => (s, released)
  | (id, r) :: order =>
      if stale cutoff r then
        let s := sub_used s (TeamID r) (EstimatedCents r) in
        let s := set_reservation s id (settled r StateExpired now) in
        release_loop cutoff now order s (released ++ [ID r])%list
      else release_loop cutoff now order s released
  end.
Definition ReleaseExpired (order : list (uuid * Reservation)) (s : Service) (now maxAge : time)
    : Service * list uuid :=
  release_loop (now - maxAge) now order s [].

(** ** pg_service.go *)

Record PgService := {
  table : gmap uuid Reservation;       (** the [budget_reservation] table *)
  pg_teams : gmap string Z;
  pg_alertFn : bool }.

Definition NewPgService : PgService := {| table := ∅; pg_teams := ∅; pg_alertFn := false |}.

Definition set_table (s : PgService) (t : gmap uuid Reservation) : PgService :=
  {| table := t; pg_teams := pg_teams s; pg_alertFn := pg_alertFn s |}.

Definition Pg_SetTeamCap (s : PgService) (teamID : string) (capCents : Z) : PgService :=
  {| table := table s; pg_teams := <[teamID := capCents]> (pg_teams s); pg_alertFn := pg_alertFn s |}.
Definition Pg_OnAlert (s : PgService) (fn : bool) : PgService :=
  {| table := table s; pg_teams := pg_teams s; pg_alertFn := fn |}.

(** A sum over the values of a map. *)
Definition msum {V} (f : V -> Z) (m : gmap uuid V) : Z := map_fold (fun _ v acc => f v + acc)%Z 0%Z m.

(** [COALESCE(actual_cents, estimated_cents)] of the rows selected by the
    [WHERE] clause. *)
Definition row_used (teamID : string) (r : Reservation) : Z :=
  if decide (TeamID r = teamID /\ (r_State r = StateReserved \/ r_State r = StateCommitted))
  then default (EstimatedCents r) (ActualCents r) else 0%Z.

(** The query's error is dropped, leaving [used] at 0; a sum beyond a bigint
    is such an error. *)
Definition Pg_TeamUsed (db : bool) (s : PgService) (teamID : string) : Z :=
  let sum := msum (row_used teamID) (table s) in
  if db && (- 2 ^ 63 <=? sum)%Z && (sum <? 2 ^ 63)%Z then sum else 0%Z.

Section Statements.
Context {pgt : PgTypes}.

(** [INSERT]: the trace id must be a UUID and the estimate an INTEGER; a
    duplicate primary key is an error.  The row has the columns' values, the
    reservation returned the caller's. *)
Definition Pg_Reserve (db db' : bool) (s : PgService) (id : uuid) (now : time)
    (traceID tenantID userID teamID : string) (estimatedCents : Z)
    : PgService * outcome BudgetError Reservation * list (string * Z * Z) :=
  let r := newReservation id now traceID tenantID userID teamID estimatedCents in
  match uuid_text traceID with
  | None => (s, Err DbError, [])
  | Some u =>
      if negb (int4 estimatedCents) || negb db || bool_decide (is_Some (table s !! id)) then (s, Err DbError, [])
      else
        let row := newReservation id (pg_time now) u tenantID userID teamID estimatedCents in
        let s' := set_table s (<[id := row]> (table s)) in
        (s', Ok r, soft_warn (pg_teams s) (pg_alertFn s) teamID (Pg_TeamUsed db' s' teamID))
  end.

(** [UPDATE ... SET actual_cents = $2 ... WHERE id = $4 AND state = 'reserved'];
    the amount is encoded as an INTEGER. *)
Definition Pg_Commit (db : bool) (s : PgService) (id : uuid) (actualCents : Z) (now : time)
    : PgService * outcome BudgetError unit :=
  if negb (int4 actualCents) || negb db then (s, Err DbError)
  else match table s !! id with
       | Some r =>
           if decide (r_State r = StateReserved)
           then (set_table s (<[id := committed r actualCents (pg_time now)]> (table s)), Ok tt)
           else (s, Err (NotReserved id))
       | None => (s, Err (NotReserved id))
       end.

(** [UPDATE ... WHERE id = $3 AND state NOT IN ('released','expired')]; the
    number of rows affected is not inspected. *)
Definition Pg_Release (db : bool) (s : PgService) (id : uuid) (now : time)
    : PgService * outcome BudgetError unit :=
  if negb db then (s, Err DbError)
  else match table s !! id with
       | Some r =>
           if decide (r_State r <> StateReleased /\ r_State r <> StateExpired)
           then (set_table s (<[id := settled r StateReleased (pg_time now)]> (table s)), Ok tt)
           else (s, Ok tt)
       | None => (s, Ok tt)
       end.

Definition Pg_GetReservation (db : bool) (s : PgService) (id : uuid) : outcome BudgetError Reservation :=
  if negb db then Err (NotFound id)
  else match table s !! id with None => Err (NotFound id) | Some r => Ok r end.

Definition Pg_ExpiredReservations (db : bool) (order : list (uuid * Reservation)) (now maxAge : time)
    : list Reservation :=
  if negb db then [] else filter (fun r => stale (pg_time (now - maxAge)) r = true) (snd <$> order).

Definition expire (cutoff now : time) (r : Reservation) : Reservation :=
  if stale cutoff r then settled r StateExpired now else r.

(** [UPDATE ... WHERE state = 'reserved' AND created_at < $4 RETURNING id],
    the rows returned in the order [order]. *)
Definition Pg_ReleaseExpired (db : bool) (order : list (uuid * Reservation)) (s : PgService)
    (now maxAge : time) : PgService * list uuid :=
  if negb db then (s, [])
  else (set_table s (expire (pg_time (now - maxAge)) (pg_time now) <$> table s),
        ID <$> filter (fun r => stale (pg_time (now - maxAge)) r = true) (snd <$> order)).
End Statements.

(** ** settler.go

    The interface [Settlable] is a function from a service state; the loop
    body on a tick calls it and, when something expired and a callback is
    registered, passes the ids on. *)
Record Settler := { done : bool; onAudit : bool }.
Definition NewSettler : Settler := {| done := false; onAudit := false |}.
Definition Settler_OnAudit (s : Settler) (fn : bool) : Settler := {| done := done s; onAudit := fn |}.
(** A second [Stop] finds the channel closed and does nothing. *)
Definition Stop (s : Settler) : Settler :=
  if done s then s else {| done := true; onAudit := onAudit s |}.

Section Settling.
Context {Svc : Type} (releaseExpired : Svc -> time -> Svc * list uuid).

Definition RunOnce (svc : Svc) (maxAge : time) : Svc * list uuid := releaseExpired svc maxAge.

(** One [case <-ticker.C]: the new service state and the audit callbacks. *)
Definition settler_tick (s : Settler) (maxAge : time) (svc : Svc) : Svc * list (list uuid) :=
  let '(svc', expired) := releaseExpired svc maxAge in
  (svc', if (0 <? length expired)%nat && onAudit s then [expired] else []).
End Settling.

(** ** Sums over a map *)

Section Sums.
Context {V : Type}.
Implicit Types (f : V -> Z) (m : gmap uuid V).

Lemma msum_empty f : msum f ∅ = 0%Z.
Proof. apply map_fold_empty. Qed.

Lemma msum_insert_new f m i v : m !! i = None -> msum f (<[i:=v]> m) = (f v + msum f m)%Z.
Proof. intros Hi. unfold msum. rewrite map_fold_insert_L; [done| |done]. intros. lia. Qed.

Lemma msum_update f m i v w :
  m !! i = Some v -> msum f (<[i:=w]> m) = (msum f m - f v + f w)%Z.
Proof.
  intros Hi. rewrite <- (insert_delete_id m i v Hi) at 2. rewrite <- insert_delete_eq.
  rewrite !msum_insert_new by apply lookup_delete_eq. lia.
Qed.

Lemma msum_ext f g m :
  (forall i v, m !! i = Some v -> f v = g v) -> msum f m = msum g m.
Proof.
  induction m as [|i v m Hi IH] using map_ind; intros H; [done|].
  rewrite !msum_insert_new by done. rewrite (H i v) by apply lookup_insert_eq. f_equal.
  apply IH. intros j w Hj. apply (H j). rewrite lookup_insert_ne; [done|]. congruence.
Qed.
End Sums.

(** ** The ledger invariant of the in-memory service *)

(** What a reservation contributes to its team's [used].  A reservation that
    was committed and then released leaves the difference behind. *)
Definition contribution (teamID : string) (r : Reservation) : Z :=
  if decide (TeamID r = teamID) then
    match r_State r, ActualCents r with
    | StateReserved, _ => EstimatedCents r
    | StateCommitted, Some a => a
    | StateReleased, Some a => a - EstimatedCents r
    | _, _ => 0
    end%Z
  else 0%Z.

(** A reservation's fields agree with its state. *)
Definition wf_reservation (id : uuid) (r : Reservation) : Prop :=
  ID r = id /\
  match r_State r with
  | StateReserved => ActualCents r = None /\ SettledAt r = None
  | StateCommitted => is_Some (ActualCents r) /\ is_Some (SettledAt r)
  | StateReleased => is_Some (SettledAt r)
  | StateExpired => ActualCents r = None /\ is_Some (SettledAt r)
  end.

Record ledger (s : Service) : Prop := {
  ledger_wf : map_Forall wf_reservation (reservations s);
  ledger_used t : TeamUsed s t = wrap64 (msum (contribution t) (reservations s)) }.

Lemma TeamUsed_insert s rs al t u t' :
  TeamUsed {| reservations := rs; teams := teams s; used := <[t:=u]> (used s); alertFn := al |} t'
  = if decide (t' = t) then u else TeamUsed s t'.
Proof.
  unfold TeamUsed. cbn. case_decide; subst; [by rewrite lookup_insert_eq|].
  by rewrite lookup_insert_ne.
Qed.

Lemma contribution_other t r : TeamID r <> t -> contribution t r = 0%Z.
Proof. intros. unfold contribution. by rewrite decide_False. Qed.

(** Replacing one reservation moves [used] by the change of its contribution. *)
Lemma ledger_update s s' id r r' :
  ledger s -> reservations s !! id = Some r ->
  reservations s' = <[id := r']> (reservations s) ->
  wf_reservation id r' -> TeamID r' = TeamID r ->
  (forall t, TeamUsed s' t =
     if decide (TeamID r = t)
     then wrap64 (TeamUsed s t - contribution t r + contribution t r') else TeamUsed s t) ->
  ledger s'.
Proof.
  intros [Hwf Hu] Hr Hs' Hwf' Ht Hus. split.
  - rewrite Hs'. by apply map_Forall_insert_2.
  - intros t. rewrite Hus, Hs', (msum_update _ _ _ r) by done. rewrite Hu. case_decide as Hd.
    + replace (wrap64 (msum (contribution t) (reservations s)) - contribution t r + contribution t r')%Z
        with (wrap64 (msum (contribution t) (reservations s)) - (contribution t r - contribution t r'))%Z
        by lia. rewrite wrap64_sub_l. f_equal. lia.
    + rewrite !contribution_other by congruence. f_equal. lia.
Qed.

Lemma NewService_ledger : ledger NewService.
Proof. split; [apply map_Forall_empty|]. intros t. cbn. by rewrite msum_empty. Qed.

Lemma Reserve_ledger s id now tr tn us te est :
  ledger s -> reservations s !! id = None -> ledger (Reserve s id now tr tn us te est).1.1.
Proof.
  intros [Hwf Hu] Hid. split; cbn.
  - apply map_Forall_insert_2; [|done]. done.
  - intros t. rewrite TeamUsed_insert, msum_insert_new by done. unfold contribution at 1; cbn.
    destruct (decide (t = te)) as [->|].
    + rewrite decide_True by done. rewrite Hu. wrap64.
    + rewrite decide_False by done. by rewrite Hu.
Qed.

Lemma Commit_ledger s id a now : ledger s -> ledger (Commit s id a now).1.
Proof.
  intros Hl. unfold Commit. destruct (reservations s !! id) as [r|] eqn:Hr; [|done].
  case_decide as Hst; [done|]. cbn.
  pose proof (ledger_wf s Hl id r Hr) as [Hid Hw]. rewrite Hst in Hw.
  eapply (ledger_update s _ id r (committed r a now)); [done|done|done|by split_and!|done|].
  intros t. unfold TeamUsed at 1. cbn. fold (TeamUsed s (TeamID r)).
  unfold contribution. cbn. rewrite Hst. case_decide as Ht.
  - subst t. rewrite lookup_insert_eq. cbn. unfold TeamUsed at 1. cbn.
    rewrite lookup_insert_eq. cbn. wrap64.
  - rewrite !lookup_insert_ne by done. done.
Qed.

Lemma settle_ledger s id r st now :
  ledger s -> reservations s !! id = Some r ->
  (st = StateReleased /\ (r_State r = StateReserved \/ r_State r = StateCommitted) \/
   st = StateExpired /\ r_State r = StateReserved) ->
  ledger (set_reservation (sub_used s (TeamID r) (EstimatedCents r)) id (settled r st now)).
Proof.
  intros Hl Hr Hst. pose proof (ledger_wf s Hl id r Hr) as [Hid Hw].
  eapply (ledger_update s _ id r (settled r st now)); [done|done|done| |done|].
  - split; [done|]. cbn. destruct Hst as [[-> _]|[-> Hst]]; [done|]. by rewrite Hst in Hw; destruct Hw.
  - intros t. unfold TeamUsed at 1. cbn. unfold contribution. cbn.
    case_decide as Ht; [|by rewrite lookup_insert_ne].
    subst t. rewrite lookup_insert_eq. cbn. unfold int_sub.
    destruct Hst as [[-> [Hst|Hst]]|[-> Hst]]; rewrite Hst in Hw |- *.
    + destruct Hw as [-> _]. f_equal. lia.
    + destruct Hw as [[a ->] _]. f_equal. lia.
    + f_equal. lia.
Qed.

Lemma Release_ledger s id now : ledger s -> ledger (Release s id now).1.
Proof.
  intros Hl. unfold Release. destruct (reservations s !! id) as [r|] eqn:Hr; [|done].
  case_decide as Hst; [done|]. apply settle_ledger; [done|done|]. left. split; [done|].
  destruct (r_State r); naive_solver.
Qed.

(** ** Expiry does not depend on the iteration order *)

Definition stale_rows (cutoff : time) (order : list (uuid * Reservation)) : list Reservation :=
  filter (fun r => stale cutoff r = true) (snd <$> order).

Lemma stale_reserved cutoff r : stale cutoff r = true -> r_State r = StateReserved.
Proof. unfold stale. by intros [H%bool_decide_eq_true _]%andb_true_iff. Qed.

(** The loop with pending entries [order], none of them handled yet. *)
Lemma release_loop_spec cutoff now order s released :
  NoDup order.*1 -> (forall id r, (id, r) ∈ order -> reservations s !! id = Some r) ->
  let '(s', released') := release_loop cutoff now order s released in
  (ledger s -> ledger s') /\ released' = (released ++ (ID <$> stale_rows cutoff order))%list /\
  teams s' = teams s /\ alertFn s' = alertFn s /\
  forall id, reservations s' !! id =
    if decide (id ∈ order.*1) then expire cutoff now <$> reservations s !! id
    else reservations s !! id.
Proof.
  revert s released. induction order as [|[id r] order IH]; intros s released Hnd Hin; cbn [release_loop].
  { split_and!; [done|by rewrite app_nil_r|done..|]. intros i. by rewrite decide_False by apply not_elem_of_nil. }
  cbn in Hnd. apply NoDup_cons in Hnd as [Hid Hnd].
  assert (reservations s !! id = Some r) as Hr by (apply Hin; by left).
  unfold stale_rows. cbn [fmap list_fmap snd]. rewrite filter_cons. fold (stale_rows cutoff order).
  destruct (stale cutoff r) eqn:Hst.
  - set (s1 := set_reservation _ _ _).
    specialize (IH s1 (released ++ [ID r])%list Hnd). destruct (release_loop _ _ _ s1 _) as [s' rel'].
    destruct IH as (Hl & -> & Ht & Ha & Hres).
    { intros i q Hq. unfold s1. cbn. rewrite lookup_insert_ne; [by apply Hin; right|].
      intros <-. apply Hid. apply list_elem_of_fmap. by exists (id, q). }
    split_and!; [|by rewrite <- app_assoc|done|done|].
    + intros Hs. apply Hl. apply settle_ledger; [done|done|right]. split; [done|]. by eapply stale_reserved.
    + intros i. rewrite Hres. unfold s1. cbn. destruct (decide (i = id)) as [->|Hne].
      * rewrite decide_False, decide_True by (done || by left). rewrite lookup_insert_eq, Hr. cbn.
        unfold expire. by rewrite Hst.
      * rewrite lookup_insert_ne by done. erewrite decide_ext; [done|]. rewrite elem_of_cons. tauto.
  - specialize (IH s released Hnd). destruct (release_loop _ _ _ s _) as [s' rel'].
    destruct IH as (Hl & -> & Ht & Ha & Hres); [by intros i q Hq; apply Hin; right|].
    split_and!; [done|done|done|done|].
    intros i. rewrite Hres. cbn. destruct (decide (i = id)) as [->|Hne].
    + rewrite decide_False, decide_True by (done || by left). rewrite Hr. cbn.
      unfold expire. by rewrite Hst.
    + erewrite decide_ext; [done|]. rewrite elem_of_cons. tauto.
Qed.

Lemma ReleaseExpired_spec order s now maxAge :
  order ≡ₚ map_to_list (reservations s) ->
  let '(s', released) := ReleaseExpired order s now maxAge in
  (ledger s -> ledger s') /\ released = ID <$> stale_rows (now - maxAge) order /\
  teams s' = teams s /\ alertFn s' = alertFn s /\
  reservations s' = expire (now - maxAge) now <$> reservations s.
Proof.
  intros Ho. pose proof (release_loop_spec (now - maxAge) now order s []) as H.
  unfold ReleaseExpired. destruct (release_loop _ _ _ _ _) as [s' rel].
  destruct H as (Hl & Hrel & Ht & Ha & Hres).
  - rewrite Ho. apply NoDup_fst_map_to_list.
  - intros id r Hin. rewrite Ho in Hin. by apply elem_of_map_to_list.
  - split_and!; [done|done|done|done|]. apply map_eq. intros id. rewrite Hres, lookup_fmap.
    case_decide as Hd; [done|]. rewrite Ho in Hd.
    destruct (reservations s !! id) as [r|] eqn:Hr; [|done]. exfalso. apply Hd.
    apply list_elem_of_fmap. exists (id, r). split; [done|]. by apply elem_of_map_to_list.
Qed.

(** ** Runs of a service *)

Inductive op :=
| OSetTeamCap (teamID : string) (cap : Z)
| OOnAlert (fn : bool)
| OReserve (id : uuid) (now : time) (traceID tenantID userID teamID : string) (est : Z)
| OCommit (id : uuid) (actual : Z) (now : time)
| ORelease (id : uuid) (now : time)
| OReleaseExpired (order : list (uuid * Reservation)) (now maxAge : time).

Definition mem_apply (s : Service) (o : op) : Service :=
  match o with
  | OSetTeamCap t c => SetTeamCap s t c
  | OOnAlert fn => OnAlert s fn
  | OReserve id now tr tn us te est => (Reserve s id now tr tn us te est).1.1
  | OCommit id a now => (Commit s id a now).1
  | ORelease id now => (Release s id now).1
  | OReleaseExpired order now maxAge => (ReleaseExpired order s now maxAge).1
  end.

(** A call of the Postgres service together with what the database answers. *)
Definition pg_apply {pgt : PgTypes} (s : PgService) (call : bool * op) : PgService :=
  let '(db, o) := call in
  match o with
  | OSetTeamCap t c => Pg_SetTeamCap s t c
  | OOnAlert fn => Pg_OnAlert s fn
  | OReserve id now tr tn us te est => (Pg_Reserve db true s id now tr tn us te est).1.1
  | OCommit id a now => (Pg_Commit db s id a now).1
  | ORelease id now => (Pg_Release db s id now).1
  | OReleaseExpired order now maxAge => (Pg_ReleaseExpired db order s now maxAge).1
  end.

(** The call as the table sees it: [None] when the database refuses it or a
    value does not fit its column; otherwise with the values of the columns. *)
Definition stored {pgt : PgTypes} (call : bool * op) : option op :=
  let '(db, o) := call in
  match o with
  | OSetTeamCap _ _ | OOnAlert _ => Some o
  | OReserve id now tr tn us te est =>
      u ← uuid_text tr; if db && int4 est then Some (OReserve id (pg_time now) u tn us te est) else None
  | OCommit id a now => if db && int4 a then Some (OCommit id a (pg_time now)) else None
  | ORelease id now => if db then Some (ORelease id (pg_time now)) else None
  | OReleaseExpired order now maxAge => if db then Some (OReleaseExpired order (pg_time now) maxAge) else None
  end.
(** Ages are whole microseconds. *)
Definition whole_age (call : bool * op) : Prop :=
  match call.2 with OReleaseExpired _ _ maxAge => (maxAge mod 1000 = 0)%Z | _ => True end.

(** What the environment guarantees of a call: [uuid.New()] is fresh and a
    range visits every entry once.  With [strict], the caller does not
    release a reservation it has committed. *)
Definition admissible (strict : bool) (rs : gmap uuid Reservation) (o : op) : Prop :=
  match o with
  | OReserve id _ _ _ _ _ _ => rs !! id = None
  | ORelease id _ => strict = true -> forall r, rs !! id = Some r -> r_State r <> StateCommitted
  | OReleaseExpired order _ _ => order ≡ₚ map_to_list rs
  | _ => True
  end.

Fixpoint run_ok (strict : bool) (s : Service) (ops : list op) : Prop :=
  match ops with
  | [] => True
  | o :: ops => admissible strict (reservations s) o /\ run_ok strict (mem_apply s o) ops
  end.

Definition mem_run (ops : list op) : Service := fold_left mem_apply ops NewService.
Definition pg_run {pgt : PgTypes} (calls : list (bool * op)) : PgService := fold_left pg_apply calls NewPgService.

Lemma mem_apply_ledger strict s o :
  ledger s -> admissible strict (reservations s) o -> ledger (mem_apply s o).
Proof.
  destruct o; cbn; intros Hl Ha.
  - by destruct Hl.
  - by destruct Hl.
  - by apply Reserve_ledger.
  - by apply Commit_ledger.
  - by apply Release_ledger.
  - pose proof (ReleaseExpired_spec order s now maxAge Ha) as H.
    destruct (ReleaseExpired _ _ _ _). by apply H.
Qed.

(** An invariant of single steps holds after a run. *)
Lemma run_invariant strict (P : Service -> Prop) :
  (forall s o, P s -> admissible strict (reservations s) o -> P (mem_apply s o)) ->
  forall ops s, P s -> run_ok strict s ops -> P (fold_left mem_apply ops s).
Proof.
  intros HP ops. induction ops as [|o ops IH]; intros s Hs; cbn; [done|].
  intros [Ha Hr]. apply IH; [|done]. by apply HP.
Qed.

(** Without a release after a commit, a released row has no actual cost. *)
Definition no_residue (s : Service) : Prop :=
  map_Forall (fun _ r => r_State r = StateReleased -> ActualCents r = None) (reservations s).

Lemma mem_apply_strict s o :
  ledger s /\ no_residue s -> admissible true (reservations s) o ->
  ledger (mem_apply s o) /\ no_residue (mem_apply s o).
Proof.
  intros [Hl Hn] Ha. split; [by eapply mem_apply_ledger|]. destruct o; cbn in *; try done.
  - by apply map_Forall_insert_2.
  - unfold Commit. destruct (reservations s !! id) as [r|] eqn:Hr; [|done].
    case_decide; [done|]. by apply map_Forall_insert_2.
  - unfold Release. destruct (reservations s !! id) as [r|] eqn:Hr; [|done].
    case_decide as Hst; [done|]. apply map_Forall_insert_2; [|done]. cbn. intros _.
    pose proof (ledger_wf s Hl id r Hr) as [_ Hw]. specialize (Ha eq_refl r eq_refl).
    destruct (r_State r); naive_solver.
  - pose proof (ReleaseExpired_spec order s now maxAge Ha) as H.
    destruct (ReleaseExpired _ _ _ _) as [s' rel]. destruct H as (_ & _ & _ & _ & Hres). cbn.
    unfold no_residue. rewrite Hres. apply map_Forall_fmap. intros id r Hr. cbn.
    unfold expire. case_match; [done|]. by apply (Hn id).
Qed.

(** ** Refinement of the in-memory service by the Postgres one *)

Record pg_refines (p : PgService) (s : Service) : Prop := {
  pg_table : table p = reservations s;
  pg_caps : pg_teams p = teams s;
  pg_alert : pg_alertFn p = alertFn s }.

(** A refused call changes nothing; any other one is the in-memory call. *)
Lemma pg_apply_refines {pgt : PgTypes} p s call :
  pg_refines p s -> whole_age call ->
  match stored call with
  | None => pg_apply p call = p
  | Some o => admissible false (reservations s) o -> pg_refines (pg_apply p call) (mem_apply s o)
  end.
Proof.
  intros [Ht Hc Hal] Hage. destruct call as [db [t c|fn|id now tr tn us te est|id a now|id now|order now maxAge]]; cbn.
  - intros _. split; cbn; congruence.
  - intros _. split; cbn; congruence.
  - unfold Pg_Reserve. destruct (uuid_text tr) as [u|]; cbn; [|done].
    destruct (int4 est); cbn; [|by rewrite andb_false_r]. destruct db; cbn; [|done].
    rewrite Ht. intros ->. split; cbn; congruence.
  - unfold Pg_Commit. destruct (int4 a); cbn; [|by rewrite andb_false_r]. destruct db; cbn; [|done]. intros _.
    unfold Commit. rewrite Ht. destruct (reservations s !! id) as [r|]; [|done].
    destruct (decide (r_State r = StateReserved)).
    + rewrite decide_False by tauto. split; cbn; congruence.
    + rewrite decide_True by done. done.
  - unfold Pg_Release. destruct db; cbn; [|done]. intros _. unfold Release. rewrite Ht.
    destruct (reservations s !! id) as [r|]; [|done].
    destruct (decide (r_State r = StateReleased \/ r_State r = StateExpired)).
    + rewrite decide_False by tauto. done.
    + rewrite decide_True by tauto. split; cbn; congruence.
  - unfold Pg_ReleaseExpired. destruct db; cbn; [|done]. intros Ha.
    pose proof (ReleaseExpired_spec order s (pg_time now) maxAge Ha) as H.
    destruct (ReleaseExpired _ _ _ _) as [s' rel]. destruct H as (_ & _ & H1 & H2 & H3). cbn.
    rewrite pg_time_sub by done. split; cbn; congruence.
Qed.

Lemma pg_run_refines {pgt : PgTypes} calls p s :
  pg_refines p s -> Forall whole_age calls -> run_ok false s (omap stored calls) ->
  pg_refines (fold_left pg_apply calls p) (fold_left mem_apply (omap stored calls) s).
Proof.
  intros Hr Hage. revert p s Hr. induction Hage as [|call calls Hw _ IH]; intros p s Hr; cbn; [done|].
  pose proof (pg_apply_refines p s call Hr Hw) as Hstep. destruct (stored call) as [o|]; cbn.
  - intros [Ha Hok]. apply IH; [|done]. by apply Hstep.
  - rewrite Hstep. by apply IH.
Qed.

Lemma run_ok_weaken s ops : run_ok true s ops -> run_ok false s ops.
Proof.
  revert s. induction ops as [|o ops IH]; intros s; cbn; [done|].
  intros [Ha Hok]. split; [|by apply IH]. by destruct o.
Qed.

Lemma contribution_row_used s t :
  ledger s -> no_residue s ->
  msum (contribution t) (reservations s) = msum (row_used t) (reservations s).
Proof.
  intros Hl Hn. apply msum_ext. intros id r Hr.
  pose proof (ledger_wf s Hl id r Hr) as [_ Hw]. specialize (Hn id r Hr). cbn in Hn.
  unfold contribution, row_used. destruct (decide (TeamID r = t)) as [->|];
    [|by rewrite decide_False by tauto].
  destruct (r_State r).
  - rewrite decide_True by tauto. by destruct Hw as [-> _].
  - rewrite decide_True by tauto. by destruct Hw as [[a ->] _].
  - rewrite decide_False by naive_solver. by rewrite Hn.
  - rewrite decide_False by naive_solver. done.
Qed.

(** ** A reservation among other calls *)

(** The call does not settle reservation [id] by name. *)
Definition others (id : uuid) (call : bool * op) : Prop :=
  match call.2 with OCommit i _ _ | ORelease i _ => i <> id | _ => True end.
(** The call expires what was created at [created]. *)
Definition expires (created : time) (call : bool * op) : bool :=
  match call with (db, OReleaseExpired _ now maxAge) => db && (created <? pg_time (now - maxAge))%Z | _ => false end.

Lemma others_keep {pgt : PgTypes} id call s r :
  others id call -> table s !! id = Some r ->
  exists r', table (pg_apply s call) !! id = Some r' /\
    if bool_decide (r_State r = StateReserved) && expires (CreatedAt r) call
    then exists tm, r' = settled r StateExpired tm else r' = r.
Proof.
  intros Ho Hr. assert (exists r', table s !! id = Some r' /\ r' = r) as Hsame by eauto.
  destruct call as [db o]. destruct o as [t c|fn|i now tr tn us te est|i a now|i now|order now maxAge]; cbn in *;
    rewrite ?andb_false_r; try done.
  - unfold Pg_Reserve. destruct (uuid_text tr); [|done]. case_match eqn:Hc; [done|]. cbn.
    apply orb_false_iff in Hc as [_ Hc%bool_decide_eq_false]. rewrite lookup_insert_ne; [done|].
    intros ->. apply Hc. by eexists.
  - unfold Pg_Commit. case_match; [done|]. destruct (table s !! i); [|done]. case_decide; [|done]. cbn.
    by rewrite lookup_insert_ne.
  - unfold Pg_Release. case_match; [done|]. destruct (table s !! i); [|done]. case_decide; [|done]. cbn.
    by rewrite lookup_insert_ne.
  - unfold Pg_ReleaseExpired. destruct db; cbn; [|by rewrite andb_false_r]. rewrite lookup_fmap, Hr. cbn.
    eexists. split; [done|]. unfold expire, stale. destruct (_ && _); [by eexists|done].
Qed.

Lemma others_settled {pgt : PgTypes} id calls s r :
  Forall (others id) calls -> table s !! id = Some r -> r_State r <> StateReserved ->
  table (fold_left pg_apply calls s) !! id = Some r.
Proof.
  intros Ho. revert s. induction Ho as [|call calls H _ IH]; intros s Hr Hst; cbn; [done|]. apply IH; [|done].
  destruct (others_keep id call s r H Hr) as (r' & -> & Hc). rewrite bool_decide_eq_false_2 in Hc by done.
  by rewrite Hc.
Qed.

(** A reserved row after any calls that do not settle it by name: unchanged,
    unless a pass of the settler expired it. *)
Lemma others_run {pgt : PgTypes} id calls s r :
  Forall (others id) calls -> table s !! id = Some r -> r_State r = StateReserved ->
  exists r', table (fold_left pg_apply calls s) !! id = Some r' /\
    if existsb (expires (CreatedAt r)) calls then exists tm, r' = settled r StateExpired tm else r' = r.
Proof.
  intros Ho. revert s. induction Ho as [|call calls H Hf IH]; intros s Hr Hst; cbn; [by eexists|].
  destruct (others_keep id call s r H Hr) as (r' & Hr' & Hc). rewrite Hst, bool_decide_eq_true_2 in Hc by done.
  cbn [andb] in Hc. destruct (expires (CreatedAt r) call); cbn [orb]; [|subst r'; by apply IH].
  destruct Hc as [tm ->]. exists (settled r StateExpired tm). split; [|by eexists]. by apply others_settled.
Qed.

(** ** The life cycle of one reservation *)

Definition lifecycle (a b : State) : Prop :=
  a = b \/ a = StateReserved \/ (a = StateCommitted /\ b = StateReleased).

(** [r'] is [r] later: same identity and estimate, a legal change of state,
    and an actual cost that, once recorded, stays. *)
Definition evolves (r r' : Reservation) : Prop :=
  (ID r', TraceID r', TenantID r', UserID r', TeamID r', EstimatedCents r', CreatedAt r') =
  (ID r, TraceID r, TenantID r, UserID r, TeamID r, EstimatedCents r, CreatedAt r) /\
  lifecycle (r_State r) (r_State r') /\
  (forall a, ActualCents r = Some a -> r_State r <> StateReserved -> ActualCents r' = Some a).

Lemma evolves_refl r : evolves r r.
Proof. split_and!; [done|by left|done]. Qed.

Lemma evolves_committed r a now : r_State r = StateReserved -> evolves r (committed r a now).
Proof. intros Hr. split_and!; [done|by right; left|]. congruence. Qed.

Lemma evolves_settled r st now :
  r_State r = StateReserved \/ r_State r = StateCommitted /\ st = StateReleased ->
  evolves r (settled r st now).
Proof. intros Hr. split_and!; [done| |done]. unfold lifecycle. cbn. tauto. Qed.

(** ** Claims *)



(** Every call moves every reservation only forward: identity, estimate
    and creation time never change, a settled reservation never becomes
    reserved again, only a committed one can still be released, and a recorded
    cost is never lost. *)
Theorem budget_lifecycle s o id r :
  admissible false (reservations s) o -> reservations s !! id = Some r ->
  exists r', reservations (mem_apply s o) !! id = Some r' /\ evolves r r'.
Proof.
  intros Ha Hr. destruct o as [| |id' now tr tn us te est|id' a now|id' now|order now maxAge];
    cbn in *; try (exists r; split; [done|apply evolves_refl]).
  - rewrite lookup_insert_ne by congruence. exists r. split; [done|apply evolves_refl].
  - unfold Commit. destruct (reservations s !! id') as [q|] eqn:Hq;
      [case_decide|]; try (exists r; split; [done|apply evolves_refl]). cbn.
    destruct (decide (id = id')) as [->|]; [|rewrite lookup_insert_ne by done;
      exists r; split; [done|apply evolves_refl]].
    rewrite lookup_insert_eq. eexists. split; [done|]. simplify_eq. by apply evolves_committed.
  - unfold Release. destruct (reservations s !! id') as [q|] eqn:Hq;
      [case_decide as Hst|]; try (exists r; split; [done|apply evolves_refl]). cbn.
    destruct (decide (id = id')) as [->|]; [|rewrite lookup_insert_ne by done;
      exists r; split; [done|apply evolves_refl]].
    rewrite lookup_insert_eq. eexists. split; [done|]. assert (q = r) as -> by congruence.
    apply evolves_settled. destruct (r_State r); naive_solver.
  - pose proof (ReleaseExpired_spec order s now maxAge Ha) as H.
    destruct (ReleaseExpired _ _ _ _) as [s' rel]. destruct H as (_ & _ & _ & _ & Hres). cbn.
    rewrite Hres, lookup_fmap, Hr. cbn. eexists. split; [done|]. unfold expire.
    case_match eqn:Hst; [|apply evolves_refl]. apply evolves_settled. left. by eapply stale_reserved.
Qed.

(** Committing is one-shot: a commit of an amount that fits an INTEGER succeeds
    exactly on a reserved reservation, on both services; a failing commit
    changes nothing. *)
Theorem budget_commit_once s p id a now :
  table p = reservations s -> int4 a = true ->
  ((Commit s id a now).2 = Ok tt <->
     exists r, reservations s !! id = Some r /\ r_State r = StateReserved) /\
  ((Pg_Commit true p id a now).2 = Ok tt <-> (Commit s id a now).2 = Ok tt) /\
  ((Commit s id a now).2 <> Ok tt -> (Commit s id a now).1 = s /\ (Pg_Commit true p id a now).1 = p).
Proof.
  intros Ht Ha. unfold Commit, Pg_Commit. rewrite Ht, Ha. cbn.
  destruct (reservations s !! id) as [r|]; cbn; [|naive_solver].
  destruct (decide (r_State r = StateReserved)) as [Hs|Hs].
  - rewrite decide_False by tauto. cbn. naive_solver.
  - rewrite decide_True by done. cbn. naive_solver.
Qed.

(** The expiry sweep of the in-memory service does not depend on the
    iteration order of the map and agrees with the single UPDATE of the
    Postgres one at whole microseconds: both leave the same reservations, and
    the ids they return are exactly those of the stale reservations. *)
Theorem budget_expiry_order_independent order order' s p now maxAge :
  table p = reservations s -> map_Forall wf_reservation (reservations s) -> pg_time now = now -> (maxAge mod 1000 = 0)%Z ->
  order ≡ₚ map_to_list (reservations s) -> order' ≡ₚ map_to_list (reservations s) ->
  reservations (ReleaseExpired order s now maxAge).1 =
    reservations (ReleaseExpired order' s now maxAge).1 /\
  table (Pg_ReleaseExpired true order' p now maxAge).1 =
    reservations (ReleaseExpired order s now maxAge).1 /\
  (ReleaseExpired order s now maxAge).2 ≡ₚ (Pg_ReleaseExpired true order' p now maxAge).2 /\
  (forall id, id ∈ (ReleaseExpired order s now maxAge).2 <->
     exists r, reservations s !! id = Some r /\ stale (now - maxAge) r = true).
Proof.
  intros Ht Hwf Hnow Hage Ho Ho'. pose proof (ReleaseExpired_spec order s now maxAge Ho) as H.
  pose proof (ReleaseExpired_spec order' s now maxAge Ho') as H'.
  destruct (ReleaseExpired order s now maxAge) as [s1 rel1], (ReleaseExpired order' s now maxAge) as [s2 rel2].
  destruct H as (_ & -> & _ & _ & Hres), H' as (_ & -> & _ & _ & Hres').
  cbn. rewrite Ht, pg_time_sub, Hnow by done. split_and!; [congruence|congruence| |].
  - unfold stale_rows. by rewrite Ho, Ho'.
  - intros id. rewrite list_elem_of_fmap. unfold stale_rows.
    setoid_rewrite list_elem_of_filter. setoid_rewrite list_elem_of_fmap. setoid_rewrite Ho. split.
    + intros (r & -> & Hst & [id' q] & Hq & Hin%elem_of_map_to_list). cbn in Hq. subst q.
      exists r. destruct (Hwf id' r Hin) as [-> _]. done.
    + intros (r & Hr & Hst). exists r. destruct (Hwf id r Hr) as [Hid _]. split_and!; [done|done|].
      exists (id, r). split; [done|]. by apply elem_of_map_to_list.
Qed.

(** Within the range where [used*100] does not overflow, the soft warning
    is sent exactly when a callback is registered and the team has used at
    least 80% of a positive cap. *)
Theorem budget_alert_exact caps alert t u :
  (0 <= u <= 2 ^ 63 / 100 - 1)%Z -> (forall c, caps !! t = Some c -> int64 c) ->
  (soft_warn caps alert t u <> [] <->
   alert = true /\ exists cap, caps !! t = Some cap /\ (0 < cap)%Z /\ (80 * cap <= 100 * u)%Z).
Proof.
  intros Hu Hc. unfold soft_warn. destruct (caps !! t) as [cap|]; [|naive_solver].
  specialize (Hc cap eq_refl). destruct (Z.ltb_spec 0 cap); cbn [andb]; [|naive_solver lia].
  change (2 ^ 63 / 100 - 1)%Z with 92233720368547757%Z in Hu.
  assert (0 <= u * 100 < 2 ^ 63)%Z by lia.
  unfold int_quo, int_mul. rewrite (wrap64_id (u * 100)) by (unfold int64; lia).
  rewrite Z.quot_div_nonneg by lia.
  assert (0 <= u * 100 / cap <= u * 100)%Z.
  { split; [apply Z.div_pos; lia|]. apply Z.div_le_upper_bound; nia. }
  rewrite wrap64_id by (unfold int64; lia).
  assert ((80 <= u * 100 / cap) <-> 80 * cap <= 100 * u)%Z as Hiff.
  { split; intros H'.
    - pose proof (Z.mul_div_le (u * 100) cap). nia.
    - apply Z.div_le_lower_bound; lia. }
  destruct (Z.leb_spec 80 (u * 100 / cap)), alert; cbn [andb]; naive_solver lia.
Qed.

(** Releasing a committed reservation is not neutral in the in-memory
    service: it subtracts the estimate a second time, so the team is left
    with actual minus estimate, while the Postgres service counts nothing. *)
Theorem budget_release_after_commit {pgt : PgTypes} est a :
  let ops := [OReserve 1 0 sample_trace "tn" "u" "team" est; OCommit 1 a 1000; ORelease 1 2000] in
  run_ok false NewService ops /\
  TeamUsed (mem_run ops) "team" = wrap64 (a - est) /\
  Pg_TeamUsed true (pg_run (pair true <$> ops)) "team" = 0%Z.
Proof.
  intros ops.
  assert (run_ok false NewService ops) as Hok by (cbn; split_and!; done).
  split_and!; [done| |].
  - destruct (run_invariant false ledger (mem_apply_ledger false) ops NewService NewService_ledger Hok)
      as [_ Hu]. unfold mem_run. rewrite Hu. f_equal.
    transitivity (a - est + 0)%Z; [reflexivity|lia].
  - unfold pg_run, ops. cbn [fmap list_fmap fold_left pg_apply]. unfold Pg_Reserve. rewrite uuid_canonical by done.
    unfold Pg_Commit. by destruct (int4 est), (int4 a).
Qed.

(** ** A concrete run *)

#[local] Existing Instance strict_types.

(** Besides calls that are accepted: a trace id that is no UUID, a cost beyond
    an INTEGER, a database that does not answer. *)
Definition sample_calls : list (bool * op) :=
  [(true, OSetTeamCap "core" 1000); (true, OOnAlert true);
   (true, OReserve 1 0 sample_trace "tn" "u" "core" 500); (true, OReserve 2 5000 sample_trace "tn" "u" "core" 300);
   (true, OReserve 4 5500 "t4" "tn" "u" "core" 70);
   (true, OReserve 3 6000 sample_trace "tn" "u" "core" 50); (true, OCommit 3 (2 ^ 31) 9000);
   (true, OCommit 1 420 10000); (false, ORelease 3 10500); (true, ORelease 2 11000)].
Definition sample_run : list op := omap stored sample_calls.

Lemma sample_run_ok : run_ok true NewService sample_run.
Proof.
  vm_compute. split_and!; try done. intros _ r Hr. injection Hr as <-. discriminate.
Defined.
Lemma sample_ages : Forall whole_age sample_calls.
Proof. by repeat constructor. Defined.



Lemma budget_lifecycle_witness :
  exists r, reservations (mem_apply (mem_run sample_run) (OCommit 3 60 12000)) !! 3%N = Some r /\
    TeamID r = "core".
Proof.
  edestruct (budget_lifecycle (mem_run sample_run) (OCommit 3 60 12000) 3%N) as (r & Hr & He & _);
    [exact I|vm_compute; reflexivity|]. exists r. split; [exact Hr|]. by injection He.
Defined.

Lemma budget_commit_once_witness :
  (Commit (mem_run sample_run) 1 7 20000).1 = mem_run sample_run.
Proof.
  apply (budget_commit_once (mem_run sample_run) (pg_run sample_calls) 1 7 20000); vm_compute; done.
Defined.

Lemma budget_expiry_order_independent_witness :
  (ReleaseExpired (map_to_list (reservations (mem_run sample_run))) (mem_run sample_run) 100000 60000).2 <> [] /\
  reservations (ReleaseExpired (reverse (map_to_list (reservations (mem_run sample_run))))
                  (mem_run sample_run) 100000 60000).1 =
  reservations (ReleaseExpired (map_to_list (reservations (mem_run sample_run))) (mem_run sample_run) 100000 60000).1.
Proof.
  split; [vm_compute; discriminate|].
  apply (budget_expiry_order_independent (reverse (map_to_list (reservations (mem_run sample_run))))
    (map_to_list (reservations (mem_run sample_run))) (mem_run sample_run) (pg_run sample_calls) 100000 60000).
  - vm_compute. reflexivity.
  - apply (ledger_wf (mem_run sample_run)).
    apply (run_invariant false ledger (mem_apply_ledger false) sample_run NewService NewService_ledger
             (run_ok_weaken _ _ sample_run_ok)).
  - reflexivity.
  - reflexivity.
  - apply reverse_Permutation.
  - reflexivity.
Defined.

Lemma budget_alert_exact_witness : soft_warn {["core" := 1000%Z]} true "core" 800 <> [].
Proof.
  apply (budget_alert_exact {["core" := 1000%Z]} true "core" 800).
  - vm_compute. split; discriminate.
  - intros c Hc. vm_compute in Hc. injection Hc as <-. by vm_compute.
  - split; [reflexivity|]. exists 1000%Z. split; [reflexivity|]. lia.
Defined.
