(* ===== verification/Edge.v ===== *)
(** * The HTTP edge

    [internal/gw/edge/router.go]: minting of UUIDv7 trace ids, the trace-id
    middleware, the context accessors and the health check; and the pieces of
    package [encoding/hex] the sources use.  Bytes are integers in [0, 256).
    The clock and the random source are arguments. *)

From Stdlib Require Import Ascii.
From stdpp Require Import sorting base gmap strings fin_maps numbers list.
From S2P Require Import Prelude.
Local Open Scope string_scope.

(** ** encoding/hex *)

Definition hexdigit (n : Z) : ascii :=
  ascii_of_N (Z.to_N (if (n <? 10)%Z then 48 + n else 87 + n)%Z).

(** [hex.EncodeToString]: two lower-case digits per byte, high nibble first. *)
Fixpoint hexEncode (bs : list Z) : string :=
  match bs with
  | [] => ""
  | b :: bs => String (hexdigit (Z.shiftr b 4)) (String (hexdigit (Z.land b 15)) (hexEncode bs))
  end.

(** The value of a digit, and of a digit string read from the left. *)
Definition hexval (c : ascii) : Z :=
  let n := Z.of_N (N_of_ascii c) in if (n <? 58)%Z then n - 48 else n - 87.
Fixpoint hexread (acc : Z) (s : string) : Z :=
  match s with EmptyString => acc | String c s => hexread (16 * acc + hexval c)%Z s end.

(** ** MintTraceID *)

Definition to_byte (n : Z) : Z := Z.land n 255.

(** The contents [rand.Read] leaves in a buffer, and whether it succeeded. *)
Record RandRead := { rr_bytes : list Z; rr_ok : bool }.

(** The sixteen bytes of the id, before formatting.  [ra] fills bytes 6 and 7,
    [rb] the last eight. *)
Definition trace_bytes (millis : Z) (ra rb : RandRead) : list Z :=
  let ts := millis in
  let head := [to_byte (Z.shiftr ts 40); to_byte (Z.shiftr ts 32); to_byte (Z.shiftr ts 24);
               to_byte (Z.shiftr ts 16); to_byte (Z.shiftr ts 8); to_byte ts] in
  let a := if rr_ok ra then rr_bytes ra else [112; 0]%Z in
  let b := if rr_ok rb then rr_bytes rb else <[0 := 128%Z]> (rr_bytes rb) in
  let buf := (head ++ a ++ b)%list in
  let buf := alter (fun x => Z.lor (Z.land x 15) 112) 6 buf in
  alter (fun x => Z.lor (Z.land x 63) 128) 8 buf.

Definition slice (i j : nat) (l : list Z) : list Z := take (j - i) (drop i l).

Definition format_trace (buf : list Z) : string :=
  hexEncode (slice 0 4 buf) +:+ ("-" +:+ (hexEncode (slice 4 6 buf) +:+ ("-" +:+
  (hexEncode (slice 6 8 buf) +:+ ("-" +:+ (hexEncode (slice 8 10 buf) +:+ ("-" +:+
   hexEncode (slice 10 16 buf)))))))).

Definition MintTraceID (millis : Z) (ra rb : RandRead) : string :=
  format_trace (trace_bytes millis ra rb).

(** ** Request contexts *)

Record Context := {
  CtxTraceID : option string;
  CtxUserID : option string;
  CtxTeamID : option string;
  CtxRole : option string }.

Definition Background : Context :=
  {| CtxTraceID := None; CtxUserID := None; CtxTeamID := None; CtxRole := None |}.

Definition GetTraceID (ctx : Context) : string := default "" (CtxTraceID ctx).
Definition GetUserID (ctx : Context) : string := default "" (CtxUserID ctx).
Definition GetTeamID (ctx : Context) : string := default "" (CtxTeamID ctx).
Definition GetRole (ctx : Context) : string := default "" (CtxRole ctx).

(** [TraceIDMiddleware]: the context handed to the next handler and the
    response header; [header] is the request's X-AICG-Trace-Id. *)
Definition TraceIDMiddleware (minted header : string) (ctx : Context) : Context * string :=
  let traceID := if is_empty header then minted else header in
  ({| CtxTraceID := Some traceID; CtxUserID := CtxUserID ctx; CtxTeamID := CtxTeamID ctx;
      CtxRole := CtxRole ctx |}, traceID).

(** [handleHealthz]: the status code, the status text and the components. *)
Fixpoint any_fail (components : list (string * string)) : bool :=
  match components with
  | [] => false
  | (_, v) :: cs => if String.eqb v "fail" then true else any_fail cs
  end.
Definition handleHealthz (healthChecker : option (list (string * string)))
    : Z * string * option (list (string * string)) :=
  match healthChecker with
  | Some components =>
      if any_fail components then (503%Z, "degraded", Some components)
      else (200%Z, "ok", Some components)
  | None => (200%Z, "ok", None)
  end.

(** ** The server *)

(** The middlewares of the router, outermost first; the timeout in
    nanoseconds. *)
Inductive Middleware := RequestID | RealIP | StructuredLogger | Recoverer | Timeout (d : Z) | TraceID_ | Authenticate.
#[export] Instance Middleware_eq_dec : EqDecision Middleware.
Proof. solve_decision. Defined.

(** A registered route: the roles in front of the handler ([With]; none: no
    guard) and the handler. *)
Record Route (H : Type) := { rt_Method : string; rt_Path : string; rt_Roles : list string; rt_Handler : H }.
Arguments rt_Method {H}.
Arguments rt_Path {H}.
Arguments rt_Roles {H}.
Arguments rt_Handler {H}.

Record EdgeServer (H : Type) := {
  srv_middlewares : list Middleware; srv_routes : list (Route H);
  srv_Addr : string; srv_TLSCert : string; srv_TLSKey : string; srv_healthChecker : bool }.
Arguments srv_middlewares {H}.
Arguments srv_routes {H}.
Arguments srv_Addr {H}.
Arguments srv_TLSCert {H}.
Arguments srv_TLSKey {H}.
Arguments srv_healthChecker {H}.

Section Routing.
Context {H : Type}.
Implicit Types (s : EdgeServer H).

Definition NewServer (addr : string) : EdgeServer H :=
  {| srv_middlewares := [RequestID; RealIP; StructuredLogger; Recoverer; Timeout (300 * 10 ^ 9); TraceID_];
     srv_routes := []; srv_Addr := addr; srv_TLSCert := ""; srv_TLSKey := ""; srv_healthChecker := false |}.
(** [chi.Mux.Use] panics once a route has been added. *)
Definition Router_Use s (m : Middleware) : outcome unit (EdgeServer H) :=
  match srv_routes s with
  | [] => Ok {| srv_middlewares := (srv_middlewares s ++ [m])%list; srv_routes := []; srv_Addr := srv_Addr s;
                srv_TLSCert := srv_TLSCert s; srv_TLSKey := srv_TLSKey s; srv_healthChecker := srv_healthChecker s |}
  | _ :: _ => Panic
  end.
(** [Router.Get], [Router.Post], [Router.With(..).Post] *)
Definition Router_Handle s (method path : string) (roles : list string) (h : H) : EdgeServer H :=
  {| srv_middlewares := srv_middlewares s;
     srv_routes := (srv_routes s ++ [{| rt_Method := method; rt_Path := path; rt_Roles := roles; rt_Handler := h |}])%list;
     srv_Addr := srv_Addr s; srv_TLSCert := srv_TLSCert s; srv_TLSKey := srv_TLSKey s;
     srv_healthChecker := srv_healthChecker s |}.
Definition SetHealthChecker s (healthz : H) : EdgeServer H :=
  Router_Handle {| srv_middlewares := srv_middlewares s; srv_routes := srv_routes s; srv_Addr := srv_Addr s;
                   srv_TLSCert := srv_TLSCert s; srv_TLSKey := srv_TLSKey s; srv_healthChecker := true |}
    "GET" "/healthz" [] healthz.

(** The route of a request. *)
Fixpoint find_route (method path : string) (rs : list (Route H)) : option (H * list string) :=
  match rs with
  | [] => None
  | r :: rs => if String.eqb method (rt_Method r) && String.eqb path (rt_Path r)
               then Some (rt_Handler r, rt_Roles r) else find_route method path rs
  end.

(** [Start]: what is listened on. *)
Inductive Listener := ListenTLS13 (addr cert key : string) | ListenPlain (addr : string).
Definition Server_Start s : Listener :=
  if negb (is_empty (srv_TLSCert s)) && negb (is_empty (srv_TLSKey s))
  then ListenTLS13 (srv_Addr s) (srv_TLSCert s) (srv_TLSKey s) else ListenPlain (srv_Addr s).
End Routing.

(** ** Lemmas *)

Lemma hexdigit_val n : (0 <= n < 16)%Z -> hexval (hexdigit n) = n.
Proof.
  intros Hn. unfold hexval, hexdigit. destruct (Z.ltb_spec n 10);
    rewrite N_ascii_embedding, Z2N.id by lia; (case Z.ltb_spec; lia).
Qed.

Lemma to_byte_range n : (0 <= to_byte n < 256)%Z.
Proof.
  unfold to_byte. change 255%Z with (Z.ones 8). rewrite Z.land_ones by lia.
  by apply Z.mod_pos_bound.
Qed.

Lemma to_byte_shiftr n k : (0 <= k)%Z -> to_byte (Z.shiftr n k) = ((n / 2 ^ k) mod 256)%Z.
Proof.
  intros. unfold to_byte. change 255%Z with (Z.ones 8). rewrite Z.land_ones, Z.shiftr_div_pow2 by lia.
  done.
Qed.

Lemma to_byte_mod n : to_byte n = (n mod 256)%Z.
Proof. unfold to_byte. change 255%Z with (Z.ones 8). by rewrite Z.land_ones by lia. Qed.

(** Reading back one byte. *)
Lemma hexread_byte acc b s :
  (0 <= b < 256)%Z ->
  hexread acc (String (hexdigit (Z.shiftr b 4)) (String (hexdigit (Z.land b 15)) s))
  = hexread (256 * acc + b)%Z s.
Proof.
  intros Hb. cbn [hexread]. change 15%Z with (Z.ones 4).
  rewrite Z.shiftr_div_pow2, Z.land_ones by lia. change (2 ^ 4)%Z with 16%Z.
  pose proof (Z.div_mod b 16). pose proof (Z.mod_pos_bound b 16).
  pose proof (Z.div_le_upper_bound b 16 15). pose proof (Z.div_pos b 16).
  rewrite !hexdigit_val by lia. f_equal. lia.
Qed.

Lemma hexread_app acc s t : hexread acc (s +:+ t) = hexread (hexread acc s) t.
Proof. revert acc. induction s as [|c s IH]; intros acc; [done|]. cbn. apply IH. Qed.

(** Decoding inverts encoding: the bytes are the base-256 digits. *)
Lemma hexread_hexEncode bs acc :
  Forall (fun b => 0 <= b < 256)%Z bs ->
  hexread acc (hexEncode bs) = fold_left (fun a b => 256 * a + b)%Z bs acc.
Proof.
  intros Hbs. revert acc. induction Hbs as [|b bs Hb Hbs IH]; intros acc; [done|].
  cbn [hexEncode]. rewrite hexread_byte by done. apply IH.
Qed.

Lemma hexEncode_length bs : String.length (hexEncode bs) = 2 * length bs.
Proof. induction bs as [|b bs IH]; cbn; [done|]. rewrite IH. lia. Qed.

(** The six bytes of a 48-bit timestamp are its base-256 digits. *)
Lemma timestamp_digits ts :
  (0 <= ts < 2 ^ 48)%Z ->
  fold_left (fun a b => 256 * a + b)%Z
    [to_byte (Z.shiftr ts 40); to_byte (Z.shiftr ts 32); to_byte (Z.shiftr ts 24);
     to_byte (Z.shiftr ts 16); to_byte (Z.shiftr ts 8); to_byte ts] 0%Z = ts.
Proof.
  intros Hts. rewrite !to_byte_shiftr, to_byte_mod by lia. cbn [fold_left].
  replace (2 ^ 40)%Z with (2 ^ 32 * 256)%Z by done. replace (2 ^ 32)%Z with (2 ^ 24 * 256)%Z by done.
  replace (2 ^ 24)%Z with (2 ^ 16 * 256)%Z by done. replace (2 ^ 16)%Z with (2 ^ 8 * 256)%Z by done.
  change (2 ^ 8)%Z with 256%Z. rewrite <- !Z.div_div by lia.
  set (a1 := (ts / 256)%Z). set (a2 := (a1 / 256)%Z). set (a3 := (a2 / 256)%Z).
  set (a4 := (a3 / 256)%Z). set (a5 := (a4 / 256)%Z).
  pose proof (Z.div_mod ts 256). pose proof (Z.div_mod a1 256). pose proof (Z.div_mod a2 256).
  pose proof (Z.div_mod a3 256). pose proof (Z.div_mod a4 256).
  assert (0 <= a1 < 2 ^ 40)%Z by (split; [apply Z.div_pos|apply Z.div_lt_upper_bound]; lia).
  assert (0 <= a2 < 2 ^ 32)%Z by (split; [apply Z.div_pos|apply Z.div_lt_upper_bound]; lia).
  assert (0 <= a3 < 2 ^ 24)%Z by (split; [apply Z.div_pos|apply Z.div_lt_upper_bound]; lia).
  assert (0 <= a4 < 2 ^ 16)%Z by (split; [apply Z.div_pos|apply Z.div_lt_upper_bound]; lia).
  assert (0 <= a5 < 2 ^ 8)%Z by (split; [apply Z.div_pos|apply Z.div_lt_upper_bound]; lia).
  rewrite (Z.mod_small a5) by lia. lia.
Qed.

(** The id's bytes, for random buffers of the right length. *)
Lemma trace_bytes_shape millis ra rb :
  length (rr_bytes ra) = 2 -> length (rr_bytes rb) = 8 ->
  exists a0 a1 b0 b1 b2 b3 b4 b5 b6 b7,
    trace_bytes millis ra rb =
      [to_byte (Z.shiftr millis 40); to_byte (Z.shiftr millis 32); to_byte (Z.shiftr millis 24);
       to_byte (Z.shiftr millis 16); to_byte (Z.shiftr millis 8); to_byte millis;
       Z.lor (Z.land a0 15) 112; a1; Z.lor (Z.land b0 63) 128; b1; b2; b3; b4; b5; b6; b7].
Proof.
  intros Ha Hb. unfold trace_bytes. cbv zeta.
  destruct ra as [[|a0 [|a1 [|]]] oka], rb as [[|b0 [|b1 [|b2 [|b3 [|b4 [|b5 [|b6 [|b7 [|]]]]]]]]] okb];
    try discriminate. cbn [rr_ok rr_bytes]. destruct oka, okb; cbn; by eexists _, _, _, _, _, _, _, _, _, _.
Qed.

Lemma version_nibble x : Z.shiftr (Z.lor (Z.land x 15) 112) 4 = 7%Z.
Proof.
  apply Z.bits_inj'. intros n Hn. rewrite Z.shiftr_spec, Z.lor_spec, Z.land_spec by lia.
  change 15%Z with (Z.ones 4). rewrite Z.ones_spec_high, andb_false_r, orb_false_l by lia.
  change 7%Z with (Z.shiftr 112 4). by rewrite Z.shiftr_spec.
Qed.

Lemma variant_nibble x :
  exists k, (8 <= k < 12)%Z /\ Z.shiftr (Z.lor (Z.land x 63) 128) 4 = k.
Proof.
  rewrite Z.shiftr_lor, Z.shiftr_land. change (Z.shiftr 63 4) with (Z.ones 2).
  change (Z.shiftr 128 4) with 8%Z. rewrite Z.land_ones by lia.
  pose proof (Z.mod_pos_bound (Z.shiftr x 4) (2 ^ 2)) as Hm. change (2 ^ 2)%Z with 4%Z in *.
  eexists. split; [|done]. set (y := (Z.shiftr x 4 mod 4)%Z) in *. clearbody y.
  assert (y = 0 \/ y = 1 \/ y = 2 \/ y = 3)%Z as [->|[->|[->| ->]]] by lia; by vm_compute.
Qed.

(** ** Claims *)

(** A minted trace id is a UUIDv7: 36 characters with dashes at the
    standard places, version digit 7, variant 10, and its first twelve digits
    are the 48-bit millisecond clock, whether or not the random source
    works. *)
Theorem mint_trace_id_uuidv7 millis ra rb :
  (0 <= millis < 2 ^ 48)%Z -> length (rr_bytes ra) = 2 -> length (rr_bytes rb) = 8 ->
  exists p1 p2 p3 p4 p5 v,
    MintTraceID millis ra rb =
      p1 +:+ ("-" +:+ (p2 +:+ ("-" +:+ (String "7" p3 +:+ ("-" +:+ (String v p4 +:+ ("-" +:+ p5))))))) /\
    String.length (MintTraceID millis ra rb) = 36 /\
    String.length p1 = 8 /\ String.length p2 = 4 /\ String.length p3 = 3 /\ String.length p4 = 3 /\
    v ∈ ["8"; "9"; "a"; "b"]%char /\
    hexread 0 (p1 +:+ p2) = millis.
Proof.
  intros Hm Ha Hb. destruct (trace_bytes_shape millis ra rb Ha Hb)
    as (a0 & a1 & b0 & b1 & b2 & b3 & b4 & b5 & b6 & b7 & Hbytes).
  unfold MintTraceID. rewrite Hbytes. unfold format_trace.
  destruct (variant_nibble b0) as (k & Hk & Hvar).
  exists (hexEncode [to_byte (Z.shiftr millis 40); to_byte (Z.shiftr millis 32);
                     to_byte (Z.shiftr millis 24); to_byte (Z.shiftr millis 16)]),
    (hexEncode [to_byte (Z.shiftr millis 8); to_byte millis]),
    (String (hexdigit (Z.land (Z.lor (Z.land a0 15) 112) 15)) (hexEncode [a1])),
    (String (hexdigit (Z.land (Z.lor (Z.land b0 63) 128) 15)) (hexEncode [b1])),
    (hexEncode [b2; b3; b4; b5; b6; b7]), (hexdigit k).
  assert (hexdigit (Z.shiftr (Z.lor (Z.land a0 15) 112) 4) = "7"%char) as H7
    by (by rewrite version_nibble).
  split_and!.
  - rewrite <- H7, <- Hvar. reflexivity.
  - rewrite !str_length_app, !hexEncode_length. reflexivity.
  - reflexivity.
  - reflexivity.
  - reflexivity.
  - reflexivity.
  - assert (k = 8 \/ k = 9 \/ k = 10 \/ k = 11)%Z as [->|[->|[->| ->]]] by lia; vm_compute; set_solver.
  - rewrite hexread_app, !hexread_hexEncode by (repeat constructor; apply to_byte_range).
    rewrite <- fold_left_app. by apply timestamp_digits.
Qed.

Lemma mint_trace_id_uuidv7_witness :
  String.length (MintTraceID 1700000000000 {| rr_bytes := [255; 1]%Z; rr_ok := true |}
                   {| rr_bytes := [255; 2; 3; 4; 5; 6; 7; 8]%Z; rr_ok := true |}) = 36.
Proof.
  destruct (mint_trace_id_uuidv7 1700000000000 {| rr_bytes := [255; 1]%Z; rr_ok := true |}
    {| rr_bytes := [255; 2; 3; 4; 5; 6; 7; 8]%Z; rr_ok := true |}) as (?&?&?&?&?&?&_&H&_);
    [lia|reflexivity|reflexivity|exact H].
Defined.
