(* ===== verification/Auth.v ===== *)
(** * Authentication

    [internal/gw/auth]: API-key stores (in memory and Postgres with its
    five-minute cache), the bearer-token middleware and role guards (auth.go,
    pg_keystore.go), one-time setup tokens, and invite stores
    (pg_invitestore.go).  bcrypt is the parameter [Bcrypt]; database tables
    are maps from their primary key, and the outcome of each statement and
    the clock (nanoseconds) are arguments. *)

From stdpp Require Import sorting base gmap strings fin_maps numbers list.
From S2P Require Import Prelude Edge.
Local Open Scope string_scope.

(** golang.org/x/crypto/bcrypt *)
Class Bcrypt := { CompareHashAndPassword : string -> string -> bool }.

Definition RoleDeveloper := "developer".
Definition RoleTeamAdmin := "team_admin".
Definition RolePlatformAdmin := "platform_admin".

Record APIKey := { key_UserID : string; key_TeamID : string; key_Role : string; key_Hash : string }.

(** The in-memory store, keyed by the first eight bytes of the hash, and the
    table [setup_tokens], from token hash to [consumed_at]. *)
Abbreviation InMemKeyStore := (gmap string APIKey).
Abbreviation PgSetupTokenStore := (gmap string (option Z)).

Inductive AuthError := KeyNotFound | StoreFailed.

(** The interface [KeyStore].  [Env] is what a call depends on besides the
    store: clock, database outcomes, iteration orders.  [authentic s tok k]
    says why [k] may be returned for the cleartext [tok]. *)
Class KeyStore (Env S : Type) := {
  LookupAPIKey : Env -> S -> string -> S * outcome AuthError APIKey;
  StoreAPIKey : Env -> S -> string -> string -> string -> string -> S * outcome AuthError unit;
  HasAnyKey : Env -> S -> bool;
  env_ok : Env -> S -> Prop;
  authentic : Env -> S -> string -> APIKey -> Prop;
  LookupAPIKey_sound env s tok k :
    env_ok env s -> (LookupAPIKey env s tok).2 = Ok k -> authentic env s tok k }.

Section Auth.
Context {bcrypt : Bcrypt}.

(** ** In-memory keys *)

Definition NewInMemKeyStore : InMemKeyStore := ∅.

Fixpoint find_key (p : APIKey -> bool) (ks : list (string * APIKey)) : option APIKey :=
  match ks with
  | [] => None
  | (_, k) :: ks => if p k then Some k else find_key p ks
  end.

(** Two passes over the map, in the orders [o1] and [o2]. *)
Definition InMem_LookupAPIKey (o1 o2 : list (string * APIKey)) (cleartext : string)
    : outcome AuthError APIKey :=
  match find_key (fun k => CompareHashAndPassword (key_Hash k) cleartext) o1 with
  | Some k => Ok k
  | None =>
      match find_key (fun k => String.eqb cleartext (key_Hash k)) o2 with
      | Some k => Ok k
      | None => Err KeyNotFound
      end
  end.

(** [hash[:8]] panics on a shorter hash. *)
Definition InMem_StoreAPIKey (s : InMemKeyStore) (userID teamID role hash : string)
    : InMemKeyStore * outcome AuthError unit :=
  if (String.length hash <? 8)%nat then (s, Panic)
  else (<[str_take 8 hash := {| key_UserID := userID; key_TeamID := teamID; key_Role := role;
                                key_Hash := hash |}]> s, Ok tt).

Definition InMem_HasAnyKey (s : InMemKeyStore) : bool := (0 <? size s)%nat.

(** ** Postgres keys *)

Record KeyRow := { row_key : APIKey; last_used_at : option Z; deleted_at : option Z }.
Record cacheEntry := { ce_key : APIKey; ce_expires : Z }.
Record PgKeyStore := { api_keys : gmap string KeyRow; cache : gmap string cacheEntry }.

(** The clock when the operation starts, whether the query and the update
    succeed, the rows in the order the query returns them, and the clock once
    they have been compared. *)
Record PgEnv := { now : Z; query_ok : bool; exec_ok : bool; rows : list KeyRow; now_cached : Z }.

Definition five_minutes : Z := 300 * 10 ^ 9.

Definition with_cache (s : PgKeyStore) (c : gmap string cacheEntry) : PgKeyStore :=
  {| api_keys := api_keys s; cache := c |}.
Definition with_keys (s : PgKeyStore) (t : gmap string KeyRow) : PgKeyStore :=
  {| api_keys := t; cache := cache s |}.

(** [INSERT ... ON CONFLICT (key_hash) DO NOTHING] into [api_keys]. *)
Definition insert_key (t : gmap string KeyRow) (k : APIKey) : gmap string KeyRow :=
  match t !! key_Hash k with
  | Some _ => t
  | None => <[key_Hash k := {| row_key := k; last_used_at := None; deleted_at := None |}]> t
  end.

Definition storeAPIKey (env : PgEnv) (s : PgKeyStore) (userID teamID role hash : string)
    : PgKeyStore * outcome AuthError unit :=
  if exec_ok env then
    (with_keys s (insert_key (api_keys s) {| key_UserID := userID; key_TeamID := teamID;
       key_Role := role; key_Hash := hash |}), Ok tt)
  else (s, Err StoreFailed).

(** [rows.Next()] over the result set. *)
Fixpoint scan_rows (rs : list KeyRow) (cleartext : string) : option APIKey :=
  match rs with
  | [] => None
  | r :: rs => if CompareHashAndPassword (key_Hash (row_key r)) cleartext then Some (row_key r)
               else scan_rows rs cleartext
  end.

(** [UPDATE api_keys SET last_used_at = now() WHERE key_hash = $1] *)
Definition touch (env : PgEnv) (hash : string) (t : gmap string KeyRow) : gmap string KeyRow :=
  if exec_ok env then
    alter (fun r => {| row_key := row_key r; last_used_at := Some (now_cached env);
                       deleted_at := deleted_at r |}) hash t
  else t.

(** The cached entry used, if any: present, not expired and matching. *)
Definition cache_hit (env : PgEnv) (s : PgKeyStore) (prefix cleartext : string) : option APIKey :=
  match cache s !! prefix with
  | Some entry =>
      if (now env <? ce_expires entry)%Z then
        if CompareHashAndPassword (key_Hash (ce_key entry)) cleartext then Some (ce_key entry) else None
      else None
  | None => None
  end.

(** A lookup up to its query: answered from the cache, failed, or with the rows
    still to be compared, which takes bcrypt its time. *)
Inductive LookupStart := Answered (r : outcome AuthError APIKey) | Comparing (rs : list KeyRow).
Definition key_prefix (cleartext : string) : string :=
  if (8 <=? String.length cleartext)%nat then str_take 8 cleartext else "".
Definition begin_lookup (env : PgEnv) (s : PgKeyStore) (cleartext : string) : LookupStart :=
  match cache_hit env s (key_prefix cleartext) cleartext with
  | Some cached => Answered (Ok cached)
  | None => if negb (query_ok env) then Answered (Err KeyNotFound) else Comparing (rows env)
  end.
(** The rest, on the rows that were read and the store as it is by then: the
    entry expires five minutes after the clock at this point. *)
Definition finish_lookup (env : PgEnv) (s : PgKeyStore) (cleartext : string) (rs : list KeyRow)
    : PgKeyStore * outcome AuthError APIKey :=
  match scan_rows rs cleartext with
  | Some k =>
      ({| api_keys := touch env (key_Hash k) (api_keys s);
          cache := <[key_prefix cleartext := {| ce_key := k; ce_expires := now_cached env + five_minutes |}]> (cache s) |},
       Ok k)
  | None => (s, Err KeyNotFound)
  end.

(** A lookup that nothing interrupts. *)
Definition lookupWithBcrypt (env : PgEnv) (s : PgKeyStore) (cleartext : string)
    : PgKeyStore * outcome AuthError APIKey :=
  match begin_lookup env s cleartext with
  | Answered r => (s, r)
  | Comparing rs => finish_lookup env s cleartext rs
  end.

(** [SELECT ... WHERE deleted_at IS NULL] *)
Definition live_rows (t : gmap string KeyRow) : list KeyRow :=
  filter (fun r => deleted_at r = None) (snd <$> map_to_list t).

Definition hasAnyKey (env : PgEnv) (s : PgKeyStore) : bool :=
  query_ok env && (0 <? length (live_rows (api_keys s)))%nat.

Definition DeleteAPIKey (env : PgEnv) (s : PgKeyStore) (keyHash : string)
    : PgKeyStore * outcome AuthError unit :=
  if exec_ok env then
    (with_keys s (alter (fun r => {| row_key := row_key r; last_used_at := last_used_at r;
                                     deleted_at := Some (now env) |}) keyHash (api_keys s)), Ok tt)
  else (s, Err StoreFailed).

(** One tick of [reapLoop]. *)
Definition reap (env : PgEnv) (s : PgKeyStore) : PgKeyStore :=
  with_cache s (filter (fun kv => (now env <= ce_expires kv.2)%Z) (cache s)).

(** ** Setup tokens *)

Record SetupToken := { Token : string; Consumed : bool }.

(** [GenerateSetupToken], from the 32 random bytes. *)
Definition GenerateSetupToken (buf : list Z) : string := "setup_" +:+ hexEncode buf.

Definition InsertToken (ok : bool) (s : PgSetupTokenStore) (tokenHash : string)
    : PgSetupTokenStore * outcome AuthError unit :=
  if ok then (match s !! tokenHash with Some _ => s | None => <[tokenHash := None]> s end, Ok tt)
  else (s, Err StoreFailed).

(** [UPDATE ... WHERE token_hash = $1 AND consumed_at IS NULL]; the log line
    slices the hash, which panics below 16 bytes. *)
Definition ConsumeToken (ok : bool) (tm : Z) (s : PgSetupTokenStore) (tokenHash : string)
    : PgSetupTokenStore * outcome AuthError bool :=
  if negb ok then (s, Err StoreFailed)
  else match s !! tokenHash with
       | Some None =>
           (<[tokenHash := Some tm]> s,
            if (String.length tokenHash <? 16)%nat then Panic else Ok true)
       | _ => (s, Ok false)
       end.

Definition HasAnyToken (ok : bool) (s : PgSetupTokenStore) : bool :=
  ok && (0 <? length (filter (fun x => x = None) (snd <$> map_to_list s)))%nat.

(** ** Middleware *)

Record Request := { Method : string; Path : string; Authorization : string; Ctx : Context }.

(** A middleware passes a request on or answers it. *)
Inductive mw_result :=
| Next (r : Request)
| Respond (status : Z) (code message : string).

Definition skip_paths : list string :=
  ["/healthz"; "/metrics"; "/api/v1/lp/exchange-setup"; "/api/v1/lp/exchange-invite"].

Definition with_identity (r : Request) (k : APIKey) : Request :=
  {| Method := Method r; Path := Path r; Authorization := Authorization r;
     Ctx := {| CtxTraceID := CtxTraceID (Ctx r); CtxUserID := Some (key_UserID k);
               CtxTeamID := Some (key_TeamID k); CtxRole := Some (key_Role k) |} |}.

Definition AuthMiddleware {Env S} `{KeyStore Env S} (env : Env) (store : S) (r : Request)
    : S * mw_result :=
  if bool_decide (Path r ∈ skip_paths) then (store, Next r)
  else if negb (HasPrefix (Authorization r) "Bearer ") then
    (store, Respond 401 "unauthorized" "missing Authorization header")
  else
    let token := TrimPrefix (Authorization r) "Bearer " in
    if HasPrefix token "setup_" then
      (store, Respond 401 "unauthorized" "setup tokens are only valid at /api/v1/lp/exchange-setup")
    else
      match LookupAPIKey env store token with
      | (store', Ok k) => (store', Next (with_identity r k))
      | (store', Err _) => (store', Respond 401 "unauthorized" "invalid API key")
      | (store', Panic) => (store', Respond 500 "panic" "")  (* middleware.Recoverer *)
      end.

Fixpoint role_in (role : string) (roles : list string) : bool :=
  match roles with
  | [] => false
  | allowed :: roles => if String.eqb role allowed then true else role_in role roles
  end.

Definition RequireRole (roles : list string) (r : Request) : mw_result :=
  if role_in (GetRole (Ctx r)) roles then Next r
  else Respond 403 "forbidden" (GetRole (Ctx r)).

(** [RegisterRoutes]: the guard in front of a route's handler. *)
Definition route_guard (roles : list string) (r : Request) : mw_result :=
  match roles with [] => Next r | _ :: _ => RequireRole roles r end.

(** A route behind the global middleware, as main.go mounts them. *)
Definition guarded {Env S} `{KeyStore Env S} (env : Env) (store : S) (roles : list string)
    (r : Request) : S * mw_result :=
  match AuthMiddleware env store r with
  | (store', Next r') => (store', route_guard roles r')
  | other => other
  end.
End Auth.

(** ** Invites *)

Record Invite := {
  inv_ID : Z;
  inv_TokenHash : string;
  inv_Role : string;
  inv_TeamID : string;
  inv_UserID : string;
  inv_CreatedBy : string;
  inv_CreatedAt : Z;
  inv_ExpiresAt : Z;
  inv_UsedAt : option Z;
  inv_UsedBy : option string;
  inv_MachineID : option string }.

Inductive InviteError :=
| ErrInviteNotFound
| ErrInviteConsumed
| ErrInviteExpired
| InviteExists
| InviteDb (step : string)
| InviteIssue.

(** The row after a redemption. *)
Definition used_invite (inv : Invite) (tm : Z) (machineID : string) : Invite :=
  {| inv_ID := inv_ID inv; inv_TokenHash := inv_TokenHash inv; inv_Role := inv_Role inv;
     inv_TeamID := inv_TeamID inv; inv_UserID := inv_UserID inv; inv_CreatedBy := inv_CreatedBy inv;
     inv_CreatedAt := inv_CreatedAt inv; inv_ExpiresAt := inv_ExpiresAt inv;
     inv_UsedAt := Some tm; inv_UsedBy := Some (inv_UserID inv); inv_MachineID := Some machineID |}.

(** The key an invite is exchanged for. *)
Definition issued_key (inv : Invite) (apiKeyHash : string) : APIKey :=
  {| key_UserID := inv_UserID inv; key_TeamID := inv_TeamID inv; key_Role := inv_Role inv;
     key_Hash := apiKeyHash |}.

(** The two tables the Postgres store writes. *)
Record PgInvites := { invites : gmap string Invite; pg_keys : gmap string KeyRow; next_id : Z }.

(** [PgInviteStore.Create]; the id sequence advances even when the insert
    fails on the unique token hash. *)
Definition Pg_Create (ok : bool) (tm : Z) (s : PgInvites) (inv : Invite)
    : PgInvites * outcome InviteError unit :=
  let row := {| inv_ID := next_id s; inv_TokenHash := inv_TokenHash inv; inv_Role := inv_Role inv;
    inv_TeamID := inv_TeamID inv; inv_UserID := inv_UserID inv; inv_CreatedBy := inv_CreatedBy inv;
    inv_CreatedAt := tm; inv_ExpiresAt := inv_ExpiresAt inv; inv_UsedAt := None;
    inv_UsedBy := None; inv_MachineID := None |} in
  if negb ok then (s, Err (InviteDb "create"))
  else if bool_decide (is_Some (invites s !! inv_TokenHash inv)) then
    ({| invites := invites s; pg_keys := pg_keys s; next_id := next_id s + 1 |}, Err (InviteDb "create"))
  else ({| invites := <[inv_TokenHash inv := row]> (invites s); pg_keys := pg_keys s;
           next_id := next_id s + 1 |}, Ok tt).

(** Outcomes of the statements of the transaction, the transaction's
    [now()], and the later [time.Now()] of the disambiguation. *)
Record TxEnv := {
  begin_ok : bool; update_ok : bool; select_ok : bool; insert_ok : bool; commit_ok : bool;
  tx_now : Z; go_now : Z }.

(** [PgInviteStore.ConsumeAndIssueKey]: every early return rolls back. *)
Definition Pg_ConsumeAndIssueKey (e : TxEnv) (s : PgInvites) (tokenHash machineID apiKeyHash : string)
    : PgInvites * outcome InviteError Invite :=
  if negb (begin_ok e) then (s, Err (InviteDb "begin"))
  else if negb (update_ok e) then (s, Err (InviteDb "consume"))
  else
    let missed :=
      if negb (select_ok e) then (s, Err (InviteDb "lookup"))
      else match invites s !! tokenHash with
           | None => (s, Err ErrInviteNotFound)
           | Some row =>
               if bool_decide (is_Some (inv_UsedAt row)) then (s, Err ErrInviteConsumed)
               else if negb (go_now e <? inv_ExpiresAt row)%Z then (s, Err ErrInviteExpired)
               else (s, Err ErrInviteConsumed)
           end in
    match invites s !! tokenHash with
    | None => missed
    | Some row =>
        if bool_decide (inv_UsedAt row = None) && (tx_now e <? inv_ExpiresAt row)%Z then
          let inv := used_invite row (tx_now e) machineID in
          if negb (insert_ok e) then (s, Err (InviteDb "insert"))
          else if negb (commit_ok e) then (s, Err (InviteDb "commit"))
          else ({| invites := <[tokenHash := inv]> (invites s);
                   pg_keys := insert_key (pg_keys s) (issued_key inv apiKeyHash);
                   next_id := next_id s |}, Ok inv)
        else missed
    end.

(** [InMemInviteStore]; [failIssue] is the outcome of the hook, if installed. *)
Record InMemInviteStore := {
  byHash : gmap string Invite; keyStore : option InMemKeyStore; failIssue : option bool }.

Definition NewInMemInviteStore : InMemInviteStore :=
  {| byHash := ∅; keyStore := None; failIssue := None |}.
Definition SetKeyStore (s : InMemInviteStore) (ks : option InMemKeyStore) : InMemInviteStore :=
  {| byHash := byHash s; keyStore := ks; failIssue := failIssue s |}.
Definition SetFailIssue (s : InMemInviteStore) (hook : option bool) : InMemInviteStore :=
  {| byHash := byHash s; keyStore := keyStore s; failIssue := hook |}.

(** The zero [time.Time] is [0]. *)
Definition InMem_Create (tm : Z) (s : InMemInviteStore) (inv : Invite)
    : InMemInviteStore * outcome InviteError unit :=
  match byHash s !! inv_TokenHash inv with
  | Some _ => (s, Err InviteExists)
  | None =>
      let stored := {| inv_ID := inv_ID inv; inv_TokenHash := inv_TokenHash inv;
        inv_Role := inv_Role inv; inv_TeamID := inv_TeamID inv; inv_UserID := inv_UserID inv;
        inv_CreatedBy := inv_CreatedBy inv;
        inv_CreatedAt := if (inv_CreatedAt inv =? 0)%Z then tm else inv_CreatedAt inv;
        inv_ExpiresAt := inv_ExpiresAt inv; inv_UsedAt := inv_UsedAt inv;
        inv_UsedBy := inv_UsedBy inv; inv_MachineID := inv_MachineID inv |} in
      ({| byHash := <[inv_TokenHash inv := stored]> (byHash s); keyStore := keyStore s;
          failIssue := failIssue s |}, Ok tt)
  end.

(** The key-store write: [None] when no store is wired. *)
Definition issue_in_mem (s : InMemInviteStore) (inv : Invite) (apiKeyHash : string)
    : option InMemKeyStore * outcome InviteError unit :=
  match keyStore s with
  | None => (None, Ok tt)
  | Some ks =>
      match InMem_StoreAPIKey ks (inv_UserID inv) (inv_TeamID inv) (inv_Role inv) apiKeyHash with
      | (ks', Ok _) => (Some ks', Ok tt)
      | (ks', Err _) => (Some ks', Err InviteIssue)
      | (ks', Panic) => (Some ks', Panic)
      end
  end.

Definition InMem_ConsumeAndIssueKey (tm : Z) (s : InMemInviteStore)
    (tokenHash machineID apiKeyHash : string) : InMemInviteStore * outcome InviteError Invite :=
  match byHash s !! tokenHash with
  | None => (s, Err ErrInviteNotFound)
  | Some inv =>
      if bool_decide (is_Some (inv_UsedAt inv)) then (s, Err ErrInviteConsumed)
      else if negb (tm <? inv_ExpiresAt inv)%Z then (s, Err ErrInviteExpired)
      else if bool_decide (failIssue s = Some true) then (s, Err InviteIssue)
      else match issue_in_mem s inv apiKeyHash with
           | (ks', Ok _) =>
               let out := used_invite inv tm machineID in
               ({| byHash := <[tokenHash := out]> (byHash s); keyStore := ks';
                   failIssue := failIssue s |}, Ok out)
           | (_, Err e) => (s, Err e)
           | (_, Panic) => (s, Panic)
           end
  end.

(** ** The two key stores implement the interface *)

Section Stores.
Context {bcrypt : Bcrypt}.

Lemma find_key_sound p ks k : find_key p ks = Some k -> p k = true /\ exists i, (i, k) ∈ ks.
Proof.
  induction ks as [|[i q] ks IH]; cbn; [done|]. destruct (p q) eqn:Hq.
  - intros [= <-]. split; [done|]. exists i. by left.
  - intros [? [j ?]]%IH. split; [done|]. exists j. by right.
Qed.

Lemma scan_rows_sound rs tok k :
  scan_rows rs tok = Some k -> CompareHashAndPassword (key_Hash k) tok = true /\
  exists r, r ∈ rs /\ row_key r = k.
Proof.
  induction rs as [|r rs IH]; cbn; [done|]. destruct (CompareHashAndPassword (key_Hash (row_key r)) tok) eqn:Hc.
  - intros [= <-]. split; [done|]. exists r. split; [by left|done].
  - intros [? [q []]]%IH. split; [done|]. exists q. split; [by right|done].
Qed.

Lemma scan_rows_complete rs tok r :
  r ∈ rs -> CompareHashAndPassword (key_Hash (row_key r)) tok = true -> is_Some (scan_rows rs tok).
Proof.
  intros Hr Hc. induction Hr as [|q r rs Hr IH]; cbn; [by rewrite Hc|].
  destruct (CompareHashAndPassword (key_Hash (row_key r)) tok); [by eexists|by apply IH].
Qed.

Lemma elem_of_live_rows t r :
  r ∈ live_rows t <-> deleted_at r = None /\ exists h, t !! h = Some r.
Proof.
  unfold live_rows. rewrite list_elem_of_filter, list_elem_of_fmap. split.
  - intros [Hd ([h q] & -> & Hq%elem_of_map_to_list)]. split; [done|]. by exists h.
  - intros [Hd [h Hh]]. split; [done|]. exists (h, r). split; [done|]. by apply elem_of_map_to_list.
Qed.

Lemma cache_hit_sound env s prefix tok k :
  cache_hit env s prefix tok = Some k ->
  exists e, cache s !! prefix = Some e /\ (now env < ce_expires e)%Z /\ ce_key e = k /\
    CompareHashAndPassword (key_Hash k) tok = true.
Proof.
  unfold cache_hit. destruct (cache s !! prefix) as [e|]; [|done].
  destruct (Z.ltb_spec (now env) (ce_expires e)); [|done].
  destruct (CompareHashAndPassword _ tok) eqn:Hc; [|done]. intros [= <-]. by exists e.
Qed.

#[export] Program Instance InMem_KeyStore :
    KeyStore (list (string * APIKey) * list (string * APIKey)) InMemKeyStore := {|
  LookupAPIKey o s tok := (s, InMem_LookupAPIKey o.1 o.2 tok);
  StoreAPIKey _ s u t r h := InMem_StoreAPIKey s u t r h;
  HasAnyKey _ s := InMem_HasAnyKey s;
  env_ok o s := o.1 ≡ₚ map_to_list s /\ o.2 ≡ₚ map_to_list s;
  authentic _ s tok k := (exists i, s !! i = Some k) /\
    (CompareHashAndPassword (key_Hash k) tok = true \/ tok = key_Hash k) |}.
Next Obligation.
  intros [o1 o2] s tok k [H1 H2]; cbn in *. unfold InMem_LookupAPIKey.
  destruct (find_key _ o1) as [k1|] eqn:Hf.
  - intros [= <-]. apply find_key_sound in Hf as [Hc [i Hi]]. split; [|by left].
    exists i. apply elem_of_map_to_list. by rewrite <- H1.
  - clear Hf. destruct (find_key _ o2) as [k2|] eqn:Hf; [|done]. intros [= <-].
    apply find_key_sound in Hf as [Hc [i Hi]]. apply String.eqb_eq in Hc. split; [|by right].
    exists i. apply elem_of_map_to_list. by rewrite <- H2.
Qed.

#[export] Program Instance Pg_KeyStore : KeyStore PgEnv PgKeyStore := {|
  LookupAPIKey := lookupWithBcrypt;
  StoreAPIKey := storeAPIKey;
  HasAnyKey := hasAnyKey;
  env_ok env s := rows env ≡ₚ live_rows (api_keys s);
  authentic env s tok k := CompareHashAndPassword (key_Hash k) tok = true /\
    ((exists h r, api_keys s !! h = Some r /\ deleted_at r = None /\ row_key r = k) \/
     (exists p e, cache s !! p = Some e /\ ce_key e = k /\ (now env < ce_expires e)%Z)) |}.
Next Obligation.
  intros env s tok k Henv. cbn. unfold lookupWithBcrypt, begin_lookup.
  destruct (cache_hit _ _ _ _) as [c|] eqn:Hc.
  - intros [= <-]. apply cache_hit_sound in Hc as (e & ? & ? & ? & ?). split; [done|]. right. by eexists _, e.
  - destruct (query_ok env); cbn; [|done]. unfold finish_lookup. destruct (scan_rows (rows env) tok) as [q|] eqn:Hs; [|done].
    intros [= <-]. apply scan_rows_sound in Hs as [Hcmp (r & Hr & Hk)]. split; [done|]. left.
    rewrite Henv in Hr. apply elem_of_live_rows in Hr as [Hd [h Hh]]. by exists h, r.
Qed.

Lemma role_in_spec role roles : role_in role roles = true <-> role ∈ roles.
Proof.
  induction roles as [|r rs IH]; cbn; [set_solver|].
  destruct (String.eqb_spec role r); set_solver.
Qed.

(** ** Claims: requests *)

(** A handler behind the global middleware and a role guard is reached,
    outside the four public paths, only by a request that carries
    [Bearer <token>] where the token is not a setup token and the key store
    vouches for a key with that cleartext; the handler sees exactly that
    key's user, team and role, and the role is one the route allows. *)
Theorem guarded_route_sound {Env S} `{KeyStore Env S} (env : Env) (store : S) roles r r' store' :
  env_ok env store -> Path r ∉ skip_paths ->
  guarded env store roles r = (store', Next r') ->
  exists token k, Authorization r = "Bearer " +:+ token /\ HasPrefix token "setup_" = false /\
    authentic env store token k /\
    GetUserID (Ctx r') = key_UserID k /\ GetTeamID (Ctx r') = key_TeamID k /\
    GetRole (Ctx r') = key_Role k /\ GetTraceID (Ctx r') = GetTraceID (Ctx r) /\
    (roles <> [] -> key_Role k ∈ roles).
Proof.
  intros Henv Hpath. unfold guarded, AuthMiddleware. rewrite bool_decide_eq_false_2 by done.
  destruct (HasPrefix (Authorization r) "Bearer ") eqn:Hb; cbn [negb]; [|done].
  apply HasPrefix_spec in Hb as [token Htok]. rewrite Htok, TrimPrefix_app.
  destruct (HasPrefix token "setup_") eqn:Hs; [done|].
  destruct (LookupAPIKey env store token) as [st res] eqn:Hl. destruct res as [k| |]; [|done|done].
  intros Hg. assert (authentic env store token k) as Hauth
    by (apply LookupAPIKey_sound; [done|]; by rewrite Hl).
  assert (r' = with_identity r k /\ (roles <> [] -> key_Role k ∈ roles)) as [-> Hrole].
  { unfold route_guard, RequireRole in Hg. destruct roles as [|a roles]; [naive_solver|].
    destruct (role_in _ _) eqn:Hr; [|done]. apply role_in_spec in Hr. naive_solver. }
  by exists token, k.
Qed.

(** Storing a key in memory overwrites any key whose hash starts with the
    same eight bytes; bcrypt hashes all start with the same version and cost
    prefix, so a new key silently evicts an older one. *)
Theorem in_memory_key_collision s u1 t1 r1 h1 u2 t2 r2 h2 s1 s2 :
  str_take 8 h1 = str_take 8 h2 -> h1 <> h2 ->
  (forall i k, s !! i = Some k -> i = str_take 8 (key_Hash k)) ->
  InMem_StoreAPIKey s u1 t1 r1 h1 = (s1, Ok tt) ->
  InMem_StoreAPIKey s1 u2 t2 r2 h2 = (s2, Ok tt) ->
  (exists i, s1 !! i = Some {| key_UserID := u1; key_TeamID := t1; key_Role := r1; key_Hash := h1 |}) /\
  forall i k, s2 !! i = Some k -> key_Hash k <> h1.
Proof.
  intros Hpre Hne Hwf. unfold InMem_StoreAPIKey.
  destruct (String.length h1 <? 8)%nat; [done|]. intros [<- _]%pair_equal_spec.
  destruct (String.length h2 <? 8)%nat; [done|]. intros [<- _]%pair_equal_spec. split.
  - exists (str_take 8 h1). apply lookup_insert_eq.
  - rewrite <- Hpre. intros i k. destruct (decide (i = str_take 8 h1)) as [->|Hi].
    + rewrite lookup_insert_eq. intros [= <-]. cbn. congruence.
    + rewrite !lookup_insert_ne by done. intros Hk Hh. apply Hi. by rewrite (Hwf i k Hk), Hh.
Qed.
End Stores.

(** ** Revocation

    Lookups take time and run side by side: the store together with the
    lookups that have read their rows and not yet cached a key. *)

Section Revocation.
Context {bcrypt : Bcrypt}.

Record Pending := { pd_cleartext : string; pd_rows : list KeyRow }.
Record KeyState := { ks_store : PgKeyStore; ks_pending : gmap nat Pending }.

(** A lookup begins under a number of its own and finishes later. *)
Inductive key_op :=
| KBegin (i : nat) (tok : string)
| KFinish (i : nat)
| KStore (userID teamID role hash : string)
| KDelete (hash : string)
| KReap.

Definition on_store (s : KeyState) (f : PgKeyStore -> PgKeyStore) : KeyState :=
  {| ks_store := f (ks_store s); ks_pending := ks_pending s |}.
Definition key_apply (s : KeyState) (eo : PgEnv * key_op) : KeyState :=
  match eo.2 with
  | KBegin i tok =>
      match begin_lookup eo.1 (ks_store s) tok with
      | Answered _ => s
      | Comparing rs => {| ks_store := ks_store s; ks_pending := <[i := {| pd_cleartext := tok; pd_rows := rs |}]> (ks_pending s) |}
      end
  | KFinish i =>
      match ks_pending s !! i with
      | Some p => {| ks_store := (finish_lookup eo.1 (ks_store s) (pd_cleartext p) (pd_rows p)).1; ks_pending := delete i (ks_pending s) |}
      | None => s
      end
  | KStore u t r h => on_store s (fun st => (storeAPIKey eo.1 st u t r h).1)
  | KDelete h => on_store s (fun st => (DeleteAPIKey eo.1 st h).1)
  | KReap => on_store s (reap eo.1)
  end.

(** A history: the clock does not go backwards, queries return the live rows,
    and a lookup gets a number that is not in use. *)
Definition key_op_ok (t : Z) (s : KeyState) (eo : PgEnv * key_op) : Prop :=
  (t <= now eo.1 <= now_cached eo.1)%Z /\ rows eo.1 ≡ₚ live_rows (api_keys (ks_store s)) /\
  match eo.2 with KBegin i _ => ks_pending s !! i = None | _ => True end.
Fixpoint key_run_ok (t : Z) (s : KeyState) (ops : list (PgEnv * key_op)) : Prop :=
  match ops with
  | [] => True
  | eo :: ops => key_op_ok t s eo /\ key_run_ok (now_cached eo.1) (key_apply s eo) ops
  end.
Definition key_run (s : KeyState) (ops : list (PgEnv * key_op)) : KeyState := fold_left key_apply ops s.
Definition clock_after (t : Z) (ops : list (PgEnv * key_op)) : Z := fold_left (fun _ eo => now_cached eo.1) ops t.

(** Rows are stored under their hash, also those a lookup still works on, and
    no cache entry outlives five minutes from now. *)
Record key_inv (t : Z) (s : KeyState) : Prop := {
  ki_rows h r : api_keys (ks_store s) !! h = Some r -> key_Hash (row_key r) = h;
  ki_pending i p r : ks_pending s !! i = Some p -> r ∈ pd_rows p -> is_Some (api_keys (ks_store s) !! key_Hash (row_key r));
  ki_cache p e : cache (ks_store s) !! p = Some e -> (ce_expires e <= t + five_minutes)%Z }.

(** A deleted key is never live again ... *)
Definition deleted (h : string) (s : KeyState) : Prop :=
  exists r, api_keys (ks_store s) !! h = Some r /\ deleted_at r <> None.
(** ... the lookups numbered [old] are the only ones that can still find it ... *)
Definition only_old (h : string) (old : gset nat) (s : KeyState) : Prop :=
  forall i p r, ks_pending s !! i = Some p -> r ∈ pd_rows p -> key_Hash (row_key r) = h -> i ∈ old.
(** ... and without them its cache entries are gone by [d] plus five minutes. *)
Definition dying (h : string) (d : Z) (s : KeyState) : Prop :=
  forall p e, cache (ks_store s) !! p = Some e -> key_Hash (ce_key e) = h -> (ce_expires e <= d + five_minutes)%Z.

Lemma lookup_insert_key t k h r :
  insert_key t k !! h = Some r ->
  t !! h = Some r \/ (t !! h = None /\ h = key_Hash k /\ row_key r = k /\ deleted_at r = None).
Proof.
  unfold insert_key. destruct (t !! key_Hash k) eqn:Hk; [by left|].
  destruct (decide (h = key_Hash k)) as [->|]; [|rewrite lookup_insert_ne by done; by left].
  rewrite lookup_insert_eq. intros [= <-]. by right.
Qed.

Lemma lookup_touch env h t i :
  exists f, (forall r, row_key (f r) = row_key r /\ deleted_at (f r) = deleted_at r) /\
    touch env h t !! i = f <$> t !! i.
Proof.
  unfold touch. destruct (exec_ok env); [|by exists id; rewrite option_fmap_id].
  destruct (decide (i = h)) as [->|].
  - eexists. rewrite lookup_alter_eq. split; [|done]. done.
  - exists id. rewrite lookup_alter_ne, option_fmap_id by done. done.
Qed.

(** The end of a lookup: nothing, or one of its rows is cached. *)
Lemma finish_effect env s tok rs :
  (finish_lookup env s tok rs).1 = s \/
  exists p r, r ∈ rs /\ (finish_lookup env s tok rs).1 =
    {| api_keys := touch env (key_Hash (row_key r)) (api_keys s);
       cache := <[p := {| ce_key := row_key r; ce_expires := now_cached env + five_minutes |}]> (cache s) |}.
Proof.
  unfold finish_lookup. destruct (scan_rows rs tok) eqn:Hs; [|by left].
  apply scan_rows_sound in Hs as [_ (r & Hr & <-)]. right. by eexists _, r.
Qed.

(** What an uninterrupted lookup does to the store: nothing, or it caches a
    live row. *)
Lemma lookup_effect env s tok :
  rows env ≡ₚ live_rows (api_keys s) ->
  (lookupWithBcrypt env s tok).1 = s \/
  exists p r h, api_keys s !! h = Some r /\ deleted_at r = None /\
    (lookupWithBcrypt env s tok).1 =
      {| api_keys := touch env (key_Hash (row_key r)) (api_keys s);
         cache := <[p := {| ce_key := row_key r; ce_expires := now_cached env + five_minutes |}]> (cache s) |}.
Proof.
  intros Henv. unfold lookupWithBcrypt, begin_lookup. destruct (cache_hit _ _ _ _); [by left|].
  destruct (query_ok env); cbn; [|by left]. destruct (finish_effect env s tok (rows env)) as [->|(p & r & Hr & ->)]; [by left|].
  rewrite Henv in Hr. apply elem_of_live_rows in Hr as [Hd [h Hh]]. right. by exists p, r, h.
Qed.

(** The rows a lookup begins with are live. *)
Lemma begin_rows env s tok rs : begin_lookup env s tok = Comparing rs -> rs = rows env.
Proof. unfold begin_lookup. destruct (cache_hit _ _ _ _); [done|]. destruct (query_ok env); cbn; by intros [=]. Qed.

(** No operation takes a hash out of the table. *)
Lemma key_apply_dom s eo h : is_Some (api_keys (ks_store s) !! h) -> is_Some (api_keys (ks_store (key_apply s eo)) !! h).
Proof.
  intros [r Hr]. destruct eo as [env [i tok|i|u t ro k|k|]]; cbn.
  - destruct (begin_lookup _ _ _); cbn; by eexists.
  - destruct (ks_pending s !! i) as [p|]; [|by eexists]. cbn.
    destruct (finish_effect env (ks_store s) (pd_cleartext p) (pd_rows p)) as [->|(q & r' & _ & ->)]; [by eexists|]. cbn.
    destruct (lookup_touch env (key_Hash (row_key r')) (api_keys (ks_store s)) h) as (f & _ & ->). rewrite Hr. by eexists.
  - unfold storeAPIKey. destruct (exec_ok env); cbn; [|by eexists]. unfold insert_key. cbn.
    destruct (api_keys (ks_store s) !! k) eqn:Hk; [by eexists|]. destruct (decide (h = k)) as [->|];
      [rewrite lookup_insert_eq; by eexists|rewrite lookup_insert_ne by done; by eexists].
  - unfold DeleteAPIKey. destruct (exec_ok env); cbn; [|by eexists].
    destruct (decide (h = k)) as [->|]; [rewrite lookup_alter_eq, Hr; by eexists|rewrite lookup_alter_ne by done; by eexists].
  - by eexists.
Qed.

Lemma key_apply_inv t s eo : key_inv t s -> key_op_ok t s eo -> key_inv (now_cached eo.1) (key_apply s eo).
Proof.
  intros [Hk Hp Hc] ((Ht & Ht') & Henv & _).
  assert (forall p e, cache (ks_store s) !! p = Some e -> (ce_expires e <= now_cached eo.1 + five_minutes)%Z) as Hc'
    by (intros p e He; specialize (Hc p e He); lia).
  assert (forall i p r, ks_pending s !! i = Some p -> r ∈ pd_rows p ->
    is_Some (api_keys (ks_store (key_apply s eo)) !! key_Hash (row_key r))) as Hp' by (intros i p r Hi Hr; by eapply key_apply_dom, Hp).
  destruct eo as [env [i tok|i|u te r h|h|]]; cbn in *.
  - destruct (begin_lookup env (ks_store s) tok) as [res|rs] eqn:Hb; cbn in *; [by split|]. apply begin_rows in Hb as ->.
    split; cbn; [done| |done]. intros j p r. destruct (decide (j = i)) as [->|]; [|rewrite lookup_insert_ne by done; by apply Hp].
    rewrite lookup_insert_eq. intros [= <-]. cbn. rewrite Henv, elem_of_live_rows. intros [_ [h Hh]]. rewrite (Hk h r Hh). by eexists.
  - destruct (ks_pending s !! i) as [p|] eqn:Hi; cbn in *; [|by split]. split; cbn.
    + intros h q. destruct (finish_effect env (ks_store s) (pd_cleartext p) (pd_rows p)) as [->|(x & r & _ & ->)]; [by apply Hk|]. cbn.
      destruct (lookup_touch env (key_Hash (row_key r)) (api_keys (ks_store s)) h) as (f & Hf & ->).
      intros (q0 & Hq0 & ->)%fmap_Some. rewrite (proj1 (Hf q0)). by apply Hk.
    + intros j p' r [_ Hj]%lookup_delete_Some. by apply (Hp' j).
    + intros j e. destruct (finish_effect env (ks_store s) (pd_cleartext p) (pd_rows p)) as [->|(x & r & _ & ->)]; [by apply Hc'|]. cbn.
      destruct (decide (j = x)) as [->|]; [rewrite lookup_insert_eq; intros [= <-]; cbn; lia|]. rewrite lookup_insert_ne by done. by apply Hc'.
  - unfold storeAPIKey in *. destruct (exec_ok env); cbn in *; split; cbn; try done.
    intros i q [Hq|(_ & -> & <- & _)]%lookup_insert_key; [by apply Hk|done].
  - unfold DeleteAPIKey in *. destruct (exec_ok env); cbn in *; split; cbn; try done.
    intros i q. destruct (decide (i = h)) as [->|].
    + rewrite lookup_alter_eq. intros (q0 & Hq0 & ->)%fmap_Some. cbn. by apply Hk.
    + rewrite lookup_alter_ne by done. by apply Hk.
  - split; cbn; [done|done|]. intros p e [He _]%map_lookup_filter_Some. by apply (Hc' p).
Qed.

Lemma key_run_inv ops t s : key_inv t s -> key_run_ok t s ops -> key_inv (clock_after t ops) (key_run s ops).
Proof.
  revert t s. induction ops as [|eo ops IH]; intros t s Hi; cbn; [done|].
  intros (Ho & Hok). apply IH; [|done]. by eapply key_apply_inv.
Qed.

Lemma key_apply_deleted h t s eo : deleted h s -> key_op_ok t s eo -> deleted h (key_apply s eo).
Proof.
  intros (r & Hr & Hd) _. destruct eo as [env [i tok|i|u te ro k|k|]]; cbn.
  - destruct (begin_lookup _ _ _); by exists r.
  - destruct (ks_pending s !! i) as [p|]; [|by exists r]. unfold deleted. cbn.
    destruct (finish_effect env (ks_store s) (pd_cleartext p) (pd_rows p)) as [->|(x & q & _ & ->)]; [by exists r|]. cbn.
    destruct (lookup_touch env (key_Hash (row_key q)) (api_keys (ks_store s)) h) as (f & Hf & ->).
    rewrite Hr. exists (f r). split; [done|]. by rewrite (proj2 (Hf r)).
  - unfold deleted, storeAPIKey. cbn. destruct (exec_ok env); cbn; [|by exists r]. exists r. split; [|done].
    unfold insert_key. cbn. destruct (api_keys (ks_store s) !! k) eqn:Hk; [done|]. rewrite lookup_insert_ne; [done|congruence].
  - unfold deleted, DeleteAPIKey. cbn. destruct (exec_ok env); cbn; [|by exists r].
    destruct (decide (h = k)) as [->|]; [rewrite lookup_alter_eq, Hr; by eexists|rewrite lookup_alter_ne by done; by exists r].
  - by exists r.
Qed.

Lemma key_apply_only_old h old t s eo : key_inv t s -> deleted h s -> only_old h old s -> key_op_ok t s eo -> only_old h old (key_apply s eo).
Proof.
  intros [Hk _ _] (r0 & Hr0 & Hd) Ho (_ & Henv & _) j p r. destruct eo as [env [i tok|i|u te ro k|k|]]; cbn in *; try apply Ho.
  - destruct (begin_lookup env (ks_store s) tok) as [res|rs] eqn:Hb; cbn; [apply Ho|]. apply begin_rows in Hb as ->.
    destruct (decide (j = i)) as [->|]; [|rewrite lookup_insert_ne by done; apply Ho].
    rewrite lookup_insert_eq. intros [= <-]. cbn. rewrite Henv, elem_of_live_rows. intros [Hl [h' Hh']] Heq.
    apply Hk in Hh' as He. congruence.
  - destruct (ks_pending s !! i) as [q|]; cbn; [|apply Ho]. intros [_ Hj]%lookup_delete_Some. by apply Ho.
Qed.

Lemma key_apply_dying h d t s eo : only_old h ∅ s -> dying h d s -> key_op_ok t s eo -> dying h d (key_apply s eo).
Proof.
  intros Ho Hc _ j e. destruct eo as [env [i tok|i|u te ro k|k|]]; cbn.
  - destruct (begin_lookup _ _ _); apply Hc.
  - destruct (ks_pending s !! i) as [p|] eqn:Hi; [|apply Hc]. cbn.
    destruct (finish_effect env (ks_store s) (pd_cleartext p) (pd_rows p)) as [->|(x & r & Hr & ->)]; [apply Hc|]. cbn.
    destruct (decide (j = x)) as [->|]; [|rewrite lookup_insert_ne by done; apply Hc].
    rewrite lookup_insert_eq. intros [= <-]. cbn. intros Heq. by pose proof (Ho i p r Hi Hr Heq).
  - unfold storeAPIKey. destruct (exec_ok env); apply Hc.
  - unfold DeleteAPIKey. destruct (exec_ok env); apply Hc.
  - intros [He _]%map_lookup_filter_Some. by apply (Hc j).
Qed.

Lemma key_run_revoked h old ops t s :
  key_inv t s -> deleted h s -> only_old h old s -> key_run_ok t s ops ->
  deleted h (key_run s ops) /\ only_old h old (key_run s ops).
Proof.
  revert t s. induction ops as [|eo ops IH]; intros t s Hi Hd Ho; cbn; [done|]. intros (He & Hok).
  apply (IH (now_cached eo.1)); [by eapply key_apply_inv|by eapply key_apply_deleted|by eapply key_apply_only_old|done].
Qed.
Lemma key_run_dying h d ops t s :
  key_inv t s -> deleted h s -> only_old h ∅ s -> dying h d s -> key_run_ok t s ops -> dying h d (key_run s ops).
Proof.
  revert t s. induction ops as [|eo ops IH]; intros t s Hi Hd Ho Hc; cbn; [done|]. intros (He & Hok).
  apply (IH (now_cached eo.1)); [by eapply key_apply_inv|by eapply key_apply_deleted|by eapply key_apply_only_old|by eapply key_apply_dying|done].
Qed.

Lemma key_run_ok_app t s ops1 ops2 : key_run_ok t s (ops1 ++ ops2) <->
  key_run_ok t s ops1 /\ key_run_ok (clock_after t ops1) (key_run s ops1) ops2.
Proof. revert t s. induction ops1 as [|eo ops1 IH]; intros t s; cbn; [tauto|]. rewrite IH. tauto. Qed.

Definition empty_store : PgKeyStore := {| api_keys := ∅; cache := ∅ |}.
Definition idle_store : KeyState := {| ks_store := empty_store; ks_pending := ∅ |}.

Lemma idle_store_inv t : key_inv t idle_store.
Proof. split; cbn; intros *; by rewrite lookup_empty. Qed.

(** A lookup that begins in [s], whenever it is answered, does not find [h]. *)
Definition refuses (env : PgEnv) (s : KeyState) (tok h : string) : Prop :=
  match begin_lookup env (ks_store s) tok with
  | Answered r => forall k, r = Ok k -> key_Hash k <> h
  | Comparing rs => forall env' st k, (finish_lookup env' st tok rs).2 = Ok k -> key_Hash k <> h
  end.

(** C25: revocation takes effect within five minutes of the lookups under way:
    let lookups, which read the table, compare and cache in separate steps,
    run side by side with stores, deletions and the reaper, and let a key be
    deleted.  Once the lookups that were under way at the deletion have ended,
    a lookup that begins five minutes later or more never authenticates with
    that key; without lookups under way these are five minutes from the
    deletion. *)
Theorem revocation_bounded ops1 envd ops2 ops3 env h tok :
  key_run_ok 0 idle_store (ops1 ++ (envd, KDelete h) :: ops2 ++ ops3)%list ->
  let s1 := key_run idle_store ops1 in
  is_Some (api_keys (ks_store s1) !! h) -> exec_ok envd = true ->
  let s2 := key_run idle_store (ops1 ++ (envd, KDelete h) :: ops2)%list in
  (forall i, is_Some (ks_pending s1 !! i) -> ks_pending s2 !! i = None) ->
  let s3 := key_run s2 ops3 in
  rows env ≡ₚ live_rows (api_keys (ks_store s3)) -> (clock_after (now_cached envd) ops2 + five_minutes <= now env)%Z ->
  refuses env s3 tok h.
Proof.
  intros Hok s1 [r Hr] Hex s2 Hgone s3 Henv Hlate.
  apply key_run_ok_app in Hok as [Hok1 [Hokd Hok]]. fold s1 in Hokd, Hok. apply key_run_ok_app in Hok as [Hok2 Hok3].
  assert (s2 = key_run (key_apply s1 (envd, KDelete h)) ops2) as Es2 by (unfold s2, key_run; by rewrite fold_left_app).
  pose proof (key_run_inv ops1 0 idle_store (idle_store_inv 0) Hok1) as Hinv1. fold s1 in Hinv1.
  pose proof (key_apply_inv _ _ _ Hinv1 Hokd) as Hinv. cbn [fst] in *.
  assert (deleted h (key_apply s1 (envd, KDelete h))) as Hdel.
  { unfold deleted. cbn. unfold DeleteAPIKey. rewrite Hex. cbn. rewrite lookup_alter_eq, Hr. by eexists. }
  assert (only_old h (dom (ks_pending s1)) (key_apply s1 (envd, KDelete h))) as Hold
    by (intros i p q Hi _ _; cbn in Hi; apply elem_of_dom; by eexists).
  destruct (key_run_revoked _ _ _ _ _ Hinv Hdel Hold Hok2) as [Hdel2 Hold2].
  pose proof (key_run_inv _ _ _ Hinv Hok2) as Hinv2. rewrite <- Es2 in *.
  assert (only_old h ∅ s2) as Hnone.
  { intros i p q Hi Hq Heq. pose proof (Hold2 i p q Hi Hq Heq) as Hin. apply elem_of_dom, Hgone in Hin. congruence. }
  assert (dying h (clock_after (now_cached envd) ops2) s2) as Hdy by (intros p e He _; by eapply ki_cache).
  pose proof (key_run_dying _ _ _ _ _ Hinv2 Hdel2 Hnone Hdy Hok3) as Hdy3.
  destruct (key_run_revoked _ _ _ _ _ Hinv2 Hdel2 Hnone Hok3) as [(r3 & Hr3 & Hd3) _].
  pose proof (key_run_inv _ _ _ Hinv2 Hok3) as [Hk3 _ _]. fold s3 in Hr3, Hdy3, Hk3.
  unfold refuses. destruct (begin_lookup env (ks_store s3) tok) as [res|rs] eqn:Hb.
  - intros k -> Heq. unfold begin_lookup in Hb. destruct (cache_hit _ _ _ _) as [c|] eqn:Hc; [|by destruct (negb _)].
    injection Hb as ->. apply cache_hit_sound in Hc as (e & He & Hexp & <- & _). specialize (Hdy3 _ e He Heq). lia.
  - apply begin_rows in Hb as ->. intros env' st k Hf Heq. unfold finish_lookup in Hf.
    destruct (scan_rows (rows env) tok) as [k'|] eqn:Hs; [|done]. injection Hf as ->.
    apply scan_rows_sound in Hs as [_ (q & Hq & <-)]. rewrite Henv in Hq. apply elem_of_live_rows in Hq as [Hl [h' Hh']].
    apply Hk3 in Hh' as He. congruence.
Qed.
End Revocation.

(** ** Redeeming invites *)

(** An invite that can be redeemed at time [tm]. *)
Definition redeemable (tm : Z) (inv : Invite) : Prop :=
  inv_UsedAt inv = None /\ (tm < inv_ExpiresAt inv)%Z.

#[export] Instance redeemable_dec tm inv : Decision (redeemable tm inv).
Proof. unfold redeemable. apply _. Defined.

Lemma redeemable_test tm inv :
  bool_decide (inv_UsedAt inv = None) && (tm <? inv_ExpiresAt inv)%Z = bool_decide (redeemable tm inv).
Proof.
  unfold redeemable. apply eq_true_iff_eq.
  rewrite andb_true_iff, !bool_decide_eq_true, Z.ltb_lt. done.
Qed.

(** The Postgres transaction, branch by branch. *)
Lemma Pg_Consume_cases e s tok mid h :
  (exists inv, invites s !! tok = Some inv /\ redeemable (tx_now e) inv /\
     Pg_ConsumeAndIssueKey e s tok mid h =
       ({| invites := <[tok := used_invite inv (tx_now e) mid]> (invites s);
           pg_keys := insert_key (pg_keys s) (issued_key inv h); next_id := next_id s |},
        Ok (used_invite inv (tx_now e) mid))) \/
  (exists err, Pg_ConsumeAndIssueKey e s tok mid h = (s, Err err)).
Proof.
  unfold Pg_ConsumeAndIssueKey. destruct (begin_ok e), (update_ok e); cbn [negb];
    try (right; by eexists). cbv zeta.
  destruct (invites s !! tok) as [inv|] eqn:Hi.
  - rewrite redeemable_test. case_bool_decide as Hr.
    + destruct (insert_ok e), (commit_ok e); cbn [negb]; try (right; by eexists).
      left. by exists inv.
    + right. destruct (select_ok e); cbn [negb]; [|by eexists].
      destruct (bool_decide _); [by eexists|]. destruct (negb _); by eexists.
  - right. destruct (select_ok e); by eexists.
Qed.

(** C9: redeeming an invite is atomic and one-shot: either the call succeeds,
    the invite was unused and unexpired, it is now marked used, and the key
    issued carries exactly the invite's user, team and role; or it fails and
    neither table has changed.  A used invite is never redeemed again. *)
Theorem invite_redeem_atomic e s tok mid h s' res :
  Pg_ConsumeAndIssueKey e s tok mid h = (s', res) ->
  (exists inv, res = Ok (used_invite inv (tx_now e) mid) /\
     invites s !! tok = Some inv /\ redeemable (tx_now e) inv /\
     invites s' !! tok = Some (used_invite inv (tx_now e) mid) /\
     (forall t, t <> tok -> invites s' !! t = invites s !! t) /\
     (pg_keys s !! h = None -> exists r, pg_keys s' !! h = Some r /\ deleted_at r = None /\
        row_key r = {| key_UserID := inv_UserID inv; key_TeamID := inv_TeamID inv;
                       key_Role := inv_Role inv; key_Hash := h |}) /\
     (forall e2 mid2 h2, exists err, Pg_ConsumeAndIssueKey e2 s' tok mid2 h2 = (s', Err err))) \/
  (exists err, res = Err err /\ s' = s).
Proof.
  intros Hc. destruct (Pg_Consume_cases e s tok mid h) as [(inv & Hi & Hr & Heq)|[err Heq]];
    rewrite Heq in Hc; apply pair_equal_spec in Hc as [<- <-]; [left|right; by exists err].
  exists inv. split_and!; [done|done|done| | | |]; cbn.
  - apply lookup_insert_eq.
  - intros t Ht. by rewrite lookup_insert_ne.
  - intros Hh. unfold insert_key. cbn. rewrite Hh, lookup_insert_eq. by eexists.
  - intros e2 mid2 h2.
    destruct (Pg_Consume_cases e2 {| invites := <[tok:=used_invite inv (tx_now e) mid]> (invites s);
      pg_keys := insert_key (pg_keys s) (issued_key inv h); next_id := next_id s |} tok mid2 h2)
      as [(inv2 & Hi2 & [Hu _] & _)|Herr]; [|done].
    cbn in Hi2. rewrite lookup_insert_eq in Hi2. injection Hi2 as <-. done.
Qed.

(** The in-memory invite store implements the Postgres one: with the same
    invites, a wired key store, no injected failure and a database that
    works, both return the same result on every branch (issued, not found,
    consumed, expired) and leave the same invites. *)
Theorem invite_stores_agree p m ks tm tok mid h :
  invites p = byHash m -> keyStore m = Some ks -> failIssue m <> Some true ->
  8 <= String.length h ->
  let e := {| begin_ok := true; update_ok := true; select_ok := true; insert_ok := true;
              commit_ok := true; tx_now := tm; go_now := tm |} in
  (Pg_ConsumeAndIssueKey e p tok mid h).2 = (InMem_ConsumeAndIssueKey tm m tok mid h).2 /\
  invites (Pg_ConsumeAndIssueKey e p tok mid h).1 = byHash (InMem_ConsumeAndIssueKey tm m tok mid h).1.
Proof.
  intros Hinv Hks Hfail Hlen e. unfold Pg_ConsumeAndIssueKey, InMem_ConsumeAndIssueKey, e.
  cbn [begin_ok update_ok select_ok insert_ok commit_ok tx_now go_now negb]. cbv zeta.
  rewrite Hinv. destruct (byHash m !! tok) as [inv|]; cbn; [|done].
  rewrite (bool_decide_eq_false_2 (failIssue m = Some true)) by done.
  destruct (inv_UsedAt inv) as [u|] eqn:Hu; cbn; [done|].
  destruct (Z.ltb_spec tm (inv_ExpiresAt inv)); cbn; [|done].
  unfold issue_in_mem. rewrite Hks. unfold InMem_StoreAPIKey.
  destruct (Nat.ltb_spec (String.length h) 8); [lia|]. cbn. done.
Qed.

(** ** Concrete stores *)

Definition sample_bcrypt : Bcrypt :=
  {| CompareHashAndPassword := fun h p => String.eqb h ("$2a$10$" +:+ p) |}.

Definition sample_key (u p : string) : APIKey :=
  {| key_UserID := u; key_TeamID := "core"; key_Role := RoleDeveloper; key_Hash := "$2a$10$" +:+ p |}.
Definition sample_store : PgKeyStore :=
  {| api_keys := {["$2a$10$secret01" := {| row_key := sample_key "ann" "secret01";
       last_used_at := None; deleted_at := None |}]}; cache := ∅ |}.
Definition sample_env (t : Z) (rs : list KeyRow) : PgEnv :=
  {| now := t; query_ok := true; exec_ok := true; rows := rs; now_cached := t |}.
Definition sample_request : Request :=
  {| Method := "GET"; Path := "/v1/agent/forward"; Authorization := "Bearer secret01";
     Ctx := Background |}.

Lemma guarded_route_sound_witness :
  let env := sample_env 0 [{| row_key := sample_key "ann" "secret01"; last_used_at := None;
                              deleted_at := None |}] in
  exists store' r', @guarded _ _ (@Pg_KeyStore sample_bcrypt) env sample_store [RoleDeveloper] sample_request
             = (store', Next r') /\ GetRole (Ctx r') ∈ [RoleDeveloper].
Proof.
  eexists _, _. split; [vm_compute; reflexivity|].
  edestruct (@guarded_route_sound _ _ (@Pg_KeyStore sample_bcrypt)
    (sample_env 0 [{| row_key := sample_key "ann" "secret01"; last_used_at := None;
                      deleted_at := None |}]) sample_store [RoleDeveloper] sample_request)
    as (tok & k & _ & _ & _ & _ & _ & Hr & _ & Hin);
    [ |vm_compute; set_solver|vm_compute; reflexivity|rewrite Hr; apply Hin; discriminate].
  cbn. unfold live_rows. rewrite map_to_list_singleton. reflexivity.
Defined.

Lemma in_memory_key_collision_witness :
  forall i k, (<["$2a$10$x" := {| key_UserID := "bob"; key_TeamID := "core"; key_Role := "developer";
                                  key_Hash := "$2a$10$x2" |}]> {["$2a$10$x" := {| key_UserID := "ann";
               key_TeamID := "core"; key_Role := "developer"; key_Hash := "$2a$10$x1" |}]}
               : gmap string APIKey) !! i = Some k -> key_Hash k <> "$2a$10$x1".
Proof.
  apply (in_memory_key_collision ∅ "ann" "core" "developer" "$2a$10$x1"
    "bob" "core" "developer" "$2a$10$x2"
    {["$2a$10$x" := {| key_UserID := "ann"; key_TeamID := "core"; key_Role := "developer";
                       key_Hash := "$2a$10$x1" |}]}); try reflexivity; try discriminate.
Defined.

Definition sample_row (u p : string) (used : option Z) : KeyRow :=
  {| row_key := sample_key u p; last_used_at := used; deleted_at := None |}.
(** Ann's key is stored, a lookup of it begins and it is revoked; Bob's is
    stored. *)
Definition sample_history : list (PgEnv * key_op) :=
  [(sample_env 1 [], KStore "ann" "core" "developer" "$2a$10$secret01");
   (sample_env 2 [sample_row "ann" "secret01" None], KBegin 0 "secret01")].
Definition sample_delete : PgEnv := sample_env 3 [sample_row "ann" "secret01" None].

(** The lookup ends at 9: from five minutes later on Ann's key is refused. *)
Lemma revocation_bounded_witness :
  let s := @key_run sample_bcrypt (@key_run sample_bcrypt idle_store (sample_history ++ (sample_delete, KDelete "$2a$10$secret01") ::
        [(sample_env 9 [], KFinish 0)])%list) [(sample_env 10 [], KStore "bob" "core" "developer" "$2a$10$secret02")] in
  @refuses sample_bcrypt (sample_env (9 + five_minutes) [sample_row "bob" "secret02" None]) s "secret01" "$2a$10$secret01" /\
  is_Some (cache (ks_store s) !! "secret01").
Proof.
  intros s. split; [|vm_compute; by eexists].
  apply (@revocation_bounded sample_bcrypt sample_history sample_delete [(sample_env 9 [], KFinish 0)]
    [(sample_env 10 [], KStore "bob" "core" "developer" "$2a$10$secret02")]).
  - cbn. unfold key_op_ok. cbn. split_and!; try lia; vm_compute; reflexivity.
  - vm_compute. by eexists.
  - reflexivity.
  - intros i _. change (ks_pending _) with (∅ : gmap nat Pending). apply lookup_empty.
  - vm_compute. reflexivity.
  - cbn. lia.
Defined.

(** A lookup that read the table before the deletion and ends after it keeps
    the key alive for more than five minutes: here the key deleted at 3 is
    accepted five minutes and one nanosecond later. *)
Lemma revocation_race :
  let s := @key_run sample_bcrypt idle_store (sample_history ++ [(sample_delete, KDelete "$2a$10$secret01"); (sample_env 9 [], KFinish 0)])%list in
  @key_run_ok sample_bcrypt 0 idle_store (sample_history ++ [(sample_delete, KDelete "$2a$10$secret01"); (sample_env 9 [], KFinish 0)]) /\
  @begin_lookup sample_bcrypt (sample_env (3 + five_minutes + 1) []) (ks_store s) "secret01" = Answered (Ok (sample_key "ann" "secret01")).
Proof.
  split; [|vm_compute; reflexivity]. cbn. unfold key_op_ok. cbn. split_and!; try lia; vm_compute; reflexivity.
Qed.

Definition sample_invite : Invite :=
  {| inv_ID := 1; inv_TokenHash := "hash"; inv_Role := "developer"; inv_TeamID := "core";
     inv_UserID := "ann"; inv_CreatedBy := "root"; inv_CreatedAt := 1; inv_ExpiresAt := 100;
     inv_UsedAt := None; inv_UsedBy := None; inv_MachineID := None |}.
Definition sample_invites : PgInvites :=
  {| invites := {["hash" := sample_invite]}; pg_keys := ∅; next_id := 2 |}.
Definition tx_ok (t : Z) : TxEnv :=
  {| begin_ok := true; update_ok := true; select_ok := true; insert_ok := true; commit_ok := true;
     tx_now := t; go_now := t |}.

Lemma invite_redeem_atomic_witness :
  exists r, pg_keys (Pg_ConsumeAndIssueKey (tx_ok 5) sample_invites "hash" "m1" "$2a$10$k").1
            !! "$2a$10$k" = Some r /\ key_Role (row_key r) = "developer".
Proof.
  destruct (invite_redeem_atomic (tx_ok 5) sample_invites "hash" "m1" "$2a$10$k" _ _ eq_refl)
    as [(inv & _ & Hi & _ & _ & _ & Hk & _)|(err & Herr & _)]; [|vm_compute in Herr; discriminate].
  destruct (Hk eq_refl) as (r & Hr & _ & Hrow). exists r. split; [exact Hr|].
  rewrite Hrow. vm_compute in Hi. by injection Hi as <-.
Defined.

Lemma invite_stores_agree_witness :
  (InMem_ConsumeAndIssueKey 100 {| byHash := {["hash" := sample_invite]}; keyStore := Some ∅;
                                   failIssue := None |} "hash" "m1" "$2a$10$k").2 = Err ErrInviteExpired.
Proof.
  etransitivity; [symmetry; apply (invite_stores_agree sample_invites {| byHash :=
    {["hash" := sample_invite]}; keyStore := Some ∅; failIssue := None |} ∅ 100 "hash" "m1" "$2a$10$k")|];
    [reflexivity|reflexivity|discriminate|cbn; lia|vm_compute; reflexivity].
Defined.
