(* ===== verification/Handlers.v ===== *)
(** * Bootstrap and onboarding handlers

    [internal/gw/server/handlers.go] (exchange of the setup token, repository
    binding) and [handlers_invite.go] (minting and exchanging invites), with
    the audit events they emit ([internal/gw/audit]).  Request bodies arrive
    decoded: for the invite handlers [inl] is the decoder's error text, for
    [HandleBindRepo] [None] is a body that is not JSON for the request type.
    Random bytes ([None] for a failing source), bcrypt's
    [GenerateFromPassword] and the clock are arguments. *)

From stdpp Require Import sorting base gmap strings fin_maps numbers list.
From S2P Require Import Prelude GoData Edge Auth.
Local Open Scope string_scope.

(** crypto/sha256, as 32 bytes. *)
Class Sha256 := { Sum256 : string -> list Z; Sum256_length s : length (Sum256 s) = 32 }.

Section Hash.
Context {sha : Sha256}.
Definition sha256Hex (s : string) : string := hexEncode (Sum256 s).

Lemma sha256Hex_length s : String.length (sha256Hex s) = 64.
Proof. unfold sha256Hex. by rewrite hexEncode_length, Sum256_length. Qed.
End Hash.

(** ** Responses and audit events *)

Inductive Response :=
| ErrorResp (status : Z) (code message traceID : string)
| JsonResp (status : Z) (body : list (string * any)).

Definition resp_status (r : Response) : Z :=
  match r with ErrorResp st _ _ _ => st | JsonResp st _ => st end.

Definition writeError (status : Z) (code message traceID : string) : Response :=
  ErrorResp status code message traceID.
(** [json.Marshal] of a map sorts its keys. *)
Definition writeJSON (status : Z) (v : list (string * any)) : Response := JsonResp status v.

Record Event := {
  EventAt : Z;
  ev_TraceID : string;
  ev_TenantID : string;
  ev_UserID : string;
  ev_TeamID : string;
  EventType : string;
  Detail : list (string * any);
  ev_RoutedTo : string;
  ev_ErrorCode : string }.

Definition EventInviteCreated := "invite.created".
Definition EventInviteExchanged := "invite.exchanged".

Definition NewEvent (eventType : string) (tm : Z) (traceID tenantID userID teamID : string) : Event :=
  {| EventAt := tm; ev_TraceID := traceID; ev_TenantID := tenantID; ev_UserID := userID;
     ev_TeamID := teamID; EventType := eventType; Detail := []; ev_RoutedTo := ""; ev_ErrorCode := "" |}.

(** [h.writeInviteAudit]; [None] when no audit writer is wired. *)
Definition writeInviteAudit (w : option (list Event)) (et : string) (tm : Z)
    (traceID userID tenantID teamID : string) (detail : list (string * any)) : option (list Event) :=
  match w with
  | None => None
  | Some evs =>
      let ev := NewEvent et tm traceID tenantID userID teamID in
      Some (evs ++ [{| EventAt := EventAt ev; ev_TraceID := ev_TraceID ev; ev_TenantID := ev_TenantID ev;
        ev_UserID := ev_UserID ev; ev_TeamID := ev_TeamID ev; EventType := EventType ev;
        Detail := detail; ev_RoutedTo := ev_RoutedTo ev; ev_ErrorCode := ev_ErrorCode ev |}])%list
  end.

(** ** Exchanging the setup token *)

Section Setup.
Context {sha : Sha256} {Env S : Type} `{KeyStore Env S}.

(** The parts of [Handler] the exchange touches. *)
Record SetupState := {
  h_KeyStore : S;
  h_SetupToken : option SetupToken;
  h_PgSetupTokens : option PgSetupTokenStore }.

Definition with_tokens (h : SetupState) (t : PgSetupTokenStore) : SetupState :=
  {| h_KeyStore := h_KeyStore h; h_SetupToken := h_SetupToken h; h_PgSetupTokens := Some t |}.

(** Validation and consumption of the presented token: the new state, and
    the error response or the flag that it was consumed. *)
Definition consume_setup (h : SetupState) (db db' : bool) (tm : Z) (presented traceID : string)
    : SetupState * outcome Response unit :=
  match h_PgSetupTokens h with
  | Some t =>
      match ConsumeToken db tm t (sha256Hex presented) with
      | (t', Err _) => (with_tokens h t', Err (writeError 500 "internal_error" "token validation failed" traceID))
      | (t', Panic) => (with_tokens h t', Panic)
      | (t', Ok true) => (with_tokens h t', Ok tt)
      | (t', Ok false) =>
          (with_tokens h t', Err (if HasAnyToken db' t'
             then writeError 403 "bad_token" "invalid setup_token" traceID
             else writeError 410 "token_expired" "no setup_token available" traceID))
      end
  | None =>
      match h_SetupToken h with
      | Some st =>
          if Consumed st then
            (h, Err (writeError 410 "token_expired" "setup_token already consumed" traceID))
          else if String.eqb presented (Token st) then
            ({| h_KeyStore := h_KeyStore h; h_SetupToken := Some {| Token := Token st; Consumed := true |};
                h_PgSetupTokens := None |}, Ok tt)
          else (h, Err (writeError 403 "bad_token" "invalid setup_token" traceID))
      | None =>
          (h, Err (writeError 410 "token_expired" "setup_token not available or already consumed" traceID))
      end
  end.

Definition HandleExchangeSetup (h : SetupState) (r : Request) (traceID : string) (db db' : bool) (tm : Z)
    (rnd : option (list Z)) (gen : string -> option string) (env : Env)
    : SetupState * outcome unit Response :=
  if negb (String.eqb (Method r) "POST") then
    (h, Ok (writeError 405 "method_not_allowed" "only POST is supported" traceID))
  else if (String.length (Authorization r) <? 8)%nat || negb (HasPrefix (Authorization r) "Bearer ") then
    (h, Ok (writeError 401 "unauthorized" "setup_token required in Authorization header" traceID))
  else
    let presented := str_drop 7 (Authorization r) in
    match consume_setup h db db' tm presented traceID with
    | (h, Panic) => (h, Panic)
    | (h, Err resp) => (h, Ok resp)
    | (h, Ok _) =>
        match rnd with
        | None => (h, Ok (writeError 500 "internal_error" "failed to generate API key" traceID))
        | Some keyBytes =>
            let cleartext := hexEncode keyBytes in
            match gen cleartext with
            | None => (h, Ok (writeError 500 "internal_error" "failed to hash API key" traceID))
            | Some hash =>
                match StoreAPIKey env (h_KeyStore h) "platform_admin" "platform" RolePlatformAdmin hash with
                | (ks, Err _) =>
                    ({| h_KeyStore := ks; h_SetupToken := h_SetupToken h; h_PgSetupTokens := h_PgSetupTokens h |},
                     Ok (writeError 500 "internal_error" "failed to store API key" traceID))
                | (ks, Panic) =>
                    ({| h_KeyStore := ks; h_SetupToken := h_SetupToken h; h_PgSetupTokens := h_PgSetupTokens h |},
                     Panic)
                | (ks, Ok _) =>
                    ({| h_KeyStore := ks; h_SetupToken := h_SetupToken h; h_PgSetupTokens := h_PgSetupTokens h |},
                     Ok (writeJSON 200 [("api_key", AString cleartext); ("role", AString RolePlatformAdmin);
                       ("team_id", AString "platform"); ("trace_id", AString traceID); ("user_id", AString "platform_admin");
                       ("warning", AString "store this key securely; it will not be shown again")]))
                end
            end
        end
    end.
End Setup.

(** [HandleBindRepo]; the binding token is the first 16 bytes of a minted
    trace id. *)
Definition HandleBindRepo (r : Request) (repoID : option string) (minted : string) : Response :=
  let traceID := GetTraceID (Ctx r) in
  if negb (String.eqb (Method r) "POST") then
    writeError 405 "method_not_allowed" "only POST is supported" traceID
  else match repoID with
       | None => writeError 400 "bad_request" "invalid JSON" traceID
       | Some repo => writeJSON 200 [("binding_token", AString (str_take 16 minted)); ("repo_id", AString repo);
           ("status", AString "bound"); ("trace_id", AString traceID)]
       end.

(** ** Invites *)

(** The interface [InviteStore], with what its clients rely on. *)
Class InviteStore (Env S : Type) := {
  Create : Env -> S -> Invite -> S * outcome InviteError unit;
  ConsumeAndIssueKey : Env -> S -> string -> string -> string -> S * outcome InviteError Invite;
  env_time : Env -> Z;
  env_fine : Env -> S -> Prop;
  pending : S -> string -> Invite -> Prop;
  spent : S -> string -> Prop;
  Create_pending env s inv s' :
    inv_UsedAt inv = None -> Create env s inv = (s', Ok tt) ->
    exists row, pending s' (inv_TokenHash inv) row /\ inv_Role row = inv_Role inv /\
      inv_TeamID row = inv_TeamID inv /\ inv_UserID row = inv_UserID inv /\
      inv_ExpiresAt row = inv_ExpiresAt inv;
  Consume_pending env s tok row mid h :
    env_fine env s -> pending s tok row -> (env_time env < inv_ExpiresAt row)%Z -> 8 <= String.length h ->
    exists s', ConsumeAndIssueKey env s tok mid h = (s', Ok (used_invite row (env_time env) mid)) /\
      spent s' tok;
  Consume_spent env s tok mid h :
    env_fine env s -> spent s tok -> (ConsumeAndIssueKey env s tok mid h).2 = Err ErrInviteConsumed }.

Definition maxInviteTTLHours : Z := 720.
Definition hour : Z := 3600 * 10 ^ 9.

Record createInviteRequest := {
  ci_UserID : string; ci_TeamID : string; ci_Role : string; ci_TTLHours : Z }.
Record exchangeInviteRequest := { ei_InviteToken : string; ei_MachineID : string }.

Definition isAllowedInviteRole (role : string) : bool :=
  String.eqb role RoleDeveloper || String.eqb role RoleTeamAdmin || String.eqb role RolePlatformAdmin.

Section Invites.
Context {sha : Sha256} {Env S : Type} `{InviteStore Env S}.

Record InviteState := {
  h_PgInvites : option S;
  h_PgAuditW : option (list Event);
  h_TeamRegistered : option (string -> bool) }.

Definition with_store (h : InviteState) (s : S) : InviteState :=
  {| h_PgInvites := Some s; h_PgAuditW := h_PgAuditW h; h_TeamRegistered := h_TeamRegistered h |}.
Definition with_audit (h : InviteState) (w : option (list Event)) : InviteState :=
  {| h_PgInvites := h_PgInvites h; h_PgAuditW := w; h_TeamRegistered := h_TeamRegistered h |}.

(** The checks of [HandleAdminCreateInvite] before anything is written. *)
Definition check_create (h : InviteState) (r : Request) (readOk : bool)
    (body : string + createInviteRequest) (traceID : string)
    : outcome Response (createInviteRequest * S) :=
  reject (negb (String.eqb (Method r) "POST"))
    (writeError 405 "method_not_allowed" "only POST is supported" traceID) ≫= fun _ =>
  reject (negb readOk) (writeError 400 "bad_request" "failed to read body" traceID) ≫= fun _ =>
  match body with
  | inl err => Err (writeError 400 "bad_request" ("invalid JSON: " +:+ err) traceID)
  | inr req =>
      reject (is_empty (ci_UserID req)) (writeError 400 "bad_request" "user_id is required" traceID) ≫= fun _ =>
      reject (is_empty (ci_TeamID req)) (writeError 400 "bad_request" "team_id is required" traceID) ≫= fun _ =>
      reject (negb (isAllowedInviteRole (ci_Role req)))
        (writeError 400 "bad_request" "role must be one of developer, team_admin, platform_admin" traceID) ≫= fun _ =>
      reject ((ci_TTLHours req <=? 0)%Z || (maxInviteTTLHours <? ci_TTLHours req)%Z)
        (writeError 400 "bad_request" "ttl_hours must be in (0, 720]" traceID) ≫= fun _ =>
      reject (match h_TeamRegistered h with None => true | Some f => negb (f (ci_TeamID req)) end)
        (writeError 400 "unknown_team" "team_id is not registered in teams.yaml" traceID) ≫= fun _ =>
      match h_PgInvites h with
      | None => Err (writeError 500 "internal_error" "invite store not configured" traceID)
      | Some s => Ok (req, s)
      end
  end.

Definition HandleAdminCreateInvite (h : InviteState) (r : Request) (minted : string) (readOk : bool)
    (body : string + createInviteRequest) (rnd : option (list Z)) (tm : Z) (env : Env)
    : InviteState * Response :=
  let traceID := if is_empty (GetTraceID (Ctx r)) then minted else GetTraceID (Ctx r) in
  match check_create h r readOk body traceID with
  | Err resp => (h, resp)
  | Panic => (h, writeError 500 "panic" "" traceID)
  | Ok (req, s) =>
      match rnd with
      | None => (h, writeError 500 "internal_error" "failed to generate token" traceID)
      | Some buf =>
          let token := hexEncode buf in
          let tokenHash := sha256Hex token in
          let expiresAt := int_add tm (int_mul (ci_TTLHours req) hour) in
          let createdBy := if is_empty (GetUserID (Ctx r)) then "platform_admin" else GetUserID (Ctx r) in
          let inv := {| inv_ID := 0; inv_TokenHash := tokenHash; inv_Role := ci_Role req;
            inv_TeamID := ci_TeamID req; inv_UserID := ci_UserID req; inv_CreatedBy := createdBy;
            inv_CreatedAt := 0; inv_ExpiresAt := expiresAt; inv_UsedAt := None; inv_UsedBy := None;
            inv_MachineID := None |} in
          match Create env s inv with
          | (s', Ok _) =>
              let h := with_store h s' in
              let h := with_audit h (writeInviteAudit (h_PgAuditW h) EventInviteCreated tm traceID
                createdBy "platform" (ci_TeamID req)
                [("target_user_id", AString (ci_UserID req)); ("role", AString (ci_Role req));
                 ("ttl_hours", AInt (ci_TTLHours req)); ("expires_at", AInt expiresAt);
                 ("token_hash_pfx", AString (str_take 16 tokenHash))]) in
              (h, writeJSON 201 [("invite_token", AString token); ("user_id", AString (ci_UserID req));
                 ("team_id", AString (ci_TeamID req)); ("role", AString (ci_Role req));
                 ("expires_at", AInt expiresAt); ("trace_id", AString traceID)])
          | (s', _) =>
              (with_store h s', writeError 500 "internal_error" "failed to persist invite" traceID)
          end
      end
  end.

(** The error table of [HandleExchangeInvite]. *)
Definition invite_error (err : InviteError) (traceID : string) : Response :=
  match err with
  | ErrInviteNotFound => writeError 403 "bad_token" "invalid invite_token" traceID
  | ErrInviteConsumed => writeError 410 "token_consumed" "invite_token already consumed" traceID
  | ErrInviteExpired => writeError 410 "token_expired" "invite_token expired" traceID
  | _ => writeError 500 "internal_error" "invite exchange failed" traceID
  end.

Definition check_exchange (h : InviteState) (r : Request) (readOk : bool)
    (body : string + exchangeInviteRequest) (traceID : string)
    : outcome Response (exchangeInviteRequest * S) :=
  reject (negb (String.eqb (Method r) "POST"))
    (writeError 405 "method_not_allowed" "only POST is supported" traceID) ≫= fun _ =>
  reject (negb readOk) (writeError 400 "bad_request" "failed to read body" traceID) ≫= fun _ =>
  match body with
  | inl err => Err (writeError 400 "bad_request" ("invalid JSON: " +:+ err) traceID)
  | inr req =>
      reject (is_empty (ei_InviteToken req)) (writeError 400 "bad_request" "invite_token is required" traceID) ≫= fun _ =>
      reject (is_empty (ei_MachineID req)) (writeError 400 "bad_request" "machine_id is required" traceID) ≫= fun _ =>
      match h_PgInvites h with
      | None => Err (writeError 500 "internal_error" "invite store not configured" traceID)
      | Some s => Ok (req, s)
      end
  end.

Definition HandleExchangeInvite (h : InviteState) (r : Request) (traceID : string) (readOk : bool)
    (body : string + exchangeInviteRequest) (rnd : option (list Z)) (gen : string -> option string)
    (tm : Z) (env : Env) : InviteState * outcome unit Response :=
  match check_exchange h r readOk body traceID with
  | Err resp => (h, Ok resp)
  | Panic => (h, Panic)
  | Ok (req, s) =>
      match rnd with
      | None => (h, Ok (writeError 500 "internal_error" "failed to generate API key" traceID))
      | Some keyBuf =>
          let cleartext := hexEncode keyBuf in
          match gen cleartext with
          | None => (h, Ok (writeError 500 "internal_error" "failed to hash API key" traceID))
          | Some hash =>
              let tokenHash := sha256Hex (ei_InviteToken req) in
              match ConsumeAndIssueKey env s tokenHash (ei_MachineID req) hash with
              | (s', Err err) => (with_store h s', Ok (invite_error err traceID))
              | (s', Panic) => (with_store h s', Panic)
              | (s', Ok inv) =>
                  let h := with_store h s' in
                  let h := with_audit h (writeInviteAudit (h_PgAuditW h) EventInviteExchanged tm traceID
                    (inv_UserID inv) "platform" (inv_TeamID inv)
                    [("role", AString (inv_Role inv)); ("machine_id", AString (ei_MachineID req));
                     ("created_by", AString (inv_CreatedBy inv));
                     ("token_hash_pfx", AString (str_take 16 tokenHash))]) in
                  (h, Ok (writeJSON 200 [("api_key", AString cleartext); ("user_id", AString (inv_UserID inv));
                    ("role", AString (inv_Role inv)); ("team_id", AString (inv_TeamID inv));
                    ("trace_id", AString traceID)]))
              end
          end
      end
  end.
End Invites.
#[global] Arguments InviteState : clear implicits.
#[global] Arguments SetupState : clear implicits.

(** ** Both invite stores satisfy the interface *)

Lemma used_invite_spent inv tm mid : inv_UsedAt (used_invite inv tm mid) <> None.
Proof. done. Qed.

(** The environment of the Postgres store: statement outcomes for [Create]
    and for the transaction. *)
#[export] Program Instance PgInvites_Store : InviteStore (bool * TxEnv) PgInvites := {|
  Create e s inv := Pg_Create e.1 (tx_now e.2) s inv;
  ConsumeAndIssueKey e s tok mid h := Pg_ConsumeAndIssueKey e.2 s tok mid h;
  env_time e := tx_now e.2;
  env_fine e _ := e.2 = tx_ok (tx_now e.2);
  pending s tok row := invites s !! tok = Some row /\ inv_UsedAt row = None;
  spent s tok := exists row, invites s !! tok = Some row /\ inv_UsedAt row <> None |}.
Next Obligation.
  intros [ok e] s inv s' Hu. cbn. unfold Pg_Create. cbv zeta.
  destruct ok; cbn; [|done]. case_bool_decide; [done|]. intros [<- _]%pair_equal_spec. cbn.
  eexists. rewrite lookup_insert_eq. split_and!; done.
Qed.
Next Obligation.
  intros [ok e] s tok row mid h He [Hi Hu] Ht _. cbn in *.
  destruct (Pg_Consume_cases e s tok mid h) as [(inv & Hi' & _ & ->)|[err Herr]].
  - assert (inv = row) as -> by congruence. eexists. split; [done|]. cbn.
    eexists. rewrite lookup_insert_eq. split; [done|apply used_invite_spent].
  - exfalso. revert Herr. rewrite He. unfold Pg_ConsumeAndIssueKey. cbn. rewrite Hi, Hu. cbn.
    destruct (Z.ltb_spec (tx_now e) (inv_ExpiresAt row)); [done|lia].
Qed.
Next Obligation.
  intros [ok e] s tok mid h He (row & Hi & Hu). cbn in *. rewrite He.
  unfold Pg_ConsumeAndIssueKey. cbn. rewrite Hi. destruct (inv_UsedAt row); [|done]. cbn. done.
Qed.

#[export] Program Instance InMemInvites_Store : InviteStore Z InMemInviteStore := {|
  Create := InMem_Create;
  ConsumeAndIssueKey := InMem_ConsumeAndIssueKey;
  env_time t := t;
  env_fine _ s := failIssue s <> Some true;
  pending s tok row := byHash s !! tok = Some row /\ inv_UsedAt row = None;
  spent s tok := exists row, byHash s !! tok = Some row /\ inv_UsedAt row <> None |}.
Next Obligation.
  intros t s inv s' Hu. unfold InMem_Create. destruct (byHash s !! inv_TokenHash inv); [done|].
  intros [<- _]%pair_equal_spec. cbn. eexists. rewrite lookup_insert_eq. split_and!; done.
Qed.
Next Obligation.
  intros t s tok row mid h He [Hi Hu] Ht Hl. unfold InMem_ConsumeAndIssueKey. rewrite Hi, Hu. cbn.
  destruct (Z.ltb_spec t (inv_ExpiresAt row)); [|lia]. cbn. rewrite bool_decide_eq_false_2 by done.
  unfold issue_in_mem, InMem_StoreAPIKey. destruct (Nat.ltb_spec (String.length h) 8); [lia|].
  destruct (keyStore s); cbn; (eexists; split; [done|]; cbn; eexists; rewrite lookup_insert_eq;
    split; [done|apply used_invite_spent]).
Qed.
Next Obligation.
  intros t s tok mid h He (row & Hi & Hu). unfold InMem_ConsumeAndIssueKey. rewrite Hi.
  destruct (inv_UsedAt row); [|done]. done.
Qed.

(** ** Claims *)

Lemma isAllowedInviteRole_spec role :
  isAllowedInviteRole role = true <-> role ∈ [RoleDeveloper; RoleTeamAdmin; RolePlatformAdmin].
Proof. unfold isAllowedInviteRole. rewrite !orb_true_iff, !String.eqb_eq. set_solver. Qed.

Section Claims.
Context {sha : Sha256}.

Lemma check_create_ok {Env S} `{InviteStore Env S} (h : InviteState S) r readOk body traceID req s :
  check_create h r readOk body traceID = Ok (req, s) <->
  Method r = "POST" /\ readOk = true /\ body = inr req /\ ci_UserID req <> "" /\ ci_TeamID req <> "" /\
  isAllowedInviteRole (ci_Role req) = true /\ (0 < ci_TTLHours req <= 720)%Z /\
  (exists f, h_TeamRegistered h = Some f /\ f (ci_TeamID req) = true) /\ h_PgInvites h = Some s.
Proof.
  unfold check_create. rewrite !bind_reject_ok, !negb_false_iff, String.eqb_eq.
  destruct body as [?|q]; [naive_solver|].
  rewrite !bind_reject_ok, negb_false_iff, !is_empty_false, orb_false_iff, Z.leb_gt, Z.ltb_ge.
  unfold maxInviteTTLHours.
  destruct (h_TeamRegistered h) as [f|], (h_PgInvites h) as [st|]; rewrite ?negb_false_iff;
    naive_solver lia.
Qed.

Lemma check_create_err {Env S} `{InviteStore Env S} (h : InviteState S) r readOk body traceID resp :
  check_create h r readOk body traceID = Err resp -> resp_status resp <> 201%Z.
Proof.
  unfold check_create. intros [->|[->|Hk]%bind_reject_err]%bind_reject_err; [done|done|].
  destruct body as [?|req]; [by injection Hk as <-|]. revert Hk.
  do 5 (intros [->|Hk]%bind_reject_err; [done|]; revert Hk).
  destruct (h_PgInvites h); [done|]. by intros [= <-].
Qed.

(** Onboarding round trip, for any invite store: when an administrator's
    request is accepted (201), the request was valid (allowed role, lifetime
    within 720 hours, registered team); the returned token can then be
    exchanged once, before it expires, for an API key with exactly the
    requested user, team and role (200), and exchanging it again answers
    410 token_consumed. *)
Theorem invite_roundtrip {Env S} `{InviteStore Env S} (h h1 : InviteState S) r minted readOk body rnd tm
    (env : Env) resp r2 trace2 machine key gen hash tm2 env2 trace3 machine3 key3 tm3 env3 :
  HandleAdminCreateInvite h r minted readOk body rnd tm env = (h1, resp) -> resp_status resp = 201%Z ->
  Method r2 = "POST" -> machine <> "" -> machine3 <> "" ->
  (forall c, gen c = Some hash) -> 8 <= String.length hash ->
  (forall s, h_PgInvites h1 = Some s -> env_fine env2 s) ->
  (0 <= tm < 2 ^ 62)%Z ->
  exists req buf, body = inr req /\ rnd = Some buf /\
    isAllowedInviteRole (ci_Role req) = true /\ (0 < ci_TTLHours req <= 720)%Z /\
    (exists registered, h_TeamRegistered h = Some registered /\ registered (ci_TeamID req) = true) /\
    (hexEncode buf <> "" -> (env_time env2 < tm + ci_TTLHours req * (3600 * 10 ^ 9))%Z ->
     let x := {| ei_InviteToken := hexEncode buf; ei_MachineID := machine |} in
     let y := {| ei_InviteToken := hexEncode buf; ei_MachineID := machine3 |} in
     let '(h2, resp2) := HandleExchangeInvite h1 r2 trace2 true (inr x) (Some key) gen tm2 env2 in
     resp2 = Ok (JsonResp 200 [("api_key", AString (hexEncode key)); ("user_id", AString (ci_UserID req));
       ("role", AString (ci_Role req)); ("team_id", AString (ci_TeamID req)); ("trace_id", AString trace2)]) /\
     ((forall s, h_PgInvites h2 = Some s -> env_fine env3 s) ->
      (HandleExchangeInvite h2 r2 trace3 true (inr y) (Some key3) gen tm3 env3).2
       = Ok (ErrorResp 410 "token_consumed" "invite_token already consumed" trace3))).
Proof.
  intros Hc Hst Hpost Hm Hm3 Hgen Hlen Henv2 Hrange.
  unfold HandleAdminCreateInvite in Hc. cbv zeta in Hc.
  destruct (check_create h r readOk body _) as [[req s]|resp0|] eqn:Hk.
  2:{ apply pair_equal_spec in Hc as [<- <-]. by apply check_create_err in Hk. }
  2:{ apply pair_equal_spec in Hc as [<- <-]. done. }
  apply check_create_ok in Hk as (_ & _ & Hb & Hu & Ht & Hr & Httl & Hreg & Hs).
  destruct rnd as [buf|]; [|apply pair_equal_spec in Hc as [<- <-]; done].
  destruct (Create env s _) as [s' res] eqn:Hcr.
  destruct res as [[]| |]; apply pair_equal_spec in Hc as [<- <-]; [|done|done].
  exists req, buf. split_and!; [done|done|done|lia|lia|done|]. intros Htok Htime.
  apply Create_pending in Hcr as (row & Hp & Hrole & Hteam & Huser & Hexp); [|done].
  cbn [inv_TokenHash inv_Role inv_TeamID inv_UserID inv_ExpiresAt] in *.
  assert ((env_time env2 < inv_ExpiresAt row)%Z) as Hlt.
  { rewrite Hexp. unfold int_add, int_mul, hour.
    rewrite (wrap64_id (ci_TTLHours req * (3600 * 10 ^ 9))) by (unfold int64; lia).
    rewrite wrap64_id by (unfold int64; lia). lia. }
  destruct (Consume_pending env2 s' _ row machine hash (Henv2 s' eq_refl) Hp Hlt Hlen) as (s2 & Hco & Hsp).
  cbv zeta. unfold HandleExchangeInvite at 1, check_exchange. rewrite Hpost. cbn [negb].
  cbn. apply is_empty_false in Htok, Hm, Hm3. rewrite Htok, Hm. cbn. rewrite Hgen.
  rewrite Hco. cbn. rewrite Hrole, Huser, Hteam. split; [done|]. intros Henv3.
  unfold HandleExchangeInvite, check_exchange. rewrite Hpost. cbn. rewrite Htok, Hm3. cbn. rewrite Hgen.
  pose proof (Consume_spent env3 s2 (sha256Hex (hexEncode buf)) machine3 hash (Henv3 s2 eq_refl) Hsp) as Hsp3.
  destruct (ConsumeAndIssueKey env3 s2 _ _ _) as [s3 res3]. cbn in Hsp3. rewrite Hsp3. done.
Qed.

(** What the database-backed branch does with a presented token. *)
Lemma consume_setup_pg {Env S} `{KeyStore Env S} (h : SetupState S) t db db' tm presented traceID :
  h_PgSetupTokens h = Some t ->
  (db = true /\ t !! sha256Hex presented = Some None /\
   consume_setup h db db' tm presented traceID
     = (with_tokens h (<[sha256Hex presented := Some tm]> t), Ok tt)) \/
  (exists resp, consume_setup h db db' tm presented traceID = (with_tokens h t, Err resp) /\
     resp_status resp <> 200%Z).
Proof.
  intros Ht. unfold consume_setup, ConsumeToken. rewrite Ht, sha256Hex_length.
  destruct db; cbn [negb]; [|right; by eexists].
  destruct (t !! sha256Hex presented) as [[c|]|].
  - right. eexists. split; [done|]. by destruct (HasAnyToken db' t).
  - left. done.
  - right. eexists. split; [done|]. by destruct (HasAnyToken db' t).
Qed.

(** A token that is not pending (unknown or consumed) is refused and nothing
    changes. *)
Lemma HandleExchangeSetup_spent {Env S} `{KeyStore Env S} (h : SetupState S) t r traceID db db' tm rnd gen
    (env : Env) :
  h_PgSetupTokens h = Some t -> t !! sha256Hex (str_drop 7 (Authorization r)) <> Some None ->
  exists resp, HandleExchangeSetup h r traceID db db' tm rnd gen env = (h, Ok resp) /\ resp_status resp <> 200%Z.
Proof.
  intros Ht Hused. unfold HandleExchangeSetup.
  destruct (negb _); [by eexists|]. destruct (_ || _); [by eexists|]. cbv zeta.
  destruct (consume_setup_pg h t db db' tm (str_drop 7 (Authorization r)) traceID Ht)
    as [(_ & Hn & _)|(resp & -> & Hr)]; [done|].
  exists resp. split; [|done]. f_equal. destruct h; cbn in *. by subst.
Qed.

(** What is left to do once the token has been consumed. *)
Lemma issue_admin_key {Env S} `{KeyStore Env S} (h h1 : SetupState S) t r traceID db db' tm rnd gen
    (env : Env) resp :
  consume_setup h db db' tm (str_drop 7 (Authorization r)) traceID = (with_tokens h t, Ok tt) ->
  HandleExchangeSetup h r traceID db db' tm rnd gen env = (h1, Ok resp) ->
  h1 = h /\ resp_status resp <> 200%Z /\ resp_status resp <> 500%Z \/
  h_PgSetupTokens h1 = Some t /\
    (resp_status resp = 200%Z -> exists key hash, rnd = Some key /\ gen (hexEncode key) = Some hash /\
       StoreAPIKey env (h_KeyStore h) "platform_admin" "platform" RolePlatformAdmin hash = (h_KeyStore h1, Ok tt)).
Proof.
  intros Hc. unfold HandleExchangeSetup. rewrite Hc.
  destruct (negb (String.eqb (Method r) "POST")); [intros [= <- <-]; by left|].
  destruct (_ || _); [intros [= <- <-]; by left|]. intros Hx. right.
  destruct rnd as [key|]; [|by apply pair_equal_spec in Hx as [<- [= <-]]].
  destruct (gen (hexEncode key)) as [hash|] eqn:Hg; [|by apply pair_equal_spec in Hx as [<- [= <-]]].
  cbn [h_KeyStore with_tokens] in Hx.
  destruct (StoreAPIKey env (h_KeyStore h) _ _ _ hash) as [ks [[]| |]] eqn:Hst;
    apply pair_equal_spec in Hx as [<- Hx]; [|by injection Hx as <-|done].
  split; [done|]. intros _. by exists key, hash.
Qed.

(** C33: the setup token is one-shot, on the database-backed path and for any
    key store, for every exchange that is answered: a 200 answer needs a token
    that was stored and unconsumed, consumes it and issues a platform_admin key;
    a pending token whose consuming statement succeeded is consumed even when
    issuing the key then fails with 500; no request changes any other token;
    and a token that is not pending after a request never yields a key again:
    presenting it once more changes nothing, whatever the database, the random
    source and the key store do then. *)
Theorem setup_token_one_shot {Env S} `{KeyStore Env S} (h h1 : SetupState S) t r traceID db db' tm rnd gen
    (env : Env) resp :
  h_PgSetupTokens h = Some t ->
  HandleExchangeSetup h r traceID db db' tm rnd gen env = (h1, Ok resp) ->
  let tok := sha256Hex (str_drop 7 (Authorization r)) in
  (resp_status resp = 200%Z -> t !! tok = Some None /\ h_PgSetupTokens h1 = Some (<[tok := Some tm]> t) /\
     exists key hash, rnd = Some key /\ gen (hexEncode key) = Some hash /\
     StoreAPIKey env (h_KeyStore h) "platform_admin" "platform" RolePlatformAdmin hash
       = (h_KeyStore h1, Ok tt)) /\
  (exists t1, h_PgSetupTokens h1 = Some t1 /\ (t1 = t \/ t1 = <[tok := Some tm]> t) /\
     (t1 !! tok <> Some None ->
      forall trace2 db2 db2' tm2 rnd2 gen2 env2, exists resp2,
        HandleExchangeSetup h1 r trace2 db2 db2' tm2 rnd2 gen2 env2 = (h1, Ok resp2) /\
        resp_status resp2 <> 200%Z)) /\
  (t !! tok = Some None -> resp_status resp = 500%Z -> db = true ->
     h_PgSetupTokens h1 = Some (<[tok := Some tm]> t)).
Proof.
  intros Ht Hx tok.
  assert (forall t1, h_PgSetupTokens h1 = Some t1 -> t1 !! tok <> Some None ->
    forall trace2 db2 db2' tm2 rnd2 gen2 env2, exists resp2,
    HandleExchangeSetup h1 r trace2 db2 db2' tm2 rnd2 gen2 env2 = (h1, Ok resp2) /\
    resp_status resp2 <> 200%Z) as Hagain by (intros; by eapply HandleExchangeSetup_spent).
  destruct (consume_setup_pg h t db db' tm (str_drop 7 (Authorization r)) traceID Ht)
    as [(-> & Hn & Hc)|(resp2 & Hc & Hr2)].
  - fold tok in Hn, Hc. destruct (issue_admin_key _ h1 _ _ _ _ _ _ rnd gen env resp Hc Hx) as [(-> & ? & ?)|[Hh1 H200]].
    + split_and!; [done| |done]. exists t. split_and!; [done|by left|by apply Hagain].
    + split_and!; [by auto| |done]. eexists. split_and!; [done|by right|by apply Hagain].
  - assert (h_PgSetupTokens h1 = Some t /\ resp_status resp <> 200%Z /\ (resp_status resp = 500%Z -> resp = resp2))
      as (Hh1 & H200 & H500).
    { unfold HandleExchangeSetup in Hx. destruct (negb _); [by injection Hx as <- <-|].
      destruct (_ || _); [by injection Hx as <- <-|]. rewrite Hc in Hx. by injection Hx as <- <-. }
    split_and!; [done| |].
    + exists t. split_and!; [done|by left|by apply Hagain].
    + intros Hn ->%H500 ->. unfold consume_setup, ConsumeToken in Hc.
      rewrite Ht, sha256Hex_length in Hc. fold tok in Hc. by rewrite Hn in Hc.
Qed.
End Claims.

(** ** Concrete handlers *)

Definition sample_sha : Sha256 :=
  {| Sum256 := fun s => replicate 32 (Z.of_nat (String.length s) mod 256)%Z;
     Sum256_length := fun s => length_replicate 32 _ |}.
Definition post : Request := {| Method := "POST"; Path := "/"; Authorization := "Bearer setup_ab"; Ctx := Background |}.

Definition sample_invite_state : InviteState InMemInviteStore :=
  {| h_PgInvites := Some {| byHash := ∅; keyStore := Some ∅; failIssue := None |};
     h_PgAuditW := Some []; h_TeamRegistered := Some (fun t => String.eqb t "core") |}.
Definition sample_create : createInviteRequest :=
  {| ci_UserID := "ann"; ci_TeamID := "core"; ci_Role := "developer"; ci_TTLHours := 24 |}.

Lemma invite_roundtrip_witness :
  exists h1 resp h2, 
    @HandleAdminCreateInvite sample_sha _ _ InMemInvites_Store sample_invite_state post "t" true
      (inr sample_create) (Some [1; 2]%Z) 5%Z 5%Z = (h1, resp) /\ resp_status resp = 201%Z /\
    @HandleExchangeInvite sample_sha _ _ InMemInvites_Store h1 post "t2" true
      (inr {| ei_InviteToken := "0102"; ei_MachineID := "m" |}) (Some [3]%Z) (fun _ => Some "$2a$10$abc") 6%Z 8%Z
    = (h2, Ok (JsonResp 200 [("api_key", AString "03"); ("user_id", AString "ann");
        ("role", AString "developer"); ("team_id", AString "core"); ("trace_id", AString "t2")])).
Proof.
  destruct (@HandleAdminCreateInvite sample_sha _ _ InMemInvites_Store sample_invite_state post "t" true
      (inr sample_create) (Some [1; 2]%Z) 5%Z 5%Z) as [h1 resp] eqn:Hc.
  assert (resp_status resp = 201%Z) as Hs by (apply (f_equal snd) in Hc; cbn [snd] in Hc; rewrite <- Hc; vm_compute; reflexivity).
  destruct (@invite_roundtrip sample_sha _ _ InMemInvites_Store sample_invite_state h1 post "t" true
    (inr sample_create) (Some [1; 2]%Z) 5%Z 5%Z resp post "t2" "m" [3]%Z (fun _ => Some "$2a$10$abc")
    "$2a$10$abc" 6%Z 8%Z "t3" "m" [4]%Z 7%Z 7%Z Hc Hs) as (req & buf & [= <-] & [= <-] & _ & _ & _ & Hrt);
    try reflexivity; try discriminate; try (cbn; lia).
  - intros st Hst. apply (f_equal fst) in Hc. cbn [fst] in Hc.
    assert (failIssue <$> h_PgInvites h1 = Some None) as Hf by (rewrite <- Hc; vm_compute; reflexivity).
    rewrite Hst in Hf. injection Hf as Hf. cbn. rewrite Hf. discriminate.
  - specialize (Hrt ltac:(discriminate) ltac:(vm_compute; reflexivity)). cbv zeta in Hrt. cbn [hexEncode] in Hrt.
    destruct (HandleExchangeInvite h1 post "t2" true _ _ _ _ _) as [h2 resp2] eqn:Hx in Hrt.
    destruct Hrt as [-> _]. exists h1, resp, h2. split_and!; [reflexivity|exact Hs|exact Hx].
Defined.

Definition sample_setup : SetupState PgKeyStore :=
  {| h_KeyStore := empty_store; h_SetupToken := None;
     h_PgSetupTokens := Some {[@sha256Hex sample_sha "setup_ab" := None]} |}.

Definition sample_exchange : SetupState PgKeyStore * outcome unit Response :=
  @HandleExchangeSetup sample_sha _ _ (@Pg_KeyStore sample_bcrypt) sample_setup post "t" true true 7%Z
    (Some [1]%Z) (fun c => Some ("$2a$10$" +:+ c)) (sample_env 7 []).

Lemma setup_token_one_shot_witness :
  exists resp, sample_exchange.2 = Ok resp /\ resp_status resp = 200%Z /\
    (forall trace2 db2 db2' tm2 rnd2 gen2 env2, exists resp2,
       @HandleExchangeSetup sample_sha _ _ (@Pg_KeyStore sample_bcrypt) sample_exchange.1 post
         trace2 db2 db2' tm2 rnd2 gen2 env2
       = (sample_exchange.1, Ok resp2) /\ resp_status resp2 <> 200%Z).
Proof.
  eexists. split; [vm_compute; reflexivity|]. split; [reflexivity|].
  edestruct (@setup_token_one_shot sample_sha _ _ (@Pg_KeyStore sample_bcrypt) sample_setup
    sample_exchange.1 {[@sha256Hex sample_sha "setup_ab" := None]} post "t" true true 7%Z (Some [1]%Z)
    (fun c => Some ("$2a$10$" +:+ c)) (sample_env 7 []))
    as (_ & (t1 & Ht1 & _ & Hagain) & _); [reflexivity|vm_compute; reflexivity|].
  apply Hagain. intros Hn.
  assert ((match h_PgSetupTokens sample_exchange.1 with
           | Some t => t !! @sha256Hex sample_sha "setup_ab" | None => None end) <> Some None) as Hu
    by (vm_compute; discriminate).
  rewrite Ht1 in Hu. exact (Hu Hn).
Defined.
