(* ===== verification/Json.v ===== *)
(** * JSON decoding

    The part of package [encoding/json] the sources rely on.  Reading text
    into a document is the parameter [JSON]; decoding a document into a Go
    value is defined here: object members are visited in order and matched
    to fields without regard to case (ASCII), unknown members are ignored,
    [null] leaves scalars and structs unchanged and resets pointers and
    slices, a repeated member decodes into the value built so far, and a
    value of the wrong type makes the whole call fail. *)

From Stdlib Require Import Ascii SpecFloat.
From stdpp Require Import sorting base gmap strings fin_maps numbers list.
From S2P Require Import Prelude GoData.
Local Open Scope string_scope.

Inductive json : Type :=
| JNull
| JBool (b : bool)
| JInt (z : Z)                      (** an integer literal *)
| JFloat (lit : string)             (** any other number literal *)
| JStr (s : string)
| JArr (l : list json)
| JObj (fields : list (string * json)).

Definition newline : ascii := "010".
Definition carriage_return : ascii := "013".

(** Text to document ([None] for text that is not one JSON value), and
    [json.Marshal], whose compact output contains no newline and no carriage
    return: control characters inside strings are escaped.  [parseFloat] reads
    a number literal as a [float64] ([None] when it is out of range), and
    [numberJSON] is the literal [json.Marshal] writes for one. *)
Class JSON := {
  parseJSON : string -> option json;
  printJSON : json -> string;
  parseFloat : string -> option float64;
  numberJSON : float64 -> json;
  printJSON_one_line j : free_of newline (printJSON j) = true /\
                         free_of carriage_return (printJSON j) = true }.

(** A decoder updates the value already present. *)
Definition decoder (T : Type) := json -> T -> option T.

Definition dec_int : decoder Z := fun v old =>
  match v with
  | JNull => Some old
  | JInt z => if ((- 2 ^ 63 <=? z) && (z <? 2 ^ 63))%Z then Some z else None
  | _ => None
  end.

Definition dec_str : decoder string := fun v old =>
  match v with JNull => Some old | JStr s => Some s | _ => None end.

Definition dec_bool : decoder bool := fun v old =>
  match v with JNull => Some old | JBool b => Some b | _ => None end.

(** [json.RawMessage]: any value is kept; [None] is the empty message. *)
Definition dec_raw : decoder (option json) := fun v _ => Some (Some v).

(** [*T]: [null] sets nil, anything else decodes into the pointee. *)
Definition dec_ptr {T} (zero : T) (d : decoder T) : decoder (option T) := fun v old =>
  match v with JNull => Some None | _ => Some <$> d v (default zero old) end.

(** Object members against the fields of a struct. *)
Fixpoint dec_fields {T} (field : string -> option (decoder T)) (fs : list (string * json)) (t : T)
    : option T :=
  match fs with
  | [] => Some t
  | (k, v) :: fs =>
      match field (ToLower k) with
      | None => dec_fields field fs t
      | Some d => d v t ≫= dec_fields field fs
      end
  end.

Definition dec_struct {T} (field : string -> option (decoder T)) : decoder T := fun v old =>
  match v with JNull => Some old | JObj fs => dec_fields field fs old | _ => None end.

(** [[]T]: every element is decoded from the zero value. *)
Definition dec_slice {T} (zero : T) (d : decoder T) : decoder (list T) := fun v _ =>
  match v with JNull => Some [] | JArr l => mapM (fun x => d x zero) l | _ => None end.

(** ** Numbers, maps and [any] *)

Section Values.
Context {js : JSON}.

(** A number literal read as a [float64]. *)
Definition float_of (v : json) : option float64 :=
  match v with
  | JInt z => match f64_of_int z with
              | S754_infinity _ | S754_nan => None
              | f => Some f
              end
  | JFloat lit => parseFloat lit
  | _ => None
  end.

Definition dec_float : decoder float64 := fun v old =>
  match v with JNull => Some old | _ => float_of v end.

(** A Go map keyed by strings, as the sorted members [json.Marshal] writes. *)
Fixpoint put (k : string) (v : json) (m : list (string * json)) : list (string * json) :=
  match m with
  | [] => [(k, v)]
  | (k', v') :: m =>
      match String.compare k k' with
      | Lt => (k, v) :: (k', v') :: m
      | Eq => (k, v) :: m
      | Gt => (k', v') :: put k v m
      end
  end.
Definition put_all (fs m : list (string * json)) : list (string * json) :=
  fold_left (fun m f => put f.1 f.2 m) fs m.

(** A document decoded into an [any] and kept as the document that [any] is
    written as: numbers pass through [float64], objects through maps.  A
    number out of range becomes nil and is reported as an error. *)
Fixpoint any_json (v : json) : json * bool :=
  match v with
  | JNull | JBool _ | JStr _ => (v, true)
  | JInt _ | JFloat _ => match float_of v with Some f => (numberJSON f, true) | None => (JNull, false) end
  | JArr l => let ps := map any_json l in (JArr (map fst ps), forallb snd ps)
  | JObj fs =>
      let ps := map (fun f => (f.1, any_json f.2)) fs in
      (JObj (put_all (map (fun p => (p.1, p.2.1)) ps) []), forallb (fun p => p.2.2) ps)
  end.

(** [map[string]any]: [null] sets the nil map, an object adds its members. *)
Definition dec_any_map : decoder (option (list (string * json))) := fun v old =>
  match v with
  | JNull => Some None
  | JObj fs =>
      let ps := map (fun f => (f.1, any_json f.2)) fs in
      if forallb (fun p => p.2.2) ps
      then Some (Some (put_all (map (fun p => (p.1, p.2.1)) ps) (default [] old))) else None
  | _ => None
  end.
End Values.

(** [map[string]string]; the empty map stands for nil too. *)
Fixpoint dec_string_fields (fs : list (string * json)) (m : gmap string string) : option (gmap string string) :=
  match fs with
  | [] => Some m
  | (k, v) :: fs => s ← dec_str v ""; dec_string_fields fs (<[k := s]> m)
  end.
Definition dec_string_map : decoder (gmap string string) := fun v old =>
  match v with JNull => Some ∅ | JObj fs => dec_string_fields fs old | _ => None end.

(** ** Encoding *)

(** A struct's members in order; [omitempty] members that are empty are left
    out. *)
Definition enc_obj (fs : list (option (string * json))) : json := JObj (omap id fs).
Definition member (k : string) (v : json) : option (string * json) := Some (k, v).
Definition omitempty (empty : bool) (k : string) (v : json) : option (string * json) :=
  if empty then None else Some (k, v).
Definition omit_str (k s : string) : option (string * json) := omitempty (is_empty s) k (JStr s).
Definition omit_nil {T} (k : string) (enc : T -> json) (v : option T) : option (string * json) :=
  match v with None => None | Some x => Some (k, enc x) end.

(** A slice: the nil slice, which every empty slice of the sources is, is
    written as [null]. *)
Definition enc_slice {T} (enc : T -> json) (l : list T) : json :=
  match l with [] => JNull | _ :: _ => JArr (enc <$> l) end.

(** A [map[string]string]. *)
Definition enc_string_map (m : gmap string string) : json :=
  JObj (put_all ((fun p => (p.1, JStr p.2)) <$> map_to_list m) []).

(** ** Unmarshal *)

(** [json.Unmarshal] of a document held in a RawMessage; the empty message is
    not a JSON text. *)
Definition unmarshal_raw {T} (d : decoder T) (raw : option json) (zero : T) : option T :=
  raw ≫= fun v => d v zero.

(** [json.Unmarshal] of text. *)
Definition unmarshal {T} `{JSON} (d : decoder T) (text : string) (zero : T) : option T :=
  unmarshal_raw d (parseJSON text) zero.

(** [int] fields hold 64-bit values. *)
Lemma dec_int_int64 z old : int64 z -> dec_int (JInt z) old = Some z.
Proof.
  intros Hz. unfold dec_int. unfold int64 in Hz.
  destruct (Z.leb_spec (- 2 ^ 63) z), (Z.ltb_spec z (2 ^ 63)); done || lia.
Qed.

Lemma dec_int_range v old z : int64 old -> dec_int v old = Some z -> int64 z.
Proof.
  intros Ho. destruct v; cbn; try done; [by intros [= <-]|].
  destruct (Z.leb_spec (- 2 ^ 63) z0), (Z.ltb_spec z0 (2 ^ 63)); try done. intros [= <-]. unfold int64. lia.
Qed.

Lemma dec_slice_arr {T} (zero : T) d l old ts :
  dec_slice zero d (JArr l) old = Some ts <-> Forall2 (fun x t => d x zero = Some t) l ts.
Proof. cbn. apply mapM_Some. Qed.

Lemma dec_slice_enc {T} (zero : T) d enc (l : list T) old :
  Forall (fun t => d (enc t) zero = Some t) l -> dec_slice zero d (enc_slice enc l) old = Some l.
Proof.
  intros H. destruct l as [|t l]; [done|]. cbn -[mapM].
  apply mapM_Some. change (enc t :: (enc <$> l)) with (enc <$> t :: l). rewrite Forall2_fmap_l.
  by apply Forall_Forall2_diag.
Qed.

(** ** Maps written and read back *)

Definition str_member (p : string * string) : string * json := (p.1, JStr p.2).

Lemma dec_string_fields_list l m :
  NoDup l.*1 -> dec_string_fields (str_member <$> l) m = Some (list_to_map l ∪ m).
Proof.
  revert m. induction l as [|[k s] l IH]; intros m; cbn; [by rewrite map_empty_union|].
  intros [Hk Hnd]%NoDup_cons. rewrite IH by done. f_equal.
  rewrite <- insert_union_l, insert_union_r; [done|]. by apply not_elem_of_list_to_map_1.
Qed.

Lemma put_perm k v m : k ∉ m.*1 -> put k v m ≡ₚ (k, v) :: m.
Proof.
  induction m as [|[k' v'] m IH]; cbn; [done|]. intros [Hne Hk]%not_elem_of_cons.
  destruct (String.compare k k') eqn:Hc; [by apply String.compare_eq_iff in Hc|done|].
  rewrite IH by done. constructor.
Qed.

Lemma put_all_perm fs m : NoDup (fs.*1 ++ m.*1)%list -> put_all fs m ≡ₚ (fs ++ m)%list.
Proof.
  revert m. induction fs as [|[k v] fs IH]; intros m; cbn; [done|].
  intros [Hk Hnd]%NoDup_cons. rewrite elem_of_app in Hk.
  assert (put k v m ≡ₚ (k, v) :: m) as Hp by (apply put_perm; tauto).
  unfold put_all in *. cbn. rewrite IH, Hp; [by rewrite Permutation_middle|].
  rewrite Hp. cbn. rewrite <- Permutation_middle. constructor; [|done]. rewrite elem_of_app. tauto.
Qed.

Lemma dec_enc_string_map m : dec_string_map (enc_string_map m) ∅ = Some m.
Proof.
  assert (Hnd : NoDup (map_to_list m).*1) by apply NoDup_fst_map_to_list.
  unfold enc_string_map. cbn.
  assert (put_all ((fun p => (p.1, JStr p.2)) <$> map_to_list m) [] ≡ₚ str_member <$> map_to_list m) as Hp.
  { rewrite put_all_perm, app_nil_r; [done|]. cbn. rewrite app_nil_r, <- list_fmap_compose. exact Hnd. }
  apply Permutation_map_inv in Hp as (l & -> & Hl). change (map str_member l) with (str_member <$> l).
  rewrite dec_string_fields_list; [|by rewrite <- Hl].
  rewrite map_union_empty. f_equal. rewrite <- (list_to_map_to_list m). by apply list_to_map_proper; rewrite <- Hl.
Qed.

(** ** Structs written and read back *)

(** An invariant of every field decoder is one of the struct decoder. *)
Lemma dec_fields_inv {T} (P : T -> Prop) field fs t t' :
  (forall k d v u u', field k = Some d -> d v u = Some u' -> P u -> P u') ->
  dec_fields field fs t = Some t' -> P t -> P t'.
Proof.
  intros Hf. revert t. induction fs as [|[k v] fs IH]; intros t; cbn; [by intros [= ->]|].
  destruct (field (ToLower k)) as [d|] eqn:Hk; [|by apply IH].
  destruct (d v t) as [u|] eqn:Hd; cbn; [|done]. intros Hrest Ht. eapply IH; [done|]. by eapply Hf.
Qed.

Section Fields.
Context {T : Type} (field : string -> option (decoder T)).

Lemma dec_member d k v l t t' r :
  field (ToLower k) = Some d -> d v t = Some t' ->
  dec_fields field (omap id l) t' = r -> dec_fields field (omap id (member k v :: l)) t = r.
Proof. intros Hk Hd <-. cbn. by rewrite Hk, Hd. Qed.

Lemma dec_skip k v l t : field (ToLower k) = None -> dec_fields field ((k, v) :: l) t = dec_fields field l t.
Proof. intros Hk. cbn [dec_fields]. by rewrite Hk. Qed.

Lemma dec_take d t' k v l t : field (ToLower k) = Some d -> d v t = Some t' ->
  dec_fields field ((k, v) :: l) t = dec_fields field l t'.
Proof. intros Hk Hd. cbn [dec_fields]. rewrite Hk. by rewrite Hd. Qed.

Lemma dec_omit_str get set k s l t r :
  field (ToLower k) = Some (fun v b => x ← dec_str v (get b); Some (set b x)) -> set t "" = t ->
  dec_fields field (omap id l) (set t s) = r -> dec_fields field (omap id (omit_str k s :: l)) t = r.
Proof.
  intros Hk Hz <-. unfold omit_str, omitempty. destruct s as [|c s]; cbn; [by rewrite Hz|]. by rewrite Hk.
Qed.

Lemma dec_omitempty d t' e k v l t r :
  field (ToLower k) = Some d -> (e = true -> t' = t) -> (e = false -> d v t = Some t') ->
  dec_fields field (omap id l) t' = r -> dec_fields field (omap id (omitempty e k v :: l)) t = r.
Proof. intros Hk He Hd <-. destruct e; cbn; [by rewrite He|]. by rewrite Hk, Hd. Qed.

Lemma dec_omit_nil {X} d t' k (enc : X -> json) v l t r :
  field (ToLower k) = Some d -> (v = None -> t' = t) -> (forall x, v = Some x -> d (enc x) t = Some t') ->
  dec_fields field (omap id l) t' = r -> dec_fields field (omap id (omit_nil k enc v :: l)) t = r.
Proof. intros Hk He Hd <-. destruct v; cbn; [by rewrite Hk, (Hd x)|by rewrite He]. Qed.
End Fields.

(** Walk through the members of an object: unknown ones are skipped. *)
Ltac dec_walk := repeat (rewrite dec_skip by reflexivity).

(** ** A concrete text format

    An instance of [JSON] on which every document is read back, used where a
    statement needs a reader and a printer that compute: the text of a value
    of a countable type is the binary numeral of its code. *)

Fixpoint pos_text (p : positive) : string :=
  match p with xH => "" | xO p => String "0" (pos_text p) | xI p => String "1" (pos_text p) end.
Fixpoint text_pos (s : string) : option positive :=
  match s with
  | EmptyString => Some xH
  | String c s =>
      p ← text_pos s;
      if Ascii.eqb c "0" then Some (xO p) else if Ascii.eqb c "1" then Some (xI p) else None
  end.

Definition code_text {A} `{Countable A} (a : A) : string := String "#" (pos_text (encode a)).
Definition text_code {A} `{Countable A} (s : string) : option A :=
  match s with
  | String c s => if Ascii.eqb c "#" then text_pos s ≫= decode else None
  | EmptyString => None
  end.

Lemma text_pos_text p : text_pos (pos_text p) = Some p.
Proof. induction p as [p IH|p IH|]; cbn; [by rewrite IH..|done]. Qed.
Lemma pos_text_free c p : Ascii.eqb "0" c = false -> Ascii.eqb "1" c = false -> free_of c (pos_text p) = true.
Proof. intros H0 H1. induction p as [p IH|p IH|]; cbn [pos_text free_of]; [by rewrite H1|by rewrite H0|done]. Qed.
Lemma text_code_text {A} `{Countable A} (a : A) : text_code (code_text a) = Some a.
Proof. cbn. by rewrite text_pos_text; cbn; rewrite decode_encode. Qed.
Lemma code_text_free {A} `{Countable A} c (a : A) :
  Ascii.eqb "#" c = false -> Ascii.eqb "0" c = false -> Ascii.eqb "1" c = false -> free_of c (code_text a) = true.
Proof. intros Hs Hz Ho. unfold code_text. cbn [free_of]. by rewrite Hs, pos_text_free. Qed.

(** Documents as trees of integers and strings. *)
Fixpoint json_tree (v : json) : gen_tree (Z + string) :=
  match v with
  | JNull => GenNode 0 []
  | JBool b => GenNode 1 [GenLeaf (inl (Z.b2z b))]
  | JInt z => GenNode 2 [GenLeaf (inl z)]
  | JFloat lit => GenNode 3 [GenLeaf (inr lit)]
  | JStr s => GenNode 4 [GenLeaf (inr s)]
  | JArr l => GenNode 5 (map json_tree l)
  | JObj fs => GenNode 6 (map (fun f => GenNode 7 [GenLeaf (inr f.1); json_tree f.2]) fs)
  end.
Fixpoint tree_json (t : gen_tree (Z + string)) : json :=
  match t with
  | GenNode 1 [GenLeaf (inl z)] => JBool (Z.odd z)
  | GenNode 2 [GenLeaf (inl z)] => JInt z
  | GenNode 3 [GenLeaf (inr lit)] => JFloat lit
  | GenNode 4 [GenLeaf (inr s)] => JStr s
  | GenNode 5 ts => JArr (map tree_json ts)
  | GenNode 6 ts =>
      JObj (map (fun t => match t with GenNode _ [GenLeaf (inr k); v] => (k, tree_json v) | _ => ("", JNull) end) ts)
  | _ => JNull
  end.

Lemma tree_json_tree : forall v, tree_json (json_tree v) = v.
Proof.
  fix IH 1. intros [|[]|z|lit|s|l|fs]; [done..| |].
  - cbn. f_equal. induction l as [|v l IHl]; [done|]. cbn. by rewrite IH, IHl.
  - cbn. f_equal. induction fs as [|[k v] fs IHf]; [done|]. cbn. by rewrite IH, IHf.
Qed.

Definition coded_json : JSON :=
  {| parseJSON := fun s => tree_json <$> text_code s;
     printJSON := fun v => code_text (json_tree v);
     parseFloat := fun _ => None;
     numberJSON := fun f => match f64_trunc f with Some z => JInt z | None => JNull end;
     printJSON_one_line := fun v => conj (code_text_free newline (json_tree v) eq_refl eq_refl eq_refl)
                                         (code_text_free carriage_return (json_tree v) eq_refl eq_refl eq_refl) |}.

Lemma coded_json_read_back v : @parseJSON coded_json (@printJSON coded_json v) = Some v.
Proof. cbn -[code_text text_code]. by rewrite text_code_text; cbn; rewrite tree_json_tree. Qed.
