(* ===== verification/Capability.v ===== *)
(** * Capability detection

    [internal/gw/policy/capability_detect.go]: which endpoint capabilities a
    request body needs, and which of them are hard requirements. *)

From stdpp Require Import sorting base gmap strings fin_maps numbers list.
From S2P Require Import Prelude Json.
Local Open Scope string_scope.

Record contentBlock := { cb_Type : string; cb_CacheControl : option json }.
Record message := { msg_Role : string; msg_Content : option json }.
Record messagesBody := {
  mb_Messages : list message; mb_System : option json; mb_Thinking : option json }.

Definition zero_block : contentBlock := {| cb_Type := ""; cb_CacheControl := None |}.
Definition zero_message : message := {| msg_Role := ""; msg_Content := None |}.
Definition zero_body : messagesBody := {| mb_Messages := []; mb_System := None; mb_Thinking := None |}.

(** The struct tags. *)
Definition contentBlock_field (k : string) : option (decoder contentBlock) :=
  if String.eqb k "type" then
    Some (fun v b => t ← dec_str v (cb_Type b); Some {| cb_Type := t; cb_CacheControl := cb_CacheControl b |})
  else if String.eqb k "cache_control" then
    Some (fun v b => c ← dec_raw v (cb_CacheControl b); Some {| cb_Type := cb_Type b; cb_CacheControl := c |})
  else None.
Definition message_field (k : string) : option (decoder message) :=
  if String.eqb k "role" then
    Some (fun v m => r ← dec_str v (msg_Role m); Some {| msg_Role := r; msg_Content := msg_Content m |})
  else if String.eqb k "content" then
    Some (fun v m => c ← dec_raw v (msg_Content m); Some {| msg_Role := msg_Role m; msg_Content := c |})
  else None.
Definition messagesBody_field (k : string) : option (decoder messagesBody) :=
  if String.eqb k "messages" then
    Some (fun v b => ms ← dec_slice zero_message (dec_struct message_field) v (mb_Messages b);
                     Some {| mb_Messages := ms; mb_System := mb_System b; mb_Thinking := mb_Thinking b |})
  else if String.eqb k "system" then
    Some (fun v b => s ← dec_raw v (mb_System b);
                     Some {| mb_Messages := mb_Messages b; mb_System := s; mb_Thinking := mb_Thinking b |})
  else if String.eqb k "thinking" then
    Some (fun v b => t ← dec_raw v (mb_Thinking b);
                     Some {| mb_Messages := mb_Messages b; mb_System := mb_System b; mb_Thinking := t |})
  else None.

Definition dec_block : decoder contentBlock := dec_struct contentBlock_field.
Definition dec_body : decoder messagesBody := dec_struct messagesBody_field.

(** [len(raw) > 0] *)
Definition present (raw : option json) : bool := match raw with Some _ => true | None => false end.

(** Both array scans: an array of blocks, or one block. *)
Definition scan_blocks (p : contentBlock -> bool) (raw : option json) : bool :=
  match unmarshal_raw (dec_slice zero_block dec_block) raw [] with
  | Some blocks => existsb p blocks
  | None => match unmarshal_raw dec_block raw zero_block with Some single => p single | None => false end
  end.

Definition hasCacheControlInArray (raw : option json) : bool :=
  scan_blocks (fun b => present (cb_CacheControl b)) raw.
Definition hasVisionInArray (raw : option json) : bool :=
  scan_blocks (fun b => String.eqb (cb_Type b) "image") raw.

(** [len(mb.Thinking) > 0 && string(mb.Thinking) != "null"] *)
Definition present_not_null (raw : option json) : bool :=
  match raw with None | Some JNull => false | Some _ => true end.

(** [DetectCapabilities], on the body already read as a document. *)
Definition detect_in (mb : messagesBody) : list string :=
  let sysCache := if present (mb_System mb) then hasCacheControlInArray (mb_System mb) else false in
  let hasCacheControl := fold_left (fun acc m => acc || hasCacheControlInArray (msg_Content m))
                           (mb_Messages mb) sysCache in
  let hasVision := fold_left (fun acc m => acc || hasVisionInArray (msg_Content m)) (mb_Messages mb) false in
  let caps := if hasCacheControl then ["cache_control"] else [] in
  let caps := if present_not_null (mb_Thinking mb)
              then (caps ++ ["extended_thinking"])%list else caps in
  if hasVision then (caps ++ ["vision"])%list else caps.

Definition DetectCapabilities (body : option json) : list string :=
  match unmarshal_raw dec_body body zero_body with None => [] | Some mb => detect_in mb end.

(** [FilterDegradable] *)
Definition FilterDegradable (detected allowed : list string) : list string :=
  match allowed with
  | [] => detected
  | _ :: _ => filter (fun c => c ∉ (list_to_set allowed : gset string)) detected
  end.

(** ** Lemmas *)

Lemma fold_or {A} (f : A -> bool) l b :
  fold_left (fun acc x => acc || f x) l b = true <-> b = true \/ exists x, x ∈ l /\ f x = true.
Proof.
  revert b. induction l as [|x l IH]; intros b; cbn.
  - setoid_rewrite elem_of_nil. naive_solver.
  - rewrite IH, orb_true_iff. setoid_rewrite elem_of_cons. naive_solver.
Qed.

(** A block object carries cache control exactly when it has the member. *)
Lemma dec_block_cache fs b0 b :
  dec_fields contentBlock_field fs b0 = Some b ->
  present (cb_CacheControl b) = true <->
  present (cb_CacheControl b0) = true \/ exists k v, (k, v) ∈ fs /\ ToLower k = "cache_control".
Proof.
  revert b0. induction fs as [|[k v] fs IH]; intros b0; cbn.
  - intros [= <-]. setoid_rewrite elem_of_nil. naive_solver.
  - setoid_rewrite elem_of_cons. unfold contentBlock_field at 1.
    destruct (String.eqb_spec (ToLower k) "type") as [Hk|Hk].
    { destruct (dec_str v (cb_Type b0)) as [t|]; cbn; [|done]. intros ->%IH. cbn.
      split; intros [?|(k' & v' & Hin & ?)]; [by left|right; exists k', v'; by split; [right|]|by left|].
      destruct Hin as [[= -> ->]|?]; [congruence|]. right. by exists k', v'. }
    destruct (String.eqb_spec (ToLower k) "cache_control") as [Hc|Hc].
    { cbn. intros ->%IH. cbn. split; [|by left]. intros _. right. exists k, v. split; [by left|done]. }
    intros ->%IH. split; intros [?|(k' & v' & Hin & ?)];
      [by left|right; exists k', v'; by split; [right|]|by left|].
    destruct Hin as [[= -> ->]|?]; [done|]. right. by exists k', v'.
Qed.

(** A content array whose blocks all decode: some block satisfies [p]. *)
Lemma scan_blocks_array p l bs :
  Forall2 (fun x b => dec_block x zero_block = Some b) l bs ->
  scan_blocks p (Some (JArr l)) = existsb p bs.
Proof.
  intros Hbs. unfold scan_blocks, unmarshal_raw.
  change (Some (JArr l) ≫= fun v => dec_slice zero_block dec_block v [])
    with (dec_slice zero_block dec_block (JArr l) []).
  assert (dec_slice zero_block dec_block (JArr l) [] = Some bs) as -> by (by apply dec_slice_arr).
  done.
Qed.

(** A content array of objects, each with a [cache_control] free decode. *)
Lemma cache_control_array l :
  Forall (fun x => exists fs b, x = JObj fs /\ dec_fields contentBlock_field fs zero_block = Some b) l ->
  hasCacheControlInArray (Some (JArr l)) = true <->
  exists fs k v, JObj fs ∈ l /\ (k, v) ∈ fs /\ ToLower k = "cache_control".
Proof.
  intros Hl. assert (exists bs, Forall2 (fun x b => exists fs, x = JObj fs /\
    dec_fields contentBlock_field fs zero_block = Some b) l bs) as [bs Hbs].
  { induction Hl as [|x l (fs & b & -> & Hb) _ [bs IH]]; [by exists []|].
    exists (b :: bs). constructor; [by exists fs|done]. }
  unfold hasCacheControlInArray. erewrite scan_blocks_array.
  2:{ eapply Forall2_impl; [exact Hbs|]. by intros x b (fs & -> & Hb). }
  rewrite existsb_exists. clear Hl. split.
  - intros (b & Hb & Hp). apply list_elem_of_In in Hb.
    apply list_elem_of_lookup_1 in Hb as [i Hb].
    eapply Forall2_lookup_r in Hbs as (x & Hx & fs & -> & Hd); [|done].
    apply list_elem_of_lookup_2 in Hx.
    destruct (proj1 (dec_block_cache _ _ _ Hd) Hp) as [Hp'|(k & v & Hk & Hc)]; [done|]. by exists fs, k, v.
  - intros (fs & k & v & Hx & Hk & Hc).
    apply list_elem_of_lookup_1 in Hx as [i Hx].
    eapply Forall2_lookup_l in Hbs as (b & Hb & fs' & Heq & Hd); [|done].
    injection Heq as <-.
    apply list_elem_of_lookup_2 in Hb.
    exists b. split; [by apply list_elem_of_In|]. apply (dec_block_cache _ _ _ Hd). right. by exists k, v.
Qed.

(** The content blocks a raw field stands for: the elements of an array, or
    the one block the field itself is. *)
Inductive block_of (raw : option json) (b : contentBlock) : Prop :=
| block_in_array bs :
    unmarshal_raw (dec_slice zero_block dec_block) raw [] = Some bs -> b ∈ bs -> block_of raw b
| block_alone :
    unmarshal_raw (dec_slice zero_block dec_block) raw [] = None ->
    unmarshal_raw dec_block raw zero_block = Some b -> block_of raw b.

Lemma scan_blocks_spec p raw : scan_blocks p raw = true <-> exists b, block_of raw b /\ p b = true.
Proof.
  unfold scan_blocks. split.
  - destruct (unmarshal_raw (dec_slice _ _) raw []) as [bs|] eqn:Hs.
    + intros (b & Hb%list_elem_of_In & Hp)%existsb_exists. exists b. split; [by eapply block_in_array|done].
    + destruct (unmarshal_raw dec_block raw zero_block) as [b|] eqn:Hb; [|done].
      intros Hp. exists b. split; [by apply block_alone|done].
  - intros (b & [bs Hs Hb|Hs Hb] & Hp); rewrite Hs; [|by rewrite Hb].
    apply existsb_exists. exists b. split; [by apply list_elem_of_In|done].
Qed.

Lemma block_of_present raw b : block_of raw b -> present raw = true.
Proof. destruct raw; [done|]. by intros []. Qed.

(** What a decoded body shows of each capability. *)
Definition shows (mb : messagesBody) (c : string) : Prop :=
  (c = "cache_control" /\ exists b, is_Some (cb_CacheControl b) /\
     (block_of (mb_System mb) b \/ exists m, m ∈ mb_Messages mb /\ block_of (msg_Content m) b)) \/
  (c = "extended_thinking" /\ exists v, mb_Thinking mb = Some v /\ v <> JNull) \/
  (c = "vision" /\ exists m b, m ∈ mb_Messages mb /\ block_of (msg_Content m) b /\ cb_Type b = "image").

Lemma present_is_Some {raw : option json} : present raw = true <-> is_Some raw.
Proof. destruct raw; cbn; split; intros H; (done || by eexists || by destruct H). Qed.

Lemma thinking_shown raw : present_not_null raw = true <-> exists v, raw = Some v /\ v <> JNull.
Proof. unfold present_not_null. destruct raw as [[]|]; naive_solver. Qed.

Lemma cache_control_shown mb :
  present (mb_System mb) && hasCacheControlInArray (mb_System mb) = true \/
    (exists m, m ∈ mb_Messages mb /\ hasCacheControlInArray (msg_Content m) = true) <->
  exists b, is_Some (cb_CacheControl b) /\
    (block_of (mb_System mb) b \/ exists m, m ∈ mb_Messages mb /\ block_of (msg_Content m) b).
Proof.
  unfold hasCacheControlInArray. rewrite andb_true_iff. setoid_rewrite scan_blocks_spec.
  setoid_rewrite present_is_Some. pose proof (block_of_present (mb_System mb)) as Hp.
  setoid_rewrite present_is_Some in Hp. naive_solver.
Qed.

Lemma detect_in_spec mb c : c ∈ detect_in mb <-> shows mb c.
Proof.
  unfold shows. rewrite <- cache_control_shown, <- thinking_shown.
  assert ((exists m b, m ∈ mb_Messages mb /\ block_of (msg_Content m) b /\ cb_Type b = "image") <->
    fold_left (fun acc m => acc || hasVisionInArray (msg_Content m)) (mb_Messages mb) false = true) as ->.
  { rewrite (fold_or (fun m => hasVisionInArray (msg_Content m))). unfold hasVisionInArray.
    setoid_rewrite scan_blocks_spec. setoid_rewrite String.eqb_eq. naive_solver. }
  unfold detect_in. cbv zeta.
  assert ((if present (mb_System mb) then hasCacheControlInArray (mb_System mb) else false)
    = present (mb_System mb) && hasCacheControlInArray (mb_System mb)) as -> by (by destruct (present _)).
  rewrite <- !(fold_or (fun m => hasCacheControlInArray (msg_Content m))).
  destruct (fold_left _ _ (_ && _)), (present_not_null _), (fold_left _ _ false); cbn; set_solver.
Qed.

Lemma elem_of_FilterDegradable detected allowed c :
  c ∈ FilterDegradable detected allowed <-> c ∈ detected /\ c ∉ allowed.
Proof.
  unfold FilterDegradable. destruct allowed as [|a allowed]; [set_solver|].
  rewrite list_elem_of_filter, elem_of_list_to_set. tauto.
Qed.

(** ** Claim *)

(** C35: the hard requirements computed for a request are exact: a capability
    is required if and only if it is not declared degradable and the body
    shows it — a cache_control member on a system or message block, a
    non-null thinking member, or a block of type image — and each is listed
    once. *)
Theorem hard_capabilities_exact mb body allowed c :
  unmarshal_raw dec_body body zero_body = Some mb ->
  NoDup (DetectCapabilities body) /\
  (c ∈ FilterDegradable (DetectCapabilities body) allowed <-> c ∉ allowed /\ shows mb c).
Proof.
  intros Hb. unfold DetectCapabilities. rewrite Hb. split.
  - unfold detect_in. cbv zeta.
    destruct (fold_left (fun acc m => acc || hasCacheControlInArray _) _ _), (present_not_null _),
      (fold_left (fun acc m => acc || hasVisionInArray _) _ _); cbn; repeat constructor; set_solver.
  - rewrite elem_of_FilterDegradable, detect_in_spec. tauto.
Qed.

Definition sample_body : json :=
  JObj [("model", JStr "claude"); ("Thinking", JObj []);
        ("messages", JArr [JObj [("role", JStr "user");
           ("content", JArr [JObj [("type", JStr "image")];
                             JObj [("type", JStr "text"); ("cache_control", JNull)]])]])].

Lemma hard_capabilities_exact_witness :
  "vision" ∈ FilterDegradable (DetectCapabilities (Some sample_body)) ["cache_control"].
Proof.
  eapply (hard_capabilities_exact _ (Some sample_body) ["cache_control"] "vision"); [vm_compute; reflexivity|].
  split; [set_solver|]. right. right. split; [reflexivity|]. eexists _, _. split; [left|].
  split; [eapply block_in_array; [vm_compute; reflexivity|left]|reflexivity].
Defined.

(** A [null] cache_control member counts as cache control, although a [null]
    thinking member does not count as thinking. *)
Example null_cache_control_detected :
  DetectCapabilities (Some (JObj [("thinking", JNull); ("system",
    JArr [JObj [("cache_control", JNull)]])])) = ["cache_control"].
Proof. vm_compute. reflexivity. Qed.
