(* ===== verification/Cost.v ===== *)
(** * Cost calculation

    [internal/gw/cost/cost.go] with [ir.Usage]: prices are IEEE doubles per
    1000 tokens, token counts 64-bit integers.  Converting a double that does
    not fit an [int] is implementation-defined in Go, so its result is the
    parameter [overflow]. *)

From Stdlib Require Import SpecFloat.
From stdpp Require Import sorting base gmap strings fin_maps numbers list.
From S2P Require Import Prelude GoData Config.
Local Open Scope string_scope.

Record Usage := { Input : Z; Output : Z; CacheRead : Z; CacheCreate : Z }.
Definition zero_usage : Usage := {| Input := 0; Output := 0; CacheRead := 0; CacheCreate := 0 |}.

(** [cost.Event] *)
Record CostEvent := {
  ce_Wire : string; ce_VendorID : string; ce_EndpointID : string; ce_Model : string;
  ce_Pool : string; ce_IsPrivate : bool;
  ce_InputTokens : Z; ce_OutputTokens : Z; ce_CacheReadTokens : Z; ce_CacheCreateTokens : Z;
  ce_CostCents : Z; ce_InputCostCents : Z; ce_OutputCostCents : Z; ce_CacheReadCostCents : Z;
  ce_CacheCreateCostCents : Z; ce_Currency : string; ce_CostSource : string }.

(** The results of [Calculate]. *)
Record Costs := {
  totalCents : Z; inputCostCents : Z; outputCostCents : Z; cacheReadCostCents : Z;
  cacheCreateCostCents : Z; currency : string; source : string }.

Definition Calculator := option PricingConfig.
Definition NewCalculator (pricing : option PricingConfig) : Calculator := pricing.
Definition Calculator_SetPricing (c : Calculator) (pricing : option PricingConfig) : Calculator := pricing.

Fixpoint lookup_models (ms : list ModelPricing) (vendor model : string) : option ModelPricing :=
  match ms with
  | [] => None
  | p :: ms => if String.eqb (mp_Vendor p) vendor && String.eqb (mp_Model p) model then Some p
               else lookup_models ms vendor model
  end.
Definition lookupPrice (c : Calculator) (vendor model : string) : option ModelPricing :=
  match c with None => None | Some pricing => lookup_models (Models pricing) vendor model end.

Definition effectiveCacheReadPrice (m : ModelPricing) : float64 :=
  default (InputPricePer1KTokens m) (CacheReadPricePer1KTokens m).
Definition effectiveCacheCreatePrice (m : ModelPricing) : float64 :=
  default (InputPricePer1KTokens m) (CacheCreatePricePer1KTokens m).

Definition f64_1000 : float64 := f64_of_int 1000.
(** [float64(tokens) * price / 1000] *)
Definition bucket (tokens : Z) (price : float64) : float64 :=
  f64_div (f64_mul (f64_of_int tokens) price) f64_1000.

(** The four bucket costs, and their sum in source order, as doubles. *)
Definition bucket_costs (m : ModelPricing) (u : Usage) : float64 * float64 * float64 * float64 :=
  (bucket (Input u) (InputPricePer1KTokens m), bucket (Output u) (OutputPricePer1KTokens m),
   bucket (CacheRead u) (effectiveCacheReadPrice m), bucket (CacheCreate u) (effectiveCacheCreatePrice m)).
Definition total_cost (b : float64 * float64 * float64 * float64) : float64 :=
  let '(i, o, r, c) := b in f64_add (f64_add (f64_add i o) r) c.

Definition fits (x : float64) : Prop := exists z, f64_trunc x = Some z /\ int64 z.

Section Calculate.
Context (overflow : float64 -> Z).

(** [int(x)] *)
Definition int_of_f64 (x : float64) : Z :=
  match f64_trunc x with
  | Some z => if ((- 2 ^ 63 <=? z) && (z <? 2 ^ 63))%Z then z else overflow x
  | None => overflow x
  end.

Definition Calculate (c : Calculator) (vendor model : string)
    (inputTokens outputTokens cacheReadTokens cacheCreateTokens : Z) : Costs :=
  match lookupPrice c vendor model with
  | None => {| totalCents := 0; inputCostCents := 0; outputCostCents := 0; cacheReadCostCents := 0;
               cacheCreateCostCents := 0; currency := "USD"; source := "estimated" |}
  | Some price =>
      let b := bucket_costs price {| Input := inputTokens; Output := outputTokens;
                 CacheRead := cacheReadTokens; CacheCreate := cacheCreateTokens |} in
      let '(i, o, r, cr) := b in
      {| totalCents := int_of_f64 (total_cost b);
         inputCostCents := int_of_f64 i; outputCostCents := int_of_f64 o;
         cacheReadCostCents := int_of_f64 r; cacheCreateCostCents := int_of_f64 cr;
         currency := if is_empty (mp_Currency price) then "USD" else mp_Currency price;
         source := if ((0 <? cacheReadTokens)%Z && is_nil (CacheReadPricePer1KTokens price))
                      || ((0 <? cacheCreateTokens)%Z && is_nil (CacheCreatePricePer1KTokens price))
                   then "estimated" else "provider_usage" |}
  end.

Definition BuildEvent (usage : option Usage) (wire vendorID endpointID model pool : string)
    (isPrivate : bool) (calc : Calculator) : CostEvent :=
  let usage := default zero_usage usage in
  let k := Calculate calc vendorID model (Input usage) (Output usage) (CacheRead usage) (CacheCreate usage) in
  {| ce_Wire := wire; ce_VendorID := vendorID; ce_EndpointID := endpointID; ce_Model := model;
     ce_Pool := pool; ce_IsPrivate := isPrivate;
     ce_InputTokens := Input usage; ce_OutputTokens := Output usage;
     ce_CacheReadTokens := CacheRead usage; ce_CacheCreateTokens := CacheCreate usage;
     ce_CostCents := totalCents k; ce_InputCostCents := inputCostCents k;
     ce_OutputCostCents := outputCostCents k; ce_CacheReadCostCents := cacheReadCostCents k;
     ce_CacheCreateCostCents := cacheCreateCostCents k; ce_Currency := currency k;
     ce_CostSource := source k |}.
End Calculate.

(** ** Sign of costs *)

(** A zero, a positive number, +Inf or a NaN. *)
Definition not_negative (x : float64) : Prop := x = S754_nan \/ nonneg x.

Lemma not_negative_lt x : f64_lt x f64_zero = false -> not_negative x.
Proof. intros H. destruct x as [[]|[]| |[] m e]; try (by right); try (by left); done. Qed.

Lemma f64_mul_not_negative x y : nonneg x -> not_negative y -> not_negative (f64_mul x y).
Proof.
  intros Hx [->|Hy]; [left; by destruct x|].
  destruct x as [s|s| |s m e], y as [s'|s'| |s' m' e']; cbn in *; subst; try done; try (by right); try (by left).
  right. by apply binary_round_aux_nonneg.
Qed.

Lemma f64_div_1000_not_negative x : not_negative x -> not_negative (f64_div x f64_1000).
Proof.
  intros [->|Hx]; [by left|]. right.
  change f64_1000 with (S754_finite false 8796093022208000 (-43)). by apply f64_div_nonneg.
Qed.

Lemma f64_add_not_negative x y : not_negative x -> not_negative y -> not_negative (f64_add x y).
Proof.
  intros [->|Hx]; [left; by destruct y|]. intros [->|Hy]; [left; by destruct x|].
  right. by apply f64_add_nonneg.
Qed.

Lemma bucket_not_negative n p : (0 <= n)%Z -> not_negative p -> not_negative (bucket n p).
Proof. intros. apply f64_div_1000_not_negative, f64_mul_not_negative; [by apply f64_of_int_nonneg|done]. Qed.

Lemma int_of_f64_nonneg ov x : not_negative x -> fits x -> (0 <= int_of_f64 ov x)%Z.
Proof.
  intros [->|Hx] (z & Hz & Hr); [done|]. unfold int_of_f64. rewrite Hz. unfold int64 in Hr.
  destruct (Z.leb_spec (- 2 ^ 63) z); [|lia]. destruct (Z.ltb_spec z (2 ^ 63)); [|lia].
  by eapply f64_trunc_nonneg.
Qed.

Lemma lookup_models_Lookup ms vendor model : lookup_models ms vendor model = Lookup_models ms vendor model.
Proof. induction ms as [|m ms IH]; cbn; [done|]. by rewrite IH. Qed.

Lemma lookupPrice_wf c vendor model m :
  wf_pricing c -> lookupPrice (Some c) vendor model = Some m -> wf_row m.
Proof.
  intros (_ & Hrows & _). cbn. induction (Models c) as [|p ms IH]; cbn; [done|].
  apply Forall_cons_1 in Hrows as [Hp Hms]. destruct (_ && _); [by intros [= <-]|by apply IH].
Qed.

Lemma opt_price_not_negative p q : neg_price p = false -> not_negative q -> not_negative (default q p).
Proof. destruct p as [p|]; cbn; [|done]. intros H _. by apply not_negative_lt. Qed.

(** ** Claims *)

(** C36: with a pricing table accepted by [PricingConfig.Validate] and
    non-negative token counts, no computed cost is negative as long as the
    doubles fit an int: the total and each of the four buckets.  Without a
    row for the vendor and model everything is zero and flagged estimated;
    with one, the currency is set and the source is [estimated] exactly when
    cache tokens were priced with the input price. *)
Theorem calculate_sound ov c vendor model u :
  PricingConfig_Validate c = Ok tt ->
  (0 <= Input u)%Z -> (0 <= Output u)%Z -> (0 <= CacheRead u)%Z -> (0 <= CacheCreate u)%Z ->
  let k := Calculate ov (NewCalculator (Some c)) vendor model (Input u) (Output u) (CacheRead u) (CacheCreate u) in
  match PricingConfig_Lookup c vendor model with
  | None => totalCents k = 0%Z /\ inputCostCents k = 0%Z /\ outputCostCents k = 0%Z /\
            cacheReadCostCents k = 0%Z /\ cacheCreateCostCents k = 0%Z /\
            source k = "estimated" /\ currency k = "USD"
  | Some m =>
      let '(i, o, r, cr) := bucket_costs m u in
      (fits (total_cost (i, o, r, cr)) -> (0 <= totalCents k)%Z) /\
      (fits i -> (0 <= inputCostCents k)%Z) /\ (fits o -> (0 <= outputCostCents k)%Z) /\
      (fits r -> (0 <= cacheReadCostCents k)%Z) /\ (fits cr -> (0 <= cacheCreateCostCents k)%Z) /\
      currency k <> "" /\
      (source k = "estimated" <->
         (0 < CacheRead u)%Z /\ CacheReadPricePer1KTokens m = None \/
         (0 < CacheCreate u)%Z /\ CacheCreatePricePer1KTokens m = None)
  end.
Proof.
  intros Hv%PricingConfig_Validate_wf Hi Ho Hr Hc k. unfold k, Calculate, PricingConfig_Lookup.
  pose proof (lookup_models_Lookup (Models c) vendor model) as Hl.
  assert (lookupPrice (NewCalculator (Some c)) vendor model = Lookup_models (Models c) vendor model)
    as Hlp by (exact Hl). rewrite Hlp.
  destruct (Lookup_models (Models c) vendor model) as [m|] eqn:Hm; [|done].
  destruct (lookupPrice_wf c vendor model m Hv Hlp) as (_ & _ & Hin & Hout & _ & _ & Hcr & Hcc).
  apply not_negative_lt in Hin, Hout. destruct u as [ui uo ur uc]. cbn [Input Output CacheRead CacheCreate] in *.
  unfold bucket_costs. cbn [Input Output CacheRead CacheCreate totalCents inputCostCents outputCostCents
    cacheReadCostCents cacheCreateCostCents currency source].
  pose proof (bucket_not_negative ui _ Hi Hin) as N1. pose proof (bucket_not_negative uo _ Ho Hout) as N2.
  pose proof (bucket_not_negative ur _ Hr (opt_price_not_negative _ _ Hcr Hin)) as N3.
  pose proof (bucket_not_negative uc _ Hc (opt_price_not_negative _ _ Hcc Hin)) as N4.
  split_and!.
  - apply int_of_f64_nonneg. unfold total_cost. auto using f64_add_not_negative.
  - by apply int_of_f64_nonneg.
  - by apply int_of_f64_nonneg.
  - by apply int_of_f64_nonneg.
  - by apply int_of_f64_nonneg.
  - by destruct (mp_Currency m).
  - destruct (Z.ltb_spec 0 ur), (Z.ltb_spec 0 uc), (CacheReadPricePer1KTokens m), (CacheCreatePricePer1KTokens m);
      cbn; split; try done; try tauto; try (intros [[? ?]|[? ?]]; (done || lia)).
Qed.

Definition sample_usage : Usage := {| Input := 1500; Output := 500; CacheRead := 0; CacheCreate := 0 |}.

Lemma calculate_sound_witness :
  (0 <= totalCents (Calculate (fun _ => 0) (NewCalculator (Some sample_pricing)) "anthropic" "claude"
          1500 500 0 0))%Z /\
  totalCents (Calculate (fun _ => 0)%Z (NewCalculator (Some sample_pricing)) "anthropic" "claude"
          1500 500 0 0) = 6%Z.
Proof.
  pose proof (calculate_sound (fun _ => 0%Z) sample_pricing "anthropic" "claude" sample_usage
    ltac:(vm_compute; reflexivity) ltac:(cbn; lia) ltac:(cbn; lia) ltac:(cbn; lia) ltac:(cbn; lia)) as H.
  split; [|vm_compute; reflexivity]. apply (proj1 H). exists 6%Z. split; [vm_compute; reflexivity|].
  unfold int64. lia.
Defined.

(** Each bucket is truncated on its own, the total once: half a cent of input
    and half a cent of output are nothing in their buckets and one cent in
    total. *)
Example buckets_truncate :
  let k := Calculate (fun _ => 0)%Z (Some {| Models := [sample_row "v" "m" 1] |}) "v" "m" 500 500 0 0 in
  (totalCents k, inputCostCents k, outputCostCents k) = (1, 0, 0)%Z.
Proof. vm_compute. reflexivity. Qed.

(** The sign check of the validation lets a NaN price through. *)
Example nan_price_accepted :
  PricingConfig_Validate {| Models := [{| mp_Vendor := "v"; mp_Model := "m"; mp_Currency := "USD";
    InputPricePer1KTokens := S754_nan; OutputPricePer1KTokens := S754_nan;
    CacheReadPricePer1KTokens := None; CacheCreatePricePer1KTokens := None;
    Capabilities := {| cap_Tools := false; cap_CacheControl := false; cap_ExtendedThinking := false;
                       cap_Vision := false |} |}] |} = Ok tt.
Proof. vm_compute. reflexivity. Qed.
