(* ===== verification/Stream.v ===== *)
(** * Server-sent events and stream accounting

    [internal/shared/wire/sse.go]: the SSE writer and reader.
    [internal/gw/server/stream_accounting.go]: the relay that forwards a
    provider stream line by line while it accumulates usage, and the
    accounting done when the stream ends; with the injected tail events of
    egress_pipeline.go.

    A byte source is its whole content and the way it ends; the pipe to the
    client accepts a number of writes and then fails ([None]: never). *)

From Stdlib Require Import Ascii.
From stdpp Require Import sorting base gmap strings fin_maps numbers pretty list.
From S2P Require Import Prelude GoData Config Cost Json.
Local Open Scope string_scope.

(** ** Lines *)

(** [reader.ReadBytes('\n')] until the end: each piece keeps its delimiter;
    a last piece without one is kept when it is not empty. *)
Fixpoint segments (s : string) : list string :=
  match s with
  | EmptyString => []
  | String c s' =>
      if Ascii.eqb c newline then String c "" :: segments s'
      else match segments s' with
           | [] => [String c ""]
           | seg :: segs => String c seg :: segs
           end
  end.

(** [strings.TrimRight(s, "\r\n")] *)
Fixpoint TrimRightCRLF (s : string) : string :=
  match s with
  | EmptyString => ""
  | String c s' =>
      match TrimRightCRLF s' with
      | EmptyString => if Ascii.eqb c newline || Ascii.eqb c carriage_return then "" else String c ""
      | t => String c t
      end
  end.

(** [bufio.ScanLines] drops the newline and one carriage return before it. *)
Fixpoint drop_cr (s : string) : string :=
  match s with
  | EmptyString => ""
  | String c EmptyString => if Ascii.eqb c carriage_return then "" else s
  | String c s' => String c (drop_cr s')
  end.
Fixpoint drop_nl (s : string) : string :=
  match s with
  | EmptyString => ""
  | String c EmptyString => if Ascii.eqb c newline then "" else s
  | String c s' => String c (drop_nl s')
  end.

(** The lines a [bufio.Scanner] with its default buffer yields, and whether it
    stopped at a line that does not fit the 64 KiB buffer. *)
Definition MaxScanTokenSize : nat := N.to_nat 65536.
Fixpoint scan_lines (segs : list string) : list string * bool :=
  match segs with
  | [] => ([], false)
  | seg :: segs =>
      if (MaxScanTokenSize <=? String.length (drop_nl seg))%nat then ([], true)
      else let '(ls, err) := scan_lines segs in (drop_cr (drop_nl seg) :: ls, err)
  end.

(** ** wire/sse.go *)

Record SSEEvent := { ev_Event : string; ev_ID : string; ev_Data : string }.
Definition zero_event : SSEEvent := {| ev_Event := ""; ev_ID := ""; ev_Data := "" |}.

Definition nl : string := String newline "".

(** The bytes [WriteEvent] flushes. *)
Definition WriteEvent (ev : SSEEvent) : string :=
  (if is_empty (ev_Event ev) then "" else "event: " +:+ (ev_Event ev +:+ nl)) +:+
  ((if is_empty (ev_ID ev) then "" else "id: " +:+ (ev_ID ev +:+ nl)) +:+
   ("data: " +:+ (ev_Data ev +:+ (nl +:+ nl)))).

Definition WriteRaw (line : string) : string := line +:+ nl.

Inductive ReadError := EOF | TokenTooLong.

Definition nonempty_event (ev : SSEEvent) : bool := negb (is_empty (ev_Data ev)) || negb (is_empty (ev_Event ev)).

Definition set_Event (ev : SSEEvent) v := {| ev_Event := v; ev_ID := ev_ID ev; ev_Data := ev_Data ev |}.
Definition set_ID (ev : SSEEvent) v := {| ev_Event := ev_Event ev; ev_ID := v; ev_Data := ev_Data ev |}.
Definition set_Data (ev : SSEEvent) v := {| ev_Event := ev_Event ev; ev_ID := ev_ID ev; ev_Data := v |}.

(** One [ReadEvent]: the event or error and the lines left. *)
Fixpoint ReadEvent (lines : list string) (tooLong : bool) (ev : SSEEvent)
    : outcome ReadError SSEEvent * list string :=
  match lines with
  | [] =>
      (if tooLong then Err TokenTooLong else if nonempty_event ev then Ok ev else Err EOF, [])
  | line :: lines =>
      if is_empty line then
        if nonempty_event ev then (Ok ev, lines) else ReadEvent lines tooLong ev
      else if HasPrefix line "event: " then ReadEvent lines tooLong (set_Event ev (TrimPrefix line "event: "))
      else if HasPrefix line "id: " then ReadEvent lines tooLong (set_ID ev (TrimPrefix line "id: "))
      else if HasPrefix line "data: " then ReadEvent lines tooLong (set_Data ev (TrimPrefix line "data: "))
      else ReadEvent lines tooLong ev
  end.

(** Reading until an error, at most [fuel] events. *)
Fixpoint read_all (fuel : nat) (lines : list string) (tooLong : bool) : list SSEEvent * ReadError :=
  match fuel with
  | 0 => ([], EOF)
  | S fuel =>
      match ReadEvent lines tooLong zero_event with
      | (Ok ev, rest) => let '(evs, e) := read_all fuel rest tooLong in (ev :: evs, e)
      | (Err e, _) => ([], e)
      | (Panic, _) => ([], EOF)
      end
  end.

(** ** stream_accounting.go: usage extraction *)

Record usageAccumulator := {
  acc_input : Z; acc_output : Z; acc_cacheRead : Z; acc_cacheCreate : Z; hasUsage : bool }.
Definition zero_acc : usageAccumulator :=
  {| acc_input := 0; acc_output := 0; acc_cacheRead := 0; acc_cacheCreate := 0; hasUsage := false |}.
Definition usage (a : usageAccumulator) : Usage :=
  {| Input := acc_input a; Output := acc_output a; CacheRead := acc_cacheRead a;
     CacheCreate := acc_cacheCreate a |}.

(** The anonymous struct types of the three handlers. *)
Record startUsage := {
  su_Input : Z; su_Output : Z; su_CacheRead : option Z; su_CacheCreate : option Z }.
Definition zero_startUsage : startUsage :=
  {| su_Input := 0; su_Output := 0; su_CacheRead := None; su_CacheCreate := None |}.

Definition startUsage_field (k : string) : option (decoder startUsage) :=
  if String.eqb k "input_tokens" then Some (fun v u => n ← dec_int v (su_Input u);
    Some {| su_Input := n; su_Output := su_Output u; su_CacheRead := su_CacheRead u; su_CacheCreate := su_CacheCreate u |})
  else if String.eqb k "output_tokens" then Some (fun v u => n ← dec_int v (su_Output u);
    Some {| su_Input := su_Input u; su_Output := n; su_CacheRead := su_CacheRead u; su_CacheCreate := su_CacheCreate u |})
  else if String.eqb k "cache_read_input_tokens" then Some (fun v u => n ← dec_ptr 0%Z dec_int v (su_CacheRead u);
    Some {| su_Input := su_Input u; su_Output := su_Output u; su_CacheRead := n; su_CacheCreate := su_CacheCreate u |})
  else if String.eqb k "cache_creation_input_tokens" then Some (fun v u => n ← dec_ptr 0%Z dec_int v (su_CacheCreate u);
    Some {| su_Input := su_Input u; su_Output := su_Output u; su_CacheRead := su_CacheRead u; su_CacheCreate := n |})
  else None.

(** [message_start]: the path [message.usage]; [type] must be a string. *)
Definition startMessage_field (k : string) : option (decoder (option startUsage)) :=
  if String.eqb k "usage" then Some (dec_ptr zero_startUsage (dec_struct startUsage_field)) else None.
Definition start_field (k : string) : option (decoder (string * option (option startUsage))) :=
  if String.eqb k "type" then Some (fun v p => t ← dec_str v p.1; Some (t, p.2))
  else if String.eqb k "message" then
    Some (fun v p => m ← dec_ptr None (dec_struct startMessage_field) v p.2; Some (p.1, m))
  else None.

(** [message_delta]: the path [usage.output_tokens]. *)
Definition deltaUsage_field (k : string) : option (decoder Z) :=
  if String.eqb k "output_tokens" then Some dec_int else None.
Definition delta_field (k : string) : option (decoder (string * option Z)) :=
  if String.eqb k "type" then Some (fun v p => t ← dec_str v p.1; Some (t, p.2))
  else if String.eqb k "usage" then
    Some (fun v p => u ← dec_ptr 0%Z (dec_struct deltaUsage_field) v p.2; Some (p.1, u))
  else None.

(** OpenAI: the path [usage.{prompt,completion}_tokens]. *)
Definition chunkUsage_field (k : string) : option (decoder (Z * Z)) :=
  if String.eqb k "prompt_tokens" then Some (fun v u => n ← dec_int v u.1; Some (n, u.2))
  else if String.eqb k "completion_tokens" then Some (fun v u => n ← dec_int v u.2; Some (u.1, n))
  else None.
Definition chunk_field (k : string) : option (decoder (option (Z * Z))) :=
  if String.eqb k "usage" then Some (dec_ptr (0, 0)%Z (dec_struct chunkUsage_field)) else None.

Section Accounting.
Context {js : JSON}.

Definition handleAnthropicData (event data : string) (a : usageAccumulator) : usageAccumulator :=
  if String.eqb event "message_start" then
    match unmarshal (dec_struct start_field) data ("", None) with
    | Some (_, Some (Some u)) =>
        {| acc_input := su_Input u; acc_output := su_Output u;
           acc_cacheRead := default (acc_cacheRead a) (su_CacheRead u);
           acc_cacheCreate := default (acc_cacheCreate a) (su_CacheCreate u); hasUsage := true |}
    | _ => a
    end
  else if String.eqb event "message_delta" then
    match unmarshal (dec_struct delta_field) data ("", None) with
    | Some (_, Some out) =>
        {| acc_input := acc_input a; acc_output := out; acc_cacheRead := acc_cacheRead a;
           acc_cacheCreate := acc_cacheCreate a; hasUsage := true |}
    | _ => a
    end
  else a.

Definition handleOpenAIData (data : string) (a : usageAccumulator) : usageAccumulator :=
  match unmarshal (dec_struct chunk_field) data None with
  | Some (Some (prompt, completion)) =>
      {| acc_input := prompt; acc_output := completion; acc_cacheRead := acc_cacheRead a;
         acc_cacheCreate := acc_cacheCreate a; hasUsage := true |}
  | _ => a
  end.

Definition handleSSEData (event data : string) (a : usageAccumulator) (wire : string) : usageAccumulator :=
  if String.eqb wire "anthropic" || String.eqb wire "anthropic_compat" then handleAnthropicData event data a
  else if String.eqb wire "openai" || String.eqb wire "openai_compat" then handleOpenAIData data a
  else a.

(** One forwarded line: the new current event and accumulator. *)
Definition parse_line (wire line currentEvent : string) (a : usageAccumulator) : string * usageAccumulator :=
  let text := TrimRightCRLF line in
  if is_empty text then ("", a)
  else if HasPrefix text "event: " then (TrimPrefix text "event: ", a)
  else if HasPrefix text "data: " then
    (currentEvent, handleSSEData currentEvent (TrimPrefix text "data: ") a wire)
  else (currentEvent, a).

(** How a read or a write failed. *)
Inductive StreamError := ReadFailed (msg : string) | WriteFailed.

(** A pipe to the client: what was written, and how many writes still
    succeed. *)
Record Pipe := { written : list string; budget : option nat }.
Definition pipe_write (p : Pipe) (s : string) : Pipe * bool :=
  match budget p with
  | Some 0 => (p, false)
  | Some (S n) => ({| written := (written p ++ [s])%list; budget := Some n |}, true)
  | None => ({| written := (written p ++ [s])%list; budget := None |}, true)
  end.

(** [forwardFrames]: [segs] are the pieces still to be read, [end_] the error
    the source ends with ([None] for EOF). *)
Fixpoint forwardFrames (segs : list string) (end_ : option string) (p : Pipe) (wire currentEvent : string)
    (a : usageAccumulator) : Pipe * usageAccumulator * option StreamError :=
  match segs with
  | [] => (p, a, match end_ with None => None | Some m => Some (ReadFailed m) end)
  | line :: segs =>
      match pipe_write p line with
      | (p, false) => (p, a, Some WriteFailed)
      | (p, true) =>
          let '(ev, a) := parse_line wire line currentEvent a in
          forwardFrames segs end_ p wire ev a
      end
  end.

(** ** egress_pipeline.go: tail events *)

Definition tokens_json (u : Usage) : json :=
  JObj [("cache_create", JInt (CacheCreate u)); ("cache_read", JInt (CacheRead u));
        ("input", JInt (Input u)); ("output", JInt (Output u))].

Definition event_frame (name : string) (payload : json) : string :=
  "event: " +:+ (name +:+ (nl +:+ ("data: " +:+ (printJSON payload +:+ (nl +:+ nl))))).

(** A nil slice prints as [null]. *)
Definition strings_json (l : list string) : json :=
  match l with [] => JNull | _ :: _ => JArr (JStr <$> l) end.

(** [json.Marshal] of a map sorts its keys. *)
Definition InjectUsage (traceID sessionID : string) (u : Usage) (costCents : Z)
    (costSource routedTo : string) (attemptNo : Z) (degraded : list string) (latencyMs : Z) : string :=
  event_frame "aicg.usage" (JObj
    [("attempt_no", JInt attemptNo); ("cost_cents", JInt costCents); ("cost_source", JStr costSource);
     ("degraded_features", strings_json degraded); ("latency_ms", JInt latencyMs); ("partial", JBool false);
     ("routed_to", JStr routedTo); ("schema_version", JStr "1.0"); ("session_id", JStr sessionID);
     ("tokens", tokens_json u); ("trace_id", JStr traceID)]).

Definition InjectError (traceID code message : string) (partial : bool) (tokensEmitted : Z) : string :=
  event_frame "aicg.error" (JObj
    [("code", JStr code); ("message", JStr message); ("partial", JBool partial);
     ("schema_version", JStr "1.0"); ("tokens_emitted_so_far", JInt tokensEmitted);
     ("trace_id", JStr traceID)]).

(** [InjectUsageIntoResult]: what its reader gives; [copied] is what [io.Copy]
    got from the body, whose error is dropped. *)
Definition InjectUsageIntoResult (copied traceID endpointID model sessionID : string) (u : Usage) (costCents : Z)
    (costSource : string) (attemptNo : Z) (degraded : list string) (latencyMs : Z) : string :=
  copied +:+ InjectUsage traceID sessionID u costCents costSource (endpointID +:+ (":" +:+ model)) attemptNo degraded latencyMs.

(** The cache counts are the constant 0. *)
Definition BuildAICGUsageJSON (traceID sessionID : string) (ce : option CostEvent) (attemptNo : Z) (degraded : list string)
    (latencyMs : Z) : option json :=
  ce ← ce;
  Some (JObj
    [("attempt_no", JInt attemptNo); ("cost_cents", JInt (ce_CostCents ce)); ("cost_source", JStr (ce_CostSource ce));
     ("decision", JObj [("model_pool", JStr (ce_Pool ce)); ("modifiers", JArr []); ("primary_action", JStr "route");
                        ("reasons", JArr []); ("side_effects", JArr [])]);
     ("degraded_features", strings_json degraded); ("latency_ms", JInt latencyMs); ("partial", JBool false);
     ("routed_to", JStr (ce_EndpointID ce +:+ (":" +:+ ce_Model ce))); ("schema_version", JStr "1.0");
     ("session_id", JStr sessionID);
     ("tokens", JObj [("cache_create", JInt 0); ("cache_read", JInt 0); ("input", JInt (ce_InputTokens ce));
                      ("output", JInt (ce_OutputTokens ce))]); ("trace_id", JStr traceID)]).

(** ** stream_accounting.go: the end of a stream *)

Record AccountedStreamConfig := {
  cfg_Wire : string; cfg_Calc : Calculator; cfg_CostW : bool; cfg_VendorID : string;
  cfg_EndpointID : string; cfg_Model : string; cfg_Pool : string; cfg_IsPrivate : bool;
  cfg_TraceID : string; cfg_TenantID : string; cfg_UserID : string; cfg_TeamID : string;
  cfg_AttemptNo : Z; cfg_Degraded : list string; cfg_LatencyMs : Z; cfg_PostAccount : bool }.

Record StreamAccountingResult := {
  res_Usage : Usage; res_CostEvent : CostEvent; res_ErrorClass : string; res_Err : option StreamError }.

(** A row handed to the cost writer: event, success flag and error class. *)
Record CostWrite := { cw_event : CostEvent; cw_success : bool; cw_errorClass : string }.

(** What the goroutine leaves behind. *)
Record StreamRun := {
  run_pipe : Pipe; run_result : StreamAccountingResult;
  run_costWrites : list CostWrite; run_post : list StreamAccountingResult }.

Context (overflow : float64 -> Z).

Definition with_source (ce : CostEvent) (src : string) : CostEvent :=
  {| ce_Wire := ce_Wire ce; ce_VendorID := ce_VendorID ce; ce_EndpointID := ce_EndpointID ce;
     ce_Model := ce_Model ce; ce_Pool := ce_Pool ce; ce_IsPrivate := ce_IsPrivate ce;
     ce_InputTokens := ce_InputTokens ce; ce_OutputTokens := ce_OutputTokens ce;
     ce_CacheReadTokens := ce_CacheReadTokens ce; ce_CacheCreateTokens := ce_CacheCreateTokens ce;
     ce_CostCents := ce_CostCents ce; ce_InputCostCents := ce_InputCostCents ce;
     ce_OutputCostCents := ce_OutputCostCents ce; ce_CacheReadCostCents := ce_CacheReadCostCents ce;
     ce_CacheCreateCostCents := ce_CacheCreateCostCents ce; ce_Currency := ce_Currency ce;
     ce_CostSource := src |}.

Definition stream_error_text (e : StreamError) : string :=
  match e with ReadFailed m => m | WriteFailed => "io: read/write on closed pipe" end.

(** [(as *AccountedStream) run] *)
Definition run (cfg : AccountedStreamConfig) (body : string) (end_ : option string) (p : Pipe) : StreamRun :=
  let '(p, a, readErr) := forwardFrames (segments body) end_ p (cfg_Wire cfg) "" zero_acc in
  let ce := BuildEvent overflow (Some (usage a)) (cfg_Wire cfg) (cfg_VendorID cfg) (cfg_EndpointID cfg)
              (cfg_Model cfg) (cfg_Pool cfg) (cfg_IsPrivate cfg) (cfg_Calc cfg) in
  match readErr with
  | Some e =>
      let ce := with_source ce "estimated" in
      let result := {| res_Usage := usage a; res_CostEvent := ce;
                       res_ErrorClass := "stream_interrupted"; res_Err := Some e |} in
      {| run_pipe := (pipe_write p (InjectError (cfg_TraceID cfg) "stream_interrupted"
                        (stream_error_text e) true (Output (usage a)))).1;
         run_result := result;
         run_costWrites := if cfg_CostW cfg then [{| cw_event := ce; cw_success := false;
                             cw_errorClass := "stream_interrupted" |}] else [];
         run_post := if cfg_PostAccount cfg then [result] else [] |}
  | None =>
      let errorClass := if hasUsage a then "" else "usage_missing" in
      let ce := if hasUsage a then ce else with_source ce "estimated" in
      let result := {| res_Usage := usage a; res_CostEvent := ce; res_ErrorClass := errorClass;
                       res_Err := None |} in
      {| run_pipe := (pipe_write p (InjectUsage (cfg_TraceID cfg) "" (usage a) (ce_CostCents ce)
                        (ce_CostSource ce) (cfg_EndpointID cfg +:+ (":" +:+ cfg_Model cfg))
                        (cfg_AttemptNo cfg) (cfg_Degraded cfg) (cfg_LatencyMs cfg))).1;
         run_result := result;
         run_costWrites := if cfg_CostW cfg then [{| cw_event := ce; cw_success := true;
                             cw_errorClass := errorClass |}] else [];
         run_post := if cfg_PostAccount cfg then [result] else [] |}
  end.
End Accounting.

(** ** Lines: lemmas *)

Definition concat_all (l : list string) : string := foldr String.append "" l.

Lemma concat_all_app l1 l2 : concat_all (l1 ++ l2)%list = concat_all l1 +:+ concat_all l2.
Proof. unfold concat_all. induction l1 as [|x l1 IH]; [done|]. cbn. by rewrite IH, str_app_assoc. Qed.

(** The pieces read are the content, in order. *)
Lemma segments_concat s : concat_all (segments s) = s.
Proof.
  unfold concat_all. induction s as [|c s IH]; [done|]. cbn. destruct (Ascii.eqb c newline); cbn.
  { by rewrite IH. }
  destruct (segments s) as [|seg segs] eqn:Hs; cbn in *; by rewrite <- IH.
Qed.

Lemma segments_line l r :
  free_of newline l = true -> segments (l +:+ (nl +:+ r)) = (l +:+ nl) :: segments r.
Proof.
  induction l as [|c l IH]; cbn; [done|]. intros [Hc Hl]%andb_true_iff. apply negb_true_iff in Hc.
  rewrite Hc. specialize (IH Hl). cbn in IH. by rewrite IH.
Qed.

(** A line without line breaks inside. *)
Definition clean (l : string) : bool := free_of newline l && free_of carriage_return l.

Lemma clean_app l m : clean (l +:+ m) = clean l && clean m.
Proof.
  unfold clean. rewrite !free_of_app.
  by destruct (free_of newline l), (free_of newline m), (free_of carriage_return l), (free_of carriage_return m).
Qed.

Lemma clean_newline l : clean l = true -> free_of newline l = true.
Proof. unfold clean. by intros [? _]%andb_true_iff. Qed.

Lemma TrimRightCRLF_clean l : clean l = true -> TrimRightCRLF l = l.
Proof.
  induction l as [|c l IH]; [done|]. change (String c l) with (String c "" +:+ l). rewrite clean_app.
  intros [Hc Hl]%andb_true_iff. cbn. rewrite (IH Hl). unfold clean in Hc. cbn in Hc.
  destruct (Ascii.eqb c newline), (Ascii.eqb c carriage_return); try done. by destruct l.
Qed.

Lemma TrimRightCRLF_line l : clean l = true -> TrimRightCRLF (l +:+ nl) = l.
Proof.
  induction l as [|c l IH]; [done|]. change (String c l) with (String c "" +:+ l). rewrite clean_app.
  intros [Hc Hl]%andb_true_iff. cbn. specialize (IH Hl). cbn in IH. rewrite IH. unfold clean in Hc. cbn in Hc.
  destruct (Ascii.eqb c newline), (Ascii.eqb c carriage_return); try done. by destruct l.
Qed.

Lemma drop_nl_line l : drop_nl (l +:+ nl) = l.
Proof.
  induction l as [|c l IH]; [done|]. change (drop_nl (String c (l +:+ nl)) = String c l).
  destruct (l +:+ nl) as [|d m] eqn:Hl; [by destruct l|].
  change (String c (drop_nl (String d m)) = String c l). by rewrite IH.
Qed.

Lemma drop_cr_clean l : clean l = true -> drop_cr l = l.
Proof.
  induction l as [|c l IH]; [done|]. change (String c l) with (String c "" +:+ l). rewrite clean_app.
  intros [Hc Hl]%andb_true_iff. cbn. rewrite (IH Hl). destruct l; [|done].
  unfold clean in Hc. cbn in Hc. by destruct (Ascii.eqb c newline), (Ascii.eqb c carriage_return).
Qed.

Lemma MaxScanTokenSize_pos : 100 < MaxScanTokenSize.
Proof. unfold MaxScanTokenSize. lia. Qed.
#[local] Opaque MaxScanTokenSize.

(** A clean short line is scanned as it was written. *)
Lemma scan_lines_line l r :
  clean l = true -> String.length l < MaxScanTokenSize ->
  scan_lines (segments (l +:+ (nl +:+ r))) =
  (l :: (scan_lines (segments r)).1, (scan_lines (segments r)).2).
Proof.
  intros Hc Hl. rewrite segments_line by (by apply clean_newline). cbn [scan_lines].
  rewrite drop_nl_line, drop_cr_clean by done.
  destruct (Nat.leb_spec MaxScanTokenSize (String.length l)); [lia|].
  by destruct (scan_lines (segments r)).
Qed.

(** ** The SSE round trip *)

(** Events whose fields fit on one line of the scanner's buffer. *)
Definition writable (ev : SSEEvent) : Prop :=
  nonempty_event ev = true /\
  (forall f, f ∈ [ev_Event ev; ev_ID ev; ev_Data ev] -> clean f = true /\ String.length f + 8 < MaxScanTokenSize).

Lemma str_len_lt p f n : String.length f + 8 < n -> String.length p <= 8 -> String.length (p +:+ f) < n.
Proof. rewrite str_length_app. lia. Qed.

(** One optional header line in front of the rest. *)
Lemma scan_header (p f : string) r :
  clean p = true -> String.length p <= 8 -> clean f = true -> String.length f + 8 < MaxScanTokenSize ->
  scan_lines (segments (p +:+ (f +:+ (nl +:+ r)))) =
  ((p +:+ f) :: (scan_lines (segments r)).1, (scan_lines (segments r)).2).
Proof.
  intros Hp Hlp Hf Hlf. rewrite <- str_app_assoc. apply scan_lines_line; [by rewrite clean_app, Hp|].
  by apply str_len_lt.
Qed.

(** The lines of one written event. *)
Definition event_lines (ev : SSEEvent) : list string :=
  ((if is_empty (ev_Event ev) then [] else ["event: " +:+ ev_Event ev]) ++
   (if is_empty (ev_ID ev) then [] else ["id: " +:+ ev_ID ev]) ++ ["data: " +:+ ev_Data ev; ""])%list.

Lemma scan_WriteEvent ev r :
  writable ev ->
  scan_lines (segments (WriteEvent ev +:+ r)) =
  ((event_lines ev ++ (scan_lines (segments r)).1)%list, (scan_lines (segments r)).2).
Proof.
  intros [_ Hf]. unfold WriteEvent, event_lines.
  destruct (Hf (ev_Event ev)) as [He Hle]; [set_solver|].
  destruct (Hf (ev_ID ev)) as [Hi Hli]; [set_solver|].
  destruct (Hf (ev_Data ev)) as [Hd Hld]; [set_solver|].
  assert (scan_lines (segments ("data: " +:+ (ev_Data ev +:+ (nl +:+ (nl +:+ r))))) =
    (("data: " +:+ ev_Data ev) :: "" :: (scan_lines (segments r)).1, (scan_lines (segments r)).2)) as Hdata.
  { rewrite scan_header by (done || (cbn; lia)). pose proof (scan_lines_line "" r eq_refl) as Hnil.
    change ("" +:+ (nl +:+ r)) with (nl +:+ r) in Hnil.
    rewrite Hnil by (pose proof MaxScanTokenSize_pos; cbn; lia). done. }
  assert (scan_lines (segments ((if is_empty (ev_ID ev) then "" else "id: " +:+ (ev_ID ev +:+ nl)) +:+
    ("data: " +:+ (ev_Data ev +:+ (nl +:+ (nl +:+ r)))))) =
    (((if is_empty (ev_ID ev) then [] else ["id: " +:+ ev_ID ev]) ++
      ("data: " +:+ ev_Data ev) :: "" :: (scan_lines (segments r)).1)%list, (scan_lines (segments r)).2)) as Hid.
  { destruct (is_empty (ev_ID ev)); [exact Hdata|].
    rewrite !str_app_assoc, scan_header by (done || (cbn; lia)). by rewrite Hdata. }
  rewrite !str_app_assoc. destruct (is_empty (ev_Event ev)).
  - rewrite app_nil_l, <- app_assoc. exact Hid.
  - rewrite !str_app_assoc, scan_header by (done || (cbn; lia)). rewrite Hid. cbn [fst snd]. f_equal. by rewrite <- !app_assoc.
Qed.

(** How [ReadEvent] takes each kind of line. *)
Lemma ReadEvent_event v rest t e :
  ReadEvent (("event: " +:+ v) :: rest) t e = ReadEvent rest t (set_Event e v).
Proof.
  cbn [ReadEvent]. change (is_empty ("event: " +:+ v)) with false.
  by rewrite HasPrefix_app, TrimPrefix_app.
Qed.

Lemma ReadEvent_id v rest t e :
  ReadEvent (("id: " +:+ v) :: rest) t e = ReadEvent rest t (set_ID e v).
Proof.
  cbn [ReadEvent]. change (is_empty ("id: " +:+ v)) with false.
  change (HasPrefix ("id: " +:+ v) "event: ") with false.
  by rewrite HasPrefix_app, TrimPrefix_app.
Qed.

Lemma ReadEvent_data v rest t e :
  ReadEvent (("data: " +:+ v) :: rest) t e = ReadEvent rest t (set_Data e v).
Proof.
  cbn [ReadEvent]. change (is_empty ("data: " +:+ v)) with false.
  change (HasPrefix ("data: " +:+ v) "event: ") with false.
  change (HasPrefix ("data: " +:+ v) "id: ") with false.
  by rewrite HasPrefix_app, TrimPrefix_app.
Qed.

Lemma ReadEvent_lines ev rest tooLong :
  nonempty_event ev = true ->
  ReadEvent (event_lines ev ++ rest)%list tooLong zero_event = (Ok ev, rest).
Proof.
  intros Hne. unfold event_lines. rewrite <- !app_assoc. cbn [app].
  assert (forall e, ev_Data e = "" -> nonempty_event (set_Data e (ev_Data ev)) = true ->
    ReadEvent (("data: " +:+ ev_Data ev) :: "" :: rest) tooLong e = (Ok (set_Data e (ev_Data ev)), rest))
    as Hdata by (intros e _ Hn; rewrite ReadEvent_data; cbn; by rewrite Hn).
  destruct ev as [e i d]; cbn in *.
  destruct e as [|c e], i as [|k i]; cbn [is_empty app];
    rewrite ?ReadEvent_event, ?ReadEvent_id; by apply Hdata.
Qed.

Lemma read_all_step fuel lines t ev rest :
  ReadEvent lines t zero_event = (Ok ev, rest) ->
  read_all (S fuel) lines t = (ev :: (read_all fuel rest t).1, (read_all fuel rest t).2).
Proof. intros H. cbn. rewrite H. by destruct (read_all fuel rest t). Qed.

(** ** Forwarding *)

Section Relay.
Context {js : JSON}.

Lemma forwardFrames_all segs end_ p wire ev a :
  budget p = None ->
  exists a', forwardFrames segs end_ p wire ev a =
    ({| written := (written p ++ segs)%list; budget := None |}, a',
     match end_ with None => None | Some m => Some (ReadFailed m) end).
Proof.
  revert p ev a. induction segs as [|line segs IH]; intros p ev a Hb; cbn.
  - exists a. rewrite app_nil_r, <- Hb. by destruct p.
  - unfold pipe_write. rewrite Hb. destruct (parse_line wire line ev a) as [ev' a1].
    edestruct (IH {| written := (written p ++ [line])%list; budget := None |} ev' a1) as [a' Ha]; [done|].
    exists a'. rewrite Ha. cbn. by rewrite <- app_assoc.
Qed.

(** A client that goes away after [n] lines gets exactly those. *)
Lemma forwardFrames_cut segs end_ p wire ev a n :
  budget p = Some n -> n < length segs ->
  exists a', forwardFrames segs end_ p wire ev a =
    ({| written := (written p ++ take n segs)%list; budget := Some 0 |}, a', Some WriteFailed).
Proof.
  revert p ev a n. induction segs as [|line segs IH]; intros p ev a n Hb Hn; cbn in *; [lia|].
  unfold pipe_write. rewrite Hb. destruct n as [|n].
  - exists a. rewrite app_nil_r, <- Hb. by destruct p.
  - destruct (parse_line wire line ev a) as [ev' a1].
    edestruct (IH {| written := (written p ++ [line])%list; budget := Some n |} ev' a1 n) as [a' Ha];
      [done|lia|]. exists a'. rewrite Ha. cbn. by rewrite <- app_assoc.
Qed.

(** The accumulator after forwarding written events is a fold over them. *)
Lemma forwardFrames_lines l r end_ wire ev a :
  clean l = true ->
  (forwardFrames (segments (l +:+ (nl +:+ r))) end_ {| written := []; budget := None |} wire ev a).1.2 =
  (let '(ev', a') := parse_line wire l ev a in
   (forwardFrames (segments r) end_ {| written := []; budget := None |} wire ev' a').1.2).
Proof.
  intros Hl. rewrite segments_line by (by apply clean_newline). cbn [forwardFrames].
  unfold pipe_write. cbn [budget written].
  assert (parse_line wire (l +:+ nl) ev a = parse_line wire l ev a) as ->.
  { unfold parse_line. by rewrite TrimRightCRLF_line, TrimRightCRLF_clean. }
  destruct (parse_line wire l ev a) as [ev' a'].
  assert (forall segs p p' e b, budget p = None -> budget p' = None ->
    (forwardFrames segs end_ p wire e b).1.2 = (forwardFrames segs end_ p' wire e b).1.2) as Hp.
  { intros segs. induction segs as [|x segs IH]; intros p p' e b H1 H2; cbn; [done|].
    unfold pipe_write. rewrite H1, H2. destruct (parse_line wire x e b). by apply IH. }
  by apply Hp.
Qed.

(** The events of a provider stream, as [event:]/[data:] pairs. *)
Definition frame_text (evs : list SSEEvent) : string := concat_all (WriteEvent <$> evs).
Definition plain_event (ev : SSEEvent) : Prop :=
  ev_Event ev <> "" /\ ev_ID ev = "" /\ clean (ev_Event ev) = true /\ clean (ev_Data ev) = true.

Lemma forwardFrames_events evs end_ wire a :
  Forall plain_event evs ->
  (forwardFrames (segments (frame_text evs)) end_ {| written := []; budget := None |} wire "" a).1.2 =
  fold_left (fun a ev => handleSSEData (ev_Event ev) (ev_Data ev) a wire) evs a.
Proof.
  intros Hevs. revert a. induction Hevs as [|ev evs (Hne & Hid & Hce & Hcd) _ IH]; intros a; [done|].
  cbn [fold_left]. unfold frame_text. cbn [fmap list_fmap concat_all foldr].
  fold (concat_all (WriteEvent <$> evs)). fold (frame_text evs). unfold WriteEvent.
  apply is_empty_false in Hne. rewrite Hne, Hid. cbn [is_empty]. rewrite !str_app_assoc.
  rewrite <- (str_app_assoc "event: "), forwardFrames_lines by (by rewrite clean_app).
  assert (parse_line wire ("event: " +:+ ev_Event ev) "" a = (ev_Event ev, a)) as ->.
  { unfold parse_line. rewrite TrimRightCRLF_clean by (by rewrite clean_app). cbn [is_empty].
    rewrite HasPrefix_app, TrimPrefix_app. done. }
  change ("" +:+ ?x) with x.
  rewrite <- (str_app_assoc "data: "), forwardFrames_lines by (by rewrite clean_app).
  assert (parse_line wire ("data: " +:+ ev_Data ev) (ev_Event ev) a =
    (ev_Event ev, handleSSEData (ev_Event ev) (ev_Data ev) a wire)) as ->.
  { unfold parse_line. rewrite TrimRightCRLF_clean by (by rewrite clean_app). cbn [is_empty].
    change (HasPrefix ("data: " +:+ ev_Data ev) "event: ") with false.
    by rewrite HasPrefix_app, TrimPrefix_app. }
  pose proof (forwardFrames_lines "" (frame_text evs) end_ wire (ev_Event ev)
    (handleSSEData (ev_Event ev) (ev_Data ev) a wire) eq_refl) as Hnl. cbn in Hnl. cbn.
  rewrite Hnl. apply IH.
Qed.
End Relay.

(** ** Claims *)

(** Reading inverts writing: any sequence of events whose fields contain
    no line breaks, fit the scanner's 64 KiB buffer and are not entirely
    empty is read back unchanged, followed by end of file. *)
Theorem sse_roundtrip evs :
  Forall writable evs ->
  let '(lines, tooLong) := scan_lines (segments (concat_all (WriteEvent <$> evs))) in
  tooLong = false /\ read_all (S (length evs)) lines tooLong = (evs, EOF).
Proof.
  intros Hevs.
  assert (scan_lines (segments (concat_all (WriteEvent <$> evs))) =
    (concat (event_lines <$> evs), false)) as ->.
  { induction Hevs as [|ev evs Hev _ IH]; [done|]. cbn [fmap list_fmap concat_all foldr].
    fold (concat_all (WriteEvent <$> evs)). rewrite scan_WriteEvent by done. by rewrite IH. }
  split; [done|]. induction Hevs as [|ev evs [Hne _] _ IH]; [done|].
  cbn [length fmap list_fmap concat].
  rewrite (read_all_step _ _ _ ev (concat (event_lines <$> evs))) by (by apply ReadEvent_lines).
  by rewrite IH.
Qed.

(** ** Machine integers *)

Definition typed_usage (a : usageAccumulator) : Prop :=
  int64 (acc_input a) /\ int64 (acc_output a) /\ int64 (acc_cacheRead a) /\ int64 (acc_cacheCreate a).
Definition typed_ptr (p : option Z) : Prop := forall z, p = Some z -> int64 z.

Lemma int64_0 : int64 0.
Proof. unfold int64. lia. Qed.
#[local] Hint Resolve int64_0 : core.

Lemma dec_ptr_int_range v old p : typed_ptr old -> dec_ptr 0%Z dec_int v old = Some p -> typed_ptr p.
Proof.
  intros Ho Hd. assert (int64 (default 0%Z old)) by (destruct old; cbn; auto).
  destruct v; cbn -[dec_int] in Hd; try done; try (by simplify_eq).
  destruct (dec_int (JInt z) (default 0%Z old)) as [n|] eqn:Hn; cbn in Hd; [|done]. simplify_eq.
  intros ? [= <-]. by eapply dec_int_range.
Qed.

Lemma dec_struct_inv {T} (P : T -> Prop) field v t t' :
  (forall k d v u u', field k = Some d -> d v u = Some u' -> P u -> P u') ->
  dec_struct field v t = Some t' -> P t -> P t'.
Proof. intros Hf. destruct v; cbn; try done; [by intros [= <-]|]. by apply dec_fields_inv. Qed.

Lemma dec_ptr_inv {T} (P : T -> Prop) zero (d : decoder T) v old p :
  (forall v t t', d v t = Some t' -> P t -> P t') -> P zero ->
  dec_ptr zero d v old = Some p -> (forall t, old = Some t -> P t) -> forall t, p = Some t -> P t.
Proof.
  intros Hd Hz He Ho t Ht. subst. assert (P (default zero old)) by (destruct old; cbn; auto).
  unfold dec_ptr in He. destruct v; [done|..];
    (apply fmap_Some in He as (x & Hx & [= <-]); by eapply Hd).
Qed.

Definition typed_start (u : startUsage) : Prop :=
  int64 (su_Input u) /\ int64 (su_Output u) /\ typed_ptr (su_CacheRead u) /\ typed_ptr (su_CacheCreate u).

Lemma startUsage_typed k d v u u' :
  startUsage_field k = Some d -> d v u = Some u' -> typed_start u -> typed_start u'.
Proof.
  unfold startUsage_field, typed_start. intros Hk Hd (H1 & H2 & H3 & H4).
  repeat case_match; simplify_eq; apply bind_Some in Hd as (x & Hx & [= <-]); cbn;
    eauto using dec_int_range, dec_ptr_int_range.
Qed.

Lemma start_typed v t m u : dec_struct start_field v ("", None) = Some (t, Some (Some u)) -> m = u -> typed_start m.
Proof.
  intros Hd ->.
  assert (forall p, dec_struct start_field v ("", None) = Some p -> forall o, p.2 = Some o -> forall u, o = Some u -> typed_start u) as H.
  { intros p Hp. eapply (dec_struct_inv (fun p => forall o, p.2 = Some o -> forall u, o = Some u -> typed_start u)); [|exact Hp|done].
    clear. intros k d v u u' Hk Hd Hu. unfold start_field in Hk. repeat case_match; simplify_eq.
    - apply bind_Some in Hd as (x & _ & [= <-]). exact Hu.
    - apply bind_Some in Hd as (x & Hx & [= <-]). cbn.
      refine (dec_ptr_inv (fun o => forall u, o = Some u -> typed_start u) _ _ _ _ _ _ _ Hx Hu); [|done].
      clear. intros v t t' Hd Ht. eapply (dec_struct_inv (fun o => forall u, o = Some u -> typed_start u)); [|exact Hd|exact Ht].
      clear. intros k d v u u' Hk Hd Hu. unfold startMessage_field in Hk. case_match; simplify_eq.
      refine (dec_ptr_inv typed_start _ _ _ _ _ _ _ Hd Hu); [|by repeat split; auto].
      intros ? ? ? Hs. eapply dec_struct_inv; [apply startUsage_typed|exact Hs]. }
  by eapply (H _ Hd).
Qed.

Lemma delta_typed v t out : dec_struct delta_field v ("", None) = Some (t, Some out) -> int64 out.
Proof.
  intros Hd.
  assert (forall p, dec_struct delta_field v ("", None) = Some p -> forall z, p.2 = Some z -> int64 z) as H.
  { intros p Hp. eapply (dec_struct_inv (fun p => forall z, p.2 = Some z -> int64 z)); [|exact Hp|done].
    clear. intros k d v u u' Hk Hd Hu. unfold delta_field in Hk. repeat case_match; simplify_eq;
      apply bind_Some in Hd as (x & Hx & [= <-]); [exact Hu|]. cbn.
    refine (dec_ptr_inv int64 _ _ _ _ _ _ _ Hx Hu); [|done]. intros ? ? ? Hs.
    eapply dec_struct_inv; [|exact Hs]. unfold deltaUsage_field. intros. case_match; simplify_eq. by eapply dec_int_range. }
  by eapply (H _ Hd).
Qed.

Lemma chunk_typed v a b : dec_struct chunk_field v None = Some (Some (a, b)) -> int64 a /\ int64 b.
Proof.
  intros Hd. set (P := fun p : Z * Z => int64 p.1 /\ int64 p.2). change (P (a, b)).
  refine (dec_struct_inv (fun o => forall p, o = Some p -> P p) _ _ _ _ _ Hd _ _ eq_refl); [|done].
  intros k d w u u' Hk Hw Hu. unfold chunk_field in Hk. case_match; simplify_eq.
  refine (dec_ptr_inv P _ _ _ _ _ _ _ Hw Hu); [|by split]. intros ? ? ? Hs. eapply (dec_struct_inv P); [|exact Hs].
  unfold chunkUsage_field. intros k' d' v' p p' Hk' Hd' [Hp1 Hp2].
  repeat case_match; simplify_eq; apply bind_Some in Hd' as (x & Hx & [= <-]); split; cbn; eauto using dec_int_range.
Qed.

Lemma parse_line_typed {js : JSON} wire line ev a ev' a' :
  parse_line wire line ev a = (ev', a') -> typed_usage a -> typed_usage a'.
Proof.
  unfold parse_line, handleSSEData, handleAnthropicData, handleOpenAIData, unmarshal, unmarshal_raw, typed_usage.
  intros Hp (H1 & H2 & H3 & H4). repeat case_match; simplify_eq; cbn; try done;
    match goal with H : (_ ≫= _) = Some _ |- _ => apply bind_Some in H as (v & _ & Hd) end.
  - destruct (start_typed _ _ _ _ Hd eq_refl) as (? & ? & Hr & Hc).
    refine (conj _ (conj _ (conj _ _))); [done|done|destruct (su_CacheRead _) eqn:E|destruct (su_CacheCreate _) eqn:E]; cbn; auto.
  - by apply delta_typed in Hd.
  - by apply chunk_typed in Hd as [].
Qed.

Lemma forwardFrames_typed {js : JSON} segs end_ p wire ev a :
  typed_usage a -> typed_usage (forwardFrames segs end_ p wire ev a).1.2.
Proof.
  revert p ev a. induction segs as [|l segs IH]; intros p ev a Ha; cbn; [done|].
  destruct (pipe_write p l) as [p' []]; [|done].
  destruct (parse_line wire l ev a) as [ev' a'] eqn:Hp. by eapply IH, parse_line_typed.
Qed.

Section Claims.
Context {js : JSON} (overflow : float64 -> Z).

Lemma Calculate_typed c v m a b d e : (forall x, int64 (overflow x)) ->
  int64 (totalCents (Calculate overflow c v m a b d e)).
Proof.
  intros Ho. unfold Calculate. destruct (lookupPrice c v m); cbn; [|auto]. unfold int_of_f64.
  destruct (f64_trunc _) as [z|]; [|auto].
  destruct (Z.leb_spec (- 2 ^ 63) z), (Z.ltb_spec z (2 ^ 63)); cbn; auto. unfold int64. lia.
Qed.

Lemma run_typed cfg body end_ p : (forall x, int64 (overflow x)) ->
  let res := run_result (run overflow cfg body end_ p) in
  int64 (Input (res_Usage res)) /\ int64 (Output (res_Usage res)) /\ int64 (CacheRead (res_Usage res)) /\
  int64 (CacheCreate (res_Usage res)) /\ int64 (ce_CostCents (res_CostEvent res)).
Proof.
  intros Ho res. subst res. unfold run.
  assert (typed_usage zero_acc) as Hz by (by repeat split).
  pose proof (forwardFrames_typed (segments body) end_ p (cfg_Wire cfg) "" zero_acc Hz) as (H1 & H2 & H3 & H4).
  destruct (forwardFrames _ _ _ _ _ _) as [[p' a] e]. cbn [fst snd] in *.
  destruct e; cbn [run_result res_Usage res_CostEvent]; [|destruct (hasUsage a)]; cbn; auto 10 using Calculate_typed.
Qed.

Definition client : Pipe := {| written := []; budget := None |}.
Definition bytes_out (p : Pipe) : string := concat_all (written p).

Lemma run_bytes cfg body end_ :
  let res := run_result (run overflow cfg body end_ client) in
  bytes_out (run_pipe (run overflow cfg body end_ client)) = body +:+
    match end_ with
    | None => InjectUsage (cfg_TraceID cfg) "" (res_Usage res) (ce_CostCents (res_CostEvent res))
                (ce_CostSource (res_CostEvent res)) (cfg_EndpointID cfg +:+ (":" +:+ cfg_Model cfg))
                (cfg_AttemptNo cfg) (cfg_Degraded cfg) (cfg_LatencyMs cfg)
    | Some m => InjectError (cfg_TraceID cfg) "stream_interrupted" m true (Output (res_Usage res))
    end.
Proof.
  intros res. subst res. unfold run.
  destruct (forwardFrames_all (segments body) end_ client (cfg_Wire cfg) "" zero_acc eq_refl) as [a ->].
  destruct end_ as [m|]; cbn [run_pipe run_result res_Usage res_CostEvent];
    unfold bytes_out, pipe_write, client; cbn [budget written fst];
    rewrite concat_all_app, app_nil_l, segments_concat; cbn [concat_all foldr stream_error_text];
    by rewrite str_app_nil_r.
Qed.

(** The cost writer is called once when it is configured. *)
Lemma run_bills cfg body end_ :
  let r := run overflow cfg body end_ client in
  run_costWrites r = if cfg_CostW cfg then [{| cw_event := res_CostEvent (run_result r);
     cw_success := match end_ with None => true | _ => false end; cw_errorClass := res_ErrorClass (run_result r) |}] else [].
Proof.
  unfold run. destruct (forwardFrames_all (segments body) end_ client (cfg_Wire cfg) "" zero_acc eq_refl) as [a ->].
  by destruct end_.
Qed.

(** C11: the relay is transparent and accounts once: whatever the provider
    sends, a client that keeps reading receives exactly those bytes followed
    by one AICG event, [aicg.usage] after a normal end (reporting the cost of
    the one cost event) and [aicg.error] after a broken one; one cost event is
    written and one settlement callback is made, both carrying the returned
    result. *)
Theorem accounted_stream_relay cfg body end_ :
  let r := run overflow cfg body end_ client in
  let res := run_result r in
  bytes_out (run_pipe r) = body +:+
    match end_ with
    | None => InjectUsage (cfg_TraceID cfg) "" (res_Usage res) (ce_CostCents (res_CostEvent res))
                (ce_CostSource (res_CostEvent res)) (cfg_EndpointID cfg +:+ (":" +:+ cfg_Model cfg))
                (cfg_AttemptNo cfg) (cfg_Degraded cfg) (cfg_LatencyMs cfg)
    | Some m => InjectError (cfg_TraceID cfg) "stream_interrupted" m true (Output (res_Usage res))
    end /\
  res_Err res = match end_ with None => None | Some m => Some (ReadFailed m) end /\
  run_costWrites r = (if cfg_CostW cfg then [{| cw_event := res_CostEvent res;
     cw_success := match end_ with None => true | _ => false end;
     cw_errorClass := res_ErrorClass res |}] else []) /\
  run_post r = (if cfg_PostAccount cfg then [res] else []) /\
  ce_CostCents (res_CostEvent res) =
    totalCents (Calculate overflow (cfg_Calc cfg) (cfg_VendorID cfg) (cfg_Model cfg)
      (Input (res_Usage res)) (Output (res_Usage res)) (CacheRead (res_Usage res)) (CacheCreate (res_Usage res))).
Proof.
  intros r res. split; [apply run_bytes|]. subst res r. unfold run.
  destruct (forwardFrames_all (segments body) end_ client (cfg_Wire cfg) "" zero_acc eq_refl) as [a ->].
  destruct end_ as [m|]; cbn [run_pipe run_result run_costWrites run_post res_Err res_Usage res_CostEvent
    res_ErrorClass]; [done|]. by destruct (hasUsage a).
Qed.

(** C28: amounts stay machine integers: whatever the provider sends, however
    its stream ends and whenever the client leaves, the four token counts and
    the cost of the result are 64-bit values, given that the platform's
    conversion of an out-of-range double is one. *)
Theorem stream_amounts_typed cfg body end_ p : (forall x, int64 (overflow x)) ->
  let res := run_result (run overflow cfg body end_ p) in
  int64 (Input (res_Usage res)) /\ int64 (Output (res_Usage res)) /\ int64 (CacheRead (res_Usage res)) /\
  int64 (CacheCreate (res_Usage res)) /\ int64 (ce_CostCents (res_CostEvent res)).
Proof. intros Ho. apply run_typed. exact Ho. Qed.

(** When the reading end of the pipe is closed ([AccountedStream.Close]) the
    relay stops at that line: the reader has received a prefix made of whole
    lines of the stream and nothing injected, the result is an error of class
    [stream_interrupted], and the settlement callback sees the error. *)
Theorem client_disconnect cfg body end_ n :
  n < length (segments body) ->
  let r := run overflow cfg body end_ {| written := []; budget := Some n |} in
  bytes_out (run_pipe r) = concat_all (take n (segments body)) /\
  res_Err (run_result r) = Some WriteFailed /\
  res_ErrorClass (run_result r) = "stream_interrupted" /\
  ce_CostSource (res_CostEvent (run_result r)) = "estimated" /\
  run_post r = (if cfg_PostAccount cfg then [run_result r] else []).
Proof.
  intros Hn r. subst r. unfold run.
  destruct (forwardFrames_cut (segments body) end_ {| written := []; budget := Some n |} (cfg_Wire cfg) ""
    zero_acc n eq_refl Hn) as [a ->]. done.
Qed.

(** An event that carries no Anthropic usage. *)
Definition no_usage (ev : SSEEvent) : Prop :=
  plain_event ev /\ ev_Event ev <> "message_start" /\ ev_Event ev <> "message_delta".

Lemma fold_no_usage wire evs a :
  wire = "anthropic" \/ wire = "anthropic_compat" -> Forall no_usage evs ->
  fold_left (fun a ev => handleSSEData (ev_Event ev) (ev_Data ev) a wire) evs a = a.
Proof.
  intros Hw Hevs. revert a. induction Hevs as [|ev evs (_ & Hs & Hd) _ IH]; intros a; [done|]. cbn.
  rewrite IH. unfold handleSSEData, handleAnthropicData.
  apply String.eqb_neq in Hs, Hd. rewrite Hs, Hd. by destruct Hw as [->| ->].
Qed.

(** For an Anthropic stream the accounted usage is the provider's: input
    and cache tokens from [message_start] and the cumulative output tokens of
    the final [message_delta], through any other events in between and after. *)
Theorem anthropic_usage cfg start mid delta rest u out :
  cfg_Wire cfg = "anthropic" \/ cfg_Wire cfg = "anthropic_compat" ->
  plain_event start -> ev_Event start = "message_start" ->
  (exists t, unmarshal (dec_struct start_field) (ev_Data start) ("", None) = Some (t, Some (Some u))) ->
  Forall no_usage mid ->
  plain_event delta -> ev_Event delta = "message_delta" ->
  (exists t, unmarshal (dec_struct delta_field) (ev_Data delta) ("", None) = Some (t, Some out)) ->
  Forall no_usage rest ->
  let r := run overflow cfg (frame_text (start :: mid ++ delta :: rest)%list) None client in
  res_Usage (run_result r) = {| Input := su_Input u; Output := out;
    CacheRead := default 0%Z (su_CacheRead u); CacheCreate := default 0%Z (su_CacheCreate u) |} /\
  res_ErrorClass (run_result r) = "".
Proof.
  intros Hw Hps Hes [ts Hus] Hmid Hpd Hed [td Hud] Hrest r. subst r. unfold run.
  assert (Forall plain_event (start :: mid ++ delta :: rest)%list) as Hall.
  { constructor; [done|]. apply Forall_app. split; [by eapply Forall_impl; [exact Hmid|intros ? []]|].
    constructor; [done|]. by eapply Forall_impl; [exact Hrest|intros ? []]. }
  pose proof (forwardFrames_events _ None (cfg_Wire cfg) zero_acc Hall) as Hacc.
  destruct (forwardFrames_all (segments (frame_text (start :: mid ++ delta :: rest)%list)) None client
    (cfg_Wire cfg) "" zero_acc eq_refl) as [a Ha]. unfold client in *. rewrite Ha in Hacc |- *.
  cbn [fst snd] in Hacc. cbn [fold_left] in Hacc.
  rewrite fold_left_app, (fold_no_usage _ mid) in Hacc by done. cbn [fold_left] in Hacc.
  rewrite fold_no_usage in Hacc by done.
  assert (a = {| acc_input := su_Input u; acc_output := out; acc_cacheRead := default 0%Z (su_CacheRead u);
    acc_cacheCreate := default 0%Z (su_CacheCreate u); hasUsage := true |}) as ->.
  { rewrite Hacc. unfold handleSSEData, handleAnthropicData. rewrite Hes, Hed, Hus, Hud.
    by destruct Hw as [->| ->]. }
  done.
Qed.
End Claims.

(** ** Concrete streams *)

(** A JSON reader that knows two documents, and a printer. *)
Definition sample_start : string := "S".
Definition sample_delta : string := "D".
Definition sample_json : JSON :=
  {| parseJSON := fun s =>
       if String.eqb s sample_start then Some (JObj [("type", JStr "message_start"); ("message",
         JObj [("usage", JObj [("input_tokens", JInt 12); ("output_tokens", JInt 1);
                               ("cache_read_input_tokens", JInt 7)])])])
       else if String.eqb s sample_delta then Some (JObj [("usage", JObj [("output_tokens", JInt 40)])])
       else None;
     printJSON := fun _ => "{}"; parseFloat := fun _ => None; numberJSON := fun _ => JNull; printJSON_one_line := fun _ => conj eq_refl eq_refl |}.

Definition sample_ev (e d : string) : SSEEvent := {| ev_Event := e; ev_ID := ""; ev_Data := d |}.
Definition sample_cfg : AccountedStreamConfig :=
  {| cfg_Wire := "anthropic"; cfg_Calc := Some sample_pricing; cfg_CostW := true; cfg_VendorID := "anthropic";
     cfg_EndpointID := "ep1"; cfg_Model := "claude"; cfg_Pool := "standard"; cfg_IsPrivate := false;
     cfg_TraceID := "t"; cfg_TenantID := "core"; cfg_UserID := "ann"; cfg_TeamID := "core";
     cfg_AttemptNo := 1; cfg_Degraded := []; cfg_LatencyMs := 3; cfg_PostAccount := true |}.

Lemma sse_roundtrip_witness :
  read_all 3 (scan_lines (segments (concat_all (WriteEvent <$>
    [sample_ev "ping" ""; {| ev_Event := ""; ev_ID := "7"; ev_Data := "x y" |}])))).1 false
  = ([sample_ev "ping" ""; {| ev_Event := ""; ev_ID := "7"; ev_Data := "x y" |}], EOF).
Proof.
  pose proof (sse_roundtrip [sample_ev "ping" ""; {| ev_Event := ""; ev_ID := "7"; ev_Data := "x y" |}]) as H.
  destruct (scan_lines _) as [lines tooLong]. cbn [fst].
  destruct H as [-> H]; [|exact H].
  pose proof MaxScanTokenSize_pos as Hmax.
  repeat constructor; cbn in *; try set_solver; intros; decompose_list_elem_of; subst; cbn; lia.
Defined.

Lemma client_disconnect_witness :
  bytes_out (run_pipe (@run sample_json (fun _ => 0%Z) sample_cfg
    (frame_text [sample_ev "ping" "x"]) None {| written := []; budget := Some 1 |}))
  = "event: ping" +:+ nl.
Proof.
  apply (@client_disconnect sample_json (fun _ => 0%Z) sample_cfg (frame_text [sample_ev "ping" "x"]) None 1).
  vm_compute. lia.
Defined.

Lemma anthropic_usage_witness :
  res_Usage (run_result (@run sample_json (fun _ => 0%Z) sample_cfg
    (frame_text [sample_ev "message_start" sample_start; sample_ev "ping" "x";
                 sample_ev "message_delta" sample_delta; sample_ev "message_stop" "y"]) None client))
  = {| Input := 12; Output := 40; CacheRead := 7; CacheCreate := 0 |}.
Proof.
  apply (@anthropic_usage sample_json (fun _ => 0%Z) sample_cfg (sample_ev "message_start" sample_start)
    [sample_ev "ping" "x"] (sample_ev "message_delta" sample_delta) [sample_ev "message_stop" "y"]
    {| su_Input := 12; su_Output := 1; su_CacheRead := Some 7%Z; su_CacheCreate := None |} 40);
    [by left|done|done|by eexists|by repeat constructor|done|done|by eexists|by repeat constructor].
Defined.

Lemma stream_amounts_typed_witness :
  int64 (ce_CostCents (res_CostEvent (run_result (@run sample_json (fun _ => 0%Z) sample_cfg
    (frame_text [sample_ev "message_start" sample_start]) (Some "reset") client)))).
Proof.
  apply (@stream_amounts_typed sample_json (fun _ => 0%Z) sample_cfg
    (frame_text [sample_ev "message_start" sample_start]) (Some "reset") client).
  intros x. unfold int64. lia.
Defined.
