(* ===== verification/Transformer.v ===== *)
(** * Wire formats and the internal representation

    [internal/shared/ir/types.go], [internal/shared/transformer/anthropic.go]
    and [degraded.go]: conversion of a decoded Anthropic request to the
    internal representation and back, and the removal of Anthropic-only
    features.  Requests are the decoded Go structs; a raw JSON field is a
    document ([None] when absent), a [map[string]any] an association list,
    [None] standing for the nil map. *)

From stdpp Require Import sorting base gmap strings fin_maps numbers list.
From S2P Require Import Prelude GoData Json.
Local Open Scope string_scope.

Definition json_map := option (list (string * json)).

(** ** ir/types.go *)

Record ToolUse := { tu_ID : string; tu_Name : string; tu_Input : json_map }.
(** Over the type of blocks, so that blocks can nest. *)
Record ToolResult (B : Type) := { tr_ToolUseID : string; tr_Content : list B; tr_IsError : bool }.
#[global] Arguments tr_ToolUseID {B} _.
#[global] Arguments tr_Content {B} _.
#[global] Arguments tr_IsError {B} _.

Inductive ContentBlock := {
  Type_ : string;
  Text : string;
  ToolUse_ : option ToolUse;
  ToolResult_ : option (ToolResult ContentBlock);
  Thinking_ : option string;          (** [ThinkingBlock]: its text *)
  CacheControl : option string        (** [CacheControlSpec]: its type; TTL is never set *) }.

Record Message := { m_Role : string; m_Content : list ContentBlock }.
Record Tool := { t_Name : string; t_Description : string; t_InputSchema : json_map }.
Record ToolChoice := { tc_Type : string; tc_Name : string }.
Record ThinkingSpec := { Enabled : bool; BudgetTokens : Z }.

(** [transformer.IRRequest] *)
Record IRRequest := {
  ir_Model : string;
  ir_Messages : list Message;
  ir_System : list ContentBlock;
  ir_Tools : list Tool;
  ir_ToolChoice : option ToolChoice;
  ir_MaxTokens : Z;
  ir_Temperature : option float64;
  ir_Stream : bool;
  ir_Thinking : option ThinkingSpec;
  ir_Metadata : gmap string string }.

(** ** Anthropic wire shapes *)

Inductive anthropicBlock := {
  ab_Type : string;
  ab_Text : string;
  ab_ID : string;
  ab_Name : string;
  ab_Input : option json;
  ab_ToolUseID : string;
  ab_Content : list anthropicBlock;
  ab_IsError : bool;
  ab_CacheControl : option string;    (** its [type] member *)
  ab_Thinking : option string }.

Record anthropicMessage := { am_Role : string; am_Content : list anthropicBlock }.
Record anthropicThinking := { at_Type : string; at_BudgetTokens : Z }.
Record anthropicRequest := {
  ar_Model : string;
  ar_Messages : list anthropicMessage;
  ar_System : list anthropicBlock;
  ar_Tools : list Tool;                (** [anthropicTool] has the same three fields *)
  ar_ToolChoice : option ToolChoice;
  ar_MaxTokens : Z;
  ar_Temperature : option float64;
  ar_Stream : bool;
  ar_Thinking : option anthropicThinking;
  ar_Metadata : gmap string string }.

(** *** Decoding

    [encoding/json] refuses documents nested deeper than 10000 levels, which
    bounds the recursion through nested content. *)

Definition zero_wire_block : anthropicBlock :=
  {| ab_Type := ""; ab_Text := ""; ab_ID := ""; ab_Name := ""; ab_Input := None; ab_ToolUseID := "";
     ab_Content := []; ab_IsError := false; ab_CacheControl := None; ab_Thinking := None |}.
Definition text_block (s : string) : anthropicBlock :=
  {| ab_Type := "text"; ab_Text := s; ab_ID := ""; ab_Name := ""; ab_Input := None; ab_ToolUseID := "";
     ab_Content := []; ab_IsError := false; ab_CacheControl := None; ab_Thinking := None |}.

(** [anthropicContent.UnmarshalJSON]: null, a string, or an array of blocks. *)
Definition dec_content (d : decoder anthropicBlock) : decoder (list anthropicBlock) := fun v old =>
  match v with
  | JNull => Some []
  | JStr s => Some [text_block s]
  | _ => dec_slice zero_wire_block d v old
  end.

(** The anonymous struct of [cache_control]. *)
Definition cacheControl_field (k : string) : option (decoder string) :=
  if String.eqb k "type" then Some dec_str else None.

(** The struct tags of [anthropicBlock]; [d] decodes nested blocks. *)
Definition wire_block_field (d : decoder anthropicBlock) (k : string) : option (decoder anthropicBlock) :=
  let str (get : anthropicBlock -> string) (set : anthropicBlock -> string -> anthropicBlock) :=
    Some (fun v b => s ← dec_str v (get b); Some (set b s)) in
  let upd ty tx id nm inp tu ct er cc th :=
    {| ab_Type := ty; ab_Text := tx; ab_ID := id; ab_Name := nm; ab_Input := inp; ab_ToolUseID := tu;
       ab_Content := ct; ab_IsError := er; ab_CacheControl := cc; ab_Thinking := th |} in
  if String.eqb k "type" then str ab_Type (fun b s =>
    upd s (ab_Text b) (ab_ID b) (ab_Name b) (ab_Input b) (ab_ToolUseID b) (ab_Content b) (ab_IsError b) (ab_CacheControl b) (ab_Thinking b))
  else if String.eqb k "text" then str ab_Text (fun b s =>
    upd (ab_Type b) s (ab_ID b) (ab_Name b) (ab_Input b) (ab_ToolUseID b) (ab_Content b) (ab_IsError b) (ab_CacheControl b) (ab_Thinking b))
  else if String.eqb k "id" then str ab_ID (fun b s =>
    upd (ab_Type b) (ab_Text b) s (ab_Name b) (ab_Input b) (ab_ToolUseID b) (ab_Content b) (ab_IsError b) (ab_CacheControl b) (ab_Thinking b))
  else if String.eqb k "name" then str ab_Name (fun b s =>
    upd (ab_Type b) (ab_Text b) (ab_ID b) s (ab_Input b) (ab_ToolUseID b) (ab_Content b) (ab_IsError b) (ab_CacheControl b) (ab_Thinking b))
  else if String.eqb k "input" then Some (fun v b => i ← dec_raw v (ab_Input b);
    Some (upd (ab_Type b) (ab_Text b) (ab_ID b) (ab_Name b) i (ab_ToolUseID b) (ab_Content b) (ab_IsError b) (ab_CacheControl b) (ab_Thinking b)))
  else if String.eqb k "tool_use_id" then str ab_ToolUseID (fun b s =>
    upd (ab_Type b) (ab_Text b) (ab_ID b) (ab_Name b) (ab_Input b) s (ab_Content b) (ab_IsError b) (ab_CacheControl b) (ab_Thinking b))
  else if String.eqb k "content" then Some (fun v b => c ← dec_content d v (ab_Content b);
    Some (upd (ab_Type b) (ab_Text b) (ab_ID b) (ab_Name b) (ab_Input b) (ab_ToolUseID b) c (ab_IsError b) (ab_CacheControl b) (ab_Thinking b)))
  else if String.eqb k "is_error" then Some (fun v b => e ← dec_bool v (ab_IsError b);
    Some (upd (ab_Type b) (ab_Text b) (ab_ID b) (ab_Name b) (ab_Input b) (ab_ToolUseID b) (ab_Content b) e (ab_CacheControl b) (ab_Thinking b)))
  else if String.eqb k "cache_control" then Some (fun v b =>
    c ← dec_ptr "" (dec_struct cacheControl_field) v (ab_CacheControl b);
    Some (upd (ab_Type b) (ab_Text b) (ab_ID b) (ab_Name b) (ab_Input b) (ab_ToolUseID b) (ab_Content b) (ab_IsError b) c (ab_Thinking b)))
  else if String.eqb k "thinking" then Some (fun v b => t ← dec_ptr "" dec_str v (ab_Thinking b);
    Some (upd (ab_Type b) (ab_Text b) (ab_ID b) (ab_Name b) (ab_Input b) (ab_ToolUseID b) (ab_Content b) (ab_IsError b) (ab_CacheControl b) t))
  else None.

Fixpoint dec_wire_block (depth : nat) : decoder anthropicBlock :=
  match depth with
  | 0 => fun _ _ => None
  | S n => dec_struct (wire_block_field (dec_wire_block n))
  end.

(** A block nests at least two levels of the document per level of blocks,
    so the bound is never reached before the reader's. *)
Definition max_depth : nat := N.to_nat 10000.

Definition zero_wire_message : anthropicMessage := {| am_Role := ""; am_Content := [] |}.
Definition wire_message_field (d : decoder anthropicBlock) (k : string) : option (decoder anthropicMessage) :=
  if String.eqb k "role" then
    Some (fun v m => r ← dec_str v (am_Role m); Some {| am_Role := r; am_Content := am_Content m |})
  else if String.eqb k "content" then
    Some (fun v m => c ← dec_content d v (am_Content m); Some {| am_Role := am_Role m; am_Content := c |})
  else None.

Definition zero_tool : Tool := {| t_Name := ""; t_Description := ""; t_InputSchema := None |}.
Definition zero_tool_choice : ToolChoice := {| tc_Type := ""; tc_Name := "" |}.
Definition wire_tool_choice_field (k : string) : option (decoder ToolChoice) :=
  if String.eqb k "type" then
    Some (fun v t => s ← dec_str v (tc_Type t); Some {| tc_Type := s; tc_Name := tc_Name t |})
  else if String.eqb k "name" then
    Some (fun v t => s ← dec_str v (tc_Name t); Some {| tc_Type := tc_Type t; tc_Name := s |})
  else None.
Definition zero_wire_thinking : anthropicThinking := {| at_Type := ""; at_BudgetTokens := 0 |}.
Definition wire_thinking_field (k : string) : option (decoder anthropicThinking) :=
  if String.eqb k "type" then
    Some (fun v t => s ← dec_str v (at_Type t); Some {| at_Type := s; at_BudgetTokens := at_BudgetTokens t |})
  else if String.eqb k "budget_tokens" then
    Some (fun v t => n ← dec_int v (at_BudgetTokens t); Some {| at_Type := at_Type t; at_BudgetTokens := n |})
  else None.

Definition zero_request : anthropicRequest :=
  {| ar_Model := ""; ar_Messages := []; ar_System := []; ar_Tools := []; ar_ToolChoice := None;
     ar_MaxTokens := 0; ar_Temperature := None; ar_Stream := false; ar_Thinking := None; ar_Metadata := ∅ |}.

Section Wire.
Context {js : JSON}.

Definition wire_tool_field (k : string) : option (decoder Tool) :=
  if String.eqb k "name" then
    Some (fun v t => s ← dec_str v (t_Name t);
      Some {| t_Name := s; t_Description := t_Description t; t_InputSchema := t_InputSchema t |})
  else if String.eqb k "description" then
    Some (fun v t => s ← dec_str v (t_Description t);
      Some {| t_Name := t_Name t; t_Description := s; t_InputSchema := t_InputSchema t |})
  else if String.eqb k "input_schema" then
    Some (fun v t => m ← dec_any_map v (t_InputSchema t);
      Some {| t_Name := t_Name t; t_Description := t_Description t; t_InputSchema := m |})
  else None.

(** The struct tags of [anthropicRequest]. *)
Definition wire_request_field (depth : nat) (k : string) : option (decoder anthropicRequest) :=
  let block := dec_wire_block depth in
  let upd md ms sy tl tc mt tp st th mm :=
    {| ar_Model := md; ar_Messages := ms; ar_System := sy; ar_Tools := tl; ar_ToolChoice := tc;
       ar_MaxTokens := mt; ar_Temperature := tp; ar_Stream := st; ar_Thinking := th; ar_Metadata := mm |} in
  if String.eqb k "model" then Some (fun v r => x ← dec_str v (ar_Model r);
    Some (upd x (ar_Messages r) (ar_System r) (ar_Tools r) (ar_ToolChoice r) (ar_MaxTokens r) (ar_Temperature r) (ar_Stream r) (ar_Thinking r) (ar_Metadata r)))
  else if String.eqb k "messages" then Some (fun v r =>
    x ← dec_slice zero_wire_message (dec_struct (wire_message_field block)) v (ar_Messages r);
    Some (upd (ar_Model r) x (ar_System r) (ar_Tools r) (ar_ToolChoice r) (ar_MaxTokens r) (ar_Temperature r) (ar_Stream r) (ar_Thinking r) (ar_Metadata r)))
  else if String.eqb k "system" then Some (fun v r => x ← dec_content block v (ar_System r);
    Some (upd (ar_Model r) (ar_Messages r) x (ar_Tools r) (ar_ToolChoice r) (ar_MaxTokens r) (ar_Temperature r) (ar_Stream r) (ar_Thinking r) (ar_Metadata r)))
  else if String.eqb k "tools" then Some (fun v r =>
    x ← dec_slice zero_tool (dec_struct wire_tool_field) v (ar_Tools r);
    Some (upd (ar_Model r) (ar_Messages r) (ar_System r) x (ar_ToolChoice r) (ar_MaxTokens r) (ar_Temperature r) (ar_Stream r) (ar_Thinking r) (ar_Metadata r)))
  else if String.eqb k "tool_choice" then Some (fun v r =>
    x ← dec_ptr zero_tool_choice (dec_struct wire_tool_choice_field) v (ar_ToolChoice r);
    Some (upd (ar_Model r) (ar_Messages r) (ar_System r) (ar_Tools r) x (ar_MaxTokens r) (ar_Temperature r) (ar_Stream r) (ar_Thinking r) (ar_Metadata r)))
  else if String.eqb k "max_tokens" then Some (fun v r => x ← dec_int v (ar_MaxTokens r);
    Some (upd (ar_Model r) (ar_Messages r) (ar_System r) (ar_Tools r) (ar_ToolChoice r) x (ar_Temperature r) (ar_Stream r) (ar_Thinking r) (ar_Metadata r)))
  else if String.eqb k "temperature" then Some (fun v r => x ← dec_ptr f64_zero dec_float v (ar_Temperature r);
    Some (upd (ar_Model r) (ar_Messages r) (ar_System r) (ar_Tools r) (ar_ToolChoice r) (ar_MaxTokens r) x (ar_Stream r) (ar_Thinking r) (ar_Metadata r)))
  else if String.eqb k "stream" then Some (fun v r => x ← dec_bool v (ar_Stream r);
    Some (upd (ar_Model r) (ar_Messages r) (ar_System r) (ar_Tools r) (ar_ToolChoice r) (ar_MaxTokens r) (ar_Temperature r) x (ar_Thinking r) (ar_Metadata r)))
  else if String.eqb k "thinking" then Some (fun v r =>
    x ← dec_ptr zero_wire_thinking (dec_struct wire_thinking_field) v (ar_Thinking r);
    Some (upd (ar_Model r) (ar_Messages r) (ar_System r) (ar_Tools r) (ar_ToolChoice r) (ar_MaxTokens r) (ar_Temperature r) (ar_Stream r) x (ar_Metadata r)))
  else if String.eqb k "metadata" then Some (fun v r => x ← dec_string_map v (ar_Metadata r);
    Some (upd (ar_Model r) (ar_Messages r) (ar_System r) (ar_Tools r) (ar_ToolChoice r) (ar_MaxTokens r) (ar_Temperature r) (ar_Stream r) (ar_Thinking r) x))
  else None.

(** [json.Unmarshal(body, &raw)] *)
Definition dec_request (depth : nat) (body : option json) : option anthropicRequest :=
  unmarshal_raw (dec_struct (wire_request_field depth)) body zero_request.

(** *** Encoding *)

(** [json.Marshal] of a [map[string]any]. *)
Definition map_json (m : json_map) : json := match m with None => JNull | Some fs => JObj fs end.

Definition enc_tool (t : Tool) : json :=
  enc_obj [member "name" (JStr (t_Name t)); member "description" (JStr (t_Description t));
           member "input_schema" (map_json (t_InputSchema t))].
End Wire.

Definition enc_cache_control (ty : string) : json := JObj [("type", JStr ty)].

Fixpoint enc_wire_block (b : anthropicBlock) : json :=
  enc_obj [member "type" (JStr (ab_Type b)); omit_str "text" (ab_Text b); omit_str "id" (ab_ID b);
           omit_str "name" (ab_Name b); omit_nil "input" id (ab_Input b);
           omit_str "tool_use_id" (ab_ToolUseID b);
           omitempty (match ab_Content b with [] => true | _ => false end) "content" (JArr (map enc_wire_block (ab_Content b)));
           omitempty (negb (ab_IsError b)) "is_error" (JBool (ab_IsError b));
           omit_nil "cache_control" enc_cache_control (ab_CacheControl b);
           omit_nil "thinking" JStr (ab_Thinking b)].
Definition enc_wire_message (m : anthropicMessage) : json :=
  enc_obj [member "role" (JStr (am_Role m)); member "content" (enc_slice enc_wire_block (am_Content m))].
Definition enc_tool_choice (t : ToolChoice) : json :=
  enc_obj [member "type" (JStr (tc_Type t)); omit_str "name" (tc_Name t)].
Definition enc_thinking (t : anthropicThinking) : json :=
  enc_obj [member "type" (JStr (at_Type t)); member "budget_tokens" (JInt (at_BudgetTokens t))].

(** ** anthropic.go *)

Section Conversion.
Context {js : JSON}.

(** [json.Unmarshal(raw, &m)] into a [map[string]any], its error dropped: a
    value that is not an object leaves the nil map, a number out of range is
    kept as nil. *)
Definition parseJSONMap (raw : option json) : json_map :=
  match raw with
  | Some v => match any_json v with (JObj fs, _) => Some fs | _ => None end
  | None => None
  end.

Fixpoint anthropicBlockToIR (c : anthropicBlock) : ContentBlock :=
  {| Type_ := ab_Type c;
     Text := if String.eqb (ab_Type c) "text" then ab_Text c else "";
     ToolUse_ := if String.eqb (ab_Type c) "tool_use" then
                   Some {| tu_ID := ab_ID c; tu_Name := ab_Name c; tu_Input := parseJSONMap (ab_Input c) |}
                 else None;
     ToolResult_ := if String.eqb (ab_Type c) "tool_result" then
                      Some {| tr_ToolUseID := ab_ToolUseID c;
                              tr_Content := map anthropicBlockToIR (ab_Content c);
                              tr_IsError := ab_IsError c |}
                    else None;
     Thinking_ := if String.eqb (ab_Type c) "thinking" then Some (default "" (ab_Thinking c)) else None;
     CacheControl := ab_CacheControl c |}.

(** The nested recursion needs the list of a tool result's content, so it is
    written with an inner loop over that list. *)
Fixpoint irBlockToAnthropicBlock (cb : ContentBlock) : anthropicBlock :=
  let content :=
    match ToolResult_ cb with
    | Some tr => map irBlockToAnthropicBlock (tr_Content tr)
    | None => []
    end in
  let has t := String.eqb (Type_ cb) t in
  {| ab_Type := Type_ cb;
     ab_Text := if has "text" then Text cb else "";
     ab_ID := if has "tool_use" then match ToolUse_ cb with Some tu => tu_ID tu | None => "" end else "";
     ab_Name := if has "tool_use" then match ToolUse_ cb with Some tu => tu_Name tu | None => "" end else "";
     ab_Input := if has "tool_use" then
                   match ToolUse_ cb with Some tu => Some (map_json (tu_Input tu)) | None => None end else None;
     ab_ToolUseID := if has "tool_result" then
                       match ToolResult_ cb with Some tr => tr_ToolUseID tr | None => "" end else "";
     ab_Content := if has "tool_result" then content else [];
     ab_IsError := if has "tool_result" then
                     match ToolResult_ cb with Some tr => tr_IsError tr | None => false end else false;
     ab_CacheControl := CacheControl cb;
     ab_Thinking := if has "thinking" then Thinking_ cb else None |}.

Definition messageToIR (msg : anthropicMessage) : Message :=
  {| m_Role := am_Role msg; m_Content := map anthropicBlockToIR (am_Content msg) |}.

(** [AnthropicToIR] after the body is decoded. *)
Definition requestToIR (raw : anthropicRequest) : IRRequest :=
  {| ir_Model := ar_Model raw; ir_Stream := ar_Stream raw; ir_MaxTokens := ar_MaxTokens raw;
     ir_Metadata := ar_Metadata raw; ir_Temperature := ar_Temperature raw;
     ir_Thinking := match ar_Thinking raw with
                    | Some t => Some {| Enabled := true; BudgetTokens := at_BudgetTokens t |}
                    | None => None
                    end;
     ir_Messages := messageToIR <$> ar_Messages raw;
     ir_System := anthropicBlockToIR <$> ar_System raw;
     ir_Tools := ar_Tools raw;
     ir_ToolChoice := match ar_ToolChoice raw with
                      | Some tc => Some {| tc_Type := if String.eqb (tc_Type tc) "tool" then "specific" else tc_Type tc;
                                           tc_Name := tc_Name tc |}
                      | None => None
                      end |}.

(** [AnthropicToIR]; [None] is the decoding error. *)
Definition AnthropicToIR (body : option json) : option IRRequest :=
  requestToIR <$> dec_request max_depth body.

Definition IRToAnthropicSystem (req : IRRequest) : option json :=
  match ir_System req with
  | [] => None
  | bs => Some (JArr (enc_wire_block <$> (irBlockToAnthropicBlock <$> bs)))
  end.

Definition IRToAnthropicTools (req : IRRequest) : option json :=
  match ir_Tools req with [] => None | ts => Some (JArr (enc_tool <$> ts)) end.

Definition IRToAnthropicToolChoice (req : IRRequest) : option json :=
  match ir_ToolChoice req with
  | None => None
  | Some tc => Some (enc_tool_choice
      {| tc_Type := if String.eqb (tc_Type tc) "specific" then "tool" else tc_Type tc; tc_Name := tc_Name tc |})
  end.

Definition IRToAnthropicThinking (req : IRRequest) : option json :=
  match ir_Thinking req with
  | None => None
  | Some t => Some (enc_thinking {| at_Type := "enabled"; at_BudgetTokens := BudgetTokens t |})
  end.

Definition IRToAnthropicMessages (req : IRRequest) : json :=
  JArr ((fun msg => enc_wire_message
           {| am_Role := m_Role msg; am_Content := irBlockToAnthropicBlock <$> m_Content msg |})
        <$> ir_Messages req).
End Conversion.

(** ** degraded.go *)

Fixpoint str_mem (s : string) (l : list string) : bool :=
  match l with [] => false | x :: l => if String.eqb x s then true else str_mem s l end.
Definition appendStrUnique (slice : list string) (s : string) : list string :=
  if str_mem s slice then slice else (slice ++ [s])%list.

Definition clear_cache (b : ContentBlock) : ContentBlock :=
  {| Type_ := Type_ b; Text := Text b; ToolUse_ := ToolUse_ b; ToolResult_ := ToolResult_ b;
     Thinking_ := Thinking_ b; CacheControl := None |}.

(** One loop over blocks: the blocks rewritten in place and the list so far. *)
Fixpoint strip_blocks (bs : list ContentBlock) (degraded : list string) : list ContentBlock * list string :=
  match bs with
  | [] => ([], degraded)
  | b :: bs =>
      match CacheControl b with
      | Some _ =>
          let '(bs', d) := strip_blocks bs (appendStrUnique degraded "cache_control") in (clear_cache b :: bs', d)
      | None => let '(bs', d) := strip_blocks bs degraded in (b :: bs', d)
      end
  end.
Fixpoint strip_messages (ms : list Message) (degraded : list string) : list Message * list string :=
  match ms with
  | [] => ([], degraded)
  | m :: ms =>
      let '(bs, d) := strip_blocks (m_Content m) degraded in
      let '(ms', d') := strip_messages ms d in
      ({| m_Role := m_Role m; m_Content := bs |} :: ms', d')
  end.

(** [StripAnthropicFeatures]: the request after the mutation, and the list. *)
Definition StripAnthropicFeatures (req : IRRequest) : IRRequest * list string :=
  let enabled := match ir_Thinking req with Some t => Enabled t | None => false end in
  let degraded := if enabled then ["extended_thinking"] else [] in
  let '(ms, d1) := strip_messages (ir_Messages req) degraded in
  let '(sys, d2) := strip_blocks (ir_System req) d1 in
  ({| ir_Model := ir_Model req; ir_Messages := ms; ir_System := sys; ir_Tools := ir_Tools req;
      ir_ToolChoice := ir_ToolChoice req; ir_MaxTokens := ir_MaxTokens req;
      ir_Temperature := ir_Temperature req; ir_Stream := ir_Stream req;
      ir_Thinking := if enabled then None else ir_Thinking req; ir_Metadata := ir_Metadata req |}, d2).

(** ** Induction over nested blocks *)

Lemma anthropicBlock_nested_ind (P : anthropicBlock -> Prop) :
  (forall b, Forall P (ab_Content b) -> P b) -> forall b, P b.
Proof.
  intros IH. fix go 1. intros b. apply IH. destruct b as [ty tx id nm inp tu content err cc th]. cbn.
  induction content as [|c content IHc]; constructor; [apply go|exact IHc].
Qed.

(** ** Blocks written and read back *)

(** At most [n] levels of blocks below this one. *)
Fixpoint fits (n : nat) (b : anthropicBlock) : Prop :=
  match n with 0 => ab_Content b = [] | S n => Forall (fits n) (ab_Content b) end.

Lemma fits_leaf n b : ab_Content b = [] -> fits n b.
Proof. intros Hb. destruct n; cbn; [done|]. rewrite Hb. constructor. Qed.

Lemma dec_content_enc (d : decoder anthropicBlock) bs old :
  Forall (fun b => d (enc_wire_block b) zero_wire_block = Some b) bs ->
  dec_content d (JArr (map enc_wire_block bs)) old = Some bs.
Proof.
  intros Hbs. apply mapM_Some. apply Forall2_fmap_l. by apply Forall_Forall2_diag.
Qed.

Lemma dec_enc_block_step d b :
  Forall (fun c => d (enc_wire_block c) zero_wire_block = Some c) (ab_Content b) ->
  dec_struct (wire_block_field d) (enc_wire_block b) zero_wire_block = Some b.
Proof.
  destruct b as [ty tx id' nm inp tu content err cc th]. cbn [ab_Content]. intros Hc.
  cbn [enc_wire_block dec_struct enc_obj ab_Type ab_Text ab_ID ab_Name ab_Input ab_ToolUseID ab_Content
       ab_IsError ab_CacheControl ab_Thinking].
  eapply dec_member; [reflexivity|reflexivity|].
  do 3 (eapply dec_omit_str; [reflexivity|reflexivity|]).
  eapply (dec_omit_nil _ _ {| ab_Type := ty; ab_Text := tx; ab_ID := id'; ab_Name := nm; ab_Input := inp;
    ab_ToolUseID := ""; ab_Content := []; ab_IsError := false; ab_CacheControl := None; ab_Thinking := None |});
    [reflexivity|by intros ->|by intros ? ->|].
  eapply dec_omit_str; [reflexivity|reflexivity|].
  eapply (dec_omitempty _ _ {| ab_Type := ty; ab_Text := tx; ab_ID := id'; ab_Name := nm; ab_Input := inp;
    ab_ToolUseID := tu; ab_Content := content; ab_IsError := false; ab_CacheControl := None; ab_Thinking := None |});
    [reflexivity|by destruct content|intros _; cbn beta; rewrite (dec_content_enc d content) by exact Hc; reflexivity|].
  eapply (dec_omitempty _ _ {| ab_Type := ty; ab_Text := tx; ab_ID := id'; ab_Name := nm; ab_Input := inp;
    ab_ToolUseID := tu; ab_Content := content; ab_IsError := err; ab_CacheControl := None; ab_Thinking := None |});
    [reflexivity|by destruct err|by destruct err|].
  eapply (dec_omit_nil _ _ {| ab_Type := ty; ab_Text := tx; ab_ID := id'; ab_Name := nm; ab_Input := inp;
    ab_ToolUseID := tu; ab_Content := content; ab_IsError := err; ab_CacheControl := cc; ab_Thinking := None |});
    [reflexivity|by intros ->|by intros ? ->|].
  eapply (dec_omit_nil _ _ {| ab_Type := ty; ab_Text := tx; ab_ID := id'; ab_Name := nm; ab_Input := inp;
    ab_ToolUseID := tu; ab_Content := content; ab_IsError := err; ab_CacheControl := cc; ab_Thinking := th |});
    [reflexivity|by intros ->|by intros ? ->|reflexivity].
Qed.

Lemma dec_enc_block n b : fits n b -> dec_wire_block (S n) (enc_wire_block b) zero_wire_block = Some b.
Proof.
  revert b. induction n as [|n IH]; intros b Hb; apply dec_enc_block_step; cbn in Hb.
  - rewrite Hb. constructor.
  - eapply Forall_impl; [exact Hb|]. exact IH.
Qed.

(** What the decoder returns nests no deeper than its bound. *)
Lemma dec_content_fits n v old bs :
  (forall x b, dec_wire_block n x zero_wire_block = Some b -> fits n b) ->
  dec_content (dec_wire_block n) v old = Some bs -> Forall (fits n) bs.
Proof.
  intros IH. destruct v as [|b|z|l|s|l|fs]; cbn; try done.
  - intros [= <-]. constructor.
  - intros [= <-]. repeat constructor. by apply fits_leaf.
  - rewrite mapM_Some. intros Hl. induction Hl as [|x b l bs Hx _ IHl]; constructor; [by eapply IH|done].
Qed.

Lemma wire_block_field_content d k dd v t t' :
  wire_block_field d k = Some dd -> dd v t = Some t' ->
  ab_Content t' = ab_Content t \/ dec_content d v (ab_Content t) = Some (ab_Content t').
Proof.
  unfold wire_block_field. intros Hk Hd.
  repeat match type of Hk with (if ?b then _ else _) = _ => destruct b end;
    simplify_option_eq; naive_solver.
Qed.

Lemma dec_wire_block_fits n v b : dec_wire_block n v zero_wire_block = Some b -> fits n b.
Proof.
  revert v b. induction n as [|n IH]; intros v b; cbn; [done|].
  assert (Hz : Forall (fits n) (ab_Content zero_wire_block)) by constructor.
  destruct v as [|?|?|?|?|?|fs]; cbn; try done; [by intros [= <-]|].
  intros Hd. eapply (dec_fields_inv (fun b => Forall (fits n) (ab_Content b))); [|exact Hd|exact Hz].
  intros k dd w u u' Hk Hu Hf. destruct (wire_block_field_content _ _ _ _ _ _ Hk Hu) as [->|Hc]; [done|].
  by eapply dec_content_fits.
Qed.

Definition request_fits (n : nat) (r : anthropicRequest) : Prop :=
  Forall (fun m => Forall (fits n) (am_Content m)) (ar_Messages r) /\ Forall (fits n) (ar_System r).

Lemma dec_wire_message_fits n v m :
  dec_struct (wire_message_field (dec_wire_block n)) v zero_wire_message = Some m ->
  Forall (fits n) (am_Content m).
Proof.
  assert (Hz : Forall (fits n) (am_Content zero_wire_message)) by constructor.
  destruct v as [|?|?|?|?|?|fs]; cbn; try done; [by intros [= <-]|].
  intros Hd. eapply (dec_fields_inv (fun m => Forall (fits n) (am_Content m))); [|exact Hd|exact Hz].
  intros k dd w u u' Hk Hu Hf. unfold wire_message_field in Hk.
  repeat match type of Hk with (if ?b then _ else _) = _ => destruct b end; simplify_option_eq; [done|].
  eapply dec_content_fits; [|done]. intros. by eapply dec_wire_block_fits.
Qed.

Section Fits.
Context {js : JSON}.

Lemma dec_request_fits n body raw : dec_request n body = Some raw -> request_fits n raw.
Proof.
  destruct body as [v|]; [|done]. unfold dec_request, unmarshal_raw. cbn [mbind option_bind].
  assert (Hz : request_fits n zero_request) by (split; constructor).
  destruct v as [|?|?|?|?|?|fs]; cbn [dec_struct]; try done; [by intros [= <-]|].
  intros Hd. eapply (dec_fields_inv (request_fits n)); [|exact Hd|exact Hz].
  intros k dd w u u' Hk Hu [Hm Hs]. unfold wire_request_field in Hk.
  repeat match type of Hk with (if ?b then _ else _) = _ => destruct b end; simplify_option_eq; try done;
    split; cbn [ar_Messages ar_System]; try done.
  - destruct w as [|?|?|?|?|l|?]; simplify_option_eq; [constructor|].
    match goal with H : mapM _ _ = Some _ |- _ => apply mapM_Some in H; rename H into Hl end.
    clear Hd. induction Hl as [|x m l ms Hx _ IHl]; constructor; [by eapply dec_wire_message_fits|].
    done.
  - eapply dec_content_fits; [|done]. intros. by eapply dec_wire_block_fits.
Qed.
End Fits.

(** ** Blocks through the internal representation *)

Section Canonical.
Context {js : JSON}.

(** A block that carries exactly the members of its type; the arguments of a
    tool call are written the way a Go map writes them (members sorted, every
    number one a [float64] holds). *)
Fixpoint canonical (b : anthropicBlock) : Prop :=
  let own_text := ab_Type b = "text" /\ ab_ID b = "" /\ ab_Name b = "" /\ ab_Input b = None /\
                  ab_ToolUseID b = "" /\ ab_Content b = [] /\ ab_IsError b = false /\ ab_Thinking b = None in
  let own_tool := ab_Type b = "tool_use" /\ ab_Text b = "" /\
                  (exists fs, ab_Input b = Some (JObj fs) /\ (any_json (JObj fs)).1 = JObj fs) /\
                  ab_ToolUseID b = "" /\ ab_Content b = [] /\ ab_IsError b = false /\ ab_Thinking b = None in
  let own_result := ab_Type b = "tool_result" /\ ab_Text b = "" /\ ab_ID b = "" /\ ab_Name b = "" /\
                  ab_Input b = None /\ ab_Thinking b = None /\
                  fold_right (fun c rest => canonical c /\ rest) True (ab_Content b) in
  let own_thinking := ab_Type b = "thinking" /\ ab_Text b = "" /\ ab_ID b = "" /\ ab_Name b = "" /\
                  ab_Input b = None /\ ab_ToolUseID b = "" /\ ab_Content b = [] /\ ab_IsError b = false /\
                  is_Some (ab_Thinking b) in
  own_text \/ own_tool \/ own_result \/ own_thinking.

Lemma canonical_list bs :
  fold_right (fun c rest => canonical c /\ rest) True bs <-> Forall canonical bs.
Proof. induction bs as [|b bs IH]; cbn; [by rewrite Forall_nil|]. by rewrite IH, list.Forall_cons. Qed.

Lemma block_roundtrip b : canonical b -> irBlockToAnthropicBlock (anthropicBlockToIR b) = b.
Proof.
  induction b as [b IH] using anthropicBlock_nested_ind. intros Hc.
  destruct b as [ty tx id nm inp tu content err cc th]. cbn in IH.
  destruct Hc as [H|[H|[H|H]]]; cbn -[any_json] in H.
  - destruct H as (-> & -> & -> & -> & -> & -> & -> & ->). reflexivity.
  - destruct H as (-> & -> & (fs & -> & Hfs) & -> & -> & -> & ->). cbn -[any_json].
    destruct (any_json (JObj fs)) as [j ok]. cbn in Hfs. by subst j.
  - destruct H as (-> & -> & -> & -> & -> & -> & Hcs). apply canonical_list in Hcs.
    cbn. f_equal. induction content as [|c content IHc]; [done|]. cbn.
    apply Forall_cons_1 in IH as [Hh IH], Hcs as [Hch Hcs]. rewrite Hh by done. f_equal. by apply IHc.
  - destruct H as (-> & -> & -> & -> & -> & -> & -> & -> & [t ->]). reflexivity.
Qed.

Lemma blocks_roundtrip bs :
  Forall canonical bs -> irBlockToAnthropicBlock <$> (anthropicBlockToIR <$> bs) = bs.
Proof.
  induction 1 as [|b bs Hb _ IH]; [done|]. cbn. rewrite block_roundtrip by done. by f_equal.
Qed.

(** A request all of whose parts survive: canonical blocks, tool schemas
    written the way Go writes maps, a tool choice that is not the internal
    name of another one, machine integers, and a temperature whose printed
    form reads back. *)
Record canonical_request (raw : anthropicRequest) : Prop := {
  cr_messages : Forall (fun m => Forall canonical (am_Content m)) (ar_Messages raw);
  cr_system : Forall canonical (ar_System raw);
  cr_tools : Forall (fun t => dec_any_map (map_json (t_InputSchema t)) None = Some (t_InputSchema t)) (ar_Tools raw);
  cr_choice tc : ar_ToolChoice raw = Some tc -> tc_Type tc <> "specific";
  cr_max_tokens : int64 (ar_MaxTokens raw);
  cr_temperature f : ar_Temperature raw = Some f ->
    numberJSON f <> JNull /\ float_of (numberJSON f) = Some f;
  cr_budget t : ar_Thinking raw = Some t -> int64 (at_BudgetTokens t) }.

(** The members written from the internal representation are those received. *)
Lemma messages_roundtrip raw :
  Forall (fun m => Forall canonical (am_Content m)) (ar_Messages raw) ->
  IRToAnthropicMessages (requestToIR raw) = JArr (enc_wire_message <$> ar_Messages raw).
Proof.
  intros Hm. unfold IRToAnthropicMessages. cbn. f_equal.
  induction Hm as [|[r c] ms Hc _ IH]; [done|]. cbn in *. f_equal; [|exact IH].
  change (map anthropicBlockToIR c) with (anthropicBlockToIR <$> c). by rewrite blocks_roundtrip.
Qed.

Lemma system_roundtrip raw :
  Forall canonical (ar_System raw) ->
  IRToAnthropicSystem (requestToIR raw) =
  match ar_System raw with [] => None | bs => Some (JArr (enc_wire_block <$> bs)) end.
Proof.
  intros Hs. unfold IRToAnthropicSystem. cbn. pose proof (blocks_roundtrip _ Hs) as Hb.
  destruct (ar_System raw) as [|b bs]; [done|]. 
  change (Some (JArr (enc_wire_block <$> (irBlockToAnthropicBlock <$> (anthropicBlockToIR <$> b :: bs)))) =
    Some (JArr (enc_wire_block <$> b :: bs))). by rewrite Hb.
Qed.

Lemma tool_choice_roundtrip raw :
  (forall tc, ar_ToolChoice raw = Some tc -> tc_Type tc <> "specific") ->
  IRToAnthropicToolChoice (requestToIR raw) = enc_tool_choice <$> ar_ToolChoice raw.
Proof.
  intros Htc. unfold IRToAnthropicToolChoice. cbn. destruct (ar_ToolChoice raw) as [[ty nm]|]; [|done]. cbn.
  specialize (Htc _ eq_refl). cbn in Htc. destruct (String.eqb_spec ty "tool") as [->|]; [done|].
  by apply String.eqb_neq in Htc as ->.
Qed.

(** *** Decoding what was written *)

Lemma dec_enc_message n m :
  Forall (fits n) (am_Content m) ->
  dec_struct (wire_message_field (dec_wire_block (S n))) (enc_wire_message m) zero_wire_message = Some m.
Proof.
  destruct m as [r bs]. cbn [am_Content am_Role enc_wire_message dec_struct enc_obj]. intros Hbs.
  eapply dec_member; [reflexivity|reflexivity|]. eapply dec_member; [reflexivity| |reflexivity].
  assert (forall old, dec_content (dec_wire_block (S n)) (enc_slice enc_wire_block bs) old = Some bs) as Hd;
    [|cbv beta; by rewrite Hd].
  intros old. destruct bs as [|b bs]; [done|]. apply (dec_content_enc _ (b :: bs)).
  eapply Forall_impl; [exact Hbs|]. apply dec_enc_block.
Qed.

Lemma dec_enc_tool t :
  dec_any_map (map_json (t_InputSchema t)) None = Some (t_InputSchema t) ->
  dec_struct wire_tool_field (enc_tool t) zero_tool = Some t.
Proof.
  destruct t as [nm ds sc]. cbn [t_InputSchema enc_tool dec_struct enc_obj t_Name t_Description]. intros Hs.
  do 2 (eapply dec_member; [reflexivity|reflexivity|]).
  eapply dec_member; [reflexivity| |reflexivity]. cbn beta. cbn [t_InputSchema zero_tool]. by rewrite Hs.
Qed.

Lemma dec_enc_tool_choice t :
  dec_struct wire_tool_choice_field (enc_tool_choice t) zero_tool_choice = Some t.
Proof.
  destruct t as [ty nm]. cbn [enc_tool_choice dec_struct enc_obj tc_Type tc_Name].
  eapply dec_member; [reflexivity|reflexivity|].
  eapply dec_omit_str; reflexivity.
Qed.

Lemma dec_enc_thinking t :
  int64 (at_BudgetTokens t) -> dec_struct wire_thinking_field (enc_thinking t) zero_wire_thinking = Some t.
Proof.
  destruct t as [ty n]. cbn [enc_thinking dec_struct enc_obj at_Type at_BudgetTokens]. intros Hn.
  eapply dec_member; [reflexivity|reflexivity|]. eapply dec_member; [reflexivity| |reflexivity].
  cbn beta. by rewrite dec_int_int64.
Qed.
End Canonical.

(** ** Stripping *)

Lemma str_mem_spec s l : str_mem s l = true <-> s ∈ l.
Proof.
  induction l as [|x l IH]; cbn; [set_solver|]. destruct (String.eqb_spec x s); set_solver.
Qed.

Lemma elem_of_appendStrUnique l s x : x ∈ appendStrUnique l s <-> x ∈ l \/ x = s.
Proof.
  unfold appendStrUnique. destruct (str_mem s l) eqn:Hm; [|set_solver].
  apply str_mem_spec in Hm. set_solver.
Qed.

Lemma NoDup_appendStrUnique l s : NoDup l -> NoDup (appendStrUnique l s).
Proof.
  unfold appendStrUnique. destruct (str_mem s l) eqn:Hm; [done|].
  intros Hl. apply list.NoDup_app. split_and!; [done| |apply NoDup_singleton].
  intros x Hx ->%list_elem_of_singleton. apply str_mem_spec in Hx. congruence.
Qed.

Definition cached (b : ContentBlock) : Prop := CacheControl b <> None.

Lemma strip_blocks_spec bs d :
  let '(bs', d') := strip_blocks bs d in
  bs' = clear_cache <$> bs /\ (NoDup d -> NoDup d') /\
  (forall x, x ∈ d' <-> x ∈ d \/ x = "cache_control" /\ Exists cached bs).
Proof.
  revert d. induction bs as [|b bs IH]; intros d; cbn.
  - split_and!; [done|done|]. intros x. rewrite Exists_nil. tauto.
  - destruct (CacheControl b) as [c|] eqn:Hb.
    + specialize (IH (appendStrUnique d "cache_control")). destruct (strip_blocks bs _) as [bs' d'].
      destruct IH as (-> & Hnd & Hin). split_and!; [done|by intros; apply Hnd, NoDup_appendStrUnique|].
      intros x. rewrite Hin, elem_of_appendStrUnique, Exists_cons.
      assert (cached b) by (unfold cached; congruence). tauto.
    + specialize (IH d). destruct (strip_blocks bs d) as [bs' d']. destruct IH as (-> & Hnd & Hin).
      split_and!; [|done|].
      * cbn. f_equal. destruct b; cbn in *. by subst.
      * intros x. rewrite Hin, Exists_cons. assert (~ cached b) by (unfold cached; naive_solver). tauto.
Qed.

Definition clear_message (m : Message) : Message :=
  {| m_Role := m_Role m; m_Content := clear_cache <$> m_Content m |}.

Lemma strip_messages_spec ms d :
  let '(ms', d') := strip_messages ms d in
  ms' = clear_message <$> ms /\ (NoDup d -> NoDup d') /\
  (forall x, x ∈ d' <-> x ∈ d \/ x = "cache_control" /\ Exists (fun m => Exists cached (m_Content m)) ms).
Proof.
  revert d. induction ms as [|m ms IH]; intros d; cbn.
  - split_and!; [done|done|]. intros x. rewrite Exists_nil. tauto.
  - pose proof (strip_blocks_spec (m_Content m) d) as Hb. destruct (strip_blocks _ _) as [bs d1].
    destruct Hb as (-> & Hnd1 & Hin1). specialize (IH d1). destruct (strip_messages ms d1) as [ms' d'].
    destruct IH as (-> & Hnd & Hin). split_and!; [done|by auto|].
    intros x. rewrite Hin, Hin1, Exists_cons. tauto.
Qed.

(** What stripping leaves of the request. *)
Lemma strip_messages_cleared req :
  let req' := (StripAnthropicFeatures req).1 in
  ir_Messages req' = clear_message <$> ir_Messages req /\
  ir_Model req' = ir_Model req /\ ir_Tools req' = ir_Tools req /\ ir_Stream req' = ir_Stream req /\
  ir_MaxTokens req' = ir_MaxTokens req /\ ir_Temperature req' = ir_Temperature req.
Proof.
  unfold StripAnthropicFeatures. cbv zeta.
  match goal with |- context [strip_messages ?ms ?d] => pose proof (strip_messages_spec ms d) as Hm end.
  destruct (strip_messages _ _) as [ms d1]. destruct Hm as (-> & _ & _).
  by destruct (strip_blocks _ _) as [sys d2].
Qed.

(** ** Claims *)

(** Stripping for a non-Anthropic endpoint removes cache control from
    every block of every message and of the system prompt and drops enabled
    thinking, changes nothing else, and reports exactly the features it
    removed, each once. *)
Theorem strip_anthropic_features_exact req :
  let '(req', degraded) := StripAnthropicFeatures req in
  ir_Messages req' = clear_message <$> ir_Messages req /\
  ir_System req' = clear_cache <$> ir_System req /\
  ir_Thinking req' = (match ir_Thinking req with Some t => if Enabled t then None else Some t | None => None end) /\
  ir_Tools req' = ir_Tools req /\ ir_ToolChoice req' = ir_ToolChoice req /\ ir_Model req' = ir_Model req /\
  ir_MaxTokens req' = ir_MaxTokens req /\ ir_Temperature req' = ir_Temperature req /\
  ir_Stream req' = ir_Stream req /\ ir_Metadata req' = ir_Metadata req /\
  NoDup degraded /\
  (forall x, x ∈ degraded <->
     x = "extended_thinking" /\ (exists t, ir_Thinking req = Some t /\ Enabled t = true) \/
     x = "cache_control" /\ (Exists (fun m => Exists cached (m_Content m)) (ir_Messages req) \/
                             Exists cached (ir_System req))).
Proof.
  unfold StripAnthropicFeatures. cbv zeta.
  set (en := match ir_Thinking req with Some t => Enabled t | None => false end).
  pose proof (strip_messages_spec (ir_Messages req) (if en then ["extended_thinking"] else [])) as Hm.
  destruct (strip_messages _ _) as [ms d1]. destruct Hm as (-> & Hnd1 & Hin1).
  pose proof (strip_blocks_spec (ir_System req) d1) as Hs.
  destruct (strip_blocks _ _) as [sys d2]. destruct Hs as (-> & Hnd2 & Hin2). cbn.
  assert ((exists t, ir_Thinking req = Some t /\ Enabled t = true) <-> en = true) as Hen.
  { unfold en. destruct (ir_Thinking req); naive_solver. }
  split_and!; try done.
  - unfold en. destruct (ir_Thinking req) as [t|]; [|done]. by destruct (Enabled t).
  - apply Hnd2, Hnd1. destruct en; [apply NoDup_singleton|constructor].
  - intros x. rewrite Hin2, Hin1, Hen. destruct en; rewrite ?list_elem_of_singleton, ?elem_of_nil;
      split; intros; naive_solver.
Qed.

Section Thinking.
Context {js : JSON}.

(** Any [thinking] member of a request, also one of type [disabled],
    reaches an Anthropic endpoint as type [enabled]. *)
Theorem thinking_always_enabled body raw t :
  dec_request max_depth body = Some raw -> ar_Thinking raw = Some t ->
  exists req, AnthropicToIR body = Some req /\
    IRToAnthropicThinking req =
      Some (enc_thinking {| at_Type := "enabled"; at_BudgetTokens := at_BudgetTokens t |}).
Proof.
  intros Hd Ht. unfold AnthropicToIR. rewrite Hd. eexists. split; [done|].
  unfold IRToAnthropicThinking. cbn. by rewrite Ht.
Qed.

(** The arguments of a tool call pass through [map[string]any], whose
    numbers are doubles: two calls whose integer arguments differ can become
    the same call. *)
Theorem large_arguments_merged k :
  let call z := {| ab_Type := "tool_use"; ab_Text := ""; ab_ID := "tu"; ab_Name := "f";
                   ab_Input := Some (JObj [(k, JInt z)]); ab_ToolUseID := ""; ab_Content := [];
                   ab_IsError := false; ab_CacheControl := None; ab_Thinking := None |} in
  call (2 ^ 53)%Z <> call (2 ^ 53 + 1)%Z /\
  anthropicBlockToIR (call (2 ^ 53)%Z) = anthropicBlockToIR (call (2 ^ 53 + 1)%Z).
Proof. split; [discriminate|]. cbn -[f64_of_int]. reflexivity. Qed.
End Thinking.

(** ** Concrete requests *)

(** A printer of numbers for the examples. *)
Definition no_text_json : JSON :=
  {| parseJSON := fun _ => None; printJSON := fun _ => "{}"; parseFloat := fun _ => None;
     numberJSON := fun f => default JNull (JInt <$> f64_trunc f);
     printJSON_one_line := fun _ => conj eq_refl eq_refl |}.

Definition cache_json : json := JObj [("type", JStr "ephemeral")].
Definition sample_body : json :=
  JObj [("model", JStr "claude");
        ("messages", JArr [JObj [("role", JStr "user"); ("content", JArr [JObj [("type", JStr "tool_result");
           ("tool_use_id", JStr "tu1"); ("content", JArr [JObj [("type", JStr "text"); ("text", JStr "42");
             ("cache_control", cache_json)]])]])]]);
        ("system", JStr "hi"); ("max_tokens", JInt 10);
        ("thinking", JObj [("type", JStr "disabled")])].

Lemma thinking_always_enabled_witness :
  exists req, @AnthropicToIR no_text_json (Some sample_body) = Some req /\
    IRToAnthropicThinking req = Some (enc_thinking {| at_Type := "enabled"; at_BudgetTokens := 0 |}).
Proof.
  apply (@thinking_always_enabled no_text_json (Some sample_body)
    (default zero_request (@dec_request no_text_json max_depth (Some sample_body)))
    {| at_Type := "disabled"; at_BudgetTokens := 0 |}); vm_compute; reflexivity.
Defined.

(** A cache_control inside the content of a tool result is not reached by
    the stripping loops. *)
Example nested_cache_control_kept :
  match @AnthropicToIR no_text_json (Some sample_body) with
  | Some req =>
      match ir_Messages (StripAnthropicFeatures req).1 with
      | [m] => match m_Content m with
               | [b] => match ToolResult_ b with
                        | Some tr => CacheControl <$> tr_Content tr = [Some "ephemeral"]
                        | None => False end
               | _ => False end
      | _ => False
      end
  | None => False
  end.
Proof. vm_compute. reflexivity. Qed.

(** An image block keeps nothing but its type and cache control: the wire
    struct has no member for the image. *)
Example image_block_emptied `{JSON} b :
  ab_Type b = "image" ->
  irBlockToAnthropicBlock (anthropicBlockToIR b) =
    {| ab_Type := "image"; ab_Text := ""; ab_ID := ""; ab_Name := ""; ab_Input := None; ab_ToolUseID := "";
       ab_Content := []; ab_IsError := false; ab_CacheControl := ab_CacheControl b; ab_Thinking := None |}.
Proof. destruct b. cbn. by intros ->. Qed.
