(* ===== verification/Classifier.v ===== *)
(** * Heuristic classifiers

    [internal/gw/classifier/server_reclassifier.go] and the client-side
    [internal/lp/tagger/v0.go].  Line counts are 64-bit integers; their sum
    wraps around.  [strings.ToLower] is used on paths in ASCII. *)

From stdpp Require Import sorting base gmap strings fin_maps numbers list.
From S2P Require Import Prelude.
Local Open Scope string_scope.

(** What the loop over file paths records. *)
Record flags := { hasDoc : bool; hasConfig : bool; hasSrc : bool; hasTest : bool; hasArch : bool }.
Definition no_flags : flags :=
  {| hasDoc := false; hasConfig := false; hasSrc := false; hasTest := false; hasArch := false |}.

Inductive kind := KArch | KTest | KDoc | KConfig | KSrc.

Definition set_flag (f : flags) (k : kind) : flags :=
  match k with
  | KArch => {| hasDoc := hasDoc f; hasConfig := hasConfig f; hasSrc := hasSrc f; hasTest := hasTest f; hasArch := true |}
  | KTest => {| hasDoc := hasDoc f; hasConfig := hasConfig f; hasSrc := hasSrc f; hasTest := true; hasArch := hasArch f |}
  | KDoc => {| hasDoc := true; hasConfig := hasConfig f; hasSrc := hasSrc f; hasTest := hasTest f; hasArch := hasArch f |}
  | KConfig => {| hasDoc := hasDoc f; hasConfig := true; hasSrc := hasSrc f; hasTest := hasTest f; hasArch := hasArch f |}
  | KSrc => {| hasDoc := hasDoc f; hasConfig := hasConfig f; hasSrc := true; hasTest := hasTest f; hasArch := hasArch f |}
  end.

(** [for _, p := range filePaths { switch ... }] *)
Definition scan_paths (classify : string -> kind) (paths : list string) : flags :=
  fold_left (fun f p => set_flag f (classify p)) paths no_flags.

Definition is_config (p : string) : bool :=
  HasSuffix p ".yaml" || HasSuffix p ".yml" || HasSuffix p ".toml" || HasSuffix p ".json" ||
  Contains p "Dockerfile" || Contains p "Makefile".

(** ** server_reclassifier.go *)

Record Result := {
  TaskType : string; Complexity : string; DataSensitivity : string; Language : string;
  HasSecretFinding : bool; res_Reasons : list string }.

Definition server_kind (p : string) : kind :=
  if HasPrefix p "docs/architecture/" || HasPrefix p "docs/design/" then KArch
  else if HasSuffix p "_test.go" || HasSuffix p "_test.py" || Contains p "/test/" then KTest
  else if HasSuffix p ".md" || HasSuffix p ".rst" then KDoc
  else if is_config p then KConfig
  else KSrc.

Definition reclassifyTaskType (filePaths : list string) (added removed : Z) (testFail stackTrace : bool) : string :=
  if testFail || stackTrace then "debug"
  else
    let f := scan_paths server_kind filePaths in
    if hasArch f && negb (hasSrc f) && negb (hasTest f) then "architecture"
    else if hasDoc f && negb (hasSrc f) && negb (hasTest f) && negb (hasConfig f) then "summary"
    else if hasConfig f && negb (hasSrc f) && negb (hasTest f) then "simple_edit"
    else if hasTest f || testFail then "test_output"
    else if hasSrc f then
      if (100 <? added)%Z || (100 <? removed)%Z then "code_edit" else "simple_edit"
    else if (added =? 0)%Z && (removed =? 0)%Z then "file_reading"
    else "unknown".

Definition reclassifyComplexity (filePaths : list string) (added removed : Z) : string :=
  let nFiles := length filePaths in
  let total := int_add added removed in
  if (20 <? nFiles)%nat || (1000 <? total)%Z then "high"
  else if (5 <? nFiles)%nat || (200 <? total)%Z then "medium"
  else if (0 <? total)%Z then "low"
  else "unknown".

Definition is_high (lower : string) : bool :=
  Contains lower "secret" || Contains lower "key" || Contains lower "credential" || Contains lower "token".
Definition is_medium (lower : string) : bool :=
  Contains lower "config" || Contains lower "auth" || Contains lower "payment" || Contains lower "billing".

Fixpoint reclassifySensitivity (filePaths : list string) : string :=
  match filePaths with
  | [] => "low"
  | p :: ps =>
      let lower := ToLower p in
      if is_high lower then "high" else if is_medium lower then "medium" else reclassifySensitivity ps
  end.

Definition Reclassify (filePaths : list string) (primaryLanguage : string) (linesAdded linesRemoved : Z)
    (containsTestFailure containsStackTrace : bool) : Result :=
  {| TaskType := reclassifyTaskType filePaths linesAdded linesRemoved containsTestFailure containsStackTrace;
     Complexity := reclassifyComplexity filePaths linesAdded linesRemoved;
     DataSensitivity := reclassifySensitivity filePaths;
     Language := primaryLanguage; HasSecretFinding := false; res_Reasons := [] |}.

(** ** tagger/v0.go *)

Record TagResult := { tag_TaskType : string; tag_Complexity : string; tag_Language : string; AgenticLoop : bool }.

Definition tagger_kind (p : string) : kind :=
  if HasSuffix p "_test.go" || HasSuffix p "_test.py" || HasSuffix p ".test.ts" then KTest
  else if HasSuffix p ".md" || HasSuffix p ".rst" || HasPrefix p "docs/" then KDoc
  else if is_config p then KConfig
  else KSrc.

Definition classifyTaskType (filePaths : list string) (added removed : Z) (testFail stackTrace : bool) : string :=
  if testFail || stackTrace then "test_output"
  else
    let f := scan_paths tagger_kind filePaths in
    if hasDoc f && negb (hasSrc f) && negb (hasTest f) then "summary"
    else if hasConfig f && negb (hasSrc f) then "simple_edit"
    else if hasTest f then "test_output"
    else if (200 <? added)%Z || (200 <? removed)%Z then "code_edit"
    else if (50 <? added)%Z || (50 <? removed)%Z then "code_edit"
    else if hasSrc f then "code_edit"
    else "unknown".

Definition classifyComplexity (added removed : Z) : string :=
  let total := int_add added removed in
  if (500 <? total)%Z then "high"
  else if (100 <? total)%Z then "medium"
  else if (0 <? total)%Z then "low"
  else "unknown".

Definition Classify (filePaths : list string) (language : string) (linesAdded linesRemoved : Z)
    (containsTestFailure containsStackTrace : bool) : TagResult :=
  {| tag_TaskType := classifyTaskType filePaths linesAdded linesRemoved containsTestFailure containsStackTrace;
     tag_Complexity := classifyComplexity linesAdded linesRemoved;
     tag_Language := language; AgenticLoop := false |}.

(** ** Order of the paths *)

Lemma set_flag_comm f k k' : set_flag (set_flag f k) k' = set_flag (set_flag f k') k.
Proof. by destruct k, k'. Qed.

(** The flags depend on the set of paths only. *)
Lemma scan_paths_perm classify ps qs : ps ≡ₚ qs -> scan_paths classify ps = scan_paths classify qs.
Proof.
  intros Hp. unfold scan_paths. generalize no_flags.
  induction Hp as [|p ps qs _ IH|p q ps|ps qs rs _ IH1 _ IH2]; intros f; cbn; [done|apply IH| |].
  - by rewrite set_flag_comm.
  - by rewrite IH1.
Qed.

Lemma sensitivity_first ps qs :
  Forall (fun p => is_high (ToLower p) = false /\ is_medium (ToLower p) = false) ps ->
  reclassifySensitivity (ps ++ qs)%list = reclassifySensitivity qs.
Proof. induction 1 as [|p ps [Hh Hm] _ IH]; cbn; [done|]. by rewrite Hh, Hm. Qed.

(** The task type and the complexity of both classifiers depend on the
    changed files as a multiset, not on their order; the server's sensitivity
    is decided by the first path that matches either list, so a [high] path
    behind a [medium] one is reported as [medium]. *)
Theorem classification_order ps qs lang added removed tf st :
  ps ≡ₚ qs ->
  TaskType (Reclassify ps lang added removed tf st) = TaskType (Reclassify qs lang added removed tf st) /\
  Complexity (Reclassify ps lang added removed tf st) = Complexity (Reclassify qs lang added removed tf st) /\
  Classify ps lang added removed tf st = Classify qs lang added removed tf st /\
  (forall pre p rest, ps = (pre ++ p :: rest)%list ->
     Forall (fun x => is_high (ToLower x) = false /\ is_medium (ToLower x) = false) pre ->
     is_high (ToLower p) || is_medium (ToLower p) = true ->
     DataSensitivity (Reclassify ps lang added removed tf st) =
       if is_high (ToLower p) then "high" else "medium").
Proof.
  intros Hp. unfold Reclassify, Classify, reclassifyTaskType, classifyTaskType, reclassifyComplexity. cbn.
  rewrite !(scan_paths_perm _ ps qs Hp). pose proof (Permutation_length Hp) as Hl. rewrite Hl.
  split_and!; [done|done|done|]. intros pre p rest -> Hpre Hm. rewrite sensitivity_first by done. cbn.
  destruct (is_high (ToLower p)); [done|]. cbn in Hm. by rewrite Hm.
Qed.

Lemma classification_order_witness :
  DataSensitivity (Reclassify ["config.yaml"; "secret.pem"] "go" 1 1 false false) = "medium" /\
  DataSensitivity (Reclassify ["secret.pem"; "config.yaml"] "go" 1 1 false false) = "high".
Proof.
  split.
  - destruct (classification_order ["config.yaml"; "secret.pem"] ["secret.pem"; "config.yaml"] "go" 1 1
      false false (Permutation_swap _ _ _)) as (_ & _ & _ & H).
    apply (H [] "config.yaml" ["secret.pem"]); [reflexivity|constructor|vm_compute; reflexivity].
  - reflexivity.
Defined.
