(* ===== verification/OpenAI.v ===== *)
(** * The OpenAI wire format

    [internal/shared/transformer/openai.go]: Chat Completions requests to and
    from the internal representation, and the two stream-event conversions.
    Dereferencing a nil [ToolUse] or [ToolResult] panics. *)

From stdpp Require Import sorting base gmap strings fin_maps numbers list.
From S2P Require Import Prelude GoData Json Cost Transformer.
Local Open Scope string_scope.

(** ** Wire shapes *)

Record openAIToolCall := { oc_ID : string; oc_Type : string; oc_Name : string; oc_Arguments : string }.
Record openAIMessage := {
  om_Role : string; om_Content : option string; om_ToolCalls : list openAIToolCall; om_ToolCallID : string }.
Record openAITool := { ot_Type : string; ot_Function : Tool }.
Record openAIRequest := {
  or_Model : string;
  or_Messages : list openAIMessage;
  or_Tools : list openAITool;
  or_MaxTokens : Z;
  or_Temperature : option float64;
  or_Stream : bool;
  or_StreamOptions : option bool      (** [include_usage] *) }.

Definition zero_call : openAIToolCall := {| oc_ID := ""; oc_Type := ""; oc_Name := ""; oc_Arguments := "" |}.
Definition zero_om : openAIMessage := {| om_Role := ""; om_Content := None; om_ToolCalls := []; om_ToolCallID := "" |}.
Definition zero_ot : openAITool := {| ot_Type := ""; ot_Function := zero_tool |}.
Definition zero_openai : openAIRequest :=
  {| or_Model := ""; or_Messages := []; or_Tools := []; or_MaxTokens := 0; or_Temperature := None;
     or_Stream := false; or_StreamOptions := None |}.

(** The struct tags. *)
Definition function_field (k : string) : option (decoder openAIToolCall) :=
  if String.eqb k "name" then Some (fun v c => s ← dec_str v (oc_Name c);
    Some {| oc_ID := oc_ID c; oc_Type := oc_Type c; oc_Name := s; oc_Arguments := oc_Arguments c |})
  else if String.eqb k "arguments" then Some (fun v c => s ← dec_str v (oc_Arguments c);
    Some {| oc_ID := oc_ID c; oc_Type := oc_Type c; oc_Name := oc_Name c; oc_Arguments := s |})
  else None.
Definition call_field (k : string) : option (decoder openAIToolCall) :=
  if String.eqb k "id" then Some (fun v c => s ← dec_str v (oc_ID c);
    Some {| oc_ID := s; oc_Type := oc_Type c; oc_Name := oc_Name c; oc_Arguments := oc_Arguments c |})
  else if String.eqb k "type" then Some (fun v c => s ← dec_str v (oc_Type c);
    Some {| oc_ID := oc_ID c; oc_Type := s; oc_Name := oc_Name c; oc_Arguments := oc_Arguments c |})
  else if String.eqb k "function" then Some (dec_struct function_field)
  else None.
Definition om_field (k : string) : option (decoder openAIMessage) :=
  let upd r c t i := {| om_Role := r; om_Content := c; om_ToolCalls := t; om_ToolCallID := i |} in
  if String.eqb k "role" then Some (fun v m => x ← dec_str v (om_Role m);
    Some (upd x (om_Content m) (om_ToolCalls m) (om_ToolCallID m)))
  else if String.eqb k "content" then Some (fun v m => x ← dec_ptr "" dec_str v (om_Content m);
    Some (upd (om_Role m) x (om_ToolCalls m) (om_ToolCallID m)))
  else if String.eqb k "tool_calls" then Some (fun v m =>
    x ← dec_slice zero_call (dec_struct call_field) v (om_ToolCalls m);
    Some (upd (om_Role m) (om_Content m) x (om_ToolCallID m)))
  else if String.eqb k "tool_call_id" then Some (fun v m => x ← dec_str v (om_ToolCallID m);
    Some (upd (om_Role m) (om_Content m) (om_ToolCalls m) x))
  else None.

Definition openAIRoleToIR (role : string) : string :=
  if String.eqb role "assistant" then "assistant"
  else if String.eqb role "user" then "user"
  else if String.eqb role "tool" then "tool" else "user".
Definition irRoleToOpenAI (r : string) : string :=
  if String.eqb r "assistant" then "assistant"
  else if String.eqb r "user" then "user"
  else if String.eqb r "tool" then "tool" else "user".

Definition ptrStr (s : option string) : string := default "" s.

Definition ir_block (ty tx : string) (tu : option ToolUse) (tr : option (ToolResult ContentBlock)) : ContentBlock :=
  {| Type_ := ty; Text := tx; ToolUse_ := tu; ToolResult_ := tr; Thinking_ := None; CacheControl := None |}.

Section OpenAI.
Context {js : JSON}.

Definition tool_func_field (k : string) : option (decoder Tool) :=
  if String.eqb k "name" then Some (fun v t => s ← dec_str v (t_Name t);
    Some {| t_Name := s; t_Description := t_Description t; t_InputSchema := t_InputSchema t |})
  else if String.eqb k "description" then Some (fun v t => s ← dec_str v (t_Description t);
    Some {| t_Name := t_Name t; t_Description := s; t_InputSchema := t_InputSchema t |})
  else if String.eqb k "parameters" then Some (fun v t => m ← dec_any_map v (t_InputSchema t);
    Some {| t_Name := t_Name t; t_Description := t_Description t; t_InputSchema := m |})
  else None.
Definition ot_field (k : string) : option (decoder openAITool) :=
  if String.eqb k "type" then Some (fun v t => s ← dec_str v (ot_Type t);
    Some {| ot_Type := s; ot_Function := ot_Function t |})
  else if String.eqb k "function" then Some (fun v t => f ← dec_struct tool_func_field v (ot_Function t);
    Some {| ot_Type := ot_Type t; ot_Function := f |})
  else None.
Definition stream_options_field (k : string) : option (decoder bool) :=
  if String.eqb k "include_usage" then Some dec_bool else None.
Definition openai_field (k : string) : option (decoder openAIRequest) :=
  let upd md ms tl mt tp st so := {| or_Model := md; or_Messages := ms; or_Tools := tl; or_MaxTokens := mt;
                                     or_Temperature := tp; or_Stream := st; or_StreamOptions := so |} in
  if String.eqb k "model" then Some (fun v r => x ← dec_str v (or_Model r);
    Some (upd x (or_Messages r) (or_Tools r) (or_MaxTokens r) (or_Temperature r) (or_Stream r) (or_StreamOptions r)))
  else if String.eqb k "messages" then Some (fun v r =>
    x ← dec_slice zero_om (dec_struct om_field) v (or_Messages r);
    Some (upd (or_Model r) x (or_Tools r) (or_MaxTokens r) (or_Temperature r) (or_Stream r) (or_StreamOptions r)))
  else if String.eqb k "tools" then Some (fun v r => x ← dec_slice zero_ot (dec_struct ot_field) v (or_Tools r);
    Some (upd (or_Model r) (or_Messages r) x (or_MaxTokens r) (or_Temperature r) (or_Stream r) (or_StreamOptions r)))
  else if String.eqb k "max_tokens" then Some (fun v r => x ← dec_int v (or_MaxTokens r);
    Some (upd (or_Model r) (or_Messages r) (or_Tools r) x (or_Temperature r) (or_Stream r) (or_StreamOptions r)))
  else if String.eqb k "temperature" then Some (fun v r => x ← dec_ptr f64_zero dec_float v (or_Temperature r);
    Some (upd (or_Model r) (or_Messages r) (or_Tools r) (or_MaxTokens r) x (or_Stream r) (or_StreamOptions r)))
  else if String.eqb k "stream" then Some (fun v r => x ← dec_bool v (or_Stream r);
    Some (upd (or_Model r) (or_Messages r) (or_Tools r) (or_MaxTokens r) (or_Temperature r) x (or_StreamOptions r)))
  else if String.eqb k "stream_options" then Some (fun v r =>
    x ← dec_ptr false (dec_struct stream_options_field) v (or_StreamOptions r);
    Some (upd (or_Model r) (or_Messages r) (or_Tools r) (or_MaxTokens r) (or_Temperature r) (or_Stream r) x))
  else None.
Definition dec_openai (body : option json) : option openAIRequest :=
  unmarshal_raw (dec_struct openai_field) body zero_openai.

(** [json.Unmarshal] of the text of the arguments, its error dropped. *)
Definition parseJSONString (s : string) : json_map := parseJSONMap (parseJSON s).

(** ** OpenAIToIR *)

Definition call_block (tc : openAIToolCall) : ContentBlock :=
  ir_block "tool_use" "" (Some {| tu_ID := oc_ID tc; tu_Name := oc_Name tc;
                                  tu_Input := parseJSONString (oc_Arguments tc) |}) None.
Definition text_of (msg : openAIMessage) : list ContentBlock :=
  match om_Content msg with Some s => [ir_block "text" s None None] | None => [] end.
Definition openAIMessageToIR (msg : openAIMessage) : Message :=
  {| m_Role := openAIRoleToIR (om_Role msg);
     m_Content :=
       if String.eqb (om_Role msg) "assistant" then (text_of msg ++ (call_block <$> om_ToolCalls msg))%list
       else if String.eqb (om_Role msg) "user" then text_of msg
       else if String.eqb (om_Role msg) "tool" then
         [ir_block "tool_result" "" None (Some {| tr_ToolUseID := om_ToolCallID msg;
            tr_Content := [ir_block "text" (ptrStr (om_Content msg)) None None]; tr_IsError := false |})]
       else [] |}.
Definition openAIRequestToIR (raw : openAIRequest) : IRRequest :=
  {| ir_Model := or_Model raw; ir_Messages := openAIMessageToIR <$> or_Messages raw; ir_System := [];
     ir_Tools := ot_Function <$> or_Tools raw; ir_ToolChoice := None; ir_MaxTokens := or_MaxTokens raw;
     ir_Temperature := or_Temperature raw; ir_Stream := or_Stream raw; ir_Thinking := None;
     ir_Metadata := ∅ |}.
Definition OpenAIToIR (body : option json) : option IRRequest := openAIRequestToIR <$> dec_openai body.

(** ** IRToOpenAI *)

(** One iteration of the loop over the content blocks. *)
Definition add_block (om : openAIMessage) (c : ContentBlock) : outcome unit openAIMessage :=
  if String.eqb (Type_ c) "text" then
    Ok {| om_Role := om_Role om; om_Content := Some (Text c); om_ToolCalls := om_ToolCalls om;
          om_ToolCallID := om_ToolCallID om |}
  else if String.eqb (Type_ c) "tool_use" then
    match ToolUse_ c with
    | None => Panic
    | Some tu => Ok
        {| om_Role := om_Role om; om_Content := om_Content om;
           om_ToolCalls := (om_ToolCalls om ++ [{| oc_ID := tu_ID tu; oc_Type := "function"; oc_Name := tu_Name tu;
                              oc_Arguments := printJSON (map_json (tu_Input tu)) |}])%list;
           om_ToolCallID := om_ToolCallID om |}
    end
  else if String.eqb (Type_ c) "tool_result" then
    match ToolResult_ c with
    | None => Panic
    | Some tr => Ok
        {| om_Role := om_Role om;
           om_Content := Some (match tr_Content tr with b :: _ => Text b | [] => "" end);
           om_ToolCalls := om_ToolCalls om; om_ToolCallID := tr_ToolUseID tr |}
    end
  else Ok om.
Fixpoint add_blocks (om : openAIMessage) (cs : list ContentBlock) : outcome unit openAIMessage :=
  match cs with [] => Ok om | c :: cs => add_block om c ≫= fun om => add_blocks om cs end.
Definition irMessageToOpenAI (msg : Message) : outcome unit openAIMessage :=
  add_blocks {| om_Role := irRoleToOpenAI (m_Role msg); om_Content := None; om_ToolCalls := [];
                om_ToolCallID := "" |} (m_Content msg).
Fixpoint irMessagesToOpenAI (ms : list Message) : outcome unit (list openAIMessage) :=
  match ms with
  | [] => Ok []
  | m :: ms => irMessageToOpenAI m ≫= fun om => irMessagesToOpenAI ms ≫= fun oms => Ok (om :: oms)
  end.

(** [IRToOpenAI], before [json.Marshal]. *)
Definition IRToOpenAI_struct (req : IRRequest) : outcome unit openAIRequest :=
  irMessagesToOpenAI (ir_Messages req) ≫= fun ms =>
  Ok {| or_Model := ir_Model req; or_Messages := ms;
        or_Tools := (fun t => {| ot_Type := "function"; ot_Function := t |}) <$> ir_Tools req;
        or_MaxTokens := ir_MaxTokens req; or_Temperature := ir_Temperature req; or_Stream := ir_Stream req;
        or_StreamOptions := if ir_Stream req then Some true else None |}.

Definition enc_call (c : openAIToolCall) : json :=
  enc_obj [member "id" (JStr (oc_ID c)); member "type" (JStr (oc_Type c));
           member "function" (enc_obj [member "name" (JStr (oc_Name c));
                                       member "arguments" (JStr (oc_Arguments c))])].
Definition enc_om (m : openAIMessage) : json :=
  enc_obj [member "role" (JStr (om_Role m)); omit_nil "content" JStr (om_Content m);
           omitempty (match om_ToolCalls m with [] => true | _ => false end) "tool_calls"
             (JArr (enc_call <$> om_ToolCalls m));
           omit_str "tool_call_id" (om_ToolCallID m)].
Definition enc_ot (t : openAITool) : json :=
  let schema := t_InputSchema (ot_Function t) in
  enc_obj [member "type" (JStr (ot_Type t));
           member "function" (enc_obj
             [member "name" (JStr (t_Name (ot_Function t)));
              member "description" (JStr (t_Description (ot_Function t)));
              omitempty (match schema with None | Some [] => true | _ => false end) "parameters" (map_json schema)])].
Definition enc_openai (r : openAIRequest) : json :=
  enc_obj [member "model" (JStr (or_Model r)); member "messages" (enc_slice enc_om (or_Messages r));
           omitempty (match or_Tools r with [] => true | _ => false end) "tools" (JArr (enc_ot <$> or_Tools r));
           omitempty (or_MaxTokens r =? 0)%Z "max_tokens" (JInt (or_MaxTokens r));
           omit_nil "temperature" numberJSON (or_Temperature r);
           member "stream" (JBool (or_Stream r));
           omit_nil "stream_options" (fun b => JObj [("include_usage", JBool b)]) (or_StreamOptions r)].

Definition IRToOpenAI (req : IRRequest) : outcome unit json :=
  IRToOpenAI_struct req ≫= fun out => Ok (enc_openai out).

(** ** Stream events *)

Record IRStreamEvent := {
  se_Type : string; se_Raw : string; se_Delta : option ContentBlock; se_Usage : option Usage }.

(** [anthropicSSEEvent]: the type, the text of the delta and the usage. *)
Definition sse_delta_field (k : string) : option (decoder (string * string)) :=
  if String.eqb k "text" then Some (fun v d => s ← dec_str v d.1; Some (s, d.2))
  else if String.eqb k "type" then Some (fun v d => s ← dec_str v d.2; Some (d.1, s))
  else None.
Definition sse_usage_field (k : string) : option (decoder Usage) :=
  let upd i o r c := {| Input := i; Output := o; CacheRead := r; CacheCreate := c |} in
  if String.eqb k "input_tokens" then
    Some (fun v u => n ← dec_int v (Input u); Some (upd n (Output u) (CacheRead u) (CacheCreate u)))
  else if String.eqb k "output_tokens" then
    Some (fun v u => n ← dec_int v (Output u); Some (upd (Input u) n (CacheRead u) (CacheCreate u)))
  else if String.eqb k "cache_read_input_tokens" then
    Some (fun v u => n ← dec_int v (CacheRead u); Some (upd (Input u) (Output u) n (CacheCreate u)))
  else if String.eqb k "cache_creation_input_tokens" then
    Some (fun v u => n ← dec_int v (CacheCreate u); Some (upd (Input u) (Output u) (CacheRead u) n))
  else None.
Definition sse_field (k : string) : option (decoder (string * option (string * string) * option Usage)) :=
  if String.eqb k "type" then Some (fun v e => s ← dec_str v e.1.1; Some (s, e.1.2, e.2))
  else if String.eqb k "delta" then
    Some (fun v e => d ← dec_ptr ("", "") (dec_struct sse_delta_field) v e.1.2; Some (e.1.1, d, e.2))
  else if String.eqb k "usage" then
    Some (fun v e => u ← dec_ptr zero_usage (dec_struct sse_usage_field) v e.2; Some (e.1, u))
  else None.

Definition AnthropicStreamEventToIR (data : string) : option IRStreamEvent :=
  '(ty, delta, usage) ← unmarshal (dec_struct sse_field) data ("", None, None);
  Some {| se_Type := ty; se_Raw := data;
          se_Delta := (fun d => ir_block "text" d.1 None None) <$> delta;
          se_Usage := usage |}.

(** [openAISSEChunk]: the deltas of the choices and the usage. *)
Record openAIDelta := { od_Content : string; od_ToolCalls : list openAIToolCall }.
Definition zero_delta : openAIDelta := {| od_Content := ""; od_ToolCalls := [] |}.
(** [index] is decoded and not used; a value that is not an integer fails. *)
Definition delta_call_field (k : string) : option (decoder openAIToolCall) :=
  if String.eqb k "index" then Some (fun v c => _ ← dec_int v 0%Z; Some c) else call_field k.
Definition od_field (k : string) : option (decoder openAIDelta) :=
  if String.eqb k "content" then Some (fun v d => s ← dec_str v (od_Content d);
    Some {| od_Content := s; od_ToolCalls := od_ToolCalls d |})
  else if String.eqb k "tool_calls" then Some (fun v d =>
    l ← dec_slice zero_call (dec_struct delta_call_field) v (od_ToolCalls d);
    Some {| od_Content := od_Content d; od_ToolCalls := l |})
  else None.
Definition choice_field (k : string) : option (decoder openAIDelta) :=
  if String.eqb k "delta" then Some (dec_struct od_field) else None.
Definition openai_usage_field (k : string) : option (decoder Usage) :=
  let upd i o := {| Input := i; Output := o; CacheRead := 0; CacheCreate := 0 |} in
  if String.eqb k "prompt_tokens" then Some (fun v u => n ← dec_int v (Input u); Some (upd n (Output u)))
  else if String.eqb k "completion_tokens" then Some (fun v u => n ← dec_int v (Output u); Some (upd (Input u) n))
  else None.
Definition sse_chunk_field (k : string) : option (decoder (list openAIDelta * option Usage)) :=
  if String.eqb k "choices" then
    Some (fun v c => l ← dec_slice zero_delta (dec_struct choice_field) v c.1; Some (l, c.2))
  else if String.eqb k "usage" then
    Some (fun v c => u ← dec_ptr zero_usage (dec_struct openai_usage_field) v c.2; Some (c.1, u))
  else None.

(** The loop over the tool calls of a delta: the last named one is kept. *)
Fixpoint last_named (calls : list openAIToolCall) (acc : option ContentBlock) : option ContentBlock :=
  match calls with
  | [] => acc
  | tc :: calls => last_named calls (if negb (is_empty (oc_Name tc)) then Some (call_block tc) else acc)
  end.
Definition OpenAIStreamEventToIR (data : string) : option IRStreamEvent :=
  '(choices, usage) ← unmarshal (dec_struct sse_chunk_field) data ([], None);
  Some {| se_Type := "content_block_delta"; se_Raw := data;
          se_Delta := match choices with
                      | [] => None
                      | d :: _ => last_named (od_ToolCalls d)
                          (if negb (is_empty (od_Content d)) then Some (ir_block "text" (od_Content d) None None)
                           else None)
                      end;
          se_Usage := usage |}.

(** ** What a translated message holds *)

(** Blocks whose tagged member is present. *)
Definition wf_block (c : ContentBlock) : Prop :=
  (Type_ c = "tool_use" -> is_Some (ToolUse_ c)) /\ (Type_ c = "tool_result" -> is_Some (ToolResult_ c)).

(** The text a block would set as the message content. *)
Definition carried (c : ContentBlock) : option string :=
  if String.eqb (Type_ c) "text" then Some (Text c)
  else if String.eqb (Type_ c) "tool_result" then
    Some (match tr_Content <$> ToolResult_ c with Some (b :: _) => Text b | _ => "" end)
  else None.
Definition called (c : ContentBlock) : option openAIToolCall :=
  if String.eqb (Type_ c) "tool_use" then
    (fun tu => {| oc_ID := tu_ID tu; oc_Type := "function"; oc_Name := tu_Name tu;
                  oc_Arguments := printJSON (map_json (tu_Input tu)) |}) <$> ToolUse_ c
  else None.
Definition answered (c : ContentBlock) : option string :=
  if String.eqb (Type_ c) "tool_result" then tr_ToolUseID <$> ToolResult_ c else None.

Lemma last_cons_Some {A} (x : A) l : last (x :: l) = Some (default x (last l)).
Proof. revert x. induction l as [|z l IH]; intros x; [done|]. cbn in *. by rewrite IH. Qed.

Lemma add_blocks_spec cs om :
  Forall wf_block cs ->
  add_blocks om cs = Ok
    {| om_Role := om_Role om;
       om_Content := match last (omap carried cs) with Some s => Some s | None => om_Content om end;
       om_ToolCalls := (om_ToolCalls om ++ omap called cs)%list;
       om_ToolCallID := default (om_ToolCallID om) (last (omap answered cs)) |}.
Proof.
  intros Hwf. revert om. induction Hwf as [|c cs [Hu Hr] _ IH]; intros om.
  { cbn. rewrite app_nil_r. by destruct om. }
  cbn [add_blocks omap list_omap].
  unfold add_block. unfold carried at 1. unfold called at 1. unfold answered at 1.
  destruct (String.eqb_spec (Type_ c) "text") as [Ht|Ht].
  { rewrite Ht. cbn -[last]. rewrite IH, last_cons_Some. by destruct (last (omap carried cs)). }
  destruct (String.eqb_spec (Type_ c) "tool_use") as [Hty|Hty].
  { destruct (Hu Hty) as [tu Htu]. rewrite Htu, Hty. cbn -[last]. rewrite IH. cbn -[last].
    by rewrite <- app_assoc. }
  destruct (String.eqb_spec (Type_ c) "tool_result") as [Htr|Htr]; [|cbn -[last]; apply IH].
  destruct (Hr Htr) as [tr Htr']. rewrite Htr'. cbn -[last]. rewrite IH, !last_cons_Some.
  by destruct (last (omap carried cs)), (last (omap answered cs)).
Qed.

Lemma anthropicBlockToIR_wf b : wf_block (anthropicBlockToIR b).
Proof. destruct b. split; cbn; intros ->; cbn; eauto. Qed.

Lemma clear_cache_wf b : wf_block b -> wf_block (clear_cache b).
Proof. by destruct b. Qed.

Lemma clear_cache_same b :
  carried (clear_cache b) = carried b /\ called (clear_cache b) = called b /\
  answered (clear_cache b) = answered b.
Proof. by destruct b. Qed.

(** What the upstream message is made of. *)
Definition translated (m : Message) : openAIMessage :=
  {| om_Role := irRoleToOpenAI (m_Role m); om_Content := last (omap carried (m_Content m));
     om_ToolCalls := omap called (m_Content m);
     om_ToolCallID := default "" (last (omap answered (m_Content m))) |}.

Lemma irMessagesToOpenAI_spec ms :
  Forall (fun m => Forall wf_block (m_Content m)) ms -> irMessagesToOpenAI ms = Ok (translated <$> ms).
Proof.
  induction 1 as [|m ms Hm _ IH]; [done|]. cbn. unfold irMessageToOpenAI.
  rewrite add_blocks_spec, IH by done. cbn -[last]. do 2 f_equal. unfold translated.
  by destruct (last (omap carried (m_Content m))).
Qed.

Lemma omap_clear_cache {B} (f : ContentBlock -> option B) (cs : list ContentBlock) :
  (forall b, f (clear_cache b) = f b) -> omap f (clear_cache <$> cs) = omap f cs.
Proof.
  intros Hf. induction cs as [|c cs IH]; [done|]. cbn in *. rewrite Hf, IH. done.
Qed.

Lemma translated_clear m : translated (clear_message m) = translated m.
Proof.
  unfold translated. cbn -[last]. by rewrite !omap_clear_cache by (intros; apply clear_cache_same).
Qed.

(** ** Claims *)

(** The stripped request of a decoded body translates. *)
Lemma IRToOpenAI_decoded body req :
  AnthropicToIR body = Some req ->
  exists out, IRToOpenAI_struct (StripAnthropicFeatures req).1 = Ok out.
Proof.
  unfold AnthropicToIR. destruct (dec_request _ _) as [raw|]; [|done]. intros [= <-].
  pose proof (strip_messages_cleared (requestToIR raw)) as (Hm & _). unfold IRToOpenAI_struct.
  rewrite Hm, irMessagesToOpenAI_spec; [by eexists|].
  cbn [ir_Messages requestToIR]. rewrite <- list_fmap_compose. apply Forall_fmap, list.Forall_forall.
  intros m _. apply Forall_fmap, list.Forall_forall. intros b Hb. apply clear_cache_wf.
  cbn in Hb. apply list_elem_of_fmap in Hb as (b0 & -> & _). apply anthropicBlockToIR_wf.
Qed.

(** Translating a decoded Anthropic request for an OpenAI endpoint never
    panics and sends: the client's own model name and stream flag, one
    message per message with every tool call in order, and as its content
    only the text of the last text or tool-result block; the system prompt,
    the tool choice and the metadata have no influence on what is sent. *)
Theorem openai_translation body req :
  AnthropicToIR body = Some req ->
  exists out, IRToOpenAI_struct (StripAnthropicFeatures req).1 = Ok out /\
    or_Model out = ir_Model req /\ or_Stream out = ir_Stream req /\
    or_StreamOptions out = (if ir_Stream req then Some true else None) /\
    or_Messages out = translated <$> ir_Messages req /\
    (ot_Function <$> or_Tools out) = ir_Tools req /\
    forall sys tc md, IRToOpenAI
      {| ir_Model := ir_Model req; ir_Messages := ir_Messages req; ir_System := sys; ir_Tools := ir_Tools req;
         ir_ToolChoice := tc; ir_MaxTokens := ir_MaxTokens req; ir_Temperature := ir_Temperature req;
         ir_Stream := ir_Stream req; ir_Thinking := ir_Thinking req; ir_Metadata := md |} = Ok (enc_openai out).
Proof.
  unfold AnthropicToIR. destruct (dec_request _ _) as [raw|]; [|done]. intros [= <-].
  assert (Hwf : Forall (fun m => Forall wf_block (m_Content m)) (ir_Messages (requestToIR raw))).
  { apply Forall_fmap, list.Forall_forall. intros m _. apply Forall_fmap, list.Forall_forall.
    intros b _. apply anthropicBlockToIR_wf. }
  pose proof (irMessagesToOpenAI_spec _ Hwf) as Hms.
  pose proof (strip_messages_cleared (requestToIR raw)) as (Hm & Hmd & Htl & Hst & Hmt & Htp).
  assert (Hms' : irMessagesToOpenAI (ir_Messages (StripAnthropicFeatures (requestToIR raw)).1) =
                 Ok (translated <$> ir_Messages (requestToIR raw))).
  { rewrite Hm, irMessagesToOpenAI_spec.
    - f_equal. rewrite <- list_fmap_compose. apply list_fmap_ext. intros i m _. apply translated_clear.
    - apply Forall_fmap. eapply Forall_impl; [exact Hwf|]. intros m Hc. apply Forall_fmap.
      eapply Forall_impl; [exact Hc|]. intros b. apply clear_cache_wf. }
  unfold IRToOpenAI_struct, IRToOpenAI. rewrite Hms'. cbn -[StripAnthropicFeatures requestToIR].
  rewrite Hmd, Htl, Hst, Hmt, Htp.
  eexists. split; [reflexivity|]. split_and!; try done.
  - cbn. by rewrite <- list_fmap_compose, list_fmap_id.
  - intros sys tc md. unfold IRToOpenAI_struct. cbn [ir_Messages]. by rewrite Hms.
Qed.

(** A wire message the internal representation can hold: the arguments of its
    calls are printed the way Go prints them. *)
Definition canonical_om (om : openAIMessage) : Prop :=
  (om_Role om = "assistant" /\ om_ToolCallID om = "" /\
   Forall (fun c => oc_Type c = "function" /\ printJSON (map_json (parseJSONString (oc_Arguments c))) = oc_Arguments c)
     (om_ToolCalls om)) \/
  (om_Role om = "user" /\ om_ToolCalls om = [] /\ om_ToolCallID om = "") \/
  (om_Role om = "tool" /\ om_ToolCalls om = [] /\ is_Some (om_Content om)).

Lemma openai_message_roundtrip om : canonical_om om -> translated (openAIMessageToIR om) = om.
Proof.
  destruct om as [r c calls i]. intros [(Hr & Hi & Hc)|[(Hr & Hc & Hi)|(Hr & Hc & [s Hs])]]; cbn in *; subst.
  - unfold translated, openAIMessageToIR. cbn -[last].
    assert (Hcalls : omap called (call_block <$> calls) = calls /\ omap carried (call_block <$> calls) = [] /\
                     omap answered (call_block <$> calls) = []).
    { induction Hc as [|[ci ct cn ca] calls [Ht Ha] _ (IH1 & IH2 & IH3)]; [done|]. cbn in *. subst ct.
      rewrite Ha. split_and!; [by f_equal|done|done]. }
    destruct Hcalls as (H1 & H2 & H3). rewrite !omap_app, H1, H2, H3. by destruct c.
  - unfold translated, openAIMessageToIR. by destruct c.
  - done.
Qed.

Lemma openAIMessageToIR_wf om : Forall wf_block (m_Content (openAIMessageToIR om)).
Proof.
  assert (Ht : Forall wf_block (text_of om)) by (unfold text_of; destruct (om_Content om); repeat constructor; done).
  unfold openAIMessageToIR. cbn [m_Content].
  destruct (String.eqb _ "assistant").
  { apply Forall_app. split; [done|]. apply Forall_fmap, list.Forall_forall.
    intros c _. split; cbn; [eauto|done]. }
  destruct (String.eqb _ "user"); [done|]. destruct (String.eqb _ "tool"); [|constructor].
  repeat constructor; cbn; [done|eauto].
Qed.

(** C32: same-family passthrough: a decodable OpenAI request comes back unchanged
    from the internal representation, model, messages, tools, limits and stream
    flag, provided that every message is an assistant's without a tool call id
    and with function calls whose arguments are printed as Go prints them, a
    user's with neither tool calls nor a tool call id, or a tool's with a
    content and without tool calls; every tool has type function; and
    stream_options asks for usage exactly when stream is set. *)
Theorem openai_roundtrip body raw :
  dec_openai body = Some raw -> Forall canonical_om (or_Messages raw) ->
  Forall (fun t => ot_Type t = "function") (or_Tools raw) ->
  or_StreamOptions raw = (if or_Stream raw then Some true else None) ->
  exists req, OpenAIToIR body = Some req /\ IRToOpenAI_struct req = Ok raw.
Proof.
  intros Hd Hm Ht Hs. unfold OpenAIToIR. rewrite Hd. eexists. split; [done|].
  unfold IRToOpenAI_struct. cbn [ir_Messages openAIRequestToIR].
  rewrite irMessagesToOpenAI_spec.
  - clear Hd. cbn. f_equal. destruct raw as [md ms tl mt tp st so]; cbn in *. subst so. f_equal.
    + rewrite <- list_fmap_compose. induction Hm as [|m ms Hm _ IH]; [done|]. cbn.
      rewrite openai_message_roundtrip by done. by f_equal.
    + rewrite <- list_fmap_compose. induction Ht as [|[ty f] tl Hty _ IH]; [done|]. cbn in *. subst. by f_equal.
  - apply Forall_fmap, list.Forall_forall. intros om _. apply openAIMessageToIR_wf.
Qed.
End OpenAI.

(** ** Concrete requests *)

#[local] Existing Instance no_text_json.

Lemma openai_translation_witness :
  exists out, IRToOpenAI_struct (StripAnthropicFeatures (default
    (openAIRequestToIR zero_openai) (AnthropicToIR (Some sample_body)))).1 = Ok out /\
    or_Messages out = [{| om_Role := "user"; om_Content := Some "42"; om_ToolCalls := []; om_ToolCallID := "tu1" |}].
Proof.
  destruct (@openai_translation no_text_json (Some sample_body)
    (default (openAIRequestToIR zero_openai) (AnthropicToIR (Some sample_body))))
    as (out & Hout & _ & _ & _ & Hms & _); [vm_compute; reflexivity|].
  exists out. split; [exact Hout|]. rewrite Hms. vm_compute. reflexivity.
Defined.

Definition sample_openai : json :=
  JObj [("model", JStr "gpt"); ("stream", JBool true); ("stream_options", JObj [("include_usage", JBool true)]);
        ("messages", JArr [JObj [("role", JStr "user"); ("content", JStr "hi")];
                           JObj [("role", JStr "tool"); ("content", JStr "42"); ("tool_call_id", JStr "c1")]])].

Lemma openai_roundtrip_witness :
  exists req, OpenAIToIR (Some sample_openai) = Some req /\
    IRToOpenAI_struct req =
      Ok (default zero_openai (dec_openai (Some sample_openai))).
Proof.
  apply (@openai_roundtrip no_text_json); [reflexivity| | |reflexivity].
  - constructor; [|constructor; [|constructor]].
    + right. left. repeat split.
    + right. right. repeat split. by eexists.
  - constructor.
Defined.
