(* ===== verification/Provider.v ===== *)
(** * Provider adapters

    [internal/gw/provider] and the error types of [internal/gw/server]: the
    HTTP requests the adapters send and how they read the status.  The
    network is the function [upstream] from the requests sent so far and the
    new one to a reply; [validURL] is the check of [http.NewRequest]. *)

From Stdlib Require Import Ascii.
From stdpp Require Import sorting base gmap strings fin_maps numbers pretty list.
From S2P Require Import Prelude GoData Json Transformer.
Local Open Scope string_scope.

(** ** Errors

    [provider.UpstreamError], [routing.ErrNoCandidate] and
    [server.BadRequestError] are told apart by [errors.As] through any number
    of [%w] wrappers; every other error is only a text. *)

Inductive error :=
| UpstreamError (Status : Z) (Body Provider : string)
| NoCandidateError (Pool Constraints : string)
| BadRequestError (Message : string) (Cause : option error)
| Errorf (text : string)
| Wrapped (prefix : string) (err : error).

(** [quote] is [%q]. *)
Fixpoint Error (quote : string -> string) (e : error) : string :=
  match e with
  | UpstreamError st b p => p +:+ (" " +:+ (pretty st +:+ (": " +:+ b)))
  | NoCandidateError pool c =>
      "routing: no candidate in pool " +:+ (quote pool +:+ (" satisfies constraints (" +:+ (c +:+ ")")))
  | BadRequestError m None => "bad request: " +:+ m
  | BadRequestError m (Some c) => "bad request: " +:+ (m +:+ (": " +:+ Error quote c))
  | Errorf t => t
  | Wrapped p e => p +:+ (": " +:+ Error quote e)
  end.

(** [errors.As] with each of the three targets. *)
Fixpoint asUpstream (e : error) : option (Z * string * string) :=
  match e with
  | UpstreamError st b p => Some (st, b, p)
  | BadRequestError _ (Some c) => asUpstream c
  | Wrapped _ e => asUpstream e
  | _ => None
  end.
Fixpoint asNoCandidate (e : error) : option error :=
  match e with
  | NoCandidateError _ _ => Some e
  | BadRequestError _ (Some c) => asNoCandidate c
  | Wrapped _ e => asNoCandidate e
  | _ => None
  end.
Fixpoint asBadRequest (e : error) : option error :=
  match e with
  | BadRequestError _ _ => Some e
  | Wrapped _ e => asBadRequest e
  | _ => None
  end.

(** An error none of the three targets matches. *)
Definition plain (e : error) : Prop := asUpstream e = None /\ asNoCandidate e = None /\ asBadRequest e = None.

(** ** adapter.go *)

Record ProviderRequest := {
  pr_Model : string;
  pr_Messages : json;
  pr_MaxTokens : Z;
  pr_Temperature : option float64;
  pr_Stream : bool;
  pr_APIKey : string;
  pr_URL : string;
  pr_System : option json;
  pr_Tools : option json;
  pr_ToolChoice : option json;
  pr_Metadata : gmap string string;
  pr_Thinking : option json }.

Record HTTPRequest := { hr_URL : string; hr_Header : list (string * string); hr_Body : json }.

(** What comes back: a transport error, or a status with the bytes of the
    body and the error that ends them ([None] for EOF). *)
Inductive Reply :=
| TransportError (text : string)
| Response (status : Z) (body : string) (body_end : option string).

Record ReadCloser := { rc_text : string; rc_end : option string }.

Definition slash : ascii := "047".
(** [strings.TrimRight(s, "/")] *)
Fixpoint TrimRightSlash (s : string) : string :=
  match s with
  | EmptyString => ""
  | String c s =>
      let t := TrimRightSlash s in
      if Ascii.eqb c slash && is_empty t then "" else String c t
  end.

Inductive Adapter := AnthropicAdapter | AnthropicCompatAdapter | OpenAICompatAdapter.
Definition Name (a : Adapter) : string :=
  match a with
  | AnthropicAdapter => "anthropic"
  | AnthropicCompatAdapter => "anthropic_compat"
  | OpenAICompatAdapter => "openai_compat"
  end.
Definition CountTokens (a : Adapter) (req : ProviderRequest) : Z := 0.

(** The adapter table of [cmd/aicg-gw/main.go]. *)
Definition wireAdapters : gmap string Adapter :=
  {["anthropic" := AnthropicAdapter; "anthropic_compat" := AnthropicCompatAdapter;
    "openai" := OpenAICompatAdapter; "openai_compat" := OpenAICompatAdapter]}.

Section Providers.
Context {js : JSON} (validURL : string -> bool) (upstream : list HTTPRequest -> HTTPRequest -> Reply).

(** [len(msgs) > 0] after decoding the messages as an array of raw values. *)
Definition raw_messages (messages : json) : option json :=
  match messages with JArr (_ :: _) => Some messages | _ => None end.

(** The body of [anthropicShapedDo]: [json.Marshal] of a map sorts its keys. *)
Definition anthropic_body (req : ProviderRequest) (stream : bool) : json :=
  enc_obj [member "max_tokens" (JInt (pr_MaxTokens req));
           omit_nil "messages" id (raw_messages (pr_Messages req));
           omitempty (bool_decide (pr_Metadata req = ∅)) "metadata" (enc_string_map (pr_Metadata req));
           member "model" (JStr (pr_Model req));
           member "stream" (JBool stream);
           omit_nil "system" id (pr_System req);
           omit_nil "temperature" numberJSON (pr_Temperature req);
           omit_nil "thinking" id (pr_Thinking req);
           omit_nil "tool_choice" id (pr_ToolChoice req);
           omit_nil "tools" id (pr_Tools req)].

Definition anthropicShapedDo (providerName : string) (req : ProviderRequest) (stream : bool)
    (sent : list HTTPRequest) : list HTTPRequest * (ReadCloser + error) :=
  let url := TrimRightSlash (pr_URL req) +:+ "/v1/messages" in
  if negb (validURL url) then (sent, inr (Wrapped (providerName +:+ ": create request") (Errorf "parse URL")))
  else
    let httpReq := {| hr_URL := url;
      hr_Header := [("Content-Type", "application/json"); ("x-api-key", pr_APIKey req);
                    ("anthropic-version", "2023-06-01")];
      hr_Body := anthropic_body req stream |} in
    (sent ++ [httpReq],
     match upstream sent httpReq with
     | TransportError t => inr (Wrapped providerName (Errorf t))
     | Response status body body_end =>
         if (400 <=? status)%Z then
           let text := str_take 1024 body in
           if (status <? 500)%Z then inr (UpstreamError status text providerName)
           else inr (Errorf (providerName +:+ (" " +:+ (pretty status +:+ (": " +:+ text)))))
         else inl {| rc_text := body; rc_end := body_end |}
     end)%list.

(** [(a *OpenAICompatAdapter) do] *)
Definition openai_do (req : ProviderRequest) (stream : bool)
    (sent : list HTTPRequest) : list HTTPRequest * (ReadCloser + error) :=
  let url := pr_URL req +:+ "/chat/completions" in
  if negb (validURL url) then (sent, inr (Wrapped "openai_compat: create request" (Errorf "parse URL")))
  else
    let httpReq := {| hr_URL := url;
      hr_Header := [("Content-Type", "application/json"); ("Authorization", "Bearer " +:+ pr_APIKey req)];
      hr_Body := pr_Messages req |} in
    (sent ++ [httpReq],
     match upstream sent httpReq with
     | TransportError t => inr (Wrapped "openai_compat" (Errorf t))
     | Response status body body_end =>
         if (400 <=? status)%Z then inr (Errorf ("openai_compat " +:+ (pretty status +:+ (": " +:+ body))))
         else inl {| rc_text := body; rc_end := body_end |}
     end)%list.

Definition adapter_do (a : Adapter) (req : ProviderRequest) (stream : bool) (sent : list HTTPRequest)
    : list HTTPRequest * (ReadCloser + error) :=
  match a with
  | AnthropicAdapter => anthropicShapedDo "anthropic" req stream sent
  | AnthropicCompatAdapter => anthropicShapedDo "anthropic_compat" req stream sent
  | OpenAICompatAdapter => openai_do req stream sent
  end.
Definition Stream (a : Adapter) (req : ProviderRequest) (sent : list HTTPRequest) :=
  adapter_do a req true sent.
(** [NonStream]: [io.ReadAll] of the body. *)
Definition NonStream (a : Adapter) (req : ProviderRequest) (sent : list HTTPRequest)
    : list HTTPRequest * (string + error) :=
  let '(sent, r) := adapter_do a req false sent in
  (sent, match r with
         | inr e => inr e
         | inl rc => match rc_end rc with None => inl (rc_text rc) | Some t => inr (Errorf t) end
         end).

(** The key an HTTP request carries. *)
Definition key_of (r : HTTPRequest) : option string :=
  match hr_Header r with
  | [_; ("x-api-key", k); _] => Some k
  | [_; ("Authorization", v)] => if HasPrefix v "Bearer " then Some (TrimPrefix v "Bearer ") else None
  | _ => None
  end.

(** ** What every adapter does *)

(** The one request an adapter would send. *)
Definition http_request (a : Adapter) (req : ProviderRequest) (stream : bool) : HTTPRequest :=
  match a with
  | OpenAICompatAdapter =>
      {| hr_URL := pr_URL req +:+ "/chat/completions";
         hr_Header := [("Content-Type", "application/json"); ("Authorization", "Bearer " +:+ pr_APIKey req)];
         hr_Body := pr_Messages req |}
  | _ =>
      {| hr_URL := TrimRightSlash (pr_URL req) +:+ "/v1/messages";
         hr_Header := [("Content-Type", "application/json"); ("x-api-key", pr_APIKey req);
                       ("anthropic-version", "2023-06-01")];
         hr_Body := anthropic_body req stream |}
  end.

Lemma adapter_do_spec a req stream sent :
  let r := http_request a req stream in
  let '(sent', res) := adapter_do a req stream sent in
  (sent' = sent /\ validURL (hr_URL r) = false /\ exists e, res = inr e /\ plain e) \/
  (sent' = (sent ++ [r])%list /\ validURL (hr_URL r) = true /\
   match upstream sent r with
   | TransportError _ => exists e, res = inr e /\ plain e
   | Response st b be =>
       if (st <? 400)%Z then res = inl {| rc_text := b; rc_end := be |}
       else exists e, res = inr e /\
         match a with
         | OpenAICompatAdapter => plain e
         | _ => if (st <? 500)%Z then asUpstream e = Some (st, str_take 1024 b, Name a) else plain e
         end
   end).
Proof.
  destruct a; cbn -[str_take]; unfold anthropicShapedDo, openai_do;
    (match goal with |- context [negb (validURL ?u)] => destruct (validURL u) eqn:Hu end; cbn -[str_take];
     [right; split_and!; [done|done|]|left; split_and!; [done|done|by eexists]]).
  all: destruct (upstream _ _) as [t|st b be]; [by eexists|].
  all: destruct (Z.leb_spec 400 st), (Z.ltb_spec st 400); try lia; try done.
  all: destruct (Z.ltb_spec st 500); by eexists.
Qed.

Lemma key_of_http_request a req stream : key_of (http_request a req stream) = Some (pr_APIKey req).
Proof.
  destruct a; [done|done|]. unfold key_of, http_request. cbn [hr_Header].
  by rewrite HasPrefix_app, TrimPrefix_app.
Qed.
End Providers.
