(* ===== verification/Pipeline.v ===== *)
(** * The request pipeline

    [internal/gw/server]: [EgressPipeline.Run] and [tryStream]
    (egress_pipeline.go), [Pipeline.Run] (ingress_pipeline.go),
    [HandleForward] with its relay loop (handlers.go), and the reload callback
    of [cmd/aicg-gw/main.go].  The policy engine, the selector, the cost
    calculator and the configuration are shared with the reload callback, so
    every point where a request reads one of them is a [ReadPoint] and the
    state seen there an argument: a reload can happen between any two. *)

From stdpp Require Import sorting base gmap strings fin_maps numbers pretty list.
From S2P Require Import Prelude Postgres GoData Config Policy Routing Budget Edge Auth Handlers Json Capability Cost Stream Transformer Classifier OpenAI Provider.
Local Open Scope string_scope.

(** ** Shared state *)

Section Gateway.
Context {cel : CEL} {srt : SortSlice} {rand : Random} {js : JSON} {pgt : PgTypes}.
Context (validURL : string -> bool) (upstream : list HTTPRequest -> HTTPRequest -> Reply).
Context (quote : string -> string) (decodeError : string).

Record View := {
  v_policy : Engine;
  v_selector : Selector;
  v_calc : Calculator;
  v_config : Config }.

Inductive ReadPoint := AtPolicy | AtDegradation | AtRouting | AtKey | AtEgress.

(** What requests append to: the in-memory audit log and the network. *)
Record Log := { events : list Event; sent : list HTTPRequest }.
Definition audit (l : Log) (ev : Event) : Log := {| events := (events l ++ [ev])%list; sent := sent l |}.

Definition EventRoutingNoCandidate := "routing_no_candidate_after_constraints".
Definition EventDecisionMade := "decision_made".
Definition EventProviderCall := "provider_call".
Definition EventProvider5xxRetry := "provider_5xx_after_retry".
Definition EventRequestCompleted := "request_completed".

(** The events built as struct literals leave [EventAt] zero. *)
Definition literal_event (ty traceID tenantID userID teamID routedTo errorCode : string) : Event :=
  {| EventAt := 0; ev_TraceID := traceID; ev_TenantID := tenantID; ev_UserID := userID; ev_TeamID := teamID;
     EventType := ty; Detail := []; ev_RoutedTo := routedTo; ev_ErrorCode := errorCode |}.

Definition routing_error (e : RoutingError) : error :=
  match e with
  | ErrNoCandidate pool c => NoCandidateError pool c
  | PoolNotFound pool => Errorf ("pool " +:+ (quote pool +:+ " not found"))
  | _ => Errorf "routing"
  end.

(** ** egress_pipeline.go *)

Record EgressResult := {
  er_Body : ReadCloser;
  er_Seed : bytes;
  er_Chain : list Member;
  er_Degraded : list string;
  er_Member : Member;
  er_APIKey : string }.

(** [tryStream] *)
Definition tryStream (adapter : Adapter) (req : ProviderRequest) (sent : list HTTPRequest)
    : list HTTPRequest * (ReadCloser + error) :=
  match Stream validURL upstream adapter req sent with
  | (sent, inl body) => (sent, inl body)
  | (sent, inr err) =>
      match asUpstream err with
      | Some _ => (sent, inr err)
      | None =>
          match Stream validURL upstream adapter req sent with
          | (sent, inl body2) => (sent, inl body2)
          | (sent, inr err2) => (sent, inr (Wrapped "retry failed" err2))
          end
      end
  end.

(** The request built for the member's wire. *)
Definition provider_request (member : Member) (apiKey : string) (irReq : IRRequest)
    : outcome error ProviderRequest :=
  let base messages sys tools choice thinking metadata :=
    {| pr_Model := m_Model member; pr_Messages := messages; pr_MaxTokens := ir_MaxTokens irReq;
       pr_Temperature := ir_Temperature irReq; pr_Stream := true; pr_APIKey := apiKey; pr_URL := m_URL member;
       pr_System := sys; pr_Tools := tools; pr_ToolChoice := choice; pr_Metadata := metadata;
       pr_Thinking := thinking |} in
  if String.eqb (Wire member) "openai" || String.eqb (Wire member) "openai_compat" then
    match IRToOpenAI irReq with
    | Ok msgs => Ok (base msgs None None None None ∅)
    | Err _ => Ok (base JNull None None None None ∅)
    | Panic => Panic
    end
  else if String.eqb (Wire member) "anthropic" || String.eqb (Wire member) "anthropic_compat" then
    Ok (base (IRToAnthropicMessages irReq) (IRToAnthropicSystem irReq) (IRToAnthropicTools irReq)
          (IRToAnthropicToolChoice irReq) (IRToAnthropicThinking irReq) (ir_Metadata irReq))
  else Err (Errorf ("egress: unsupported wire " +:+ (quote (Wire member) +:+
              (" (endpoint " +:+ (EndpointID member +:+ ")"))))).

(** [if member.Wire != "anthropic" { degraded = StripAnthropicFeatures(irReq) }] *)
Definition degrade (member : Member) (irReq : IRRequest) : IRRequest * list string :=
  if String.eqb (Wire member) "anthropic" then (irReq, []) else StripAnthropicFeatures irReq.

(** [(p *EgressPipeline) Run] *)
Definition Egress_Run (adapters : gmap string Adapter) (sel : Selector) (now : Z) (l : Log)
    (traceID tenantID userID teamID poolName : string) (attemptNo : Z) (reqBody : json) (apiKey : string)
    (dec : option Decision) : Log * outcome error EgressResult :=
  match BuildChain sel poolName dec traceID attemptNo with
  | Panic => (l, Panic)
  | Err err =>
      (audit l (NewEvent EventRoutingNoCandidate now traceID tenantID userID teamID), Err (routing_error err))
  | Ok [] => (l, Panic)
  | Ok ((member :: _) as chain) =>
      match adapters !! Wire member with
      | None => (l, Err (Errorf ("egress: no adapter registered for wire " +:+ (quote (Wire member) +:+
                   (" (endpoint " +:+ (EndpointID member +:+ ")"))))))
      | Some adapter =>
          let l := audit l (literal_event EventProviderCall traceID tenantID userID teamID
                     (EndpointID member +:+ (":" +:+ m_Model member)) "") in
          match AnthropicToIR (Some reqBody) with
          | None => (l, Err (BadRequestError "parse anthropic request" (Some (Errorf decodeError))))
          | Some irReq =>
              let '(irReq, degraded) := degrade member irReq in
              match provider_request member apiKey irReq with
              | Panic => (l, Panic)
              | Err e => (l, Err e)
              | Ok provReq =>
                  let '(sent, r) := tryStream adapter provReq (sent l) in
                  let l := {| events := events l; sent := sent |} in
                  match r with
                  | inr err =>
                      match asUpstream err with
                      | Some _ => (l, Err err)
                      | None =>
                          (audit l (literal_event EventProvider5xxRetry traceID tenantID userID teamID ""
                             "provider_5xx_after_retry"),
                           Err (Wrapped "egress: provider 5xx after retry" err))
                      end
                  | inl body =>
                      (audit l (NewEvent EventRequestCompleted now traceID tenantID userID teamID),
                       Ok {| er_Body := body; er_Seed := SeedBytes traceID poolName attemptNo;
                             er_Chain := chain; er_Degraded := degraded; er_Member := member;
                             er_APIKey := apiKey |})
                  end
              end
          end
      end
  end.

(** ** ingress_pipeline.go *)

Record WirePayload := { wp_Protocol : string; wp_Stream : bool; wp_Body : option json }.
Record ForwardRequest := { fr_Envelope : option json; fr_Wire : WirePayload }.

(** The optional Postgres writers that are wired ([nil] when not). *)
Record PgWriters := { has_audit : bool; has_routing : bool; has_rawstore : bool; has_cost : bool }.

(** Rows written before the stream starts. *)
Inductive PgRow :=
| AuditRow (ev : Event)
| RoutingRow (traceID tenantID : string) (attemptNo : Z) (decision : Decision) (pool : string)
    (member : Member) (degraded : list string) (seed : bytes)
| RawRow (traceID tenantID userID teamID repoID sensitivity : string).

Record PipelineResult := {
  StatusCode : Z;
  Headers : list (string * string);
  pl_Body : ReadCloser;                       (** the provider stream ... *)
  pl_Accounting : AccountedStreamConfig;      (** ... wrapped with this configuration *)
  pl_Reservation : option uuid                (** captured by [PostAccount] *) }.

(** The environment of one request: clock, new id and statement results. *)
Record Env := { env_now : Z; env_id : uuid; env_db : bool; env_db' : bool; env_latency : Z }.

Definition policy_input (userID teamID role : string) (tag : Result) : EvalInput :=
  {| ServerClass := []; Envelope := []; Team := []; Repo := []; Policy.Budget := []; Endpoints := [];
     User := [("user_id", AString userID); ("team_id", AString teamID); ("role", AString role)];
     TaskHints := [("task_type", AString (TaskType tag)); ("complexity", AString (Complexity tag));
                   ("data_sensitivity", AString (DataSensitivity tag))] |}.

(** The package's own copy of the loop. *)
Definition appendUniqueStr (slice items : list string) : list string := appendUnique slice items.

(** [dec.RequiredCapabilities = appendUniqueStr(dec.RequiredCapabilities, hard)] *)
Definition with_capabilities (dec : Decision) (caps : list string) : Decision :=
  {| PrimaryAction := PrimaryAction dec; Modifiers := Modifiers dec; SideEffects := SideEffects dec;
     ModelPool := ModelPool dec; ShadowPool := ShadowPool dec; Redactions := Redactions dec;
     Reasons := Reasons dec; RequiredTrustTier := RequiredTrustTier dec;
     RequiredDataResidency := RequiredDataResidency dec; RequiredCapabilities := caps;
     DegradedFeatures := DegradedFeatures dec |}.
Definition with_degraded (dec : Decision) (d : list string) : Decision :=
  {| PrimaryAction := PrimaryAction dec; Modifiers := Modifiers dec; SideEffects := SideEffects dec;
     ModelPool := ModelPool dec; ShadowPool := ShadowPool dec; Redactions := Redactions dec;
     Reasons := Reasons dec; RequiredTrustTier := RequiredTrustTier dec;
     RequiredDataResidency := RequiredDataResidency dec; RequiredCapabilities := RequiredCapabilities dec;
     DegradedFeatures := d |}.

Definition engine_error (e : EngineError) : error := Errorf "policy".

Definition require_capabilities (cfg : Config) (req : ForwardRequest) (dec : Decision) : Decision :=
  if String.eqb (wp_Protocol (fr_Wire req)) "anthropic_messages" then
    let detected := DetectCapabilities (wp_Body (fr_Wire req)) in
    let hard := FilterDegradable detected (AllowedCapabilities (Degradation (cfg_Policy cfg))) in
    with_capabilities dec (appendUniqueStr (RequiredCapabilities dec) hard)
  else dec.

Definition pool_of (dec : Decision) : string :=
  if is_empty (ModelPool dec) then "standard" else ModelPool dec.

(** [p.Config().ResolvedEndpoints[member.EndpointID]], or the empty key. *)
Definition api_key (cfg : Config) (member : Member) : string :=
  match cfg_ResolvedEndpoints cfg !! EndpointID member with Some ep => ResolvedKey ep | None => "" end.

(** [(p *Pipeline) Run]; [budget] is [PgBudgetSvc] ([None] when nil). *)
Definition Run (live : ReadPoint -> View) (adapters : gmap string Adapter) (pg : PgWriters) (calc : Calculator)
    (env : Env) (ctx : Context) (req : ForwardRequest) (traceID : string) (l : Log) (budget : option PgService)
    : Log * option PgService * list PgRow * outcome error PipelineResult :=
  let userID := GetUserID ctx in
  let teamID := GetTeamID ctx in
  let role := GetRole ctx in
  let now := env_now env in
  let tag := Reclassify [] "" 0 0 false false in
  match Decide (v_policy (live AtPolicy)) (policy_input userID teamID role tag) with
  | Panic => (l, budget, [], Panic)
  | Err err =>
      (audit l (NewEvent EventRoutingNoCandidate now traceID teamID userID teamID), budget, [],
       Err (Wrapped "policy evaluate" (engine_error err)))
  | Ok dec =>
      let l := audit l (literal_event EventDecisionMade traceID teamID userID teamID "" "") in
      let dec := require_capabilities (v_config (live AtDegradation)) req dec in
      let poolName := pool_of dec in
      match BuildChain (v_selector (live AtRouting)) poolName (Some dec) traceID 1 with
      | Panic | Ok [] => (l, budget, [], Panic)
      | Err err =>
          (audit l (NewEvent EventRoutingNoCandidate now traceID teamID userID teamID), budget, [],
           Err (Wrapped "routing build chain" (routing_error err)))
      | Ok (member :: _) =>
          let apiKey := api_key (v_config (live AtKey)) member in
          (* json.Marshal of a nil RawMessage writes null *)
          let bodyBytes := default JNull (wp_Body (fr_Wire req)) in
          match Egress_Run adapters (v_selector (live AtEgress)) now l traceID teamID userID teamID poolName 1
                  bodyBytes apiKey (Some dec) with
          | (l, Panic) => (l, budget, [], Panic)
          | (l, Err err) => (l, budget, [], Err (Wrapped "egress" err))
          | (l, Ok result) =>
              let dec := with_degraded dec (appendUniqueStr (DegradedFeatures dec) (er_Degraded result)) in
              let '(budget, reservation) :=
                match budget with
                | None => (None, None)
                | Some svc =>
                    match Pg_Reserve (env_db env) (env_db' env) svc (env_id env) now traceID teamID userID teamID 100 with
                    | (svc, Ok rsv, _) => (Some svc, Some (ID rsv))
                    | (svc, _, _) => (Some svc, None)
                    end
                end in
              let cfg := {| cfg_Wire := Wire member; cfg_Calc := calc; cfg_CostW := has_cost pg;
                cfg_VendorID := VendorID member; cfg_EndpointID := EndpointID member; cfg_Model := m_Model member;
                cfg_Pool := poolName; cfg_IsPrivate := Private member; cfg_TraceID := traceID;
                cfg_TenantID := teamID; cfg_UserID := userID; cfg_TeamID := teamID; cfg_AttemptNo := 1;
                cfg_Degraded := DegradedFeatures dec; cfg_LatencyMs := env_latency env;
                cfg_PostAccount := match reservation with Some _ => true | None => false end |} in
              let rows :=
                ((if has_audit pg then [AuditRow (NewEvent EventRequestCompleted now traceID teamID userID teamID)]
                  else []) ++
                 (if has_routing pg then [RoutingRow traceID teamID 1 dec poolName member (er_Degraded result)
                    (SeedBytes traceID poolName 1)] else []) ++
                 (if has_rawstore pg then [RawRow traceID teamID userID teamID "" "unknown"] else []))%list in
              (l, budget, rows, Ok
                {| StatusCode := 200;
                   Headers := [("Content-Type", "text/event-stream"); ("X-AICG-Trace-Id", traceID);
                               ("X-AICG-Routed-To", EndpointID member +:+ (":" +:+ m_Model member))];
                   pl_Body := er_Body result; pl_Accounting := cfg; pl_Reservation := reservation |})
          end
      end
  end.

(** The [PostAccount] callback. *)
Definition PostAccount (reservation : option uuid) (db : bool) (now : Z) (svc : PgService)
    (r : StreamAccountingResult) : PgService :=
  match reservation with
  | None => svc
  | Some id =>
      match res_Err r with
      | Some _ => (Pg_Release db svc id now).1
      | None => (Pg_Commit db svc id (ce_CostCents (res_CostEvent r)) now).1
      end
  end.

(** ** handlers.go: HandleForward *)

Definition zero_wire : WirePayload := {| wp_Protocol := ""; wp_Stream := false; wp_Body := None |}.
Definition zero_forward : ForwardRequest := {| fr_Envelope := None; fr_Wire := zero_wire |}.
Definition wire_field (k : string) : option (decoder WirePayload) :=
  if String.eqb k "protocol" then Some (fun v w => x ← dec_str v (wp_Protocol w);
    Some {| wp_Protocol := x; wp_Stream := wp_Stream w; wp_Body := wp_Body w |})
  else if String.eqb k "stream" then Some (fun v w => x ← dec_bool v (wp_Stream w);
    Some {| wp_Protocol := wp_Protocol w; wp_Stream := x; wp_Body := wp_Body w |})
  else if String.eqb k "body" then Some (fun v w => x ← dec_raw v (wp_Body w);
    Some {| wp_Protocol := wp_Protocol w; wp_Stream := wp_Stream w; wp_Body := x |})
  else None.
Definition forward_field (k : string) : option (decoder ForwardRequest) :=
  if String.eqb k "envelope" then Some (fun v r => x ← dec_raw v (fr_Envelope r);
    Some {| fr_Envelope := x; fr_Wire := fr_Wire r |})
  else if String.eqb k "wire" then Some (fun v r => x ← dec_struct wire_field v (fr_Wire r);
    Some {| fr_Envelope := fr_Envelope r; fr_Wire := x |})
  else None.

(** The response: an error body, or the relayed stream. *)
Inductive ForwardResponse := Refused (r : Handlers.Response) | Streaming_ (r : PipelineResult).

(** The body before [Pipeline.Run]: [None] when it cannot be read. *)
Definition check_forward (r : Request) (body : option string) (traceID : string)
    : outcome Handlers.Response ForwardRequest :=
  reject (negb (String.eqb (Method r) "POST"))
    (writeError 405 "method_not_allowed" "only POST is supported" traceID) ≫= fun _ =>
  match body with
  | None => Err (writeError 400 "bad_request" "failed to read body" traceID)
  | Some text =>
      match unmarshal (dec_struct forward_field) text zero_forward with
      | None => Err (writeError 400 "bad_request" ("invalid JSON: " +:+ decodeError) traceID)
      | Some req =>
          reject (negb (present (fr_Envelope req)))
            (writeError 400 "bad_request" "envelope is required" traceID) ≫= fun _ =>
          reject (is_empty (wp_Protocol (fr_Wire req)))
            (writeError 400 "bad_request" "wire.protocol is required" traceID) ≫= fun _ =>
          Ok req
      end
  end.

(** The mapping of a pipeline error to a response. *)
Definition forward_error (err : error) (traceID : string) : Handlers.Response :=
  match asUpstream err with
  | Some (status, body, _) => writeError status ("provider_" +:+ pretty status) body traceID
  | None =>
      match asNoCandidate err with
      | Some noCand => writeError 400 "no_eligible_endpoint" (Error quote noCand) traceID
      | None =>
          match asBadRequest err with
          | Some badReq => writeError 400 "bad_request" (Error quote badReq) traceID
          | None => writeError 500 "internal_error" (Error quote err) traceID
          end
      end
  end.

(** [HandleForward] up to the relay loop. *)
Definition HandleForward (live : ReadPoint -> View) (adapters : gmap string Adapter) (pg : PgWriters)
    (calc : Calculator) (env : Env) (r : Request) (body : option string) (l : Log) (budget : option PgService)
    : Log * option PgService * list PgRow * outcome unit ForwardResponse :=
  let traceID := GetTraceID (Ctx r) in
  match check_forward r body traceID with
  | Panic => (l, budget, [], Panic)
  | Err resp => (l, budget, [], Ok (Refused resp))
  | Ok req =>
      match Run live adapters pg calc env (Ctx r) req traceID l budget with
      | (l, budget, rows, Panic) => (l, budget, rows, Panic)
      | (l, budget, rows, Err err) => (l, budget, rows, Ok (Refused (forward_error err traceID)))
      | (l, budget, rows, Ok result) => (l, budget, rows, Ok (Streaming_ result))
      end
  end.

(** ** Retrying *)

(** The reply to one attempt, as the adapter classifies it. *)
Inductive Attempt := Streams (rc : ReadCloser) | ClientError (status : Z) (text : string) | Fails.
Definition attempt (a : Adapter) (req : ProviderRequest) (sent : list HTTPRequest) : Attempt :=
  let r := http_request a req true in
  if negb (validURL (hr_URL r)) then Fails
  else match upstream sent r with
       | TransportError _ => Fails
       | Response st b be =>
           if (st <? 400)%Z then Streams {| rc_text := b; rc_end := be |}
           else match a with
                | OpenAICompatAdapter => Fails
                | _ => if (st <? 500)%Z then ClientError st (str_take 1024 b) else Fails
                end
       end.
Definition attempted (a : Adapter) (req : ProviderRequest) (sent : list HTTPRequest) : list HTTPRequest :=
  if validURL (hr_URL (http_request a req true)) then (sent ++ [http_request a req true])%list else sent.

Lemma Stream_attempt a req sent :
  let '(sent', res) := Stream validURL upstream a req sent in
  sent' = attempted a req sent /\
  match attempt a req sent with
  | Streams rc => res = inl rc
  | ClientError st t => exists e, res = inr e /\ asUpstream e = Some (st, t, Name a)
  | Fails => exists e, res = inr e /\ plain e
  end.
Proof.
  pose proof (adapter_do_spec validURL upstream a req true sent) as H. cbv zeta in H.
  unfold Stream, attempt, attempted. destruct (adapter_do _ _ a req true sent) as [sent' res].
  destruct H as [(-> & Hv & Hr)|(-> & Hv & Hr)]; rewrite Hv; cbn [negb]; [done|]. split; [done|].
  destruct (upstream sent _) as [t|st b be]; [done|]. destruct (st <? 400)%Z; [done|].
  destruct Hr as (e & -> & He). destruct a; try destruct (st <? 500)%Z; eauto.
Qed.

(** The outcome of [tryStream] from the outcomes of its attempts. *)
Lemma tryStream_spec a req sent :
  let '(sent', res) := tryStream a req sent in
  match attempt a req sent with
  | Streams rc => sent' = attempted a req sent /\ res = inl rc
  | ClientError st t => sent' = attempted a req sent /\ exists e, res = inr e /\ asUpstream e = Some (st, t, Name a)
  | Fails =>
      let sent1 := attempted a req sent in
      sent' = attempted a req sent1 /\
      match attempt a req sent1 with
      | Streams rc => res = inl rc
      | ClientError st t => exists e, res = inr e /\ asUpstream e = Some (st, t, Name a)
      | Fails => exists e, res = inr e /\ plain e
      end
  end.
Proof.
  unfold tryStream. pose proof (Stream_attempt a req sent) as H.
  destruct (Stream _ _ a req sent) as [sent1 res1]. destruct H as [-> H].
  destruct (attempt a req sent) as [rc|st t|]; [by subst|by destruct H as (e & -> & He); rewrite He; eauto|].
  destruct H as (e & -> & (-> & _)). pose proof (Stream_attempt a req (attempted a req sent)) as H2.
  destruct (Stream _ _ a req (attempted a req sent)) as [sent2 res2]. destruct H2 as [-> H2].
  destruct (attempt a req (attempted a req sent)) as [rc|st t|]; [by subst|..];
    destruct H2 as (e2 & -> & He2); (split; [done|]); by eexists.
Qed.

(** The requests [tryStream] adds: at most two, all the same. *)
Lemma tryStream_sent a req sent :
  exists n, (n <= 2)%nat /\ (tryStream a req sent).1 = (sent ++ replicate n (http_request a req true))%list.
Proof.
  pose proof (tryStream_spec a req sent) as H. destruct (tryStream a req sent) as [sent' res]. cbn.
  assert (forall s, exists n, (n <= 1)%nat /\ attempted a req s = (s ++ replicate n (http_request a req true))%list)
    as Hone.
  { intros s. unfold attempted. destruct (validURL _); [by exists 1|exists 0]. split; [lia|]. by rewrite app_nil_r. }
  destruct (attempt a req sent); [..|destruct (Hone sent) as (n1 & ? & H1)];
    [destruct H as [-> _]..|].
  1,2: destruct (Hone sent) as (n1 & ? & ->); exists n1; split; [lia|done].
  destruct H as [-> _]. destruct (Hone (attempted a req sent)) as (n2 & ? & ->). rewrite H1.
  exists (n1 + n2). split; [lia|]. by rewrite replicate_add, app_assoc.
Qed.

(** A reply by its status: served, the client's fault, or worth a retry. *)
Definition client_error (rp : Reply) : bool :=
  match rp with Response st _ _ => (400 <=? st)%Z && (st <? 500)%Z | TransportError _ => false end.
Definition retryable (rp : Reply) : bool :=
  match rp with Response st _ _ => (500 <=? st)%Z | TransportError _ => true end.
(** What becomes of the last reply. *)
Definition handled (traceID : string) (rp : Reply) (res : ReadCloser + error) : Prop :=
  match rp with
  | Response st b be =>
      if (st <? 400)%Z then res = inl {| rc_text := b; rc_end := be |}
      else if (st <? 500)%Z then exists e, res = inr e /\
        forward_error (Wrapped "egress" e) traceID =
          writeError st ("provider_" +:+ pretty st) (str_take 1024 b) traceID
      else exists e, res = inr e /\
        (500 <= resp_status (forward_error (Wrapped "egress" (Wrapped "egress: provider 5xx after retry" e)) traceID))%Z
  | TransportError _ => exists e, res = inr e /\
      (500 <= resp_status (forward_error (Wrapped "egress" (Wrapped "egress: provider 5xx after retry" e)) traceID))%Z
  end.

Lemma attempt_reply a preq s :
  let r := http_request a preq true in
  validURL (hr_URL r) = true -> (a = OpenAICompatAdapter -> client_error (upstream s r) = false) ->
  attempt a preq s =
    match upstream s r with
    | TransportError _ => Fails
    | Response st b be =>
        if (st <? 400)%Z then Streams {| rc_text := b; rc_end := be |}
        else if (st <? 500)%Z then ClientError st (str_take 1024 b) else Fails
    end.
Proof.
  intros r Hv Ho. unfold attempt. fold r. rewrite Hv. cbn [negb]. destruct (upstream s r) as [|st b be]; [done|].
  destruct a; [done|done|]. cbn in Ho. specialize (Ho eq_refl).
  destruct (Z.ltb_spec st 400); [done|]. by destruct (Z.leb_spec 400 st), (Z.ltb_spec st 500); [..|lia|lia].
Qed.
Lemma client_answer res st t p tr :
  (exists e, res = @inr ReadCloser error e /\ asUpstream e = Some (st, t, p)) ->
  exists e, res = inr e /\ forward_error (Wrapped "egress" e) tr = writeError st ("provider_" +:+ pretty st) t tr.
Proof. intros (e & -> & He). exists e. split; [done|]. unfold forward_error. cbn. by rewrite He. Qed.
Lemma plain_answer res tr :
  (exists e, res = @inr ReadCloser error e /\ plain e) ->
  exists e, res = inr e /\
    (500 <= resp_status (forward_error (Wrapped "egress" (Wrapped "egress: provider 5xx after retry" e)) tr))%Z.
Proof. intros (e & -> & (Hu & Hn & Hb)). exists e. split; [done|]. unfold forward_error. cbn. by rewrite Hu, Hn, Hb. Qed.

(** ** The egress run *)

(** The provider request of a member, when the body parses. *)
Definition prepared (member : Member) (apiKey : string) (body : json) : option (outcome error ProviderRequest) :=
  match AnthropicToIR (Some body) with
  | None => None
  | Some ir => Some (provider_request member apiKey (degrade member ir).1)
  end.

Lemma provider_request_fields member apiKey ir req :
  provider_request member apiKey ir = Ok req ->
  pr_URL req = m_URL member /\ pr_APIKey req = apiKey /\ pr_Model req = m_Model member.
Proof.
  unfold provider_request. repeat case_match; intros; simplify_eq; done.
Qed.

(** What a run of the egress pipeline leaves behind. *)
Lemma Egress_Run_spec adapters sel now l tr tn us te pool n body key dec :
  let '(l', res) := Egress_Run adapters sel now l tr tn us te pool n body key dec in
  (sent l' = sent l /\ (forall r, res <> Ok r)) \/
  (exists m chain a req, BuildChain sel pool dec tr n = Ok (m :: chain) /\ adapters !! Wire m = Some a /\
     prepared m key body = Some (Ok req) /\ sent l' = (tryStream a req (sent l)).1 /\
     match (tryStream a req (sent l)).2 with
     | inl rc => exists d, res = Ok {| er_Body := rc; er_Seed := SeedBytes tr pool n; er_Chain := m :: chain;
                                       er_Degraded := d; er_Member := m; er_APIKey := key |}
     | inr e => exists e', res = Err e' /\ asUpstream e' = asUpstream e
     end).
Proof.
  unfold Egress_Run. destruct (BuildChain sel pool dec tr n) as [[|m chain]|e|] eqn:Hb; [by left| |by left|by left].
  destruct (adapters !! Wire m) as [a|] eqn:Ha; [|by left].
  unfold prepared. destruct (AnthropicToIR (Some body)) as [ir|]; [|by left].
  destruct (degrade m ir) as [ir' d] eqn:Hd.
  destruct (provider_request m key ir') as [req|e|] eqn:Hp; [|by left..]. cbn [sent audit events].
  destruct (tryStream a req (sent l)) as [sent' [rc|e]] eqn:Ht; [|destruct (asUpstream e) eqn:He];
    right; exists m, chain, a, req; rewrite Hd, Ht; cbn [fst snd sent audit];
    split_and!; try done; try (by rewrite Hp); eauto.
Qed.

(** ** The ingress run *)

(** The decision a request is routed with. *)
Definition routed_decision (live : ReadPoint -> View) (ctx : Context) (req : ForwardRequest) : option Decision :=
  match Decide (v_policy (live AtPolicy))
          (policy_input (GetUserID ctx) (GetTeamID ctx) (GetRole ctx) (Reclassify [] "" 0 0 false false)) with
  | Ok dec => Some (require_capabilities (v_config (live AtDegradation)) req dec)
  | _ => None
  end.

(** A run that succeeded, taken apart. *)
Lemma Run_ok live adapters pg calc env ctx req tr l b l' b' rows res :
  Run live adapters pg calc env ctx req tr l b = (l', b', rows, Ok res) ->
  exists dec m chain m2 chain2 a preq,
    routed_decision live ctx req = Some dec /\
    BuildChain (v_selector (live AtRouting)) (pool_of dec) (Some dec) tr 1 = Ok (m :: chain) /\
    BuildChain (v_selector (live AtEgress)) (pool_of dec) (Some dec) tr 1 = Ok (m2 :: chain2) /\
    adapters !! Wire m2 = Some a /\
    prepared m2 (api_key (v_config (live AtKey)) m) (default JNull (wp_Body (fr_Wire req))) = Some (Ok preq) /\
    tryStream a preq (sent l) = (sent l', inl (pl_Body res)) /\
    cfg_EndpointID (pl_Accounting res) = EndpointID m /\ cfg_Model (pl_Accounting res) = m_Model m /\
    cfg_PostAccount (pl_Accounting res) = bool_decide (is_Some (pl_Reservation res)) /\
    match b with
    | None => b' = None /\ pl_Reservation res = None
    | Some svc =>
        exists r alerts, Pg_Reserve (env_db env) (env_db' env) svc (env_id env) (env_now env) tr
          (GetTeamID ctx) (GetUserID ctx) (GetTeamID ctx) 100 = (default svc b', r, alerts) /\ is_Some b' /\
        pl_Reservation res = match r with Ok rsv => Some (ID rsv) | _ => None end
    end.
Proof.
  unfold Run, routed_decision. destruct (Decide _ _) as [dec0| |]; [|done..].
  set (dec := require_capabilities _ _ dec0).
  destruct (BuildChain (v_selector (live AtRouting)) _ _ _ _) as [[|m chain]|e|] eqn:Hb; [done| |done..].
  match goal with |- context [Egress_Run ?ad ?sel ?now ?lg ?t ?tn ?us ?te ?pool ?n ?body ?key ?d] =>
    pose proof (Egress_Run_spec ad sel now lg t tn us te pool n body key d) as He;
    destruct (Egress_Run ad sel now lg t tn us te pool n body key d) as [l1 [r|e|]] end;
    [|done..].
  destruct He as [[_ Hno]|(m2 & chain2 & a & preq & Hb2 & Ha & Hp & Hs & Hr)]; [by destruct (Hno r)|].
  cbn [sent audit] in Hs, Hr.
  destruct (tryStream a preq (sent l)) as [sent' [rc|e]] eqn:Ht; cbn [fst snd] in Hs, Hr;
    [destruct Hr as (d & [= ->])|by destruct Hr as (? & ? & ?)].
  intros Hres. exists dec, m, chain, m2, chain2, a, preq.
  destruct b as [svc|];
    [destruct (Pg_Reserve _ _ svc _ _ _ _ _ _ _) as [[svc' [rsv|e|]] alerts] eqn:Hrs|];
    inversion Hres; subst; clear Hres; cbn; split_and!; try done; by eexists _, _.
Qed.

(** The identity and the trace id in what a run hands to the accounting, and
    the headers of the reply. *)
Lemma Run_labels live adapters pg calc env ctx req tr l b l' b' rows res :
  Run live adapters pg calc env ctx req tr l b = (l', b', rows, Ok res) ->
  let cfg := pl_Accounting res in
  cfg_TraceID cfg = tr /\ cfg_TenantID cfg = GetTeamID ctx /\ cfg_UserID cfg = GetUserID ctx /\ cfg_TeamID cfg = GetTeamID ctx /\
  cfg_AttemptNo cfg = 1%Z /\ cfg_CostW cfg = has_cost pg /\ cfg_LatencyMs cfg = env_latency env /\ cfg_Calc cfg = calc /\
  StatusCode res = 200%Z /\
  Headers res = [("Content-Type", "text/event-stream"); ("X-AICG-Trace-Id", tr);
                 ("X-AICG-Routed-To", cfg_EndpointID cfg +:+ (":" +:+ cfg_Model cfg))].
Proof.
  unfold Run. destruct (Decide _ _) as [dec| |]; [|done..]. destruct (BuildChain _ _ _ _ _) as [[|m chain]| |]; [done| |done..].
  destruct (Egress_Run _ _ _ _ _ _ _ _ _ _ _ _ _) as [l1 [er| |]]; [|done..].
  destruct b as [svc|]; [destruct (Pg_Reserve _ _ _ _ _ _ _ _ _ _) as [[svc1 []] alerts]|]; intros [= <- <- <- <-]; done.
Qed.

(** Any run: what it adds to the requests sent. *)
Lemma Run_sent live adapters pg calc env ctx req tr l b l' b' rows res :
  Run live adapters pg calc env ctx req tr l b = (l', b', rows, res) ->
  exists n r, (n <= 2)%nat /\ sent l' = (sent l ++ replicate n r)%list.
Proof.
  set (none := {| hr_URL := ""; hr_Header := []; hr_Body := JNull |}).
  assert (Hnone : forall s : list HTTPRequest, exists n r, (n <= 2)%nat /\ s = (s ++ replicate n r)%list).
  { intros s. exists 0, none. split; [lia|]. by rewrite app_nil_r. }
  unfold Run. destruct (Decide _ _) as [dec0| |]; [|by intros [= <- <- <- <-]..].
  set (dec := require_capabilities _ _ dec0).
  destruct (BuildChain (v_selector (live AtRouting)) _ _ _ _) as [[|m chain]|e|];
    [by intros [= <- <- <- <-]| |by intros [= <- <- <- <-]..].
  match goal with |- context [Egress_Run ?ad ?sel ?now ?lg ?t ?tn ?us ?te ?pool ?n ?body ?key ?d] =>
    pose proof (Egress_Run_spec ad sel now lg t tn us te pool n body key d) as He;
    destruct (Egress_Run ad sel now lg t tn us te pool n body key d) as [l1 r] end.
  assert (exists n r, (n <= 2)%nat /\ sent l1 = (sent l ++ replicate n r)%list) as Hl1.
  { destruct He as [[-> _]|(m2 & chain2 & a & preq & _ & _ & _ & -> & _)]; [apply Hnone|].
    destruct (tryStream_sent a preq (sent l)) as (n & ? & Hn). by exists n, (http_request a preq true). }
  destruct r as [r|e|]; [|by intros [= <- <- <- <-]..].
  destruct (match b with None => _ | Some _ => _ end) as [b1 rsv]. by intros [= <- <- <- <-].
Qed.

(** ** Hot reload *)

Definition set_selector (v : View) (s : Selector) : View :=
  {| v_policy := v_policy v; v_selector := s; v_calc := v_calc v; v_config := v_config v |}.

(** The callback of [main], one shared write at a time: the state after each
    prefix can be seen by a request in flight. *)
Definition reload_steps (newCfg : Config) : list (View -> View) :=
  [fun v => set_selector v (SetPricing (v_selector v) (Some (cfg_Pricing newCfg)));
   fun v => set_selector v (SetPools (v_selector v) (cfg_Pools newCfg));
   fun v => {| v_policy := v_policy v; v_selector := v_selector v; v_calc := Some (cfg_Pricing newCfg);
               v_config := v_config v |};
   fun v => {| v_policy := (SetPolicy (v_policy v) (cfg_Policy newCfg)).1; v_selector := v_selector v;
               v_calc := v_calc v; v_config := v_config v |};
   fun v => {| v_policy := v_policy v; v_selector := v_selector v; v_calc := v_calc v; v_config := newCfg |}].
Definition after (n : nat) (newCfg : Config) (v : View) : View :=
  fold_left (fun v f => f v) (take n (reload_steps newCfg)) v.

(** The live state of a gateway started with (or settled on) [c]. *)
Definition settled_on (c : Config) (e : Engine) : View :=
  {| v_policy := e; v_selector := NewSelector (cfg_Pools c) (Some (cfg_Pricing c));
     v_calc := Some (cfg_Pricing c); v_config := c |}.

(** ** What an Anthropic endpoint reads *)

Definition forwarded (member : Member) (raw : anthropicRequest) : anthropicRequest :=
  Build_anthropicRequest (m_Model member) (ar_Messages raw) (ar_System raw) (ar_Tools raw) (ar_ToolChoice raw)
    (ar_MaxTokens raw) (ar_Temperature raw) true
    ((fun t => {| at_Type := "enabled"; at_BudgetTokens := at_BudgetTokens t |}) <$> ar_Thinking raw)
    (ar_Metadata raw).

Lemma dec_content_array n bs old :
  Forall (fits n) bs -> dec_content (dec_wire_block (S n)) (JArr (enc_wire_block <$> bs)) old = Some bs.
Proof. intros H. apply dec_content_enc. eapply Forall_impl; [exact H|]. apply dec_enc_block. Qed.

Lemma dec_slice_array {T} (zero : T) d enc (l old : list T) :
  Forall (fun t => d (enc t) zero = Some t) l -> dec_slice zero d (JArr (enc <$> l)) old = Some l.
Proof. intros H. apply mapM_Some, Forall2_fmap_l. by apply Forall_Forall2_diag. Qed.

Lemma dec_ptr_temperature f old :
  numberJSON f <> JNull -> float_of (numberJSON f) = Some f -> dec_ptr f64_zero dec_float (numberJSON f) old = Some (Some f).
Proof.
  intros Hnn Hf. unfold dec_ptr, dec_float. destruct (numberJSON f); try done; cbn in *; try done; by rewrite Hf.
Qed.

Lemma dec_ptr_thinking t :
  int64 (at_BudgetTokens t) ->
  dec_ptr zero_wire_thinking (dec_struct wire_thinking_field) (enc_thinking t) None = Some (Some t).
Proof. intros Ht. pose proof (dec_enc_thinking t Ht) as Hd. unfold dec_ptr. cbn in Hd |- *. by rewrite Hd. Qed.

Lemma dec_ptr_choice t :
  dec_ptr zero_tool_choice (dec_struct wire_tool_choice_field) (enc_tool_choice t) None = Some (Some t).
Proof.
  pose proof (dec_enc_tool_choice t) as Hd. unfold dec_ptr, enc_tool_choice, enc_obj in *. cbn [default].
  by rewrite Hd.
Qed.

Lemma anthropic_body_decodes n member key raw preq :
  Wire member = "anthropic" -> canonical_request raw -> request_fits n raw ->
  provider_request member key (requestToIR raw) = Ok preq ->
  dec_request (S n) (Some (anthropic_body preq true)) = Some (forwarded member raw).
Proof.
  intros Hw [Hms Hsy Htl Hch Hmt Htp Hbg] [Fms Fsy]. unfold provider_request. rewrite Hw. cbn [String.eqb].
  rewrite messages_roundtrip, system_roundtrip, tool_choice_roundtrip by done. intros [= <-].
  unfold dec_request, unmarshal_raw, anthropic_body. cbn [mbind option_bind dec_struct enc_obj
    pr_Model pr_Messages pr_MaxTokens pr_Temperature pr_System pr_Tools pr_ToolChoice pr_Metadata pr_Thinking
    requestToIR ir_MaxTokens ir_Temperature ir_Metadata ir_Tools ir_Thinking].
  set (th := (fun t => {| at_Type := "enabled"; at_BudgetTokens := at_BudgetTokens t |}) <$> ar_Thinking raw).
  set (md := m_Model member).
  destruct raw as [md0 ms sy tl tc mt tp st th0 mm]. cbn [ar_Messages ar_System ar_Tools ar_ToolChoice
    ar_MaxTokens ar_Temperature ar_Stream ar_Thinking ar_Metadata] in *.
  eapply (dec_member _ _ _ _ _ _ (Build_anthropicRequest "" [] [] [] None mt None false None ∅)); [reflexivity| |].
  { cbv beta. by rewrite dec_int_int64. }
  eapply (dec_omit_nil _ _ (Build_anthropicRequest "" ms [] [] None mt None false None ∅)); [reflexivity| | |].
  { by destruct ms. }
  { intros x Hx. cbv beta. destruct ms as [|m0 ms']; [done|]. injection Hx as <-. unfold id.
    rewrite (dec_slice_array _ _ enc_wire_message (m0 :: ms')); [done|].
    eapply Forall_impl; [exact Fms|]. intros ? ?. by apply dec_enc_message. }
  eapply (dec_omitempty _ _ (Build_anthropicRequest "" ms [] [] None mt None false None mm)); [reflexivity| | |].
  { intros ->%bool_decide_eq_true. done. }
  { intros _. cbv beta. cbn [ar_Metadata]. by rewrite dec_enc_string_map. }
  do 2 (eapply dec_member; [reflexivity|reflexivity|]).
  eapply (dec_omit_nil _ _ (Build_anthropicRequest md ms sy [] None mt None true None mm)); [reflexivity| | |].
  { by destruct sy. }
  { intros x Hx. cbv beta. cbn [ar_System]. destruct sy as [|b0 sy']; [done|]. injection Hx as <-. unfold id.
    by rewrite (dec_content_array n (b0 :: sy')). }
  eapply (dec_omit_nil _ _ (Build_anthropicRequest md ms sy [] None mt tp true None mm)); [reflexivity| | |].
  { by intros ->. }
  { intros f Hf. destruct (Htp f Hf). cbv beta. subst tp. by rewrite dec_ptr_temperature. }
  eapply (dec_omit_nil _ _ (Build_anthropicRequest md ms sy [] None mt tp true th mm)); [reflexivity| | |].
  { unfold th, IRToAnthropicThinking. by destruct th0. }
  { intros x. unfold IRToAnthropicThinking. cbn [ir_Thinking]. unfold th. destruct th0 as [[ty bg]|]; [|done].
    intros [= <-]. unfold id. cbv beta. cbn [ar_Thinking requestToIR ir_Thinking at_BudgetTokens BudgetTokens]. by rewrite (dec_ptr_thinking (Build_anthropicThinking "enabled" bg) (Hbg _ eq_refl)). }
  eapply (dec_omit_nil _ _ (Build_anthropicRequest md ms sy [] tc mt tp true th mm)); [reflexivity| | |].
  { by destruct tc. }
  { intros x Hx. destruct tc as [c|]; [|done]. injection Hx as <-. unfold id. cbv beta. cbn [ar_ToolChoice]. by rewrite (dec_ptr_choice c). }
  eapply (dec_omit_nil _ _ (Build_anthropicRequest md ms sy tl tc mt tp true th mm)); [reflexivity| | |done].
  { by destruct tl. }
  { intros x Hx. cbv beta. destruct tl as [|t0 tl']; [done|]. injection Hx as <-. unfold id.
    rewrite (dec_slice_array _ _ enc_tool (t0 :: tl')); [done|].
    eapply Forall_impl; [exact Htl|]. intros ? ?. by apply dec_enc_tool. }
Qed.

(** The request of a decoded body never dereferences a nil block member. *)
Lemma provider_request_no_panic member key ir body :
  AnthropicToIR body = Some ir ->
  provider_request member key (degrade member ir).1 <> Panic.
Proof.
  intros Hir. unfold provider_request.
  destruct (String.eqb (Wire member) "openai" || String.eqb (Wire member) "openai_compat") eqn:Hw;
    [|by case_match].
  assert (exists j, IRToOpenAI (degrade member ir).1 = Ok j) as [j ->]; [|done].
  assert (String.eqb (Wire member) "anthropic" = false) as Hna.
  { apply orb_true_iff in Hw as [->%String.eqb_eq| ->%String.eqb_eq]; done. }
  unfold degrade. rewrite Hna. unfold IRToOpenAI. destruct (IRToOpenAI_decoded _ _ Hir) as [out ->]. by eexists.
Qed.

Lemma check_forward_no_panic r body tr : check_forward r body tr <> Panic.
Proof.
  unfold check_forward, reject. destruct (negb (String.eqb _ _)); cbn; [done|]. destruct body as [t|]; cbn; [|done].
  destruct (unmarshal _ _ _) as [req|]; cbn; [|done]. destruct (negb (present _)); cbn; [done|].
  by destruct (is_empty _).
Qed.

(** ** Claims *)

(** C4: when no reload happens during a request, a successful forward called
    one endpoint: an eligible member of the pool the policy chose (or of
    [standard]) that satisfies the decision and every hard capability found in
    the body; one request, or the same request twice, went to that member's
    URL, and it carried the API key resolved for that member and no other. *)
Theorem forward_calls_chosen_endpoint v adapters pg calc env ctx req tr l b l' b' rows res :
  Run (fun _ => v) adapters pg calc env ctx req tr l b = (l', b', rows, Ok res) ->
  exists dec pool m a preq n,
    routed_decision (fun _ => v) ctx req = Some dec /\
    sel_Pools (v_selector v) !! pool_of dec = Some pool /\ eligible (v_selector v) pool (Some dec) m /\
    (wp_Protocol (fr_Wire req) = "anthropic_messages" ->
     forall cap, cap ∈ FilterDegradable (DetectCapabilities (wp_Body (fr_Wire req)))
                    (AllowedCapabilities (Degradation (cfg_Policy (v_config v)))) ->
       memberSupports m cap (sel_pricing (v_selector v)) = true) /\
    adapters !! Wire m = Some a /\ (n <= 1)%nat /\
    sent l' = (sent l ++ replicate (S n) (http_request a preq true))%list /\
    pr_URL preq = m_URL m /\ key_of (http_request a preq true) = Some (api_key (v_config v) m) /\
    cfg_EndpointID (pl_Accounting res) = EndpointID m.
Proof.
  intros (dec & m & chain & m2 & chain2 & a & preq & Hd & Hb & Hb2 & Ha & Hp & Ht & Hep & _)%Run_ok.
  cbn beta in *. rewrite Hb in Hb2. injection Hb2 as <- <-.
  destruct (BuildChain_eligible _ _ _ _ _ _ Hb) as (pool & Hpool & Hel). specialize (Hel m ltac:(left)).
  unfold prepared in Hp. destruct (AnthropicToIR _) as [ir|]; [|done]. injection Hp as Hp.
  destruct (provider_request_fields _ _ _ _ Hp) as (Hurl & Hkey & _).
  assert (exists n, (n <= 1)%nat /\ sent l' = (sent l ++ replicate (S n) (http_request a preq true))%list)
    as (n & Hn & Hsent).
  { destruct (tryStream_sent a preq (sent l)) as ([|n] & Hle & Hs); rewrite Ht in Hs; cbn in Hs;
      [|by exists n; split; [lia|]]. exfalso.
    pose proof (tryStream_spec a preq (sent l)) as Hsp. rewrite Ht in Hsp. rewrite app_nil_r in Hs.
    unfold attempt, attempted in Hsp. destruct (validURL _) eqn:Hv; cbn [negb] in Hsp.
    - rewrite Hs in Hsp. destruct (match upstream _ _ with TransportError _ => _ | _ => _ end);
        destruct Hsp as [Hsp _]; apply (f_equal length) in Hsp; rewrite ?length_app in Hsp; cbn in Hsp; lia.
    - by destruct Hsp as [_ (e & ? & _)]. }
  exists dec, pool, m, a, preq, n. rewrite key_of_http_request, Hkey. split_and!; try done; [by apply Hel|].
  intros Hproto cap Hcap. destruct Hel as [[_ Hsat] _].
  destruct (Hsat _ eq_refl) as (_ & _ & Hcaps). rewrite list.Forall_forall in Hcaps.
  apply Hcaps. unfold routed_decision in Hd. destruct (Decide _ _) as [dec0| |]; [|done..]. injection Hd as <-.
  unfold require_capabilities. rewrite Hproto. cbn. unfold appendUniqueStr. apply elem_of_appendUnique. by right.
Qed.

(** Whatever is reloaded meanwhile, a request causes at most two calls to
    an upstream, and the second is the same as the first. *)
Theorem forward_at_most_one_retry live adapters pg calc env r body l b l' b' rows res :
  HandleForward live adapters pg calc env r body l b = (l', b', rows, res) ->
  exists n req, (n <= 2)%nat /\ sent l' = (sent l ++ replicate n req)%list.
Proof.
  unfold HandleForward.
  assert (exists n req, (n <= 2)%nat /\ sent l = (sent l ++ replicate n req)%list) as Hl.
  { exists 0, {| hr_URL := ""; hr_Header := []; hr_Body := JNull |}. split; [lia|]. by rewrite app_nil_r. }
  destruct (check_forward _ _ _) as [req|e|]; [|by intros [= <- <- <- <-]..].
  destruct (Run _ _ _ _ _ _ _ _ _ _) as [[[l1 b1] rows1] o] eqn:Hr. apply Run_sent in Hr.
  by destruct o; intros [= <- <- <- <-].
Qed.


(** A client error of an OpenAI-compatible endpoint is not passed on: it
    is retried, and reported to the client as 500. *)
Theorem openai_client_error_becomes_500 preq s st1 b1 e1 st2 b2 e2 tr :
  let r := http_request OpenAICompatAdapter preq true in
  validURL (hr_URL r) = true ->
  upstream s r = Response st1 b1 e1 -> (400 <= st1 < 500)%Z ->
  upstream (s ++ [r])%list r = Response st2 b2 e2 -> (400 <= st2 < 500)%Z ->
  exists e, tryStream OpenAICompatAdapter preq s = ((s ++ [r; r])%list, inr e) /\
    resp_status (forward_error (Wrapped "egress" (Wrapped "egress: provider 5xx after retry" e)) tr) = 500%Z.
Proof.
  intros r Hv H1 Hs1 H2 Hs2. unfold tryStream, Stream, adapter_do, openai_do.
  cbn in Hv. rewrite Hv. cbn [negb].
  change {| hr_URL := _; hr_Header := _; hr_Body := _ |} with r. rewrite H1, H2.
  destruct (Z.leb_spec 400 st1), (Z.leb_spec 400 st2); try lia. cbn [asUpstream].
  eexists. rewrite <- app_assoc. split; [reflexivity|]. done.
Qed.

(** C20: a gateway whose pools have positive weights never panics on a
    request, whatever the body, the policy and the upstream, and whatever
    reload happens meanwhile. *)
Theorem forward_never_panics live adapters pg calc env r body l b :
  (forall pt name pool m, sel_Pools (v_selector (live pt)) !! name = Some pool ->
     m ∈ Members pool -> (0 < pm_Weight m)%Z) ->
  (HandleForward live adapters pg calc env r body l b).2 <> Panic.
Proof.
  intros Hw. unfold HandleForward.
  pose proof (check_forward_no_panic r body (GetTraceID (Ctx r))) as Hc.
  destruct (check_forward _ _ _) as [req|e|]; [|done..].
  unfold Run, Decide. destruct (negb celNewEnv); [done|].
  set (dec0 := match decide_loop _ _ _ with Some d => Ok d | None => _ end).
  assert (exists d, dec0 = Ok d) as [d ->] by (unfold dec0; destruct (decide_loop _ _ _); eauto).
  set (dec := require_capabilities _ _ d).
  destruct (BuildChain_head (v_selector (live AtRouting)) (pool_of dec) dec (GetTraceID (Ctx r)) 1)
    as [(m & chain & ->)|[e ->]]; [by intros; eapply (Hw AtRouting)| |done].
  unfold Egress_Run.
  destruct (BuildChain_head (v_selector (live AtEgress)) (pool_of dec) dec (GetTraceID (Ctx r)) 1)
    as [(m2 & chain2 & ->)|[e ->]]; [by intros; eapply (Hw AtEgress)| |done].
  destruct (adapters !! Wire m2) as [a|]; [|done].
  destruct (AnthropicToIR _) as [ir|] eqn:Hir; [|done].
  pose proof (provider_request_no_panic m2 (api_key (v_config (live AtKey)) m) ir _ Hir) as Hpp.
  destruct (degrade m2 ir) as [ir' deg]. cbn [fst] in Hpp.
  destruct (provider_request _ _ _) as [preq|e|]; [|done..].
  destruct (tryStream _ _ _) as [s' [rc|e]]; [|by destruct (asUpstream e)].
  by destruct b as [svc|]; [destruct (Pg_Reserve _ _ _ _ _ _ _ _ _ _) as [[? []] ?]|].
Qed.


(** The requests refused before routing are refused by status: a method
    other than POST with 405; an unreadable or undecodable body, a missing
    envelope or an empty protocol with 400; nothing is sent upstream and no
    budget is reserved. *)
Theorem malformed_forward_refused live adapters pg calc env r body l b :
  (Method r <> "POST" \/ Method r = "POST" /\ match body with
     | None => True
     | Some text => match unmarshal (dec_struct forward_field) text zero_forward with
                    | None => True
                    | Some req => fr_Envelope req = None \/ wp_Protocol (fr_Wire req) = ""
                    end
     end) ->
  exists resp, HandleForward live adapters pg calc env r body l b = (l, b, [], Ok (Refused resp)) /\
    resp_status resp = if decide (Method r = "POST") then 400%Z else 405%Z.
Proof.
  unfold HandleForward, check_forward, reject. intros [Hm|[Hm Hb]].
  { rewrite decide_False by done. apply String.eqb_neq in Hm as ->. cbn. by eexists. }
  rewrite decide_True by done. rewrite Hm. cbn. destruct body as [t|]; cbn; [|by eexists].
  destruct (unmarshal _ t zero_forward) as [req|]; cbn; [|by eexists].
  destruct Hb as [->| ->]; cbn; [by eexists|]. destruct (present _); cbn; by eexists.
Qed.
End Gateway.

(** ** A concrete gateway *)

#[local] Existing Instance sample_cel.
#[local] Existing Instance mergeSortSlice.
#[local] Existing Instance sample_random.
#[local] Existing Instance strict_types.

(** A reader that knows one forward request. *)
Definition forward_json : JSON :=
  {| parseJSON := fun s => if String.eqb s "F" then Some (JObj [("envelope", JObj []);
       ("wire", JObj [("protocol", JStr "anthropic_messages"); ("body", sample_body)])]) else None;
     printJSON := fun _ => "{}"; parseFloat := fun _ => None;
     numberJSON := fun f => default JNull (JInt <$> f64_trunc f);
     printJSON_one_line := fun _ => conj eq_refl eq_refl |}.
#[local] Existing Instance forward_json.

Definition endpoint_at (url : string) : ProviderEndpoint :=
  {| ep_Wire := "anthropic"; ep_Vendor := "anthropic"; ep_URL := url;
     ep_DataResidency := "us"; ep_TrustTier := "vendor"; ep_Deployments := [];
     ep_Supports := {| Streaming := true |}; ep_KeyRef := "" |}.
Definition thinking_row : ModelPricing :=
  {| mp_Vendor := "anthropic"; mp_Model := "claude"; mp_Currency := "USD";
     InputPricePer1KTokens := f64_zero; OutputPricePer1KTokens := f64_zero;
     CacheReadPricePer1KTokens := None; CacheCreatePricePer1KTokens := None;
     Capabilities := {| cap_Tools := true; cap_CacheControl := true; cap_ExtendedThinking := true;
                        cap_Vision := true |} |}.
(** One endpoint [ep1] at [url] whose resolved key is [key]. *)
Definition config_at (url key : string) : Config :=
  {| cfg_Pools := {| ProviderEndpoints := {["ep1" := endpoint_at url]}; Pools := {["standard" := sample_pool]} |};
     cfg_Policy := {| Version := "1"; pol_Defaults := {| OnNoMatch := {| as_Action := "allow"; as_ModelPool := "";
                        as_Reasons := [] |} |}; Rules := []; Degradation := {| AllowedCapabilities := [] |};
                      Variables := [] |};
     cfg_Pricing := {| Models := [thinking_row] |};
     cfg_Identity := {| Users := []; Teams := []; Repos := [] |};
     cfg_ResolvedEndpoints := {["ep1" := {| ewk_Endpoint := endpoint_at url; ResolvedKey := key |}]} |}.
Definition idle_engine : Engine :=
  {| compiledRules := []; defaultAction := {| as_Action := "allow"; as_ModelPool := ""; as_Reasons := [] |} |}.

Definition any_url (_ : string) : bool := true.
Definition answers (status : Z) (_ : list HTTPRequest) (_ : HTTPRequest) : Reply := Response status "" None.
Definition sample_env : Env := {| env_now := 7; env_id := 1%N; env_db := true; env_db' := true; env_latency := 3 |}.
Definition no_log : Log := {| events := []; sent := [] |}.
Definition no_pg : PgWriters := {| has_audit := false; has_routing := false; has_rawstore := false; has_cost := false |}.
Definition sample_forward : ForwardRequest :=
  {| fr_Envelope := Some (JObj []);
     fr_Wire := {| wp_Protocol := "anthropic_messages"; wp_Stream := true; wp_Body := Some sample_body |} |}.
Definition run_at (live : ReadPoint -> View) (status : Z) (b : option PgService) :=
  Run any_url (answers status) (fun s => s) "" live wireAdapters no_pg None sample_env Background sample_forward "t"
    no_log b.
Definition old_view : View := settled_on (config_at "https://old" "old-key") idle_engine.

(** A reload in the middle of a request can send one endpoint's secret to
    another: with the configuration swapped between the key lookup and the
    egress run, the key resolved for [https://old] goes to [https://new], whose
    own key is different.  The reading points follow the order of the code and
    the states are those the reload callback passes through. *)
Theorem reload_race_sends_old_key :
  let newCfg := config_at "https://new" "new-key" in
  let n pt := match pt with AtEgress => 5 | _ => 0 end in
  let live pt := after (n pt) newCfg old_view in
  match (run_at live 200 None).1.1.1, (run_at live 200 None).2 with
  | l', Ok _ => hr_URL <$> sent l' = ["https://new/v1/messages"] /\ (key_of <$> sent l') = [Some "old-key"]
  | _, _ => False
  end.
Proof. vm_compute. split; reflexivity. Qed.

Lemma forward_calls_chosen_endpoint_witness :
  exists dec pool m, routed_decision (fun _ => old_view) Background sample_forward = Some dec /\
    sel_Pools (v_selector old_view) !! pool_of dec = Some pool /\ eligible (v_selector old_view) pool (Some dec) m.
Proof.
  destruct (run_at (fun _ => old_view) 200 None) as [[[l' b'] rows] [res|e|]] eqn:Hr;
    [|vm_compute in Hr; discriminate..].
  destruct (forward_calls_chosen_endpoint any_url (answers 200) (fun s => s) "" old_view wireAdapters no_pg None
    sample_env Background sample_forward "t" no_log None l' b' rows res Hr) as (dec & pool & m & a & preq & n & H1 & H2 & H3 & _).
  exists dec, pool, m. split_and!; assumption.
Defined.

Definition sample_http : Request := {| Method := "POST"; Path := "/v1/agent/forward"; Authorization := ""; Ctx := Background |}.
Definition handle_at (live : ReadPoint -> View) (status : Z) (body : option string) :=
  HandleForward any_url (answers status) (fun s => s) "" live wireAdapters no_pg None sample_env sample_http body
    no_log None.

Lemma forward_at_most_one_retry_witness :
  exists n req, (n <= 2)%nat /\ sent (handle_at (fun _ => old_view) 503 (Some "F")).1.1.1 = replicate n req.
Proof.
  destruct (handle_at (fun _ => old_view) 503 (Some "F")) as [[[l' b'] rows] res] eqn:Hr. cbn [fst].
  exact (forward_at_most_one_retry any_url (answers 503) (fun s => s) "" (fun _ => old_view) wireAdapters no_pg None
    sample_env sample_http (Some "F") no_log None l' b' rows res Hr).
Defined.

(** A failing upstream is called twice, and the client sees 500. *)
Example twice_and_500 :
  let '(l', _, _, res) := handle_at (fun _ => old_view) 503 (Some "F") in
  length (sent l') = 2 /\
  match res with Ok (Refused r) => resp_status r = 500%Z | _ => False end.
Proof. vm_compute. split; reflexivity. Qed.

Definition sample_preq : ProviderRequest :=
  {| pr_Model := "m"; pr_Messages := JObj []; pr_MaxTokens := 1; pr_Temperature := None; pr_Stream := true;
     pr_APIKey := "k"; pr_URL := "http://ollama"; pr_System := None; pr_Tools := None; pr_ToolChoice := None;
     pr_Metadata := ∅; pr_Thinking := None |}.

Lemma openai_client_error_becomes_500_witness :
  exists e, tryStream any_url (answers 401) OpenAICompatAdapter sample_preq [] =
    ([http_request OpenAICompatAdapter sample_preq true; http_request OpenAICompatAdapter sample_preq true], inr e) /\
    resp_status (forward_error (fun s => s) (Wrapped "egress" (Wrapped "egress: provider 5xx after retry" e)) "t") = 500%Z.
Proof.
  apply (openai_client_error_becomes_500 any_url (answers 401) (fun s => s) sample_preq [] 401 "" None 401 "" None "t");
    try reflexivity; lia.
Defined.

Lemma forward_never_panics_witness : (handle_at (fun _ => old_view) 200 None).2 <> Panic.
Proof.
  apply (forward_never_panics any_url (answers 200) (fun s => s) "" (fun _ => old_view) wireAdapters no_pg None
    sample_env sample_http None no_log None).
  intros pt name pool m Hp Hm. cbn in Hp. apply lookup_singleton_Some in Hp as [_ <-]. cbn in Hm.
  apply list_elem_of_singleton in Hm as ->. reflexivity.
Defined.

Definition sample_member : Member :=
  {| EndpointID := "ep1"; Wire := "anthropic"; VendorID := "anthropic"; m_Model := "claude-x"; m_URL := "https://old";
     TrustTier := "vendor"; DataResidency := "us"; m_Streaming := true; Private := false; OriginalWeight := 3 |}.
Definition sample_raw : anthropicRequest := default zero_request (dec_request max_depth (Some sample_body)).


Lemma malformed_forward_refused_witness :
  exists resp, handle_at (fun _ => old_view) 200 (Some "G") = (no_log, None, [], Ok (Refused resp)) /\
    resp_status resp = 400%Z.
Proof.
  apply (malformed_forward_refused any_url (answers 200) (fun s => s) "" (fun _ => old_view) wireAdapters no_pg None
    sample_env sample_http (Some "G") no_log None). right. split; [reflexivity|exact I].
Defined.
