(* ===== verification/Relay.v ===== *)
(** * Relay and settlement

    The end of a request: [HandleForward]'s read loop (handlers.go) against
    the accounting goroutine of [AccountedStream] (stream_accounting.go),
    which write and read the two ends of an [io.Pipe], and the [PostAccount]
    callback that settles the reservation.  A write to the pipe returns once
    all its bytes have been read; the handler never closes its end. *)

From stdpp Require Import sorting base gmap strings fin_maps numbers pretty list relations.
From S2P Require Import Prelude Postgres GoData Config Policy Routing Budget Edge Auth Handlers Json Capability Cost Stream Transformer Classifier OpenAI Provider Pipeline.
Local Open Scope string_scope.

(** ** The machine *)

(** What the goroutine still does: write to the pipe, hand the cost event to
    the cost writer, or call [PostAccount]. *)
Inductive act := Emit (s : string) | Bill | Settle.

#[export] Instance act_eq_dec : EqDecision act.
Proof. solve_decision. Defined.

(** [buf := make([]byte, 4096)] *)
Definition bufSize : nat := N.to_nat 4096.
Lemma bufSize_pos : 0 < bufSize.
Proof. unfold bufSize. lia. Qed.
#[global] Opaque bufSize.

Record relay := {
  script : list act;
  got : list string;          (** what was written to the client *)
  alive : option nat;         (** how many more writes to the client succeed *)
  returned : bool;            (** the handler has returned *)
  ran : list act              (** calls of the cost writer and of [PostAccount] *) }.

Inductive step : relay -> relay -> Prop :=
| step_read s k g al n :        (** read a chunk, the client takes it *)
    s <> "" -> al <> Some 0 ->
    step {| script := Emit s :: k; got := g; alive := al; returned := false; ran := n |}
         {| script := Emit (str_drop bufSize s) :: k; got := (g ++ [str_take bufSize s])%list;
            alive := Nat.pred <$> al; returned := false; ran := n |}
| step_gone s k g n :           (** read a chunk, the client is gone *)
    s <> "" ->
    step {| script := Emit s :: k; got := g; alive := Some 0; returned := false; ran := n |}
         {| script := Emit (str_drop bufSize s) :: k; got := g; alive := Some 0; returned := true; ran := n |}
| step_written k g al ret n :   (** the pipe write returns *)
    step {| script := Emit "" :: k; got := g; alive := al; returned := ret; ran := n |}
         {| script := k; got := g; alive := al; returned := ret; ran := n |}
| step_call a k g al ret n :
    a = Bill \/ a = Settle ->
    step {| script := a :: k; got := g; alive := al; returned := ret; ran := n |}
         {| script := k; got := g; alive := al; returned := ret; ran := (n ++ [a])%list |}
| step_eof g al n :             (** the writer is closed, the handler returns *)
    step {| script := []; got := g; alive := al; returned := false; ran := n |}
         {| script := []; got := g; alive := al; returned := true; ran := n |}.

(** The calls of the cost writer and of [PostAccount]: none when it is nil. *)
Definition billing (r : StreamRun) : list act := (fun _ => Bill) <$> run_costWrites r.
Definition settling (r : StreamRun) : list act := (fun _ => Settle) <$> run_post r.

(** The goroutine's writes, as [run] makes them to a client that reads on:
    every line, then the cost event, then the tail event; [PostAccount] comes
    after the tail on a normal end and before it on an error. *)
Definition acts (r : StreamRun) : list act :=
  let w := written (run_pipe r) in
  let tail := default "" (last w) in
  ((Emit <$> removelast w) ++ billing r ++
   match res_Err (run_result r) with None => Emit tail :: settling r | Some _ => settling r ++ [Emit tail] end)%list.

Definition start (sc : list act) (al : option nat) : relay :=
  {| script := sc; got := []; alive := al; returned := false; ran := [] |}.

(** ** What the goroutine gets to do *)

(** Reads needed for one write. *)
Definition chunks (s : string) : nat := (String.length s + (bufSize - 1)) / bufSize.

(** The calls made when the handler makes [reads] reads ([None]: as many as
    there are bytes for): a write returns once all its bytes have been read. *)
Fixpoint performed (reads : option nat) (sc : list act) : list act :=
  match sc with
  | [] => []
  | Emit s :: k =>
      match reads with
      | None => performed None k
      | Some n => if (chunks s <=? n)%nat then performed (Some (n - chunks s)) k else []
      end
  | a :: k => a :: performed reads k
  end.

(** The reads the handler will still make: the one whose bytes the client
    refuses included. *)
Definition reads_left (s : relay) : option nat := if returned s then Some 0 else S <$> alive s.
Definition outcome_of (s : relay) : list act := (ran s ++ performed (reads_left s) (script s))%list.

(** Calls of [PostAccount] and of the cost writer. *)
Definition settlements (l : list act) : nat := count_occ act_eq_dec l Settle.
Definition bills (l : list act) : nat := count_occ act_eq_dec l Bill.

Fixpoint payload (sc : list act) : string :=
  match sc with [] => "" | Emit s :: k => s +:+ payload k | _ :: k => payload k end.

Lemma str_take_drop n s : str_take n s +:+ str_drop n s = s.
Proof. revert s. induction n as [|n IH]; intros [|c s]; cbn; rewrite ?IH; done. Qed.

Lemma str_drop_length n s : String.length (str_drop n s) = String.length s - n.
Proof. revert s. induction n as [|n IH]; intros [|c s]; cbn; rewrite ?IH; done. Qed.

Lemma chunks_read s : s <> "" -> chunks s = S (chunks (str_drop bufSize s)).
Proof.
  intros Hs. unfold chunks. rewrite str_drop_length. pose proof bufSize_pos as Hb.
  assert (0 < String.length s) by (destruct s; [done|cbn; lia]).
  destruct (Nat.le_gt_cases (String.length s) bufSize) as [Hle|Hgt].
  - replace (String.length s - bufSize) with 0 by lia. cbn [Nat.add].
    rewrite (Nat.div_small (bufSize - 1)) by lia.
    replace (String.length s + (bufSize - 1)) with (1 * bufSize + (String.length s - 1)) by lia.
    rewrite Nat.div_add_l by lia. rewrite (Nat.div_small (String.length s - 1)) by lia. lia.
  - replace (String.length s + (bufSize - 1)) with (1 * bufSize + (String.length s - bufSize + (bufSize - 1))) by lia.
    rewrite Nat.div_add_l by lia. lia.
Qed.

Lemma chunks_empty : chunks "" = 0.
Proof. unfold chunks. cbn [String.length]. apply Nat.div_small. pose proof bufSize_pos. lia. Qed.

Lemma performed_emit n s k :
  performed (Some n) (Emit s :: k) = if (chunks s <=? n)%nat then performed (Some (n - chunks s)) k else [].
Proof. reflexivity. Qed.

(** A read takes one chunk. *)
Lemma performed_read n s k : s <> "" ->
  performed (Some (S n)) (Emit s :: k) = performed (Some n) (Emit (str_drop bufSize s) :: k).
Proof.
  intros Hs. rewrite !performed_emit, (chunks_read s Hs). generalize (chunks (str_drop bufSize s)). intros c.
  by rewrite Nat.sub_succ.
Qed.

Lemma outcome_step s s' : step s s' -> outcome_of s' = outcome_of s.
Proof.
  intros Hst. destruct Hst as [s k g al n Hs Hal|s k g n Hs|k g al ret n|a k g al ret n Ha|g al n];
    unfold outcome_of, reads_left; cbn [ran returned alive script].
  - destruct al as [[|a]|]; [done| |done]. cbn [fmap option_fmap option_map Nat.pred].
    by rewrite (performed_read (S a)).
  - cbn [fmap option_fmap option_map]. by rewrite (performed_read 0).
  - f_equal. cbn [performed]. rewrite chunks_empty.
    destruct (if ret then _ else _) as [m|]; [|done]. by rewrite Nat.sub_0_r.
  - destruct Ha as [-> | ->]; cbn [performed]; by rewrite <- app_assoc.
  - done.
Qed.

Lemma outcome_steps s s' : rtc step s s' -> outcome_of s' = outcome_of s.
Proof. induction 1 as [|s s1 s2 H _ IH]; [done|]. by rewrite IH, (outcome_step s s1). Qed.

(** In a state without steps nothing more will be done. *)
Lemma outcome_final s : nf step s -> outcome_of s = ran s.
Proof.
  intros Hnf. unfold outcome_of, reads_left. destruct s as [sc g al ret n]. cbn [ran script returned alive].
  destruct sc as [|[s| |] k]; [by destruct ret; rewrite app_nil_r| |by destruct Hnf; eexists; apply step_call; auto..].
  destruct (decide (s = "")) as [->|Hs]; [destruct Hnf; eexists; apply step_written|].
  destruct ret.
  - cbn [performed]. rewrite (chunks_read s Hs). by rewrite app_nil_r.
  - exfalso. apply Hnf. destruct (decide (al = Some 0)) as [->|Hal]; eexists; [by apply step_gone|by apply step_read].
Qed.

(** *** Every execution ends *)

Fixpoint weight (sc : list act) : nat :=
  match sc with [] => 0 | Emit s :: k => S (String.length s + weight k) | _ :: k => S (weight k) end.
Definition potential (s : relay) : nat := weight (script s) + if returned s then 0 else 1.

Lemma potential_step s s' : step s s' -> potential s' < potential s.
Proof.
  pose proof bufSize_pos as Hb.
  intros Hst. destruct Hst as [s k g al n Hs Hal|s k g n Hs|k g al ret n|a k g al ret n [-> | ->]|g al n];
    unfold potential; cbn [script returned weight String.length]; try rewrite str_drop_length; try lia.
  all: destruct s; [done|]; cbn [String.length]; lia.
Qed.

Lemma step_dec s : {s' | step s s'} + {nf step s}.
Proof.
  destruct s as [[|[s| |] k] g al ret n].
  - destruct ret; [right; intros [s' Hs]; inversion Hs; naive_solver|left; eexists; apply step_eof].
  - destruct (decide (s = "")) as [->|Hs]; [left; eexists; apply step_written|].
    destruct ret.
    + right. intros [s' Hst]. inversion Hst; naive_solver.
    + left. destruct (decide (al = Some 0)) as [->|Hal]; eexists; [by apply step_gone|by apply step_read].
  - left. eexists. by apply step_call; left.
  - left. eexists. by apply step_call; right.
Qed.

Lemma relay_ends s : exists s', rtc step s s' /\ nf step s'.
Proof.
  remember (potential s) as n eqn:Hn. revert s Hn. induction (lt_wf n) as [n _ IH]. intros s ->.
  destruct (step_dec s) as [[s1 H1]|Hnf]; [|by exists s].
  destruct (IH _ (potential_step _ _ H1) s1 eq_refl) as (s2 & H2 & Hnf). exists s2. split; [by eapply rtc_l|done].
Qed.

(** *** What the client has received *)

(** Written, lost with a client that is gone, still to come. *)
Definition delivered (total : string) (s : relay) : Prop :=
  exists lost, concat_all (got s) +:+ (lost +:+ payload (script s)) = total /\ (returned s = false -> lost = "") /\
    (alive s = None -> lost = "").

Lemma delivered_step total s s' : delivered total s -> step s s' -> delivered total s'.
Proof.
  intros (lost & Ht & Hr & Ha) Hst.
  destruct Hst as [s k g al n Hs Hal|s k g n Hs|k g al ret n|a k g al ret n Hcall|g al n];
    cbn [got script returned alive payload] in *.
  - rewrite Hr in Ht by done. exists "". split; [|done]. cbn [got script payload].
    rewrite concat_all_app. cbn [concat_all foldr]. rewrite str_app_nil_r, str_app_assoc.
    cbn [String.append]. rewrite <- (str_app_assoc (str_take bufSize s)), str_take_drop. exact Ht.
  - rewrite Hr in Ht by done. exists (str_take bufSize s). split; [|by split]. cbn [got script payload].
    rewrite <- (str_app_assoc (str_take bufSize s)), str_take_drop. exact Ht.
  - by exists lost.
  - destruct Hcall as [-> | ->]; by exists lost.
  - by exists lost.
Qed.

Lemma delivered_start sc al : delivered (payload sc) (start sc al).
Proof. by exists "". Qed.

Lemma delivered_steps total s s' : rtc step s s' -> delivered total s -> delivered total s'.
Proof. induction 1 as [|s s1 s2 H _ IH]; [done|]. intros Hd. apply IH. by eapply delivered_step. Qed.

Lemma alive_none s s' : rtc step s s' -> alive s = None -> alive s' = None.
Proof. induction 1 as [|s s1 s2 H _ IH]; [done|]. intros Hn. apply IH. by destruct H; cbn in *; subst. Qed.

(** A client that reads on leaves nothing behind. *)
Lemma script_empty s0 s : rtc step s0 s -> nf step s -> alive s0 = None -> (returned s0 = true -> script s0 = []) -> script s = [].
Proof.
  intros Hst Hnf Ha Hr. revert Ha Hr.
  assert (forall s1 s2, step s1 s2 -> alive s1 = None -> (returned s1 = true -> script s1 = []) -> returned s2 = true -> script s2 = []) as Hkeep.
  { intros s1 s2 H. destruct H; cbn; intros; subst; try done; by specialize (H0 eq_refl) || naive_solver. }
  induction Hst as [s|s s1 s2 H1 H2 IH]; intros Ha Hr.
  - destruct (returned s) eqn:He; [by apply Hr|]. exfalso. apply Hnf.
    destruct (step_dec s) as [[s' H]|H]; [by exists s'|]. exfalso. destruct s as [[|[t| |] k] g a ret n]; cbn in *; subst;
      apply H; [eexists; apply step_eof| |eexists; apply step_call; auto..].
    destruct (decide (t = "")) as [->|Ht]; eexists; [apply step_written|by apply step_read].
  - apply IH; [done| |by eapply Hkeep]. apply (alive_none s s1); [by apply rtc_once|done].
Qed.

Section Settlement.
Context {cel : CEL} {srt : SortSlice} {rand : Random} {js : JSON} {pgt : PgTypes} (overflow : float64 -> Z).
Context (validURL : string -> bool) (upstream : list HTTPRequest -> HTTPRequest -> Reply).
Context (quote : string -> string) (decodeError : string).

(** The accounting of a stream that is read to its end. *)
Lemma run_to_end cfg body end_ :
  let r := run overflow cfg body end_ client in
  written (run_pipe r) <> [] /\
  res_Err (run_result r) = match end_ with None => None | Some m => Some (ReadFailed m) end /\
  billing r = (if cfg_CostW cfg then [Bill] else []) /\ settling r = (if cfg_PostAccount cfg then [Settle] else []).
Proof.
  unfold run, billing, settling. destruct (forwardFrames_all (segments body) end_ client (cfg_Wire cfg) "" zero_acc eq_refl) as [a ->].
  destruct end_; cbn; (split_and!; [|done|by destruct (cfg_CostW cfg)|by destruct (cfg_PostAccount cfg)]);
    unfold pipe_write; cbn; intros Hw;
    apply (f_equal length) in Hw; rewrite length_app in Hw; cbn in Hw; lia.
Qed.

Lemma payload_app sc1 sc2 : payload (sc1 ++ sc2)%list = payload sc1 +:+ payload sc2.
Proof. induction sc1 as [|[s| |] sc1 IH]; cbn; [done|by rewrite IH, str_app_assoc|done|done]. Qed.
Lemma payload_emits ss : payload (Emit <$> ss) = concat_all ss.
Proof. unfold concat_all. induction ss as [|s ss IH]; cbn; [done|]. by rewrite IH. Qed.

Lemma payload_calls {T} a (l : list T) : a = Bill \/ a = Settle -> payload ((fun _ => a) <$> l) = "".
Proof. intros Ha. induction l as [|x l IH]; [done|]. cbn [fmap list_fmap payload]. by destruct Ha as [-> | ->]. Qed.

Lemma acts_payload r : written (run_pipe r) <> [] -> payload (acts r) = bytes_out (run_pipe r).
Proof.
  unfold acts, bytes_out. destruct (written (run_pipe r)) as [|w0 ws] using rev_ind; [done|]. intros _.
  rewrite removelast_last, last_snoc. cbn [default].
  rewrite !payload_app, payload_emits, concat_all_app. f_equal. unfold billing. rewrite payload_calls by auto.
  destruct (res_Err _); unfold settling; rewrite ?payload_app; cbn [payload]; by rewrite payload_calls by auto.
Qed.

(** *** Calls in terms of reads *)

Definition reads_of (ss : list string) : nat := sum_list_with chunks ss.
(** Reads before the cost event, and before [PostAccount]. *)
Definition reads_to_bill (r : StreamRun) : nat := reads_of (removelast (written (run_pipe r))).
Definition reads_to_settle (r : StreamRun) : nat :=
  reads_to_bill r +
  match res_Err (run_result r) with None => chunks (default "" (last (written (run_pipe r)))) | Some _ => 0 end.
Definition enough (reads : option nat) (n : nat) : bool := match reads with None => true | Some m => (n <=? m)%nat end.

Lemma performed_emits reads ss k :
  performed reads ((Emit <$> ss) ++ k)%list =
  if enough reads (reads_of ss) then performed (match reads with None => None | Some m => Some (m - reads_of ss) end) k else [].
Proof.
  revert reads. induction ss as [|s ss IH]; intros [m|]; cbn [fmap list_fmap app performed reads_of sum_list_with enough];
    [by rewrite Nat.sub_0_r|done| |by rewrite IH].
  destruct (Nat.leb_spec (chunks s) m) as [Hle|Hgt].
  - rewrite IH. cbn [enough]. unfold reads_of.
    rewrite Nat.sub_add_distr.
    destruct (Nat.leb_spec (sum_list_with chunks ss) (m - chunks s)), (Nat.leb_spec (chunks s + sum_list_with chunks ss) m);
      try done; lia.
  - unfold reads_of. by destruct (Nat.leb_spec (chunks s + sum_list_with chunks ss) m); [lia|].
Qed.

Lemma performed_calls {T} a (l : list T) reads k :
  a = Bill \/ a = Settle -> performed reads (((fun _ => a) <$> l) ++ k)%list = (((fun _ => a) <$> l) ++ performed reads k)%list.
Proof.
  intros Ha. induction l as [|x l IH]; [done|]. cbn [fmap list_fmap app performed]. destruct Ha as [-> | ->]; by f_equal.
Qed.

Lemma performed_acts reads r :
  performed reads (acts r) =
  if enough reads (reads_to_settle r) then (billing r ++ settling r)%list
  else if enough reads (reads_to_bill r) then billing r else [].
Proof.
  unfold acts. rewrite performed_emits. fold (reads_to_bill r). unfold reads_to_settle. set (t := chunks _).
  assert (forall rd k, performed rd (settling r ++ k)%list = (settling r ++ performed rd k)%list) as Hset
    by (intros; apply performed_calls; auto).
  assert (forall rd k, performed rd (billing r ++ k)%list = (billing r ++ performed rd k)%list) as Hbil
    by (intros; apply performed_calls; auto).
  assert (forall rd, performed rd (settling r) = settling r) as Hset0.
  { intros rd. rewrite <- (app_nil_r (settling r)) at 1. rewrite Hset. cbn. apply app_nil_r. }
  assert (forall m, (reads_to_bill r <=? m)%nat = false ->
    (reads_to_bill r + match res_Err (run_result r) with Some _ => 0 | None => t end <=? m)%nat = false) as Hle.
  { intros m H%Nat.leb_gt. apply Nat.leb_gt. destruct (res_Err _); lia. }
  destruct reads as [m|]; cbn [enough] in *.
  - destruct (reads_to_bill r <=? m)%nat eqn:Hb; [|by rewrite (Hle m)]. rewrite Hbil.
    destruct (res_Err _); rewrite ?Nat.add_0_r, ?Hb.
    + rewrite Hset. cbn [performed]. destruct (chunks _ <=? _)%nat; by rewrite app_nil_r.
    + cbn [performed]. fold t. apply Nat.leb_le in Hb. destruct (Nat.leb_spec t (m - reads_to_bill r)),
        (Nat.leb_spec (reads_to_bill r + t) m); try lia; [by rewrite Hset0|by rewrite app_nil_r].
  - rewrite Hbil. f_equal. destruct (res_Err _); [|by cbn [performed]]. rewrite Hset. cbn. apply app_nil_r.
Qed.

(** The end of every execution, for a client that takes [al] writes ([None]:
    all of them). *)
Lemma relay_end cfg body end_ al s :
  let r := run overflow cfg body end_ client in
  rtc step (start (acts r) al) s -> nf step s ->
  returned s = true /\ ran s = performed (S <$> al) (acts r) /\
  (exists rest, concat_all (got s) +:+ rest = bytes_out (run_pipe r)) /\
  (al = None -> script s = [] /\ concat_all (got s) = bytes_out (run_pipe r)).
Proof.
  intros r Hst Hnf. destruct (run_to_end cfg body end_) as (Hw & _). fold r in Hw.
  pose proof (outcome_steps _ _ Hst) as Ho. rewrite (outcome_final s Hnf) in Ho.
  pose proof (delivered_steps _ _ _ Hst (delivered_start _ _)) as (lost & Hd & _ & Ha).
  rewrite (acts_payload r Hw) in Hd.
  assert (returned s = true) as Hret.
  { destruct (returned s) eqn:He; [done|]. exfalso. apply Hnf. destruct s as [[|[t| |] k] g a ret n]; cbn in He; subst.
    - eexists. apply step_eof.
    - destruct (decide (t = "")) as [->|Ht]; [eexists; apply step_written|].
      destruct (decide (a = Some 0)) as [->|]; eexists; [by apply step_gone|by apply step_read].
    - eexists. apply step_call. by left.
    - eexists. apply step_call. by right. }
  split; [done|]. split; [exact Ho|]. split; [by eexists|]. intros ->.
  assert (script s = []) as Hsc.
  { by apply (script_empty (start (acts r) None)). }
  split; [done|]. pose proof (alive_none _ _ Hst eq_refl) as Hal. rewrite (Ha Hal), Hsc in Hd. cbn in Hd.
  by rewrite str_app_nil_r in Hd.
Qed.

(** C26: a client that keeps reading gets everything and the request settles:
    every execution of handler and goroutine can be continued to its end, and
    at the end the handler has returned, the goroutine is done, the client has
    received exactly the bytes [run] writes, and the cost writer, when there is
    one, and then [PostAccount], when it is set, have each been called once. *)
Theorem relay_completes cfg body end_ :
  let r := run overflow cfg body end_ client in
  (forall s, rtc step (start (acts r) None) s -> exists s', rtc step s s' /\ nf step s') /\
  (forall s, rtc step (start (acts r) None) s -> nf step s ->
     returned s = true /\ script s = [] /\
     ran s = ((if cfg_CostW cfg then [Bill] else []) ++ (if cfg_PostAccount cfg then [Settle] else []))%list /\
     concat_all (got s) = bytes_out (run_pipe r)).
Proof.
  intros r. split; [intros s _; apply relay_ends|]. intros s Hst Hnf.
  destruct (relay_end cfg body end_ None s Hst Hnf) as (Hr & Ho & _ & Hn). destruct (Hn eq_refl) as [Hsc Hg].
  split_and!; [done|done| |done]. rewrite Ho. fold r. rewrite performed_acts. cbn [enough].
  destruct (run_to_end cfg body end_) as (_ & _ & Hb & Hs). fold r in Hb, Hs. by rewrite Hb, Hs.
Qed.

(** A client that goes away: when the client takes [n] writes, every
    execution ends with the handler returned, the client has received a prefix
    of the stream, the cost writer is called exactly when the provider's lines
    take at most n + 1 reads, and [PostAccount] exactly when the writes before
    it do; otherwise the goroutine is left blocked in a write. *)
Theorem relay_any_client cfg body end_ n :
  let r := run overflow cfg body end_ client in
  (forall s, rtc step (start (acts r) (Some n)) s -> exists s', rtc step s s' /\ nf step s') /\
  (forall s, rtc step (start (acts r) (Some n)) s -> nf step s ->
     returned s = true /\ (exists rest, concat_all (got s) +:+ rest = bytes_out (run_pipe r)) /\
     ran s = if (reads_to_settle r <=? n + 1)%nat then (billing r ++ settling r)%list
             else if (reads_to_bill r <=? n + 1)%nat then billing r else []).
Proof.
  intros r. split; [intros s _; apply relay_ends|]. intros s Hst Hnf.
  destruct (relay_end cfg body end_ (Some n) s Hst Hnf) as (Hr & Ho & Hg & _). split_and!; [done|done|].
  rewrite Ho. fold r. cbn [fmap option_fmap option_map]. rewrite performed_acts. cbn [enough]. by rewrite Nat.add_1_r.
Qed.

(** [PostAccount] on a row of the table. *)
Lemma PostAccount_row svc id r0 now (res : StreamAccountingResult) :
  table svc !! id = Some r0 ->
  let cents := ce_CostCents (res_CostEvent res) in
  let svc2 := PostAccount (Some id) true now svc res in
  table svc2 !! id = Some (match res_Err res with
    | None => if bool_decide (r_State r0 = StateReserved) && int4 cents then committed r0 cents (pg_time now) else r0
    | Some _ => if bool_decide (r_State r0 <> StateReleased /\ r_State r0 <> StateExpired)
                then settled r0 StateReleased (pg_time now) else r0
    end) /\
  (forall id', id' <> id -> table svc2 !! id' = table svc !! id').
Proof.
  intros Hr cents svc2. unfold svc2, PostAccount, Pg_Release, Pg_Commit. fold cents. cbn [negb table set_table].
  rewrite Hr, orb_false_r. destruct (res_Err res).
  - case_decide as Hd; rewrite ?bool_decide_eq_true_2, ?bool_decide_eq_false_2 by done; cbn [fst table set_table].
    + split; [by rewrite lookup_insert_eq|]. intros id' Hne. by rewrite lookup_insert_ne.
    + done.
  - destruct (int4 cents); cbn [negb orb]; [|by rewrite andb_false_r]. rewrite andb_true_r.
    case_decide as Hd; rewrite ?bool_decide_eq_true_2, ?bool_decide_eq_false_2 by done; cbn [fst table set_table].
    + split; [by rewrite lookup_insert_eq|]. intros id' Hne. by rewrite lookup_insert_ne.
    + done.
Qed.

(** C5: a forwarded request whose client reads to the end settles its
    reservation.  Given a trace id that is a UUID, an unused reservation id and
    statements that succeed, [Run] leaves a reserved row of the request's
    team and trace.  Let any other budget calls follow (other requests' calls,
    passes of the settler, changes of caps), none of which commits or releases
    this row by name.  However handler and goroutine are scheduled, once the
    relay has stopped and [PostAccount] has run as often as the goroutine
    called it: if no pass of the settler expired the row before, it is
    committed at the cost of the cost event when the provider's stream ended
    normally and that cost fits the INTEGER column, and released when the
    stream broke off; a row that was expired stays expired; and no other row is
    changed by the request. *)
Theorem request_settles_reservation live adapters pg calc env ctx req tr u l svc l' b' rows res calls now :
  Run validURL upstream quote decodeError live adapters pg calc env ctx req tr l (Some svc) = (l', b', rows, Ok res) ->
  uuid_text tr = Some u -> env_db env = true -> table svc !! env_id env = None ->
  Forall (others (env_id env)) calls ->
  let r := run overflow (pl_Accounting res) (rc_text (pl_Body res)) (rc_end (pl_Body res)) client in
  let cents := ce_CostCents (res_CostEvent (run_result r)) in
  exists svc1 row0, b' = Some svc1 /\ table svc1 !! env_id env = Some row0 /\
    r_State row0 = StateReserved /\ TraceID row0 = u /\ TeamID row0 = GetTeamID ctx /\
    (forall id, id <> env_id env -> table svc1 !! id = table svc !! id) /\
    let svc2 := fold_left pg_apply calls svc1 in
    forall s, rtc step (start (acts r) None) s -> nf step s ->
    let svc3 := Nat.iter (settlements (ran s)) (fun sv => PostAccount (pl_Reservation res) true now sv (run_result r)) svc2 in
    (exists row, table svc3 !! env_id env = Some row /\
       if existsb (expires (CreatedAt row0)) calls then r_State row = StateExpired
       else match rc_end (pl_Body res) with
            | None => int4 cents = true -> r_State row = StateCommitted /\ ActualCents row = Some cents
            | Some _ => r_State row = StateReleased /\ ActualCents row = None
            end) /\
    (forall id, id <> env_id env -> table svc3 !! id = table svc2 !! id).
Proof.
  intros (dec & m & chain & m2 & chain2 & a & preq & _ & _ & _ & _ & _ & _ & _ & _ & Hpa & Hb)%Run_ok Hu Hdb Hfresh Ho r cents.
  destruct Hb as (o & alerts & Hrs & [svc1 ->] & Hid). unfold Pg_Reserve in Hrs. rewrite Hu, Hdb, Hfresh in Hrs.
  rewrite bool_decide_eq_false_2 in Hrs by (by intros [? [=]]). cbn [negb orb default int4 andb Z.leb Z.ltb] in Hrs.
  injection Hrs as Hsvc Ho' _. subst o. exists svc1. eexists. split; [done|]. rewrite <- Hsvc. cbn [table set_table].
  split; [by rewrite lookup_insert_eq|]. split_and!; [done|done|done| |].
  { intros id Hne. by rewrite lookup_insert_ne. }
  rewrite Hsvc. set (row0 := newReservation _ _ _ _ _ _ _) in *. intros s Hs Hnf.
  destruct (run_to_end (pl_Accounting res) (rc_text (pl_Body res)) (rc_end (pl_Body res))) as (_ & Herr & _ & Hset).
  fold r in Herr, Hset. rewrite Hpa, bool_decide_eq_true_2 in Hset by (rewrite Hid; by eexists). cbn iota in Hset.
  destruct (relay_end (pl_Accounting res) (rc_text (pl_Body res)) (rc_end (pl_Body res)) None s Hs Hnf) as (_ & Hran & _).
  fold r in Hran. rewrite performed_acts, Hset in Hran. cbn [enough fmap option_fmap option_map] in Hran. rewrite Hran, Hid.
  assert (settlements (billing r ++ [Settle])%list = 1) as ->.
  { unfold settlements, billing. rewrite count_occ_app. by induction (run_costWrites r). }
  cbn [Nat.iter nat_rect ID newReservation].
  assert (table svc1 !! env_id env = Some row0) as Hrow0 by (rewrite <- Hsvc; cbn; by rewrite lookup_insert_eq).
  destruct (others_run _ calls svc1 row0 Ho Hrow0 eq_refl) as (row1 & Hrow1 & Hex).
  destruct (PostAccount_row _ _ row1 now (run_result r) Hrow1) as [Hrow Hother]. fold cents in Hrow.
  split; [|exact Hother]. eexists. split; [exact Hrow|]. rewrite Herr. clear Hrow Hother.
  destruct (existsb _ calls).
  - destruct Hex as [tm ->]. destruct (rc_end (pl_Body res)); cbn; done.
  - subst row1. destruct (rc_end (pl_Body res)); [done|]. intros ->. done.
Qed.
End Settlement.

(** ** Concrete runs *)

#[local] Existing Instance sample_cel.
#[local] Existing Instance mergeSortSlice.
#[local] Existing Instance sample_random.
#[local] Existing Instance forward_json.
#[local] Existing Instance strict_types.

Definition three_lines : StreamRun :=
  run (fun _ => 0%Z) Stream.sample_cfg (frame_text [sample_ev "ping" "x"]) None client.

Lemma relay_any_client_witness :
  exists s, rtc step (start (acts three_lines) (Some 0)) s /\ nf step s /\ ran s = [].
Proof.
  destruct (relay_any_client (fun _ => 0%Z) Stream.sample_cfg (frame_text [sample_ev "ping" "x"]) None 0) as [H1 H2].
  destruct (H1 _ (rtc_refl _ _)) as (s & Hst & Hnf). exists s. split; [exact Hst|]. split; [exact Hnf|].
  destruct (H2 s Hst Hnf) as (_ & _ & Hr). rewrite Hr. by vm_compute.
Defined.

(** Between reservation and settlement another request reserves, and a pass
    of the settler comes early enough. *)
Definition meanwhile : list (bool * op) :=
  [(true, OReserve 2 8 sample_trace "t" "u" "t" 100); (true, OReleaseExpired [] 9 600000000000)].
Definition traced_run : Log * option PgService * list PgRow * outcome error PipelineResult :=
  Run any_url (answers 200) (fun s => s) "" (fun _ => old_view) wireAdapters no_pg None sample_env Background
    sample_forward sample_trace no_log (Some NewPgService).

Lemma request_settles_reservation_witness :
  exists svc row, table svc !! 1%N = Some row /\ r_State row = StateCommitted /\ ActualCents row = Some 0%Z.
Proof.
  destruct traced_run as [[[l' b'] rows] [res|e|]] eqn:Hr; [|vm_compute in Hr; discriminate..].
  assert (rc_end (pl_Body res) = None /\ ce_CostCents (res_CostEvent (run_result (run (fun _ => 0%Z) (pl_Accounting res)
    (rc_text (pl_Body res)) (rc_end (pl_Body res)) client))) = 0%Z) as [Hend Hc].
  { vm_compute in Hr. injection Hr as _ _ _ <-. vm_compute. split; reflexivity. }
  destruct (request_settles_reservation (fun _ => 0%Z) any_url (answers 200) (fun s => s) "" (fun _ => old_view)
    wireAdapters no_pg None sample_env Background sample_forward sample_trace sample_trace no_log NewPgService l' b' rows
    res meanwhile 9 Hr eq_refl eq_refl eq_refl) as (svc1 & row0 & Hb & Hrow0 & _ & _ & _ & _ & H).
  { repeat constructor. }
  assert (CreatedAt row0 = 0%Z) as Hcr.
  { subst b'. vm_compute in Hr. injection Hr as _ <- _ _. vm_compute in Hrow0. by injection Hrow0 as <-. }
  match type of H with context [start (acts ?r) None] => destruct (relay_ends (start (acts r) None)) as (s & Hs & Hnf) end.
  destruct (H s Hs Hnf) as [(row & Hrow & Hst) _]. rewrite Hcr, Hc, Hend in Hst.
  assert (existsb (expires 0) meanwhile = false) as Hex by (vm_compute; reflexivity). rewrite Hex in Hst.
  eexists _, row. split; [exact Hrow|]. exact (Hst eq_refl).
Defined.
