(* ===== verification/Reload.v ===== *)
(** * Secrets, configuration loading and hot reload

    [internal/gw/secretref/resolver.go], [internal/gw/config/loader.go] (with
    the [Load...] functions of pools.go, policy.go, pricing.go, identity.go)
    and the reload callback of [cmd/aicg-gw/main.go].  Files, environment
    variables and YAML decoding are the parameters of the classes [Files] and
    [Yaml]; the order in which a Go map is ranged over is the class
    [MapOrder]. *)

From Stdlib Require Import Ascii.
From stdpp Require Import sorting base gmap strings fin_maps numbers list.
From S2P Require Import Prelude GoData Config Policy Routing Json Cost Pipeline.
Local Open Scope string_scope.

(** ** The outside *)

Class Files := {
  ReadFile : string -> option string;          (** [None] when it cannot be read *)
  LookupEnv : string -> option string }.

(** [yaml.Unmarshal] into each top-level struct. *)
Class Yaml := {
  yaml_pools : string -> option PoolsConfig;
  yaml_policy : string -> option PolicyConfig;
  yaml_pricing : string -> option PricingConfig;
  yaml_users : string -> option (list UserIdentity);
  yaml_teams : string -> option (list TeamIdentity);
  yaml_repos : string -> option (list RepoIdentity) }.

Class MapOrder := {
  range {V} : gmap string V -> list (string * V);
  range_ranges {V} (m : gmap string V) : ranges (range m) m }.

(** ** resolver.go *)

Inductive SecretError :=
| EmptyEnvName (ref : string)
| Unresolved (ref : string)
| NotAbsolute (ref : string)
| DotDot (ref : string)
| ReadError (ref : string)
| VaultUnsupported
| UnsupportedScheme (ref : string).

(** [strings.SplitN(s, "\n", 2)[0]] *)
Definition first_line (s : string) : string :=
  match split_at newline s with Some (a, _) => a | None => s end.

(** [strings.TrimSpace] on ASCII text. *)
Definition is_space (c : ascii) : bool :=
  let n := nat_of_ascii c in ((9 <=? n) && (n <=? 13) || (n =? 32))%nat.
Fixpoint trim_left (s : string) : string :=
  match s with String c s' => if is_space c then trim_left s' else s | "" => "" end.
Fixpoint trim_right (s : string) : string :=
  match s with
  | "" => ""
  | String c s => let t := trim_right s in if is_space c && is_empty t then "" else String c t
  end.
Definition TrimSpace (s : string) : string := trim_right (trim_left s).

Section Loading.
Context {fs : Files} {yml : Yaml} {ord : MapOrder} {cel : CEL}.

Definition Resolve (ref : string) : outcome SecretError string :=
  if is_empty ref then Ok ""
  else if HasPrefix ref "env://" then
    let varName := TrimPrefix ref "env://" in
    if is_empty varName then Err (EmptyEnvName ref)
    else match LookupEnv varName with
         | Some val => if is_empty val then Err (Unresolved ref) else Ok val
         | None => Err (Unresolved ref)
         end
  else if HasPrefix ref "file://" then
    let path := TrimPrefix ref "file://" in
    if negb (HasPrefix path "/") then Err (NotAbsolute ref)
    else if Contains path ".." then Err (DotDot ref)
    else match ReadFile path with
         | None => Err (ReadError ref)
         | Some data => Ok (TrimSpace (first_line data))
         end
  else if HasPrefix ref "vault://" then Err VaultUnsupported
  else Err (UnsupportedScheme ref).

(** ** loader.go: Load *)

Inductive LoadError :=
| ReadFailed (what : string)
| ParseFailed (what : string)
| ValidatePools (e : PoolsError)
| ValidatePolicy (path : string) (e : PolicyError)
| ValidatePricing (e : PricingError)
| ValidateIdentity (e : IdentityError)
| PolicyPools (e : PolicyPoolsError)
| EndpointPricing (e : EndpointPricingError)
| EndpointSecret (id : string) (e : SecretError).

(** Read a file and decode it. *)
Definition read_yaml {A} (what path : string) (parse : string -> option A) : outcome LoadError A :=
  match ReadFile path with
  | None => Err (ReadFailed what)
  | Some data => match parse data with None => Err (ParseFailed what) | Some c => Ok c end
  end.

Definition LoadPools (path : string) : outcome LoadError PoolsConfig :=
  read_yaml "pools.yaml" path yaml_pools ≫= fun cfg =>
  wrap_err ValidatePools (PoolsConfig_Validate (range (Pools cfg)) cfg) ≫= fun _ => Ok cfg.
Definition LoadAndValidate (path data : string) : outcome LoadError PolicyConfig :=
  match yaml_policy data with
  | None => Err (ParseFailed "policy YAML")
  | Some cfg => wrap_err (ValidatePolicy path) (PolicyConfig_Validate cfg) ≫= fun _ => Ok cfg
  end.
Definition LoadPolicy (path : string) : outcome LoadError PolicyConfig :=
  match ReadFile path with None => Err (ReadFailed "policy file") | Some data => LoadAndValidate path data end.
Definition LoadPricing (path : string) : outcome LoadError PricingConfig :=
  read_yaml "pricing.yaml" path yaml_pricing ≫= fun cfg =>
  wrap_err ValidatePricing (PricingConfig_Validate cfg) ≫= fun _ => Ok cfg.
Definition LoadIdentity (usersPath teamsPath reposPath : string) : outcome LoadError IdentityConfig :=
  read_yaml "users.yaml" usersPath yaml_users ≫= fun users =>
  read_yaml "teams.yaml" teamsPath yaml_teams ≫= fun teams =>
  read_yaml "repos.yaml" reposPath yaml_repos ≫= fun repos =>
  let cfg := {| Users := users; Teams := teams; Repos := repos |} in
  wrap_err ValidateIdentity (IdentityConfig_Validate cfg) ≫= fun _ => Ok cfg.

(** One iteration of [resolveKeys]; an empty [key_ref] leaves the empty key. *)
Definition resolve_endpoint (id : string) (ep : ProviderEndpoint) : outcome LoadError EndpointWithKey :=
  if is_empty (ep_KeyRef ep) then Ok {| ewk_Endpoint := ep; ResolvedKey := "" |}
  else wrap_err (EndpointSecret id) (Resolve (ep_KeyRef ep)) ≫= fun key =>
       Ok {| ewk_Endpoint := ep; ResolvedKey := key |}.
Fixpoint resolve_loop (eps : list (string * ProviderEndpoint)) (out : gmap string EndpointWithKey)
    : outcome LoadError (gmap string EndpointWithKey) :=
  match eps with
  | [] => Ok out
  | (id, ep) :: eps => resolve_endpoint id ep ≫= fun e => resolve_loop eps (<[id := e]> out)
  end.
Definition resolveKeys (pools : PoolsConfig) : outcome LoadError (gmap string EndpointWithKey) :=
  resolve_loop (range (ProviderEndpoints pools)) ∅.

Record Loader := {
  PoolsPath : string; PolicyPath : string; PricingPath : string;
  UsersPath : string; TeamsPath : string; ReposPath : string }.

(** [(l *Loader) Load] *)
Definition Load (l : Loader) : outcome LoadError Config :=
  LoadPools (PoolsPath l) ≫= fun pools =>
  LoadPolicy (PolicyPath l) ≫= fun policy =>
  LoadPricing (PricingPath l) ≫= fun pricing =>
  let pricing := DefaultCurrencies pricing in
  LoadIdentity (UsersPath l) (TeamsPath l) (ReposPath l) ≫= fun identity =>
  wrap_err PolicyPools (ValidatePolicyAgainstPools policy pools) ≫= fun _ =>
  wrap_err EndpointPricing
    (ValidateEndpointsAgainstPricing (range (ProviderEndpoints pools)) (range (Pools pools)) pricing) ≫= fun _ =>
  resolveKeys pools ≫= fun resolved =>
  Ok {| cfg_Pools := pools; cfg_Policy := policy; cfg_Pricing := pricing; cfg_Identity := identity;
        cfg_ResolvedEndpoints := resolved |}.

(** ** loader.go: HotReloader *)

(** Counters by labels: an increment. *)
Abbreviation counters := (gmap (string * string) N).
Definition inc (m : counters) (l : string * string) : counters := <[l := (default 0 (m !! l) + 1)%N]> m.

Record HotReloader := {
  current : Config;
  loader : Loader;
  onReload : bool;                         (** a callback is registered *)
  watcher : bool;                          (** [Start] succeeded *)
  watched : gset string;                   (** the watcher's secret files *)
  secretPaths : gset string;
  pendingFiles : gset string;
  ConfigReloadTotal : counters;
  SecretReloadTotal : counters }.

(** [fileRefPaths], as a set: the callers only test membership and emptiness. *)
Definition fileRefPaths (endpoints : gmap string ProviderEndpoint) : gset string :=
  list_to_set (omap (fun e => if HasPrefix (ep_KeyRef e.2) "file://"
                              then Some (TrimPrefix (ep_KeyRef e.2) "file://") else None)
                    (map_to_list endpoints)).

Definition TriggerReload (h : HotReloader) : HotReloader :=
  {| current := current h; loader := loader h; onReload := onReload h; watcher := watcher h;
     watched := watched h; secretPaths := secretPaths h; pendingFiles := {["<sighup>"]} ∪ pendingFiles h;
     ConfigReloadTotal := ConfigReloadTotal h; SecretReloadTotal := SecretReloadTotal h |}.

(** [syncSecretWatches]; [canAdd] tells which [watcher.Add] calls succeed. *)
Definition syncSecretWatches (canAdd : string -> bool) (cfg : Config) (h : HotReloader) : HotReloader :=
  if negb (watcher h) then h
  else
    let wanted := fileRefPaths (ProviderEndpoints (cfg_Pools cfg)) in
    let added := filter (fun p => canAdd p = true) (wanted ∖ secretPaths h) in
    let dropped := secretPaths h ∖ wanted in
    {| current := current h; loader := loader h; onReload := onReload h; watcher := watcher h;
       watched := (watched h ∪ added) ∖ dropped; secretPaths := (secretPaths h ∪ added) ∖ dropped;
       pendingFiles := pendingFiles h;
       ConfigReloadTotal := ConfigReloadTotal h; SecretReloadTotal := SecretReloadTotal h |}.

Context (Base : string -> string) (errText : LoadError -> string).

(** The labels counted for a batch of pending files ("all" for none). *)
Definition file_labels (pending : gset string) (fallback : string) : list string :=
  if decide (pending = ∅) then [fallback] else Base <$> elements pending.
Definition count_files (m : counters) (files : list string) (result : string) : counters :=
  fold_left (fun m f => inc m (f, result)) files m.

(** [reload]: the new state and the configuration passed to the callback. *)
Definition reload (canAdd : string -> bool) (h : HotReloader) : HotReloader * option Config :=
  let pending := pendingFiles h in
  match Load (loader h) with
  | Ok newCfg =>
      let h := {| current := newCfg; loader := loader h; onReload := onReload h; watcher := watcher h;
                  watched := watched h; secretPaths := secretPaths h; pendingFiles := ∅;
                  ConfigReloadTotal := count_files (ConfigReloadTotal h)
                    (file_labels pending (Base "all")) "success";
                  SecretReloadTotal := SecretReloadTotal h |} in
      let h := syncSecretWatches canAdd newCfg h in
      let h := {| current := current h; loader := loader h; onReload := onReload h; watcher := watcher h;
                  watched := watched h; secretPaths := secretPaths h; pendingFiles := pendingFiles h;
                  ConfigReloadTotal := ConfigReloadTotal h;
                  SecretReloadTotal :=
                    if decide (fileRefPaths (ProviderEndpoints (cfg_Pools newCfg)) = ∅) then SecretReloadTotal h
                    else inc (SecretReloadTotal h) ("file", "success") |} in
      (h, if onReload h then Some newCfg else None)
  | Err err =>
      let errStr := errText err in
      let result := if Contains errStr "validate " then "validate_error" else "parse_error" in
      ({| current := current h; loader := loader h; onReload := onReload h; watcher := watcher h;
          watched := watched h; secretPaths := secretPaths h; pendingFiles := ∅;
          ConfigReloadTotal := count_files (ConfigReloadTotal h) (file_labels pending "all") result;
          SecretReloadTotal := if Contains errStr "secret_ref" then inc (SecretReloadTotal h) ("file", "resolve_error")
                               else SecretReloadTotal h |}, None)
  | Panic => (h, None)
  end.

(** ** Lemmas *)

Lemma first_line_no_newline s : free_of newline (first_line s) = true.
Proof.
  unfold first_line. induction s as [|c s IH]; [done|]. cbn.
  destruct (Ascii.eqb c newline) eqn:Hc; [done|]. destruct (split_at newline s) as [[a b]|]; cbn; by rewrite Hc.
Qed.

Lemma resolve_loop_spec eps out res :
  NoDup (eps.*1) -> resolve_loop eps out = Ok res ->
  forall id, match (list_to_map eps : gmap string ProviderEndpoint) !! id with
             | Some ep => exists e, res !! id = Some e /\ resolve_endpoint id ep = Ok e
             | None => res !! id = out !! id
             end.
Proof.
  revert out. induction eps as [|[i ep] eps IH]; intros out Hnd; cbn.
  { intros [= <-] id. by rewrite lookup_empty. }
  apply NoDup_cons in Hnd as [Hi Hnd]. intros (e & He & Hrest)%bind_ok id.
  specialize (IH _ Hnd Hrest id). destruct (decide (id = i)) as [->|Hne].
  - rewrite lookup_insert_eq. rewrite (not_elem_of_list_to_map_1 eps i Hi) in IH.
    rewrite lookup_insert_eq in IH. by exists e.
  - rewrite lookup_insert_ne by done. destruct (list_to_map eps !! id); [done|].
    by rewrite lookup_insert_ne in IH.
Qed.

Lemma range_to_map {V} (m : gmap string V) : NoDup (range m).*1 /\ list_to_map (range m) = m.
Proof.
  pose proof (range_ranges m) as Hr. unfold ranges in Hr.
  assert (NoDup (range m).*1) as Hnd by (rewrite Hr; apply NoDup_fst_map_to_list).
  split; [done|]. rewrite <- (list_to_map_to_list m) at 2. by apply list_to_map_proper.
Qed.

Lemma resolveKeys_spec pools res :
  resolveKeys pools = Ok res ->
  forall id, match ProviderEndpoints pools !! id with
             | Some ep => exists e, res !! id = Some e /\ resolve_endpoint id ep = Ok e
             | None => res !! id = None
             end.
Proof.
  intros H id. destruct (range_to_map (ProviderEndpoints pools)) as [Hnd Hm].
  pose proof (resolve_loop_spec _ _ _ Hnd H id) as Hs. rewrite Hm in Hs.
  destruct (ProviderEndpoints pools !! id); [done|]. by rewrite lookup_empty in Hs.
Qed.

Lemma resolve_endpoint_ok id ep e :
  resolve_endpoint id ep = Ok e -> ewk_Endpoint e = ep /\ Resolve (ep_KeyRef ep) = Ok (ResolvedKey e).
Proof.
  unfold resolve_endpoint. destruct (is_empty (ep_KeyRef ep)) eqn:He.
  - intros [= <-]. cbn. apply is_empty_true in He. by rewrite He.
  - intros (k & Hk & [= <-])%bind_ok. apply wrap_err_ok in Hk. done.
Qed.

Lemma default_currency_row m : wf_row m -> wf_row (default_currency m) /\ rowKey (default_currency m) = rowKey m.
Proof.
  intros H. unfold default_currency. destruct (is_empty (mp_Currency m)); [|done]. split; [|done].
  destruct H as (?&?&?&?&_&?&?&?). split_and!; try done. by right.
Qed.

Lemma DefaultCurrencies_wf c : wf_pricing c -> wf_pricing (DefaultCurrencies c).
Proof.
  intros (Hne & Hrow & Hnd). unfold DefaultCurrencies. split_and!; cbn.
  - by destruct (Models c).
  - apply Forall_fmap. eapply Forall_impl; [exact Hrow|]. intros m Hm. by apply default_currency_row.
  - rewrite <- list_fmap_compose. rewrite (list_fmap_ext _ rowKey (Models c)); [done|]. intros i m Hm.
    rewrite list.Forall_forall in Hrow. apply default_currency_row, Hrow. by eapply list_elem_of_lookup_2.
Qed.

Lemma compile_rules_ok i rules :
  celNewEnv = true -> Forall (fun r => is_Some (celCompile (rule_When r))) rules ->
  exists compiled, compile_rules i rules = Ok compiled.
Proof.
  intros He H. revert i. induction H as [|r rules [ast Hast] _ IH]; intros i; cbn; [by eexists|].
  rewrite He, Hast. cbn. destruct (IH (S i)) as [c ->]. by eexists.
Qed.

Lemma LoadPolicy_compiles `{!SortSlice} path policy :
  LoadPolicy path = Ok policy -> Rules policy = [] \/ celNewEnv = true -> exists e, NewEngine policy = Ok e.
Proof.
  unfold LoadPolicy, LoadAndValidate. destruct (ReadFile path) as [data|]; [|done].
  destruct (yaml_policy data) as [p|]; [|done]. intros ([] & Hv%wrap_err_ok & [= ->])%bind_ok He.
  apply PolicyConfig_Validate_rules in Hv. unfold NewEngine.
  assert (exists compiled, compile_rules 0 (Rules policy) = Ok compiled) as [c ->]; [|by eexists].
  destruct He as [->|He]; [by eexists|]. apply compile_rules_ok; [done|].
  eapply Forall_impl; [exact Hv|]. intros r [_ Hc]. unfold compileCEL in Hc. by rewrite He in Hc.
Qed.

(** Validated rules imply that the environment was created. *)
Lemma LoadPolicy_env path policy :
  LoadPolicy path = Ok policy -> Rules policy = [] \/ celNewEnv = true.
Proof.
  unfold LoadPolicy, LoadAndValidate. destruct (ReadFile path) as [data|]; [|done].
  destruct (yaml_policy data) as [p|]; [|done]. intros ([] & Hv%wrap_err_ok & [= ->])%bind_ok.
  apply PolicyConfig_Validate_rules in Hv. destruct (Rules policy) as [|r rs]; [by left|right].
  apply Forall_cons_1 in Hv as [[_ [ast Hc]] _]. unfold compileCEL in Hc. by destruct celNewEnv.
Qed.

Lemma Load_ok l c :
  Load l = Ok c ->
  exists pricing, LoadPools (PoolsPath l) = Ok (cfg_Pools c) /\ LoadPolicy (PolicyPath l) = Ok (cfg_Policy c) /\
    LoadPricing (PricingPath l) = Ok pricing /\ cfg_Pricing c = DefaultCurrencies pricing /\
    LoadIdentity (UsersPath l) (TeamsPath l) (ReposPath l) = Ok (cfg_Identity c) /\
    ValidatePolicyAgainstPools (cfg_Policy c) (cfg_Pools c) = Ok tt /\
    ValidateEndpointsAgainstPricing (range (ProviderEndpoints (cfg_Pools c))) (range (Pools (cfg_Pools c)))
      (cfg_Pricing c) = Ok tt /\
    resolveKeys (cfg_Pools c) = Ok (cfg_ResolvedEndpoints c).
Proof.
  unfold Load. intros (pools & Hp & H)%bind_ok. apply bind_ok in H as (policy & Hpol & H).
  apply bind_ok in H as (pricing & Hpr & H). apply bind_ok in H as (ident & Hid & H).
  apply bind_ok in H as ([] & Hpp%wrap_err_ok & H). apply bind_ok in H as ([] & Hep%wrap_err_ok & H).
  apply bind_ok in H as (res & Hres & [= <-]). exists pricing. cbn. split_and!; done.
Qed.

(** Nothing in the loader panics. *)
Lemma read_yaml_no_panic {A} what path (parse : string -> option A) : read_yaml what path parse <> Panic.
Proof. unfold read_yaml. no_panic. Qed.
Lemma PoolsConfig_Validate_no_panic order c : PoolsConfig_Validate order c <> Panic.
Proof. unfold PoolsConfig_Validate, validate_pool, validate_member. no_panic. Qed.
Lemma PolicyConfig_Validate_no_panic c : PolicyConfig_Validate c <> Panic.
Proof. unfold PolicyConfig_Validate, DegradationConfig_validate, validate_rule. no_panic. Qed.
Lemma validate_models_no_panic i seen ms : validate_models i seen ms <> Panic.
Proof.
  revert i seen. induction ms as [|m ms IH]; intros i seen; cbn; [done|].
  apply bind_no_panic; [unfold validate_row; no_panic|]. intros _. case_match; [done|apply IH].
Qed.
Lemma Resolve_no_panic ref : Resolve ref <> Panic.
Proof. unfold Resolve. no_panic. Qed.
Lemma resolve_loop_no_panic eps out : resolve_loop eps out <> Panic.
Proof.
  revert out. induction eps as [|[i ep] eps IH]; intros out; cbn; [done|].
  apply bind_no_panic; [|intros e; apply IH].
  unfold resolve_endpoint. case_match; [done|]. apply bind_no_panic; [|done].
  apply wrap_err_no_panic, Resolve_no_panic.
Qed.
#[local] Hint Resolve read_yaml_no_panic PoolsConfig_Validate_no_panic PolicyConfig_Validate_no_panic
  validate_models_no_panic resolve_loop_no_panic : no_panic.
Lemma Load_no_panic l : Load l <> Panic.
Proof.
  unfold Load, LoadPools, LoadPolicy, LoadAndValidate, LoadPricing, LoadIdentity, PricingConfig_Validate,
    IdentityConfig_Validate, ValidatePolicyAgainstPools, ValidateEndpointsAgainstPricing, resolveKeys.
  no_panic.
Qed.

(** ** Claims *)

(** A key reference resolves exactly when it is empty, names a set and
    non-empty environment variable, or names a readable file by an absolute
    path without [..]; the key is then that value, or the first line of the
    file without surrounding white space. *)
Theorem secret_resolve_exact ref k :
  Resolve ref = Ok k <->
  (ref = "" /\ k = "") \/
  (exists v, ref = "env://" +:+ v /\ v <> "" /\ k <> "" /\ LookupEnv v = Some k) \/
  (exists p data, ref = "file://" +:+ p /\ HasPrefix p "/" = true /\ Contains p ".." = false /\
     ReadFile p = Some data /\ k = TrimSpace (first_line data)).
Proof.
  unfold Resolve. destruct (is_empty ref) eqn:He.
  { apply is_empty_true in He as ->. split; [intros [= <-]; by left|].
    intros [[_ ->]|[(v & [=] & _)|(p & d & [=] & _)]]. done. }
  destruct (HasPrefix ref "env://") eqn:Henv.
  { apply HasPrefix_spec in Henv as [v ->]. rewrite TrimPrefix_app. split.
    - destruct (is_empty v) eqn:Hv; [done|]. destruct (LookupEnv v) as [val|] eqn:Hl; [|done].
      destruct (is_empty val) eqn:Hval; [done|]. intros [= ->]. right. left. exists v.
      by split_and!; [|apply is_empty_false|apply is_empty_false|].
    - intros [[[=] _]|[(v' & Hr & Hv & Hk & Hl)|(p & d & [=] & _)]].
      injection Hr as <-. apply is_empty_false in Hv as ->, Hk. by rewrite Hl, Hk. }
  destruct (HasPrefix ref "file://") eqn:Hfile.
  { apply HasPrefix_spec in Hfile as [p ->]. rewrite TrimPrefix_app. split.
    - destruct (HasPrefix p "/") eqn:Hp; [|done]. destruct (Contains p "..") eqn:Hc; [done|]. cbn.
      destruct (ReadFile p) as [d|] eqn:Hr; [|done]. intros [= <-]. right. right. by exists p, d.
    - intros [[[=] _]|[(v' & [=] & _)|(p' & d & Hr & Hp & Hc & Hd & ->)]].
      injection Hr as <-. by rewrite Hp, Hc, Hd. }
  assert (forall x, ref <> "env://" +:+ x) as H1 by (intros x ->; by rewrite HasPrefix_app in Henv).
  assert (forall x, ref <> "file://" +:+ x) as H2 by (intros x ->; by rewrite HasPrefix_app in Hfile).
  split; [by destruct (HasPrefix ref "vault://")|].
  intros [[-> _]|[(v & -> & _)|(p & d & -> & _)]]; [done|by destruct (H1 v)|by destruct (H2 p)].
Qed.

(** C13: a configuration that loads is consistent: the pools and prices are
    well formed, every pool the policy routes to is declared, every served
    endpoint is priced, the policy compiles, and the resolved endpoints are
    exactly the declared ones, each with the key its own reference resolves
    to. *)
Theorem load_consistent `{!SortSlice} l c :
  Load l = Ok c ->
  wf_pools (cfg_Pools c) /\ wf_pricing (cfg_Pricing c) /\ wf_policy_pools (cfg_Policy c) (cfg_Pools c) /\
  wf_endpoint_pricing (cfg_Pools c) (cfg_Pricing c) /\ (exists e, NewEngine (cfg_Policy c) = Ok e) /\
  (forall id, match ProviderEndpoints (cfg_Pools c) !! id with
              | Some ep => exists e, cfg_ResolvedEndpoints c !! id = Some e /\ ewk_Endpoint e = ep /\
                             Resolve (ep_KeyRef ep) = Ok (ResolvedKey e)
              | None => cfg_ResolvedEndpoints c !! id = None
              end).
Proof.
  intros (pricing & Hp & Hpol & Hpr & -> & _ & Hpp & Hep & Hk)%Load_ok. split_and!.
  - unfold LoadPools in Hp. apply bind_ok in Hp as (p & _ & ([] & Hv%wrap_err_ok & [= ->])%bind_ok).
    apply PoolsConfig_Validate_wf in Hv; [done|apply range_ranges].
  - unfold LoadPricing in Hpr. apply bind_ok in Hpr as (p & _ & ([] & Hv%wrap_err_ok & [= ->])%bind_ok).
    by apply DefaultCurrencies_wf, PricingConfig_Validate_wf.
  - by apply ValidatePolicyAgainstPools_wf.
  - by eapply ValidateEndpointsAgainstPricing_wf; [apply range_ranges..|exact Hep].
  - eapply LoadPolicy_compiles; [done|]. by eapply LoadPolicy_env.
  - intros id. pose proof (resolveKeys_spec _ _ Hk id) as Hs.
    destruct (ProviderEndpoints (cfg_Pools c) !! id); [|done].
    destruct Hs as (e & He & [? ?]%resolve_endpoint_ok). by exists e.
Qed.

(** C23: a reload is all or nothing: when loading fails the current
    configuration and the watched secret files stay as they are and the
    callback is not called; when it succeeds, the new configuration becomes
    current and, once the callback has run, the gateway serves exactly it: its
    pools, prices and keys, and its compiled policy. *)
Theorem reload_all_or_nothing `{!SortSlice} canAdd h v :
  let '(h', cb) := reload canAdd h in
  pendingFiles h' = ∅ /\
  match Load (loader h) with
  | Ok c => current h' = c /\ cb = (if onReload h then Some c else None) /\
            exists e, NewEngine (cfg_Policy c) = Ok e /\ after 5 c v = settled_on c e
  | _ => current h' = current h /\ secretPaths h' = secretPaths h /\ watched h' = watched h /\ cb = None
  end.
Proof.
  unfold reload. destruct (Load (loader h)) as [c|e|] eqn:Hl; [|done|].
  - unfold syncSecretWatches. cbn [watcher]. destruct (watcher h); cbn [negb].
    all: cbn; split_and!; try done.
    all: apply Load_ok in Hl as (pr & _ & Hpol & _).
    all: destruct (LoadPolicy_compiles _ _ Hpol (LoadPolicy_env _ _ Hpol)) as [e He]; exists e; (split; [done|]).
    all: unfold after, settled_on, NewSelector, SetPools, SetPricing; cbn; unfold SetPolicy, NewEngine in *;
      destruct (compile_rules 0 (Rules (cfg_Policy c))); [|done..]; cbn in He; by injection He as <-.
  - exfalso. by eapply Load_no_panic.
Qed.

(** After a successful reload the watched secret files are the files the
    new configuration refers to, except those that could not be added, which
    are tried again at the next reload; the watcher and the book-keeping
    agree. *)
Theorem secret_watches_synced canAdd h c :
  watcher h = true -> watched h = secretPaths h ->
  let h' := syncSecretWatches canAdd c h in
  let wanted := fileRefPaths (ProviderEndpoints (cfg_Pools c)) in
  watched h' = secretPaths h' /\ secretPaths h' ⊆ wanted /\
  (forall p, p ∈ wanted -> canAdd p = true \/ p ∈ secretPaths h -> p ∈ secretPaths h').
Proof.
  clear Base errText. intros Hw Heq. unfold syncSecretWatches. rewrite Hw. cbn. rewrite Heq. split_and!; [done| |].
  - intros p. rewrite elem_of_difference, elem_of_union, elem_of_filter, !elem_of_difference.
    destruct (decide (p ∈ fileRefPaths (ProviderEndpoints (cfg_Pools c)))); tauto.
  - intros p Hp Hor. rewrite elem_of_difference, elem_of_union, elem_of_filter, !elem_of_difference.
    destruct (decide (p ∈ secretPaths h)); tauto.
Qed.
End Loading.

(** ** Concrete files *)

#[local] Existing Instance sample_cel.
#[local] Existing Instance mergeSortSlice.
Definition sample_files : Files :=
  {| ReadFile := fun p => if HasPrefix p "/run/" then Some ("sk-1 " +:+ String newline "x") else Some p;
     LookupEnv := fun v => if String.eqb v "KEY" then Some "old-key" else None |}.
Definition keyed_endpoint (ref : string) : ProviderEndpoint :=
  {| ep_Wire := "anthropic"; ep_Vendor := "anthropic"; ep_URL := "https://old"; ep_DataResidency := "us";
     ep_TrustTier := "vendor"; ep_Deployments := []; ep_Supports := {| Streaming := true |}; ep_KeyRef := ref |}.
Definition keyed_pools (ref : string) : PoolsConfig :=
  {| ProviderEndpoints := {["ep1" := keyed_endpoint ref]}; Pools := {["standard" := sample_pool]} |}.
Definition sample_yaml : Yaml :=
  {| yaml_pools := fun _ => Some (keyed_pools "file:///run/key");
     yaml_policy := fun _ => Some (cfg_Policy (config_at "" ""));
     yaml_pricing := fun _ => Some Config.sample_pricing;
     yaml_users := fun _ => Some []; yaml_teams := fun _ => Some []; yaml_repos := fun _ => Some [] |}.
Definition sample_order : MapOrder :=
  {| range := fun V m => map_to_list m; range_ranges := fun V m => ranges_refl m |}.
#[local] Existing Instance sample_files.
#[local] Existing Instance sample_yaml.
#[local] Existing Instance sample_order.
Definition sample_loader : Loader :=
  {| PoolsPath := "pools"; PolicyPath := "policy"; PricingPath := "pricing"; UsersPath := "users";
     TeamsPath := "teams"; ReposPath := "repos" |}.

(** The key is the first line of the secret file, trimmed. *)
Lemma load_consistent_witness :
  exists c, Load sample_loader = Ok c /\ wf_pools (cfg_Pools c) /\
    ResolvedKey <$> cfg_ResolvedEndpoints c !! "ep1" = Some "sk-1".
Proof.
  destruct (Load sample_loader) as [c|e|] eqn:Hl; [|vm_compute in Hl; discriminate..].
  exists c. split; [reflexivity|]. split; [apply (load_consistent sample_loader c Hl)|].
  pose proof (f_equal (fun r => match r with Ok c => ResolvedKey <$> cfg_ResolvedEndpoints c !! "ep1" | _ => None end) Hl)
    as Hk. cbn beta iota in Hk. rewrite <- Hk. vm_compute. reflexivity.
Defined.

Definition sample_reloader : HotReloader :=
  {| current := config_at "https://old" "old-key"; loader := sample_loader; onReload := true; watcher := true;
     watched := {["/old"]}; secretPaths := {["/old"]}; pendingFiles := ∅; ConfigReloadTotal := ∅;
     SecretReloadTotal := ∅ |}.
Definition keyed_config (ref : string) : Config :=
  {| cfg_Pools := keyed_pools ref; cfg_Policy := cfg_Policy (config_at "" "");
     cfg_Pricing := cfg_Pricing (config_at "" ""); cfg_Identity := cfg_Identity (config_at "" "");
     cfg_ResolvedEndpoints := ∅ |}.

Lemma secret_watches_synced_witness :
  let h' := syncSecretWatches (fun _ => true) (keyed_config "file:///run/key") sample_reloader in
  watched h' = secretPaths h' /\ secretPaths h' ⊆ fileRefPaths (ProviderEndpoints (keyed_pools "file:///run/key")).
Proof.
  destruct (secret_watches_synced (fun _ => true) sample_reloader (keyed_config "file:///run/key") eq_refl eq_refl)
    as (H1 & H2 & _). split; assumption.
Defined.

(** A secret file whose first line is blank gives an empty key, where an empty
    environment variable is refused. *)
Example blank_secret_file :
  let blank := {| ReadFile := fun _ => Some (String newline "sk-1"); LookupEnv := fun _ => Some "" |} in
  @Resolve blank "file:///run/key" = Ok "" /\ @Resolve blank "env://KEY" = Err (Unresolved "env://KEY").
Proof. split; reflexivity. Qed.
