(* ===== verification/Calendar.v ===== *)
(** * Dates

    The part of package [time] the sources use for dates: the proleptic
    Gregorian calendar in UTC, the normalisation of [time.Date] and [AddDate],
    and the layouts [2006-01-02] and RFC 3339.  A day is a number of days from
    1970-01-01, an instant a number of seconds from its midnight. *)

From Stdlib Require Import Ascii.
From stdpp Require Import sorting base gmap strings fin_maps numbers list.
From S2P Require Import Prelude.
Local Open Scope string_scope.
Local Open Scope Z_scope.

Record civil := { c_year : Z; c_month : Z; c_day : Z }.

#[export] Instance civil_eq_dec : EqDecision civil.
Proof. solve_decision. Defined.

(** ** Days and civil dates

    Years are counted from March, so that the leap day ends a year; a cycle
    of 400 years has 146097 days, and 719468 days lie between 0000-03-01 and
    1970-01-01. *)

Definition era_days : Z := 146097.
Definition epoch_shift : Z := 719468.

(** Within a cycle: the day of a (March-based) year, month and day. *)
Definition day_of_year (mp d : Z) : Z := (153 * mp + 2) / 5 + d - 1.
Definition day_of_era (yoe doy : Z) : Z := yoe * 365 + yoe / 4 - yoe / 100 + doy.
Definition march_month (m : Z) : Z := if m <=? 2 then m + 9 else m - 3.
Definition march_year (y m : Z) : Z := if m <=? 2 then y - 1 else y.

Definition days_of_civil (c : civil) : Z :=
  let y := march_year (c_year c) (c_month c) in
  (y / 400) * era_days + day_of_era (y mod 400) (day_of_year (march_month (c_month c)) (c_day c)) - epoch_shift.

(** The date of a day of the cycle, with the year relative to the cycle. *)
Definition civil_of_doe (doe : Z) : civil :=
  let yoe := (doe - doe / 1460 + doe / 36524 - doe / 146096) / 365 in
  let doy := doe - (365 * yoe + yoe / 4 - yoe / 100) in
  let mp := (5 * doy + 2) / 153 in
  let d := doy - (153 * mp + 2) / 5 + 1 in
  let m := if mp <? 10 then mp + 3 else mp - 9 in
  {| c_year := if m <=? 2 then yoe + 1 else yoe; c_month := m; c_day := d |}.

Definition civil_of_days (z : Z) : civil :=
  let z := z + epoch_shift in
  let c := civil_of_doe (z mod era_days) in
  {| c_year := c_year c + (z / era_days) * 400; c_month := c_month c; c_day := c_day c |}.

(** ** time.Date and AddDate *)

(** [time.Date(y, m, d, ...)]: months outside the year carry into it, days
    outside the month count on. *)
Definition Date (y m d : Z) : Z :=
  days_of_civil {| c_year := y + (m - 1) / 12; c_month := (m - 1) mod 12 + 1; c_day := 1 |} + (d - 1).

(** [t.AddDate(0, 0, n)] at midnight. *)
Definition AddDays (t n : Z) : Z := t + n.

Definition is_leap (y : Z) : bool := (y mod 4 =? 0) && (negb (y mod 100 =? 0) || (y mod 400 =? 0)).
Definition days_in (m y : Z) : Z :=
  if m =? 2 then if is_leap y then 29 else 28
  else if (m =? 4) || (m =? 6) || (m =? 9) || (m =? 11) then 30 else 31.
Definition valid_civil (c : civil) : bool :=
  (1 <=? c_month c) && (c_month c <=? 12) && (1 <=? c_day c) && (c_day c <=? days_in (c_month c) (c_year c)).

(** ** Layouts *)

Definition digit_char (n : Z) : ascii := ascii_of_N (Z.to_N (48 + n)).
Definition is_digit (c : ascii) : bool := let n := Z.of_N (N_of_ascii c) in (48 <=? n) && (n <=? 57).
Definition digit_value (c : ascii) : Z := Z.of_N (N_of_ascii c) - 48.

(** [w] decimal digits of [n], most significant first. *)
Fixpoint digits (w : nat) (n : Z) : string :=
  match w with O => "" | S w => digits w (n / 10) +:+ String (digit_char (n mod 10)) "" end.

(** All decimal digits of a positive number; [fuel] bounds their count. *)
Fixpoint decimal (fuel : nat) (n : Z) : string :=
  match fuel with
  | O => ""
  | S fuel => (if n <? 10 then "" else decimal fuel (n / 10)) +:+ String (digit_char (n mod 10)) ""
  end.

(** A year: at least four digits, a sign before a negative one. *)
Definition format_year (y : Z) : string :=
  if y <? 0 then "-" +:+ (if - y <? 10000 then digits 4 (- y) else decimal 20 (- y))
  else if y <? 10000 then digits 4 y else decimal 20 y.

(** [t.Format("2006-01-02")] *)
Definition FormatDate (t : Z) : string :=
  let c := civil_of_days t in
  format_year (c_year c) +:+ ("-" +:+ (digits 2 (c_month c) +:+ ("-" +:+ digits 2 (c_day c)))).

(** [n] digits from the front. *)
Fixpoint read_digits (n : nat) (acc : Z) (s : string) : option (Z * string) :=
  match n with
  | O => Some (acc, s)
  | S n => match s with
           | String c s => if is_digit c then read_digits n (10 * acc + digit_value c) s else None
           | EmptyString => None
           end
  end.
Definition expect (c : ascii) (s : string) : option string :=
  match s with String d s => if Ascii.eqb d c then Some s else None | EmptyString => None end.

Definition read_civil (s : string) : option (civil * string) :=
  '(y, s) ← read_digits 4 0 s; s ← expect "-" s;
  '(m, s) ← read_digits 2 0 s; s ← expect "-" s;
  '(d, s) ← read_digits 2 0 s;
  let c := {| c_year := y; c_month := m; c_day := d |} in
  if valid_civil c then Some (c, s) else None.

(** [time.Parse("2006-01-02", s)] *)
Definition ParseDate (s : string) : option Z :=
  '(c, rest) ← read_civil s; if is_empty rest then Some (days_of_civil c) else None.

(** [t.UTC().Format(time.RFC3339)], and [time.Parse] with it on a UTC text. *)
Definition FormatRFC3339 (t : Z) : string :=
  let s := t mod 86400 in
  FormatDate (t / 86400) +:+ ("T" +:+ (digits 2 (s / 3600) +:+ (":" +:+ (digits 2 ((s / 60) mod 60) +:+
    (":" +:+ (digits 2 (s mod 60) +:+ "Z")))))).

Definition ParseRFC3339 (s : string) : option Z :=
  '(c, s) ← read_civil s; s ← expect "T" s;
  '(h, s) ← read_digits 2 0 s; s ← expect ":" s;
  '(mi, s) ← read_digits 2 0 s; s ← expect ":" s;
  '(se, s) ← read_digits 2 0 s; s ← expect "Z" s;
  if (h <? 24) && (mi <? 60) && (se <? 60) && is_empty s
  then Some (days_of_civil c * 86400 + h * 3600 + mi * 60 + se) else None.

(** The zero [time.Time], 0001-01-01T00:00:00Z. *)
Definition zero_time : Z := -719162 * 86400.

(** ** One cycle

    The 400 years and the 366 days of a year are checked one by one; within a
    year the estimate of the year is monotone, so its two ends decide it. *)

Definition year_start (y : Z) : Z := 365 * y + y / 4 - y / 100.
Definition year_of_doe (doe : Z) : Z := (doe - doe / 1460 + doe / 36524 - doe / 146096) / 365.
Definition year_last (y : Z) : Z := year_start y + (if is_leap (y + 1) then 365 else 364).

Fixpoint all_below (n : nat) (p : Z -> bool) : bool :=
  match n with O => true | S n => p (Z.of_nat n) && all_below n p end.

Lemma all_below_spec n p z : all_below n p = true -> 0 <= z < Z.of_nat n -> p z = true.
Proof.
  induction n as [|n IH]; cbn [all_below]; [lia|]. intros [Hp Hn]%andb_true_iff Hz.
  destruct (Z.eq_dec z (Z.of_nat n)) as [->|Hne]; [done|]. apply IH; [done|lia].
Qed.

Definition good_year (y : Z) : bool :=
  (year_of_doe (year_start y) =? y) && (year_of_doe (year_last y) =? y) &&
  ((y =? 399) && (year_last y =? 146096) || (year_last y + 1 =? year_start (y + 1))).

Definition good_doy (doy : Z) : bool :=
  let mp := (5 * doy + 2) / 153 in
  let d := doy - (153 * mp + 2) / 5 + 1 in
  let m := if mp <? 10 then mp + 3 else mp - 9 in
  (1 <=? m) && (m <=? 12) && (march_month m =? mp) && (day_of_year mp d =? doy) && (1 <=? d) &&
  (d <=? days_in m 4) && ((m =? 2) && (d =? 29) && (doy =? 365) || (d <=? days_in m 1) && (doy <? 365)).

Lemma years_good y : 0 <= y < 400 -> good_year y = true.
Proof. intros Hy. apply (all_below_spec 400); [vm_compute; reflexivity|lia]. Qed.
Lemma doys_good doy : 0 <= doy < 366 -> good_doy doy = true.
Proof. intros Hd. apply (all_below_spec 366); [vm_compute; reflexivity|lia]. Qed.

Lemma sub_div_mono n x y : 0 < n -> x <= y -> x - x / n <= y - y / n.
Proof.
  intros Hn Hxy. enough (y / n <= x / n + (y - x)) by lia.
  rewrite <- Z.div_add by lia. apply Z.div_le_mono; nia.
Qed.

Lemma year_of_doe_mono a b : a <= b -> year_of_doe a <= year_of_doe b.
Proof.
  intros Hab. unfold year_of_doe. apply Z.div_le_mono; [lia|].
  change 146096 with (36524 * 4). rewrite <- !Z.div_div by lia.
  pose proof (sub_div_mono 1460 a b ltac:(lia) Hab).
  pose proof (sub_div_mono 4 _ _ ltac:(lia) (Z.div_le_mono a b 36524 ltac:(lia) Hab)). lia.
Qed.

(** Every day of the cycle lies in the year the estimate names. *)
Lemma year_of_doe_spec doe : 0 <= doe < era_days ->
  let y := year_of_doe doe in 0 <= y < 400 /\ year_start y <= doe <= year_last y.
Proof.
  intros Hd. unfold era_days in Hd.
  assert (forall n, (n <= 400)%nat -> doe <= year_last (Z.of_nat n) ->
    exists y, 0 <= y <= Z.of_nat n /\ year_start y <= doe <= year_last y) as Hex.
  { induction n as [|n IH]; intros Hn Hle; [by exists 0; change (year_start 0) with 0; change (Z.of_nat 0) with 0 in *; lia|].
    destruct (Z_le_gt_dec (year_start (Z.of_nat (S n))) doe); [exists (Z.of_nat (S n)); lia|].
    destruct IH as (y & Hy & Hin); [lia| |exists y; lia].
    pose proof (years_good (Z.of_nat n) ltac:(lia)) as Hg. unfold good_year in Hg.
    rewrite !andb_true_iff, orb_true_iff, !andb_true_iff, !Z.eqb_eq in Hg.
    rewrite Nat2Z.inj_succ in *. unfold Z.succ in *. destruct Hg as [_ [[H399 Hl]|Hl]]; lia. }
  destruct (Hex 399%nat ltac:(lia)) as (y & Hy & Hin);
    [change (year_last (Z.of_nat 399)) with 146096; lia|].
  pose proof (years_good y ltac:(lia)) as Hg. unfold good_year in Hg.
  rewrite !andb_true_iff, !Z.eqb_eq in Hg. destruct Hg as [[Hs Hl] _].
  pose proof (year_of_doe_mono _ _ (proj1 Hin)). pose proof (year_of_doe_mono _ _ (proj2 Hin)).
  cbv zeta. replace (year_of_doe doe) with y by lia. lia.
Qed.

(** The year of a date of the cycle counts from January. *)
Lemma civil_of_doe_spec doe : 0 <= doe < era_days ->
  let c := civil_of_doe doe in
  valid_civil c = true /\ march_year (c_year c) (c_month c) = year_of_doe doe /\
  day_of_era (year_of_doe doe) (day_of_year (march_month (c_month c)) (c_day c)) = doe.
Proof.
  intros Hd. destruct (year_of_doe_spec doe Hd) as [Hy Hin].
  set (y := year_of_doe doe) in *. set (doy := doe - year_start y).
  assert (civil_of_doe doe =
    let mp := (5 * doy + 2) / 153 in let m := if mp <? 10 then mp + 3 else mp - 9 in
    {| c_year := if m <=? 2 then y + 1 else y; c_month := m; c_day := doy - (153 * mp + 2) / 5 + 1 |}) as -> by done.
  assert (0 <= doy < 366) as Hdoy by (unfold doy, year_last in *; destruct (is_leap (y + 1)); lia).
  pose proof (doys_good doy Hdoy) as Hg. unfold good_doy in Hg. cbv zeta in Hg |- *.
  set (mp := (5 * doy + 2) / 153) in *. set (m := if mp <? 10 then mp + 3 else mp - 9) in *.
  set (d := doy - (153 * mp + 2) / 5 + 1) in *.
  rewrite !andb_true_iff, orb_true_iff, !andb_true_iff, !Z.leb_le, !Z.ltb_lt, !Z.eqb_eq in Hg.
  destruct Hg as [[[[[[Hm1 Hm2] Hmm] Hday] Hd1] Hd4] Hfeb]. cbn [c_year c_month c_day].
  rewrite Hmm, Hday. split_and!.
  - unfold valid_civil. cbn [c_year c_month c_day]. rewrite !andb_true_iff, !Z.leb_le. split_and!; try done.
    destruct Hfeb as [[[Hfm Hfd] H365]|[Hd' _]].
    + rewrite Hfm, Hfd. change (29 <= (if is_leap (y + 1) then 29 else 28)).
      unfold year_last, doy in *. destruct (is_leap (y + 1)); lia.
    + unfold days_in in *. destruct (m =? 2); [|done]. change (if is_leap 1 then 29 else 28) with 28 in Hd'.
      destruct (is_leap (if m <=? 2 then _ else _)); lia.
  - unfold march_year. destruct (Z.leb_spec m 2); lia.
  - unfold day_of_era, doy, year_start. lia.
Qed.

Lemma days_of_civil_of_days z : days_of_civil (civil_of_days z) = z.
Proof.
  unfold days_of_civil, civil_of_days. cbn [c_year c_month c_day].
  set (w := z + epoch_shift). pose proof (Z.mod_pos_bound w era_days ltac:(done)) as Hm.
  destruct (civil_of_doe_spec _ Hm) as (Hv & Hy & Hd). cbv zeta in *.
  destruct (year_of_doe_spec _ Hm) as [Hyr _].
  assert (forall a k m, march_year (a + k) m = march_year a m + k) as Hs
    by (intros; unfold march_year; destruct (m <=? 2); lia).
  rewrite Hs, Hy, Z.div_add, Z.mod_add, (Z.div_small _ 400), (Z.mod_small _ 400), Hd by lia.
  pose proof (Z.div_mod w era_days ltac:(done)). unfold w, epoch_shift in *. lia.
Qed.

Lemma valid_civil_of_days z : valid_civil (civil_of_days z) = true.
Proof.
  unfold civil_of_days. pose proof (Z.mod_pos_bound (z + epoch_shift) era_days ltac:(done)) as Hm.
  destruct (civil_of_doe_spec _ Hm) as (Hv & _). cbv zeta in Hv. unfold valid_civil, days_in, is_leap in *.
  cbn [c_year c_month c_day]. replace (_ * 400) with (100 * (4 * ((z + epoch_shift) / era_days))) by lia.
  rewrite Z.mul_comm, Z.mod_add by lia.
  replace (4 * ((z + epoch_shift) / era_days) * 100) with ((z + epoch_shift) / era_days * 100 * 4) by lia.
  rewrite Z.mod_add by lia.
  replace ((z + epoch_shift) / era_days * 100 * 4) with ((z + epoch_shift) / era_days * 400) by lia.
  by rewrite Z.mod_add by lia.
Qed.

(** ** Layouts read back *)

Lemma digit_char_value n : 0 <= n < 10 -> is_digit (digit_char n) = true /\ digit_value (digit_char n) = n.
Proof.
  intros Hn. unfold is_digit, digit_value, digit_char. cbv zeta. rewrite N_ascii_embedding, Z2N.id by lia.
  rewrite andb_true_iff, !Z.leb_le. lia.
Qed.

Lemma read_digits_app w1 w2 acc s :
  read_digits (w1 + w2) acc s = '(a, r) ← read_digits w1 acc s; read_digits w2 a r.
Proof.
  revert acc s. induction w1 as [|w1 IH]; intros acc s; [done|]. cbn [read_digits Nat.add].
  destruct s as [|c s]; [done|]. destruct (is_digit c); [apply IH|done].
Qed.

Lemma read_digits_digits w n acc r : 0 <= n < 10 ^ Z.of_nat w ->
  read_digits w acc (digits w n +:+ r) = Some (acc * 10 ^ Z.of_nat w + n, r).
Proof.
  revert n acc r. induction w as [|w IH]; intros n acc r Hn.
  - cbn in *. f_equal. f_equal. lia.
  - rewrite Nat2Z.inj_succ, Z.pow_succ_r in Hn by lia.
    pose proof (Z.div_mod n 10 ltac:(lia)). pose proof (Z.mod_pos_bound n 10 ltac:(lia)).
    replace (S w) with (w + 1)%nat by lia. rewrite read_digits_app.
    replace (w + 1)%nat with (S w) by lia. cbn [digits]. rewrite str_app_assoc.
    rewrite IH by nia. cbn [mbind option_bind read_digits String.append].
    destruct (digit_char_value (n mod 10)) as [-> ->]; [lia|].
    rewrite Nat2Z.inj_succ, Z.pow_succ_r by lia. do 2 f_equal. lia.
Qed.

Lemma read_2 n r : 0 <= n < 100 -> read_digits 2 0 (digits 2 n +:+ r) = Some (n, r).
Proof. intros. rewrite read_digits_digits by done. by rewrite Z.mul_0_l, Z.add_0_l. Qed.
Lemma read_4 n r : 0 <= n < 10000 -> read_digits 4 0 (digits 4 n +:+ r) = Some (n, r).
Proof. intros. rewrite read_digits_digits by done. by rewrite Z.mul_0_l, Z.add_0_l. Qed.

Lemma expect_same c s : expect c (String c s) = Some s.
Proof. cbn. by rewrite Ascii.eqb_refl. Qed.

(** Days whose year has four digits (0000-03-01 up to 9600-02-29). *)
Definition four_digit_year (t : Z) : Prop := -719468 <= t < 2786860.

Lemma four_digit_year_spec t : four_digit_year t -> 0 <= c_year (civil_of_days t) < 10000.
Proof.
  unfold four_digit_year, civil_of_days. cbn [c_year]. intros Ht.
  set (w := t + epoch_shift). assert (0 <= w / era_days <= 23) as Hq.
  { unfold w, epoch_shift, era_days. split; [apply Z.div_pos; lia|]. enough ((t + 719468) / 146097 < 24) by lia.
    apply Z.div_lt_upper_bound; lia. }
  pose proof (Z.mod_pos_bound w era_days ltac:(done)) as Hm.
  destruct (civil_of_doe_spec _ Hm) as (_ & Hy & _). destruct (year_of_doe_spec _ Hm) as [Hyr _]. cbv zeta in *.
  unfold march_year in Hy. destruct (_ <=? 2); lia.
Qed.

Lemma read_civil_format t r : four_digit_year t ->
  read_civil (FormatDate t +:+ r) = Some (civil_of_days t, r).
Proof.
  intros Hy%four_digit_year_spec. pose proof (valid_civil_of_days t) as Hv. unfold FormatDate, format_year, read_civil.
  set (c := civil_of_days t) in *. destruct (Z.ltb_spec (c_year c) 0); [lia|].
  destruct (Z.ltb_spec (c_year c) 10000); [|lia].
  assert (1 <= c_month c <= 12 /\ 1 <= c_day c <= 31) as [Hm Hd].
  { unfold valid_civil, days_in in Hv. rewrite !andb_true_iff, !Z.leb_le in Hv.
    repeat match type of Hv with context [if ?b then _ else _] => destruct b end; lia. }
  rewrite !str_app_assoc, read_4 by lia. cbn [mbind option_bind String.append].
  rewrite expect_same. cbn [mbind option_bind]. rewrite read_2 by lia.
  cbn [mbind option_bind String.append]. rewrite expect_same. cbn [mbind option_bind].
  rewrite read_2 by lia. cbn [mbind option_bind].
  replace {| c_year := c_year c; c_month := c_month c; c_day := c_day c |} with c by (by destruct c). by rewrite Hv.
Qed.

(** Reading back a formatted date. *)
Lemma ParseDate_FormatDate t : four_digit_year t -> ParseDate (FormatDate t) = Some t.
Proof.
  intros Ht. unfold ParseDate. rewrite <- (str_app_nil_r (FormatDate t)), read_civil_format by done.
  cbn. by rewrite days_of_civil_of_days.
Qed.

Lemma ParseRFC3339_FormatRFC3339 t : four_digit_year (t / 86400) -> ParseRFC3339 (FormatRFC3339 t) = Some t.
Proof.
  intros Ht. unfold ParseRFC3339, FormatRFC3339.
  pose proof (Z.mod_pos_bound t 86400 ltac:(lia)) as Hs. pose proof (Z.div_mod t 86400 ltac:(lia)) as Hdm.
  set (s := t mod 86400) in *. rewrite read_civil_format by done. cbn [mbind option_bind String.append].
  assert (0 <= s / 3600 < 24 /\ 0 <= (s / 60) mod 60 < 60 /\ 0 <= s mod 60 < 60 /\
    s = s / 3600 * 3600 + (s / 60) mod 60 * 60 + s mod 60) as (Hh & Hmi & Hse & Hsum).
  { pose proof (Z.div_mod s 60 ltac:(lia)). pose proof (Z.mod_pos_bound s 60 ltac:(lia)).
    pose proof (Z.div_mod (s / 60) 60 ltac:(lia)). pose proof (Z.mod_pos_bound (s / 60) 60 ltac:(lia)).
    change 3600 with (60 * 60). rewrite <- Z.div_div by lia. lia. }
  rewrite expect_same. cbn [mbind option_bind]. rewrite read_2 by lia.
  cbn [mbind option_bind String.append]. rewrite expect_same. cbn [mbind option_bind].
  rewrite read_2 by lia. cbn [mbind option_bind String.append]. rewrite expect_same.
  cbn [mbind option_bind]. rewrite read_2 by lia. cbn [mbind option_bind String.append].
  rewrite expect_same. cbn [mbind option_bind is_empty]. rewrite days_of_civil_of_days.
  destruct (Z.ltb_spec (s / 3600) 24), (Z.ltb_spec ((s / 60) mod 60) 60), (Z.ltb_spec (s mod 60) 60); try lia.
  cbn [andb]. f_equal. lia.
Qed.

(** The first days of months, as [time.Date(y, m+1, 1)] computes them. *)
Example dates :
  (FormatDate 0, FormatDate (Date 2026 13 1), FormatDate (AddDays (Date 2024 2 28) 1), ParseDate "2023-02-29",
   FormatRFC3339 zero_time)
  = ("1970-01-01", "2027-01-01", "2024-02-29", None, "0001-01-01T00:00:00Z").
Proof. vm_compute. reflexivity. Qed.
