(* ===== verification/LocalState.v ===== *)
(** * The local proxy's files

    Package [path/filepath] as far as it is used; [internal/lp/localconfig]
    (credentials and settings under the home directory), [internal/lp/repobinder]
    (the repository binding kept in .git) and [internal/lp/session].  The disk
    is a map from paths to contents; whether a directory can be made and a
    file written are arguments, and YAML encoding is the class [LocalYaml].
    File modes are not modelled. *)

From Stdlib Require Import Ascii.
From stdpp Require Import sorting base gmap strings fin_maps numbers pretty list.
From S2P Require Import Prelude Edge Auth Handlers Json.
Local Open Scope string_scope.

(** ** path/filepath *)

Definition sep : ascii := "/".

(** One element against the stack of elements kept so far, last first. *)
Definition clean_step (rooted : bool) (out : list string) (c : string) : list string :=
  if is_empty c || String.eqb c "." then out
  else if String.eqb c ".." then
    match out with
    | [] => if rooted then [] else [".."]
    | d :: out' => if String.eqb d ".." then ".." :: out else out'
    end
  else c :: out.

Definition Clean (path : string) : string :=
  let rooted := HasPrefix path "/" in
  let out := rev (fold_left (clean_step rooted) (split_on sep path) []) in
  if rooted then String sep (join_with sep out)
  else match out with [] => "." | _ :: _ => join_with sep out end.

(** The path up to and including its last slash. *)
Fixpoint dir_part (path : string) : string :=
  match path with
  | EmptyString => ""
  | String c s =>
      let d := dir_part s in
      if Ascii.eqb c sep || negb (is_empty d) then String c d else ""
  end.
Definition Dir (path : string) : string := Clean (dir_part path).

Fixpoint trim_slashes (s : string) : string :=
  match s with
  | EmptyString => ""
  | String c s => let t := trim_slashes s in if Ascii.eqb c sep && is_empty t then "" else String c t
  end.
Definition Base (path : string) : string :=
  if is_empty path then "."
  else let p := trim_slashes path in
       let b := str_drop (String.length (dir_part p)) p in
       if is_empty b then "/" else b.

(** [filepath.Join]: empty elements are ignored. *)
Definition Join (elems : list string) : string :=
  match filter (fun e => e <> "") elems with [] => "" | es => Clean (join_with sep es) end.

(** ** The disk *)

Record Disk := { files : gmap string string; unreadable : gset string }.

Inductive FileError := NotExist (path : string) | Denied (path : string).

Definition disk_ReadFile (d : Disk) (path : string) : outcome FileError string :=
  if bool_decide (path ∈ unreadable d) then Err (Denied path)
  else match files d !! path with Some data => Ok data | None => Err (NotExist path) end.

(** [os.WriteFile]: a write that fails may leave another content behind. *)
Inductive WriteResult := Written | WriteFails (left : option string).
Definition disk_WriteFile (w : WriteResult) (d : Disk) (path data : string) : Disk * bool :=
  match w with
  | Written => ({| files := <[path := data]> (files d); unreadable := unreadable d |}, true)
  | WriteFails None => (d, false)
  | WriteFails (Some rest) => ({| files := <[path := rest]> (files d); unreadable := unreadable d |}, false)
  end.

(** ** localconfig/config.go *)

Record Credentials := { cr_GwURL : string; cr_UserID : string; cr_APIKey : string; cr_TeamID : string }.
Record LPConfig := { lc_Port : Z; lc_GwURL : string; lc_LogLevel : string; lc_CAPath : string }.

(** [yaml.Marshal] and [yaml.Unmarshal] on the two structs: what is written
    is read back. *)
Class LocalYaml := {
  yaml_creds : string -> option Credentials;
  print_creds : Credentials -> string;
  yaml_config : string -> option LPConfig;
  print_config : LPConfig -> string;
  creds_read_back c : yaml_creds (print_creds c) = Some c;
  config_read_back c : yaml_config (print_config c) = Some c }.

Inductive LocalError :=
| NoHome
| ReadCredentials (e : FileError)
| ParseCredentials
| NoAPIKey
| ReadConfig (e : FileError)
| ParseConfig
| CreateDir
| CannotWrite (path : string).

Definition DefaultConfig : LPConfig :=
  {| lc_Port := 7777; lc_GwURL := ""; lc_LogLevel := "info"; lc_CAPath := "" |}.

(** [home] is [os.UserHomeDir()]. *)
Definition HomeDir (home : option string) : outcome LocalError string :=
  match home with None => Err NoHome | Some h => Ok (Join [h; ".aicg"]) end.

Section LocalConfig.
Context {yml : LocalYaml}.

Definition LoadCredentials (home : option string) (d : Disk) : outcome LocalError Credentials :=
  HomeDir home ≫= fun dir =>
  wrap_err ReadCredentials (disk_ReadFile d (Join [dir; "credentials"])) ≫= fun data =>
  match yaml_creds data with
  | None => Err ParseCredentials
  | Some c => reject (is_empty (cr_APIKey c)) NoAPIKey ≫= fun _ => Ok c
  end.

(** Both save functions: [mkdir] and [w] say whether the directory can be made
    and the file written. *)
Definition save (home : option string) (d : Disk) (mkdir : bool) (w : WriteResult) (name data : string)
    : Disk * outcome LocalError unit :=
  match HomeDir home with
  | Err e => (d, Err e)
  | Panic => (d, Panic)
  | Ok dir =>
      if negb mkdir then (d, Err CreateDir)
      else let '(d, ok) := disk_WriteFile w d (Join [dir; name]) data in
           (d, if ok then Ok tt else Err (CannotWrite (Join [dir; name])))
  end.
Definition SaveCredentials (home : option string) (d : Disk) (mkdir : bool) (w : WriteResult) (c : Credentials)
    : Disk * outcome LocalError unit :=
  save home d mkdir w "credentials" (print_creds c).
Definition SaveConfig (home : option string) (d : Disk) (mkdir : bool) (w : WriteResult) (c : LPConfig)
    : Disk * outcome LocalError unit :=
  save home d mkdir w "config.yaml" (print_config c).

Definition LoadConfig (home : option string) (d : Disk) : outcome LocalError LPConfig :=
  HomeDir home ≫= fun dir =>
  match disk_ReadFile d (Join [dir; "config.yaml"]) with
  | Panic => Panic
  | Err (NotExist _) => Ok DefaultConfig
  | Err e => Err (ReadConfig e)
  | Ok data =>
      match yaml_config data with
      | None => Err ParseConfig
      | Some c => Ok {| lc_Port := if (lc_Port c =? 0)%Z then 7777%Z else lc_Port c; lc_GwURL := lc_GwURL c;
                        lc_LogLevel := lc_LogLevel c; lc_CAPath := lc_CAPath c |}
      end
  end.
End LocalConfig.

(** ** repobinder/binder.go *)

Record BindingToken := { bt_RepoID : string; bt_Token : string; bt_MachineID : string }.
Definition zero_binding : BindingToken := {| bt_RepoID := ""; bt_Token := ""; bt_MachineID := "" |}.

Definition bindingFile : string := ".git/aicg-binding".

Inductive BindError :=
| ReadBinding (e : FileError)
| Incomplete (repoID token : string)
| CreateGitDir
| WriteBinding
| NoCwd
| NotARepository.

Definition splitLines (s : string) : list string := split_pieces newline s.

Definition splitKeyVal (s : string) (sep : ascii) : list string :=
  match split_at sep s with Some (k, v) => [k; v] | None => [s] end.

(** One line of the file. *)
Definition bind_line (t : BindingToken) (line : string) : BindingToken :=
  match line with
  | EmptyString => t
  | String c _ =>
      if Ascii.eqb c "#" then t
      else match splitKeyVal line "=" with
           | [k; v] =>
               if String.eqb k "repo_id" then
                 {| bt_RepoID := v; bt_Token := bt_Token t; bt_MachineID := bt_MachineID t |}
               else if String.eqb k "token" then
                 {| bt_RepoID := bt_RepoID t; bt_Token := v; bt_MachineID := bt_MachineID t |}
               else if String.eqb k "machine_id" then
                 {| bt_RepoID := bt_RepoID t; bt_Token := bt_Token t; bt_MachineID := v |}
               else t
           | _ => t
           end
  end.

Definition Binding_Load (repoRoot : string) (d : Disk) : outcome BindError BindingToken :=
  wrap_err ReadBinding (disk_ReadFile d (Join [repoRoot; bindingFile])) ≫= fun data =>
  let t := fold_left bind_line (splitLines data) zero_binding in
  reject (is_empty (bt_RepoID t) || is_empty (bt_Token t)) (Incomplete (bt_RepoID t) (bt_Token t)) ≫= fun _ =>
  Ok t.

Definition binding_content (t : BindingToken) : string :=
  "repo_id=" +:+ (bt_RepoID t +:+ String newline ("token=" +:+ (bt_Token t +:+ String newline
  ("machine_id=" +:+ (bt_MachineID t +:+ String newline ""))))).

Definition Binding_Save (repoRoot : string) (d : Disk) (mkdir : bool) (w : WriteResult) (t : BindingToken)
    : Disk * outcome BindError unit :=
  let path := Join [repoRoot; bindingFile] in
  if negb mkdir then (d, Err CreateGitDir)
  else let '(d, ok) := disk_WriteFile w d path (binding_content t) in
       (d, if ok then Ok tt else Err WriteBinding).

(** The loop of [FindRoot]; [isDir] is [os.Stat] succeeding on a directory,
    [None] means the fuel ran out. *)
Fixpoint find_root (fuel : nat) (isDir : string -> bool) (dir : string) : option (outcome BindError string) :=
  match fuel with
  | O => None
  | S fuel =>
      if String.eqb dir "/" || String.eqb dir "." then Some (Err NotARepository)
      else if isDir (Join [dir; ".git"]) then Some (Ok dir)
      else find_root fuel isDir (Dir dir)
  end.
Definition FindRoot (fuel : nat) (isDir : string -> bool) (cwd : option string) : option (outcome BindError string) :=
  match cwd with None => Some (Err NoCwd) | Some dir => find_root fuel isDir dir end.

(** ** session/session.go *)

Record Session := { SessionID : string; PID : Z; StartedAt : Z }.

(** [startedAt] in seconds. *)
Definition NewSession {sha : Sha256} (pid startedAt : Z) (repo : string) : Session :=
  {| SessionID := sha256Hex (pretty pid +:+ (":" +:+ (pretty startedAt +:+ (":" +:+ repo))));
     PID := pid; StartedAt := startedAt |}.

(** ** Absolute paths without redundancy *)

Definition good (c : string) : Prop := c <> "" /\ c <> "." /\ c <> ".." /\ free_of sep c = true.
Definition abs_path (cs : list string) : string := String sep (join_with sep cs).

Lemma abs_rooted cs : HasPrefix (abs_path cs) "/" = true.
Proof. apply (HasPrefix_app "/"). Qed.

Lemma clean_step_good out cs : Forall good cs -> fold_left (clean_step true) cs out = (rev cs ++ out)%list.
Proof.
  intros Hg. revert out. induction Hg as [|c cs (H1 & H2 & H3 & _) _ IH]; intros out; cbn [fold_left rev]; [done|].
  unfold clean_step at 2. apply is_empty_false in H1. rewrite H1.
  destruct (String.eqb_spec c "."); [done|]. destruct (String.eqb_spec c ".."); [done|]. cbn [orb].
  by rewrite IH, <- app_assoc.
Qed.

Lemma join_app_free cs c : cs <> [] -> join_with sep (cs ++ [c])%list = join_with sep cs +:+ String sep c.
Proof.
  induction cs as [|d [|d' cs] IH]; intros Hne; [done|done|].
  change (join_with sep ((d :: d' :: cs) ++ [c])%list) with (d +:+ String sep (join_with sep ((d' :: cs) ++ [c])%list)).
  rewrite IH by done. change (join_with sep (d :: d' :: cs)) with (d +:+ String sep (join_with sep (d' :: cs))).
  by rewrite str_app_assoc.
Qed.

Lemma good_free cs : Forall good cs -> Forall (fun s => free_of sep s = true) cs.
Proof. intros H. eapply Forall_impl; [exact H|]. by intros c (_ & _ & _ & ?). Qed.

Lemma split_abs cs : Forall good cs ->
  fold_left (clean_step true) (split_on sep (abs_path cs)) [] = rev cs.
Proof.
  intros Hg. unfold abs_path. cbn [split_on]. rewrite Ascii.eqb_refl. destruct cs as [|c cs]; [done|].
  rewrite split_on_join; [|done|by apply good_free].
  change (fold_left (clean_step true) ("" :: c :: cs) []) with (fold_left (clean_step true) (c :: cs) []).
  by rewrite clean_step_good, app_nil_r.
Qed.

Lemma Clean_abs cs : Forall good cs -> Clean (abs_path cs) = abs_path cs.
Proof. intros Hg. unfold Clean. cbv zeta. rewrite abs_rooted. by rewrite split_abs, rev_involutive. Qed.

(** A trailing slash is removed. *)
Lemma Clean_abs_slash cs : Forall good cs -> cs <> [] -> Clean (abs_path cs +:+ "/") = abs_path cs.
Proof.
  intros Hg Hne. unfold Clean. cbv zeta. rewrite (HasPrefix_app "/" (join_with sep cs +:+ "/") : HasPrefix (abs_path cs +:+ "/") "/" = true).
  replace (abs_path cs +:+ "/") with (abs_path (cs ++ [""])%list)
    by (unfold abs_path; rewrite join_app_free by done; done).
  unfold abs_path. cbn [split_on]. rewrite Ascii.eqb_refl, split_on_join;
    [|by destruct cs|by apply Forall_app; split; [apply good_free|repeat constructor]].
  change (fold_left (clean_step true) ("" :: (cs ++ [""])%list) []) with (fold_left (clean_step true) (cs ++ [""])%list []).
  rewrite fold_left_app, (clean_step_good [] cs), app_nil_r by done.
  change (fold_left (clean_step true) [""] (rev cs)) with (rev cs). by rewrite rev_involutive.
Qed.

Lemma dir_part_free s : free_of sep s = true -> dir_part s = "".
Proof. induction s as [|c s IH]; cbn; [done|]. intros [Hc Hs]%andb_true_iff. apply negb_true_iff in Hc. by rewrite Hc, IH. Qed.

Lemma dir_part_app s c : free_of sep c = true -> dir_part (s +:+ String sep c) = s +:+ "/".
Proof.
  intros Hc. induction s as [|d s IH]; cbn [String.append dir_part].
  - by rewrite dir_part_free, Ascii.eqb_refl.
  - rewrite IH. destruct (s +:+ "/") as [|e t] eqn:He; [by destruct s|]. cbn. by rewrite orb_true_r.
Qed.

Lemma Dir_abs cs c : Forall good cs -> good c -> Dir (abs_path (cs ++ [c])%list) = abs_path cs.
Proof.
  intros Hg (_ & _ & _ & Hc). unfold Dir. destruct cs as [|d cs].
  - change (abs_path ([] ++ [c])%list) with ("" +:+ String sep c). by rewrite dir_part_app.
  - unfold abs_path at 1. rewrite join_app_free by done.
    change (String sep (join_with sep (d :: cs) +:+ String sep c)) with (abs_path (d :: cs) +:+ String sep c).
    by rewrite dir_part_app, Clean_abs_slash.
Qed.

Lemma Join_abs cs c : Forall good cs -> good c -> Join [abs_path cs; c] = abs_path (cs ++ [c])%list.
Proof.
  intros Hg Hc. unfold Join. rewrite filter_cons_True by done.
  rewrite filter_cons_True by (by destruct Hc). rewrite filter_nil.
  change (join_with sep [abs_path cs; c]) with (abs_path cs +:+ String sep c). destruct cs as [|d cs].
  - change (abs_path [] +:+ String sep c) with (abs_path [""; c]). unfold Clean. cbv zeta.
    rewrite abs_rooted. unfold abs_path at 1. cbn [split_on]. rewrite Ascii.eqb_refl.
    rewrite split_on_join; [|done|by repeat constructor; apply Hc]. 
    change (fold_left (clean_step true) [""; ""; c] []) with (fold_left (clean_step true) [c] []).
    by rewrite (clean_step_good [] [c]) by (by constructor).
  - assert (abs_path (d :: cs) +:+ String sep c = abs_path ((d :: cs) ++ [c])%list) as ->
      by (unfold abs_path; by rewrite join_app_free).
    apply Clean_abs. apply Forall_app. by split; [|constructor].
Qed.

Lemma abs_path_inj cs ds : Forall good cs -> Forall good ds -> cs <> [] -> ds <> [] ->
  abs_path cs = abs_path ds -> cs = ds.
Proof.
  intros Hc Hd Hn1 Hn2 [= H]. rewrite <- (split_on_join sep cs), <- (split_on_join sep ds), H; auto using good_free.
Qed.


(** ** Finding the repository root *)

Lemma good_git : good ".git".
Proof. by repeat split. Qed.

Lemma abs_not_root cs : Forall good cs -> cs <> [] ->
  String.eqb (abs_path cs) "/" || String.eqb (abs_path cs) "." = false.
Proof.
  intros Hg Hne. destruct (String.eqb_spec (abs_path cs) "/") as [H|_]; [|done].
  destruct cs as [|c [|c' cs]]; [done| |];
    apply (f_equal (str_drop 1)) in H; inversion Hg as [|? ? (Hc & _) _]; subst; [by destruct c|].
  cbn in H. by destruct c.
Qed.

(** What the loop returns on an absolute path: the deepest directory on the
    way up, the root excluded, that has a .git directory. *)
Lemma find_root_spec isDir cs : Forall good cs ->
  exists r, find_root (S (length cs)) isDir (abs_path cs) = Some r /\
    ((exists k, 0 < k <= length cs /\ isDir (abs_path (take k cs ++ [".git"])%list) = true /\
        (forall j, k < j <= length cs -> isDir (abs_path (take j cs ++ [".git"])%list) = false) /\
        r = Ok (abs_path (take k cs))) \/
     ((forall j, 0 < j <= length cs -> isDir (abs_path (take j cs ++ [".git"])%list) = false) /\
      r = Err NotARepository)).
Proof.
  induction cs as [|c cs IH] using rev_ind; intros Hg.
  - eexists. split; [reflexivity|]. right. split; [cbn; lia|done].
  - apply Forall_app in Hg as [Hcs Hc]. inversion Hc as [|? ? Hgc _]; subst.
    rewrite length_app. cbn [length]. rewrite Nat.add_1_r. cbn [find_root].
    rewrite abs_not_root by (try (by destruct cs); apply Forall_app; by split).
    rewrite Join_abs by (try apply good_git; apply Forall_app; by split). rewrite Dir_abs by done.
    assert (take (S (length cs)) (cs ++ [c]) = (cs ++ [c])%list) as Hall
      by (apply take_ge; rewrite length_app; cbn; lia).
    destruct (isDir (abs_path ((cs ++ [c]) ++ [".git"])%list)) eqn:Hdir.
    + eexists. split; [reflexivity|]. left. exists (S (length cs)). rewrite Hall. split_and!; [lia|lia|done|lia|done].
    + destruct (IH Hcs) as (r & Hr & Hspec). exists r. split; [exact Hr|].
      assert (forall j, j <= length cs -> take j (cs ++ [c]) = take j cs) as Htake by (intros; by apply take_app_le).
      destruct Hspec as [(k & Hk & Hdk & Hup & ->)|[Hup ->]].
      * left. exists k. rewrite Htake by lia. split_and!; [lia|lia|done| |done].
        intros j Hj. destruct (decide (j = S (length cs))) as [->|]; [by rewrite Hall|].
        rewrite Htake by lia. apply Hup. lia.
      * right. split; [|done]. intros j Hj. destruct (decide (j = S (length cs))) as [->|]; [by rewrite Hall|].
        rewrite Htake by lia. apply Hup. lia.
Qed.

(** ** Bindings and credentials read back *)

Definition one_line (s : string) : Prop := free_of newline s = true.

Lemma bind_line_key t k v : k <> "" -> free_of "="%char k = true -> HasPrefix k "#" = false ->
  bind_line t (k +:+ String "=" v) =
    if String.eqb k "repo_id" then {| bt_RepoID := v; bt_Token := bt_Token t; bt_MachineID := bt_MachineID t |}
    else if String.eqb k "token" then {| bt_RepoID := bt_RepoID t; bt_Token := v; bt_MachineID := bt_MachineID t |}
    else if String.eqb k "machine_id" then {| bt_RepoID := bt_RepoID t; bt_Token := bt_Token t; bt_MachineID := v |}
    else t.
Proof.
  intros Hk Hf Hh. unfold bind_line. destruct k as [|c k]; [done|]. cbn [String.append].
  destruct (Ascii.eqb_spec c "#") as [->|_].
  { by rewrite (HasPrefix_app "#" k : HasPrefix (String "#" k) "#" = true) in Hh. }
  unfold splitKeyVal. change (String c (k +:+ String "=" v)) with (String c k +:+ String "=" v).
  by rewrite split_at_join.
Qed.

Lemma parse_binding t : one_line (bt_RepoID t) -> one_line (bt_Token t) -> one_line (bt_MachineID t) ->
  fold_left bind_line (splitLines (binding_content t)) zero_binding = t.
Proof.
  unfold one_line. intros Hr Ht Hm. unfold binding_content, splitLines.
  assert (forall k v rest, free_of newline k = true -> free_of newline v = true ->
    split_pieces newline (k +:+ (v +:+ String newline rest)) = (k +:+ v) :: split_pieces newline rest) as Hs.
  { intros k v rest Hk Hv. rewrite <- str_app_assoc. apply split_pieces_app. by rewrite free_of_app, Hk, Hv. }
  rewrite !Hs by done. cbn [split_pieces fold_left].
  change ("repo_id=" +:+ bt_RepoID t) with ("repo_id" +:+ String "=" (bt_RepoID t)).
  change ("token=" +:+ bt_Token t) with ("token" +:+ String "=" (bt_Token t)).
  change ("machine_id=" +:+ bt_MachineID t) with ("machine_id" +:+ String "=" (bt_MachineID t)).
  rewrite !bind_line_key by done. by destruct t.
Qed.

(** A home directory, and the paths of the two files. *)
Definition home_file (hs : list string) (name : string) : string := abs_path (hs ++ [".aicg"; name])%list.

Lemma Join_home hs name : Forall good hs -> good name ->
  Join [Join [abs_path hs; ".aicg"]; name] = home_file hs name.
Proof.
  intros Hh Hn. assert (good ".aicg") as Ha by (by repeat split). rewrite Join_abs by done.
  rewrite Join_abs by (try done; apply Forall_app; by split; [|constructor]).
  unfold home_file. by rewrite <- app_assoc.
Qed.

Lemma home_file_inj hs n1 n2 : Forall good hs -> good n1 -> good n2 ->
  home_file hs n1 = home_file hs n2 -> n1 = n2.
Proof.
  intros Hh H1 H2 Heq. assert (good ".aicg") as Ha by (by repeat split).
  apply abs_path_inj in Heq; [by simplify_list_eq|..|by destruct hs|by destruct hs];
    apply Forall_app; by repeat constructor; try apply Ha; try apply H1; try apply H2.
Qed.

Section ReadBack.
Context {yml : LocalYaml}.

(** Credentials that were saved are the ones loaded, and saving either file
    leaves the other one alone. *)
Lemma LoadCredentials_saved hs d c : Forall good hs -> cr_APIKey c <> "" ->
  home_file hs "credentials" ∉ unreadable d ->
  exists d', SaveCredentials (Some (abs_path hs)) d true Written c = (d', Ok tt) /\
    LoadCredentials (Some (abs_path hs)) d' = Ok c /\
    LoadConfig (Some (abs_path hs)) d' = LoadConfig (Some (abs_path hs)) d.
Proof.
  intros Hh Hk Hr. assert (good "credentials" /\ good "config.yaml") as [Gc Gf] by (by repeat split).
  unfold SaveCredentials, save, LoadCredentials, LoadConfig, HomeDir. cbn [mbind outcome_bind].
  rewrite !Join_home by done. eexists. split; [reflexivity|].
  unfold disk_ReadFile. cbn [files unreadable disk_WriteFile negb]. rewrite lookup_insert_eq, lookup_insert_ne
    by (intros H; by apply home_file_inj in H). rewrite bool_decide_eq_false_2 by done.
  cbn [wrap_err mbind outcome_bind]. rewrite creds_read_back.
  apply is_empty_false in Hk. by rewrite Hk.
Qed.
End ReadBack.

(** ** A concrete YAML *)

Definition creds_tuple (c : Credentials) : string * string * string * string :=
  (cr_GwURL c, cr_UserID c, cr_APIKey c, cr_TeamID c).
Definition tuple_creds (t : string * string * string * string) : Credentials :=
  let '(g, u, k, m) := t in {| cr_GwURL := g; cr_UserID := u; cr_APIKey := k; cr_TeamID := m |}.
Definition config_tuple (c : LPConfig) : Z * string * string * string :=
  (lc_Port c, lc_GwURL c, lc_LogLevel c, lc_CAPath c).
Definition tuple_config (t : Z * string * string * string) : LPConfig :=
  let '(p, g, v, m) := t in {| lc_Port := p; lc_GwURL := g; lc_LogLevel := v; lc_CAPath := m |}.

Lemma coded_creds c : tuple_creds <$> text_code (code_text (creds_tuple c)) = Some c.
Proof. rewrite text_code_text. by destruct c. Qed.
Lemma coded_config c : tuple_config <$> text_code (code_text (config_tuple c)) = Some c.
Proof. rewrite text_code_text. by destruct c. Qed.

Definition coded_yaml : LocalYaml :=
  {| yaml_creds := fun s => tuple_creds <$> text_code s;
     print_creds := fun c => code_text (creds_tuple c);
     yaml_config := fun s => tuple_config <$> text_code s;
     print_config := fun c => code_text (config_tuple c);
     creds_read_back := coded_creds; config_read_back := coded_config |}.

(** ** Properties *)

(** [FindRoot] terminates on every absolute path, after at most one step
    per path element, and returns the nearest enclosing directory below the
    file-system root that has a .git directory, or reports that there is
    none. *)
Theorem find_root_terminates isDir cs : Forall good cs ->
  exists r, FindRoot (S (length cs)) isDir (Some (abs_path cs)) = Some r /\
    ((exists k, 0 < k <= length cs /\ isDir (abs_path (take k cs ++ [".git"])%list) = true /\
        (forall j, k < j <= length cs -> isDir (abs_path (take j cs ++ [".git"])%list) = false) /\
        r = Ok (abs_path (take k cs))) \/
     ((forall j, 0 < j <= length cs -> isDir (abs_path (take j cs ++ [".git"])%list) = false) /\
      r = Err NotARepository)).
Proof. apply find_root_spec. Qed.

Lemma find_root_terminates_witness :
  let isDir p := String.eqb p "/home/ann/shop/.git" in
  FindRoot 5 isDir (Some "/home/ann/shop/cmd") = Some (Ok "/home/ann/shop").
Proof.
  intros isDir.
  destruct (find_root_terminates isDir ["home"; "ann"; "shop"; "cmd"]) as (r & Hr & Hs); [by repeat constructor|].
  etransitivity; [exact Hr|]. f_equal. destruct Hs as [(k & Hk & Hd & Hu & ->)|[Hn _]].
  - destruct k as [|[|[|[|[|k]]]]]; [lia|by cbn in Hd|by cbn in Hd|done|by cbn in Hd|cbn in Hk; lia].
  - by specialize (Hn 3 ltac:(cbn; lia)).
Defined.

(** C38: a repository binding whose three fields (repository id, token, machine
    id) are each one line, without a newline, is loaded as it was saved, for
    every repository root and every disk on which the file can be written and
    read; a binding without a repository id or a token is refused when it is
    loaded. *)
Theorem binding_roundtrip root d t :
  one_line (bt_RepoID t) -> one_line (bt_Token t) -> one_line (bt_MachineID t) ->
  Join [root; bindingFile] ∉ unreadable d ->
  exists d', Binding_Save root d true Written t = (d', Ok tt) /\
    Binding_Load root d' = if is_empty (bt_RepoID t) || is_empty (bt_Token t)
                           then Err (Incomplete (bt_RepoID t) (bt_Token t)) else Ok t.
Proof.
  intros Hr Ht Hm Hread. eexists. split; [reflexivity|]. unfold Binding_Load, disk_ReadFile.
  cbn [files unreadable disk_WriteFile]. rewrite bool_decide_eq_false_2 by done. rewrite lookup_insert_eq.
  cbn [wrap_err mbind outcome_bind]. rewrite parse_binding by done.
  by destruct (is_empty (bt_RepoID t) || is_empty (bt_Token t)).
Qed.

Lemma binding_roundtrip_witness :
  exists d', Binding_Save "/home/ann/shop" {| files := ∅; unreadable := ∅ |} true Written
      {| bt_RepoID := "shop"; bt_Token := "b=1"; bt_MachineID := "" |} = (d', Ok tt) /\
    Binding_Load "/home/ann/shop" d' = Ok {| bt_RepoID := "shop"; bt_Token := "b=1"; bt_MachineID := "" |}.
Proof.
  apply (binding_roundtrip "/home/ann/shop" {| files := ∅; unreadable := ∅ |}
    {| bt_RepoID := "shop"; bt_Token := "b=1"; bt_MachineID := "" |}); [done|done|done|set_solver].
Defined.
