(* ===== verification/Watcher.v ===== *)
(** * The configuration watcher

    The concurrent part of [internal/gw/config/loader.go]: [Start], [Stop],
    [TriggerReload], the event loop with its debounce timer, and the reloads
    the timer starts, each in a goroutine of its own.  The state machine's
    labels are the points at which the scheduler may switch: one iteration of
    the loop's [select], the expiry of the timer, and the three parts of a
    reload (taking the pending files, reading the files, installing).  The disk
    is a value of [Files]; any file can change at any time, and fsnotify
    reports a change to the directories and files it watches, independently of
    what the loop then accepts. *)

From Stdlib Require Import Ascii.
From stdpp Require Import sorting base gmap strings fin_maps numbers list relations.
From S2P Require Import Prelude GoData Config Policy Routing Json Cost Pipeline Reload LocalState.
Local Open Scope string_scope.

(** ** fsnotify *)

Record FsEvent := { fe_Name : string; fe_Op : Z }.
Definition fs_Create : Z := 1.
Definition fs_Write : Z := 2.
Definition fs_Remove : Z := 4.
Definition fs_Rename : Z := 8.

(** [event.Op&(Write|Create|Rename|Remove) != 0] *)
Definition relevant_op (op : Z) : bool :=
  negb (Z.land op (Z.lor (Z.lor fs_Write fs_Create) (Z.lor fs_Rename fs_Remove)) =? 0)%Z.

(** How a file changes, and what fsnotify calls it. *)
Inductive ChangeKind := Created | Written | Removed | Renamed.
#[export] Instance ChangeKind_eq_dec : EqDecision ChangeKind.
Proof. solve_decision. Defined.
Definition change_op (k : ChangeKind) : Z :=
  match k with Created => fs_Create | Written => fs_Write | Removed => fs_Remove | Renamed => fs_Rename end.

(** The file at [path] has the contents [data], or is unreadable. *)
Definition set_file (fs : Files) (path : string) (data : option string) : Files :=
  {| ReadFile := fun p => if String.eqb p path then data else @ReadFile fs p; LookupEnv := @LookupEnv fs |}.

(** ** State *)

(** A started reload: not yet run, with its pending files, with what it read. *)
Inductive Job :=
| Due
| Snapped (pending : gset string)
| Loaded (pending : gset string) (res : outcome LoadError Config).

Definition debounce_time : Z := 200 * 10 ^ 6.

Record Watch := {
  wt_h : HotReloader; wt_wanted : gset string; wt_dirs : gset string; wt_events : list FsEvent; wt_manual : bool; wt_timer : option Z;
  wt_jobs : list Job; wt_done : bool; wt_closed : bool; wt_alive : bool; wt_now : Z; wt_disk : Files;
  wt_last : outcome LoadError Config;      (** what the last installed reload had read *)
  wt_calls : list Config }.                (** calls of the callback *)

Definition config_files (l : Loader) : list string :=
  [PoolsPath l; PolicyPath l; PricingPath l; UsersPath l; TeamsPath l; ReposPath l].

Section Watcher.
Context {yml : Yaml} {ord : MapOrder} {cel : CEL} (errText : LoadError -> string) (canAdd : string -> bool).

Definition NewHotReloader (initial : Config) (l : Loader) : HotReloader :=
  {| current := initial; loader := l; onReload := false; watcher := false; watched := ∅; secretPaths := ∅;
     pendingFiles := ∅; ConfigReloadTotal := ∅; SecretReloadTotal := ∅ |}.
Definition OnReload (h : HotReloader) : HotReloader :=
  {| current := current h; loader := loader h; onReload := true; watcher := watcher h; watched := watched h;
     secretPaths := secretPaths h; pendingFiles := pendingFiles h; ConfigReloadTotal := ConfigReloadTotal h;
     SecretReloadTotal := SecretReloadTotal h |}.

(** [Start]; [None] when a directory cannot be watched (or no watcher made).
    Secret files that cannot be watched are left for the next reload. *)
Definition Start (newWatcher : bool) (fs : Files) (now : Z) (h : HotReloader) : option Watch :=
  if negb newWatcher then None
  else if negb (forallb (fun f => canAdd (Dir f)) (config_files (loader h))) then None
  else
    let secrets := filter (fun p => canAdd p = true) (fileRefPaths (ProviderEndpoints (cfg_Pools (current h)))) in
    Some {| wt_h := {| current := current h; loader := loader h; onReload := onReload h; watcher := true;
                       watched := secrets; secretPaths := secretPaths h ∪ secrets; pendingFiles := pendingFiles h;
                       ConfigReloadTotal := ConfigReloadTotal h; SecretReloadTotal := SecretReloadTotal h |};
            wt_wanted := list_to_set (Clean <$> config_files (loader h));
            wt_dirs := list_to_set (Dir <$> config_files (loader h)); wt_events := []; wt_manual := false;
            wt_timer := None; wt_jobs := []; wt_done := false; wt_closed := false; wt_alive := true; wt_now := now;
            wt_disk := fs; wt_last := Ok (current h); wt_calls := [] |}.

(** *** Field updates *)

Definition set_h (s : Watch) (h : HotReloader) : Watch :=
  {| wt_h := h; wt_wanted := wt_wanted s; wt_dirs := wt_dirs s; wt_events := wt_events s; wt_manual := wt_manual s; wt_timer := wt_timer s;
     wt_jobs := wt_jobs s; wt_done := wt_done s; wt_closed := wt_closed s; wt_alive := wt_alive s; wt_now := wt_now s;
     wt_disk := wt_disk s; wt_last := wt_last s; wt_calls := wt_calls s |}.
Definition set_queue (s : Watch) (evs : list FsEvent) : Watch :=
  {| wt_h := wt_h s; wt_wanted := wt_wanted s; wt_dirs := wt_dirs s; wt_events := evs; wt_manual := wt_manual s; wt_timer := wt_timer s;
     wt_jobs := wt_jobs s; wt_done := wt_done s; wt_closed := wt_closed s; wt_alive := wt_alive s; wt_now := wt_now s;
     wt_disk := wt_disk s; wt_last := wt_last s; wt_calls := wt_calls s |}.
Definition set_manual (s : Watch) (b : bool) : Watch :=
  {| wt_h := wt_h s; wt_wanted := wt_wanted s; wt_dirs := wt_dirs s; wt_events := wt_events s; wt_manual := b; wt_timer := wt_timer s;
     wt_jobs := wt_jobs s; wt_done := wt_done s; wt_closed := wt_closed s; wt_alive := wt_alive s; wt_now := wt_now s;
     wt_disk := wt_disk s; wt_last := wt_last s; wt_calls := wt_calls s |}.
Definition set_timer (s : Watch) (t : option Z) : Watch :=
  {| wt_h := wt_h s; wt_wanted := wt_wanted s; wt_dirs := wt_dirs s; wt_events := wt_events s; wt_manual := wt_manual s; wt_timer := t;
     wt_jobs := wt_jobs s; wt_done := wt_done s; wt_closed := wt_closed s; wt_alive := wt_alive s; wt_now := wt_now s;
     wt_disk := wt_disk s; wt_last := wt_last s; wt_calls := wt_calls s |}.
Definition set_jobs (s : Watch) (js : list Job) : Watch :=
  {| wt_h := wt_h s; wt_wanted := wt_wanted s; wt_dirs := wt_dirs s; wt_events := wt_events s; wt_manual := wt_manual s; wt_timer := wt_timer s;
     wt_jobs := js; wt_done := wt_done s; wt_closed := wt_closed s; wt_alive := wt_alive s; wt_now := wt_now s;
     wt_disk := wt_disk s; wt_last := wt_last s; wt_calls := wt_calls s |}.
Definition set_clock (s : Watch) (now : Z) : Watch :=
  {| wt_h := wt_h s; wt_wanted := wt_wanted s; wt_dirs := wt_dirs s; wt_events := wt_events s; wt_manual := wt_manual s; wt_timer := wt_timer s;
     wt_jobs := wt_jobs s; wt_done := wt_done s; wt_closed := wt_closed s; wt_alive := wt_alive s; wt_now := now;
     wt_disk := wt_disk s; wt_last := wt_last s; wt_calls := wt_calls s |}.
Definition set_disk (s : Watch) (fs : Files) : Watch :=
  {| wt_h := wt_h s; wt_wanted := wt_wanted s; wt_dirs := wt_dirs s; wt_events := wt_events s; wt_manual := wt_manual s; wt_timer := wt_timer s;
     wt_jobs := wt_jobs s; wt_done := wt_done s; wt_closed := wt_closed s; wt_alive := wt_alive s; wt_now := wt_now s;
     wt_disk := fs; wt_last := wt_last s; wt_calls := wt_calls s |}.
Definition set_pending (h : HotReloader) (p : gset string) : HotReloader :=
  {| current := current h; loader := loader h; onReload := onReload h; watcher := watcher h; watched := watched h;
     secretPaths := secretPaths h; pendingFiles := p; ConfigReloadTotal := ConfigReloadTotal h;
     SecretReloadTotal := SecretReloadTotal h |}.

Definition set_watched (h : HotReloader) (w : gset string) : HotReloader :=
  {| current := current h; loader := loader h; onReload := onReload h; watcher := watcher h; watched := w;
     secretPaths := secretPaths h; pendingFiles := pendingFiles h; ConfigReloadTotal := ConfigReloadTotal h;
     SecretReloadTotal := SecretReloadTotal h |}.

(** *** fsnotify's part *)

(** The reports of a change: one for a watch on the file's directory, whose
    name [name] depends on the directory's, and one for a watch on the file
    itself.  A closed watcher reports nothing. *)
Definition reports (s : Watch) (path : string) (k : ChangeKind) (name : string) : list FsEvent :=
  if wt_closed s then []
  else ((if bool_decide (Dir (Clean path) ∈ wt_dirs s) then [{| fe_Name := name; fe_Op := change_op k |}] else []) ++
        (if bool_decide (path ∈ watched (wt_h s)) then [{| fe_Name := Clean path; fe_Op := change_op k |}] else []))%list.
(** A watch on a file follows the file, not its name. *)
Definition still_watched (s : Watch) (path : string) (k : ChangeKind) : gset string :=
  if decide (k = Written) then watched (wt_h s) else watched (wt_h s) ∖ {[path]}.

(** *** The loop *)

(** [debounce.Stop(); debounce = time.AfterFunc(200ms, reload)] *)
Definition arm (s : Watch) : Watch := set_timer s (Some (wt_now s + debounce_time)%Z).

Definition accepts (s : Watch) (ev : FsEvent) : bool :=
  relevant_op (fe_Op ev) &&
  (bool_decide (Clean (fe_Name ev) ∈ wt_wanted s) || bool_decide (fe_Name ev ∈ secretPaths (wt_h s))).

(** One iteration for an event. *)
Definition on_event (s : Watch) (ev : FsEvent) : Watch :=
  if accepts s ev then arm (set_h s (set_pending (wt_h s) ({[fe_Name ev]} ∪ pendingFiles (wt_h s)))) else s.

(** [Stop] closes [done] (once) and the watcher. *)
Definition Stop (s : Watch) : Watch :=
  {| wt_h := wt_h s; wt_wanted := wt_wanted s; wt_dirs := wt_dirs s; wt_events := wt_events s; wt_manual := wt_manual s; wt_timer := wt_timer s;
     wt_jobs := wt_jobs s; wt_done := true; wt_closed := true; wt_alive := wt_alive s; wt_now := wt_now s;
     wt_disk := wt_disk s; wt_last := wt_last s; wt_calls := wt_calls s |}.
(** The loop returns. *)
Definition leave (s : Watch) : Watch :=
  {| wt_h := wt_h s; wt_wanted := wt_wanted s; wt_dirs := wt_dirs s; wt_events := wt_events s; wt_manual := wt_manual s; wt_timer := wt_timer s;
     wt_jobs := wt_jobs s; wt_done := wt_done s; wt_closed := wt_closed s; wt_alive := false; wt_now := wt_now s;
     wt_disk := wt_disk s; wt_last := wt_last s; wt_calls := wt_calls s |}.

(** *** A reload in three parts *)

(** [reload] from the outcome of [Load] on. *)
Definition finish_reload (pending : gset string) (res : outcome LoadError Config) (h : HotReloader)
    : HotReloader * option Config :=
  match res with
  | Ok newCfg =>
      let h := {| current := newCfg; loader := loader h; onReload := onReload h; watcher := watcher h;
                  watched := watched h; secretPaths := secretPaths h; pendingFiles := pendingFiles h;
                  ConfigReloadTotal := count_files (ConfigReloadTotal h) (file_labels Base pending (Base "all")) "success";
                  SecretReloadTotal := SecretReloadTotal h |} in
      let h := syncSecretWatches canAdd newCfg h in
      ({| current := current h; loader := loader h; onReload := onReload h; watcher := watcher h;
          watched := watched h; secretPaths := secretPaths h; pendingFiles := pendingFiles h;
          ConfigReloadTotal := ConfigReloadTotal h;
          SecretReloadTotal :=
            if decide (fileRefPaths (ProviderEndpoints (cfg_Pools newCfg)) = ∅) then SecretReloadTotal h
            else inc (SecretReloadTotal h) ("file", "success") |},
       if onReload h then Some newCfg else None)
  | Err err =>
      let result := if Contains (errText err) "validate " then "validate_error" else "parse_error" in
      ({| current := current h; loader := loader h; onReload := onReload h; watcher := watcher h;
          watched := watched h; secretPaths := secretPaths h; pendingFiles := pendingFiles h;
          ConfigReloadTotal := count_files (ConfigReloadTotal h) (file_labels Base pending "all") result;
          SecretReloadTotal := if Contains (errText err) "secret_ref" then inc (SecretReloadTotal h) ("file", "resolve_error")
                               else SecretReloadTotal h |}, None)
  | Panic => (h, None)
  end.

Definition install (s : Watch) (pending : gset string) (res : outcome LoadError Config) : Watch :=
  let '(h, cb) := finish_reload pending res (wt_h s) in
  {| wt_h := h; wt_wanted := wt_wanted s; wt_dirs := wt_dirs s; wt_events := wt_events s; wt_manual := wt_manual s; wt_timer := wt_timer s;
     wt_jobs := wt_jobs s; wt_done := wt_done s; wt_closed := wt_closed s; wt_alive := wt_alive s; wt_now := wt_now s;
     wt_disk := wt_disk s; wt_last := res;
     wt_calls := (wt_calls s ++ match cb with Some c => [c] | None => [] end)%list |}.

(** *** Labels *)

Inductive Act :=
| Tick (d : Z)                               (** time passes *)
| Change (path : string) (data : option string) (k : ChangeKind) (name : string)   (** a file changes *)
| Noise (ev : FsEvent)                       (** any other report *)
| TakeEvent | TakeManual                     (** the loop's [select] *)
| Signal                                     (** [TriggerReload] *)
| Fire                                       (** the timer expires *)
| Snapshot (i : nat) | ReadFiles (i : nat) | Install (i : nat)
| Stop_                                      (** [Stop] *)
| ExitDone | ExitClosed.                     (** the loop sees [done], or the closed channel *)

(** Whether a reload may start while another one is running. *)
Context (overlap : bool).

Definition act (a : Act) (s : Watch) : option Watch :=
  match a with
  | Tick d => if (0 <=? d)%Z then Some (set_clock s (wt_now s + d)) else None
  | Change path data k name =>
      if bool_decide (Clean name = Clean path) then
        Some (set_disk (set_queue (set_h s (set_watched (wt_h s) (still_watched s path k)))
                          (wt_events s ++ reports s path k name)%list)
                (set_file (wt_disk s) path data))
      else None
  | Noise ev => Some (set_queue s (wt_events s ++ [ev])%list)
  | TakeEvent =>
      if wt_alive s then match wt_events s with [] => None | ev :: evs => Some (on_event (set_queue s evs) ev) end else None
  | TakeManual => if wt_alive s && wt_manual s then Some (arm (set_manual s false)) else None
  | Signal => Some (set_manual (set_h s (TriggerReload (wt_h s))) true)
  | Fire =>
      match wt_timer s with
      | Some t => if (t <=? wt_now s)%Z && (overlap || bool_decide (wt_jobs s = []))
                  then Some (set_jobs (set_timer s None) (wt_jobs s ++ [Due])%list) else None
      | None => None
      end
  | Snapshot i =>
      match wt_jobs s !! i with
      | Some Due => Some (set_jobs (set_h s (set_pending (wt_h s) ∅)) (<[i := Snapped (pendingFiles (wt_h s))]> (wt_jobs s)))
      | _ => None
      end
  | ReadFiles i =>
      match wt_jobs s !! i with
      | Some (Snapped p) => Some (set_jobs s (<[i := Loaded p (@Load (wt_disk s) _ _ _ (loader (wt_h s)))]> (wt_jobs s)))
      | _ => None
      end
  | Install i =>
      match wt_jobs s !! i with
      | Some (Loaded p res) => Some (install (set_jobs s (delete i (wt_jobs s))) p res)
      | _ => None
      end
  | Stop_ => Some (Stop s)
  | ExitDone => if wt_alive s && wt_done s then Some (leave (set_timer s None)) else None
  | ExitClosed => if wt_alive s && wt_closed s then Some (leave s) else None
  end.

Definition watch_step (s s' : Watch) : Prop := exists a, act a s = Some s'.

(** A plan: the labels in order. *)
Fixpoint plan (l : list Act) (s : Watch) : option Watch :=
  match l with [] => Some s | a :: l => act a s ≫= plan l end.
Lemma plan_reachable l s s' : plan l s = Some s' -> rtc watch_step s s'.
Proof.
  revert s. induction l as [|a l IH]; intros s; cbn [plan].
  - intros [= <-]. constructor.
  - intros (s1 & Ha & Hl)%bind_Some. eapply rtc_l; [by exists a|]. by apply IH.
Qed.
End Watcher.

(** ** Lemmas *)

Section Facts.
Context {yml : Yaml} {ord : MapOrder} {cel : CEL} (errText : LoadError -> string) (canAdd : string -> bool).

(** A reload that nothing interrupts is [Reload.reload]. *)
Lemma reload_split {fs : Files} h :
  reload Base errText canAdd h = finish_reload errText canAdd (pendingFiles h) (Load (loader h)) (set_pending h ∅).
Proof.
  unfold reload, finish_reload. destruct (Load (loader h)) eqn:Hl; [done|done|]. by apply Load_no_panic in Hl.
Qed.

Lemma finish_loader p r h : loader (finish_reload errText canAdd p r h).1 = loader h.
Proof. destruct r; [|done..]. unfold finish_reload, syncSecretWatches. cbn. by destruct (watcher h). Qed.
Lemma finish_pending p r h : pendingFiles (finish_reload errText canAdd p r h).1 = pendingFiles h.
Proof. destruct r; [|done..]. unfold finish_reload, syncSecretWatches. cbn. by destruct (watcher h). Qed.
Lemma finish_current p c h : current (finish_reload errText canAdd p (Ok c) h).1 = c.
Proof. unfold finish_reload, syncSecretWatches. cbn. by destruct (watcher h). Qed.

(** What a reload that starts now would read. *)
Definition on_disk (s : Watch) : outcome LoadError Config := @Load (wt_disk s) yml ord cel (loader (wt_h s)).

(** The secret files a configuration names. *)
Definition secrets_of (c : Config) : gset string := fileRefPaths (ProviderEndpoints (cfg_Pools c)).

(** A change of one file: of a configuration file; of a secret file of the
    current configuration, written in place, that can be watched; or of
    another file, without effect on what [Load] returns. *)
Definition tracked (s : Watch) (a : Act) : Prop :=
  match a with
  | Change path data k _ =>
      path ∈ config_files (loader (wt_h s)) \/
      (path ∈ secrets_of (current (wt_h s)) /\ canAdd path = true /\ Clean path = path /\ k = Written) \/
      (path ∉ secrets_of (current (wt_h s)) /\
       @Load (set_file (wt_disk s) path data) yml ord cel (loader (wt_h s)) = on_disk s)
  | _ => True
  end.
Definition tracked_step (s s' : Watch) : Prop := exists a, tracked s a /\ act errText canAdd false a s = Some s'.

(** A change that is still to be read: of a configuration file, or of a secret
    file that the current configuration and the next one to be installed name. *)
Definition reported (s : Watch) (ev : FsEvent) : Prop := relevant_op (fe_Op ev) = true /\ Clean (fe_Name ev) ∈ wt_wanted s.
Definition reported_secret (s : Watch) (ev : FsEvent) : Prop :=
  relevant_op (fe_Op ev) = true /\ canAdd (fe_Name ev) = true /\ fe_Name ev ∈ secrets_of (current (wt_h s)) /\
  forall p c, Loaded p (Ok c) ∈ wt_jobs s -> fe_Name ev ∈ secrets_of c.
Definition unread (j : Job) : Prop := match j with Loaded _ _ => False | _ => True end.
Definition waiting (s : Watch) : Prop :=
  Exists (reported s) (wt_events s) \/ wt_timer s <> None \/ Exists unread (wt_jobs s) \/ wt_manual s = true.

(** What was read is what is on the disk. *)
Definition fresh (s : Watch) : Prop :=
  match wt_jobs s with [] => wt_last s = on_disk s | Loaded _ r :: _ => r = on_disk s | _ => True end.

(** What is watched. *)
Record covered (s : Watch) : Prop := {
  cov_clean : Forall (fun f => Clean f = f) (config_files (loader (wt_h s)));
  cov_wanted : wt_wanted s = list_to_set (Clean <$> config_files (loader (wt_h s)));
  cov_dirs : wt_dirs s = list_to_set (Dir <$> config_files (loader (wt_h s)));
  cov_on : watcher (wt_h s) = true;
  cov_watched p : p ∈ secretPaths (wt_h s) -> p ∈ watched (wt_h s) \/ p ∈ config_files (loader (wt_h s));
  cov_secrets p : p ∈ secrets_of (current (wt_h s)) -> canAdd p = true -> p ∈ secretPaths (wt_h s);
  cov_only p : p ∈ secretPaths (wt_h s) -> p ∈ secrets_of (current (wt_h s)) }.

Definition running (s : Watch) : Prop := wt_alive s = true /\ wt_closed s = false.
Record watch_inv (s : Watch) : Prop := {
  inv_jobs : length (wt_jobs s) <= 1;
  inv_last : match wt_last s with Ok c => current (wt_h s) = c | _ => True end;
  inv_cover : covered s;
  inv_unread : running s -> waiting s \/ Exists (reported_secret s) (wt_events s) \/ fresh s;
  inv_pending : running s -> pendingFiles (wt_h s) <> ∅ -> wt_timer s <> None \/ Due ∈ wt_jobs s \/ wt_manual s = true }.

Lemma waiting_timer s t : wt_timer s = Some t -> waiting s.
Proof. intros H. right. left. by rewrite H. Qed.
Lemma waiting_job s : Exists unread (wt_jobs s) -> waiting s.
Proof. intros H. by right; right; left. Qed.

Lemma accepts_reported s ev : reported s ev -> accepts s ev = true.
Proof. intros [H1 H2]. unfold accepts. rewrite H1, bool_decide_eq_true_2 by done. done. Qed.
Lemma accepts_secret s ev : covered s -> reported_secret s ev -> accepts s ev = true.
Proof.
  intros Hc (H1 & H2 & H3 & _). unfold accepts. rewrite H1.
  by rewrite (bool_decide_eq_true_2 (fe_Name ev ∈ _)), orb_true_r by (by apply (cov_secrets s Hc)).
Qed.

(** Whatever the loop does with an event, it is done with it. *)
Lemma take_event_inv s ev evs : wt_events s = ev :: evs -> watch_inv s -> watch_inv (on_event (set_queue s evs) ev).
Proof.
  intros He [Hj Hl Hc Hw Hp]. unfold on_event. destruct (accepts (set_queue s evs) ev) eqn:Ha.
  - split; [done|done|by destruct Hc| |]; intros Hal; [left; by eapply waiting_timer|intros _; by left].
  - split; [done|done|by destruct Hc| |done]. intros Hal.
    destruct (Hw Hal) as [[Hx|Hx]|[Hx|Hf]]; [|left; by right| |by right; right];
      rewrite He in Hx; apply Exists_cons in Hx as [Hr|Hx].
    + apply (accepts_reported (set_queue s evs)) in Hr. congruence.
    + left. by left.
    + apply (accepts_secret (set_queue s evs)) in Hr; [congruence|by destruct Hc].
    + right. by left.
Qed.

(** The three parts of the one running reload. *)
Lemma snapshot_inv s : wt_jobs s = [Due] -> watch_inv s ->
  watch_inv (set_jobs (set_h s (set_pending (wt_h s) ∅)) [Snapped (pendingFiles (wt_h s))]).
Proof.
  intros Hj [_ Hl Hc _ _]. split; [cbn; lia|done|by destruct Hc| |done]. intros _. left. apply waiting_job. by left.
Qed.
Lemma read_inv s p : wt_jobs s = [Snapped p] -> watch_inv s -> watch_inv (set_jobs s [Loaded p (on_disk s)]).
Proof.
  intros Hj [_ Hl Hc _ Hp]. split; [cbn; lia|done|by destruct Hc|by right; right|]. intros Hal Hne.
  destruct (Hp Hal Hne) as [|[Hin|]]; [by left| |by right; right]. rewrite Hj in Hin. by apply list_elem_of_singleton in Hin.
Qed.

(** After a successful reload the secret files of the new configuration that
    can be watched are watched, and no others. *)
Lemma finish_covered p r s :
  covered s -> let h := (finish_reload errText canAdd p r (wt_h s)).1 in
  watcher h = true /\
  (forall q, q ∈ secretPaths h -> q ∈ watched h \/ q ∈ config_files (loader h)) /\
  (forall q, q ∈ secrets_of (current h) -> canAdd q = true -> q ∈ secretPaths h) /\
  (forall q, q ∈ secretPaths h -> q ∈ secrets_of (current h)).
Proof.
  intros [_ _ _ Hon Hw Hs Ho]. destruct r as [c|e|]; cbn; [|done..].
  unfold finish_reload, syncSecretWatches. cbn [watcher fst]. rewrite Hon.
  cbn [negb watcher watched secretPaths loader current]. fold (secrets_of c).
  split; [done|]. split_and!; intros q.
  - intros [Hq Hd]%elem_of_difference. apply elem_of_union in Hq as [Hq|Hq].
    + destruct (Hw q Hq); [left|by right]. set_solver.
    + left. set_solver.
  - intros Hq Hcan. destruct (decide (q ∈ secretPaths (wt_h s))); [set_solver|].
    apply elem_of_difference. split; [|set_solver]. apply elem_of_union. right. apply elem_of_filter. set_solver.
  - intros [[Hq|[_ Hq]%elem_of_filter]%elem_of_union Hd]%elem_of_difference; [|set_solver].
    destruct (decide (q ∈ secrets_of c)); [done|]. set_solver.
Qed.

Lemma install_inv s p r : wt_jobs s = [Loaded p r] -> watch_inv s -> watch_inv (install errText canAdd (set_jobs s []) p r).
Proof.
  intros Hj [_ Hl Hcov Hw Hp]. unfold install.
  pose proof (finish_loader p r (wt_h s)) as Hld. pose proof (finish_pending p r (wt_h s)) as Hpd.
  pose proof (finish_covered p r s Hcov) as Hfc.
  assert (match r with Ok c => current (finish_reload errText canAdd p r (wt_h s)).1 = c
          | _ => current (finish_reload errText canAdd p r (wt_h s)).1 = current (wt_h s) end) as Hc
    by (destruct r; [apply finish_current|done..]).
  change (wt_h (set_jobs s [])) with (wt_h s).
  destruct (finish_reload errText canAdd p r (wt_h s)) as [h cb]. cbn [fst] in *.
  destruct Hfc as (Hon & H1 & H2 & H3).
  split; [cbn; lia|by destruct r| | |]; cbn [wt_alive set_jobs].
  - destruct Hcov. split; cbn; rewrite ?Hld; try done. by rewrite <- Hld.
  - intros Hal. destruct (Hw Hal) as [[Hx|[Hx|[Hx|Hx]]]|[Hx|Hf]];
      [left; by left|left; by right; left| |left; by right; right; right| |].
    + rewrite Hj in Hx. apply Exists_cons in Hx as [[]|Hx]. by apply Exists_nil in Hx.
    + right. left. apply Exists_exists. apply Exists_exists in Hx as (ev & Hin & (A1 & A2 & A3 & A4)). exists ev. split; [done|].
      split_and!; [done|done| |by intros ?? ?%not_elem_of_nil]. cbn. destruct r as [c|e|]; [|by rewrite Hc..].
      rewrite Hc. apply (A4 p). rewrite Hj. by left.
    + right. right. unfold fresh in *. rewrite Hj in Hf. cbn. unfold on_disk in *. cbn. by rewrite Hld.
  - intros Hal. cbn [wt_h wt_timer wt_jobs wt_manual set_jobs]. rewrite Hpd. intros Hne.
    destruct (Hp Hal Hne) as [|[Hin|]]; [by left| |by right; right]. rewrite Hj in Hin. by apply list_elem_of_singleton in Hin.
Qed.

Lemma one_job (js : list Job) i j : length js <= 1 -> js !! i = Some j -> js = [j] /\ i = 0.
Proof.
  destruct js as [|x [|y js]]; [done| |cbn; lia]. intros _ H. by apply list_lookup_singleton_Some in H as [-> ->].
Qed.

(** *** What [Load] reads *)

Lemma resolve_loop_set_file fs path data eps out :
  Forall (fun e => HasPrefix (ep_KeyRef e.2) "file://" = true -> TrimPrefix (ep_KeyRef e.2) "file://" <> path) eps ->
  @resolve_loop (set_file fs path data) eps out = @resolve_loop fs eps out.
Proof.
  intros H. revert out. induction H as [|[id ep] eps Hp _ IH]; intros out; [done|]. cbn [resolve_loop].
  assert (@resolve_endpoint (set_file fs path data) id ep = @resolve_endpoint fs id ep) as ->.
  { unfold resolve_endpoint. destruct (is_empty _); [done|]. do 2 f_equal. unfold Resolve. destruct (is_empty _); [done|].
    destruct (HasPrefix _ "env://"); [done|]. cbn [snd] in Hp. destruct (HasPrefix _ "file://"); [|done].
    specialize (Hp eq_refl). cbn [ReadFile set_file]. by rewrite (proj2 (String.eqb_neq _ _) Hp). }
  destruct (@resolve_endpoint fs id ep); cbn; [apply IH|done..].
Qed.

(** A configuration does not depend on files that are neither configuration
    files nor secrets it names. *)
Lemma Load_set_file fs l c path data :
  @Load fs yml ord cel l = Ok c -> path ∉ config_files l -> path ∉ secrets_of c ->
  @Load (set_file fs path data) yml ord cel l = Ok c.
Proof.
  intros Hl Hcf Hsec. destruct (Load_ok l c Hl) as (pricing & H1 & H2 & H3 & H4 & H5 & H6 & H7 & H8).
  assert (forall f, f ∈ config_files l -> @ReadFile (set_file fs path data) f = @ReadFile fs f) as Hr.
  { intros f Hf. cbn. destruct (String.eqb_spec f path) as [->|]; done. }
  unfold LoadPools, LoadPolicy, LoadPricing, LoadIdentity, read_yaml in H1, H2, H3, H5.
  unfold Load, LoadPools, LoadPolicy, LoadPricing, LoadIdentity, read_yaml.
  rewrite !Hr by (unfold config_files; set_solver). rewrite H1. cbn [outcome_bind mbind]. rewrite H2. cbn [outcome_bind mbind].
  rewrite H3. cbn [outcome_bind mbind]. rewrite H5. cbn [outcome_bind mbind]. rewrite H6. cbn [wrap_err outcome_bind mbind].
  rewrite <- H4, H7. cbn [wrap_err outcome_bind mbind].
  unfold resolveKeys in *. rewrite resolve_loop_set_file, H8; [by destruct c|].
  apply list.Forall_forall. intros [id ep] Hin Hpre Heq. apply Hsec. unfold secrets_of, fileRefPaths.
  apply elem_of_list_to_set, list_elem_of_omap. exists (id, ep). cbn [snd] in *. rewrite Hpre, Heq. split; [|done].
  pose proof (range_ranges (ProviderEndpoints (cfg_Pools c))) as Hperm. unfold ranges in Hperm. by rewrite <- Hperm.
Qed.

(** *** Changes *)

Lemma change_relevant k : relevant_op (change_op k) = true.
Proof. by destruct k. Qed.
Lemma reports_secret s path name :
  covered s -> wt_closed s = false -> path ∉ config_files (loader (wt_h s)) -> canAdd path = true -> Clean path = path ->
  path ∈ secrets_of (current (wt_h s)) ->
  {| fe_Name := path; fe_Op := change_op Written |} ∈ reports s path Written name.
Proof.
  intros Hc Hcl Hcf Hcan Hclean Hin. unfold reports. rewrite Hcl, Hclean. apply elem_of_app. right.
  rewrite bool_decide_eq_true_2; [by left|]. by destruct (cov_watched s Hc path) as [|]; [by apply (cov_secrets s Hc)| |].
Qed.

(** A change of a configuration file is reported and wanted. *)
Lemma reports_config s path k name :
  Clean name = Clean path -> path ∈ config_files (loader (wt_h s)) -> covered s -> wt_closed s = false ->
  Exists (reported s) (reports s path k name).
Proof.
  intros Hn Hin Hc Hcl. unfold reports. rewrite Hcl.
  pose proof (cov_clean s Hc) as Hclean. rewrite list.Forall_forall in Hclean. pose proof (Hclean path Hin) as Hp. rewrite Hp in *.
  rewrite (bool_decide_eq_true_2 (Dir path ∈ _)).
  2:{ rewrite (cov_dirs s Hc). apply elem_of_list_to_set, list_elem_of_fmap. by exists path. }
  left. split; [apply change_relevant|]. cbn [fe_Name]. rewrite Hn, (cov_wanted s Hc).
  apply elem_of_list_to_set, list_elem_of_fmap. by exists path.
Qed.

Definition changed (s : Watch) (path : string) (data : option string) (k : ChangeKind) (name : string) : Watch :=
  set_disk (set_queue (set_h s (set_watched (wt_h s) (still_watched s path k)))
              (wt_events s ++ reports s path k name)%list) (set_file (wt_disk s) path data).

Lemma change_covered s path data k name : covered s -> tracked s (Change path data k name) -> covered (changed s path data k name).
Proof.
  intros [H0 H1 H2 H3 H4 H5 H6] Ht. split; try done. intros p Hp. cbn in *. unfold still_watched.
  destruct (H4 p Hp) as [Hw|]; [|by right]. case_decide as Hk; [by left|].
  destruct (decide (p = path)) as [->|]; [|left; set_solver].
  destruct Ht as [|[(_ & _ & _ & ?)|[Hno _]]]; [by right|done|]. destruct Hno. by apply H6.
Qed.

(** The secret file [path] of the current configuration changes: either what
    was read does not depend on it, or its report will be accepted. *)
Lemma change_secret s path data name :
  watch_inv s -> running s -> path ∉ config_files (loader (wt_h s)) ->
  path ∈ secrets_of (current (wt_h s)) -> canAdd path = true -> Clean path = path ->
  let s' := changed s path data Written name in
  fresh s -> waiting s' \/ Exists (reported_secret s') (wt_events s') \/ fresh s'.
Proof.
  intros [Hj Hl Hc _ _] [_ Hcl] Hcf Hin Hcan Hclean s' Hf.
  assert ((forall p c, Loaded p (Ok c) ∈ wt_jobs s -> path ∈ secrets_of c) -> Exists (reported_secret s') (wt_events s')) as Hsec.
  { intros Hall. apply Exists_app. right. apply Exists_exists. eexists.
    split; [by apply (reports_secret s path name)|]. split_and!; [done|done|done|exact Hall]. }
  unfold waiting, fresh in *. change (wt_jobs s') with (wt_jobs s). change (wt_last s') with (wt_last s).
  destruct (wt_jobs s) as [|[|p|p [c|e|]] [|]] eqn:Hjs; try (cbn in Hj; lia).
  - right. left. apply Hsec. by intros ?? ?%not_elem_of_nil.
  - destruct (decide (path ∈ secrets_of c)) as [Hpc|Hpc].
    + right. left. apply Hsec. intros p' c' H%list_elem_of_singleton. by injection H as -> ->.
    + right. right. unfold on_disk. cbn. symmetry. by apply Load_set_file.
  - right. left. apply Hsec. by intros ?? ?%list_elem_of_singleton.
  - right. left. apply Hsec. by intros ?? ?%list_elem_of_singleton.
Qed.

Lemma change_inv s path data k name :
  Clean name = Clean path -> tracked s (Change path data k name) -> watch_inv s -> watch_inv (changed s path data k name).
Proof.
  intros Hn Ht Hi. pose proof Hi as [Hj Hl Hc Hw Hp]. split; [done|done|by apply change_covered| |done].
  intros Hrun. destruct (decide (path ∈ config_files (loader (wt_h s)))) as [Hin|Hcf].
  { left. left. cbn. apply Exists_app. right. by apply (reports_config s path k name); [..|apply Hrun]. }
  destruct (Hw Hrun) as [[Hx|Hx]|[Hx|Hf]];
    [left; left; cbn; apply Exists_app; by left|left; by right|right; left; cbn; apply Exists_app; by left|].
  destruct Ht as [|[(Hs & Hcan & Hclean & ->)|[_ Hsame]]]; [done|by apply change_secret|].
  right. right. unfold fresh, on_disk in *. cbn. by rewrite Hsame.
Qed.

(** Without overlapping reloads every step keeps the invariant. *)
Lemma act_inv a s s' : act errText canAdd false a s = Some s' -> tracked s a -> watch_inv s -> watch_inv s'.
Proof.
  intros Ha Ht Hi. pose proof Hi as [Hj Hl Hc Hw Hp]. destruct a; cbn [act] in Ha.
  - destruct (0 <=? d)%Z; [|done]. injection Ha as <-. split; [done|done|by destruct Hc|done|done].
  - case_bool_decide as Hn; [|done]. injection Ha as <-. by apply change_inv.
  - injection Ha as <-. split; [done|done|by destruct Hc| |done]. intros Hal. destruct (Hw Hal) as [[Hx|Hx]|[Hx|Hf]];
      [|left; by right| |by right; right]; [left; left|right; left]; apply Exists_app; by left.
  - destruct (wt_alive s); [|done]. destruct (wt_events s) as [|ev evs] eqn:He; [done|]. injection Ha as <-. by apply take_event_inv.
  - destruct (wt_alive s && wt_manual s); [|done]. injection Ha as <-.
    split; [done|done|by destruct Hc| |]; intros _; [left; by eapply waiting_timer|intros _; by left].
  - injection Ha as <-. split; [done|done|by destruct Hc| |]; intros _; [left; by right; right; right|intros _; by right; right].
  - destruct (wt_timer s) as [t|]; [|done].
    destruct ((t <=? wt_now s)%Z && (false || _)) eqn:Hg; [|done]. injection Ha as <-.
    apply andb_true_iff in Hg as [_ Hn]. cbn [orb] in Hn. apply bool_decide_eq_true in Hn. rewrite Hn.
    split; [cbn; lia|done|by destruct Hc| |]; intros _; [left; apply waiting_job; by left|intros _; right; left; by left].
  - destruct (wt_jobs s !! i) as [[| |]|] eqn:Hji; [|done..]. injection Ha as <-. destruct (one_job _ _ _ Hj Hji) as [Hjs ->].
    rewrite Hjs. by apply snapshot_inv.
  - destruct (wt_jobs s !! i) as [[|p|]|] eqn:Hji; [done| |done..]. injection Ha as <-. destruct (one_job _ _ _ Hj Hji) as [Hjs ->].
    rewrite Hjs. by apply read_inv.
  - destruct (wt_jobs s !! i) as [[| |p r]|] eqn:Hji; [done..| |done]. injection Ha as <-. destruct (one_job _ _ _ Hj Hji) as [Hjs ->].
    rewrite Hjs. by apply install_inv.
  - injection Ha as <-. split; [done|done|by destruct Hc|by intros [_ [=]]..].
  - destruct (wt_alive s && wt_done s); [|done]. injection Ha as <-. split; [done|done|by destruct Hc|by intros [[=] _]..].
  - destruct (wt_alive s && wt_closed s); [|done]. injection Ha as <-. split; [done|done|by destruct Hc|by intros [[=] _]..].
Qed.

Abbreviation alone := (watch_step errText canAdd false).

Lemma tracked_inv s s' : rtc tracked_step s s' -> watch_inv s -> watch_inv s'.
Proof. induction 1 as [|s s1 s' (a & Ht & Ha) _ IH]; [done|]. intros Hi. apply IH. by eapply act_inv. Qed.

Lemma Start_inv nw fs now h s : Start canAdd nw fs now h = Some s -> pendingFiles h = ∅ -> secretPaths h = ∅ ->
  Forall (fun f => Clean f = f) (config_files (loader h)) ->
  @Load fs yml ord cel (loader h) = Ok (current h) -> watch_inv s.
Proof.
  unfold Start. destruct (negb nw); [done|]. destruct (negb _); [done|]. intros [= <-] Hp Hs Hcl Hl.
  split; [cbn; lia|done| |by right; right|by rewrite <- Hp].
  split; try done; cbn; rewrite Hs, union_empty_l_L; intros p.
  - intros H. by left.
  - intros H1 H2. by apply elem_of_filter.
  - by intros [_ H]%elem_of_filter.
Qed.

(** *** Draining *)

Definition same_disk (s s' : Watch) : Prop := wt_alive s' = wt_alive s /\ wt_disk s' = wt_disk s.

Lemma drain_events s : wt_alive s = true ->
  exists s', rtc alone s s' /\ same_disk s s' /\ wt_events s' = [] /\ wt_manual s' = wt_manual s /\ wt_jobs s' = wt_jobs s.
Proof.
  remember (wt_events s) as evs eqn:He. revert s He. induction evs as [|ev evs IH]; intros s He Hal.
  - exists s. by split; [constructor|].
  - assert (alone s (on_event (set_queue s evs) ev)) as Hs by (exists TakeEvent; cbn [act]; by rewrite Hal, <- He).
    assert (same_disk s (on_event (set_queue s evs) ev) /\ wt_events (on_event (set_queue s evs) ev) = evs /\
      wt_manual (on_event (set_queue s evs) ev) = wt_manual s /\ wt_jobs (on_event (set_queue s evs) ev) = wt_jobs s)
      as ([Ha Hd] & Hq & Hm & Hj) by (unfold on_event; by destruct (accepts _ _)).
    destruct (IH (on_event (set_queue s evs) ev)) as (s' & Hr & [Ha' Hd'] & Hq' & Hm' & Hj'); [done|by rewrite Ha|].
    exists s'. split; [by eapply rtc_l|]. split; [split; congruence|]. split; [done|]. split; congruence.
Qed.

Lemma drain_manual s : wt_alive s = true ->
  exists s', rtc alone s s' /\ same_disk s s' /\ wt_events s' = wt_events s /\ wt_manual s' = false /\ wt_jobs s' = wt_jobs s.
Proof.
  intros Hal. destruct (wt_manual s) eqn:Hm; [|by exists s; split; [constructor|]].
  exists (arm (set_manual s false)). split; [|done]. apply rtc_once. exists TakeManual. cbn [act]. by rewrite Hal, Hm.
Qed.

Lemma drain_job s : length (wt_jobs s) <= 1 ->
  exists s', rtc alone s s' /\ same_disk s s' /\ wt_events s' = wt_events s /\ wt_manual s' = wt_manual s /\
    wt_timer s' = wt_timer s /\ wt_jobs s' = [].
Proof.
  intros Hl.
  assert (forall s p r, wt_jobs s = [Loaded p r] -> exists s', rtc alone s s' /\ same_disk s s' /\ wt_events s' = wt_events s /\
    wt_manual s' = wt_manual s /\ wt_timer s' = wt_timer s /\ wt_jobs s' = []) as H1.
  { intros s1 p r Hj. exists (install errText canAdd (set_jobs s1 []) p r). split.
    - apply rtc_once. exists (Install 0). cbn [act]. by rewrite Hj.
    - unfold install. by destruct (finish_reload _ _ _ _ _). }
  assert (forall s p, wt_jobs s = [Snapped p] -> exists s', rtc alone s s' /\ same_disk s s' /\ wt_events s' = wt_events s /\
    wt_manual s' = wt_manual s /\ wt_timer s' = wt_timer s /\ wt_jobs s' = []) as H2.
  { intros s1 p Hj. destruct (H1 (set_jobs s1 [Loaded p (on_disk s1)]) p (on_disk s1) eq_refl) as (s' & Hr & Hs).
    exists s'. split; [|exact Hs]. eapply rtc_l; [|exact Hr]. exists (ReadFiles 0). cbn [act]. by rewrite Hj. }
  destruct (wt_jobs s) as [|[|p|p r] [|]] eqn:Hj; try (cbn in Hl; lia); [by exists s; split; [constructor|]| |by eapply H2|by eapply H1].
  destruct (H2 (set_jobs (set_h s (set_pending (wt_h s) ∅)) [Snapped (pendingFiles (wt_h s))]) _ eq_refl) as (s' & Hr & Hs).
  exists s'. split; [|exact Hs]. eapply rtc_l; [|exact Hr]. exists (Snapshot 0). cbn [act]. by rewrite Hj.
Qed.

(** Nothing is left to do. *)
Definition quiet (s : Watch) : Prop :=
  wt_events s = [] /\ wt_timer s = None /\ wt_jobs s = [] /\ wt_manual s = false.

Lemma quiet_not_waiting s : quiet s -> ~ waiting s.
Proof.
  intros (He & Ht & Hj & Hm) [H|[H|[H|H]]]; rewrite ?He, ?Hj, ?Hm in H; [by apply Exists_nil in H|done|by apply Exists_nil in H|done].
Qed.

Lemma drain s : watch_inv s -> wt_alive s = true -> exists s', rtc alone s s' /\ same_disk s s' /\ quiet s'.
Proof.
  intros [Hl _ _ _ _] Hal.
  destruct (drain_events s Hal) as (s1 & R1 & [A1 D1] & E1 & M1 & J1).
  destruct (drain_manual s1) as (s2 & R2 & [A2 D2] & E2 & M2 & J2); [congruence|].
  destruct (drain_job s2) as (s3 & R3 & [A3 D3] & E3 & M3 & T3 & J3); [by rewrite J2, J1|].
  assert (rtc alone s s3) as R by (by do 2 (etransitivity; [eassumption|])).
  assert (wt_events s3 = [] /\ wt_manual s3 = false /\ wt_alive s3 = wt_alive s /\ wt_disk s3 = wt_disk s) as (E & M & A & D) by (split_and!; congruence).
  destruct (wt_timer s3) as [t|] eqn:Ht.
  - set (s4 := set_clock s3 (wt_now s3 + Z.max 0 (t - wt_now s3))). set (s5 := set_jobs (set_timer s4 None) [Due]).
    destruct (drain_job s5) as (s6 & R6 & [A6 D6] & E6 & M6 & T6 & J6); [cbn; lia|].
    exists s6. split; [|split; [split; [rewrite A6|rewrite D6]; done|split_and!; [by rewrite E6|by rewrite T6|done|by rewrite M6]]].
    etransitivity; [exact R|]. apply (rtc_l _ s3 s4); [exists (Tick (Z.max 0 (t - wt_now s3))); cbn [act]; by rewrite (proj2 (Z.leb_le _ _)) by lia|].
    apply (rtc_l _ s4 s5); [|exact R6]. exists Fire. cbn [act]. change (wt_timer s4) with (wt_timer s3). rewrite Ht.
    change (wt_jobs s4) with (wt_jobs s3). rewrite J3, bool_decide_eq_true_2 by done. cbn [orb].
    rewrite (proj2 (Z.leb_le _ _)) by (cbn; lia). done.
  - exists s3. split; [done|]. split; done.
Qed.
End Facts.

(** ** Properties *)

Section Claims.
Context {yml : Yaml} {ord : MapOrder} {cel : CEL} (errText : LoadError -> string) (canAdd : string -> bool).

(** C24: the watcher loses no change.  Start from a reloader that has just
    loaded its six files, given by clean paths whose directories can be
    watched.  Let any of these files change at any time and in any way (created,
    written, removed, renamed), and let secret files of the current
    configuration be written in place (clean paths that can be watched); other
    files may change as long as [Load] returns the same.  If no reload is still
    running when the next one starts, then in every reachable state in which
    the watcher has not been stopped: the steps still open lead to a state in
    which nothing is left to do; and whenever nothing is left to do, no file is
    pending, the last reload has read what is on the disk now, and if that is a
    valid configuration it is the current one. *)
Theorem watcher_converges nw fs now h s0 s :
  Start canAdd nw fs now h = Some s0 -> pendingFiles h = ∅ -> secretPaths h = ∅ ->
  Forall (fun f => Clean f = f) (config_files (loader h)) -> @Load fs yml ord cel (loader h) = Ok (current h) ->
  rtc (tracked_step errText canAdd) s0 s -> running s ->
  (exists s', rtc (watch_step errText canAdd false) s s' /\ quiet s' /\ wt_disk s' = wt_disk s /\ wt_alive s' = true) /\
  (quiet s -> pendingFiles (wt_h s) = ∅ /\ wt_last s = on_disk s /\ forall c, on_disk s = Ok c -> current (wt_h s) = c).
Proof.
  intros Hst Hp Hs Hcl Hl Hr Hrun. pose proof (Start_inv canAdd nw fs now h s0 Hst Hp Hs Hcl Hl) as Hi0.
  pose proof (tracked_inv errText canAdd s0 s Hr Hi0) as Hi. pose proof Hrun as [Hal _]. split.
  - destruct (drain errText canAdd s Hi Hal) as (s' & Hs' & [Ha Hd] & Hq). exists s'. split_and!; [done|done|done|congruence].
  - intros Hq. destruct Hi as [_ Hlast _ Hw Hpend]. pose proof (quiet_not_waiting s Hq) as Hnw.
    destruct Hq as (He & Ht & Hj & Hm). destruct (Hw Hrun) as [|[Hx|Hf]]; [done|by rewrite He in Hx; apply Exists_nil in Hx|].
    unfold fresh in Hf. rewrite Hj in Hf. split_and!; [|done|].
    + destruct (decide (pendingFiles (wt_h s) = ∅)) as [|Hne]; [done|]. destruct (Hpend Hrun Hne) as [|[Hx|]]; [done| |congruence].
      rewrite Hj in Hx. by apply not_elem_of_nil in Hx.
    + intros c Hc. rewrite Hf, Hc in Hlast. done.
Qed.

(** The debounce: a reload starts at least 200 ms after the last accepted
    event or signal. *)
Lemma fire_after_debounce overlap s s1 s2 d :
  act errText canAdd overlap (Tick d) (arm s) = Some s1 -> act errText canAdd overlap Fire s1 = Some s2 -> (debounce_time <= d)%Z.
Proof.
  cbn [act]. destruct (0 <=? d)%Z; [|done]. intros [= <-]. cbn [wt_timer set_clock arm set_timer wt_now].
  destruct (Z.leb_spec (wt_now s + debounce_time) (wt_now s + d)); [|done]. intros _. lia.
Qed.
End Claims.

(** ** Two reloads at once *)

Module Sample.
#[local] Existing Instances sample_cel sample_order.
Definition core : TeamIdentity := {| team_TeamID := "core"; team_Name := "Core"; team_BudgetMonthlyCapCents := 5000 |}.
(** The team file decides which teams there are. *)
#[local] Instance yaml : Yaml :=
  {| yaml_pools := @yaml_pools sample_yaml; yaml_policy := @yaml_policy sample_yaml; yaml_pricing := @yaml_pricing sample_yaml;
     yaml_users := fun _ => Some []; yaml_teams := fun data => Some (if String.eqb data "one" then [core] else []);
     yaml_repos := fun _ => Some [] |}.
Definition disk (teams : string) : Files :=
  {| ReadFile := fun p => if String.eqb p "teams" then Some teams else @ReadFile sample_files p; LookupEnv := @LookupEnv sample_files |}.
Definition teams_of (r : outcome LoadError Config) : option (list TeamIdentity) :=
  match r with Ok c => Some (Teams (cfg_Identity c)) | _ => None end.
Definition initial : Config :=
  match @Load (disk "none") _ _ _ sample_loader with Ok c => c | _ => config_at "" "" end.
Definition reloader : HotReloader := OnReload (NewHotReloader initial sample_loader).
Definition err (_ : LoadError) : string := "".
Definition any (_ : string) : bool := true.
Definition started : option Watch := Start any true (disk "none") 0 reloader.
Definition edit (teams : string) : Act := Change "teams" (Some teams) Written "./teams".
(** The second edit is reported, read and installed while the first reload,
    which has read its files, has not installed them yet. *)
Definition race : list Act :=
  [edit "one"; TakeEvent; Tick debounce_time; Fire; Snapshot 0; ReadFiles 0;
   edit "two"; TakeEvent; Tick debounce_time; Fire; Snapshot 1; ReadFiles 1; Install 1; Install 0].
Definition calm : list Act :=
  [edit "one"; TakeEvent; Tick 5; edit "two"; TakeEvent; Tick debounce_time; Fire; Snapshot 0; ReadFiles 0; Install 0].
Definition after (overlap : bool) (l : list Act) : option Watch := s ← started; plan err any overlap l s.
End Sample.

#[local] Existing Instances sample_cel sample_order Sample.yaml.

Definition summary (s : Watch) : option (list TeamIdentity) * option (list TeamIdentity) * bool :=
  (Sample.teams_of (Ok (current (wt_h s))), Sample.teams_of (on_disk s),
   (length (wt_events s) =? 0)%nat && bool_decide (wt_timer s = None) && (length (wt_jobs s) =? 0)%nat && negb (wt_manual s)).

(** With overlapping reloads an older configuration can overwrite a newer one
    and stay: nothing is left to do, and the current configuration is not the
    one on the disk. *)
Example overlapping_reload_stale :
  summary <$> Sample.after true Sample.race = Some (Some [Sample.core], Some [], true).
Proof. vm_compute. reflexivity. Qed.

(** Without overlap the same edits end with the configuration on the disk,
    read once. *)
Example coalesced_reload :
  summary <$> Sample.after false Sample.calm = Some (Some [], Some [], true) /\
  (fun s => length (wt_calls s)) <$> Sample.after false Sample.calm = Some 1.
Proof. split; vm_compute; reflexivity. Qed.

(** After [Stop] the loop may leave through the closed channel without
    stopping the timer: a reload still starts. *)
Example reload_after_stop :
  (fun s => (wt_alive s, length (wt_jobs s))) <$>
    Sample.after false [Sample.edit "one"; TakeEvent; Stop_; ExitClosed; Tick debounce_time; Fire] = Some (false, 1).
Proof. vm_compute. reflexivity. Qed.

Definition key_of_ep1 (r : outcome LoadError Config) : option string :=
  match r with Ok c => ResolvedKey <$> cfg_ResolvedEndpoints c !! "ep1" | _ => None end.
Definition reload_now : list Act := [TakeEvent; Tick debounce_time; Fire; Snapshot 0; ReadFiles 0; Install 0].

(** A secret file that is replaced by a rename is reloaded once; its watch is
    gone with the old file, so the next change is not seen. *)
Example replaced_secret_missed :
  (fun s => (key_of_ep1 (Ok (current (wt_h s))), key_of_ep1 (on_disk s), (summary s).2)) <$>
    Sample.after false (Change "/run/key" (Some "sk-2") Renamed "/run/key" :: reload_now ++
                        [Change "/run/key" (Some "sk-3") Written "/run/key"])%list
  = Some (Some "sk-2", Some "sk-3", true).
Proof. vm_compute. reflexivity. Qed.

(** Executable sufficient condition of [tracked]. *)
Definition follows (s : Watch) (a : Act) : bool :=
  match a with
  | Change path _ k _ =>
      bool_decide (path ∈ config_files (loader (wt_h s))) ||
      bool_decide (path ∈ secrets_of (current (wt_h s)) /\ Clean path = path /\ k = Written)
  | _ => true
  end.
Fixpoint followed (l : list Act) (s : Watch) : bool :=
  match l with
  | [] => true
  | a :: l => follows s a && match act Sample.err Sample.any false a s with Some s' => followed l s' | None => false end
  end.
Lemma followed_tracked l s s' : plan Sample.err Sample.any false l s = Some s' -> followed l s = true ->
  rtc (tracked_step Sample.err Sample.any) s s'.
Proof.
  revert s. induction l as [|a l IH]; intros s; cbn [plan followed].
  - intros [= <-] _. constructor.
  - intros (s1 & Ha & Hl)%bind_Some. rewrite Ha. intros [Hf Hr]%andb_true_iff. eapply rtc_l; [|by apply IH].
    exists a. split; [|done]. destruct a; try done. cbn in *.
    apply orb_true_iff in Hf as [H%bool_decide_eq_true|H%bool_decide_eq_true]; [by left|right; left].
    destruct H as (? & ? & ?). by split_and!.
Qed.

(** A team file and a secret file change while nothing has been reloaded yet. *)
Definition mixed : list Act :=
  (Sample.edit "one" :: TakeEvent :: Tick 5 :: Change "/run/key" (Some "sk-2") Written "/run/key" :: reload_now)%list.
Definition checks (s : Watch) : bool :=
  wt_alive s && negb (wt_closed s) && (length (wt_events s) =? 0)%nat && bool_decide (wt_timer s = None) &&
  (length (wt_jobs s) =? 0)%nat && negb (wt_manual s).

Lemma watcher_converges_witness :
  exists s, Sample.after false mixed = Some s /\ pendingFiles (wt_h s) = ∅ /\ key_of_ep1 (on_disk s) = Some "sk-2" /\
    forall c, on_disk s = Ok c -> current (wt_h s) = c.
Proof.
  destruct Sample.started as [s0|] eqn:H0; [|vm_compute in H0; discriminate].
  assert ((match Sample.started with Some s0 => followed mixed s0 | None => false end = true) /\
          match Sample.after false mixed with
          | Some s => checks s = true /\ key_of_ep1 (on_disk s) = Some "sk-2" | None => False end) as [Hf Hq]
    by (vm_compute; repeat split; reflexivity).
  unfold Sample.after in *. rewrite H0 in *. cbn [mbind option_bind] in *.
  destruct (plan Sample.err Sample.any false mixed s0) as [s|] eqn:Hs; [|destruct Hq]. destruct Hq as [Hq Hk].
  exists s. split; [reflexivity|]. unfold checks in Hq. rewrite !andb_true_iff in Hq.
  destruct Hq as [[[[[Ha Hcl] He] Ht] Hj] Hm].
  destruct (watcher_converges Sample.err Sample.any true (Sample.disk "none") 0 Sample.reloader s0 s H0 eq_refl eq_refl)
    as [_ Hc].
  - repeat constructor.
  - vm_compute. reflexivity.
  - exact (followed_tracked mixed s0 s Hs Hf).
  - split; [exact Ha|]. destruct (wt_closed s); [discriminate Hcl|reflexivity].
  - destruct Hc as (Hp & _ & Hcur); [|split_and!; assumption].
    split_and!; [by apply nil_length_inv, Nat.eqb_eq|by apply bool_decide_eq_true in Ht|by apply nil_length_inv, Nat.eqb_eq|by apply negb_true_iff].
Defined.
