(* ===== verification/Ledger.v ===== *)
(** * The local trace ledger

    [internal/lp/ledger/sqlite.go]: one SQLite table.  Rows carry the
    AUTOINCREMENT id, and [recorded_at] as the RFC 3339 text that is stored;
    instants are seconds in UTC.  Whether a statement succeeds is an
    argument.  [QueryByTraceID] has no ORDER BY: it is modelled as the lowest
    id, which is what a scan of the index on [trace_id] returns. *)

From stdpp Require Import sorting base gmap strings fin_maps numbers list.
From S2P Require Import Prelude Calendar.
Local Open Scope string_scope.

Record TraceRecord := {
  tr_TraceID : string; tr_SessionID : string; tr_CostCents : Z; tr_TokensIn : Z; tr_TokensOut : Z;
  tr_Model : string; tr_Provider : string; tr_TaskType : string; tr_RecordedAt : Z }.

(** A row: the record with its time as text. *)
Record TraceRow := {
  row_id : Z;
  row_rec : TraceRecord;           (** [tr_RecordedAt] is not a column *)
  row_recorded_at : string }.

(** The table, oldest row first, and the AUTOINCREMENT counter. *)
Record Ledger := { traces : list TraceRow; last_id : Z }.
Definition empty_ledger : Ledger := {| traces := []; last_id := 0 |}.

Inductive LedgerError := CreateLedgerDir | OpenSqlite | MigrateFailed | InsertFailed | NoRows | QueryFailed.

(** [Open]: the steps that can fail; the table is created when missing. *)
Record OpenEnv := { mkdir_ok : bool; sql_ok : bool; migrate_ok : bool }.
Definition Open (e : OpenEnv) (l : option Ledger) : outcome LedgerError Ledger :=
  reject (negb (mkdir_ok e)) CreateLedgerDir ≫= fun _ =>
  reject (negb (sql_ok e)) OpenSqlite ≫= fun _ =>
  reject (negb (migrate_ok e)) MigrateFailed ≫= fun _ =>
  Ok (default empty_ledger l).

Definition Insert (ok : bool) (l : Ledger) (r : TraceRecord) : Ledger * outcome LedgerError unit :=
  if ok then
    ({| traces := (traces l ++ [{| row_id := last_id l + 1; row_rec := r;
                                   row_recorded_at := FormatRFC3339 (tr_RecordedAt r) |}])%list;
        last_id := last_id l + 1 |}, Ok tt)
  else (l, Err InsertFailed).

(** [rows.Scan] and [time.Parse], whose error leaves the zero time. *)
Definition scan_row (r : TraceRow) : TraceRecord :=
  let t := row_rec r in
  {| tr_TraceID := tr_TraceID t; tr_SessionID := tr_SessionID t; tr_CostCents := tr_CostCents t;
     tr_TokensIn := tr_TokensIn t; tr_TokensOut := tr_TokensOut t; tr_Model := tr_Model t;
     tr_Provider := tr_Provider t; tr_TaskType := tr_TaskType t;
     tr_RecordedAt := default zero_time (ParseRFC3339 (row_recorded_at r)) |}.

Fixpoint first_trace (traceID : string) (rows : list TraceRow) : option TraceRow :=
  match rows with
  | [] => None
  | r :: rows => if String.eqb (tr_TraceID (row_rec r)) traceID then Some r else first_trace traceID rows
  end.

Definition QueryByTraceID (ok : bool) (l : Ledger) (traceID : string) : outcome LedgerError TraceRecord :=
  if negb ok then Err QueryFailed
  else match first_trace traceID (traces l) with None => Err NoRows | Some r => Ok (scan_row r) end.

Definition ListRecent (ok : bool) (l : Ledger) (limit : Z) : outcome LedgerError (list TraceRecord) :=
  let limit := if (limit <=? 0)%Z then 5%Z else limit in
  if negb ok then Err QueryFailed else Ok (scan_row <$> take (Z.to_nat limit) (rev (traces l))).

(** ** Lemmas *)

(** Ids grow with the table, so ORDER BY id DESC is the reverse order. *)
Definition ledger_ok (l : Ledger) : Prop :=
  StronglySorted (fun a b => row_id a < row_id b)%Z (traces l) /\
  Forall (fun r => row_id r <= last_id l)%Z (traces l).

Lemma empty_ledger_ok : ledger_ok empty_ledger.
Proof. split; constructor. Qed.

Lemma Insert_ok ok l r : ledger_ok l -> ledger_ok (Insert ok l r).1.
Proof.
  intros [Hs Hb]. destruct ok; [|done]. cbn. split; cbn.
  - revert Hb. induction Hs as [|a rows Hs IH Ha]; intros Hb; cbn; [by repeat constructor|].
    inversion Hb as [|? ? Hb1 Hb2]; subst. constructor; [by apply IH|].
    apply Forall_app. split; [done|]. constructor; [cbn; lia|done].
  - apply Forall_app. split; [|repeat constructor; cbn; lia].
    eapply Forall_impl; [exact Hb|]. cbn. lia.
Qed.

(** A record whose time is a whole second with a four-digit year comes back
    unchanged. *)
Lemma scan_inserted i r : four_digit_year (tr_RecordedAt r / 86400) ->
  scan_row {| row_id := i; row_rec := r; row_recorded_at := FormatRFC3339 (tr_RecordedAt r) |} = r.
Proof. intros H. unfold scan_row. cbn [row_rec row_recorded_at]. rewrite ParseRFC3339_FormatRFC3339 by done. by destruct r. Qed.

Lemma Insert_ListRecent l r n rs : (0 < n)%Z -> four_digit_year (tr_RecordedAt r / 86400) ->
  ListRecent true l n = Ok rs ->
  ListRecent true (Insert true l r).1 n = Ok (take (Z.to_nat n) (r :: rs)).
Proof.
  intros Hn Hr. unfold ListRecent. destruct (Z.leb_spec n 0); [lia|]. cbn [negb Insert fst traces]. intros [= <-].
  rewrite rev_app_distr. cbn [rev app]. destruct (Z.to_nat n) as [|m]; [done|]. cbn [take fmap list_fmap].
  rewrite scan_inserted by done. do 2 f_equal. rewrite <- fmap_take, take_take. do 2 f_equal. lia.
Qed.

Lemma Insert_Query l r : four_digit_year (tr_RecordedAt r / 86400) ->
  QueryByTraceID true l (tr_TraceID r) = Err NoRows ->
  QueryByTraceID true (Insert true l r).1 (tr_TraceID r) = Ok r.
Proof.
  intros Hr. unfold QueryByTraceID. cbn [negb Insert fst traces].
  induction (traces l) as [|a rows IH]; cbn.
  - intros _. by rewrite String.eqb_refl, scan_inserted.
  - destruct (String.eqb _ _); [done|]. apply IH.
Qed.

(** The newest row is the one just inserted. *)
Lemma Insert_newest l r : four_digit_year (tr_RecordedAt r / 86400) ->
  traces (Insert true l r).1 <> [] /\ ListRecent true (Insert true l r).1 1 = Ok [r].
Proof.
  intros Hr. split; [cbn; by destruct (traces l)|].
  by rewrite (Insert_ListRecent l r 1 (scan_row <$> take 1 (rev (traces l))) eq_refl Hr eq_refl).
Qed.
