(* ===== verification/GwClient.v ===== *)
(** * The local proxy's gateway client

    [internal/lp/gwclient/client.go].  The network is the function [gw] from
    the requests sent so far and the new one to a reply; a response body is
    the sequence of results its [Read] calls give.  [validURL] is the check of
    [http.NewRequest].  TLS settings and the five-minute timeout are not
    modelled: a timeout is a transport error. *)

From Stdlib Require Import Ascii.
From stdpp Require Import sorting base gmap strings fin_maps numbers pretty list.
From S2P Require Import Prelude GoData Json Calendar.
Local Open Scope string_scope.

(** ** Readers *)

Inductive read_err := AtEOF | Broken (msg : string).

(** Successive results of [Read]; afterwards it reports [io.EOF]. *)
Definition Reader := list (string * option read_err).

(** What [io.ReadAll] gets: the bytes, and the error unless it is EOF. *)
Fixpoint ReadAll (r : Reader) : string * option string :=
  match r with
  | [] => ("", None)
  | (data, None) :: r => let '(rest, e) := ReadAll r in (data +:+ rest, e)
  | (data, Some AtEOF) :: _ => (data, None)
  | (data, Some (Broken m)) :: _ => (data, Some m)
  end.

(** The first JSON value of a text ([json.NewDecoder(r).Decode]); a text that
    is one value is that value. *)
Class JSONDecoder {js : JSON} := {
  firstJSON : string -> option json;
  firstJSON_whole s j : parseJSON s = Some j -> firstJSON s = Some j }.

(** ** Requests and replies *)

Record LPRequest := {
  q_Method : string; q_URL : string; q_Query : list (string * string);
  q_Authorization : option string; q_JSON : bool; q_Body : option string }.

Definition Header := gmap string (list string).
Definition header_get (h : Header) (k : string) : string :=
  match h !! k with Some (v :: _) => v | _ => "" end.

Inductive GwReply :=
| NoReply (text : string)
| Replied (status : Z) (header : Header) (body : Reader).

(** What [Forward] hands to its caller. *)
Record ForwardResponse := { fw_Status : Z; fw_Header : Header; fw_Body : Reader }.

Inductive ClientError :=
| MarshalForward
| CreateRequest
| Transport (what text : string)
| AfterRetry (status : Z) (snippet : string)
| BadStatus (what : string) (status : Z) (snippet : string)
| ParseResponse (what : string).

Record Client := { cl_GwURL : string; cl_APIKey : string }.
(** [NewClient]; the certificate at [caPath] only changes the TLS settings. *)
Definition NewClient (gwURL apiKey caPath : string) : Client := {| cl_GwURL := gwURL; cl_APIKey := apiKey |}.

Section Client.
Context {js : JSON} {jd : JSONDecoder} (validURL : string -> bool) (gw : list LPRequest -> LPRequest -> GwReply).

(** [http.NewRequest] and [client.Do]. *)
Definition do_request (sent : list LPRequest) (q : LPRequest) : list LPRequest * GwReply :=
  ((sent ++ [q])%list, gw sent q).

(** *** Forward *)

Record WirePayload := { w_Protocol : string; w_Stream : bool; w_Body : string }.
Record ForwardRequest := { f_Envelope : json; f_Wire : WirePayload }.

(** [json.Marshal] of the request: the body is a raw message and must be a
    JSON text. *)
Definition marshal_forward (req : ForwardRequest) : option json :=
  body ← parseJSON (w_Body (f_Wire req));
  Some (JObj [("envelope", f_Envelope req);
              ("wire", JObj [("protocol", JStr (w_Protocol (f_Wire req))); ("stream", JBool (w_Stream (f_Wire req)));
                             ("body", body)])]).

Definition forward_request (c : Client) (body : string) : LPRequest :=
  {| q_Method := "POST"; q_URL := cl_GwURL c +:+ "/v1/agent/forward"; q_Query := [];
     q_Authorization := Some ("Bearer " +:+ cl_APIKey c); q_JSON := true; q_Body := Some body |}.

Record snippet := { sn_Code : string; sn_TraceID : string }.
Definition snippet_field (k : string) : option (decoder snippet) :=
  if String.eqb k "code" then Some (fun v s => x ← dec_str v (sn_Code s); Some {| sn_Code := x; sn_TraceID := sn_TraceID s |})
  else if String.eqb k "trace_id" then Some (fun v s => x ← dec_str v (sn_TraceID s);
    Some {| sn_Code := sn_Code s; sn_TraceID := x |})
  else None.

Definition readErrorSnippet (body : Reader) : string :=
  let '(text, err) := ReadAll body in
  if (String.length text <? 1024)%nat && bool_decide (is_Some err) then "(unreadable)"
  else match unmarshal (dec_struct snippet_field) (str_take 1024 text) {| sn_Code := ""; sn_TraceID := "" |} with
       | Some s =>
           if negb (is_empty (sn_Code s)) || negb (is_empty (sn_TraceID s))
           then "code=" +:+ (sn_Code s +:+ (" trace_id=" +:+ sn_TraceID s)) else "(no error details)"
       | None => "(no error details)"
       end.

Definition is_5xx (st : Z) : bool := ((500 <=? st) && (st <? 600))%Z.

Definition doWithRetry (c : Client) (sent : list LPRequest) (body : string)
    : list LPRequest * outcome ClientError ForwardResponse :=
  let q := forward_request c body in
  if negb (validURL (q_URL q)) then (sent, Err CreateRequest)
  else match do_request sent q with
       | (sent, NoReply t) => (sent, Err (Transport "gw request" t))
       | (sent, Replied st h b) =>
           if negb (is_5xx st) then (sent, Ok {| fw_Status := st; fw_Header := h; fw_Body := b |})
           else match do_request sent q with
                | (sent, NoReply t) => (sent, Err (Transport "gw retry request" t))
                | (sent, Replied st2 h2 b2) =>
                    if is_5xx st2 then (sent, Err (AfterRetry st2 (readErrorSnippet b2)))
                    else (sent, Ok {| fw_Status := st2; fw_Header := h2; fw_Body := b2 |})
                end
       end.

Definition Forward (c : Client) (sent : list LPRequest) (req : ForwardRequest)
    : list LPRequest * outcome ClientError ForwardResponse :=
  match marshal_forward req with
  | None => (sent, Err MarshalForward)
  | Some j => doWithRetry c sent (printJSON j)
  end.

(** *** First byte *)

Record FirstByteStateMachine := { firstByte : bool; mayRetry : bool }.
Definition NewFirstByteStateMachine : FirstByteStateMachine := {| firstByte := false; mayRetry := true |}.
Definition MayRetry (sm : FirstByteStateMachine) : bool := mayRetry sm.
Definition FlushFirstByte (sm : FirstByteStateMachine) : FirstByteStateMachine := {| firstByte := true; mayRetry := false |}.
Definition HasFlushed (sm : FirstByteStateMachine) : bool := firstByte sm.

(** *** The other calls *)

(** Send and decode the first JSON value of the reply with [d], after the
    status check if there is one ([check] names the error). *)
Definition call {T} (sent : list LPRequest) (q : LPRequest) (what : string) (check : option Z)
    (with_snippet : bool) (d : decoder T) (zero : T) : list LPRequest * outcome ClientError T :=
  if negb (validURL (q_URL q)) then (sent, Err CreateRequest)
  else match do_request sent q with
       | (sent, NoReply t) => (sent, Err (Transport what t))
       | (sent, Replied st _ b) =>
           (sent,
            if match check with Some want => negb (st =? want)%Z | None => false end
            then Err (BadStatus what st (if with_snippet then readErrorSnippet b else ""))
            else match firstJSON (ReadAll b).1 ≫= fun v => d v zero with
                 | None => Err (ParseResponse what)
                 | Some x => Ok x
                 end)
       end.

Definition key_field (k : string) : option (decoder string) :=
  if String.eqb k "api_key" then Some dec_str else None.

Definition ExchangeSetup (c : Client) (sent : list LPRequest) (setupToken : string)
    : list LPRequest * outcome ClientError string :=
  call sent {| q_Method := "POST"; q_URL := cl_GwURL c +:+ "/api/v1/lp/exchange-setup"; q_Query := [];
               q_Authorization := Some ("Bearer " +:+ setupToken); q_JSON := true; q_Body := None |}
    "exchange setup" (Some 200%Z) false (dec_struct key_field) "".

Record CostSummaryRow := {
  cs_Bucket : string; cs_DimValue : string; cs_CostCents : Z; cs_InputTokens : Z; cs_OutputTokens : Z;
  cs_NRequests : Z; cs_NFailed : Z }.
Definition zero_summary : CostSummaryRow :=
  {| cs_Bucket := ""; cs_DimValue := ""; cs_CostCents := 0; cs_InputTokens := 0; cs_OutputTokens := 0;
     cs_NRequests := 0; cs_NFailed := 0 |}.
Definition summary_field (k : string) : option (decoder CostSummaryRow) :=
  let set f := Some f in
  if String.eqb k "bucket" then set (fun v r => x ← dec_str v (cs_Bucket r);
    Some {| cs_Bucket := x; cs_DimValue := cs_DimValue r; cs_CostCents := cs_CostCents r; cs_InputTokens := cs_InputTokens r;
            cs_OutputTokens := cs_OutputTokens r; cs_NRequests := cs_NRequests r; cs_NFailed := cs_NFailed r |})
  else if String.eqb k "dim_value" then set (fun v r => x ← dec_str v (cs_DimValue r);
    Some {| cs_Bucket := cs_Bucket r; cs_DimValue := x; cs_CostCents := cs_CostCents r; cs_InputTokens := cs_InputTokens r;
            cs_OutputTokens := cs_OutputTokens r; cs_NRequests := cs_NRequests r; cs_NFailed := cs_NFailed r |})
  else if String.eqb k "cost_cents" then set (fun v r => x ← dec_int v (cs_CostCents r);
    Some {| cs_Bucket := cs_Bucket r; cs_DimValue := cs_DimValue r; cs_CostCents := x; cs_InputTokens := cs_InputTokens r;
            cs_OutputTokens := cs_OutputTokens r; cs_NRequests := cs_NRequests r; cs_NFailed := cs_NFailed r |})
  else if String.eqb k "input_tokens" then set (fun v r => x ← dec_int v (cs_InputTokens r);
    Some {| cs_Bucket := cs_Bucket r; cs_DimValue := cs_DimValue r; cs_CostCents := cs_CostCents r; cs_InputTokens := x;
            cs_OutputTokens := cs_OutputTokens r; cs_NRequests := cs_NRequests r; cs_NFailed := cs_NFailed r |})
  else if String.eqb k "output_tokens" then set (fun v r => x ← dec_int v (cs_OutputTokens r);
    Some {| cs_Bucket := cs_Bucket r; cs_DimValue := cs_DimValue r; cs_CostCents := cs_CostCents r;
            cs_InputTokens := cs_InputTokens r; cs_OutputTokens := x; cs_NRequests := cs_NRequests r; cs_NFailed := cs_NFailed r |})
  else if String.eqb k "n_requests" then set (fun v r => x ← dec_int v (cs_NRequests r);
    Some {| cs_Bucket := cs_Bucket r; cs_DimValue := cs_DimValue r; cs_CostCents := cs_CostCents r;
            cs_InputTokens := cs_InputTokens r; cs_OutputTokens := cs_OutputTokens r; cs_NRequests := x; cs_NFailed := cs_NFailed r |})
  else if String.eqb k "n_failed" then set (fun v r => x ← dec_int v (cs_NFailed r);
    Some {| cs_Bucket := cs_Bucket r; cs_DimValue := cs_DimValue r; cs_CostCents := cs_CostCents r;
            cs_InputTokens := cs_InputTokens r; cs_OutputTokens := cs_OutputTokens r; cs_NRequests := cs_NRequests r; cs_NFailed := x |})
  else None.

(** Query parameters are set only when not empty; [url.Values.Encode] sorts
    them by key. *)
Definition query_param (k v : string) : list (string * string) := if is_empty v then [] else [(k, v)].
Definition GetCostSummary (c : Client) (sent : list LPRequest) (dim from to : string)
    : list LPRequest * outcome ClientError (list CostSummaryRow) :=
  call sent {| q_Method := "GET"; q_URL := cl_GwURL c +:+ "/api/v1/cost/summary";
               q_Query := (query_param "dim" dim ++ query_param "from" from ++ query_param "to" to)%list;
               q_Authorization := Some ("Bearer " +:+ cl_APIKey c); q_JSON := false; q_Body := None |}
    "cost summary" None false (dec_slice zero_summary (dec_struct summary_field)) [].

Record RoutingEvent := { re_TraceID : string; re_AttemptNo : Z; re_Pool : string; re_MemberJSON : string }.
Definition zero_routing : RoutingEvent := {| re_TraceID := ""; re_AttemptNo := 0; re_Pool := ""; re_MemberJSON := "" |}.
Definition routing_field (k : string) : option (decoder RoutingEvent) :=
  if String.eqb k "trace_id" then Some (fun v r => x ← dec_str v (re_TraceID r);
    Some {| re_TraceID := x; re_AttemptNo := re_AttemptNo r; re_Pool := re_Pool r; re_MemberJSON := re_MemberJSON r |})
  else if String.eqb k "attempt_no" then Some (fun v r => x ← dec_int v (re_AttemptNo r);
    Some {| re_TraceID := re_TraceID r; re_AttemptNo := x; re_Pool := re_Pool r; re_MemberJSON := re_MemberJSON r |})
  else if String.eqb k "pool_selected" then Some (fun v r => x ← dec_str v (re_Pool r);
    Some {| re_TraceID := re_TraceID r; re_AttemptNo := re_AttemptNo r; re_Pool := x; re_MemberJSON := re_MemberJSON r |})
  else if String.eqb k "member_selected" then Some (fun v r => x ← dec_str v (re_MemberJSON r);
    Some {| re_TraceID := re_TraceID r; re_AttemptNo := re_AttemptNo r; re_Pool := re_Pool r; re_MemberJSON := x |})
  else None.
(** The trace id is put into the URL as it is. *)
Definition GetRoutingEvents (c : Client) (sent : list LPRequest) (traceID : string)
    : list LPRequest * outcome ClientError (list RoutingEvent) :=
  call sent {| q_Method := "GET"; q_URL := cl_GwURL c +:+ ("/api/v1/routing/events?trace_id=" +:+ traceID);
               q_Query := []; q_Authorization := Some ("Bearer " +:+ cl_APIKey c); q_JSON := false; q_Body := None |}
    "routing events" None false (dec_slice zero_routing (dec_struct routing_field)) [].

Record BindRepoResponse := { br_RepoID : string; br_BindingToken : string }.
Definition bind_field (k : string) : option (decoder BindRepoResponse) :=
  if String.eqb k "repo_id" then Some (fun v r => x ← dec_str v (br_RepoID r);
    Some {| br_RepoID := x; br_BindingToken := br_BindingToken r |})
  else if String.eqb k "binding_token" then Some (fun v r => x ← dec_str v (br_BindingToken r);
    Some {| br_RepoID := br_RepoID r; br_BindingToken := x |})
  else None.
Definition BindRepo (c : Client) (sent : list LPRequest) (repoID remoteURL signature : string)
    : list LPRequest * outcome ClientError BindRepoResponse :=
  call sent {| q_Method := "POST"; q_URL := cl_GwURL c +:+ "/v1/repo/bind"; q_Query := [];
               q_Authorization := Some ("Bearer " +:+ cl_APIKey c); q_JSON := true;
               q_Body := Some (printJSON (JObj [("remote_url", JStr remoteURL); ("repo_id", JStr repoID);
                                                ("signature", JStr signature)])) |}
    "bind repo" None false (dec_struct bind_field) {| br_RepoID := ""; br_BindingToken := "" |}.

Record InviteReply := { ir_APIKey : string; ir_UserID : string; ir_Role : string; ir_TeamID : string }.
Definition zero_invite_reply : InviteReply := {| ir_APIKey := ""; ir_UserID := ""; ir_Role := ""; ir_TeamID := "" |}.
Definition invite_field (k : string) : option (decoder InviteReply) :=
  if String.eqb k "api_key" then Some (fun v r => x ← dec_str v (ir_APIKey r);
    Some {| ir_APIKey := x; ir_UserID := ir_UserID r; ir_Role := ir_Role r; ir_TeamID := ir_TeamID r |})
  else if String.eqb k "user_id" then Some (fun v r => x ← dec_str v (ir_UserID r);
    Some {| ir_APIKey := ir_APIKey r; ir_UserID := x; ir_Role := ir_Role r; ir_TeamID := ir_TeamID r |})
  else if String.eqb k "role" then Some (fun v r => x ← dec_str v (ir_Role r);
    Some {| ir_APIKey := ir_APIKey r; ir_UserID := ir_UserID r; ir_Role := x; ir_TeamID := ir_TeamID r |})
  else if String.eqb k "team_id" then Some (fun v r => x ← dec_str v (ir_TeamID r);
    Some {| ir_APIKey := ir_APIKey r; ir_UserID := ir_UserID r; ir_Role := ir_Role r; ir_TeamID := x |})
  else None.
(** Anonymous: no Authorization header. *)
Definition ExchangeInvite (c : Client) (sent : list LPRequest) (token machineID : string)
    : list LPRequest * outcome ClientError InviteReply :=
  call sent {| q_Method := "POST"; q_URL := cl_GwURL c +:+ "/api/v1/lp/exchange-invite"; q_Query := [];
               q_Authorization := None; q_JSON := true;
               q_Body := Some (printJSON (JObj [("invite_token", JStr token); ("machine_id", JStr machineID)])) |}
    "exchange invite" (Some 200%Z) true (dec_struct invite_field) zero_invite_reply.

(** [time.Duration] in nanoseconds; an hour. *)
Definition Hour : Z := 3600 * 10 ^ 9.

(** A [time.Time] read from JSON: seconds in UTC and the zone's offset.  The
    fraction of a second is read and dropped. *)
Record GoTime := { gt_sec : Z; gt_off : Z }.
Definition zero_GoTime : GoTime := {| gt_sec := zero_time; gt_off := 0 |}.

Fixpoint skip_digits (s : string) : string :=
  match s with String c r => if is_digit c then skip_digits r else s | EmptyString => "" end.
Definition skip_fraction (s : string) : option string :=
  match s with
  | String c (String d r as t) => if Ascii.eqb c "." then (if is_digit d then Some (skip_digits t) else None) else Some s
  | _ => Some s
  end.
Definition read_zone (s : string) : option Z :=
  match s with
  | String c r =>
      if Ascii.eqb c "Z" then (if is_empty r then Some 0%Z else None)
      else if Ascii.eqb c "+" || Ascii.eqb c "-" then
        '(h, r) ← read_digits 2 0 r; r ← expect ":" r; '(m, r) ← read_digits 2 0 r;
        if ((h <? 24) && (m <? 60))%Z && is_empty r
        then Some ((if Ascii.eqb c "-" then -1 else 1) * (h * 3600 + m * 60))%Z else None
      else None
  | EmptyString => None
  end.
(** [Time.UnmarshalJSON]: strict RFC 3339. *)
Definition parse_time (s : string) : option GoTime :=
  '(c, s) ← read_civil s; s ← expect "T" s;
  '(h, s) ← read_digits 2 0 s; s ← expect ":" s;
  '(mi, s) ← read_digits 2 0 s; s ← expect ":" s;
  '(se, s) ← read_digits 2 0 s;
  s ← skip_fraction s; off ← read_zone s;
  if ((h <? 24) && (mi <? 60) && (se <? 60))%Z
  then Some {| gt_sec := days_of_civil c * 86400 + h * 3600 + mi * 60 + se - off; gt_off := off |} else None.
Definition dec_time : decoder GoTime := fun v old =>
  match v with JNull => Some old | JStr s => parse_time s | _ => None end.

Record CreatedInvite := { ci_InviteToken : string; ci_ExpiresAt : GoTime }.
Definition created_field (k : string) : option (decoder CreatedInvite) :=
  if String.eqb k "invite_token" then Some (fun v r => x ← dec_str v (ci_InviteToken r);
    Some {| ci_InviteToken := x; ci_ExpiresAt := ci_ExpiresAt r |})
  else if String.eqb k "expires_at" then Some (fun v r => x ← dec_time v (ci_ExpiresAt r);
    Some {| ci_InviteToken := ci_InviteToken r; ci_ExpiresAt := x |})
  else None.
Definition CreateInvite (c : Client) (sent : list LPRequest) (userID teamID role : string) (ttl : Z)
    : list LPRequest * outcome ClientError CreatedInvite :=
  let ttlHours := Z.quot ttl Hour in
  call sent {| q_Method := "POST"; q_URL := cl_GwURL c +:+ "/api/v1/admin/invites"; q_Query := [];
               q_Authorization := Some ("Bearer " +:+ cl_APIKey c); q_JSON := true;
               q_Body := Some (printJSON (JObj [("role", JStr role); ("team_id", JStr teamID);
                                                ("ttl_hours", JInt ttlHours); ("user_id", JStr userID)])) |}
    "create invite" (Some 201%Z) true (dec_struct created_field) {| ci_InviteToken := ""; ci_ExpiresAt := zero_GoTime |}.

(** ** Lemmas *)

Lemma RFC3339_Z t : str_take (String.length (FormatRFC3339 t) - 1) (FormatRFC3339 t) +:+ "Z" = FormatRFC3339 t.
Proof.
  assert (exists text, FormatRFC3339 t = text +:+ "Z") as [text ->].
  { unfold FormatRFC3339. cbv zeta. eexists. by rewrite <- !str_app_assoc. }
  rewrite str_length_app. cbn [String.length]. by rewrite Nat.add_sub, str_take_app.
Qed.

(** All digits. *)
Lemma skip_digits_app s r : skip_digits s = "" -> skip_digits (s +:+ r) = skip_digits r.
Proof.
  induction s as [|c s IH]; [done|]. change (String c s +:+ r) with (String c (s +:+ r)). cbn [skip_digits].
  by destruct (is_digit c).
Qed.
Lemma skip_digits_digits w n : skip_digits (digits w n) = "".
Proof.
  revert n. induction w as [|w IH]; intros n; [done|]. cbn [digits]. rewrite skip_digits_app by apply IH.
  cbn [skip_digits]. destruct (digit_char_value (n mod 10)) as [-> _]; [apply Z.mod_pos_bound; lia|done].
Qed.

(** A UTC time that is written as [FormatRFC3339] writes it, possibly with a
    fraction of a second, is read back. *)
Lemma parse_time_UTC t frac : four_digit_year (t / 86400) -> skip_fraction (frac +:+ "Z") = Some "Z" ->
  parse_time (str_take (String.length (FormatRFC3339 t) - 1) (FormatRFC3339 t) +:+ (frac +:+ "Z")) = Some {| gt_sec := t; gt_off := 0 |}.
Proof.
  intros Ht Hf. pose proof (ParseRFC3339_FormatRFC3339 t Ht) as Hp. unfold FormatRFC3339 in *. set (s := (t mod 86400)%Z) in *.
  pose proof (Z.mod_pos_bound t 86400 ltac:(lia)) as Hs.
  assert (0 <= s / 3600 < 24 /\ 0 <= (s / 60) mod 60 < 60 /\ 0 <= s mod 60 < 60)%Z as (Hh & Hmi & Hse).
  { pose proof (Z.mod_pos_bound s 60 ltac:(lia)). pose proof (Z.mod_pos_bound (s / 60) 60 ltac:(lia)).
    split; [|lia]. split; [apply Z.div_pos; lia|apply Z.div_lt_upper_bound; lia]. }
  set (text := FormatDate (t / 86400) +:+ ("T" +:+ (digits 2 (s / 3600) +:+ (":" +:+ (digits 2 ((s / 60) mod 60) +:+
    (":" +:+ digits 2 (s mod 60))))))).
  assert (FormatDate (t / 86400) +:+ ("T" +:+ (digits 2 (s / 3600) +:+ (":" +:+ (digits 2 ((s / 60) mod 60) +:+
    (":" +:+ (digits 2 (s mod 60) +:+ "Z")))))) = text +:+ "Z") as Ht' by (unfold text; by rewrite !str_app_assoc).
  rewrite Ht', str_length_app. cbn [String.length]. rewrite Nat.add_sub, str_take_app.
  unfold parse_time, text. unfold ParseRFC3339 in Hp. rewrite !str_app_assoc. revert Hp. rewrite !read_civil_format by done.
  cbn [mbind option_bind String.append]. rewrite !expect_same. cbn [mbind option_bind]. rewrite !read_2 by lia.
  cbn [mbind option_bind String.append]. rewrite !expect_same. cbn [mbind option_bind]. rewrite !read_2 by lia.
  cbn [mbind option_bind String.append]. rewrite !expect_same. cbn [mbind option_bind]. rewrite !read_2 by lia.
  cbn [mbind option_bind String.append]. rewrite expect_same, Hf.
  cbn [mbind option_bind is_empty read_zone Ascii.eqb Bool.eqb]. rewrite andb_true_r.
  destruct (_ && _)%Z; [|done]. intros [= Hsec]. rewrite Hsec. by rewrite Z.sub_0_r.
Qed.

(** A forward sends nothing, one request, or the same request twice; it sends
    it twice exactly when the first reply was a 5xx, and what it hands over is
    never a 5xx. *)
Lemma doWithRetry_spec c sent body sent' res : doWithRetry c sent body = (sent', res) ->
  let r := forward_request c body in
  (sent' = sent /\ res = Err CreateRequest \/
   sent' = (sent ++ [r])%list \/
   sent' = (sent ++ [r; r])%list /\ exists st h b, gw sent r = Replied st h b /\ is_5xx st = true) /\
  (forall resp, res = Ok resp -> is_5xx (fw_Status resp) = false).
Proof.
  cbv zeta. unfold doWithRetry, do_request. set (r := forward_request c body).
  destruct (validURL (q_URL r)); cbn [negb]; [|naive_solver].
  destruct (gw sent r) as [t|st h b] eqn:Hg; [naive_solver|].
  destruct (is_5xx st) eqn:H5; cbn [negb]; [|naive_solver].
  rewrite <- app_assoc. cbn [app].
  destruct (gw (sent ++ [r])%list r) as [t|st2 h2 b2]; [|destruct (is_5xx st2) eqn:H52]; naive_solver.
Qed.

Lemma Forward_first c sent req j st h b : marshal_forward req = Some j ->
  validURL (cl_GwURL c +:+ "/v1/agent/forward") = true ->
  gw sent (forward_request c (printJSON j)) = Replied st h b -> is_5xx st = false ->
  Forward c sent req = ((sent ++ [forward_request c (printJSON j)])%list,
                        Ok {| fw_Status := st; fw_Header := h; fw_Body := b |}).
Proof.
  intros Hj Hv Hg H5. unfold Forward. rewrite Hj. unfold doWithRetry, do_request.
  change (q_URL (forward_request c (printJSON j))) with (cl_GwURL c +:+ "/v1/agent/forward").
  rewrite Hv. cbn [negb]. by rewrite Hg, H5.
Qed.

(** The data that goes out is the bearer's envelope and body, unchanged. *)
Lemma Forward_ok c sent req sent' resp : Forward c sent req = (sent', Ok resp) ->
  exists j, marshal_forward req = Some j /\ is_5xx (fw_Status resp) = false /\
    let r := forward_request c (printJSON j) in sent' = (sent ++ [r])%list \/ sent' = (sent ++ [r; r])%list.
Proof.
  unfold Forward. destruct (marshal_forward req) as [j|]; [|done]. intros H. exists j. split; [done|].
  apply doWithRetry_spec in H as [Hs Hr]. split; [by apply Hr|]. cbv zeta. naive_solver.
Qed.

(** An error text repeats of an error body only its code and its trace id. *)
Lemma snippet_depends body j s : (ReadAll body).2 = None -> (String.length (ReadAll body).1 < 1024)%nat ->
  parseJSON (ReadAll body).1 = Some j ->
  dec_struct snippet_field j {| sn_Code := ""; sn_TraceID := "" |} = Some s ->
  readErrorSnippet body = if is_empty (sn_Code s) && is_empty (sn_TraceID s) then "(no error details)"
                          else "code=" +:+ (sn_Code s +:+ (" trace_id=" +:+ sn_TraceID s)).
Proof.
  unfold readErrorSnippet. destruct (ReadAll body) as [text err]. cbn [fst snd]. intros -> Hl Hp Hd.
  rewrite bool_decide_eq_false_2 by (intros [? [=]]). rewrite andb_false_r. unfold unmarshal, unmarshal_raw.
  rewrite str_take_all by lia. rewrite Hp. cbn [mbind option_bind]. rewrite Hd.
  by destruct (is_empty (sn_Code s)), (is_empty (sn_TraceID s)).
Qed.
End Client.

(** The coded documents, one per text. *)
Definition coded_decoder : @JSONDecoder coded_json := {| firstJSON := @parseJSON coded_json; firstJSON_whole := fun _ _ H => H |}.
