(* ===== verification/LocalProxy.v ===== *)
(** * The local proxy's server

    [internal/lp/server]: anthropic.go (the handler a coding agent talks to,
    its relay that filters the gateway's own events out of the stream, the
    envelope it builds) and meta.go; [internal/shared/version].

    The reply to the agent is a [Pipe]: it accepts a number of writes, then
    every write fails.  The body of the gateway's reply is a [Reader], so a
    theorem about the relay holds for every way the network cuts the bytes. *)

From Stdlib Require Import Ascii.
From stdpp Require Import sorting base gmap strings fin_maps numbers pretty list.
From S2P Require Import Prelude GoData Json Cost Stream Classifier Calendar LocalState Ledger GwClient.
Local Open Scope string_scope.

(** ** Frames *)

Definition frame_end : string := String newline nl.

(** [bytes.Index(buf, "\n\n")]: the bytes before and after the first one. *)
Fixpoint cut_frame (s : string) : option (string * string) :=
  match s with
  | String c (String d s' as t) =>
      if Ascii.eqb c newline && Ascii.eqb d newline then Some ("", s')
      else '(f, r) ← cut_frame t; Some (String c f, r)
  | _ => None
  end.

(** *** sseReader *)

Record sseReader := { sr_r : Reader; sr_buf : string; sr_done : bool }.

Fixpoint next_frame (r : Reader) (buf : string) (done : bool) : outcome read_err string * sseReader :=
  match cut_frame buf with
  | Some (f, rest) => (Ok f, {| sr_r := r; sr_buf := rest; sr_done := done |})
  | None =>
      if done then
        (if is_empty buf then Err AtEOF else Ok buf, {| sr_r := r; sr_buf := ""; sr_done := true |})
      else match r with
           | [] => (if is_empty buf then Err AtEOF else Ok buf, {| sr_r := []; sr_buf := ""; sr_done := true |})
           | (data, None) :: r => next_frame r (buf +:+ data) false
           | (data, Some AtEOF) :: r => next_frame r (buf +:+ data) true
           | (data, Some (Broken m)) :: r => (Err (Broken m), {| sr_r := r; sr_buf := buf +:+ data; sr_done := false |})
           end
  end.
Definition NextFrame (sr : sseReader) : outcome read_err string * sseReader :=
  next_frame (sr_r sr) (sr_buf sr) (sr_done sr).

(** *** The frames of a text

    Reference definition: the frames in order, each with whether a blank line
    ends it. *)
Definition push_char (c : ascii) (l : list (string * bool)) : list (string * bool) :=
  match l with [] => [(String c "", false)] | (f, b) :: l => (String c f, b) :: l end.
Fixpoint marked_frames (s : string) : list (string * bool) :=
  match s with
  | EmptyString => []
  | String c EmptyString => [(String c "", false)]
  | String c (String d s' as t) =>
      if Ascii.eqb c newline && Ascii.eqb d newline then ("", true) :: marked_frames s'
      else push_char c (marked_frames t)
  end.

(** [bufio.Scanner] with [sseSplitFunc]: the frames, and whether it stopped at
    one that does not fit its buffer. *)
Fixpoint scan_frames (fs : list (string * bool)) : list string * bool :=
  match fs with
  | [] => ([], false)
  | (f, ended) :: fs =>
      if (if ended then MaxScanTokenSize <? String.length f + 2 else MaxScanTokenSize <=? String.length f)%nat
      then ([], true)
      else let '(l, err) := scan_frames fs in (f :: l, err)
  end.

(** ** Usage frames and the ledger *)

Record usage_report := {
  u_TraceID : string; u_CostCents : Z; u_Input : Z; u_Output : Z; u_RoutedTo : string }.
Definition zero_report : usage_report :=
  {| u_TraceID := ""; u_CostCents := 0; u_Input := 0; u_Output := 0; u_RoutedTo := "" |}.
Definition report_tokens_field (k : string) : option (decoder usage_report) :=
  if String.eqb k "input" then Some (fun v u => x ← dec_int v (u_Input u);
    Some {| u_TraceID := u_TraceID u; u_CostCents := u_CostCents u; u_Input := x; u_Output := u_Output u; u_RoutedTo := u_RoutedTo u |})
  else if String.eqb k "output" then Some (fun v u => x ← dec_int v (u_Output u);
    Some {| u_TraceID := u_TraceID u; u_CostCents := u_CostCents u; u_Input := u_Input u; u_Output := x; u_RoutedTo := u_RoutedTo u |})
  else None.
Definition report_field (k : string) : option (decoder usage_report) :=
  if String.eqb k "trace_id" then Some (fun v u => x ← dec_str v (u_TraceID u);
    Some {| u_TraceID := x; u_CostCents := u_CostCents u; u_Input := u_Input u; u_Output := u_Output u; u_RoutedTo := u_RoutedTo u |})
  else if String.eqb k "cost_cents" then Some (fun v u => x ← dec_int v (u_CostCents u);
    Some {| u_TraceID := u_TraceID u; u_CostCents := x; u_Input := u_Input u; u_Output := u_Output u; u_RoutedTo := u_RoutedTo u |})
  else if String.eqb k "tokens" then Some (dec_struct report_tokens_field)
  else if String.eqb k "routed_to" then Some (fun v u => x ← dec_str v (u_RoutedTo u);
    Some {| u_TraceID := u_TraceID u; u_CostCents := u_CostCents u; u_Input := u_Input u; u_Output := u_Output u; u_RoutedTo := x |})
  else None.

(** The row written for a report: the time is never set. *)
Definition trace_of (u : usage_report) (sessionID : string) : TraceRecord :=
  let '(provider, model) := default ("", "") (split_at ":" (u_RoutedTo u)) in
  {| tr_TraceID := u_TraceID u; tr_SessionID := sessionID; tr_CostCents := u_CostCents u; tr_TokensIn := u_Input u;
     tr_TokensOut := u_Output u; tr_Model := model; tr_Provider := provider; tr_TaskType := "";
     tr_RecordedAt := zero_time |}.

(** What the machine answers to one use of the ledger. *)
Record LedgerIO := { io_home : option string; io_open : OpenEnv; io_insert : bool }.

Inductive UsageError := BadReport | NoLedgerHome | LedgerFailed (e : LedgerError) | FrameTooLong.

(** The rest of the first data line. *)
Fixpoint data_line (lines : list string) : option string :=
  match lines with
  | [] => None
  | l :: lines => if HasPrefix l "data: " then Some (TrimPrefix l "data: ") else data_line lines
  end.

Definition isAgentGateFrame (frame : string) : bool := HasPrefix frame "event: aicg.".
Definition isStreamContentType (ct : string) : bool := HasPrefix ct "text/event-stream".

(** [buildAnthropicErrorFrame]: message and trace id of a data line. *)
Definition error_field (k : string) : option (decoder (string * string)) :=
  if String.eqb k "message" then Some (fun v p => x ← dec_str v p.1; Some (x, p.2))
  else if String.eqb k "trace_id" then Some (fun v p => x ← dec_str v p.2; Some (p.1, x))
  else None.

Section Relay.
Context {js : JSON}.

Definition processUsageData (io : LedgerIO) (l : option Ledger) (usageJSON sessionID : string)
    : option Ledger * outcome UsageError unit :=
  match unmarshal (dec_struct report_field) usageJSON zero_report with
  | None => (l, Err BadReport)
  | Some u =>
      match HomeDir (io_home io) with
      | Ok _ =>
          match Open (io_open io) l with
          | Ok opened =>
              let '(l', res) := Insert (io_insert io) opened (trace_of u sessionID) in
              (Some l', wrap_err LedgerFailed res)
          | Err e => (l, Err (LedgerFailed e))
          | Panic => (l, Panic)
          end
      | _ => (l, Err NoLedgerHome)
      end
  end.

Definition processUsageFrame (io : LedgerIO) (l : option Ledger) (frame sessionID : string)
    : option Ledger * outcome UsageError unit :=
  match data_line (split_on newline frame) with
  | None => (l, Ok tt)
  | Some text => processUsageData io l text sessionID
  end.

(** Only the first usage frame with a data line counts. *)
Fixpoint first_usage (frames : list string) : option string :=
  match frames with
  | [] => None
  | f :: frames =>
      if HasPrefix f "event: aicg.usage" then
        match data_line (split_on newline f) with Some t => Some t | None => first_usage frames end
      else first_usage frames
  end.
Definition writeUsageToLedger (io : LedgerIO) (l : option Ledger) (data sessionID : string)
    : option Ledger * outcome UsageError unit :=
  let '(frames, tooLong) := scan_frames (marked_frames data) in
  match first_usage frames with
  | Some text => processUsageData io l text sessionID
  | None => (l, if tooLong then Err FrameTooLong else Ok tt)
  end.

Definition error_line (p : string * string) (line : string) : string * string :=
  if HasPrefix line "data: " then
    match unmarshal (dec_struct error_field) (TrimPrefix line "data: ") ("", "") with Some q => q | None => p end
  else p.
Definition error_message (aicgMsg traceID : string) : string :=
  let msg :=
    if is_empty traceID then aicgMsg
    else if is_empty aicgMsg then "trace_id: " +:+ traceID
    else aicgMsg +:+ (" (trace_id: " +:+ (traceID +:+ ")")) in
  if is_empty msg then "gateway stream error" else msg.
Definition buildAnthropicErrorFrame (frame : string) : string :=
  let '(aicgMsg, traceID) := fold_left error_line (split_on newline frame) ("", "") in
  "event: error" +:+ (nl +:+ ("data: " +:+ printJSON
    (JObj [("error", JObj [("message", JStr (error_message aicgMsg traceID)); ("type", JStr "api_error")]);
           ("type", JStr "error")]))).

(** ** The relay *)

Record RelayState := { rs_out : Pipe; rs_ledger : option Ledger; rs_uses : nat }.

Context (io : nat -> LedgerIO) (sessionID : string).

(** [w.Write(frame)] and [w.Write("\n\n")]. *)
Definition write_frame (p : Pipe) (frame : string) : Pipe * bool :=
  match pipe_write p frame with
  | (p, false) => (p, false)
  | (p, true) => pipe_write p frame_end
  end.

(** One frame; [false] when the loop returns. *)
Definition relay_frame (st : RelayState) (frame : string) : RelayState * bool :=
  if negb (isAgentGateFrame frame) then
    let '(p, ok) := write_frame (rs_out st) frame in
    ({| rs_out := p; rs_ledger := rs_ledger st; rs_uses := rs_uses st |}, ok)
  else if HasPrefix frame "event: aicg.usage" then
    ({| rs_out := rs_out st; rs_ledger := (processUsageFrame (io (rs_uses st)) (rs_ledger st) frame sessionID).1;
        rs_uses := S (rs_uses st) |}, true)
  else if HasPrefix frame "event: aicg.error" then
    ({| rs_out := (write_frame (rs_out st) (buildAnthropicErrorFrame frame)).1; rs_ledger := rs_ledger st;
        rs_uses := rs_uses st |}, false)
  else (st, true).

(** The loop over [NextFrame]; [None] when the fuel runs out. *)
Fixpoint relay_loop (fuel : nat) (sr : sseReader) (st : RelayState) : option RelayState :=
  match fuel with
  | O => None
  | S fuel =>
      match NextFrame sr with
      | (Ok frame, sr) =>
          match relay_frame st frame with
          | (st, true) => relay_loop fuel sr st
          | (st, false) => Some st
          end
      | (_, _) => Some st
      end
  end.

Definition reader_bytes (r : Reader) : nat := sum_list_with (fun p => String.length p.1) r.
Definition relay_body (r : Reader) (st : RelayState) : option RelayState :=
  relay_loop (S (reader_bytes r)) {| sr_r := r; sr_buf := ""; sr_done := false |} st.

(** The same over a list of frames. *)
Fixpoint relay_frames (fs : list string) (st : RelayState) : RelayState :=
  match fs with
  | [] => st
  | f :: fs => match relay_frame st f with (st, true) => relay_frames fs st | (st, false) => st end
  end.
End Relay.

(** ** File paths in a text

    [regexp.MustCompile(`[\w/.\-]+\.\w{1,5}`)] with leftmost-first matching:
    from the start of a run of path characters, the longest prefix that a dot
    and a word character follow, with up to five word characters. *)

Definition is_word (c : ascii) : bool :=
  let n := N_of_ascii c in
  ((48 <=? n) && (n <=? 57) || (65 <=? n) && (n <=? 90) || (97 <=? n) && (n <=? 122) || (n =? 95))%N.
Definition is_path (c : ascii) : bool := is_word c || Ascii.eqb c "/" || Ascii.eqb c "." || Ascii.eqb c "-".

Fixpoint word_prefix (n : nat) (s : string) : string * string :=
  match n, s with
  | S n, String c s' => if is_word c then let '(w, r) := word_prefix n s' in (String c w, r) else ("", s)
  | _, _ => ("", s)
  end.

(** The last dot that a word character follows: before it, the extension,
    after the extension. *)
Fixpoint last_ext (run : string) : option (string * string * string) :=
  match run with
  | EmptyString => None
  | String c s =>
      match last_ext s with
      | Some (p, e, r) => Some (String c p, e, r)
      | None =>
          if Ascii.eqb c "." then
            let '(w, r) := word_prefix 5 s in if is_empty w then None else Some ("", w, r)
          else None
      end
  end.

Fixpoint take_run (s : string) : string * string :=
  match s with
  | String c s' => if is_path c then let '(a, b) := take_run s' in (String c a, b) else ("", s)
  | EmptyString => ("", "")
  end.

(** [FindAllString(text, -1)]; a run that does not match at its start does not
    match further on. *)
Fixpoint find_paths (fuel : nat) (s : string) : list string :=
  match fuel, s with
  | S fuel, String c s' =>
      if is_path c then
        let '(run, rest) := take_run s' in
        match last_ext run with
        | Some (p, e, r) => (String c p +:+ String "." e) :: find_paths fuel (r +:+ rest)
        | None => find_paths fuel rest
        end
      else find_paths fuel s'
  | _, _ => []
  end.
Definition FindAllPaths (text : string) : list string := find_paths (String.length text) text.

(** ** The envelope *)

Definition text_field (k : string) : option (decoder string) := if String.eqb k "text" then Some dec_str else None.
Definition content_field (k : string) : option (decoder (list string)) :=
  if String.eqb k "content" then Some (dec_slice "" (dec_struct text_field)) else None.
Definition messages_field (k : string) : option (decoder (list (list string))) :=
  if String.eqb k "messages" then Some (dec_slice [] (dec_struct content_field)) else None.
Definition stream_field (k : string) : option (decoder bool) := if String.eqb k "stream" then Some dec_bool else None.

(** The loop over the matches: distinct ones, twenty at most. *)
Definition add_path (paths : list string) (m : string) : list string :=
  if bool_decide (m ∈ paths) || (20 <=? length paths)%nat then paths else (paths ++ [m])%list.
Definition collect_paths (texts : list string) : list string :=
  fold_left add_path (texts ≫= FindAllPaths) [].

(** version.go, with the values the linker sets. *)
Definition version_String (semver gitSHA : string) : string :=
  "agentgate v" +:+ (semver +:+ (" (" +:+ (str_take 7 gitSHA +:+ ")"))).

(** The machine and process around a request. *)
Record LPEnv := {
  lp_home : option string; lp_disk : Disk; lp_repoRoot : string; lp_session : Session;
  lp_os : string; lp_arch : string; lp_semver : string; lp_gitSHA : string }.

Inductive LPResponse := Answer (status : Z) (header : Header) (out : Pipe).

Section Handler.
Context {js : JSON} {yml : LocalYaml} (e : LPEnv).

Definition isStreamRequest (body : string) : bool := default false (unmarshal (dec_struct stream_field) body false).

Definition body_paths (body : string) : list string :=
  match unmarshal (dec_struct messages_field) body [] with
  | None => []
  | Some msgs => collect_paths (concat msgs)
  end.

Definition identity_json : json :=
  let '(team, user) := match LoadCredentials (lp_home e) (lp_disk e) with
                       | Ok c => (cr_TeamID c, cr_UserID c)
                       | _ => ("", "")
                       end in
  JObj [("machine_id", JStr ""); ("team_id", JStr team); ("user_id", JStr user)].

Definition repo_json : json :=
  match Binding_Load (lp_repoRoot e) (lp_disk e) with
  | Ok b => JObj [("binding", JStr (bt_Token b)); ("repo_id", JStr (bt_RepoID b))]
  | _ => JObj []
  end.

Definition buildEnvelope (body : string) : json :=
  let tag := Classify [] "" 0 0 false false in
  JObj [("agent", JObj [("tool", JStr "claude_code"); ("wire_protocol", JStr "anthropic_messages")]);
        ("client", JObj [("arch", JStr (lp_arch e)); ("lp_version", JStr (version_String (lp_semver e) (lp_gitSHA e)));
                         ("os", JStr (lp_os e))]);
        ("context_signals", JObj [("diff_summary", JNull); ("file_fingerprints", JNull);
                                  ("file_paths", JArr (JStr <$> body_paths body))]);
        ("identity", identity_json);
        ("repo", repo_json);
        ("schema_version", JStr "1.0");
        ("session", JObj [("is_continuation", JBool false); ("session_id", JStr (SessionID (lp_session e)));
                          ("turn_index", JInt 0)]);
        ("task_hints", JObj [("agentic_loop", JBool false); ("complexity", JStr (tag_Complexity tag));
                             ("data_sensitivity", JStr "unknown"); ("task_type", JStr (tag_TaskType tag))])].

(** ** The handlers *)

Definition json_header : Header := {[ "Content-Type" := ["application/json"] ]}.
Definition writeJSON (p : Pipe) (status : Z) (fields : list (string * string)) : LPResponse :=
  Answer status json_header (pipe_write p (printJSON (JObj ((fun f => (f.1, JStr f.2)) <$> fields)) +:+ nl)).1.

Definition unsafeStreamHeaders : list string := ["Content-Length"; "Transfer-Encoding"; "Connection"; "Trailer"].
Definition filterStreamHeaders (h : Header) : Header := foldr delete h unsafeStreamHeaders.

(** [w.Header().Add] of every value, into an empty header. *)
Definition copy_headers (h : Header) : Header := filter (fun kv => kv.2 <> []) h.

(** The copy loop of a reply that is not relayed: [None] when the client is
    gone, else the captured bytes. *)
Fixpoint copy_body (r : Reader) (p : Pipe) (captured : string) : Pipe * option string :=
  match r with
  | [] => (p, Some captured)
  | (data, err) :: r =>
      match (if is_empty data then (p, true) else pipe_write p data) with
      | (p, false) => (p, None)
      | (p, true) =>
          match err with
          | None => copy_body r p (captured +:+ data)
          | Some _ => (p, Some (captured +:+ data))
          end
      end
  end.

Context {jd : JSONDecoder} (validURL : string -> bool) (gw : list LPRequest -> LPRequest -> GwReply) (c : Client)
  (io : nat -> LedgerIO).

Definition sessionID : string := SessionID (lp_session e).

Definition forward_of (stream : bool) (body : string) : ForwardRequest :=
  {| f_Envelope := buildEnvelope body;
     f_Wire := {| w_Protocol := "anthropic_messages"; w_Stream := stream; w_Body := body |} |}.

(** [relayStream]. *)
Definition relayStream (resp : ForwardResponse) (p : Pipe) (l : option Ledger) : option (LPResponse * option Ledger) :=
  st ← relay_body io sessionID (fw_Body resp) {| rs_out := p; rs_ledger := l; rs_uses := 0 |};
  Some (Answer (fw_Status resp) (copy_headers (filterStreamHeaders (fw_Header resp))) (rs_out st), rs_ledger st).

Definition copyResponse (resp : ForwardResponse) (p : Pipe) (l : option Ledger) : LPResponse * option Ledger :=
  let '(p, captured) := copy_body (fw_Body resp) p "" in
  (Answer (fw_Status resp) (copy_headers (fw_Header resp)) p,
   match captured with
   | None => l
   | Some data => (writeUsageToLedger (io 0%nat) l data sessionID).1
   end).

(** [None] only if the relay ran out of fuel. *)
Definition handleMessages (method : string) (reqBody : Reader) (p : Pipe) (l : option Ledger) (sent : list LPRequest)
    : list LPRequest * option (LPResponse * option Ledger) :=
  if negb (String.eqb method "POST") then
    (sent, Some (writeJSON p 405 [("error", "method not allowed")], l))
  else match ReadAll reqBody with
  | (_, Some _) => (sent, Some (writeJSON p 400 [("error", "failed to read body")], l))
  | (body, None) =>
      let '(sent, res) := Forward validURL gw c sent (forward_of (isStreamRequest body) body) in
      match res with
      | Ok resp =>
          (sent, if (fw_Status resp =? 200)%Z && isStreamContentType (header_get (fw_Header resp) "Content-Type")
                 then relayStream resp p l else Some (copyResponse resp p l))
      | _ => (sent, Some (writeJSON p 502 [("error", "gateway unreachable");
                            ("hint", "ensure aicg-gw is running and credentials are valid")], l))
      end
  end.

Definition handleCountTokens (reqBody : Reader) (p : Pipe) (sent : list LPRequest) : list LPRequest * LPResponse :=
  match ReadAll reqBody with
  | (_, Some _) => (sent, writeJSON p 400 [("error", "failed to read body")])
  | (body, None) =>
      let '(sent, res) := Forward validURL gw c sent (forward_of false body) in
      match res with
      | Ok resp => (sent, Answer (fw_Status resp) (copy_headers (fw_Header resp)) (copy_body (fw_Body resp) p "").1)
      | _ => (sent, writeJSON p 502 [("error", "gateway unreachable")])
      end
  end.

(** meta.go *)
Definition handleHealth (p : Pipe) : LPResponse := writeJSON p 200 [("status", "ok")].
Definition handleVersion (p : Pipe) : LPResponse :=
  writeJSON p 200 [("git_sha", lp_gitSHA e); ("semver", lp_semver e);
                   ("version", version_String (lp_semver e) (lp_gitSHA e))].
Definition handleWhoami (p : Pipe) : LPResponse :=
  match LoadCredentials (lp_home e) (lp_disk e) with
  | Ok cr => writeJSON p 200 [("gw_url", cr_GwURL cr); ("team_id", cr_TeamID cr); ("user_id", cr_UserID cr)]
  | _ => writeJSON p 401 [("error", "not logged in"); ("hint", "run `aicg login`")]
  end.
Definition handleSessions (p : Pipe) : LPResponse := writeJSON p 200 [("session_id", sessionID)].

(** The routes of both handlers. *)
Definition route (method path : string) (body : Reader) (p : Pipe) (l : option Ledger) (sent : list LPRequest)
    : list LPRequest * option (LPResponse * option Ledger) :=
  if String.eqb path "/_aicg/health" then (sent, Some (handleHealth p, l))
  else if String.eqb path "/_aicg/version" then (sent, Some (handleVersion p, l))
  else if String.eqb path "/_aicg/whoami" then (sent, Some (handleWhoami p, l))
  else if String.eqb path "/_aicg/sessions" then (sent, Some (handleSessions p, l))
  else if String.eqb path "/anthropic/v1/messages" then handleMessages method body p l sent
  else if String.eqb path "/anthropic/v1/messages/count_tokens" then
    let '(sent, a) := handleCountTokens body p sent in (sent, Some (a, l))
  else (sent, Some (Answer 404 {[ "Content-Type" := ["text/plain; charset=utf-8"]; "X-Content-Type-Options" := ["nosniff"] ]}
                           (pipe_write p ("404 page not found" +:+ nl)).1, l)).
End Handler.

(** ** Frames: lemmas *)

Lemma cut_frame_app s t f r : cut_frame s = Some (f, r) -> cut_frame (s +:+ t) = Some (f, r +:+ t).
Proof.
  revert f r. induction s as [|c [|d s] IH]; intros f r; cbn -[Ascii.eqb]; [done|done|].
  destruct (Ascii.eqb c newline && Ascii.eqb d newline); [by intros [= <- <-]|].
  change (String d s) with (String d s) in IH. intros H.
  destruct (cut_frame (String d s)) as [[f' r']|] eqn:Hc; [|by cbn -[Ascii.eqb] in Hc; rewrite Hc in H].
  specialize (IH f' r' eq_refl). cbn -[Ascii.eqb] in IH, Hc, H. rewrite Hc in H. rewrite IH.
  cbn in H |- *. by simplify_eq.
Qed.

Lemma cut_frame_length s f r : cut_frame s = Some (f, r) -> (String.length r < String.length s)%nat.
Proof.
  revert f r. induction s as [|c [|d s] IH]; intros f r; [done|done|].
  cbn -[Ascii.eqb]. destruct (Ascii.eqb c newline && Ascii.eqb d newline); [intros [= <- <-]; lia|].
  destruct (cut_frame (String d s)) as [[f' r']|] eqn:Hc; cbn -[Ascii.eqb] in Hc; rewrite Hc; cbn; [|done].
  intros [= <- <-]. specialize (IH f' r' eq_refl). cbn in IH. lia.
Qed.

Lemma marked_cut s :
  marked_frames s = match cut_frame s with
                    | Some (f, r) => (f, true) :: marked_frames r
                    | None => if is_empty s then [] else [(s, false)]
                    end.
Proof.
  induction s as [|c [|d s] IH]; [done|done|].
  cbn -[Ascii.eqb is_empty]. destruct (Ascii.eqb c newline && Ascii.eqb d newline); [done|].
  cbn -[Ascii.eqb is_empty] in IH. rewrite IH.
  destruct (match s with EmptyString => None | _ => _ end) as [[f r]|]; done.
Qed.

(** The frames a reader at [s] delivers: all of them at the end of the text,
    only the ended ones when the rest is still unknown. *)
Definition frames (s : string) (eof : bool) : list string :=
  omap (fun p : string * bool => if p.2 || eof then Some p.1 else None) (marked_frames s).

Lemma frames_cut s eof f r : cut_frame s = Some (f, r) -> frames s eof = f :: frames r eof.
Proof. intros H. unfold frames. rewrite marked_cut, H. done. Qed.

Lemma frames_none s eof : cut_frame s = None ->
  frames s eof = if negb eof || is_empty s then [] else [s].
Proof. intros H. unfold frames. rewrite marked_cut, H. by destruct s, eof. Qed.

(** What of a body can be used, and whether it ends in EOF: a read that fails
    loses its own bytes. *)
Fixpoint usable (r : Reader) : string * bool :=
  match r with
  | [] => ("", true)
  | (data, None) :: r => let '(s, eof) := usable r in (data +:+ s, eof)
  | (data, Some AtEOF) :: _ => (data, true)
  | (_, Some (Broken _)) :: _ => ("", false)
  end.

Definition frames_left (sr : sseReader) : list string :=
  if sr_done sr then frames (sr_buf sr) true
  else let '(s, eof) := usable (sr_r sr) in frames (sr_buf sr +:+ s) eof.
Definition bytes_left (sr : sseReader) : nat := String.length (sr_buf sr) + reader_bytes (sr_r sr).

Definition next_ok (l : list string) (n : nat) (res : outcome read_err string * sseReader) : Prop :=
  match res with
  | (Ok f, sr') => l = f :: frames_left sr' /\ bytes_left sr' < n
  | (_, _) => l = []
  end.

Lemma next_frame_done r buf :
  next_ok (frames buf true) (String.length buf + reader_bytes r) (next_frame r buf true).
Proof.
  destruct r as [|p r]; cbn [next_frame];
    (destruct (cut_frame buf) as [[f rest]|] eqn:Hc;
     [cbn [next_ok]; rewrite (frames_cut _ _ _ _ Hc); split; [done|]; apply cut_frame_length in Hc; unfold bytes_left; cbn; lia|]);
    rewrite frames_none by done; destruct buf; cbn; split; [done|unfold bytes_left; cbn; lia|done|unfold bytes_left; cbn; lia].
Qed.

Lemma next_frame_spec r buf done :
  next_ok (frames_left {| sr_r := r; sr_buf := buf; sr_done := done |}) (String.length buf + reader_bytes r)
    (next_frame r buf done).
Proof.
  destruct done; [apply next_frame_done|]. unfold frames_left. cbn [sr_done sr_r sr_buf].
  revert buf. induction r as [|[data err] r IH]; intros buf; cbn [next_frame].
  - destruct (cut_frame buf) as [[f rest]|] eqn:Hc.
    + cbn [usable next_ok]. rewrite str_app_nil_r, (frames_cut _ _ _ _ Hc). unfold frames_left; cbn [sr_done sr_r sr_buf usable].
      rewrite str_app_nil_r. split; [done|]. apply cut_frame_length in Hc. unfold bytes_left; cbn; lia.
    + cbn [usable]. rewrite str_app_nil_r, frames_none by done. destruct buf; cbn; [done|].
      split; [done|]. unfold bytes_left; cbn; lia.
  - destruct (cut_frame buf) as [[f rest]|] eqn:Hc.
    + cbn [next_ok]. destruct (usable ((data, err) :: r)) as [s eof] eqn:Hu.
      rewrite (frames_cut _ _ _ _ (cut_frame_app _ s _ _ Hc)).
      unfold frames_left; cbn [sr_done sr_r sr_buf]. rewrite Hu. split; [done|].
      apply cut_frame_length in Hc. unfold bytes_left; cbn; lia.
    + destruct err as [[|m]|]; cbn [usable].
      * pose proof (next_frame_done r (buf +:+ data)) as H. rewrite str_length_app in H.
        unfold reader_bytes in *. cbn. by rewrite Nat.add_assoc.
      * by rewrite str_app_nil_r, frames_none.
      * specialize (IH (buf +:+ data)). destruct (usable r) as [s eof]. rewrite str_app_assoc, str_length_app in IH.
        unfold reader_bytes in *. cbn. by rewrite Nat.add_assoc.
Qed.

Section RelaySpec.
Context {js : JSON} (io : nat -> LedgerIO) (sid : string).

Lemma relay_loop_frames fuel sr st : bytes_left sr < fuel ->
  relay_loop io sid fuel sr st = Some (relay_frames io sid (frames_left sr) st).
Proof.
  revert sr st. induction fuel as [|fuel IH]; intros sr st Hf; [lia|]. cbn [relay_loop].
  pose proof (next_frame_spec (sr_r sr) (sr_buf sr) (sr_done sr)) as H.
  assert (frames_left sr = frames_left {| sr_r := sr_r sr; sr_buf := sr_buf sr; sr_done := sr_done sr |}) as Hl by (by destruct sr).
  rewrite <- Hl in H. unfold NextFrame. destruct (next_frame _ _ _) as [[f| |] sr']; cbn [next_ok] in H; [|by rewrite H..].
  destruct H as [-> Hb]. cbn [relay_frames]. destruct (relay_frame io sid st f) as [st' []]; [|done].
  apply IH. unfold bytes_left in *. lia.
Qed.

Lemma relay_body_frames r st :
  relay_body io sid r st = Some (relay_frames io sid (frames (usable r).1 (usable r).2) st).
Proof.
  unfold relay_body. rewrite relay_loop_frames by (unfold bytes_left; cbn [sr_buf sr_r String.length]; lia).
  unfold frames_left. cbn [sr_done sr_r sr_buf]. by destruct (usable r).
Qed.
End RelaySpec.

(** *** Texts made of frames *)

(** [f] is what the reader cuts off a text that begins with [f] and a blank
    line. *)
Definition ended (f : string) : Prop := cut_frame (f +:+ frame_end) = Some (f, "").
#[export] Instance ended_decision f : Decision (ended f).
Proof. unfold ended. apply _. Defined.

Definition frames_text (fs : list string) : string := concat_all ((fun f => f +:+ frame_end) <$> fs).

Lemma ended_app f t : ended f -> cut_frame (f +:+ (frame_end +:+ t)) = Some (f, t).
Proof. intros H. rewrite <- str_app_assoc. by apply (cut_frame_app _ t) in H. Qed.

Lemma frames_text_app fs t eof : Forall ended fs -> frames (frames_text fs +:+ t) eof = (fs ++ frames t eof)%list.
Proof.
  induction 1 as [|f fs Hf _ IH]; [done|].
  change (frames_text (f :: fs)) with ((f +:+ frame_end) +:+ frames_text fs).
  rewrite !str_app_assoc. rewrite (frames_cut _ _ _ _ (ended_app f _ Hf)). cbn [app]. by rewrite IH.
Qed.

Lemma cut_frame_2 c l e t : Ascii.eqb c newline = false ->
  cut_frame (String c l +:+ String e t) = '(f, r) ← cut_frame (l +:+ String e t); Some (String c f, r).
Proof.
  intros Hc. change (String c l +:+ String e t) with (String c (l +:+ String e t)).
  destruct (l +:+ String e t) as [|d s] eqn:Hs; [by destruct l|].
  change (cut_frame (String c (String d s))) with
    (if Ascii.eqb c newline && Ascii.eqb d newline then Some ("", s)
     else '(f, r) ← cut_frame (String d s); Some (String c f, r)). by rewrite Hc.
Qed.

Lemma cut_frame_line l t : free_of newline l = true -> cut_frame (l +:+ (frame_end +:+ t)) = Some (l, t).
Proof.
  induction l as [|c l IH]; [done|]. cbn [free_of]. intros [Hc Hl]%andb_true_iff. apply negb_true_iff in Hc.
  specialize (IH Hl). change (frame_end +:+ t) with (String newline (nl +:+ t)) in *.
  rewrite cut_frame_2 by done. by rewrite IH.
Qed.

(** A line in front of a text that does not begin with a line break. *)
Lemma cut_frame_cons l c s : free_of newline l = true -> Ascii.eqb c newline = false ->
  cut_frame (l +:+ String newline (String c s)) =
  '(f, r) ← cut_frame (String c s); Some (l +:+ String newline f, r).
Proof.
  intros Hl Hc. induction l as [|d l IH].
  - cbn [String.append]. change (cut_frame (String newline (String c s))) with
      (if Ascii.eqb newline newline && Ascii.eqb c newline then Some ("", s)
       else '(f, r) ← cut_frame (String c s); Some (String newline f, r)).
    by rewrite Hc, andb_false_r.
  - cbn [free_of] in Hl. apply andb_true_iff in Hl as [Hd Hl]. apply negb_true_iff in Hd. specialize (IH Hl).
    rewrite cut_frame_2, IH by done. by destruct (cut_frame (String c s)) as [[f r]|].
Qed.

(** The gateway's own events are frames of two lines. *)
Definition event_text {js : JSON} (name : string) (payload : json) : string :=
  ("event: " +:+ name) +:+ String newline ("data: " +:+ printJSON payload).

Lemma event_frame_text {js : JSON} name payload : event_frame name payload = event_text name payload +:+ frame_end.
Proof. unfold event_frame, event_text. by rewrite !str_app_assoc. Qed.

Lemma event_text_ended {js : JSON} name payload : free_of newline name = true -> ended (event_text name payload).
Proof.
  intros Hn. unfold ended, event_text. rewrite str_app_assoc.
  change (String newline ("data: " +:+ printJSON payload) +:+ frame_end) with
    (String newline (String "d" (("ata: " +:+ printJSON payload) +:+ frame_end))).
  rewrite cut_frame_cons; [|by rewrite free_of_app, Hn|done].
  change (String "d" (("ata: " +:+ printJSON payload) +:+ frame_end)) with (("data: " +:+ printJSON payload) +:+ frame_end).
  rewrite <- (str_app_nil_r frame_end), cut_frame_line; [done|].
  rewrite free_of_app. by destruct (printJSON_one_line payload) as [-> _].
Qed.

Lemma frames_events {js : JSON} fs name payload : Forall ended fs -> free_of newline name = true ->
  frames (frames_text fs +:+ event_frame name payload) true = (fs ++ [event_text name payload])%list.
Proof.
  intros Hf Hn. rewrite frames_text_app by done. rewrite event_frame_text, <- (str_app_nil_r frame_end).
  by rewrite (frames_cut _ _ _ _ (ended_app _ _ (event_text_ended name payload Hn))).
Qed.

Lemma event_text_data {js : JSON} name payload : free_of newline name = true -> HasPrefix ("event: " +:+ name) "data: " = false ->
  data_line (split_on newline (event_text name payload)) = Some (printJSON payload).
Proof.
  intros Hn Hd. unfold event_text. destruct (printJSON_one_line payload) as [Hp _].
  rewrite split_on_app by (by rewrite free_of_app, Hn).
  rewrite split_on_free by (by rewrite free_of_app, Hp). cbn [data_line]. rewrite Hd, HasPrefix_app. by rewrite TrimPrefix_app.
Qed.

(** ** The relay of a stream *)

Section RelayStream.
Context {js : JSON} (io : nat -> LedgerIO) (sid : string).

Lemma write_frame_client w f :
  write_frame {| written := w; budget := None |} f = ({| written := (w ++ [f; frame_end])%list; budget := None |}, true).
Proof. unfold write_frame, pipe_write. cbn. by rewrite <- app_assoc. Qed.

(** Frames that are not the gateway's are handed on with their blank line. *)
Lemma relay_plain fs rest w l n : Forall (fun f => isAgentGateFrame f = false) fs ->
  exists w', concat_all w' = frames_text fs /\
    relay_frames io sid (fs ++ rest)%list {| rs_out := {| written := w; budget := None |}; rs_ledger := l; rs_uses := n |} =
    relay_frames io sid rest {| rs_out := {| written := (w ++ w')%list; budget := None |}; rs_ledger := l; rs_uses := n |}.
Proof.
  revert w. induction fs as [|f fs IH]; intros w Hf; [exists []; by rewrite app_nil_r|].
  inversion Hf as [|? ? Hff Hfs]; subst. destruct (IH (w ++ [f; frame_end])%list Hfs) as (w' & Hw & Hr).
  exists ([f; frame_end] ++ w')%list. split.
  - rewrite concat_all_app, Hw. cbn [concat_all foldr]. by rewrite str_app_nil_r.
  - cbn [app relay_frames]. unfold relay_frame at 1. rewrite Hff. cbn [negb rs_out rs_ledger rs_uses].
    rewrite write_frame_client, Hr. by rewrite <- app_assoc.
Qed.

(** *** The events the gateway adds *)

Definition usage_payload (cfg : AccountedStreamConfig) (res : StreamAccountingResult) : json :=
  JObj [("attempt_no", JInt (cfg_AttemptNo cfg)); ("cost_cents", JInt (ce_CostCents (res_CostEvent res)));
        ("cost_source", JStr (ce_CostSource (res_CostEvent res))); ("degraded_features", strings_json (cfg_Degraded cfg));
        ("latency_ms", JInt (cfg_LatencyMs cfg)); ("partial", JBool false);
        ("routed_to", JStr (cfg_EndpointID cfg +:+ (":" +:+ cfg_Model cfg))); ("schema_version", JStr "1.0");
        ("session_id", JStr ""); ("tokens", tokens_json (res_Usage res)); ("trace_id", JStr (cfg_TraceID cfg))].
Definition error_payload (cfg : AccountedStreamConfig) (m : string) (res : StreamAccountingResult) : json :=
  JObj [("code", JStr "stream_interrupted"); ("message", JStr m); ("partial", JBool true); ("schema_version", JStr "1.0");
        ("tokens_emitted_so_far", JInt (Output (res_Usage res))); ("trace_id", JStr (cfg_TraceID cfg))].

Definition report_of (cfg : AccountedStreamConfig) (res : StreamAccountingResult) : usage_report :=
  {| u_TraceID := cfg_TraceID cfg; u_CostCents := ce_CostCents (res_CostEvent res); u_Input := Input (res_Usage res);
     u_Output := Output (res_Usage res); u_RoutedTo := cfg_EndpointID cfg +:+ (":" +:+ cfg_Model cfg) |}.

Lemma InjectUsage_payload cfg res :
  InjectUsage (cfg_TraceID cfg) "" (res_Usage res) (ce_CostCents (res_CostEvent res)) (ce_CostSource (res_CostEvent res))
    (cfg_EndpointID cfg +:+ (":" +:+ cfg_Model cfg)) (cfg_AttemptNo cfg) (cfg_Degraded cfg) (cfg_LatencyMs cfg) =
  event_frame "aicg.usage" (usage_payload cfg res).
Proof. done. Qed.

Lemma tokens_read (us : Usage) u : int64 (Input us) -> int64 (Output us) ->
  dec_struct report_tokens_field (tokens_json us) u =
  Some {| u_TraceID := u_TraceID u; u_CostCents := u_CostCents u; u_Input := Input us; u_Output := Output us;
          u_RoutedTo := u_RoutedTo u |}.
Proof.
  intros Hi Ho. unfold tokens_json. cbn [dec_struct]. dec_walk.
  erewrite (dec_take report_tokens_field); [|reflexivity|cbv beta; rewrite (dec_int_int64 _ _ Hi); reflexivity].
  erewrite (dec_take report_tokens_field); [|reflexivity|cbv beta; rewrite (dec_int_int64 _ _ Ho); reflexivity].
  done.
Qed.

Lemma usage_payload_read cfg res :
  int64 (Input (res_Usage res)) -> int64 (Output (res_Usage res)) -> int64 (ce_CostCents (res_CostEvent res)) ->
  dec_struct report_field (usage_payload cfg res) zero_report = Some (report_of cfg res).
Proof.
  intros Hi Ho Hc. unfold usage_payload. cbn [dec_struct]. dec_walk.
  erewrite (dec_take report_field); [|reflexivity|cbv beta; rewrite (dec_int_int64 _ _ Hc); reflexivity]. dec_walk.
  erewrite (dec_take report_field) by reflexivity. dec_walk.
  erewrite (dec_take report_field); [|reflexivity|apply tokens_read; done].
  by erewrite (dec_take report_field) by reflexivity.
Qed.

(** The ledger after a usage frame, when the machine lets it be written. *)
Definition willing (x : LedgerIO) : Prop :=
  is_Some (io_home x) /\ Open (io_open x) None = Ok empty_ledger /\ io_insert x = true.

Lemma processUsageData_willing x l text u : willing x ->
  unmarshal (dec_struct report_field) text zero_report = Some u ->
  processUsageData x l text sid = (Some (Insert true (default empty_ledger l) (trace_of u sid)).1, Ok tt).
Proof.
  intros ([h Hh] & Ho & Hi) Hu. unfold processUsageData. rewrite Hu, Hh. cbn [HomeDir].
  unfold Open in *. destruct (io_open x) as [[] [] []]; cbn in Ho |- *; try done. by rewrite Hi.
Qed.

(** Reading a relayed event gives back its payload. *)
Lemma unmarshal_printed {T} (d : decoder T) j zero :
  parseJSON (printJSON j) = Some j -> unmarshal d (printJSON j) zero = d j zero.
Proof. intros H. unfold unmarshal, unmarshal_raw. by rewrite H. Qed.

Lemma error_frame_of cfg m res : parseJSON (printJSON (error_payload cfg m res)) = Some (error_payload cfg m res) ->
  buildAnthropicErrorFrame (event_text "aicg.error" (error_payload cfg m res)) =
  "event: error" +:+ (nl +:+ ("data: " +:+ printJSON
    (JObj [("error", JObj [("message", JStr (error_message m (cfg_TraceID cfg))); ("type", JStr "api_error")]);
           ("type", JStr "error")]))).
Proof.
  intros Hj. unfold buildAnthropicErrorFrame, event_text. set (pl := error_payload cfg m res) in *.
  destruct (printJSON_one_line pl) as [Hp _].
  rewrite split_on_app by done. rewrite split_on_free by (by rewrite free_of_app, Hp). cbn [fold_left].
  change (error_line ("", "") ("event: " +:+ "aicg.error")) with ("", "").
  unfold error_line. rewrite HasPrefix_app, TrimPrefix_app, unmarshal_printed by done. done.
Qed.

(** *** Relaying a whole gateway stream *)

Definition plain_frames (fs : list string) : Prop := Forall (fun f => ended f /\ isAgentGateFrame f = false) fs.

Lemma relay_tail fs name payload l : plain_frames fs -> free_of newline name = true ->
  exists w', concat_all w' = frames_text fs /\
    relay_frames io sid (frames (frames_text fs +:+ event_frame name payload) true)
      {| rs_out := client; rs_ledger := l; rs_uses := 0 |} =
    relay_frames io sid [event_text name payload]
      {| rs_out := {| written := w'; budget := None |}; rs_ledger := l; rs_uses := 0 |}.
Proof.
  intros Hfs Hn. rewrite frames_events; [|by eapply Forall_impl; [exact Hfs|intros f []]|done].
  apply (relay_plain fs _ [] l 0). eapply Forall_impl; [exact Hfs|]. by intros f [].
Qed.

Lemma relay_usage_tail fs cfg res l : plain_frames fs ->
  parseJSON (printJSON (usage_payload cfg res)) = Some (usage_payload cfg res) -> willing (io 0) ->
  int64 (Input (res_Usage res)) -> int64 (Output (res_Usage res)) -> int64 (ce_CostCents (res_CostEvent res)) ->
  let st := relay_frames io sid (frames (frames_text fs +:+ event_frame "aicg.usage" (usage_payload cfg res)) true)
              {| rs_out := client; rs_ledger := l; rs_uses := 0 |} in
  bytes_out (rs_out st) = frames_text fs /\
  rs_ledger st = Some (Insert true (default empty_ledger l) (trace_of (report_of cfg res) sid)).1.
Proof.
  intros Hfs Hj Hio Hi Ho Hc. destruct (relay_tail fs "aicg.usage" (usage_payload cfg res) l Hfs eq_refl) as (w & Hw & ->).
  set (f := event_text "aicg.usage" (usage_payload cfg res)).
  assert (isAgentGateFrame f = true) as Ha by apply (HasPrefix_app "event: aicg.").
  assert (HasPrefix f "event: aicg.usage" = true) as Hu by apply (HasPrefix_app "event: aicg.usage").
  cbn [relay_frames]. unfold relay_frame. rewrite Ha, Hu. cbn [negb rs_out rs_ledger rs_uses]. split; [done|].
  unfold processUsageFrame, f. rewrite event_text_data by done.
  rewrite (processUsageData_willing _ _ _ (report_of cfg res)); [done|done|].
  rewrite unmarshal_printed by done. by apply usage_payload_read.
Qed.

Lemma relay_error_tail fs cfg m res l : plain_frames fs ->
  parseJSON (printJSON (error_payload cfg m res)) = Some (error_payload cfg m res) ->
  let st := relay_frames io sid (frames (frames_text fs +:+ event_frame "aicg.error" (error_payload cfg m res)) true)
              {| rs_out := client; rs_ledger := l; rs_uses := 0 |} in
  bytes_out (rs_out st) = frames_text fs +:+ ("event: error" +:+ (nl +:+ ("data: " +:+ (printJSON
      (JObj [("error", JObj [("message", JStr (error_message m (cfg_TraceID cfg))); ("type", JStr "api_error")]);
             ("type", JStr "error")]) +:+ frame_end)))) /\ rs_ledger st = l.
Proof.
  intros Hfs Hj. destruct (relay_tail fs "aicg.error" (error_payload cfg m res) l Hfs eq_refl) as (w & Hw & ->).
  set (f := event_text "aicg.error" (error_payload cfg m res)).
  assert (isAgentGateFrame f = true) as Ha by apply (HasPrefix_app "event: aicg.").
  assert (HasPrefix f "event: aicg.usage" = false) as Hu by done.
  assert (HasPrefix f "event: aicg.error" = true) as He by apply (HasPrefix_app "event: aicg.error").
  cbn [relay_frames]. unfold relay_frame. rewrite Ha, Hu, He. cbn [negb rs_out rs_ledger rs_uses]. split; [|done].
  unfold f. rewrite error_frame_of by done. rewrite write_frame_client. unfold bytes_out. cbn [fst rs_out written].
  rewrite concat_all_app, Hw. cbn [concat_all foldr]. by rewrite str_app_nil_r, !str_app_assoc.
Qed.
End RelayStream.

(** A gateway stream that breaks inside a line: the error event is glued to
    the partial line and passes as a frame of the provider. *)
Lemma broken_line_hides_error {js : JSON} io sid payload l :
  let st := relay_frames io sid (frames ("data: {" +:+ event_frame "aicg.error" payload) true)
              {| rs_out := client; rs_ledger := l; rs_uses := 0 |} in
  bytes_out (rs_out st) = "data: {" +:+ event_frame "aicg.error" payload.
Proof.
  assert (cut_frame (("data: {" +:+ event_text "aicg.error" payload) +:+ (frame_end +:+ "")) =
    Some ("data: {" +:+ event_text "aicg.error" payload, "")) as Hc.
  { apply ended_app. unfold ended, event_text.
    change ("data: {" +:+ (("event: " +:+ "aicg.error") +:+ String newline ("data: " +:+ printJSON payload))) with
      (("data: {" +:+ ("event: " +:+ "aicg.error")) +:+ String newline ("data: " +:+ printJSON payload)).
    rewrite str_app_assoc. change (String newline ("data: " +:+ printJSON payload) +:+ frame_end) with
      (String newline (String "d" (("ata: " +:+ printJSON payload) +:+ frame_end))).
    rewrite cut_frame_cons by done. change (String "d" (("ata: " +:+ printJSON payload) +:+ frame_end)) with
      (("data: " +:+ printJSON payload) +:+ frame_end).
    rewrite <- (str_app_nil_r frame_end), cut_frame_line; [done|].
    rewrite free_of_app. by destruct (printJSON_one_line payload) as [-> _]. }
  rewrite str_app_nil_r, str_app_assoc, <- event_frame_text in Hc. rewrite (frames_cut _ _ _ _ Hc). cbv zeta.
  cbn [frames relay_frames marked_frames omap list_omap]. unfold relay_frame.
  change (isAgentGateFrame ("data: {" +:+ event_text "aicg.error" payload)) with false. cbn [negb rs_out].
  unfold client. rewrite write_frame_client. unfold bytes_out. cbn [rs_out written app concat_all foldr].
  by rewrite event_frame_text, str_app_nil_r, <- str_app_assoc.
Qed.

Section EndToEnd.
Context {js : JSON} {yml : LocalYaml} {jd : JSONDecoder} (e : LPEnv) (validURL : string -> bool)
  (gw : list LPRequest -> LPRequest -> GwReply) (c : Client) (io : nat -> LedgerIO).

(** The relay in terms of the reference definition. *)
Lemma relayStream_frames resp p l :
  let st := relay_frames io (sessionID e) (frames (usable (fw_Body resp)).1 (usable (fw_Body resp)).2)
              {| rs_out := p; rs_ledger := l; rs_uses := 0 |} in
  relayStream e io resp p l =
  Some (Answer (fw_Status resp) (copy_headers (filterStreamHeaders (fw_Header resp))) (rs_out st), rs_ledger st).
Proof. unfold relayStream. by rewrite relay_body_frames. Qed.

Lemma handleMessages_answers method body p l sent :
  exists a l', (handleMessages e validURL gw c io method body p l sent).2 = Some (a, l') /\
    length (handleMessages e validURL gw c io method body p l sent).1 <= length sent + 2.
Proof.
  unfold handleMessages. destruct (negb _); [eexists _, _; split; [done|cbn; lia]|].
  destruct (ReadAll body) as [b [m|]]; [eexists _, _; split; [done|cbn; lia]|].
  destruct (Forward _ _ _ _ _) as [sent' res] eqn:Hf.
  assert (length sent' <= length sent + 2) as Hl.
  { unfold Forward in Hf. destruct (marshal_forward _); [|by simplify_eq; lia].
    apply doWithRetry_spec in Hf as [[[-> _]|[->|[-> _]]] _]; rewrite ?length_app; cbn; lia. }
  destruct res as [resp| |]; [|eexists _, _; split; [done|exact Hl]..].
  destruct (_ && _); [rewrite relayStream_frames|destruct (copyResponse _ _ _ _)]; eexists _, _; split; done.
Qed.

(** A reply that is an event stream is relayed. *)
Lemma handleMessages_stream reqBody b j h rd p l sent :
  ReadAll reqBody = (b, None) -> marshal_forward (forward_of e (isStreamRequest b) b) = Some j ->
  validURL (cl_GwURL c +:+ "/v1/agent/forward") = true ->
  gw sent (forward_request c (printJSON j)) = Replied 200 h rd ->
  isStreamContentType (header_get h "Content-Type") = true ->
  handleMessages e validURL gw c io "POST" reqBody p l sent =
  ((sent ++ [forward_request c (printJSON j)])%list,
   relayStream e io {| fw_Status := 200; fw_Header := h; fw_Body := rd |} p l).
Proof.
  intros Hb Hj Hv Hg Ht. unfold handleMessages. cbn [String.eqb negb Ascii.eqb Bool.eqb]. rewrite Hb.
  rewrite (Forward_first _ _ _ _ _ _ _ _ _ Hj Hv Hg eq_refl). cbn [fw_Status fw_Header]. rewrite Ht. done.
Qed.
End EndToEnd.

Section Claims.
Context {js : JSON} {yml : LocalYaml} {jd : JSONDecoder} (e : LPEnv) (validURL : string -> bool)
  (gw : list LPRequest -> LPRequest -> GwReply) (c : Client) (io : nat -> LedgerIO).

(** C27: every request to the local proxy is answered: the relay loop ends on
    every body, however the network cuts it and however it ends, and the
    proxy has sent at most two requests to the gateway. *)
Theorem proxy_always_answers method path body p l sent :
  exists a l', (route e validURL gw c io method path body p l sent).2 = Some (a, l') /\
    length (route e validURL gw c io method path body p l sent).1 <= length sent + 2.
Proof.
  unfold route. repeat (case_match; [eexists _, _; split; [done|cbn; lia]|]).
  case_match; [apply handleMessages_answers|]. case_match; [|eexists _, _; split; [done|cbn; lia]].
  unfold handleCountTokens. destruct (ReadAll body) as [b [m|]]; [eexists _, _; split; [done|cbn; lia]|].
  destruct (Forward _ _ _ _ _) as [sent' res] eqn:Hf. unfold Forward in Hf.
  assert (length sent' <= length sent + 2) as Hl.
  { destruct (marshal_forward _); [|by simplify_eq; lia].
    apply doWithRetry_spec in Hf as [[[-> _]|[->|[-> _]]] _]; rewrite ?length_app; cbn; lia. }
  destruct res; eexists _, _; split; done.
Qed.

(** C17: the relay does not depend on read boundaries: what the agent and the
    ledger get from a gateway stream is what the list of its frames gives,
    all of them when the stream ends in EOF, and those that end in a blank
    line before the failing read when it breaks. *)
Theorem relay_refines_frames resp p l :
  let '(text, eof) := usable (fw_Body resp) in
  let st := relay_frames io (sessionID e) (frames text eof) {| rs_out := p; rs_ledger := l; rs_uses := 0 |} in
  relayStream e io resp p l =
  Some (Answer (fw_Status resp) (copy_headers (filterStreamHeaders (fw_Header resp))) (rs_out st), rs_ledger st).
Proof. destruct (usable (fw_Body resp)) as [text eof] eqn:Hu. by rewrite relayStream_frames, Hu. Qed.

(** Provider to agent: the gateway relays and accounts a provider stream made
    of frames, the proxy receives those bytes in any pieces and relays them
    again.  After a normal end the agent has received exactly the provider's
    bytes, with none of the gateway's events, and the newest row of the ledger
    is the gateway's result; after a broken upstream it has received the
    provider's bytes and one Anthropic error event, and the ledger is
    unchanged. *)
Lemma relay_run overflow cfg fs end_ st h rd l :
  let g := run overflow cfg (frames_text fs) end_ client in
  let res := run_result g in
  (forall x, int64 (overflow x)) -> plain_frames fs -> free_of ":" (cfg_EndpointID cfg) = true ->
  usable rd = (bytes_out (run_pipe g), true) ->
  (let payload := match end_ with None => usage_payload cfg res | Some m => error_payload cfg m res end in
   parseJSON (printJSON payload) = Some payload) ->
  willing (io 0%nat) ->
  exists p' l', relayStream e io {| fw_Status := st; fw_Header := h; fw_Body := rd |} client l =
      Some (Answer st (copy_headers (filterStreamHeaders h)) p', l') /\
    match end_ with
    | None => bytes_out p' = frames_text fs /\ exists l1, l' = Some l1 /\
        ListRecent true l1 1 = Ok [{| tr_TraceID := cfg_TraceID cfg; tr_SessionID := sessionID e;
          tr_CostCents := ce_CostCents (res_CostEvent res); tr_TokensIn := Input (res_Usage res);
          tr_TokensOut := Output (res_Usage res); tr_Model := cfg_Model cfg; tr_Provider := cfg_EndpointID cfg;
          tr_TaskType := ""; tr_RecordedAt := zero_time |}]
    | Some m => bytes_out p' = frames_text fs +:+ ("event: error" +:+ (nl +:+ ("data: " +:+ (printJSON
          (JObj [("error", JObj [("message", JStr (error_message m (cfg_TraceID cfg))); ("type", JStr "api_error")]);
                 ("type", JStr "error")]) +:+ frame_end)))) /\ l' = l
    end.
Proof.
  intros g res Ho Hfs Hcolon Hu Hpay Hio.
  pose proof (run_typed overflow cfg (frames_text fs) end_ client Ho) as (Hi & Hout & _ & _ & Hc).
  rewrite relayStream_frames. cbn [fw_Body fw_Status fw_Header]. rewrite Hu. cbn [fst snd].
  eexists _, _. split; [reflexivity|]. unfold g. rewrite run_bytes. fold g. fold res.
  destruct end_ as [m|]; cbn iota in Hpay.
  - change (InjectError (cfg_TraceID cfg) "stream_interrupted" m true (Output (res_Usage res)))
      with (event_frame "aicg.error" (error_payload cfg m res)).
    exact (relay_error_tail io (sessionID e) fs cfg m res l Hfs Hpay).
  - rewrite InjectUsage_payload. destruct (relay_usage_tail io (sessionID e) fs cfg res l Hfs Hpay Hio Hi Hout Hc) as [Hby Hle].
    split; [exact Hby|]. eexists. split; [exact Hle|].
    assert (split_at ":" (cfg_EndpointID cfg +:+ (":" +:+ cfg_Model cfg)) = Some (cfg_EndpointID cfg, cfg_Model cfg)) as Hs
      by (by apply split_at_join).
    unfold trace_of. cbn [report_of u_RoutedTo u_TraceID u_CostCents u_Input u_Output]. rewrite Hs. cbn [default from_option id].
    by apply Insert_newest.
Qed.
End Claims.
