(* ===== verification/Envelope.v ===== *)
(** * The envelope schema

    The types of [internal/shared/envelope/types.go], the metadata that goes
    with every forwarded request, and their decoding by package
    [encoding/json].  No program imports the package: the proxy builds its
    envelope as nested maps ([LocalProxy.buildEnvelope]) and the gateway only
    checks that one is there.  The theorem says that what the proxy sends is
    an envelope of the schema, and which. *)

From Stdlib Require Import Ascii.
From stdpp Require Import sorting base gmap strings fin_maps numbers pretty list.
From S2P Require Import Prelude GoData Json Classifier LocalState LocalProxy.
Local Open Scope string_scope.
Local Open Scope Z_scope.

Record ClientInfo := { cli_LPVersion : string; cli_OS : string; cli_Arch : string }.
Record IdentityHint := { idh_UserID : string; idh_TeamID : string; idh_MachineID : string }.
Record AgentInfo := { agi_Tool : string; agi_ToolVersion : string; agi_WireProtocol : string }.
Record SessionInfo := { ses_SessionID : string; ses_TurnIndex : Z; ses_IsContinuation : bool }.
Record RepoInfo := { rpi_RepoID : string; rpi_RemoteURL : string; rpi_Branch : string; rpi_HeadSHA : string; rpi_IsDirty : bool }.
Record FileFingerprint := { ffp_Path : string; ffp_SizeBytes : Z; ffp_SHA256 : string; ffp_Language : string }.
Record DiffSummary := { dfs_LinesAdded : Z; dfs_LinesRemoved : Z; dfs_ContainsTestFailureKW : bool; dfs_ContainsStackTrace : bool }.
Record ContextSignals := { csg_FilePaths : list string; csg_FileFingerprints : list FileFingerprint; csg_DiffSummary : DiffSummary;
  csg_PrimaryLanguage : string }.
Record Confidence := { cnf_TaskType : float64; cnf_Complexity : float64; cnf_DataSensitivity : float64 }.
Record TaskHints := { thi_TaskType : string; thi_Complexity : string; thi_DataSensitivity : string; thi_AgenticLoop : bool;
  thi_ContainsSecretLike : bool; thi_ContainsPIILike : bool; thi_SecuritySensitiveArea : bool; thi_RoutingHints : list string; thi_Confidence
  : Confidence }.
Record ScanFinding := { scf_RuleID : string; scf_Severity : string; scf_Offset : Z; scf_Length : Z }.
Record ScanInfo := { sci_PreScanEngine : string; sci_PreScanFindings : list ScanFinding }.
Record AICGEnvelope := { env_SchemaVersion : string; env_Client : ClientInfo; env_Identity : IdentityHint; env_Agent : AgentInfo;
  env_Session : SessionInfo; env_Repo : RepoInfo; env_ContextSignals : ContextSignals; env_TaskHints : TaskHints; env_Scan : option ScanInfo;
  env_CustomTags : option (list (string * json)) }.

Definition zero_ClientInfo : ClientInfo := {| cli_LPVersion := ""; cli_OS := ""; cli_Arch := "" |}.
Definition zero_IdentityHint : IdentityHint := {| idh_UserID := ""; idh_TeamID := ""; idh_MachineID := "" |}.
Definition zero_AgentInfo : AgentInfo := {| agi_Tool := ""; agi_ToolVersion := ""; agi_WireProtocol := "" |}.
Definition zero_SessionInfo : SessionInfo := {| ses_SessionID := ""; ses_TurnIndex := 0; ses_IsContinuation := false |}.
Definition zero_RepoInfo : RepoInfo := {| rpi_RepoID := ""; rpi_RemoteURL := ""; rpi_Branch := ""; rpi_HeadSHA := ""; rpi_IsDirty := false
  |}.
Definition zero_FileFingerprint : FileFingerprint := {| ffp_Path := ""; ffp_SizeBytes := 0; ffp_SHA256 := ""; ffp_Language := "" |}.
Definition zero_DiffSummary : DiffSummary := {| dfs_LinesAdded := 0; dfs_LinesRemoved := 0; dfs_ContainsTestFailureKW := false;
  dfs_ContainsStackTrace := false |}.
Definition zero_ContextSignals : ContextSignals := {| csg_FilePaths := []; csg_FileFingerprints := []; csg_DiffSummary := zero_DiffSummary;
  csg_PrimaryLanguage := "" |}.
Definition zero_Confidence : Confidence := {| cnf_TaskType := f64_of_int 0; cnf_Complexity := f64_of_int 0; cnf_DataSensitivity :=
  f64_of_int 0 |}.
Definition zero_TaskHints : TaskHints := {| thi_TaskType := ""; thi_Complexity := ""; thi_DataSensitivity := ""; thi_AgenticLoop := false;
  thi_ContainsSecretLike := false; thi_ContainsPIILike := false; thi_SecuritySensitiveArea := false; thi_RoutingHints := []; thi_Confidence :=
  zero_Confidence |}.
Definition zero_ScanFinding : ScanFinding := {| scf_RuleID := ""; scf_Severity := ""; scf_Offset := 0; scf_Length := 0 |}.
Definition zero_ScanInfo : ScanInfo := {| sci_PreScanEngine := ""; sci_PreScanFindings := [] |}.
Definition zero_AICGEnvelope : AICGEnvelope := {| env_SchemaVersion := ""; env_Client := zero_ClientInfo; env_Identity := zero_IdentityHint;
  env_Agent := zero_AgentInfo; env_Session := zero_SessionInfo; env_Repo := zero_RepoInfo; env_ContextSignals := zero_ContextSignals;
  env_TaskHints := zero_TaskHints; env_Scan := None; env_CustomTags := None |}.

Section Decoders.
Context {js : JSON}.

Definition ClientInfo_field (k : string) : option (decoder ClientInfo) :=
  if String.eqb k "lp_version" then Some (fun v r => x ← dec_str v (cli_LPVersion r); Some (Build_ClientInfo x (cli_OS r) (cli_Arch r)))
  else if String.eqb k "os" then Some (fun v r => x ← dec_str v (cli_OS r); Some (Build_ClientInfo (cli_LPVersion r) x (cli_Arch r)))
  else if String.eqb k "arch" then Some (fun v r => x ← dec_str v (cli_Arch r); Some (Build_ClientInfo (cli_LPVersion r) (cli_OS r) x))
  else None.
Definition IdentityHint_field (k : string) : option (decoder IdentityHint) :=
  if String.eqb k "user_id" then Some (fun v r => x ← dec_str v (idh_UserID r); Some (Build_IdentityHint x (idh_TeamID r) (idh_MachineID r)))
  else if String.eqb k "team_id" then Some (fun v r => x ← dec_str v (idh_TeamID r); Some (Build_IdentityHint (idh_UserID r) x (idh_MachineID
    r)))
  else if String.eqb k "machine_id" then Some (fun v r => x ← dec_str v (idh_MachineID r); Some (Build_IdentityHint (idh_UserID r) (idh_TeamID
    r) x))
  else None.
Definition AgentInfo_field (k : string) : option (decoder AgentInfo) :=
  if String.eqb k "tool" then Some (fun v r => x ← dec_str v (agi_Tool r); Some (Build_AgentInfo x (agi_ToolVersion r) (agi_WireProtocol r)))
  else if String.eqb k "tool_version" then Some (fun v r => x ← dec_str v (agi_ToolVersion r); Some (Build_AgentInfo (agi_Tool r) x
    (agi_WireProtocol r)))
  else if String.eqb k "wire_protocol" then Some (fun v r => x ← dec_str v (agi_WireProtocol r); Some (Build_AgentInfo (agi_Tool r)
    (agi_ToolVersion r) x))
  else None.
Definition SessionInfo_field (k : string) : option (decoder SessionInfo) :=
  if String.eqb k "session_id" then Some (fun v r => x ← dec_str v (ses_SessionID r); Some (Build_SessionInfo x (ses_TurnIndex r)
    (ses_IsContinuation r)))
  else if String.eqb k "turn_index" then Some (fun v r => x ← dec_int v (ses_TurnIndex r); Some (Build_SessionInfo (ses_SessionID r) x
    (ses_IsContinuation r)))
  else if String.eqb k "is_continuation" then Some (fun v r => x ← dec_bool v (ses_IsContinuation r); Some (Build_SessionInfo (ses_SessionID
    r) (ses_TurnIndex r) x))
  else None.
Definition RepoInfo_field (k : string) : option (decoder RepoInfo) :=
  if String.eqb k "repo_id" then Some (fun v r => x ← dec_str v (rpi_RepoID r); Some (Build_RepoInfo x (rpi_RemoteURL r) (rpi_Branch r)
    (rpi_HeadSHA r) (rpi_IsDirty r)))
  else if String.eqb k "remote_url" then Some (fun v r => x ← dec_str v (rpi_RemoteURL r); Some (Build_RepoInfo (rpi_RepoID r) x (rpi_Branch
    r) (rpi_HeadSHA r) (rpi_IsDirty r)))
  else if String.eqb k "branch" then Some (fun v r => x ← dec_str v (rpi_Branch r); Some (Build_RepoInfo (rpi_RepoID r) (rpi_RemoteURL r) x
    (rpi_HeadSHA r) (rpi_IsDirty r)))
  else if String.eqb k "head_sha" then Some (fun v r => x ← dec_str v (rpi_HeadSHA r); Some (Build_RepoInfo (rpi_RepoID r) (rpi_RemoteURL r)
    (rpi_Branch r) x (rpi_IsDirty r)))
  else if String.eqb k "is_dirty" then Some (fun v r => x ← dec_bool v (rpi_IsDirty r); Some (Build_RepoInfo (rpi_RepoID r) (rpi_RemoteURL r)
    (rpi_Branch r) (rpi_HeadSHA r) x))
  else None.
Definition FileFingerprint_field (k : string) : option (decoder FileFingerprint) :=
  if String.eqb k "path" then Some (fun v r => x ← dec_str v (ffp_Path r); Some (Build_FileFingerprint x (ffp_SizeBytes r) (ffp_SHA256 r)
    (ffp_Language r)))
  else if String.eqb k "size_bytes" then Some (fun v r => x ← dec_int v (ffp_SizeBytes r); Some (Build_FileFingerprint (ffp_Path r) x
    (ffp_SHA256 r) (ffp_Language r)))
  else if String.eqb k "sha256" then Some (fun v r => x ← dec_str v (ffp_SHA256 r); Some (Build_FileFingerprint (ffp_Path r) (ffp_SizeBytes r)
    x (ffp_Language r)))
  else if String.eqb k "language" then Some (fun v r => x ← dec_str v (ffp_Language r); Some (Build_FileFingerprint (ffp_Path r)
    (ffp_SizeBytes r) (ffp_SHA256 r) x))
  else None.
Definition DiffSummary_field (k : string) : option (decoder DiffSummary) :=
  if String.eqb k "lines_added" then Some (fun v r => x ← dec_int v (dfs_LinesAdded r); Some (Build_DiffSummary x (dfs_LinesRemoved r)
    (dfs_ContainsTestFailureKW r) (dfs_ContainsStackTrace r)))
  else if String.eqb k "lines_removed" then Some (fun v r => x ← dec_int v (dfs_LinesRemoved r); Some (Build_DiffSummary (dfs_LinesAdded r) x
    (dfs_ContainsTestFailureKW r) (dfs_ContainsStackTrace r)))
  else if String.eqb k "contains_test_failure_keyword" then Some (fun v r => x ← dec_bool v (dfs_ContainsTestFailureKW r); Some
    (Build_DiffSummary (dfs_LinesAdded r) (dfs_LinesRemoved r) x (dfs_ContainsStackTrace r)))
  else if String.eqb k "contains_stack_trace" then Some (fun v r => x ← dec_bool v (dfs_ContainsStackTrace r); Some (Build_DiffSummary
    (dfs_LinesAdded r) (dfs_LinesRemoved r) (dfs_ContainsTestFailureKW r) x))
  else None.
Definition ContextSignals_field (k : string) : option (decoder ContextSignals) :=
  if String.eqb k "file_paths" then Some (fun v r => x ← (dec_slice "" dec_str) v (csg_FilePaths r); Some (Build_ContextSignals x
    (csg_FileFingerprints r) (csg_DiffSummary r) (csg_PrimaryLanguage r)))
  else if String.eqb k "file_fingerprints" then Some (fun v r => x ← (dec_slice zero_FileFingerprint (dec_struct FileFingerprint_field)) v
    (csg_FileFingerprints r); Some (Build_ContextSignals (csg_FilePaths r) x (csg_DiffSummary r) (csg_PrimaryLanguage r)))
  else if String.eqb k "diff_summary" then Some (fun v r => x ← (dec_struct DiffSummary_field) v (csg_DiffSummary r); Some
    (Build_ContextSignals (csg_FilePaths r) (csg_FileFingerprints r) x (csg_PrimaryLanguage r)))
  else if String.eqb k "primary_language" then Some (fun v r => x ← dec_str v (csg_PrimaryLanguage r); Some (Build_ContextSignals
    (csg_FilePaths r) (csg_FileFingerprints r) (csg_DiffSummary r) x))
  else None.
Definition Confidence_field (k : string) : option (decoder Confidence) :=
  if String.eqb k "task_type" then Some (fun v r => x ← dec_float v (cnf_TaskType r); Some (Build_Confidence x (cnf_Complexity r)
    (cnf_DataSensitivity r)))
  else if String.eqb k "complexity" then Some (fun v r => x ← dec_float v (cnf_Complexity r); Some (Build_Confidence (cnf_TaskType r) x
    (cnf_DataSensitivity r)))
  else if String.eqb k "data_sensitivity" then Some (fun v r => x ← dec_float v (cnf_DataSensitivity r); Some (Build_Confidence (cnf_TaskType
    r) (cnf_Complexity r) x))
  else None.
Definition TaskHints_field (k : string) : option (decoder TaskHints) :=
  if String.eqb k "task_type" then Some (fun v r => x ← dec_str v (thi_TaskType r); Some (Build_TaskHints x (thi_Complexity r)
    (thi_DataSensitivity r) (thi_AgenticLoop r) (thi_ContainsSecretLike r) (thi_ContainsPIILike r) (thi_SecuritySensitiveArea r)
    (thi_RoutingHints r) (thi_Confidence r)))
  else if String.eqb k "complexity" then Some (fun v r => x ← dec_str v (thi_Complexity r); Some (Build_TaskHints (thi_TaskType r) x
    (thi_DataSensitivity r) (thi_AgenticLoop r) (thi_ContainsSecretLike r) (thi_ContainsPIILike r) (thi_SecuritySensitiveArea r)
    (thi_RoutingHints r) (thi_Confidence r)))
  else if String.eqb k "data_sensitivity" then Some (fun v r => x ← dec_str v (thi_DataSensitivity r); Some (Build_TaskHints (thi_TaskType r)
    (thi_Complexity r) x (thi_AgenticLoop r) (thi_ContainsSecretLike r) (thi_ContainsPIILike r) (thi_SecuritySensitiveArea r) (thi_RoutingHints
    r) (thi_Confidence r)))
  else if String.eqb k "agentic_loop" then Some (fun v r => x ← dec_bool v (thi_AgenticLoop r); Some (Build_TaskHints (thi_TaskType r)
    (thi_Complexity r) (thi_DataSensitivity r) x (thi_ContainsSecretLike r) (thi_ContainsPIILike r) (thi_SecuritySensitiveArea r)
    (thi_RoutingHints r) (thi_Confidence r)))
  else if String.eqb k "contains_secret_like_pattern" then Some (fun v r => x ← dec_bool v (thi_ContainsSecretLike r); Some (Build_TaskHints
    (thi_TaskType r) (thi_Complexity r) (thi_DataSensitivity r) (thi_AgenticLoop r) x (thi_ContainsPIILike r) (thi_SecuritySensitiveArea r)
    (thi_RoutingHints r) (thi_Confidence r)))
  else if String.eqb k "contains_pii_like_pattern" then Some (fun v r => x ← dec_bool v (thi_ContainsPIILike r); Some (Build_TaskHints
    (thi_TaskType r) (thi_Complexity r) (thi_DataSensitivity r) (thi_AgenticLoop r) (thi_ContainsSecretLike r) x (thi_SecuritySensitiveArea r)
    (thi_RoutingHints r) (thi_Confidence r)))
  else if String.eqb k "security_sensitive_area" then Some (fun v r => x ← dec_bool v (thi_SecuritySensitiveArea r); Some (Build_TaskHints
    (thi_TaskType r) (thi_Complexity r) (thi_DataSensitivity r) (thi_AgenticLoop r) (thi_ContainsSecretLike r) (thi_ContainsPIILike r) x
    (thi_RoutingHints r) (thi_Confidence r)))
  else if String.eqb k "routing_hints" then Some (fun v r => x ← (dec_slice "" dec_str) v (thi_RoutingHints r); Some (Build_TaskHints
    (thi_TaskType r) (thi_Complexity r) (thi_DataSensitivity r) (thi_AgenticLoop r) (thi_ContainsSecretLike r) (thi_ContainsPIILike r)
    (thi_SecuritySensitiveArea r) x (thi_Confidence r)))
  else if String.eqb k "confidence" then Some (fun v r => x ← (dec_struct Confidence_field) v (thi_Confidence r); Some (Build_TaskHints
    (thi_TaskType r) (thi_Complexity r) (thi_DataSensitivity r) (thi_AgenticLoop r) (thi_ContainsSecretLike r) (thi_ContainsPIILike r)
    (thi_SecuritySensitiveArea r) (thi_RoutingHints r) x))
  else None.
Definition ScanFinding_field (k : string) : option (decoder ScanFinding) :=
  if String.eqb k "rule_id" then Some (fun v r => x ← dec_str v (scf_RuleID r); Some (Build_ScanFinding x (scf_Severity r) (scf_Offset r)
    (scf_Length r)))
  else if String.eqb k "severity" then Some (fun v r => x ← dec_str v (scf_Severity r); Some (Build_ScanFinding (scf_RuleID r) x (scf_Offset
    r) (scf_Length r)))
  else if String.eqb k "offset" then Some (fun v r => x ← dec_int v (scf_Offset r); Some (Build_ScanFinding (scf_RuleID r) (scf_Severity r) x
    (scf_Length r)))
  else if String.eqb k "length" then Some (fun v r => x ← dec_int v (scf_Length r); Some (Build_ScanFinding (scf_RuleID r) (scf_Severity r)
    (scf_Offset r) x))
  else None.
Definition ScanInfo_field (k : string) : option (decoder ScanInfo) :=
  if String.eqb k "pre_scan_engine" then Some (fun v r => x ← dec_str v (sci_PreScanEngine r); Some (Build_ScanInfo x (sci_PreScanFindings
    r)))
  else if String.eqb k "pre_scan_findings" then Some (fun v r => x ← (dec_slice zero_ScanFinding (dec_struct ScanFinding_field)) v
    (sci_PreScanFindings r); Some (Build_ScanInfo (sci_PreScanEngine r) x))
  else None.
Definition AICGEnvelope_field (k : string) : option (decoder AICGEnvelope) :=
  if String.eqb k "schema_version" then Some (fun v r => x ← dec_str v (env_SchemaVersion r); Some (Build_AICGEnvelope x (env_Client r)
    (env_Identity r) (env_Agent r) (env_Session r) (env_Repo r) (env_ContextSignals r) (env_TaskHints r) (env_Scan r) (env_CustomTags r)))
  else if String.eqb k "client" then Some (fun v r => x ← (dec_struct ClientInfo_field) v (env_Client r); Some (Build_AICGEnvelope
    (env_SchemaVersion r) x (env_Identity r) (env_Agent r) (env_Session r) (env_Repo r) (env_ContextSignals r) (env_TaskHints r) (env_Scan r)
    (env_CustomTags r)))
  else if String.eqb k "identity" then Some (fun v r => x ← (dec_struct IdentityHint_field) v (env_Identity r); Some (Build_AICGEnvelope
    (env_SchemaVersion r) (env_Client r) x (env_Agent r) (env_Session r) (env_Repo r) (env_ContextSignals r) (env_TaskHints r) (env_Scan r)
    (env_CustomTags r)))
  else if String.eqb k "agent" then Some (fun v r => x ← (dec_struct AgentInfo_field) v (env_Agent r); Some (Build_AICGEnvelope
    (env_SchemaVersion r) (env_Client r) (env_Identity r) x (env_Session r) (env_Repo r) (env_ContextSignals r) (env_TaskHints r) (env_Scan r)
    (env_CustomTags r)))
  else if String.eqb k "session" then Some (fun v r => x ← (dec_struct SessionInfo_field) v (env_Session r); Some (Build_AICGEnvelope
    (env_SchemaVersion r) (env_Client r) (env_Identity r) (env_Agent r) x (env_Repo r) (env_ContextSignals r) (env_TaskHints r) (env_Scan r)
    (env_CustomTags r)))
  else if String.eqb k "repo" then Some (fun v r => x ← (dec_struct RepoInfo_field) v (env_Repo r); Some (Build_AICGEnvelope
    (env_SchemaVersion r) (env_Client r) (env_Identity r) (env_Agent r) (env_Session r) x (env_ContextSignals r) (env_TaskHints r) (env_Scan r)
    (env_CustomTags r)))
  else if String.eqb k "context_signals" then Some (fun v r => x ← (dec_struct ContextSignals_field) v (env_ContextSignals r); Some
    (Build_AICGEnvelope (env_SchemaVersion r) (env_Client r) (env_Identity r) (env_Agent r) (env_Session r) (env_Repo r) x (env_TaskHints r)
    (env_Scan r) (env_CustomTags r)))
  else if String.eqb k "task_hints" then Some (fun v r => x ← (dec_struct TaskHints_field) v (env_TaskHints r); Some (Build_AICGEnvelope
    (env_SchemaVersion r) (env_Client r) (env_Identity r) (env_Agent r) (env_Session r) (env_Repo r) (env_ContextSignals r) x (env_Scan r)
    (env_CustomTags r)))
  else if String.eqb k "scan" then Some (fun v r => x ← (dec_ptr zero_ScanInfo (dec_struct ScanInfo_field)) v (env_Scan r); Some
    (Build_AICGEnvelope (env_SchemaVersion r) (env_Client r) (env_Identity r) (env_Agent r) (env_Session r) (env_Repo r) (env_ContextSignals r)
    (env_TaskHints r) x (env_CustomTags r)))
  else if String.eqb k "custom_tags" then Some (fun v r => x ← dec_any_map v (env_CustomTags r); Some (Build_AICGEnvelope (env_SchemaVersion
    r) (env_Client r) (env_Identity r) (env_Agent r) (env_Session r) (env_Repo r) (env_ContextSignals r) (env_TaskHints r) (env_Scan r) x))
  else None.
End Decoders.

(** ** What the proxy sends *)

Lemma dec_str_slice l : dec_slice "" dec_str (JArr (JStr <$> l)) [] = Some l.
Proof. cbn [dec_slice]. induction l as [|s l IH]; [done|]. cbn [fmap list_fmap mapM]. rewrite IH. done. Qed.

(** Distinct paths, twenty at most. *)
Lemma add_path_ok paths m : NoDup paths -> (length paths <= 20)%nat -> NoDup (add_path paths m) /\ (length (add_path paths m) <= 20)%nat.
Proof.
  intros Hn Hl. unfold add_path. case_bool_decide as Hm; cbn [orb]; [done|]. destruct (Nat.leb_spec 20 (length paths)); [done|].
  split; [apply NoDup_app; split_and!; [done|set_solver|apply NoDup_singleton]|]. rewrite length_app. cbn. lia.
Qed.
Lemma collect_paths_ok texts : NoDup (collect_paths texts) /\ (length (collect_paths texts) <= 20)%nat.
Proof.
  unfold collect_paths. assert (NoDup (@nil string) /\ (length (@nil string) <= 20)%nat) as H by (split; [constructor|cbn; lia]).
  revert H. generalize (@nil string) as acc. induction (texts ≫= FindAllPaths) as [|m ms IH]; intros acc [Hn Hl]; [done|].
  cbn [fold_left]. by apply IH, add_path_ok.
Qed.

Section Sent.
Context {js : JSON} {yml : LocalYaml} (e : LPEnv).

(** The envelope of a request with this body: no machine id, no tool version,
    of the repository only its id, no diff and no fingerprints; the hints are
    those of an empty context. *)
Definition sent_envelope (body : string) : AICGEnvelope :=
  let '(team, user) := match LoadCredentials (lp_home e) (lp_disk e) with Ok c => (cr_TeamID c, cr_UserID c) | _ => ("", "") end in
  let tag := Classify [] "" 0 0 false false in
  {| env_SchemaVersion := "1.0";
     env_Client := {| cli_LPVersion := version_String (lp_semver e) (lp_gitSHA e); cli_OS := lp_os e; cli_Arch := lp_arch e |};
     env_Identity := {| idh_UserID := user; idh_TeamID := team; idh_MachineID := "" |};
     env_Agent := {| agi_Tool := "claude_code"; agi_ToolVersion := ""; agi_WireProtocol := "anthropic_messages" |};
     env_Session := {| ses_SessionID := SessionID (lp_session e); ses_TurnIndex := 0; ses_IsContinuation := false |};
     env_Repo := {| rpi_RepoID := match Binding_Load (lp_repoRoot e) (lp_disk e) with Ok b => bt_RepoID b | _ => "" end;
                    rpi_RemoteURL := ""; rpi_Branch := ""; rpi_HeadSHA := ""; rpi_IsDirty := false |};
     env_ContextSignals := {| csg_FilePaths := body_paths body; csg_FileFingerprints := []; csg_DiffSummary := zero_DiffSummary;
                              csg_PrimaryLanguage := "" |};
     env_TaskHints := {| thi_TaskType := tag_TaskType tag; thi_Complexity := tag_Complexity tag; thi_DataSensitivity := "unknown";
                         thi_AgenticLoop := false; thi_ContainsSecretLike := false; thi_ContainsPIILike := false;
                         thi_SecuritySensitiveArea := false; thi_RoutingHints := []; thi_Confidence := zero_Confidence |};
     env_Scan := None; env_CustomTags := None |}.

(** Decode the next member and reduce the fields of the value built so far. *)
Ltac built :=
  cbn [zero_AICGEnvelope env_SchemaVersion env_Client env_Identity env_Agent env_Session env_Repo env_ContextSignals env_TaskHints env_Scan
       env_CustomTags].
Ltac next_member := erewrite dec_take; [|reflexivity|reflexivity]; built.
Ltac next_member_by H := erewrite dec_take; [|reflexivity|cbn beta; built; rewrite H; reflexivity]; built.

Lemma signals_read paths r :
  dec_struct ContextSignals_field (JObj [("diff_summary", JNull); ("file_fingerprints", JNull); ("file_paths", JArr (JStr <$> paths))]) r =
  Some {| csg_FilePaths := paths; csg_FileFingerprints := []; csg_DiffSummary := csg_DiffSummary r; csg_PrimaryLanguage := csg_PrimaryLanguage r |}.
Proof.
  cbn [dec_struct]. do 2 (erewrite dec_take; [|reflexivity|reflexivity]).
  erewrite dec_take; [|reflexivity|]; [reflexivity|]. cbn beta. cbn [csg_FilePaths].
  pose proof (dec_str_slice paths) as Hs. cbn [dec_slice] in *. rewrite Hs. reflexivity.
Qed.

Lemma repo_read :
  dec_struct RepoInfo_field (repo_json e) zero_RepoInfo =
  Some {| rpi_RepoID := match Binding_Load (lp_repoRoot e) (lp_disk e) with Ok b => bt_RepoID b | _ => "" end;
          rpi_RemoteURL := ""; rpi_Branch := ""; rpi_HeadSHA := ""; rpi_IsDirty := false |}.
Proof. unfold repo_json. by destruct (Binding_Load _ _). Qed.

(** The envelope, exactly. *)
Lemma envelope_sent body : dec_struct AICGEnvelope_field (buildEnvelope e body) zero_AICGEnvelope = Some (sent_envelope body).
Proof.
  unfold buildEnvelope, sent_envelope, identity_json. set (tag := Classify _ _ _ _ _ _).
  destruct (match LoadCredentials _ _ with Ok _ => _ | _ => _ end) as [team user]. cbn [dec_struct].
  do 2 next_member. next_member_by signals_read. next_member. next_member_by repo_read. do 3 next_member. reflexivity.
Qed.

(** The enumerations of the schema. *)
Definition task_types : list string :=
  ["planning"; "architecture"; "repo_search"; "file_reading"; "simple_edit"; "code_edit"; "test_output"; "debug"; "review";
   "security_review"; "summary"; "unknown"].
Definition levels : list string := ["low"; "medium"; "high"; "unknown"].

End Sent.
