(* ===== verification/Stats.v ===== *)
(** * Cost statistics on the command line

    [internal/lp/cli/stats.go]: the options of [aicg stats] and the table it
    prints; [truncate] of commands.go; the parts of [strconv], [fmt] and
    [unicode/utf8] they use.  An instant is a number of seconds in UTC, a
    date a day number; [time.Date] and [AddDate] are exact here, where Go's
    seconds wrap for dates more than 292 billion years away. *)

From Stdlib Require Import Ascii.
From stdpp Require Import sorting base gmap strings fin_maps numbers pretty list.
From S2P Require Import Prelude GoData Json Calendar GwClient.
Local Open Scope string_scope.

(** ** strconv.Atoi *)

Fixpoint all_digits (s : string) (acc : Z) : option Z :=
  match s with
  | EmptyString => Some acc
  | String c s => if is_digit c then all_digits s (10 * acc + digit_value c) else None
  end.
Definition unsigned (s : string) : option Z := if is_empty s then None else all_digits s 0.
Definition in_int64 (z : Z) : option Z := if ((- 2 ^ 63 <=? z) && (z <? 2 ^ 63))%Z then Some z else None.
Definition Atoi (s : string) : option Z :=
  match s with
  | String c r =>
      if Ascii.eqb c "-" then n ← unsigned r; in_int64 (- n)
      else if Ascii.eqb c "+" then unsigned r ≫= in_int64
      else unsigned s ≫= in_int64
  | EmptyString => None
  end.

(** ** Options *)

Record StatsOptions := { so_Dim : string; so_From : string; so_To : string }.

Inductive StatsError :=
| ConflictingPeriod
| GivenTwice (flag : string)
| RequiresValue (flag : string)
| BadFrom (s : string)
| BadTo (s : string)
| BadDim (s : string)
| UnknownFlag (s : string)
| ToWithoutFrom.

Definition today (now : Z) : Z := (now / 86400)%Z.
Definition first_of_month (now shift : Z) : Z :=
  let c := civil_of_days (today now) in Date (c_year c) (c_month c + shift) 1.

(** The last byte and the bytes before it. *)
Fixpoint split_last (s : string) : option (string * ascii) :=
  match s with
  | EmptyString => None
  | String c s => match split_last s with None => Some ("", c) | Some (p, l) => Some (String c p, l) end
  end.

(** Dates and whether the value is relative. *)
Definition parseFromValue (s : string) (now : Z) : outcome StatsError (string * string * bool) :=
  if is_empty s then Err (BadFrom s)
  else match ParseDate s with
  | Some _ => Ok (s, "", false)
  | None =>
      if (String.length s <? 2)%nat then Err (BadFrom s)
      else match split_last s with
      | None => Err (BadFrom s)
      | Some (v, suffix) =>
          if negb (Ascii.eqb suffix "d") && negb (Ascii.eqb suffix "w") then Err (BadFrom s)
          else match Atoi v with
          | None => Err (BadFrom s)
          | Some n =>
              if (n <=? 0)%Z then Err (BadFrom s)
              else let days := if Ascii.eqb suffix "w" then int_mul n 7 else n in
                   Ok (FormatDate (AddDays (today now) (wrap64 (- int_sub days 1))),
                       FormatDate (AddDays (today now) 1), true)
          end
      end
  end.

Record stats_state := { ss_opts : StatsOptions; periodSet : bool; fromGiven : bool; fromIsRelative : bool; toGiven : bool }.
Definition init_stats : stats_state :=
  {| ss_opts := {| so_Dim := "team"; so_From := ""; so_To := "" |};
     periodSet := false; fromGiven := false; fromIsRelative := false; toGiven := false |}.

Definition set_dim (st : stats_state) (d : string) : stats_state :=
  {| ss_opts := {| so_Dim := d; so_From := so_From (ss_opts st); so_To := so_To (ss_opts st) |};
     periodSet := periodSet st; fromGiven := fromGiven st; fromIsRelative := fromIsRelative st; toGiven := toGiven st |}.
Definition set_period (st : stats_state) (from to : string) : stats_state :=
  {| ss_opts := {| so_Dim := so_Dim (ss_opts st); so_From := from; so_To := to |};
     periodSet := true; fromGiven := fromGiven st; fromIsRelative := fromIsRelative st; toGiven := toGiven st |}.
Definition valid_dim (d : string) : bool :=
  String.eqb d "team" || String.eqb d "user" || String.eqb d "repo" || String.eqb d "model".

(** [--today] and [--this-month]. *)
Definition period_flag (st : stats_state) (from to : Z) : outcome StatsError stats_state :=
  if periodSet st || fromGiven st || toGiven st then Err ConflictingPeriod
  else Ok (set_period st (FormatDate from) (FormatDate to)).

Definition from_flag (now : Z) (st : stats_state) (val : option string) : outcome StatsError stats_state :=
  if periodSet st then Err ConflictingPeriod
  else if fromGiven st then Err (GivenTwice "--from")
  else match val with
  | None => Err (RequiresValue "--from")
  | Some val =>
      parseFromValue val now ≫= fun '(from, to, isRel) =>
      Ok {| ss_opts := {| so_Dim := so_Dim (ss_opts st); so_From := from;
                          so_To := if isRel && negb (toGiven st) then to else so_To (ss_opts st) |};
            periodSet := false; fromGiven := true; fromIsRelative := isRel; toGiven := toGiven st |}
  end.

Definition to_flag (st : stats_state) (val : option string) : outcome StatsError stats_state :=
  if periodSet st then Err ConflictingPeriod
  else if toGiven st then Err (GivenTwice "--to")
  else match val with
  | None => Err (RequiresValue "--to")
  | Some val =>
      match ParseDate val with
      | None => Err (BadTo val)
      | Some _ =>
          Ok {| ss_opts := {| so_Dim := so_Dim (ss_opts st); so_From := so_From (ss_opts st); so_To := val |};
                periodSet := false; fromGiven := fromGiven st; fromIsRelative := fromIsRelative st; toGiven := true |}
      end
  end.

Definition by_flag (st : stats_state) (val : option string) : outcome StatsError stats_state :=
  match val with
  | None => Err (RequiresValue "--by")
  | Some v => if valid_dim (ToLower v) then Ok (set_dim st (ToLower v)) else Err (BadDim (ToLower v))
  end.

(** The argument loop. *)
Fixpoint stats_loop (now : Z) (args : list string) (st : stats_state) : outcome StatsError stats_state :=
  match args with
  | [] => Ok st
  | a :: rest =>
      let with_value (f : option string -> outcome StatsError stats_state) :=
        match rest with
        | [] => f None
        | v :: rest' => f (Some v) ≫= stats_loop now rest'
        end in
      if String.eqb a "--today" then period_flag st (today now) (today (now + 86400)) ≫= stats_loop now rest
      else if String.eqb a "--this-month" then
        period_flag st (first_of_month now 0) (first_of_month now 1) ≫= stats_loop now rest
      else if String.eqb a "--from" then with_value (from_flag now st)
      else if String.eqb a "--to" then with_value (to_flag st)
      else if String.eqb a "--by" then with_value (by_flag st)
      else if String.eqb a "--by-team" then stats_loop now rest (set_dim st "team")
      else if String.eqb a "--by-user" then stats_loop now rest (set_dim st "user")
      else if String.eqb a "--by-repo" then stats_loop now rest (set_dim st "repo")
      else if String.eqb a "--by-model" then stats_loop now rest (set_dim st "model")
      else Err (UnknownFlag a)
  end.

Definition set_range (o : StatsOptions) (from to : string) : StatsOptions :=
  {| so_Dim := so_Dim o; so_From := from; so_To := to |}.

Definition ParseStatsOptionsAt (args : list string) (now : Z) : outcome StatsError StatsOptions :=
  st ← stats_loop now args init_stats;
  reject (toGiven st && negb (fromGiven st)) ToWithoutFrom ≫= fun _ =>
  let o := ss_opts st in
  if fromGiven st && negb (fromIsRelative st) && negb (toGiven st) then
    Ok (set_range o (so_From o) (FormatDate (AddDays (today now) 1)))
  else if negb (periodSet st) && negb (fromGiven st) && negb (toGiven st) then
    Ok (set_range o (FormatDate (first_of_month now 0)) (FormatDate (first_of_month now 1)))
  else Ok o.

(** ** fmt verbs *)

Definition byte_in (lo hi : N) (s : string) : bool :=
  match s with String c _ => let n := N_of_ascii c in ((lo <=? n) && (n <=? hi))%N | EmptyString => false end.

(** The bytes of the first UTF-8 sequence; an invalid byte counts alone. *)
Definition rune_size (s : string) : nat :=
  match s with
  | EmptyString => 0
  | String c r =>
      let n := N_of_ascii c in
      let r2 := str_drop 1 r in let r3 := str_drop 2 r in
      let second :=
        if (n =? 0xE0)%N then byte_in 0xA0 0xBF r
        else if (n =? 0xED)%N then byte_in 0x80 0x9F r
        else if (n =? 0xF0)%N then byte_in 0x90 0xBF r
        else if (n =? 0xF4)%N then byte_in 0x80 0x8F r
        else byte_in 0x80 0xBF r in
      if ((0xC2 <=? n) && (n <=? 0xDF))%N && second then 2
      else if ((0xE0 <=? n) && (n <=? 0xEF))%N && second && byte_in 0x80 0xBF r2 then 3
      else if ((0xF0 <=? n) && (n <=? 0xF4))%N && second && byte_in 0x80 0xBF r2 && byte_in 0x80 0xBF r3 then 4
      else 1
  end.

(** [utf8.RuneCountInString]; [skip] bytes belong to the last rune. *)
Fixpoint rune_count (skip : nat) (s : string) : nat :=
  match s with
  | EmptyString => 0
  | String _ r => match skip with S k => rune_count k r | O => S (rune_count (rune_size s - 1) r) end
  end.

Fixpoint spaces (n : nat) : string := match n with O => "" | S n => String " " (spaces n) end.
(** [%-ws] and [%ws]. *)
Definition pad_right (w : nat) (s : string) : string := s +:+ spaces (w - rune_count 0 s).
Definition pad_left (w : nat) (s : string) : string := spaces (w - rune_count 0 s) +:+ s.
(** [%wd] *)
Definition pad_int (w : nat) (z : Z) : string := pad_left w (pretty z).

Definition truncate (s : string) (max : nat) : string :=
  if (String.length s <=? max)%nat then s else str_take (max - 3) s +:+ "...".

Definition formatCents (cents : Z) : string :=
  let sign := if (cents <? 0)%Z then "-" else "" in
  let cents := if (cents <? 0)%Z then wrap64 (- cents) else cents in
  let dollars := int_quo cents 100 in
  let remain := int_rem cents 100 in
  sign +:+ (pretty dollars +:+ ("." +:+
    ((if ((0 <=? remain) && (remain <? 10))%Z then "0" else "") +:+ pretty remain))).

(** ** The table *)

(** The order of [sort.Slice]: cost descending, then value ascending. *)
Definition row_less (a b : CostSummaryRow) : bool :=
  if (cs_CostCents a =? cs_CostCents b)%Z then String.ltb (cs_DimValue a) (cs_DimValue b)
  else (cs_CostCents b <? cs_CostCents a)%Z.
Definition row_le (a b : CostSummaryRow) : Prop := row_less b a = false.

(** [sort.Slice] gives some permutation in which no later row is less. *)
Class SortRows := {
  sortRows : list CostSummaryRow -> list CostSummaryRow;
  sortRows_perm l : sortRows l ≡ₚ l;
  sortRows_sorted l : StronglySorted row_le (sortRows l) }.

Definition table_line (dim requests tok_in tok_out failed cost : string) : string :=
  "  " +:+ (dim +:+ (" " +:+ (requests +:+ (" " +:+ (tok_in +:+ (" " +:+ (tok_out +:+ (" " +:+ (failed +:+
  (" " +:+ (cost +:+ String newline ""))))))))))).

Definition render_row (r : CostSummaryRow) : string :=
  table_line (pad_right 20 (truncate (cs_DimValue r) 20)) (pad_int 8 (cs_NRequests r)) (pad_int 8 (cs_InputTokens r))
    (pad_int 8 (cs_OutputTokens r)) (pad_int 8 (cs_NFailed r)) (pad_left 8 (formatCents (cs_CostCents r))).

Definition RenderStatsTable `{SortRows} (opts : StatsOptions) (rows : list CostSummaryRow) : string :=
  let title := "Cost Summary  (" +:+ (so_From opts +:+ (" – " +:+ (so_To opts +:+ ("  ·  " +:+ ("by " +:+
                 (so_Dim opts +:+ (")" +:+ String newline ""))))))) in
  match rows with
  | [] => title +:+ ("  (no data for this period)" +:+ String newline "")
  | _ :: _ =>
      title +:+ (table_line (pad_right 20 "dim_value") (pad_left 8 "requests") (pad_left 8 "tok_in") (pad_left 8 "tok_out")
                   (pad_left 8 "failed") (pad_left 8 "cost") +:+
                 foldr (fun r t => render_row r +:+ t) "" (sortRows rows))
  end.

(** ** Lemmas *)

(** A value that ends in a letter is not a date. *)
Lemma split_last_app v c : split_last (v +:+ String c "") = Some (v, c).
Proof. induction v as [|d v IH]; [done|]. cbn. by rewrite IH. Qed.

Lemma read_digits_last n acc s z r : read_digits (S n) acc s = Some (z, r) ->
  exists p c, s = p +:+ String c r /\ is_digit c = true.
Proof.
  revert acc s. induction n as [|n IH]; intros acc s.
  - cbn. destruct s as [|c s]; [done|]. destruct (is_digit c) eqn:Hc; [|done]. intros [= _ <-]. by exists "", c.
  - change (read_digits (S (S n)) acc s) with (match s with
      | String c s => if is_digit c then read_digits (S n) (10 * acc + digit_value c) s else None
      | EmptyString => None end). destruct s as [|c s]; [done|].
    destruct (is_digit c); [|done]. intros (p & d & -> & Hd)%IH. by exists (String c p), d.
Qed.

Lemma expect_Some c s r : expect c s = Some r -> s = String c r.
Proof. destruct s as [|d s]; [done|]. cbn. destruct (Ascii.eqb_spec d c); [|done]. by intros [= ->]; subst. Qed.

Lemma ParseDate_last v c : is_digit c = false -> ParseDate (v +:+ String c "") = None.
Proof.
  intros Hc. destruct (ParseDate (v +:+ String c "")) as [t|] eqn:Hp; [|done]. exfalso.
  unfold ParseDate in Hp. apply bind_Some in Hp as ([ci rest] & Hr & Hp). cbn in Hp.
  destruct rest; [|done]. clear Hp. unfold read_civil in Hr.
  apply bind_Some in Hr as ([y s1] & (p1 & c1 & H1 & _)%read_digits_last & Hr).
  apply bind_Some in Hr as (s2 & ->%expect_Some & Hr).
  apply bind_Some in Hr as ([m s3] & (p2 & c2 & -> & _)%read_digits_last & Hr).
  apply bind_Some in Hr as (s4 & ->%expect_Some & Hr).
  apply bind_Some in Hr as ([d s5] & (p3 & c3 & -> & Hd)%read_digits_last & Hr).
  cbv zeta in Hr. case_match; [|done]. simplify_eq.
  assert (split_last (v +:+ String c "") = split_last (p1 +:+ String c1 (String "-" (p2 +:+ String c2 (String "-" (p3 +:+ String c3 "")))))) as He
    by (by rewrite H1).
  replace (p1 +:+ String c1 (String "-" (p2 +:+ String c2 (String "-" (p3 +:+ String c3 ""))))) with
    ((p1 +:+ String c1 (String "-" (p2 +:+ String c2 (String "-" p3)))) +:+ String c3 "") in He
    by (by rewrite str_app_assoc; cbn; rewrite str_app_assoc).
  rewrite !split_last_app in He. injection He as _ ->. congruence.
Qed.

Lemma parse_relative v c n now :
  (c = "d" \/ c = "w")%char -> Atoi v = Some n -> (0 < n)%Z -> v <> "" ->
  let days := if Ascii.eqb c "w" then (n * 7)%Z else n in
  int64 days ->
  parseFromValue (v +:+ String c "") now =
  Ok (FormatDate (today now - (days - 1)), FormatDate (today now + 1), true).
Proof.
  intros Hc Hn Hpos Hv days Hd. unfold parseFromValue.
  destruct (is_empty (v +:+ String c "")) eqn:He; [by destruct v|].
  rewrite ParseDate_last by (by destruct Hc as [-> | ->]).
  assert ((String.length (v +:+ String c "") <? 2)%nat = false) as ->.
  { apply Nat.ltb_ge. rewrite str_length_app. destruct v; [done|]. cbn. lia. }
  rewrite split_last_app, Hn. assert (negb (Ascii.eqb c "d") && negb (Ascii.eqb c "w") = false) as -> by (by destruct Hc as [-> | ->]).
  destruct (Z.leb_spec n 0); [lia|]. unfold AddDays.
  assert ((if Ascii.eqb c "w" then int_mul n 7 else n) = days) as ->.
  { unfold days in *. destruct (Ascii.eqb c "w"); [|done]. apply wrap64_id. exact Hd. }
  unfold int_sub. assert (1 <= days)%Z by (unfold days; destruct (Ascii.eqb c "w"); lia). unfold int64 in Hd.
  rewrite (wrap64_id (days - 1)) by (unfold int64; lia). rewrite wrap64_id by (unfold int64; lia).
  by replace (today now + - (days - 1))%Z with (today now - (days - 1))%Z by lia.
Qed.

Lemma stats_relative_options v c n now :
  (c = "d" \/ c = "w")%char -> Atoi v = Some n -> (0 < n)%Z ->
  let days := if Ascii.eqb c "w" then (n * 7)%Z else n in
  int64 days ->
  ParseStatsOptionsAt ["--from"; v +:+ String c ""] now =
  Ok {| so_Dim := "team"; so_From := FormatDate (today now - (days - 1)); so_To := FormatDate (today now + 1) |}.
Proof.
  intros Hc Hn Hpos days Hd. assert (v <> "") as Hv by (by intros ->).
  unfold ParseStatsOptionsAt. cbn [stats_loop String.eqb Ascii.eqb Bool.eqb]. unfold from_flag.
  cbn [periodSet fromGiven init_stats]. by rewrite (parse_relative v c n now).
Qed.

(** ** Properties *)

(** [aicg stats --from Nd] (or [Nw]) asks for exactly N days (7N days), the
    last of them today: both ends are dates, the range is half-open, and its
    length is N. *)
Theorem stats_last_n_days v c n now :
  (c = "d" \/ c = "w")%char -> Atoi v = Some n -> (0 < n)%Z ->
  let days := if Ascii.eqb c "w" then (n * 7)%Z else n in
  four_digit_year (today now - (days - 1)) -> four_digit_year (today now + 1) ->
  exists o a b, ParseStatsOptionsAt ["--from"; v +:+ String c ""] now = Ok o /\ so_Dim o = "team" /\
    ParseDate (so_From o) = Some a /\ ParseDate (so_To o) = Some b /\
    (a <= today now < b)%Z /\ (b = today now + 1)%Z /\ (b - a = days)%Z.
Proof.
  intros Hc Hn Hpos days Ha Hb.
  assert (int64 days) as Hd by (unfold four_digit_year, int64 in *; lia).
  exists {| so_Dim := "team"; so_From := FormatDate (today now - (days - 1)); so_To := FormatDate (today now + 1) |},
    (today now - (days - 1))%Z, (today now + 1)%Z. split.
  - by apply (stats_relative_options v c n).
  - cbn [so_Dim so_From so_To]. rewrite !ParseDate_FormatDate by done.
    assert (1 <= days)%Z by (unfold days; destruct (Ascii.eqb c "w"); lia). repeat split; lia.
Qed.

Lemma stats_last_n_days_witness :
  exists o a b, ParseStatsOptionsAt ["--from"; "2w"] 1700000000 = Ok o /\ ParseDate (so_From o) = Some a /\
    ParseDate (so_To o) = Some b /\ (b - a = 14)%Z.
Proof.
  destruct (stats_last_n_days "2" "w" 2 1700000000) as (o & a & b & Ho & _ & Hf & Ht & _ & _ & Hd);
    [by right|done|done|by vm_compute|by vm_compute|].
  exists o, a, b. done.
Defined.

Lemma row_le_antisym a b : row_le a b -> row_le b a -> cs_CostCents a = cs_CostCents b /\ cs_DimValue a = cs_DimValue b.
Proof.
  unfold row_le, row_less. rewrite (Z.eqb_sym (cs_CostCents a)).
  destruct (Z.eqb_spec (cs_CostCents b) (cs_CostCents a)) as [He|Hne]; [|lia].
  unfold String.ltb. rewrite (String.compare_antisym (cs_DimValue a)).
  destruct (String.compare (cs_DimValue b) (cs_DimValue a)) eqn:Hc; cbn; try done.
  intros _ _. by apply String.compare_eq_iff in Hc.
Qed.

(** The table does not depend on the order in which the gateway returned
    the rows, nor on the sorting algorithm: two replies with the same rows,
    no two of them of equal cost and value, print the same text. *)
Theorem stats_table_deterministic (s1 s2 : SortRows) opts rows rows' :
  rows ≡ₚ rows' ->
  (forall a b, a ∈ rows -> b ∈ rows -> cs_CostCents a = cs_CostCents b -> cs_DimValue a = cs_DimValue b -> a = b) ->
  @RenderStatsTable s1 opts rows = @RenderStatsTable s2 opts rows'.
Proof.
  intros Hp Hk. assert (@sortRows s1 rows = @sortRows s2 rows') as Hs.
  { apply (StronglySorted_unique_strong row_le); [|apply sortRows_sorted..|by rewrite !sortRows_perm].
    intros a b Ha Hb H1 H2. rewrite sortRows_perm in Ha. rewrite sortRows_perm, <- Hp in Hb.
    destruct (row_le_antisym a b H1 H2). by apply Hk. }
  unfold RenderStatsTable. rewrite Hs. destruct rows as [|r rows], rows' as [|r' rows']; [done|..|done].
  - by apply Permutation_nil_l in Hp.
  - by symmetry in Hp; apply Permutation_nil_l in Hp.
Qed.

(** *** A sorting algorithm *)

Lemma str_compare_le_trans a b c : String.compare a b <> Gt -> String.compare b c <> Gt -> String.compare a c <> Gt.
Proof.
  revert b c. induction a as [|x a IH]; intros [|y b] [|z c]; cbn; try done. unfold Ascii.compare.
  destruct (N.compare_spec (N_of_ascii x) (N_of_ascii y)) as [Hxy|Hxy|Hxy]; [| |done];
    destruct (N.compare_spec (N_of_ascii y) (N_of_ascii z)) as [Hyz|Hyz|Hyz]; try done;
    destruct (N.compare_spec (N_of_ascii x) (N_of_ascii z)) as [Hxz|Hxz|Hxz]; try done; try (exfalso; lia).
  apply IH.
Qed.

Lemma row_le_spec a b : row_le a b <-> (cs_CostCents b < cs_CostCents a)%Z \/
  cs_CostCents a = cs_CostCents b /\ String.compare (cs_DimValue a) (cs_DimValue b) <> Gt.
Proof.
  unfold row_le, row_less. destruct (Z.eqb_spec (cs_CostCents b) (cs_CostCents a)) as [He|Hne].
  - unfold String.ltb. rewrite (String.compare_antisym (cs_DimValue a)).
    destruct (String.compare (cs_DimValue b) (cs_DimValue a)); cbn; intuition (try congruence; try lia).
  - rewrite Z.ltb_ge. intuition lia.
Qed.

#[export] Instance row_le_dec : RelDecision row_le.
Proof. intros a b. unfold row_le. apply _. Defined.
#[export] Instance row_le_trans : Transitive row_le.
Proof.
  intros a b c. rewrite !row_le_spec. intros [H1|[H1 H1']] [H2|[H2 H2']]; [left; lia..|].
  right. split; [lia|]. by eapply str_compare_le_trans.
Qed.
#[export] Instance row_le_total : Total row_le.
Proof.
  intros a b. rewrite !row_le_spec. destruct (Z.lt_total (cs_CostCents a) (cs_CostCents b)) as [?|[He|?]]; [by right; left| |by left; left].
  rewrite (String.compare_antisym (cs_DimValue a)). destruct (String.compare (cs_DimValue b) (cs_DimValue a)) eqn:Hc;
    [left|right|left]; right; rewrite ?Hc; done.
Qed.

Definition merge_rows : SortRows :=
  {| sortRows := merge_sort row_le; sortRows_perm := merge_sort_Permutation row_le;
     sortRows_sorted := StronglySorted_merge_sort row_le |}.

Definition sample_row (d : string) (cost : Z) : CostSummaryRow :=
  {| cs_Bucket := ""; cs_DimValue := d; cs_CostCents := cost; cs_InputTokens := 1; cs_OutputTokens := 2;
     cs_NRequests := 1; cs_NFailed := 0 |}.

Lemma stats_table_deterministic_witness :
  let opts := {| so_Dim := "team"; so_From := "2026-01-01"; so_To := "2026-02-01" |} in
  @RenderStatsTable merge_rows opts [sample_row "core" 5; sample_row "web" 1250] =
  @RenderStatsTable merge_rows opts [sample_row "web" 1250; sample_row "core" 5].
Proof.
  apply (stats_table_deterministic merge_rows merge_rows); [constructor|].
  intros a b Ha Hb Hc _. decompose_list_elem_of; subst; [done|done|done|done].
Defined.
