(* ===== verification/Cli.v ===== *)
(** * The command line of the local proxy

    [internal/lp/cli]: cli.go and commands.go, with [time.ParseDuration] and
    the integer verb of [fmt.Sscanf].  A command maps the state of the
    machine ([World]: disk, ledger, requests sent, text printed) and its
    arguments to a new state and an error.  What the operating system answers
    is in [Machine]; the daemon's listening and serving are two of its
    answers. *)

From Stdlib Require Import Ascii.
From stdpp Require Import sorting base gmap strings fin_maps numbers pretty list.
From S2P Require Import Prelude GoData Config Edge Handlers Json Calendar LocalState Ledger GwClient Reload LocalProxy Stats.
Local Open Scope string_scope.

(** ** time.ParseDuration *)

Definition unit_of (u : string) : option Z :=
  if String.eqb u "ns" then Some 1%Z
  else if String.eqb u "us" || String.eqb u "µs" || String.eqb u "μs" then Some (10 ^ 3)%Z
  else if String.eqb u "ms" then Some (10 ^ 6)%Z
  else if String.eqb u "s" then Some (10 ^ 9)%Z
  else if String.eqb u "m" then Some (60 * 10 ^ 9)%Z
  else if String.eqb u "h" then Some (3600 * 10 ^ 9)%Z
  else None.

(** [leadingInt]: [None] on overflow. *)
Fixpoint leadingInt (s : string) (x : Z) : option (Z * string) :=
  match s with
  | String c r =>
      if negb (is_digit c) then Some (x, s)
      else if (2 ^ 63 / 10 <? x)%Z then None
      else let x := (x * 10 + digit_value c)%Z in if (2 ^ 63 <? x)%Z then None else leadingInt r x
  | EmptyString => Some (x, "")
  end.

(** [leadingFraction]: the digits that fit, their scale, the rest. *)
Fixpoint leadingFraction (s : string) (x : Z) (scale : float64) (overflow : bool) : Z * float64 * string :=
  match s with
  | String c r =>
      if negb (is_digit c) then (x, scale, s)
      else if overflow then leadingFraction r x scale true
      else if ((2 ^ 63 - 1) / 10 <? x)%Z then leadingFraction r x scale true
      else let y := (x * 10 + digit_value c)%Z in
           if (2 ^ 63 <? y)%Z then leadingFraction r x scale true
           else leadingFraction r y (f64_mul scale (f64_of_int 10)) false
  | EmptyString => (x, scale, "")
  end.

(** The unit: everything up to a dot or a digit. *)
Fixpoint unit_name (s : string) : string * string :=
  match s with
  | String c r => if Ascii.eqb c "." || is_digit c then ("", s) else let '(u, t) := unit_name r in (String c u, t)
  | EmptyString => ("", "")
  end.

(** One number with its unit: its nanoseconds and the rest. *)
Definition duration_part (s : string) : option (Z * string) :=
  match s with
  | EmptyString => None
  | String c _ =>
      if negb (Ascii.eqb c "." || is_digit c) then None
      else
        '(v, s1) ← leadingInt s 0;
        let pre := negb (String.length s =? String.length s1)%nat in
        let '(f, scale, s2, post) :=
          match s1 with
          | String d t => if Ascii.eqb d "." then
                            let '(f, scale, u) := leadingFraction t 0 (f64_of_int 1) false in
                            (f, scale, u, negb (String.length t =? String.length u)%nat)
                          else (0%Z, f64_of_int 1, s1, false)
          | EmptyString => (0%Z, f64_of_int 1, s1, false)
          end in
        if negb pre && negb post then None
        else let '(u, rest) := unit_name s2 in
             if is_empty u then None
             else unit ← unit_of u;
                  if (2 ^ 63 / unit <? v)%Z then None
                  else let v := (v * unit)%Z in
                       let v := if (0 <? f)%Z then
                                  (v + default 0%Z (f64_trunc (f64_mul (f64_of_int f) (f64_div (f64_of_int unit) scale))))%Z
                                else v in
                       if (2 ^ 63 <? v)%Z then None else Some (v, rest)
  end.

(** The loop over the parts; each takes at least one byte. *)
Fixpoint duration_parts (fuel : nat) (s : string) (d : Z) : option Z :=
  match fuel with
  | O => None
  | S fuel =>
      if is_empty s then Some d
      else '(v, rest) ← duration_part s;
           let d := (d + v)%Z in if (2 ^ 63 <? d)%Z then None else duration_parts fuel rest d
  end.

Definition ParseDuration (s : string) : option Z :=
  let '(neg, s) := match s with
                   | String c r => if Ascii.eqb c "-" then (true, r) else if Ascii.eqb c "+" then (false, r) else (false, s)
                   | EmptyString => (false, s)
                   end in
  if String.eqb s "0" then Some 0%Z
  else if is_empty s then None
  else d ← duration_parts (S (String.length s)) s 0;
       if neg then Some (- d)%Z else if (2 ^ 63 - 1 <? d)%Z then None else Some d.

(** ** Flags *)

Inductive CliError :=
| NoCommand | UnknownCommand (name : string)
| BothTokens | NoToken
| ExchangeInviteFailed (e : ClientError) | ExchangeSetupFailed (e : ClientError)
| SaveFailed (e : LocalError)
| LoadConfigFailed (e : LocalError) | LoadCredentialsFailed (e : LocalError)
| Local (e : LocalError)
| ListenFailed (addr : string) | ServeFailed
| OpenLedgerFailed (e : LedgerError) | ListRecentFailed (e : LedgerError)
| BindRepoFailed (e : ClientError)
| Issues (n : Z)
| StatsArgs (e : StatsError) | StatsFailed (e : ClientError)
| ReadPolicy | PolicyInvalid (e : LoadError) | PolicyUsage
| RoutingUsage | TraceIDRequired | RoutingFailed (e : ClientError)
| FlagRequiresValue (flag : string) | BadTTL | CliUnknownFlag (flag : string) | FlagRequired (flag : string)
| TTLNotPositive | TTLTooLong
| CreateInviteFailed (e : ClientError)
| AdminUsage | UnknownAdmin (name : string).

Record loginFlags := { lf_setupToken : string; lf_inviteToken : string; lf_gwURL : string; lf_caPath : string }.

(** A flag without a value at the end is ignored. *)
Fixpoint login_loop (args : list string) (f : loginFlags) : loginFlags :=
  match args with
  | [] => f
  | a :: rest =>
      if String.eqb a "--setup" then
        match rest with
        | v :: rest' => login_loop rest' {| lf_setupToken := v; lf_inviteToken := lf_inviteToken f; lf_gwURL := lf_gwURL f; lf_caPath := lf_caPath f |}
        | [] => f
        end
      else if String.eqb a "--invite" then
        match rest with
        | v :: rest' => login_loop rest' {| lf_setupToken := lf_setupToken f; lf_inviteToken := v; lf_gwURL := lf_gwURL f; lf_caPath := lf_caPath f |}
        | [] => f
        end
      else if String.eqb a "--gateway" then
        match rest with
        | v :: rest' => login_loop rest' {| lf_setupToken := lf_setupToken f; lf_inviteToken := lf_inviteToken f; lf_gwURL := v; lf_caPath := lf_caPath f |}
        | [] => f
        end
      else if String.eqb a "--ca" then
        match rest with
        | v :: rest' => login_loop rest' {| lf_setupToken := lf_setupToken f; lf_inviteToken := lf_inviteToken f; lf_gwURL := lf_gwURL f; lf_caPath := v |}
        | [] => f
        end
      else login_loop rest f
  end.

(** [baseURL] is the environment variable AICG_PUBLIC_BASE_URL. *)
Definition parseLoginFlags (baseURL : string) (args : list string) : outcome CliError loginFlags :=
  let f := login_loop args {| lf_setupToken := ""; lf_inviteToken := "";
             lf_gwURL := if is_empty baseURL then "https://localhost:8443" else baseURL; lf_caPath := "" |} in
  reject (negb (is_empty (lf_setupToken f)) && negb (is_empty (lf_inviteToken f))) BothTokens ≫= fun _ =>
  reject (is_empty (lf_setupToken f) && is_empty (lf_inviteToken f)) NoToken ≫= fun _ => Ok f.

Record adminInviteFlags := { af_role : string; af_team : string; af_user : string; af_ttl : Z; af_ttlSet : bool }.

Fixpoint invite_loop (args : list string) (f : adminInviteFlags) : outcome CliError adminInviteFlags :=
  match args with
  | [] => Ok f
  | a :: rest =>
      let value (k : string -> outcome CliError adminInviteFlags) : outcome CliError adminInviteFlags :=
        match rest with
        | [] => Err (FlagRequiresValue a)
        | v :: rest' => k v ≫= invite_loop rest'
        end in
      if String.eqb a "--role" then value (fun v =>
        Ok {| af_role := v; af_team := af_team f; af_user := af_user f; af_ttl := af_ttl f; af_ttlSet := af_ttlSet f |})
      else if String.eqb a "--team" then value (fun v =>
        Ok {| af_role := af_role f; af_team := v; af_user := af_user f; af_ttl := af_ttl f; af_ttlSet := af_ttlSet f |})
      else if String.eqb a "--user" then value (fun v =>
        Ok {| af_role := af_role f; af_team := af_team f; af_user := v; af_ttl := af_ttl f; af_ttlSet := af_ttlSet f |})
      else if String.eqb a "--ttl" then value (fun v =>
        match ParseDuration v with
        | None => Err BadTTL
        | Some d => Ok {| af_role := af_role f; af_team := af_team f; af_user := af_user f; af_ttl := d; af_ttlSet := true |}
        end)
      else Err (CliUnknownFlag a)
  end.

Definition parseAdminInviteFlags (args : list string) : outcome CliError adminInviteFlags :=
  invite_loop args {| af_role := ""; af_team := ""; af_user := ""; af_ttl := 24 * Hour; af_ttlSet := false |} ≫= fun f =>
  reject (is_empty (af_role f)) (FlagRequired "--role") ≫= fun _ =>
  reject (is_empty (af_team f)) (FlagRequired "--team") ≫= fun _ =>
  reject (is_empty (af_user f)) (FlagRequired "--user") ≫= fun _ =>
  reject (af_ttlSet f && (af_ttl f <=? 0)%Z) TTLNotPositive ≫= fun _ =>
  reject (af_ttlSet f && (720 * Hour <? af_ttl f)%Z) TTLTooLong ≫= fun _ => Ok f.

(** [fmt.Sscanf(s, "%d", &port)] (ASCII space before the number). *)
Fixpoint digits_prefix (s : string) : string :=
  match s with String c r => if is_digit c then String c (digits_prefix r) else "" | EmptyString => "" end.
Fixpoint skip_space (s : string) : string :=
  match s with
  | String c r => if Ascii.eqb c " " || Ascii.eqb c "009" || Ascii.eqb c "011" || Ascii.eqb c "012" then skip_space r else s
  | EmptyString => ""
  end.
Definition Sscanf_d (s : string) : option Z :=
  match skip_space s with
  | String c r =>
      if Ascii.eqb c "-" then n ← unsigned (digits_prefix r); in_int64 (- n)
      else if Ascii.eqb c "+" then unsigned (digits_prefix r) ≫= in_int64
      else unsigned (digits_prefix (String c r)) ≫= in_int64
  | EmptyString => None
  end.
Fixpoint port_loop (args : list string) (port : Z) : Z :=
  match args with
  | a :: (v :: _ as rest) => port_loop rest (if String.eqb a "--port" then default port (Sscanf_d v) else port)
  | _ => port
  end.

(** ** Routing events: members as JSON text *)

(** The text after the first occurrence of [pat]. *)
Fixpoint after_first (pat s : string) : option string :=
  if HasPrefix s pat then Some (str_drop (String.length pat) s)
  else match s with EmptyString => None | String _ r => after_first pat r end.
Fixpoint skip_colon (s : string) : string :=
  match s with
  | String c r => if Ascii.eqb c " " || Ascii.eqb c ":" || Ascii.eqb c "009" then skip_colon r else s
  | EmptyString => ""
  end.
(** Up to the closing quote; a backslash takes the next byte with it, and the
    slice is out of range when there is none. *)
Fixpoint quoted (s : string) : outcome unit string :=
  match s with
  | EmptyString => Ok ""
  | String c r =>
      if Ascii.eqb c "034" then Ok ""
      else if Ascii.eqb c "\" then
        match r with
        | EmptyString => Panic
        | String d r' => t ← quoted r'; Ok (String c (String d t))
        end
      else t ← quoted r; Ok (String c t)
  end.
Definition quote_mark : string := String "034" "".
Definition extractJSONString (raw key : string) : outcome unit (option string) :=
  match after_first (quote_mark +:+ (key +:+ quote_mark)) raw with
  | None => Ok None
  | Some rest =>
      match skip_colon rest with
      | String c r => if Ascii.eqb c "034" then s ← quoted r; Ok (Some s) else Ok None
      | EmptyString => Ok None
      end
  end.
Definition extract_either (raw k1 k2 : string) : outcome unit (option string) :=
  extractJSONString raw k1 ≫= fun r => match r with Some s => Ok (Some s) | None => extractJSONString raw k2 end.
Definition parseMemberJSON (raw : string) : outcome unit (string * string) :=
  extract_either raw "endpoint_id" "EndpointID" ≫= fun ep =>
  extract_either raw "model" "Model" ≫= fun m =>
  match ep, m with
  | None, None => Ok (raw, "")
  | _, _ => Ok (default "" ep, default "" m)
  end.

(** ** The machine *)

Inductive Line :=
| Text (s : string)
| CredentialsBad (e : LocalError)
| ConfigBad (e : LocalError)
| ValidationFailed (e : LoadError).

Record World := {
  wd_disk : Disk; wd_ledger : option Ledger; wd_sent : list LPRequest; wd_out : list Line; wd_writes : nat }.

(** The answers of the machine: [m_write n] is the outcome of the n-th save
    (directory, file). *)
Record Machine := {
  m_home : option string; m_baseURL : string; m_hostname : option string; m_cwd : option string;
  m_pid : Z; m_now : Z; m_os : string; m_arch : string; m_semver : string; m_gitSHA : string;
  m_write : nat -> bool * WriteResult; m_open : OpenEnv; m_query : bool; m_listen : bool; m_serve : bool }.

Definition cmd (A : Type) : Type := World -> World * outcome CliError A.
#[export] Instance cmd_ret : MRet cmd := fun A a w => (w, Ok a).
#[export] Instance cmd_bind : MBind cmd := fun A B f m w =>
  match m w with
  | (w, Ok a) => f a w
  | (w, Err e) => (w, Err e)
  | (w, Panic) => (w, Panic)
  end.

Definition fail {A} (e : CliError) : cmd A := fun w => (w, Err e).
Definition lift {A} (o : outcome CliError A) : cmd A := fun w => (w, o).
(** A pure read of the state. *)
Definition reads {A} (f : World -> outcome CliError A) : cmd A := fun w => (w, f w).
Definition say (l : Line) : cmd unit := fun w =>
  ({| wd_disk := wd_disk w; wd_ledger := wd_ledger w; wd_sent := wd_sent w; wd_out := (wd_out w ++ [l])%list;
      wd_writes := wd_writes w |}, Ok tt).
Definition print (s : string) : cmd unit := say (Text s).
(** A call of the gateway client. *)
Definition net {A} (wrap : ClientError -> CliError) (f : list LPRequest -> list LPRequest * outcome ClientError A) : cmd A :=
  fun w => let '(sent, r) := f (wd_sent w) in
    ({| wd_disk := wd_disk w; wd_ledger := wd_ledger w; wd_sent := sent; wd_out := wd_out w; wd_writes := wd_writes w |},
     wrap_err wrap r).
(** A save in the home directory. *)
Definition saves (f : Disk -> Disk * outcome LocalError unit) : cmd unit := fun w =>
  let '(d, r) := f (wd_disk w) in
  ({| wd_disk := d; wd_ledger := wd_ledger w; wd_sent := wd_sent w; wd_out := wd_out w; wd_writes := S (wd_writes w) |},
   wrap_err SaveFailed r).

(** ** The commands *)

Section Commands.
Context {js : JSON} {jd : JSONDecoder} {lyml : LocalYaml} {sha : Sha256} {srt : SortRows}.
Context (validURL : string -> bool) (gw : list LPRequest -> LPRequest -> GwReply) (m : Machine).

Definition runVersion (_ : list string) : cmd unit := print (version_String (m_semver m) (m_gitSHA m)).

Definition computeMachineID : string :=
  sha256Hex (match m_hostname m with
             | Some h => if is_empty h then "unknown-host" else h
             | None => "unknown-host"
             end).

Definition loadCAPath (w : World) : string :=
  match LoadConfig (m_home m) (wd_disk w) with Ok c => lc_CAPath c | _ => "" end.

(** Credentials and the line to print. *)
Definition exchange (f : loginFlags) : cmd (Credentials * string) :=
  if negb (is_empty (lf_inviteToken f)) then
    net ExchangeInviteFailed (fun sent => ExchangeInvite validURL gw (NewClient (lf_gwURL f) "" (lf_caPath f)) sent
                                            (lf_inviteToken f) computeMachineID) ≫= fun r =>
    mret ({| cr_GwURL := lf_gwURL f; cr_UserID := ir_UserID r; cr_APIKey := ir_APIKey r; cr_TeamID := ir_TeamID r |},
          "Login successful as " +:+ (ir_UserID r +:+ (" (role=" +:+ (ir_Role r +:+ (", team=" +:+ (ir_TeamID r +:+ ")"))))))
  else
    net ExchangeSetupFailed (fun sent => ExchangeSetup validURL gw (NewClient (lf_gwURL f) "" (lf_caPath f)) sent
                                           (lf_setupToken f)) ≫= fun key =>
    mret ({| cr_GwURL := lf_gwURL f; cr_UserID := "platform_admin"; cr_APIKey := key; cr_TeamID := "" |},
          "Login successful. Credentials saved to ~/.aicg/credentials").

Definition save_creds (c : Credentials) : cmd unit := fun w =>
  let '(mkdir, res) := m_write m (wd_writes w) in saves (fun d => SaveCredentials (m_home m) d mkdir res c) w.
(** The result of the save is dropped. *)
Definition save_ca (ca : string) : cmd unit := fun w =>
  match LoadConfig (m_home m) (wd_disk w) with
  | Ok c =>
      let '(mkdir, res) := m_write m (wd_writes w) in
      let '(w, _) := saves (fun d => SaveConfig (m_home m) d mkdir res
                        {| lc_Port := lc_Port c; lc_GwURL := lc_GwURL c; lc_LogLevel := lc_LogLevel c; lc_CAPath := ca |}) w in
      (w, Ok tt)
  | _ => (w, Ok tt)
  end.

Definition runLogin (args : list string) : cmd unit :=
  f ← lift (parseLoginFlags (m_baseURL m) args);
  '(creds, line) ← exchange f;
  save_creds creds ≫= fun _ =>
  (if is_empty (lf_caPath f) then mret tt else save_ca (lf_caPath f)) ≫= fun _ =>
  print line.

(** [runStart]: the daemon that is started. *)
Record Daemon := { dm_addr : string; dm_client : Client; dm_env : Disk -> LPEnv }.

Definition start_plan (args : list string) (w : World) : outcome CliError Daemon :=
  wrap_err LoadConfigFailed (LoadConfig (m_home m) (wd_disk w)) ≫= fun cfg =>
  wrap_err LoadCredentialsFailed (LoadCredentials (m_home m) (wd_disk w)) ≫= fun creds =>
  let repoRoot := default "" (m_cwd m) in
  Ok {| dm_addr := "127.0.0.1:" +:+ pretty (port_loop args (lc_Port cfg));
        dm_client := NewClient (cr_GwURL creds) (cr_APIKey creds) (loadCAPath w);
        dm_env := fun d => {| lp_home := m_home m; lp_disk := d; lp_repoRoot := repoRoot;
                              lp_session := NewSession (m_pid m) (m_now m) repoRoot; lp_os := m_os m; lp_arch := m_arch m;
                              lp_semver := m_semver m; lp_gitSHA := m_gitSHA m |} |}.
Definition runStart (args : list string) : cmd unit :=
  p ← reads (start_plan args);
  (if m_listen m then mret tt else fail (ListenFailed (dm_addr p))) ≫= fun _ =>
  print ("LP daemon listening on http://" +:+ dm_addr p) ≫= fun _ =>
  if m_serve m then mret tt else fail ServeFailed.

Definition or_dash (s : string) : string := if is_empty s then "-" else s.
(** [t.Format("2006-01-02 15:04:05")] *)
Definition FormatDateTime (t : Z) : string :=
  let s := (t mod 86400)%Z in
  FormatDate (t / 86400) +:+ (" " +:+ (digits 2 (s / 3600) +:+ (":" +:+ (digits 2 ((s / 60) mod 60) +:+ (":" +:+ digits 2 (s mod 60)))))).

Definition trace_line (r : TraceRecord) : string :=
  "  " +:+ (pad_right 36 (truncate (tr_TraceID r) 36) +:+ (" " +:+ (pad_right 20 (truncate (or_dash (tr_Model r)) 20) +:+
  (" " +:+ (pad_right 12 (truncate (or_dash (tr_Provider r)) 12) +:+ (" " +:+ (pad_int 8 (tr_TokensIn r) +:+ (" " +:+
  (pad_int 8 (tr_TokensOut r) +:+ (" " +:+ (pad_int 7 (tr_CostCents r) +:+ ("¢ " +:+ FormatDateTime (tr_RecordedAt r))))))))))))).

Fixpoint print_all (l : list string) : cmd unit :=
  match l with [] => mret tt | s :: l => print s ≫= fun _ => print_all l end.

(** [ledger.Open] creates the table. *)
Definition open_ledger : cmd Ledger := fun w =>
  match Open (m_open m) (wd_ledger w) with
  | Ok l => ({| wd_disk := wd_disk w; wd_ledger := Some l; wd_sent := wd_sent w; wd_out := wd_out w;
                wd_writes := wd_writes w |}, Ok l)
  | Err e => (w, Err (OpenLedgerFailed e))
  | Panic => (w, Panic)
  end.

Definition runStatus (_ : list string) : cmd unit :=
  dir ← lift (wrap_err Local (HomeDir (m_home m)));
  l ← open_ledger;
  print "Local Proxy" ≫= fun _ =>
  print ("  Ledger: " +:+ (dir +:+ ("/traces.db" +:+ String newline ""))) ≫= fun _ =>
  recs ← lift (wrap_err ListRecentFailed (ListRecent (m_query m) l 5));
  print "Recent traces" ≫= fun _ =>
  match recs with
  | [] => print "  (no local traces yet)"
  | _ :: _ =>
      print ("  " +:+ (pad_right 36 "trace_id" +:+ (" " +:+ (pad_right 20 "model" +:+ (" " +:+ (pad_right 12 "provider" +:+
        (" " +:+ (pad_left 8 "in" +:+ (" " +:+ (pad_left 8 "out" +:+ (" " +:+ (pad_left 8 "cost" +:+ " recorded_at"))))))))))))
      ≫= fun _ => print_all (trace_line <$> recs)
  end.

(** The reply is dropped: nothing is saved in the repository. *)
Definition runBindRepo (_ : list string) : cmd unit :=
  creds ← reads (fun w => wrap_err Local (LoadCredentials (m_home m) (wd_disk w)));
  ca ← reads (fun w => Ok (loadCAPath w));
  net BindRepoFailed (fun sent => BindRepo validURL gw (NewClient (cr_GwURL creds) (cr_APIKey creds) ca) sent "local" "" "")
  ≫= fun _ => print "bind-repo: ok".

Definition runDoctor (_ : list string) : cmd unit := fun w =>
  let creds := LoadCredentials (m_home m) (wd_disk w) in
  let cfg := LoadConfig (m_home m) (wd_disk w) in
  let issues := ((if is_ok creds then 0 else 1) + (if is_ok cfg then 0 else 1))%Z in
  (say (match creds with Err e => CredentialsBad e | _ => Text "[ OK ] credentials: ~/.aicg/credentials exists" end) ≫= fun _ =>
   say (match cfg with Err e => ConfigBad e | _ => Text "[ OK ] config: ~/.aicg/config.yaml ok" end) ≫= fun _ =>
   print ("[INFO] version: " +:+ version_String (m_semver m) (m_gitSHA m)) ≫= fun _ =>
   if (0 <? issues)%Z then fail (Issues issues) else print "All checks passed.") w.

Definition runEnv (_ : list string) : cmd unit :=
  cfg ← reads (fun w => wrap_err Local (LoadConfig (m_home m) (wd_disk w)));
  print ("export ANTHROPIC_BASE_URL=http://127.0.0.1:" +:+ pretty (lc_Port cfg)) ≫= fun _ =>
  print "export ANTHROPIC_API_KEY=lp-noop".

Definition runStats (args : list string) : cmd unit :=
  opts ← lift (wrap_err StatsArgs (ParseStatsOptionsAt args (m_now m)));
  creds ← reads (fun w => wrap_err Local (LoadCredentials (m_home m) (wd_disk w)));
  ca ← reads (fun w => Ok (loadCAPath w));
  rows ← net StatsFailed (fun sent => GetCostSummary validURL gw (NewClient (cr_GwURL creds) (cr_APIKey creds) ca) sent
                                        (so_Dim opts) (so_From opts) (so_To opts));
  print (RenderStatsTable opts rows).

Context {pyml : Yaml} {cel : CEL}.

Definition validate_policy (filePath : string) : cmd unit :=
  data ← reads (fun w => wrap_err (fun _ => ReadPolicy) (disk_ReadFile (wd_disk w) filePath));
  match LoadAndValidate filePath data with
  | Ok _ => print ("Policy " +:+ (filePath +:+ ": valid"))
  | Err e => say (ValidationFailed e) ≫= fun _ => fail (PolicyInvalid e)
  | Panic => fun w => (w, Panic)
  end.
Definition runPolicyCtl (args : list string) : cmd unit :=
  match args with
  | [] => validate_policy "configs/policies/main.yaml"
  | a :: rest =>
      if String.eqb a "validate" then validate_policy (match rest with f :: _ => f | [] => "configs/policies/main.yaml" end)
      else fail PolicyUsage
  end.

(** The last [replay] with a value counts. *)
Fixpoint replay_loop (args : list string) (traceID : string) : string :=
  match args with
  | [] => traceID
  | a :: rest =>
      if String.eqb a "replay" then match rest with v :: rest' => replay_loop rest' v | [] => traceID end
      else replay_loop rest traceID
  end.

Definition event_line (ev : RoutingEvent) : cmd unit := fun w =>
  match parseMemberJSON (re_MemberJSON ev) with
  | Ok (epID, model) =>
      print ("  " +:+ (pad_right 8 (pretty (re_AttemptNo ev)) +:+ (" " +:+ (pad_right 12 (truncate (re_Pool ev) 12) +:+ (" " +:+
        (pad_right 24 (truncate epID 24) +:+ (" " +:+ truncate model 30))))))) w
  | _ => (w, Panic)
  end.
Fixpoint event_lines (evs : list RoutingEvent) : cmd unit :=
  match evs with [] => mret tt | ev :: evs => event_line ev ≫= fun _ => event_lines evs end.

Definition runRoutingCtl (args : list string) : cmd unit :=
  match args with
  | [] => fail RoutingUsage
  | _ :: _ =>
      let traceID := replay_loop args "" in
      if is_empty traceID then fail TraceIDRequired
      else
        creds ← reads (fun w => wrap_err Local (LoadCredentials (m_home m) (wd_disk w)));
        ca ← reads (fun w => Ok (loadCAPath w));
        events ← net RoutingFailed (fun sent => GetRoutingEvents validURL gw (NewClient (cr_GwURL creds) (cr_APIKey creds) ca) sent traceID);
        print "Routing Replay" ≫= fun _ =>
        print ("  trace_id: " +:+ (traceID +:+ String newline "")) ≫= fun _ =>
        match events with
        | [] => print "  (no events found)"
        | _ :: _ =>
            print ("  " +:+ (pad_right 8 "attempt" +:+ (" " +:+ (pad_right 12 "pool" +:+ (" " +:+ (pad_right 24 "endpoint_id" +:+ " model"))))))
            ≫= fun _ => event_lines events
        end
  end.

(** [t.Format(time.RFC3339)] in the zone of the time. *)
Definition FormatTime (t : GoTime) : string :=
  let text := FormatRFC3339 (gt_sec t + gt_off t) in
  if (gt_off t =? 0)%Z then text
  else let o := (Z.abs (gt_off t) / 60)%Z in
       str_take (String.length text - 1) text +:+ ((if (gt_off t <? 0)%Z then "-" else "+") +:+
         (digits 2 (o / 60) +:+ (":" +:+ digits 2 (o mod 60)))).

Definition runAdminInvite (args : list string) : cmd unit :=
  f ← lift (parseAdminInviteFlags args);
  creds ← reads (fun w => wrap_err LoadCredentialsFailed (LoadCredentials (m_home m) (wd_disk w)));
  ca ← reads (fun w => Ok (loadCAPath w));
  r ← net CreateInviteFailed (fun sent => CreateInvite validURL gw (NewClient (cr_GwURL creds) (cr_APIKey creds) ca) sent
                                            (af_user f) (af_team f) (af_role f) (af_ttl f));
  print ("Invite created. Token (single use, expires " +:+ (FormatTime (ci_ExpiresAt r) +:+ ("):" +:+ (String newline "" +:+
    ci_InviteToken r)))).

Definition runAdmin (args : list string) : cmd unit :=
  match args with
  | [] => fail AdminUsage
  | a :: rest => if String.eqb a "invite" then runAdminInvite rest else fail (UnknownAdmin a)
  end.

(** ** Dispatch *)

(** [Registry], filled by [init]. *)
Definition Registry (name : string) : option (list string -> cmd unit) :=
  if String.eqb name "version" then Some runVersion
  else if String.eqb name "login" then Some runLogin
  else if String.eqb name "start" then Some runStart
  else if String.eqb name "status" then Some runStatus
  else if String.eqb name "bind-repo" then Some runBindRepo
  else if String.eqb name "doctor" then Some runDoctor
  else if String.eqb name "env" then Some runEnv
  else if String.eqb name "stats" then Some runStats
  else if String.eqb name "policyctl" then Some runPolicyCtl
  else if String.eqb name "routingctl" then Some runRoutingCtl
  else if String.eqb name "admin" then Some runAdmin
  else None.

(** The usage text on stderr is not part of the state. *)
Definition Dispatch (args : list string) : cmd unit :=
  match args with
  | _ :: name :: rest => match Registry name with Some run => run rest | None => fail (UnknownCommand name) end
  | _ => fail NoCommand
  end.
(** cmd/aicg-lp/main.go: the exit status. *)
Definition lp_main (args : list string) (w : World) : World * Z :=
  let '(w, r) := Dispatch args w in (w, match r with Ok _ => 0 | Err _ => 1 | Panic => 2 end)%Z.
End Commands.

(** ** Lemmas *)

Lemma cmd_bind_ok {A B} (c : cmd A) (f : A -> cmd B) w w1 a : c w = (w1, Ok a) -> (c ≫= f) w = f a w1.
Proof. intros H. unfold mbind, cmd_bind. by rewrite H. Qed.
Lemma cmd_bind_err {A B} (c : cmd A) (f : A -> cmd B) w w1 e : c w = (w1, Err e) -> (c ≫= f) w = (w1, Err e).
Proof. intros H. unfold mbind, cmd_bind. by rewrite H. Qed.

Section Facts.
Context {js : JSON} {jd : JSONDecoder} {lyml : LocalYaml} {sha : Sha256} {srt : SortRows} {pyml : Yaml} {cel : CEL}.
Context (validURL : string -> bool) (gw : list LPRequest -> LPRequest -> GwReply) (m : Machine) (hs : list string).
Hypothesis m_home_abs : m_home m = Some (abs_path hs).
Hypothesis home_good : Forall good hs.

Lemma net_disk {A} wrap (f : list LPRequest -> list LPRequest * outcome ClientError A) w :
  wd_disk (net wrap f w).1 = wd_disk w /\ wd_writes (net wrap f w).1 = wd_writes w.
Proof. unfold net. by destruct (f (wd_sent w)). Qed.

(** Talking to the gateway writes nothing on the disk. *)
Lemma exchange_disk f w : wd_disk (exchange validURL gw m f w).1 = wd_disk w.
Proof.
  unfold exchange. destruct (negb _); unfold mbind, cmd_bind;
    match goal with |- context [net ?a ?b w] => pose proof (net_disk a b w) as [Hd _]; destruct (net a b w) as [w1 [r| |]] end;
    by rewrite <- Hd.
Qed.

(** A disk on which both files of the home directory can be read. *)
Definition readable (d : Disk) : Prop := home_file hs "credentials" ∉ unreadable d.

Lemma good_names : good "credentials" /\ good "config.yaml".
Proof. by repeat split. Qed.

Lemma save_creds_load c w : readable (wd_disk w) -> cr_APIKey c <> "" -> m_write m (wd_writes w) = (true, Written) ->
  exists w', save_creds m c w = (w', Ok tt) /\ LoadCredentials (m_home m) (wd_disk w') = Ok c /\
    LoadConfig (m_home m) (wd_disk w') = LoadConfig (m_home m) (wd_disk w) /\ unreadable (wd_disk w') = unreadable (wd_disk w).
Proof.
  intros Hr Hk Hw. unfold save_creds. rewrite Hw. unfold saves. rewrite m_home_abs.
  destruct (LoadCredentials_saved hs (wd_disk w) c home_good Hk Hr) as (d' & Hs & Hl & Hc). rewrite Hs.
  eexists. split; [reflexivity|]. cbn [wd_disk]. split; [exact Hl|]. split; [exact Hc|].
  unfold SaveCredentials, save in Hs. cbn in Hs. by simplify_eq.
Qed.

(** Saving the certificate path leaves the credentials alone. *)
Lemma save_ca_load ca w cfg : LoadConfig (m_home m) (wd_disk w) = Ok cfg -> m_write m (wd_writes w) = (true, Written) ->
  exists w' cfg', save_ca m ca w = (w', Ok tt) /\
    LoadCredentials (m_home m) (wd_disk w') = LoadCredentials (m_home m) (wd_disk w) /\
    LoadConfig (m_home m) (wd_disk w') = Ok cfg' /\ lc_Port cfg' = lc_Port cfg.
Proof.
  intros Hc Hw. unfold save_ca. rewrite Hc, Hw. unfold saves. rewrite m_home_abs in *. destruct good_names as [Gc Gf].
  set (new := {| lc_Port := _ |}).
  assert (disk_ReadFile (wd_disk w) (home_file hs "config.yaml") <> Err (Denied (home_file hs "config.yaml"))) as Hread.
  { intros Hd. unfold LoadConfig, HomeDir in Hc. cbn [mbind outcome_bind] in Hc.
    rewrite Join_home in Hc by done. by rewrite Hd in Hc. }
  assert (home_file hs "config.yaml" ∉ unreadable (wd_disk w)) as Hun.
  { intros Hin. apply Hread. unfold disk_ReadFile. by rewrite bool_decide_eq_true_2. }
  assert (lc_Port cfg <> 0%Z) as Hp.
  { unfold LoadConfig in Hc. cbn in Hc. destruct (disk_ReadFile _ _) as [data|[]|]; simplify_eq/=; [|done].
    destruct (yaml_config data); simplify_eq/=. by case_match; [|apply Z.eqb_neq]. }
  unfold SaveConfig, save, HomeDir. cbn [negb mbind outcome_bind].
  eexists _, new. split; [reflexivity|]. cbn [wd_disk].
  unfold LoadCredentials, LoadConfig, HomeDir. cbn [mbind outcome_bind]. rewrite !Join_home by done.
  unfold disk_ReadFile. cbn [files unreadable disk_WriteFile fst]. rewrite lookup_insert_eq, lookup_insert_ne
    by (intros H; by apply home_file_inj in H). rewrite (bool_decide_eq_false_2 _ Hun).
  split; [done|]. rewrite config_read_back. unfold new. cbn [lc_Port].
  destruct (Z.eqb_spec (lc_Port cfg) 0); [done|]. done.
Qed.

Lemma exchange_gwURL f w w1 c line : exchange validURL gw m f w = (w1, Ok (c, line)) -> cr_GwURL c = lf_gwURL f.
Proof.
  unfold exchange. destruct (negb _); unfold mbind, cmd_bind;
    match goal with |- context [net ?a ?b w] => destruct (net a b w) as [w2 [r| |]] end; intros H;
    unfold mret, cmd_ret in H; by simplify_eq.
Qed.

(** Saving sends nothing. *)
Lemma save_sent c ca w : wd_sent (save_creds m c w).1 = wd_sent w /\ wd_sent (save_ca m ca w).1 = wd_sent w.
Proof.
  unfold save_creds, save_ca, saves. split.
  - destruct (m_write m _). by destruct (SaveCredentials _ _ _ _ _).
  - destruct (LoadConfig _ _); [|done..]. destruct (m_write m _). by destruct (SaveConfig _ _ _ _ _).
Qed.

(** A login whose exchange succeeded: what is on the disk afterwards. *)
Lemma runLogin_ok args f w w1 c line cfg :
  (forall n, m_write m n = (true, Written)) -> readable (wd_disk w) -> LoadConfig (m_home m) (wd_disk w) = Ok cfg ->
  parseLoginFlags (m_baseURL m) args = Ok f -> exchange validURL gw m f w = (w1, Ok (c, line)) -> cr_APIKey c <> "" ->
  exists w' cfg', runLogin validURL gw m args w = (w', Ok tt) /\ LoadCredentials (m_home m) (wd_disk w') = Ok c /\
    LoadConfig (m_home m) (wd_disk w') = Ok cfg' /\ last (wd_out w') = Some (Text line) /\ wd_sent w' = wd_sent w1.
Proof.
  intros Hw Hr Hcfg Hf He Hk.
  assert (wd_disk w1 = wd_disk w) as Hd1 by (by rewrite <- (exchange_disk f w), He).
  destruct (save_creds_load c w1) as (w2 & Hs & Hl & Hc & _); [by rewrite Hd1|done|by rewrite Hw|]. rewrite Hd1, Hcfg in Hc.
  assert (exists w3 cfg3, (if is_empty (lf_caPath f) then mret tt else save_ca m (lf_caPath f)) w2 = (w3, Ok tt) /\
    LoadCredentials (m_home m) (wd_disk w3) = Ok c /\ LoadConfig (m_home m) (wd_disk w3) = Ok cfg3 /\ wd_sent w3 = wd_sent w2)
    as (w3 & cfg3 & H3 & Hl3 & Hc3 & Hs3).
  { destruct (is_empty (lf_caPath f)); [by exists w2, cfg|]. pose proof (save_sent c (lf_caPath f) w2) as [_ Hsent].
    destruct (save_ca_load (lf_caPath f) w2 cfg) as (w3 & cfg3 & Hs3 & Hl3 & Hc3 & _); [done|by rewrite Hw|].
    exists w3, cfg3. rewrite Hs3 in Hsent. by rewrite Hl3. }
  assert (runLogin validURL gw m args w = print line w3) as ->.
  { unfold runLogin. rewrite (cmd_bind_ok _ _ w w f) by (unfold lift; by rewrite Hf).
    rewrite (cmd_bind_ok _ _ w w1 (c, line)) by done. rewrite (cmd_bind_ok _ _ w1 w2 tt) by done.
    by rewrite (cmd_bind_ok _ _ w2 w3 tt). }
  eexists _, cfg3. split; [reflexivity|]. cbn [wd_disk wd_out wd_sent]. rewrite last_snoc, Hs3.
  pose proof (save_sent c "" w1) as [Hsent _]. by rewrite Hs in Hsent.
Qed.

Lemma start_plan_ok args w c cfg : LoadConfig (m_home m) (wd_disk w) = Ok cfg -> LoadCredentials (m_home m) (wd_disk w) = Ok c ->
  exists d, start_plan m args w = Ok d /\ dm_client d = {| cl_GwURL := cr_GwURL c; cl_APIKey := cr_APIKey c |}.
Proof.
  intros Hc Hl. unfold start_plan. rewrite Hc, Hl. cbn [wrap_err mbind outcome_bind]. eexists. split; [reflexivity|done].
Qed.

(** Login makes the proxy work: when the gateway has handed out a key and
    the home directory can be written, [aicg login] succeeds, what it saved is
    what is loaded afterwards, and the daemon that [aicg start] runs next talks
    to that gateway with that key. *)
Theorem login_then_start args startArgs f w w1 c line cfg :
  (forall n, m_write m n = (true, Written)) -> readable (wd_disk w) -> LoadConfig (m_home m) (wd_disk w) = Ok cfg ->
  parseLoginFlags (m_baseURL m) args = Ok f -> exchange validURL gw m f w = (w1, Ok (c, line)) -> cr_APIKey c <> "" ->
  exists w' d, runLogin validURL gw m args w = (w', Ok tt) /\ LoadCredentials (m_home m) (wd_disk w') = Ok c /\
    start_plan m startArgs w' = Ok d /\ dm_client d = {| cl_GwURL := lf_gwURL f; cl_APIKey := cr_APIKey c |} /\
    last (wd_out w') = Some (Text line).
Proof.
  intros Hw Hr Hcfg Hf He Hk.
  destruct (runLogin_ok args f w w1 c line cfg) as (w' & cfg' & Hrun & Hl & Hc & Ho & _); [done..|].
  destruct (start_plan_ok startArgs w' c cfg' Hc Hl) as (d & Hd & Hcl).
  exists w', d. split_and!; [done|done|done| |done]. by rewrite Hcl, (exchange_gwURL f w w1 c line).
Qed.

(** A login that fails before saving, because of its flags or because the
    gateway refused the token or could not be reached, leaves every file as it
    was. *)
Theorem failed_login_keeps_files args w w' e :
  runLogin validURL gw m args w = (w', Err e) -> (forall x, e <> SaveFailed x) -> wd_disk w' = wd_disk w.
Proof.
  unfold runLogin. destruct (parseLoginFlags (m_baseURL m) args) as [f|e'|] eqn:Hf;
    [rewrite (cmd_bind_ok _ _ w w f) by done
    |rewrite (cmd_bind_err _ _ w w e') by done; by intros [= <- _]
    |unfold mbind, cmd_bind, lift; by intros [=]].
  pose proof (exchange_disk f w) as Hd. destruct (exchange validURL gw m f w) as [w1 [[c line]|e1|]] eqn:He;
    [rewrite (cmd_bind_ok _ _ w w1 (c, line)) by done
    |rewrite (cmd_bind_err _ _ w w1 e1) by done; by intros [= <- _]
    |unfold mbind, cmd_bind; rewrite He; by intros [=]].
  unfold mbind, cmd_bind. destruct (save_creds m c w1) as [w2 [[]|e2|]] eqn:Hs; [|intros [= <- <-] Hno|done].
  - destruct (is_empty (lf_caPath f)); cbn; [by intros [=]|]. unfold save_ca.
    destruct (LoadConfig _ _); [|by intros [=]..]. destruct (m_write m _), (saves _ _). by intros [=].
  - exfalso. unfold save_creds, saves in Hs. destruct (m_write m (wd_writes w1)) as [mk wr].
    destruct (SaveCredentials _ _ _ _ _) as [d [[]| |]]; cbn in Hs; simplify_eq. by eapply Hno.
Qed.
End Facts.

(** ** Invite flags *)

Lemma invite_loop_ttl args f f' : invite_loop args f = Ok f' ->
  (af_ttlSet f = false -> af_ttl f = (24 * Hour)%Z) -> af_ttlSet f' = false -> af_ttl f' = (24 * Hour)%Z.
Proof.
  remember (length args) as n eqn:Hn. revert args f Hn. induction n as [n IH] using lt_wf_ind. intros [|a rest] f Hn.
  { by intros [= <-]. }
  cbn [invite_loop]. intros H Hf.
  assert (forall v rest' g, rest = v :: rest' -> invite_loop rest' g = Ok f' -> (af_ttlSet g = false -> af_ttl g = (24 * Hour)%Z) ->
    af_ttlSet f' = false -> af_ttl f' = (24 * Hour)%Z) as Hrec.
  { intros v rest' g -> Hg Hg'. eapply (IH (length rest')); [subst n; cbn; lia|done|exact Hg|exact Hg']. }
  repeat case_match; simplify_eq; apply bind_ok in H as (g & Hg & Hl); repeat case_match; simplify_eq;
    by eapply Hrec; [reflexivity|exact Hl|].
Qed.

(** Accepted invite flags name a role, a team and a user, and the life
    time is more than zero and at most 720 hours, 24 hours when not given; the
    whole hours that are sent to the gateway are between 0 and 720, and 0
    exactly for a life time under one hour. *)
Theorem admin_invite_flags_bounds args f : parseAdminInviteFlags args = Ok f ->
  af_role f <> "" /\ af_team f <> "" /\ af_user f <> "" /\ (0 < af_ttl f <= 720 * Hour)%Z /\
  (0 <= Z.quot (af_ttl f) Hour <= 720)%Z /\ (Z.quot (af_ttl f) Hour = 0 <-> af_ttl f < Hour)%Z.
Proof.
  unfold parseAdminInviteFlags. intros H. apply bind_ok in H as (g & Hg & H).
  apply bind_reject_ok in H as [H1 H]. apply bind_reject_ok in H as [H2 H]. apply bind_reject_ok in H as [H3 H].
  apply bind_reject_ok in H as [H4 H]. apply bind_reject_ok in H as [H5 H]. simplify_eq.
  apply is_empty_false in H1, H2, H3.
  assert (0 < af_ttl f <= 720 * Hour)%Z as Hb.
  { destruct (af_ttlSet f) eqn:Hs; cbn [andb] in H4, H5; [apply Z.leb_gt in H4; apply Z.ltb_ge in H5; lia|].
    rewrite (invite_loop_ttl _ _ _ Hg (fun _ => eq_refl) Hs). unfold Hour. lia. }
  rewrite Z.quot_div_nonneg by (unfold Hour; lia).
  pose proof (Z.div_mod (af_ttl f) Hour). pose proof (Z.mod_pos_bound (af_ttl f) Hour). unfold Hour in *. split_and!; try done; lia.
Qed.

Lemma admin_invite_flags_bounds_witness :
  exists f, parseAdminInviteFlags ["--role"; "developer"; "--team"; "core"; "--user"; "ann"; "--ttl"; "90m"] = Ok f /\
    af_user f <> "" /\ (0 < af_ttl f <= 720 * Hour)%Z.
Proof.
  eexists. split; [vm_compute; reflexivity|].
  match goal with |- af_user ?f <> _ /\ _ =>
    destruct (admin_invite_flags_bounds ["--role"; "developer"; "--team"; "core"; "--user"; "ann"; "--ttl"; "90m"] f)
      as (_ & _ & H & Ht & _); [vm_compute; reflexivity|by split] end.
Defined.

(** ** A login *)

Module Sample.
Definition reply : json :=
  JObj [("api_key", JStr "k1"); ("role", JStr "developer"); ("team_id", JStr "core"); ("user_id", JStr "ann")].
Definition gateway (_ : list LPRequest) (_ : LPRequest) : GwReply :=
  Replied 200 ∅ [(@printJSON coded_json reply, None)].
Definition machine : Machine :=
  {| m_home := Some "/home/ann"; m_baseURL := ""; m_hostname := Some "box"; m_cwd := Some "/home/ann/shop"; m_pid := 7;
     m_now := 0; m_os := "linux"; m_arch := "amd64"; m_semver := "0.1.0"; m_gitSHA := "unknown";
     m_write := fun _ => (true, Written); m_open := {| mkdir_ok := true; sql_ok := true; migrate_ok := true |};
     m_query := true; m_listen := true; m_serve := true |}.
Definition world : World :=
  {| wd_disk := {| files := ∅; unreadable := ∅ |}; wd_ledger := None; wd_sent := []; wd_out := []; wd_writes := 0 |}.
Definition args : list string := ["--gateway"; "http://gw"; "--invite"; "tok"].
Definition flags : loginFlags := {| lf_setupToken := ""; lf_inviteToken := "tok"; lf_gwURL := "http://gw"; lf_caPath := "" |}.
Definition creds : Credentials := {| cr_GwURL := "http://gw"; cr_UserID := "ann"; cr_APIKey := "k1"; cr_TeamID := "core" |}.
End Sample.

Lemma sample_call (sent : list LPRequest) (q : LPRequest) {T} (d : decoder T) zero x what :
  d Sample.reply zero = Some x ->
  @call coded_json coded_decoder (fun _ => true) Sample.gateway T sent q what (Some 200%Z) true d zero =
  ((sent ++ [q])%list, Ok x).
Proof.
  intros Hd. unfold call, do_request, Sample.gateway. cbn [negb ReadAll fst]. change (negb (200 =? 200)%Z) with false.
  cbn iota. unfold coded_decoder, firstJSON. rewrite str_app_nil_r, coded_json_read_back. cbn [mbind option_bind]. by rewrite Hd.
Qed.

Lemma login_then_start_witness :
  exists w' d, @runLogin coded_json coded_decoder coded_yaml sample_sha (fun _ => true) Sample.gateway Sample.machine
      Sample.args Sample.world = (w', Ok tt) /\
    @start_plan coded_yaml sample_sha Sample.machine [] w' = Ok d /\
    dm_client d = {| cl_GwURL := "http://gw"; cl_APIKey := "k1" |}.
Proof.
  destruct (@login_then_start coded_json coded_decoder coded_yaml sample_sha (fun _ => true) Sample.gateway Sample.machine
    ["home"; "ann"] eq_refl ltac:(by repeat constructor) Sample.args [] Sample.flags Sample.world
    {| wd_disk := wd_disk Sample.world; wd_ledger := None;
       wd_sent := [{| q_Method := "POST"; q_URL := "http://gw/api/v1/lp/exchange-invite"; q_Query := []; q_Authorization := None;
                      q_JSON := true; q_Body := Some (@printJSON coded_json (JObj [("invite_token", JStr "tok");
                        ("machine_id", JStr (@computeMachineID sample_sha Sample.machine))])) |}];
       wd_out := []; wd_writes := 0 |}
    Sample.creds "Login successful as ann (role=developer, team=core)" DefaultConfig)
    as (w' & d & Hr & _ & Hs & Hc & _); [done|by unfold readable; set_solver|done|done| |done|].
  - unfold exchange. cbn [Sample.flags lf_inviteToken is_empty negb lf_gwURL lf_caPath]. unfold mbind, cmd_bind, net, ExchangeInvite.
    cbn [wd_sent Sample.world]. rewrite (sample_call [] _ _ _ {| ir_APIKey := "k1"; ir_UserID := "ann"; ir_Role := "developer"; ir_TeamID := "core" |}); done.
  - exists w', d. done.
Defined.

Lemma failed_login_keeps_files_witness :
  wd_disk (@runLogin coded_json coded_decoder coded_yaml sample_sha (fun _ => false) Sample.gateway Sample.machine
    Sample.args Sample.world).1 = wd_disk Sample.world.
Proof.
  apply (@failed_login_keeps_files coded_json coded_decoder coded_yaml sample_sha (fun _ => false) Sample.gateway Sample.machine
    Sample.args Sample.world _ (ExchangeInviteFailed CreateRequest)); done.
Defined.
