(* ===== verification/RepoBinding.v ===== *)
(** * Repository bindings at the gateway

    [internal/gw/repobinding/repobinding.go]: the verifier of ed25519-signed
    binding headers and its middleware.  The signature scheme is the class
    [Ed25519], of which only the lengths are assumed; [encoding/hex] is
    defined here. *)

From Stdlib Require Import Ascii.
From stdpp Require Import sorting base gmap strings fin_maps numbers list.
From S2P Require Import Prelude Edge.
Local Open Scope string_scope.

(** ** encoding/hex *)

Definition hex_nibble (c : ascii) : option Z :=
  let n := Z.of_N (N_of_ascii c) in
  if ((48 <=? n) && (n <=? 57))%Z then Some (n - 48)%Z
  else if ((97 <=? n) && (n <=? 102))%Z then Some (n - 87)%Z
  else if ((65 <=? n) && (n <=? 70))%Z then Some (n - 55)%Z
  else None.

Fixpoint DecodeString (s : string) : option (list Z) :=
  match s with
  | EmptyString => Some []
  | String a (String b r) =>
      hi ← hex_nibble a; lo ← hex_nibble b; bs ← DecodeString r; Some ((16 * hi + lo)%Z :: bs)
  | String _ EmptyString => None
  end.

Class Ed25519 := {
  ed_Verify : list Z -> string -> list Z -> bool;
  ed_Verify_length pk msg sig : ed_Verify pk msg sig = true -> length sig = 64 }.

Definition PublicKeySize : nat := 32.

Record Verifier := { PublicKey : list Z }.

Inductive BindingError := DecodePublicKey | BadKeySize (n : nat) | DecodeSignature | VerifyFailed.

Definition NewVerifier (pubKeyHex : string) : outcome BindingError Verifier :=
  match DecodeString pubKeyHex with
  | None => Err DecodePublicKey
  | Some key => reject (negb (length key =? PublicKeySize)%nat) (BadKeySize (length key)) ≫= fun _ =>
                Ok {| PublicKey := key |}
  end.

(** ** The header *)

Definition splitComma (s : string) : list string := split_pieces "," s.
Definition splitEqual (s : string) : list string :=
  match split_at "=" s with Some (k, v) => [k; v] | None => [s] end.

Definition binding_part (m : gmap string string) (part : string) : gmap string string :=
  match splitEqual part with [k; v] => <[k := v]> m | _ => m end.
Definition parseBinding (s : string) : gmap string string := fold_left binding_part (splitComma s) ∅.
(** [m[k]] of a missing key is the empty string. *)
Definition get (m : gmap string string) (k : string) : string := default "" (m !! k).

(** What the middleware does with a request: hand it on, with the verified
    repository id if there is one, or refuse it with status 403. *)
Inductive BindingResult := PassOn (repoID : option string) | Refused (msg : string).

Section Verify.
Context {ed : Ed25519}.

Definition binding_message (repoID machineID : string) : string := repoID +:+ (":" +:+ machineID).

(** [ed25519.Verify] panics on a key of the wrong length. *)
Definition Verify (v : Verifier) (repoID machineID signature : string) : outcome BindingError unit :=
  match DecodeString signature with
  | None => Err DecodeSignature
  | Some sig =>
      if negb (length (PublicKey v) =? PublicKeySize)%nat then Panic
      else reject (negb (ed_Verify (PublicKey v) (binding_message repoID machineID) sig)) VerifyFailed
  end.

Definition Binding_Middleware (v : Verifier) (binding : string) : outcome unit BindingResult :=
  if is_empty binding then Ok (PassOn None)
  else let parsed := parseBinding binding in
       let repoID := get parsed "repo_id" in
       let machineID := get parsed "machine_id" in
       let sig := get parsed "sig" in
       if is_empty repoID || is_empty machineID || is_empty sig then Ok (Refused "incomplete binding header")
       else match Verify v repoID machineID sig with
            | Ok _ => Ok (PassOn (Some repoID))
            | Err _ => Ok (Refused "binding signature verification failed")
            | Panic => Panic
            end.
Definition GetBindingRepoID (r : BindingResult) : string :=
  match r with PassOn (Some id) => id | _ => "" end.

(** ** Lemmas *)

Definition binding_header (repoID machineID sig : string) : string :=
  ("repo_id=" +:+ repoID) +:+ String "," (("machine_id=" +:+ machineID) +:+ String "," ("sig=" +:+ sig)).

Lemma binding_part_key m k v : free_of "=" k = true -> binding_part m (k +:+ String "=" v) = <[k := v]> m.
Proof. intros Hk. unfold binding_part, splitEqual. by rewrite split_at_join. Qed.

Lemma parse_header repoID machineID sig :
  free_of "," repoID = true -> free_of "," machineID = true -> free_of "," sig = true ->
  parseBinding (binding_header repoID machineID sig) =
  <["sig" := sig]> (<["machine_id" := machineID]> (<["repo_id" := repoID]> ∅)).
Proof.
  intros Hr Hm Hs. unfold parseBinding, splitComma, binding_header.
  rewrite split_pieces_app by (by rewrite free_of_app, Hr). rewrite split_pieces_app by (by rewrite free_of_app, Hm).
  rewrite split_pieces_free by (try (by rewrite free_of_app, Hs); done). cbn [fold_left].
  change ("repo_id=" +:+ repoID) with ("repo_id" +:+ String "=" repoID).
  change ("machine_id=" +:+ machineID) with ("machine_id" +:+ String "=" machineID).
  change ("sig=" +:+ sig) with ("sig" +:+ String "=" sig). by rewrite !binding_part_key.
Qed.

Lemma NewVerifier_size hex v : NewVerifier hex = Ok v -> length (PublicKey v) = PublicKeySize.
Proof.
  unfold NewVerifier. destruct (DecodeString hex) as [key|]; [|done]. intros [Hl H]%bind_reject_ok. simplify_eq.
  apply negb_false_iff, Nat.eqb_eq in Hl. done.
Qed.

Lemma Verify_ok v repoID machineID signature : length (PublicKey v) = PublicKeySize ->
  Verify v repoID machineID signature = Ok tt <->
  exists sig, DecodeString signature = Some sig /\ ed_Verify (PublicKey v) (binding_message repoID machineID) sig = true.
Proof.
  intros Hl. unfold Verify. rewrite Hl, Nat.eqb_refl. cbn [negb].
  destruct (DecodeString signature) as [sig|]; [|naive_solver]. rewrite reject_ok, negb_false_iff. naive_solver.
Qed.

(** The message does not say where the repository id ends. *)
Lemma Verify_ambiguous v a b c signature : Verify v (a +:+ (":" +:+ b)) c signature = Verify v a (b +:+ (":" +:+ c)) signature.
Proof. unfold Verify, binding_message. by rewrite !str_app_assoc. Qed.

(** ** Properties *)

Lemma Verify_no_panic v repoID machineID signature :
  length (PublicKey v) = PublicKeySize -> Verify v repoID machineID signature <> Panic.
Proof. intros Hl. unfold Verify. rewrite Hl, Nat.eqb_refl. cbn [negb]. no_panic. Qed.

(** The header says which repository and machine it is for, and carries a
    signature of that pair. *)
Definition signed (v : Verifier) (binding repoID : string) : Prop :=
  let parsed := parseBinding binding in
  let machineID := get parsed "machine_id" in
  get parsed "repo_id" = repoID /\ repoID <> "" /\ machineID <> "" /\ get parsed "sig" <> "" /\
  exists bytes, DecodeString (get parsed "sig") = Some bytes /\ length bytes = 64 /\
    ed_Verify (PublicKey v) (binding_message repoID machineID) bytes = true.

(** The fields of a header in the documented format. *)
Lemma header_fields repoID machineID sig :
  free_of "," repoID = true -> free_of "," machineID = true -> free_of "," sig = true ->
  let parsed := parseBinding (binding_header repoID machineID sig) in
  get parsed "repo_id" = repoID /\ get parsed "machine_id" = machineID /\ get parsed "sig" = sig.
Proof.
  intros Fr Fm Fs parsed. unfold parsed. rewrite parse_header by done. unfold get.
  repeat first [rewrite lookup_insert_eq | rewrite lookup_insert_ne by done]. done.
Qed.

End Verify.

(** ** A concrete scheme *)

(** Signatures are 64 bytes that start with the key's first byte. *)
Definition sample_ed : Ed25519.
Proof.
  refine {| ed_Verify pk msg sig := bool_decide (length sig = 64 /\ head sig = head pk) |}.
  intros pk msg sig H. apply bool_decide_eq_true in H. apply H.
Defined.
Fixpoint repeat_str (n : nat) (s : string) : string := match n with O => "" | S n => s +:+ repeat_str n s end.
Definition sample_key_hex : string := repeat_str 32 "ab".

