(* ===== verification/Storage.v ===== *)
(** * The gateway's tables

    The Postgres writers [internal/gw/audit/pg_writer.go],
    [internal/gw/cost/pg_writer.go], [internal/gw/routing/event_writer.go] and
    [internal/gw/rawstore/metadata.go]; the in-memory audit writer of
    [internal/gw/audit/writer.go]; [internal/gw/db] pool.go and migrate.go.

    A table is the list of its rows in insertion order.  An insert is refused
    when a value does not fit its column (the types and keys of
    [internal/gw/db/migrations]), and otherwise succeeds unless the database
    answers an error ([ok]); the column types are those of [Postgres]. *)

From Stdlib Require Import Ascii.
From stdpp Require Import sorting base gmap strings fin_maps numbers pretty list.
From S2P Require Import Prelude Postgres GoData Config Cost Edge Handlers Json.
Local Open Scope string_scope.

(** ** Rows *)

Record AuditRow := { ar_trace : string; ar_event : Event }.
Record CostRow := {
  co_event_at : Z; co_trace : string; co_attempt : Z; co_tenant : string; co_user : string; co_team : string;
  co_repo : string; co_task : string; co_rule : string; co_event : CostEvent; co_latency : Z; co_success : bool;
  co_errorClass : string }.
Record RoutingRow := {
  ro_event_at : Z; ro_trace : string; ro_attempt : Z; ro_tenant : string; ro_decision : json; ro_pool : string;
  ro_member : option json; ro_fallback : option json; ro_degraded : list string; ro_breaker : string; ro_seed : list Z }.
Record RawRow := {
  rw_trace : string; rw_tenant : string; rw_user : string; rw_team : string; rw_repo : string; rw_sensitivity : string;
  rw_policy : string; rw_expires : Z }.

Record Tables := {
  audit_event : list AuditRow; cost_event : list CostRow; routing_event : list RoutingRow; raw_record : list RawRow }.
Definition empty_tables : Tables := {| audit_event := []; cost_event := []; routing_event := []; raw_record := [] |}.

Definition set_audit (t : Tables) (l : list AuditRow) : Tables :=
  {| audit_event := l; cost_event := cost_event t; routing_event := routing_event t; raw_record := raw_record t |}.
Definition set_cost (t : Tables) (l : list CostRow) : Tables :=
  {| audit_event := audit_event t; cost_event := l; routing_event := routing_event t; raw_record := raw_record t |}.
Definition set_routing (t : Tables) (l : list RoutingRow) : Tables :=
  {| audit_event := audit_event t; cost_event := cost_event t; routing_event := l; raw_record := raw_record t |}.
Definition set_raw (t : Tables) (l : list RawRow) : Tables :=
  {| audit_event := audit_event t; cost_event := cost_event t; routing_event := routing_event t; raw_record := l |}.

Inductive PgError := BadUUID | OutOfRange | DuplicateKey | CheckViolation | PgFailed.

Section Writers.
Context {pg : PgTypes}.

(** ** Audit *)

Definition WriteCtx (ok : bool) (t : Tables) (ev : Event) : Tables * outcome PgError unit :=
  match uuid_text (ev_TraceID ev) with
  | None => (t, Err BadUUID)
  | Some u => if ok then (set_audit t (audit_event t ++ [{| ar_trace := u; ar_event := ev |}])%list, Ok tt)
              else (t, Err PgFailed)
  end.
(** [Write] drops the error. *)
Definition PgAudit_Write (ok : bool) (t : Tables) (ev : Event) : Tables := (WriteCtx ok t ev).1.

Definition EventBudgetSoftWarn := "budget_soft_warn".
Definition EventReservationExpired := "reservation_expired".

Definition with_detail (ev : Event) (d : list (string * any)) : Event :=
  {| EventAt := EventAt ev; ev_TraceID := ev_TraceID ev; ev_TenantID := ev_TenantID ev; ev_UserID := ev_UserID ev;
     ev_TeamID := ev_TeamID ev; EventType := EventType ev; Detail := d; ev_RoutedTo := ev_RoutedTo ev;
     ev_ErrorCode := ev_ErrorCode ev |}.

(** [usedCents*100/capCents]: a zero cap panics. *)
Definition percent (usedCents capCents : Z) : outcome unit Z :=
  if (capCents =? 0)%Z then Panic else Ok (int_quo (int_mul usedCents 100) capCents).

Definition PgAudit_AlertBudget (ok : bool) (t : Tables) (tm : Z) (teamID : string) (usedCents capCents : Z)
    : Tables * outcome PgError unit :=
  match percent usedCents capCents with
  | Ok pct =>
      WriteCtx ok t (with_detail (NewEvent EventBudgetSoftWarn tm "" "" "" teamID)
        [("cap_cents", AInt capCents); ("pct", AInt pct); ("team_id", AString teamID); ("used_cents", AInt usedCents)])
  | _ => (t, Panic)
  end.

(** *** The in-memory writer *)

Definition Writer := list Event.
Definition NewWriter : Writer := [].
Definition Writer_Write (w : Writer) (ev : Event) : Writer := (w ++ [ev])%list.
Definition Flush (w : Writer) : Writer * list Event := ([], w).
Definition Writer_AlertBudget (w : Writer) (tm : Z) (teamID : string) (usedCents capCents : Z) : outcome unit Writer :=
  pct ← percent usedCents capCents;
  Ok (Writer_Write w (with_detail (NewEvent EventBudgetSoftWarn tm "" "" "" teamID)
    [("cap_cents", AInt capCents); ("pct", AString (pretty pct +:+ "%")); ("team_id", AString teamID);
     ("used_cents", AInt usedCents)])).
Definition Writer_AlertReservationExpired (w : Writer) (tm : Z) (ids : list string) : Writer :=
  Writer_Write w (with_detail (NewEvent EventReservationExpired tm "" "" "" "")
    [("count", AInt (Z.of_nat (length ids))); ("reservation_ids", AList (AString <$> ids))]).

(** ** Costs *)

Definition cost_ints (ce : CostEvent) : list Z :=
  [ce_InputTokens ce; ce_OutputTokens ce; ce_CacheReadTokens ce; ce_CacheCreateTokens ce; ce_CostCents ce;
   ce_InputCostCents ce; ce_OutputCostCents ce; ce_CacheReadCostCents ce; ce_CacheCreateCostCents ce].

(** The columns fit; [currency] is CHAR(3). *)
Definition cost_fits (ce : CostEvent) (attemptNo latencyMs : Z) : bool :=
  int2 attemptNo && int4 latencyMs && forallb int4 (cost_ints ce) && (String.length (ce_Currency ce) <=? 3)%nat.

Lemma cost_fits_cents ce attemptNo latencyMs : cost_fits ce attemptNo latencyMs = true -> int4 (ce_CostCents ce) = true.
Proof.
  unfold cost_fits. intros [[_ H]%andb_true_iff _]%andb_true_iff. rewrite forallb_forall in H. apply H. cbn. tauto.
Qed.

Definition PgCost_Write (ok : bool) (tm : Z) (t : Tables) (ce : CostEvent)
    (traceID tenantID userID teamID repoID taskType policyRuleID : string) (attemptNo latencyMs : Z)
    (success : bool) (errorClass : string) : Tables * outcome PgError unit :=
  match uuid_text traceID with
  | None => (t, Err BadUUID)
  | Some u =>
      if negb (cost_fits ce attemptNo latencyMs) then (t, Err OutOfRange)
      else if negb ok then (t, Err PgFailed)
      else (set_cost t (cost_event t ++
              [{| co_event_at := micros tm; co_trace := u; co_attempt := attemptNo; co_tenant := tenantID;
                  co_user := userID; co_team := teamID; co_repo := repoID; co_task := taskType; co_rule := policyRuleID;
                  co_event := ce; co_latency := latencyMs; co_success := success; co_errorClass := errorClass |}])%list, Ok tt)
  end.

(** ** Routing decisions: (trace_id, attempt_no) is the primary key *)

Definition routing_key (r : RoutingRow) : string * Z := (ro_trace r, ro_attempt r).

Definition Routing_Write (ok : bool) (tm : Z) (t : Tables) (traceID tenantID : string) (attemptNo : Z) (decision : json)
    (poolSelected : string) (memberSelected fallbackChain : option json) (degraded : list string) (breakerState : string)
    (seed : list Z) : Tables * outcome PgError unit :=
  match uuid_text traceID with
  | None => (t, Err BadUUID)
  | Some u =>
      if negb (int2 attemptNo) then (t, Err OutOfRange)
      else if bool_decide ((u, attemptNo) ∈ routing_key <$> routing_event t) then (t, Err DuplicateKey)
      else if negb ok then (t, Err PgFailed)
      else (set_routing t (routing_event t ++
              [{| ro_event_at := micros tm; ro_trace := u; ro_attempt := attemptNo; ro_tenant := tenantID;
                  ro_decision := decision; ro_pool := poolSelected; ro_member := memberSelected;
                  ro_fallback := fallbackChain; ro_degraded := degraded; ro_breaker := breakerState; ro_seed := seed |}])%list,
            Ok tt)
  end.

(** ** Raw records: metadata only, kept for 90 days *)

Definition sensitivities : list string := ["low"; "medium"; "high"; "unknown"].
Definition ninety_days : Z := 90 * 24 * 3600 * 10 ^ 9.

Definition Raw_Write (ok : bool) (tm : Z) (t : Tables) (traceID tenantID userID teamID repoID sensitivity : string)
    : Tables * outcome PgError unit :=
  match uuid_text traceID with
  | None => (t, Err BadUUID)
  | Some u =>
      if negb (bool_decide (sensitivity ∈ sensitivities)) then (t, Err CheckViolation)
      else if bool_decide (u ∈ rw_trace <$> raw_record t) then (t, Err DuplicateKey)
      else if negb ok then (t, Err PgFailed)
      else (set_raw t (raw_record t ++
              [{| rw_trace := u; rw_tenant := tenantID; rw_user := userID; rw_team := teamID; rw_repo := repoID;
                  rw_sensitivity := sensitivity; rw_policy := "metadata_only"; rw_expires := micros (tm + ninety_days) |}])%list,
            Ok tt)
  end.

(** The keys and column types the schema promises. *)
Definition cost_row_ok (r : CostRow) : Prop :=
  uuid_shape (co_trace r) = true /\ cost_fits (co_event r) (co_attempt r) (co_latency r) = true.
Record tables_ok (t : Tables) : Prop := {
  tk_audit : Forall (fun r => uuid_shape (ar_trace r) = true) (audit_event t);
  tk_cost : Forall cost_row_ok (cost_event t);
  tk_routing : NoDup (routing_key <$> routing_event t);
  tk_routing_trace : Forall (fun r => uuid_shape (ro_trace r) = true) (routing_event t);
  tk_raw : NoDup (rw_trace <$> raw_record t);
  tk_raw_policy : Forall (fun r => rw_policy r = "metadata_only" /\ rw_sensitivity r ∈ sensitivities) (raw_record t) }.

(** ** Sequences of writes *)

Inductive write_step : Tables -> Tables -> Prop :=
| StepAudit ok t ev : write_step t (WriteCtx ok t ev).1
| StepAlert ok t tm team u c : write_step t (PgAudit_AlertBudget ok t tm team u c).1
| StepCost ok tm t ce tr te us tea re ta ru an la su ec :
    write_step t (PgCost_Write ok tm t ce tr te us tea re ta ru an la su ec).1
| StepRouting ok tm t tr te an de po me fa dg br se : write_step t (Routing_Write ok tm t tr te an de po me fa dg br se).1
| StepRaw ok tm t tr te us tea re sn : write_step t (Raw_Write ok tm t tr te us tea re sn).1.

Lemma Forall_snoc_1 {A} (P : A -> Prop) l x : Forall P l -> P x -> Forall P (l ++ [x])%list.
Proof. intros Hl Hx. apply Forall_app. by split; [|constructor]. Qed.

Lemma NoDup_snoc_fmap {A B} (f : A -> B) l x : NoDup (f <$> l) -> f x ∉ f <$> l -> NoDup (f <$> (l ++ [x])%list).
Proof.
  intros Hl Hx. rewrite fmap_app. apply NoDup_app. split; [done|]. split; [|cbn; constructor; [set_solver|constructor]].
  intros y Hy Hy'. cbn in Hy'. apply list_elem_of_singleton in Hy' as ->. done.
Qed.

Lemma WriteCtx_ok ok t ev : tables_ok t -> tables_ok (WriteCtx ok t ev).1.
Proof.
  intros [H1 H2 H3 H4 H5 H6]. unfold WriteCtx. destruct (uuid_text _) as [u|] eqn:Hu; [|done].
  destruct ok; [|done]. split; cbn; try done. apply Forall_snoc_1; [done|]. by eapply uuid_text_shape.
Qed.

Lemma write_step_ok t t' : write_step t t' -> tables_ok t -> tables_ok t'.
Proof.
  intros Hs Ht. destruct Hs.
  - by apply WriteCtx_ok.
  - unfold PgAudit_AlertBudget. destruct (percent u c); [by apply WriteCtx_ok|done..].
  - unfold PgCost_Write. destruct (uuid_text tr) as [x|] eqn:Hu; [|done].
    destruct (cost_fits ce an la) eqn:Hf; cbn [negb]; [|done]. destruct ok; cbn [negb]; [|done].
    destruct Ht as [H1 H2 H3 H4 H5 H6]. split; cbn; try done. apply Forall_snoc_1; [done|].
    split; cbn; [by eapply uuid_text_shape|done].
  - unfold Routing_Write. destruct (uuid_text tr) as [x|] eqn:Hu; [|done]. destruct (int2 an); cbn [negb]; [|done].
    case_bool_decide as Hin; [done|]. destruct ok; cbn [negb]; [|done].
    destruct Ht as [H1 H2 H3 H4 H5 H6]. split; cbn; try done; [by apply NoDup_snoc_fmap|].
    apply Forall_snoc_1; [done|]. by eapply uuid_text_shape.
  - unfold Raw_Write. destruct (uuid_text tr) as [x|] eqn:Hu; [|done]. case_bool_decide as Hsn; cbn [negb]; [|done].
    case_bool_decide as Hin; [done|]. destruct ok; cbn [negb]; [|done].
    destruct Ht as [H1 H2 H3 H4 H5 H6]. split; cbn; try done; [by apply NoDup_snoc_fmap|].
    by apply Forall_snoc_1.
Qed.

Lemma empty_tables_ok : tables_ok empty_tables.
Proof. split; constructor. Qed.

(** Whatever is written, in any order and with any database failures in
    between, every row of the four tables fits its columns: trace ids are
    UUIDs, amounts fit 32 bits, a trace has one raw record, which is metadata
    only, and one routing decision per attempt. *)
Theorem tables_invariant t : rtc write_step empty_tables t -> tables_ok t.
Proof.
  intros H. remember empty_tables as t0 eqn:He. assert (tables_ok t0) as H0 by (subst; apply empty_tables_ok). clear He.
  induction H; eauto using write_step_ok.
Qed.

(** A trace id that is not a UUID loses all four rows of a request. *)
Lemma bad_trace_not_stored tr ok tm t ce te us tea re ta ru an la su ec de po me fa dg br se sn ev :
  uuid_text tr = None -> ev_TraceID ev = tr ->
  (WriteCtx ok t ev).1 = t /\ (PgCost_Write ok tm t ce tr te us tea re ta ru an la su ec).1 = t /\
  (Routing_Write ok tm t tr te an de po me fa dg br se).1 = t /\ (Raw_Write ok tm t tr te us tea re sn).1 = t.
Proof. intros Hu Hev. unfold WriteCtx, PgCost_Write, Routing_Write, Raw_Write. by rewrite Hev, Hu. Qed.

(** The budget alert has no trace id. *)
Lemma budget_alert_not_stored ok t tm team used cap : (PgAudit_AlertBudget ok t tm team used cap).1 = t.
Proof.
  unfold PgAudit_AlertBudget. destruct (percent used cap); [|done..]. unfold WriteCtx. cbn [with_detail NewEvent ev_TraceID].
  destruct (uuid_text "") as [u|] eqn:Hu; [|done]. by destruct (uuid_length "") as [|]; [rewrite Hu|..].
Qed.

(** *** Minted trace ids are UUIDs *)

Lemma is_hex_digit n : (0 <= n < 16)%Z -> is_hex (hexdigit n) = true.
Proof.
  intros Hn. unfold is_hex, hexdigit. destruct (Z.ltb_spec n 10);
    rewrite N_ascii_embedding by lia; apply orb_true_iff; [left|right]; apply andb_true_iff; split; apply N.leb_le; lia.
Qed.

Definition byte (b : Z) : Prop := (0 <= b < 256)%Z.

Lemma is_hex_byte b : byte b -> is_hex (hexdigit (Z.shiftr b 4)) = true /\ is_hex (hexdigit (Z.land b 15)) = true.
Proof.
  intros Hb. split; apply is_hex_digit.
  - rewrite Z.shiftr_div_pow2 by lia. unfold byte in Hb. split; [apply Z.div_pos; lia|apply Z.div_lt_upper_bound; lia].
  - change 15%Z with (Z.ones 4). rewrite Z.land_ones by lia. by apply Z.mod_pos_bound.
Qed.

Lemma format_trace_uuid buf : length buf = 16 -> Forall byte buf -> uuid_shape (format_trace buf) = true.
Proof.
  intros Hl Hb. do 16 (destruct buf as [|? buf]; [done|]). destruct buf; [|done].
  repeat match goal with H : Forall byte (_ :: _) |- _ => inversion H as [|? ? [? ?]%is_hex_byte ?]; subst; clear H end.
  unfold uuid_shape, format_trace, slice. cbn [take drop Nat.sub hexEncode String.append uuid_from Nat.eqb orb].
  repeat match goal with H : is_hex _ = true |- _ => rewrite H; clear H end. done.
Qed.

Lemma lor_byte x k m : byte m -> (0 <= k < 8)%Z -> byte (Z.lor (Z.land x (Z.ones k)) m).
Proof.
  intros Hm Hk. assert (byte (Z.land x (Z.ones k))) as Hx.
  { rewrite Z.land_ones by lia. pose proof (Z.mod_pos_bound x (2 ^ k) ltac:(lia)).
    assert (2 ^ k <= 2 ^ 7)%Z by (apply Z.pow_le_mono_r; lia). unfold byte. lia. }
  unfold byte in *. split; [apply Z.lor_nonneg; lia|].
  destruct (Z.eq_dec (Z.lor (Z.land x (Z.ones k)) m) 0%Z) as [->|Hne]; [lia|].
  apply (Z.log2_lt_pow2 _ 8).
  - assert (0 <= Z.lor (Z.land x (Z.ones k)) m)%Z by (apply Z.lor_nonneg; lia). lia.
  - rewrite Z.log2_lor by lia. apply Z.max_lub_lt;
      (match goal with |- (Z.log2 ?a < 8)%Z => destruct (Z.eq_dec a 0%Z) as [->|]; [done|apply Z.log2_lt_pow2; lia] end).
Qed.

Lemma trace_bytes_bytes millis ra rb : length (rr_bytes ra) = 2 -> length (rr_bytes rb) = 8 ->
  Forall byte (rr_bytes ra) -> Forall byte (rr_bytes rb) ->
  length (trace_bytes millis ra rb) = 16 /\ Forall byte (trace_bytes millis ra rb).
Proof.
  intros Ha Hb Fa Fb. unfold trace_bytes. cbv zeta.
  destruct ra as [[|a0 [|a1 [|]]] oka], rb as [[|b0 [|b1 [|b2 [|b3 [|b4 [|b5 [|b6 [|b7 [|]]]]]]]]] okb]; try discriminate.
  cbn [rr_ok rr_bytes] in *. decompose_Forall_hyps.
  assert (forall x, byte (to_byte x)) as Ht by (intros; apply to_byte_range).
  assert (forall x, byte (Z.lor (Z.land x 15) 112)) as Hb6 by (intros; apply (lor_byte x 4 112); unfold byte; lia).
  assert (forall x, byte (Z.lor (Z.land x 63) 128)) as Hb8 by (intros; apply (lor_byte x 6 128); unfold byte; lia).
  destruct oka, okb; (split; [done|]); cbn [app alter list_alter insert list_insert Nat.add];
    repeat (apply Forall_cons_2; [first [apply Ht|apply Hb6|apply Hb8|assumption|by vm_compute]|]); constructor.
Qed.

(** C19: accounting and trace ids: a request without its own trace header gets a
    minted id that the tables accept, so when the insert succeeds and the
    values fit their columns (attempt a SMALLINT, latency, tokens and cents
    INTEGERs, a currency of at most three characters) its cost row is stored
    under that id; a client that sends a trace id which is no UUID gets none of
    the four rows written, whatever the database answers. *)
Theorem trace_id_decides_accounting millis ra rb header ctx t tm ce te us tea re ta ru an la su ec :
  length (rr_bytes ra) = 2 -> length (rr_bytes rb) = 8 -> Forall byte (rr_bytes ra) -> Forall byte (rr_bytes rb) ->
  cost_fits ce an la = true ->
  let '(ctx', tr) := TraceIDMiddleware (MintTraceID millis ra rb) header ctx in
  GetTraceID ctx' = tr /\
  (header = "" -> exists row, PgCost_Write true tm t ce tr te us tea re ta ru an la su ec =
       (set_cost t (cost_event t ++ [row])%list, Ok tt) /\ co_trace row = tr /\ co_event row = ce) /\
  (header <> "" -> uuid_text header = None -> forall ok ev de po me fa dg br se sn, ev_TraceID ev = tr ->
     (WriteCtx ok t ev).1 = t /\ (PgCost_Write ok tm t ce tr te us tea re ta ru an la su ec).1 = t /\
     (Routing_Write ok tm t tr te an de po me fa dg br se).1 = t /\ (Raw_Write ok tm t tr te us tea re sn).1 = t).
Proof.
  intros Ha Hb Fa Fb Hf. unfold TraceIDMiddleware. cbn [GetTraceID CtxTraceID default from_option id]. split; [done|]. split.
  - intros ->. cbn [is_empty]. destruct (trace_bytes_bytes millis ra rb Ha Hb Fa Fb) as [Hl Hby].
    unfold PgCost_Write, MintTraceID. rewrite uuid_canonical by (by apply format_trace_uuid). rewrite Hf. cbn [negb].
    eexists. split; [reflexivity|]. done.
  - intros Hh%is_empty_false Hu ok ev. rewrite Hh. intros. by apply bad_trace_not_stored.
Qed.
End Writers.

(** ** Connecting *)

(** One round of [db.Open]: whether the pool can be built and pinged, the
    clock after the ping (nanoseconds), whether the context is done before the
    pause ends. *)
Record Attempt := { at_new : bool; at_ping : bool; at_now : Z; at_done : bool }.

Definition Millisecond : Z := 10 ^ 6.
Definition DefaultRetryMax : Z := 30000 * Millisecond.
Definition retryBackoffStart : Z := 250 * Millisecond.
Definition retryBackoffMax : Z := 2000 * Millisecond.

Inductive OpenError := ParseDSN | PoolNew | NotReady | ContextDone.

Definition next_backoff (backoff : Z) : Z :=
  if (retryBackoffMax <? 2 * backoff)%Z then retryBackoffMax else (2 * backoff)%Z.

(** The number of pauses made, or the error; [None] when out of fuel. *)
Fixpoint open_loop (fuel : nat) (env : nat -> Attempt) (deadline : Z) (i : nat) (backoff : Z)
    : option (outcome OpenError nat) :=
  match fuel with
  | O => None
  | S fuel =>
      let a := env i in
      if negb (at_new a) then Some (Err PoolNew)
      else if at_ping a then Some (Ok i)
      else if (deadline <? at_now a)%Z then Some (Err NotReady)
      else if at_done a then Some (Err ContextDone)
      else open_loop fuel env deadline (S i) (next_backoff backoff)
  end.
Definition db_Open (fuel : nat) (dsnOk : bool) (start : Z) (env : nat -> Attempt) : option (outcome OpenError nat) :=
  if negb dsnOk then Some (Err ParseDSN)
  else open_loop fuel env (start + DefaultRetryMax) 0 retryBackoffStart.

(** The pause after round [i]. *)
Fixpoint backoff_at (i : nat) : Z := match i with O => retryBackoffStart | S i => next_backoff (backoff_at i) end.
Definition waited (i : nat) : Z := foldr (fun k acc => (backoff_at k + acc)%Z) 0%Z (seq 0 i).

(** A clock that runs, and pauses that last. *)
Definition clock_runs (start : Z) (env : nat -> Attempt) : Prop :=
  (start <= at_now (env 0%nat))%Z /\ forall i, (at_now (env i) + backoff_at i <= at_now (env (S i)))%Z.

Lemma waited_S i : waited (S i) = (waited i + backoff_at i)%Z.
Proof.
  unfold waited. rewrite seq_S, foldr_app. cbn [foldr]. generalize (seq 0 i) as l. intros l.
  assert (forall z, foldr (fun k acc => (backoff_at k + acc)%Z) z l = (foldr (fun k acc => (backoff_at k + acc)%Z) 0%Z l + z)%Z) as H.
  { intros z. induction l as [|k l IH]; cbn; lia. }
  rewrite H. cbn. lia.
Qed.

Lemma clock_waited start env i : clock_runs start env -> (start + waited i <= at_now (env i))%Z.
Proof.
  intros [H0 Hs]. induction i as [|i IH]; [cbn; lia|]. rewrite waited_S. specialize (Hs i). lia.
Qed.

Lemma open_loop_ends fuel env start i : clock_runs start env -> (i + fuel = 19)%nat -> (0 < fuel)%nat ->
  open_loop fuel env (start + DefaultRetryMax) i (backoff_at i) <> None.
Proof.
  intros Hc. revert i. induction fuel as [|fuel IH]; intros i Hi Hf; [lia|]. cbn [open_loop].
  destruct (negb _); [done|]. destruct (at_ping _); [done|].
  destruct (Z.ltb_spec (start + DefaultRetryMax) (at_now (env i))) as [|Hle]; [done|].
  destruct (at_done _); [done|]. destruct fuel as [|fuel].
  - exfalso. pose proof (clock_waited start env i Hc) as Hw. replace i with 18%nat in * by lia.
    change (waited 18) with (31750 * Millisecond)%Z in Hw. unfold DefaultRetryMax, Millisecond in *. lia.
  - change (next_backoff (backoff_at i)) with (backoff_at (S i)). apply IH; lia.
Qed.

(** C37: connecting to the database ends: with a clock that runs, [Open] gives
    a pool or an error after at most 19 rounds, because the pauses double up to
    two seconds and the deadline is 30 seconds. *)
Theorem db_open_terminates dsnOk start env : clock_runs start env ->
  exists r, db_Open 19 dsnOk start env = Some r /\ r <> Panic /\ (forall n, r = Ok n -> (n <= 18)%nat /\ at_ping (env n) = true).
Proof.
  intros Hc. unfold db_Open. destruct dsnOk; cbn [negb]; [|by eexists].
  pose proof (open_loop_ends 19 env start 0 Hc eq_refl ltac:(lia)) as Hn.
  assert (forall fuel i b r, open_loop fuel env (start + DefaultRetryMax) i b = Some r ->
    r <> Panic /\ forall n, r = Ok n -> (n < i + fuel)%nat /\ at_ping (env n) = true) as Hr.
  { induction fuel as [|fuel IH]; intros i b r; [done|]. cbn [open_loop].
    destruct (negb _); [naive_solver|]. destruct (at_ping (env i)) eqn:Hp; [intros [= <-]; split; [done|]; intros n [= <-]; split; [lia|done]|].
    destruct (_ <? _)%Z; [naive_solver|]. destruct (at_done _); [naive_solver|]. intros H. apply IH in H as [H1 H2].
    split; [done|]. intros n ->. destruct (H2 n eq_refl). split; [lia|done]. }
  change retryBackoffStart with (backoff_at 0). destruct (open_loop 19 env _ 0 (backoff_at 0)) as [r|] eqn:Ho; [|done].
  exists r. apply Hr in Ho as [H1 H2]. split; [done|]. split; [done|]. intros n ->. destruct (H2 n eq_refl). split; [lia|done].
Qed.

Lemma db_open_terminates_witness :
  let env i := {| at_new := true; at_ping := false; at_now := waited i; at_done := false |} in
  exists r, db_Open 19 true 0 env = Some r /\ r <> Panic.
Proof.
  intros env. destruct (db_open_terminates true 0 env) as (r & Hr & Hp & _).
  - split; [vm_compute; congruence|]. intros i. change (waited i + backoff_at i <= waited (S i))%Z. rewrite waited_S. lia.
  - exists r. split; [exact Hr|exact Hp].
Defined.

(** ** Migrations *)

(** The answers of the migration library, in the order of the calls. *)
Inductive MigrateResult := Applied | NoChange | MigrateErr.
Record MigrateEnv := { mg_source : bool; mg_driver : bool; mg_new : bool; mg_run : MigrateResult; mg_version : bool }.
Inductive MigrationError := CreateSource | CreateDriver | NewInstance | RunFailed | VersionFailed.

Definition migrate_setup (e : MigrateEnv) : outcome MigrationError unit :=
  reject (negb (mg_source e)) CreateSource ≫= fun _ =>
  reject (negb (mg_driver e)) CreateDriver ≫= fun _ =>
  reject (negb (mg_new e)) NewInstance ≫= fun _ =>
  reject (match mg_run e with MigrateErr => true | _ => false end) RunFailed.
(** [mg_version]: the version can be read, or there is none yet. *)
Definition Migrate (e : MigrateEnv) : outcome MigrationError unit :=
  migrate_setup e ≫= fun _ => reject (negb (mg_version e)) VersionFailed.
(** The request sent to the library: all migrations, or that many steps. *)
Definition down_request (steps : Z) : option Z := if (steps =? 0)%Z then None else Some (- steps)%Z.
Definition MigrateDown (e : MigrateEnv) (steps : Z) : outcome MigrationError (option Z) :=
  migrate_setup e ≫= fun _ => Ok (down_request steps).

(** ** Concrete tables *)

Definition sample_cost : CostEvent :=
  {| ce_Wire := "anthropic"; ce_VendorID := "anthropic"; ce_EndpointID := "ep1"; ce_Model := "claude"; ce_Pool := "standard";
     ce_IsPrivate := false; ce_InputTokens := 12; ce_OutputTokens := 40; ce_CacheReadTokens := 7; ce_CacheCreateTokens := 0;
     ce_CostCents := 3; ce_InputCostCents := 1; ce_OutputCostCents := 2; ce_CacheReadCostCents := 0;
     ce_CacheCreateCostCents := 0; ce_Currency := "USD"; ce_CostSource := "provider_usage" |}.

Lemma tables_invariant_witness :
  tables_ok (@PgCost_Write strict_types true 5000 empty_tables sample_cost sample_trace "core" "ann" "core" "" "" "" 1 20 true "").1.
Proof.
  apply (@tables_invariant strict_types). eapply rtc_l; [apply StepCost|apply rtc_refl].
Defined.

Lemma trace_id_decides_accounting_witness :
  exists row, @PgCost_Write strict_types true 5000 empty_tables sample_cost
      (MintTraceID 1 {| rr_bytes := [1; 2]%Z; rr_ok := true |} {| rr_bytes := [1; 2; 3; 4; 5; 6; 7; 8]%Z; rr_ok := true |})
      "core" "ann" "core" "" "" "" 1 20 true "" = (set_cost empty_tables [row], Ok tt).
Proof.
  destruct (@trace_id_decides_accounting strict_types 1 {| rr_bytes := [1; 2]%Z; rr_ok := true |}
    {| rr_bytes := [1; 2; 3; 4; 5; 6; 7; 8]%Z; rr_ok := true |} "" Background empty_tables 5000 sample_cost
    "core" "ann" "core" "" "" "" 1 20 true "") as (_ & H & _); [done|done|by repeat constructor|by repeat constructor|done|].
  destruct (H eq_refl) as (row & Hr & _). exists row. exact Hr.
Defined.
