(* ===== verification/Dashboard.v ===== *)
(** * The dashboard

    [internal/gw/dashboard] api.go (the in-memory handlers with their access
    checks) and cost_summary.go (the handler the gateway registers), and the
    routing-event handler that [cmd/aicg-gw/main.go] registers.  The SQL
    statements are functions of the tables of [Storage]; the order the
    database returns rows in is the class [SQLOrder]. *)

From Stdlib Require Import Ascii.
From stdpp Require Import sorting base gmap strings fin_maps numbers list.
From S2P Require Import Prelude Postgres GoData Config Cost Edge Handlers Json Calendar GwClient Storage.
Local Open Scope string_scope.

(** ** Rows *)

Record SummaryRow := {
  sr_Bucket : string; sr_DimValue : string; sr_CostCents : Z; sr_InputTokens : Z; sr_OutputTokens : Z;
  sr_NRequests : Z; sr_NFailed : Z }.
Record RoutingEventRow := {
  rr_TraceID : string; rr_AttemptNo : Z; rr_Pool : string; rr_MemberJSON : string; rr_TenantID : string; rr_UserID : string }.

(** The answers: an error object or a list. *)
Inductive DashReply (A : Type) := DashError (status : Z) (msg : string) | DashRows (rows : list A).
Arguments DashError {A}.
Arguments DashRows {A}.

(** ** api.go *)

Definition handleCostSummary (costEvents : list SummaryRow) (ctx : Context) (queryTeam queryUser : string)
    : DashReply SummaryRow :=
  let dev := String.eqb (GetRole ctx) "developer" in
  if dev && negb (is_empty queryUser) && negb (String.eqb queryUser (GetUserID ctx)) then DashError 403 "cross-user access denied"
  else if dev && negb (is_empty queryTeam) && negb (String.eqb queryTeam (GetTeamID ctx)) then DashError 403 "cross-team access denied"
  else DashRows (filter (fun r => is_empty queryTeam || Contains (sr_DimValue r) queryTeam = true) costEvents).

(** The loop over the events of a trace. *)
Fixpoint routing_rows (ctx : Context) (traceID : string) (evs : list RoutingEventRow) (acc : list RoutingEventRow)
    : DashReply RoutingEventRow :=
  match evs with
  | [] => DashRows acc
  | r :: evs =>
      if negb (String.eqb (rr_TraceID r) traceID) then routing_rows ctx traceID evs acc
      else if String.eqb (GetRole ctx) "developer" && negb (is_empty (rr_UserID r)) && negb (String.eqb (rr_UserID r) (GetUserID ctx))
      then DashError 403 "cross-user access denied"
      else if String.eqb (GetRole ctx) "team_admin" && negb (is_empty (rr_TenantID r)) && negb (String.eqb (rr_TenantID r) (GetTeamID ctx))
      then DashError 403 "cross-team access denied"
      else routing_rows ctx traceID evs (acc ++ [r])%list
  end.
Definition handleRoutingEvents (evs : list RoutingEventRow) (ctx : Context) (traceID : string) : DashReply RoutingEventRow :=
  if is_empty traceID then DashError 400 "trace_id is required" else routing_rows ctx traceID evs [].

(** ** cost_summary.go *)

Definition dim_column (dim : string) : option (CostRow -> string) :=
  if is_empty dim then Some co_team
  else if String.eqb dim "team" then Some co_team
  else if String.eqb dim "user" then Some co_user
  else if String.eqb dim "repo" then Some co_repo
  else if String.eqb dim "model" then Some (fun r => ce_Model (co_event r))
  else None.

(** A date parameter: absent, a midnight in microseconds, or malformed. *)
Definition parse_bound (s : string) : option (option Z) :=
  if is_empty s then Some None else t ← ParseDate s; Some (Some (t * 86400 * 10 ^ 6)%Z).

Definition in_period (from to : option Z) (r : CostRow) : bool :=
  match from with Some a => (a <=? co_event_at r)%Z | None => true end &&
  match to with Some b => (co_event_at r <? b)%Z | None => true end.

(** *** GROUP BY *)

Definition total {A} (f : A -> Z) (l : list A) : Z := foldr (fun r acc => (f r + acc)%Z) 0%Z l.
Definition failed (r : CostRow) : Z := if co_success r then 0 else 1.

Definition group_row (col : CostRow -> string) (rows : list CostRow) (k : string) : SummaryRow :=
  let g := filter (fun r => col r = k) rows in
  {| sr_Bucket := k; sr_DimValue := k; sr_CostCents := total (fun r => ce_CostCents (co_event r)) g;
     sr_InputTokens := total (fun r => ce_InputTokens (co_event r)) g;
     sr_OutputTokens := total (fun r => ce_OutputTokens (co_event r)) g;
     sr_NRequests := Z.of_nat (length g); sr_NFailed := total failed g |}.
Definition group_by (col : CostRow -> string) (rows : list CostRow) : list SummaryRow :=
  group_row col rows <$> remove_dups (col <$> rows).

(** ORDER BY sum(cost_cents) DESC, then the value in the database's collation;
    a SELECT without ORDER BY gives the rows in some order. *)
Class SQLOrder := {
  order_rows : list SummaryRow -> list SummaryRow;
  order_perm l : order_rows l ≡ₚ l;
  order_sorted l : StronglySorted (fun a b => (sr_CostCents b <= sr_CostCents a)%Z) (order_rows l);
  scan_rows : list RoutingRow -> list RoutingRow;
  scan_perm l : scan_rows l ≡ₚ l }.

Section SQL.
Context {sql : SQLOrder}.

Definition summary_query (col : CostRow -> string) (from to : option Z) (t : Tables) : list SummaryRow :=
  take 100 (order_rows (group_by col (filter (fun r => in_period from to r = true) (cost_event t)))).

(** [ServeHTTP]; a query that fails is answered with an empty list. *)
Definition CostSummary_ServeHTTP (ok : bool) (t : Tables) (dim from to : string) : DashReply SummaryRow :=
  match dim_column dim with
  | None => DashError 400 "invalid dim: must be team, user, repo, or model"
  | Some col =>
      match parse_bound from with
      | None => DashError 400 "invalid from: must be YYYY-MM-DD"
      | Some from =>
          match parse_bound to with
          | None => DashError 400 "invalid to: must be YYYY-MM-DD"
          | Some to => DashRows (if ok then summary_query col from to t else [])
          end
      end
  end.

(** ** main.go: /api/v1/routing/events *)

Context (jsonb_text : json -> string).

Definition routing_out (r : RoutingRow) : RoutingEventRow :=
  {| rr_TraceID := ro_trace r; rr_AttemptNo := ro_attempt r; rr_Pool := ro_pool r;
     rr_MemberJSON := match ro_member r with Some j => jsonb_text j | None => "" end; rr_TenantID := ro_tenant r;
     rr_UserID := "" |}.
Definition RoutingEvents_ServeHTTP (ok : bool) (t : Tables) (traceID : string) : list RoutingEventRow :=
  if is_empty traceID || negb ok then []
  else routing_out <$> take 50 (scan_rows (filter (fun r => ro_trace r = traceID) (routing_event t))).

(** *** The JSON of both replies *)

Definition enc_summary (r : SummaryRow) : json :=
  JObj [("bucket", JStr (sr_Bucket r)); ("cost_cents", JInt (sr_CostCents r)); ("dim_value", JStr (sr_DimValue r));
        ("input_tokens", JInt (sr_InputTokens r)); ("n_failed", JInt (sr_NFailed r)); ("n_requests", JInt (sr_NRequests r));
        ("output_tokens", JInt (sr_OutputTokens r))].
Definition enc_error (msg : string) : json := JObj [("error", JStr msg)].
Definition enc_routing (r : RoutingEventRow) : json :=
  JObj [("attempt_no", JInt (rr_AttemptNo r)); ("member_selected", JStr (rr_MemberJSON r)); ("pool_selected", JStr (rr_Pool r));
        ("trace_id", JStr (rr_TraceID r))].
End SQL.

(** ** Sums over groups *)

Lemma total_cons {A} (f : A -> Z) x l : total f (x :: l) = (f x + total f l)%Z.
Proof. done. Qed.

Lemma total_perm {A} (f : A -> Z) l1 l2 : l1 ≡ₚ l2 -> total f l1 = total f l2.
Proof. induction 1; rewrite ?total_cons in *; lia. Qed.

Lemma total_ext {A} (f g : A -> Z) l : (forall x, x ∈ l -> f x = g x) -> total f l = total g l.
Proof.
  induction l as [|x l IH]; intros H; [done|]. rewrite !total_cons.
  rewrite IH by (intros; apply H; by right). rewrite (H x) by (by left). done.
Qed.

Lemma total_fmap {A B} (f : B -> Z) (g : A -> B) l : total f (g <$> l) = total (fun x => f (g x)) l.
Proof. induction l as [|x l IH]; [done|]. rewrite fmap_cons, !total_cons. by rewrite IH. Qed.

(** Adding [x] at one of the keys adds it once. *)
Lemma total_update (g : string -> Z) k x keys : NoDup keys -> k ∈ keys ->
  total (fun k' => (g k' + if decide (k = k') then x else 0)%Z) keys = (total g keys + x)%Z.
Proof.
  induction keys as [|k' keys IH]; intros Hn Hk; [by apply not_elem_of_nil in Hk|].
  apply NoDup_cons in Hn as [Hni Hn]. rewrite !total_cons.
  destruct (decide (k = k')) as [->|Hne].
  - rewrite (total_ext _ g) by (intros y Hy; destruct (decide (k' = y)) as [->|]; [done|lia]). lia.
  - apply elem_of_cons in Hk as [->|Hk]; [done|]. rewrite IH by done. lia.
Qed.

Lemma total_groups (f : CostRow -> Z) (col : CostRow -> string) rows keys : NoDup keys -> (forall r, r ∈ rows -> col r ∈ keys) ->
  total (fun k => total f (filter (fun r => col r = k) rows)) keys = total f rows.
Proof.
  intros Hn. induction rows as [|r rows IH]; intros Hk.
  - rewrite (total_ext _ (fun _ => 0%Z)) by done. clear. induction keys as [|k keys IHk]; [done|]. by rewrite total_cons, IHk.
  - rewrite (total_ext _ (fun k => (total f (filter (fun r => col r = k) rows) + if decide (col r = k) then f r else 0)%Z)).
    + rewrite total_update by (try done; apply Hk; by left). rewrite IH by (intros; apply Hk; by right). rewrite total_cons. lia.
    + intros k _. rewrite filter_cons. destruct (decide (col r = k)); rewrite ?total_cons; lia.
Qed.

Lemma total_length {A} (l : list A) : total (fun _ => 1%Z) l = Z.of_nat (length l).
Proof. induction l as [|x l IH]; [done|]. rewrite total_cons, IH. cbn [length]. lia. Qed.

Lemma group_by_total (f : CostRow -> Z) (g : SummaryRow -> Z) (col : CostRow -> string) rows :
  (forall k, g (group_row col rows k) = total f (filter (fun r => col r = k) rows)) ->
  total g (group_by col rows) = total f rows.
Proof.
  intros Hg. unfold group_by. rewrite total_fmap. rewrite (total_ext _ (fun k => total f (filter (fun r => col r = k) rows))) by (intros; apply Hg).
  apply total_groups; [apply NoDup_remove_dups|]. intros r Hr. apply elem_of_remove_dups, list_elem_of_fmap. by exists r.
Qed.

Lemma group_by_dims col rows : sr_DimValue <$> group_by col rows = remove_dups (col <$> rows).
Proof. unfold group_by. rewrite <- list_fmap_compose. apply list_fmap_id. Qed.

(** ** Properties *)

Section Claims.
Context {sql : SQLOrder}.

Definition period_rows (from to : option Z) (t : Tables) : list CostRow :=
  filter (fun r => in_period from to r = true) (cost_event t).

(** The sums of the rows, as long as the limit cuts none. *)
Lemma summary_totals col evs : length (remove_dups (col <$> evs)) <= 100 ->
  let rows := take 100 (order_rows (group_by col evs)) in
  rows ≡ₚ group_by col evs /\
    total sr_CostCents rows = total (fun r => ce_CostCents (co_event r)) evs /\
    total sr_InputTokens rows = total (fun r => ce_InputTokens (co_event r)) evs /\
    total sr_OutputTokens rows = total (fun r => ce_OutputTokens (co_event r)) evs /\
    total sr_NRequests rows = Z.of_nat (length evs) /\ total sr_NFailed rows = total failed evs.
Proof.
  intros Hl rows. assert (rows ≡ₚ group_by col evs) as Hp.
  { unfold rows. rewrite take_ge; [apply order_perm|]. rewrite order_perm. unfold group_by. by rewrite length_fmap. }
  split; [done|]. rewrite !(total_perm _ _ _ Hp), <- total_length. split_and!; apply group_by_total; try done.
  intros k. cbn. by rewrite total_length.
Qed.

(** The rows shown: one per group, the groups of highest cost. *)
Lemma summary_rows_spec col evs :
  let groups := group_by col evs in
  let rows := take 100 (order_rows groups) in
  rows ⊆+ groups /\ length rows = Nat.min 100 (length (remove_dups (col <$> evs))) /\ NoDup (sr_DimValue <$> rows) /\
  (forall r, r ∈ rows -> r = group_row col evs (sr_DimValue r) /\ (0 < sr_NRequests r)%Z) /\
  (forall r g, r ∈ rows -> g ∈ groups -> g ∉ rows -> (sr_CostCents g <= sr_CostCents r)%Z).
Proof.
  intros groups rows. assert (rows ⊆+ groups) as Hsub.
  { rewrite <- (order_perm groups). apply sublist_submseteq, sublist_take. }
  split; [done|]. split; [|split; [|split]].
  - unfold rows. rewrite length_take, (Permutation_length (order_perm groups)). unfold groups.
    rewrite <- (group_by_dims col evs), length_fmap. done.
  - eapply sublist_NoDup; [|apply fmap_sublist, sublist_take]. rewrite order_perm. unfold groups. rewrite group_by_dims.
    apply NoDup_remove_dups.
  - intros r Hr. apply (elem_of_submseteq _ _ _ Hr) in Hsub. apply list_elem_of_fmap in Hsub as (k & -> & Hk). split; [done|]. cbn.
    apply elem_of_remove_dups, list_elem_of_fmap in Hk as (e & -> & He).
    assert (e ∈ filter (fun r => col r = col e) evs) as Hf by (by apply list_elem_of_filter).
    destruct (filter _ evs); [by apply not_elem_of_nil in Hf|]. cbn. lia.
  - intros r g Hr Hg Hni. rewrite <- (order_perm groups) in Hg. rewrite <- (take_drop 100 (order_rows groups)) in Hg.
    apply elem_of_app in Hg as [|Hg]; [done|]. pose proof (order_sorted groups) as Hs.
    rewrite <- (take_drop 100 (order_rows groups)) in Hs.
    eapply (StronglySorted_app_1_elem_of _ _ _ _ _ Hs Hr Hg).
Qed.

(** C29: the cost summary loses nothing: for a valid dimension and period the
    reply has one row per value of the dimension, and as long as there are at
    most 100 values the costs, input and output tokens, requests and failed
    requests of the rows add up to those of the events in the half-open
    period; with more values the 100 rows shown are ones of highest cost. *)
Theorem cost_summary_conserves t dim col from to a b :
  dim_column dim = Some col -> parse_bound from = Some a -> parse_bound to = Some b ->
  let evs := period_rows a b t in
  let groups := group_by col evs in
  exists rows, CostSummary_ServeHTTP true t dim from to = DashRows rows /\
    NoDup (sr_DimValue <$> rows) /\ (forall r, r ∈ rows -> r = group_row col evs (sr_DimValue r) /\ (0 < sr_NRequests r)%Z) /\
    (length (remove_dups (col <$> evs)) <= 100 ->
       total sr_CostCents rows = total (fun r => ce_CostCents (co_event r)) evs /\
       total sr_InputTokens rows = total (fun r => ce_InputTokens (co_event r)) evs /\
       total sr_OutputTokens rows = total (fun r => ce_OutputTokens (co_event r)) evs /\
       total sr_NRequests rows = Z.of_nat (length evs) /\ total sr_NFailed rows = total failed evs) /\
    (forall r g, r ∈ rows -> g ∈ groups -> g ∉ rows -> (sr_CostCents g <= sr_CostCents r)%Z).
Proof.
  intros Hd Ha Hb evs groups. exists (take 100 (order_rows groups)).
  split; [unfold CostSummary_ServeHTTP; by rewrite Hd, Ha, Hb|].
  destruct (summary_rows_spec col evs) as (_ & _ & Hn & Hr & Hc). split_and!; [done|done| |done].
  intros Hl. by apply summary_totals.
Qed.
End Claims.

(** ** Access checks *)

Lemma routing_rows_guard ctx traceID evs acc rows : routing_rows ctx traceID evs acc = DashRows rows ->
  forall r, r ∈ rows -> r ∈ acc \/ r ∈ evs /\ rr_TraceID r = traceID /\
    (GetRole ctx = "developer" -> rr_UserID r = "" \/ rr_UserID r = GetUserID ctx) /\
    (GetRole ctx = "team_admin" -> rr_TenantID r = "" \/ rr_TenantID r = GetTeamID ctx).
Proof.
  revert acc. induction evs as [|e evs IH]; intros acc; cbn [routing_rows]; [intros [= ->]; by left|].
  destruct (String.eqb_spec (rr_TraceID e) traceID) as [Ht|]; cbn [negb];
    [|intros H r Hr; destruct (IH _ H r Hr) as [|(? & ?)]; [by left|right; split; [by right|done]]].
  destruct (String.eqb (GetRole ctx) "developer" && negb (is_empty (rr_UserID e)) && negb (String.eqb (rr_UserID e) (GetUserID ctx))) eqn:H1; [done|].
  destruct (String.eqb (GetRole ctx) "team_admin" && negb (is_empty (rr_TenantID e)) && negb (String.eqb (rr_TenantID e) (GetTeamID ctx))) eqn:H2; [done|].
  intros H r Hr. destruct (IH _ H r Hr) as [[Hacc| ->%list_elem_of_singleton]%elem_of_app|(? & ?)];
    [by left| |right; split; [by right|done]].
  right. split; [by left|]. split; [done|]. split; intros Hrole; rewrite Hrole in *; cbn [String.eqb Ascii.eqb Bool.eqb andb] in *.
  - destruct (rr_UserID e) eqn:He; [by left|]. cbn [is_empty negb andb] in H1. apply negb_false_iff, String.eqb_eq in H1. by right.
  - destruct (rr_TenantID e) eqn:He; [by left|]. cbn [is_empty negb andb] in H2. apply negb_false_iff, String.eqb_eq in H2. by right.
Qed.

(** The guarded routing-event handler never shows a row of another user to
    a developer, nor of another tenant to a team admin, except rows that
    record no user or tenant; every row shown is of the trace asked for. *)
Theorem routing_events_guarded evs ctx traceID rows : handleRoutingEvents evs ctx traceID = DashRows rows ->
  traceID <> "" /\ forall r, r ∈ rows -> r ∈ evs /\ rr_TraceID r = traceID /\
    (GetRole ctx = "developer" -> rr_UserID r = "" \/ rr_UserID r = GetUserID ctx) /\
    (GetRole ctx = "team_admin" -> rr_TenantID r = "" \/ rr_TenantID r = GetTeamID ctx).
Proof.
  unfold handleRoutingEvents. destruct (is_empty traceID) eqn:He; [done|]. apply is_empty_false in He. intros H.
  split; [done|]. intros r Hr. destruct (routing_rows_guard _ _ _ _ _ H r Hr) as [Hn|Hok]; [by apply not_elem_of_nil in Hn|exact Hok].
Qed.

(** A developer who asks without parameters is shown every row. *)
Lemma developer_sees_all rows ctx : handleCostSummary rows ctx "" "" = DashRows rows.
Proof.
  unfold handleCostSummary. cbn [is_empty negb]. rewrite !andb_false_r. cbn [andb]. f_equal. by apply filter_all.
Qed.

(** ** The reply as the client reads it *)

Definition to_client (r : SummaryRow) : CostSummaryRow :=
  {| cs_Bucket := sr_Bucket r; cs_DimValue := sr_DimValue r; cs_CostCents := sr_CostCents r;
     cs_InputTokens := sr_InputTokens r; cs_OutputTokens := sr_OutputTokens r; cs_NRequests := sr_NRequests r;
     cs_NFailed := sr_NFailed r |}.
Definition typed_summary (r : SummaryRow) : Prop :=
  int64 (sr_CostCents r) /\ int64 (sr_InputTokens r) /\ int64 (sr_OutputTokens r) /\ int64 (sr_NRequests r) /\ int64 (sr_NFailed r).

(** Decode one member of a summary row; [tac] proves its value in range. *)
Ltac summary_step tac :=
  erewrite (dec_take summary_field); [|reflexivity|cbv beta; tac; reflexivity];
  cbn [cs_Bucket cs_DimValue cs_CostCents cs_InputTokens cs_OutputTokens cs_NRequests cs_NFailed zero_summary].

Lemma summary_decodes r : typed_summary r -> dec_struct summary_field (enc_summary r) zero_summary = Some (to_client r).
Proof.
  intros (H1 & H2 & H3 & H4 & H5). unfold enc_summary. cbn [dec_struct].
  summary_step idtac. summary_step ltac:(rewrite (dec_int_int64 _ _ H1)). summary_step idtac.
  summary_step ltac:(rewrite (dec_int_int64 _ _ H2)). summary_step ltac:(rewrite (dec_int_int64 _ _ H5)).
  summary_step ltac:(rewrite (dec_int_int64 _ _ H4)). summary_step ltac:(rewrite (dec_int_int64 _ _ H3)).
  done.
Qed.

Lemma summaries_decode rows : Forall typed_summary rows ->
  dec_slice zero_summary (dec_struct summary_field) (JArr (enc_summary <$> rows)) [] = Some (to_client <$> rows).
Proof.
  intros H. apply dec_slice_arr. apply Forall2_fmap. apply Forall_Forall2_diag.
  eapply Forall_impl; [exact H|]. intros r. apply summary_decodes.
Qed.

(** ** A concrete order *)

Definition cost_desc (a b : SummaryRow) : Prop := (sr_CostCents b <= sr_CostCents a)%Z.
#[export] Instance cost_desc_dec : RelDecision cost_desc.
Proof. intros a b. unfold cost_desc. apply _. Defined.
#[export] Instance cost_desc_trans : Transitive cost_desc.
Proof. intros a b c. unfold cost_desc. lia. Qed.
#[export] Instance cost_desc_total : Total cost_desc.
Proof. intros a b. unfold cost_desc. lia. Qed.
Definition merge_order : SQLOrder :=
  {| order_rows := merge_sort cost_desc; order_perm := merge_sort_Permutation cost_desc;
     order_sorted := StronglySorted_merge_sort cost_desc; scan_rows := id; scan_perm := fun l => reflexivity l |}.

Definition sample_cost_row (at_ : Z) (team : string) (success : bool) : CostRow :=
  {| co_event_at := at_; co_trace := sample_trace; co_attempt := 1; co_tenant := team; co_user := "ann"; co_team := team;
     co_repo := ""; co_task := ""; co_rule := ""; co_event := sample_cost; co_latency := 20; co_success := success;
     co_errorClass := "" |}.
(** Two teams on 1970-01-02, one event the day after. *)
Definition sample_tables : Tables :=
  set_cost empty_tables [sample_cost_row 86400000000 "core" true; sample_cost_row 90000000000 "web" false;
                         sample_cost_row 90000000001 "core" true; sample_cost_row 172800000000 "core" true].

Lemma cost_summary_conserves_witness :
  exists rows, @CostSummary_ServeHTTP merge_order true sample_tables "team" "1970-01-02" "1970-01-03" = DashRows rows /\
    total sr_CostCents rows = 9%Z /\ total sr_NRequests rows = 3%Z.
Proof.
  destruct (@cost_summary_conserves merge_order sample_tables "team" co_team "1970-01-02" "1970-01-03"
    (Some 86400000000%Z) (Some 172800000000%Z)) as (rows & Hr & _ & _ & Hs & _); [done|done|done|].
  exists rows. split; [exact Hr|]. destruct Hs as (Hc & _ & _ & Hn & _); [vm_compute; lia|].
  split; [rewrite Hc; done|rewrite Hn; done].
Defined.

Lemma routing_events_guarded_witness :
  let ann := {| CtxTraceID := None; CtxUserID := Some "ann"; CtxTeamID := Some "core"; CtxRole := Some "developer" |} in
  let row u := {| rr_TraceID := "t"; rr_AttemptNo := 1; rr_Pool := "p"; rr_MemberJSON := ""; rr_TenantID := "core"; rr_UserID := u |} in
  handleRoutingEvents [row "ann"] ann "t" = DashRows [row "ann"] /\ (rr_UserID (row "ann") = "" \/ rr_UserID (row "ann") = "ann").
Proof.
  intros ann row. split; [done|].
  destruct (routing_events_guarded [row "ann"] ann "t" [row "ann"] eq_refl) as [_ H].
  apply (H (row "ann")); [by left|done].
Defined.
