(* ===== verification/Server.v ===== *)
(** * The gateway as one program

    What [main] of [cmd/aicg-gw/main.go] puts together: the middleware stack of
    [internal/gw/edge/router.go] and [auth.AuthMiddleware], the route table,
    every handler with the state it shares with the others (API keys, setup
    tokens, invites, the four event tables, the budget table, the audit log),
    the reload callback, the budget settler and the reaper of the key cache.

    A request is served in one step with the answers of clock, database,
    random source and network during it ([ReqEnv]); what is not in the
    repository at all is [Outside].  A budget alert changes nothing here: its
    audit row has no trace id and is refused ([Storage.budget_alert_not_stored]). *)

From Stdlib Require Import Ascii.
From stdpp Require Import sorting base gmap strings fin_maps numbers pretty list.
From S2P Require Import Prelude Postgres GoData Config Policy Routing Budget Edge Auth Handlers Json Capability Cost Stream Transformer Classifier OpenAI Provider Pipeline Relay Reload Calendar LocalState GwClient Storage Dashboard Gateway.
Local Open Scope string_scope.

(** ** Requests *)

Record HttpRequest := {
  ht_Method : string; ht_Path : string; ht_Query : list (string * string);
  ht_Authorization : string; ht_Trace : string;       (** X-AICG-Trace-Id *)
  ht_Body : option string                              (** [None]: reading it fails *) }.

(** [r.URL.Query().Get(k)] *)
Fixpoint query_get (k : string) (q : list (string * string)) : string :=
  match q with [] => "" | (k', v) :: q => if String.eqb k k' then v else query_get k q end.

(** *** net/url: the query part of a request line *)

Definition unhex (c : ascii) : option N :=
  let n := N_of_ascii c in
  if ((48 <=? n) && (n <=? 57))%N then Some (n - 48)%N
  else if ((97 <=? n) && (n <=? 102))%N then Some (n - 87)%N
  else if ((65 <=? n) && (n <=? 70))%N then Some (n - 55)%N
  else None.
Fixpoint QueryUnescape (s : string) : option string :=
  match s with
  | EmptyString => Some ""
  | String c r =>
      if Ascii.eqb c "%" then
        match r with
        | String a (String b r) => x ← unhex a; y ← unhex b; t ← QueryUnescape r; Some (String (ascii_of_N (16 * x + y)) t)
        | _ => None
        end
      else t ← QueryUnescape r; Some (String (if Ascii.eqb c "+" then " "%char else c) t)
  end.
(** [url.ParseQuery]: malformed pairs are left out. *)
Definition query_pair (s : string) : option (string * string) :=
  if is_empty s || negb (free_of ";" s) then None
  else let '(k, v) := default (s, "") (split_at "=" s) in k ← QueryUnescape k; v ← QueryUnescape v; Some (k, v).
Definition ParseQuery (s : string) : list (string * string) := omap query_pair (split_on "&" s).

(** The request as the gateway at [base] sees it: no fragment, the query split
    off; the client of [GwClient] sends no trace id. *)
Definition of_client (base : string) (q : LPRequest) : HttpRequest :=
  let target := str_drop (String.length base) (q_URL q) in
  let target := default target (fst <$> split_at "#" target) in
  let '(path, query) := default (target, "") (split_at "?" target) in
  {| ht_Method := q_Method q; ht_Path := path; ht_Query := (q_Query q ++ ParseQuery query)%list;
     ht_Authorization := default "" (q_Authorization q); ht_Trace := ""; ht_Body := Some (default "" (q_Body q)) |}.

(** *** Bodies *)

Definition create_field (k : string) : option (decoder createInviteRequest) :=
  if String.eqb k "user_id" then Some (fun v r => x ← dec_str v (ci_UserID r);
    Some {| ci_UserID := x; ci_TeamID := ci_TeamID r; ci_Role := ci_Role r; ci_TTLHours := ci_TTLHours r |})
  else if String.eqb k "team_id" then Some (fun v r => x ← dec_str v (ci_TeamID r);
    Some {| ci_UserID := ci_UserID r; ci_TeamID := x; ci_Role := ci_Role r; ci_TTLHours := ci_TTLHours r |})
  else if String.eqb k "role" then Some (fun v r => x ← dec_str v (ci_Role r);
    Some {| ci_UserID := ci_UserID r; ci_TeamID := ci_TeamID r; ci_Role := x; ci_TTLHours := ci_TTLHours r |})
  else if String.eqb k "ttl_hours" then Some (fun v r => x ← dec_int v (ci_TTLHours r);
    Some {| ci_UserID := ci_UserID r; ci_TeamID := ci_TeamID r; ci_Role := ci_Role r; ci_TTLHours := x |})
  else None.
Definition zero_create : createInviteRequest := {| ci_UserID := ""; ci_TeamID := ""; ci_Role := ""; ci_TTLHours := 0 |}.
Definition exchange_field (k : string) : option (decoder exchangeInviteRequest) :=
  if String.eqb k "invite_token" then Some (fun v r => x ← dec_str v (ei_InviteToken r);
    Some {| ei_InviteToken := x; ei_MachineID := ei_MachineID r |})
  else if String.eqb k "machine_id" then Some (fun v r => x ← dec_str v (ei_MachineID r);
    Some {| ei_InviteToken := ei_InviteToken r; ei_MachineID := x |})
  else None.
Definition zero_exchange : exchangeInviteRequest := {| ei_InviteToken := ""; ei_MachineID := "" |}.
(** Repository id, remote URL, signature. *)
Definition bind_request_field (k : string) : option (decoder (string * string * string)) :=
  if String.eqb k "repo_id" then Some (fun v r => x ← dec_str v r.1.1; Some (x, r.1.2, r.2))
  else if String.eqb k "remote_url" then Some (fun v r => x ← dec_str v r.1.2; Some (r.1.1, x, r.2))
  else if String.eqb k "signature" then Some (fun v r => x ← dec_str v r.2; Some (r.1.1, r.1.2, x))
  else None.

(** ** Replies *)

(** [http.CanonicalHeaderKey]: a capital at the start and after a hyphen. *)
Definition to_upper (c : ascii) : ascii := let n := N_of_ascii c in if ((97 <=? n) && (n <=? 122))%N then ascii_of_N (n - 32) else c.
Definition to_lower (c : ascii) : ascii := let n := N_of_ascii c in if ((65 <=? n) && (n <=? 90))%N then ascii_of_N (n + 32) else c.
Fixpoint canonical_from (up : bool) (s : string) : string :=
  match s with
  | EmptyString => ""
  | String c r => String (if up then to_upper c else to_lower c) (canonical_from (Ascii.eqb c "-") r)
  end.
Definition CanonicalHeaderKey (s : string) : string := canonical_from true s.
(** [h.Add(k, v)] *)
Definition header_add (h : Header) (kv : string * string) : Header :=
  let k := CanonicalHeaderKey kv.1 in <[k := (default [] (h !! k) ++ [kv.2])%list]> h.

(** [TraceIDMiddleware] sets the trace header before anything else runs. *)
Definition trace_header (traceID : string) : Header := {[ CanonicalHeaderKey "X-AICG-Trace-Id" := [traceID] ]}.
Definition json_headers (traceID : string) : Header := <["Content-Type" := ["application/json"]]> (trace_header traceID).

(** [time.Time.MarshalJSON] of a UTC time in nanoseconds: the fraction without
    its trailing zeros. *)
Fixpoint trim_zeros (s : string) : string :=
  match s with
  | EmptyString => ""
  | String c r => let t := trim_zeros r in if is_empty t && Ascii.eqb c "0" then "" else String c t
  end.
Definition FormatRFC3339Nano (t : Z) : string :=
  let text := FormatRFC3339 (t / 10 ^ 9) in
  let frac := trim_zeros (digits 9 (t mod 10 ^ 9)) in
  if is_empty frac then text else str_take (String.length text - 1) text +:+ ("." +:+ (frac +:+ "Z")).

Lemma trim_zeros_digits s : skip_digits s = "" -> skip_digits (trim_zeros s) = "".
Proof.
  induction s as [|c s IH]; [done|]. cbn [skip_digits trim_zeros]. destruct (is_digit c) eqn:Hc; [|done].
  intros Hs%IH. destruct (_ && _); [done|]. cbn [skip_digits]. by rewrite Hc.
Qed.

(** A client reads the expiry to the second. *)
Lemma parse_time_nano t : four_digit_year (t / 10 ^ 9 / 86400) ->
  parse_time (FormatRFC3339Nano t) = Some {| gt_sec := t / 10 ^ 9; gt_off := 0 |}.
Proof.
  intros Ht. unfold FormatRFC3339Nano. set (frac := trim_zeros _).
  assert (skip_digits frac = "") as Hf by apply trim_zeros_digits, skip_digits_digits. clearbody frac.
  destruct frac as [|c frac]; cbn [is_empty].
  - rewrite <- RFC3339_Z. change "Z" with ("" +:+ "Z"). by apply parse_time_UTC.
  - rewrite <- (str_app_assoc "." (String c frac) "Z"). apply parse_time_UTC; [done|].
    change (("." +:+ String c frac) +:+ "Z") with (String "." (String c (frac +:+ "Z"))). cbn [skip_fraction Ascii.eqb Bool.eqb].
    change (String c (frac +:+ "Z")) with (String c frac +:+ "Z"). rewrite skip_digits_app by done.
    cbn [skip_digits] in Hf. by destruct (is_digit c).
Qed.

(** The members of the handlers' replies: strings, and the expiry of an
    invite, which is a time. *)
Definition response_member (kv : string * any) : string * json :=
  (kv.1, match kv.2 with
         | AString s => JStr s
         | AInt z => if String.eqb kv.1 "expires_at" then JStr (FormatRFC3339Nano z) else JInt z
         | ABool b => JBool b
         | _ => JNull
         end).
Definition response_json (r : Handlers.Response) : json :=
  match r with
  | ErrorResp _ code msg tid => JObj [("code", JStr code); ("message", JStr msg); ("trace_id", JStr tid)]
  | JsonResp _ body => JObj (response_member <$> body)
  end.

(** *** Rows of a request: what [json.Marshal] writes for them *)

Definition decision_json (d : Decision) : json :=
  enc_obj [member "primary_action" (JStr (PrimaryAction d)); member "modifiers" (strings_json (Modifiers d));
           member "side_effects" (strings_json (SideEffects d)); member "model_pool" (JStr (ModelPool d));
           omit_str "shadow_pool" (ShadowPool d);
           omitempty (bool_decide (Redactions d = [])) "redactions" (strings_json (Redactions d));
           member "reasons" (strings_json (Reasons d)); omit_str "required_trust_tier" (RequiredTrustTier d);
           omitempty (bool_decide (RequiredDataResidency d = [])) "required_data_residency" (strings_json (RequiredDataResidency d));
           omitempty (bool_decide (RequiredCapabilities d = [])) "required_capabilities" (strings_json (RequiredCapabilities d));
           omitempty (bool_decide (DegradedFeatures d = [])) "degraded_features" (strings_json (DegradedFeatures d))].
(** [routing.Member] has no tags. *)
Definition member_json (m : Member) : json :=
  JObj [("EndpointID", JStr (EndpointID m)); ("Wire", JStr (Wire m)); ("VendorID", JStr (VendorID m)); ("Model", JStr (m_Model m));
        ("URL", JStr (m_URL m)); ("TrustTier", JStr (TrustTier m)); ("DataResidency", JStr (DataResidency m));
        ("Streaming", JBool (m_Streaming m)); ("Private", JBool (Private m)); ("OriginalWeight", JInt (OriginalWeight m))].

(** ** State *)

Section State.
Context {cel : CEL}.

Record Live := {
  lv_keys : PgKeyStore;                       (** [api_keys] and the cache in front of it *)
  lv_tokens : PgSetupTokenStore;
  lv_invites : gmap string Invite; lv_nextInvite : Z;
  lv_tables : Tables;
  lv_gateway : Gateway;                       (** engine, selector, prices, configuration, budget, teams *)
  lv_log : Log                                (** the in-memory audit log and the provider requests *) }.

Definition set_keys (g : Live) (s : PgKeyStore) : Live :=
  {| lv_keys := s; lv_tokens := lv_tokens g; lv_invites := lv_invites g; lv_nextInvite := lv_nextInvite g;
     lv_tables := lv_tables g; lv_gateway := lv_gateway g; lv_log := lv_log g |}.
Definition set_tokens (g : Live) (t : PgSetupTokenStore) : Live :=
  {| lv_keys := lv_keys g; lv_tokens := t; lv_invites := lv_invites g; lv_nextInvite := lv_nextInvite g;
     lv_tables := lv_tables g; lv_gateway := lv_gateway g; lv_log := lv_log g |}.
(** Both stores write the table of keys. *)
Definition set_invites (g : Live) (s : PgInvites) : Live :=
  {| lv_keys := with_keys (lv_keys g) (pg_keys s); lv_tokens := lv_tokens g; lv_invites := invites s;
     lv_nextInvite := next_id s; lv_tables := lv_tables g; lv_gateway := lv_gateway g; lv_log := lv_log g |}.
Definition set_tables (g : Live) (t : Tables) : Live :=
  {| lv_keys := lv_keys g; lv_tokens := lv_tokens g; lv_invites := lv_invites g; lv_nextInvite := lv_nextInvite g;
     lv_tables := t; lv_gateway := lv_gateway g; lv_log := lv_log g |}.
Definition set_gateway (g : Live) (y : Gateway) : Live :=
  {| lv_keys := lv_keys g; lv_tokens := lv_tokens g; lv_invites := lv_invites g; lv_nextInvite := lv_nextInvite g;
     lv_tables := lv_tables g; lv_gateway := y; lv_log := lv_log g |}.
Definition set_log (g : Live) (l : Log) : Live :=
  {| lv_keys := lv_keys g; lv_tokens := lv_tokens g; lv_invites := lv_invites g; lv_nextInvite := lv_nextInvite g;
     lv_tables := lv_tables g; lv_gateway := lv_gateway g; lv_log := l |}.
Definition with_budget (y : Gateway) (b : PgService) : Gateway :=
  {| gy_view := gy_view y; gy_budget := b; gy_teams := gy_teams y; gy_setupToken := gy_setupToken y |}.

(** The invite store as [HandleAdminCreateInvite] and [HandleExchangeInvite] see it. *)
Definition invite_store (g : Live) : PgInvites :=
  {| invites := lv_invites g; pg_keys := api_keys (lv_keys g); next_id := lv_nextInvite g |}.
Definition invite_state (g : Live) : InviteState PgInvites :=
  {| h_PgInvites := Some (invite_store g); h_PgAuditW := Some []; h_TeamRegistered := Some (TeamRegistered (gy_teams (lv_gateway g))) |}.

End State.

(** What surrounds one request. *)
Record ReqEnv := {
  en_now : Z;                        (** nanoseconds *)
  en_minted : string;                (** the id [TraceIDMiddleware] would mint *)
  en_minted' : string;               (** the id a handler mints *)
  en_auth : PgEnv; en_store : PgEnv; (** looking up and storing a key *)
  en_token : bool * bool;            (** [ConsumeToken], [HasAnyToken] *)
  en_create : bool; en_tx : TxEnv;   (** creating and redeeming an invite *)
  en_random : option (list Z);
  en_query : bool; en_ping : bool;
  en_run : Pipeline.Env;
  en_audit : bool; en_routing : bool; en_raw : bool; en_cost : bool;  (** inserts *)
  en_settle : bool * Z;              (** [Commit] or [Release], and its clock *)
  en_client : option nat;            (** writes the client takes ([None]: all) *)
  en_cut : list nat                  (** how the network cuts the reply *) }.

(** The bytes of a reply in pieces of the given sizes. *)
Fixpoint cut_reader (sizes : list nat) (s : string) : Reader :=
  match sizes with
  | [] => [(s, None)]
  | n :: sizes => (str_take n s, None) :: cut_reader sizes (str_drop n s)
  end.

(** Code and services outside the repository: the conversion of a double that
    does not fit an integer, the check of [http.NewRequest], the providers,
    [%q], the JSON decoder's error text, bcrypt's [GenerateFromPassword],
    Postgres' text of a JSONB value, chi's answer to a path it does not know,
    the metrics page, the text of a UUID. *)
Record Outside := {
  x_overflow : float64 -> Z; x_validURL : string -> bool; x_upstream : list HTTPRequest -> HTTPRequest -> Reply;
  x_quote : string -> string; x_decodeError : string; x_gen : string -> option string; x_jsonb : json -> string;
  x_unrouted : string -> string -> GwReply; x_metrics : GwReply; x_uuid : uuid -> string }.

Section Server.
Context {js : JSON} {jd : JSONDecoder} {pgt : PgTypes} {sql : SQLOrder} {bcrypt : Bcrypt} {sha : Sha256}.
Context {cel : CEL} {srt : SortSlice} {rand : Random}.
Context (x : Outside).

(** [json.NewEncoder(w).Encode(v)] ends with a newline. *)
Definition encoded (j : json) : string := printJSON j +:+ String newline "".
Definition json_reply (traceID : string) (status : Z) (j : json) : GwReply :=
  Replied status (json_headers traceID) [(encoded j, None)].
(** A list; the empty one is written as text. *)
Definition array_text (l : list json) : string := match l with [] => printJSON (JArr []) | _ :: _ => encoded (JArr l) end.
Definition array_reply (traceID : string) (l : list json) : GwReply := Replied 200 (json_headers traceID) [(array_text l, None)].
Definition reply (traceID : string) (r : Handlers.Response) : GwReply := json_reply traceID (resp_status r) (response_json r).
(** [middleware.Recoverer] *)
Definition recovered (traceID : string) : GwReply := Replied 500 (trace_header traceID) [].

(** [writeAuthError], [writeForbidden]: the message is printed with %q. *)
Definition dq : string := String "034" "".
Definition json_name (k : string) : string := dq +:+ (k +:+ (dq +:+ ":")).
Definition error_text (code msg : string) : string :=
  "{" +:+ (json_name "code" +:+ (dq +:+ (code +:+ (dq +:+ ("," +:+ (json_name "message" +:+ (x_quote x msg +:+ ("}" +:+ String newline "")))))))).
Definition denied (traceID : string) (status : Z) (code msg : string) : GwReply :=
  if String.eqb code "panic" then recovered traceID
  else let msg := if String.eqb code "forbidden" then "role " +:+ (x_quote x msg +:+ " not authorized") else msg in
       Replied status (json_headers traceID) [(error_text code msg, None)].

(** *** POST /v1/agent/forward *)

(** [main] wires every writer. *)
Definition all_writers : PgWriters := {| has_audit := true; has_routing := true; has_rawstore := true; has_cost := true |}.

Definition store_row (en : ReqEnv) (t : Tables) (row : PgRow) : Tables :=
  match row with
  | Pipeline.AuditRow ev => (WriteCtx (en_audit en) t ev).1
  | Pipeline.RoutingRow tr tenant n dec pool m degraded seed =>
      (Routing_Write (en_routing en) (en_now en) t tr tenant n (decision_json dec) pool (Some (member_json m)) None degraded ""
         ((fun b => Z.of_N (Byte.to_N b)) <$> seed)).1
  | Pipeline.RawRow tr tenant user team repo sensitivity =>
      (Raw_Write (en_raw en) (en_now en) t tr tenant user team repo sensitivity).1
  end.

(** The cost writer's call. *)
Definition store_cost (en : ReqEnv) (cfg : AccountedStreamConfig) (t : Tables) (w : CostWrite) : Tables :=
  (PgCost_Write (en_cost en) (en_now en) t (cw_event w) (cfg_TraceID cfg) (cfg_TenantID cfg) (cfg_UserID cfg) (cfg_TeamID cfg)
     "" "" "" (cfg_AttemptNo cfg) (cfg_LatencyMs cfg) (cw_success w) (cw_errorClass w)).1.

(** The goroutine's calls, as far as the client lets it get. *)
Definition perform (en : ReqEnv) (res : PipelineResult) (r : StreamRun) (g : Live) (a : act) : Live :=
  match a with
  | Emit _ => g
  | Bill => set_tables g (fold_left (store_cost en (pl_Accounting res)) (run_costWrites r) (lv_tables g))
  | Settle => set_gateway g (with_budget (lv_gateway g)
                (PostAccount (pl_Reservation res) (en_settle en).1 (en_settle en).2 (gy_budget (lv_gateway g)) (run_result r)))
  end.

Definition stream_of (res : PipelineResult) : StreamRun :=
  run (x_overflow x) (pl_Accounting res) (rc_text (pl_Body res)) (rc_end (pl_Body res)) client.

Definition serve_forward (en : ReqEnv) (g : Live) (r : Request) (body : option string) : Live * GwReply :=
  let traceID := GetTraceID (Ctx r) in
  let view := gy_view (lv_gateway g) in
  let '(l, b, rows, res) := HandleForward (x_validURL x) (x_upstream x) (x_quote x) (x_decodeError x) (fun _ => view) wireAdapters all_writers (v_calc view)
                              (en_run en) r body (lv_log g) (Some (gy_budget (lv_gateway g))) in
  let g := set_log g l in
  let g := set_gateway g (with_budget (lv_gateway g) (default (gy_budget (lv_gateway g)) b)) in
  let g := set_tables g (fold_left (store_row en) rows (lv_tables g)) in
  match res with
  | Ok (Refused resp) => (g, reply traceID resp)
  | Ok (Streaming_ res) =>
      let run := stream_of res in
      (fold_left (perform en res run) (performed (S <$> en_client en) (acts run)) g,
       match en_client en with
       | None => Replied (StatusCode res) (fold_left header_add (Headers res) (trace_header traceID))
                   (cut_reader (en_cut en) (bytes_out (run_pipe run)))
       | Some _ => NoReply "client gone"
       end)
  | _ => (g, recovered traceID)
  end.

(** *** The other handlers *)

Definition serve_setup (en : ReqEnv) (g : Live) (r : Request) (traceID : string) : Live * GwReply :=
  let h := {| h_KeyStore := lv_keys g; h_SetupToken := gy_setupToken (lv_gateway g); h_PgSetupTokens := Some (lv_tokens g) |} in
  let '(h, resp) := HandleExchangeSetup h r (en_minted' en) (en_token en).1 (en_token en).2 (en_now en) (en_random en) (x_gen x) (en_store en) in
  (set_tokens (set_keys g (h_KeyStore h)) (default (lv_tokens g) (h_PgSetupTokens h)),
   match resp with Ok resp => reply traceID resp | _ => recovered traceID end).

(** The events a handler has handed to [PgAuditW]. *)
Definition store_audit (en : ReqEnv) (g : Live) (evs : option (list Event)) : Live :=
  set_tables g (fold_left (PgAudit_Write (en_audit en)) (default [] evs) (lv_tables g)).

Definition decoded {T} (d : decoder T) (zero : T) (body : option string) : string + T :=
  match unmarshal d (default "" body) zero with Some v => inr v | None => inl (x_decodeError x) end.

Definition serve_create (en : ReqEnv) (g : Live) (r : Request) (body : option string) (traceID : string) : Live * GwReply :=
  let '(h, resp) := HandleAdminCreateInvite (invite_state g) r (en_minted' en) (bool_decide (is_Some body))
                      (decoded (dec_struct create_field) zero_create body) (en_random en) (en_now en) (en_create en, en_tx en) in
  (store_audit en (set_invites g (default (invite_store g) (h_PgInvites h))) (h_PgAuditW h), reply traceID resp).

Definition serve_exchange (en : ReqEnv) (g : Live) (r : Request) (body : option string) (traceID : string) : Live * GwReply :=
  let '(h, resp) := HandleExchangeInvite (invite_state g) r (en_minted' en) (bool_decide (is_Some body))
                      (decoded (dec_struct exchange_field) zero_exchange body) (en_random en) (x_gen x) (en_now en) (en_create en, en_tx en) in
  (store_audit en (set_invites g (default (invite_store g) (h_PgInvites h))) (h_PgAuditW h),
   match resp with Ok resp => reply traceID resp | _ => recovered traceID end).

Definition healthz_json (h : Z * string * option (list (string * string))) : json :=
  JObj (match h.2 with Some cs => [("components", JObj ((fun c => (c.1, JStr c.2)) <$> cs))] | None => [] end ++
        [("status", JStr h.1.2)])%list.

Definition serve_handler (hd : GwHandler) (en : ReqEnv) (g : Live) (r : Request) (q : HttpRequest) (traceID : string)
    : Live * GwReply :=
  match hd with
  | Healthz =>
      let h := handleHealthz (Some [("db", if en_ping en then "ok" else "fail")]) in (g, json_reply traceID h.1.1 (healthz_json h))
  | Metrics => (g, x_metrics x)
  | Forward_ => serve_forward en g r (ht_Body q)
  | ExchangeSetup_ => serve_setup en g r traceID
  | ExchangeInvite_ => serve_exchange en g r (ht_Body q) traceID
  | AdminInvites => serve_create en g r (ht_Body q) traceID
  | BindRepo_ =>
      let repoID := body ← ht_Body q; v ← firstJSON body; b ← dec_struct bind_request_field v ("", "", ""); Some b.1.1 in
      (g, reply traceID (HandleBindRepo r repoID (en_minted' en)))
  | CostSummary_ =>
      (g, match CostSummary_ServeHTTP (en_query en) (lv_tables g) (query_get "dim" (ht_Query q))
                  (query_get "from" (ht_Query q)) (query_get "to" (ht_Query q)) with
          | DashError st msg => json_reply traceID st (enc_error msg)
          | DashRows rows => array_reply traceID (enc_summary <$> rows)
          end)
  | RoutingEvents_ =>
      (g, array_reply traceID (enc_routing <$>
            RoutingEvents_ServeHTTP (x_jsonb x) (en_query en) (lv_tables g) (query_get "trace_id" (ht_Query q))))
  end.

(** *** The stack *)

(** [NewServer]'s last middleware, the authentication, the route, its guard. *)
Definition serve (en : ReqEnv) (g : Live) (q : HttpRequest) : Live * GwReply :=
  let '(ctx, traceID) := TraceIDMiddleware (en_minted en) (ht_Trace q) Background in
  let r := {| Method := ht_Method q; Path := ht_Path q; Authorization := ht_Authorization q; Ctx := ctx |} in
  match AuthMiddleware (en_auth en) (lv_keys g) r with
  | (s, Respond st code msg) => (set_keys g s, denied traceID st code msg)
  | (s, Next r) =>
      match gw_route (Method r) (Path r) with
      | None => (set_keys g s, x_unrouted x (Method r) (Path r))
      | Some (hd, roles) =>
          match route_guard roles r with
          | Respond st code msg => (set_keys g s, denied traceID st code msg)
          | Next r => serve_handler hd en (set_keys g s) r q traceID
          end
      end
  end.

(** ** The other things that happen *)

Inductive GwEvent :=
| Arrives (en : ReqEnv) (q : HttpRequest)
| Reloads (newCfg : Config)                            (** the callback of the hot reloader *)
| Sweeps (db : bool) (order : list (uuid * Reservation)) (now : Z)   (** a tick of the settler *)
| Reaps (env : PgEnv).                                 (** a tick of the key store's reaper *)

(** [settler.Start(1*time.Minute, 10*time.Minute)] with its audit callback. *)
Definition ten_minutes : Z := 600 * 10 ^ 9.
Definition sweep (db : bool) (order : list (uuid * Reservation)) (now : Z) (g : Live) : Live :=
  let '(svc, callbacks) := settler_tick (fun svc maxAge => Pg_ReleaseExpired db order svc now maxAge) (Settler_OnAudit NewSettler true)
                             ten_minutes (gy_budget (lv_gateway g)) in
  set_log (set_gateway g (with_budget (lv_gateway g) svc))
    {| events := fold_left (fun w ids => Writer_AlertReservationExpired w now (x_uuid x <$> ids)) callbacks (events (lv_log g));
       sent := sent (lv_log g) |}.

Definition gw_event (g : Live) (ev : GwEvent) : Live :=
  match ev with
  | Arrives en q => (serve en g q).1
  | Reloads newCfg => set_gateway g (on_reload (lv_gateway g) newCfg)
  | Sweeps db order now => sweep db order now g
  | Reaps env => set_keys g (reap env (lv_keys g))
  end.

(** Postgres answers a query with the rows that are there. *)
Definition answers_honestly (g : Live) (ev : GwEvent) : Prop :=
  match ev with
  | Arrives en _ => rows (en_auth en) ≡ₚ live_rows (api_keys (lv_keys g))
  | Sweeps _ order _ => order ≡ₚ map_to_list (table (gy_budget (lv_gateway g)))
  | _ => True
  end.
Inductive gw_step : Live -> Live -> Prop :=
| gw_happens g ev : answers_honestly g ev -> gw_step g (gw_event g ev).

(** ** A client's view *)

(** The gateway that has already served [sent], one environment per request. *)
Context (base : string) (env : nat -> ReqEnv).
Fixpoint served_from (i : nat) (g : Live) (sent : list LPRequest) : Live :=
  match sent with [] => g | q :: sent => served_from (S i) (serve (env i) g (of_client base q)).1 sent end.
Definition served (g : Live) (sent : list LPRequest) : Live := served_from 0 g sent.
Definition gateway_of (g : Live) (sent : list LPRequest) (q : LPRequest) : GwReply :=
  (serve (env (length sent)) (served g sent) (of_client base q)).2.
End Server.

(** ** What a request can change *)

Section Effects.
Context {js : JSON} {jd : JSONDecoder} {pgt : PgTypes} {sql : SQLOrder} {bcrypt : Bcrypt} {sha : Sha256}.
Context {cel : CEL} {srt : SortSlice} {rand : Random} (x : Outside).

(** Keys, tokens and invites are as before. *)
Definition same_stores (g g' : Live) : Prop :=
  lv_keys g' = lv_keys g /\ lv_tokens g' = lv_tokens g /\ lv_invites g' = lv_invites g /\ lv_nextInvite g' = lv_nextInvite g.
#[local] Instance same_stores_refl : Reflexive same_stores.
Proof. by intros g. Qed.
Lemma same_stores_trans g1 g2 g3 : same_stores g1 g2 -> same_stores g2 g3 -> same_stores g1 g3.
Proof. unfold same_stores. intuition congruence. Qed.

Lemma perform_stores en res r l g : same_stores g (fold_left (perform en res r) l g).
Proof.
  revert g. induction l as [|a l IH]; intros g; [done|]. cbn [fold_left].
  eapply same_stores_trans; [|apply IH]. by destruct a.
Qed.

Lemma store_row_steps en rs t : rtc write_step t (fold_left (store_row en) rs t).
Proof.
  revert t. induction rs as [|row rs IH]; intros t; [done|]. cbn [fold_left]. eapply rtc_l; [|apply IH].
  destruct row; constructor.
Qed.
Lemma store_cost_steps en cfg ws t : rtc write_step t (fold_left (store_cost en cfg) ws t).
Proof. revert t. induction ws as [|w ws IH]; intros t; [done|]. cbn [fold_left]. eapply rtc_l; [|apply IH]. constructor. Qed.
Lemma store_audit_steps ok evs t : rtc write_step t (fold_left (PgAudit_Write ok) evs t).
Proof. revert t. induction evs as [|ev evs IH]; intros t; [done|]. cbn [fold_left]. eapply rtc_l; [|apply IH]. constructor. Qed.

(** The budget service: its table changes only by these. *)
Inductive budget_step : PgService -> PgService -> Prop :=
| BReserve db db' s id now tr te us team cents : budget_step s (Pg_Reserve db db' s id now tr te us team cents).1.1
| BSettle rsv db now s res : budget_step s (PostAccount rsv db now s res)
| BExpire db order s now age : budget_step s (Pg_ReleaseExpired db order s now age).1
| BCap s t c : budget_step s (Pg_SetTeamCap s t c).

Lemma perform_steps en res r l g :
  rtc write_step (lv_tables g) (lv_tables (fold_left (perform en res r) l g)) /\
  rtc budget_step (gy_budget (lv_gateway g)) (gy_budget (lv_gateway (fold_left (perform en res r) l g))).
Proof.
  revert g. induction l as [|a l IH]; intros g; [done|]. cbn [fold_left].
  destruct (IH (perform en res r g a)) as [H1 H2]. destruct a; cbn in *.
  - by split.
  - split; [|done]. etrans; [apply store_cost_steps|exact H1].
  - split; [done|]. eapply rtc_l; [|exact H2]. constructor.
Qed.

Lemma Run_budget live adapters pg calc env ctx req tr l svc l' b' rows res :
  Run (x_validURL x) (x_upstream x) (x_quote x) (x_decodeError x) live adapters pg calc env ctx req tr l (Some svc) = (l', b', rows, res) ->
  exists svc', b' = Some svc' /\ rtc budget_step svc svc'.
Proof.
  unfold Run. destruct (Decide _ _) as [dec| |]; [|naive_solver..].
  destruct (BuildChain _ _ _ _ _) as [[|m chain]| |]; [naive_solver| |naive_solver..].
  destruct (Egress_Run _ _ _ _ _ _ _ _ _ _ _ _ _ _ _ _ _) as [l1 [er| |]]; [|naive_solver..].
  destruct (Pg_Reserve _ _ _ _ _ _ _ _ _ _) as [[svc1 r] alerts] eqn:Hr.
  assert (budget_step svc svc1) as Hs by (replace svc1 with (svc1, r, alerts).1.1 by done; rewrite <- Hr; constructor).
  destruct r; intros [= <- <- <- <-]; eexists; (split; [done|]); by apply rtc_once.
Qed.

Lemma serve_forward_effect en g r body :
  let g' := (serve_forward x en g r body).1 in
  same_stores g g' /\ rtc write_step (lv_tables g) (lv_tables g') /\
  rtc budget_step (gy_budget (lv_gateway g)) (gy_budget (lv_gateway g')).
Proof.
  unfold serve_forward. destruct (HandleForward _ _ _ _ _ _ _ _ _ _ _ _ _) as [[[l b] rs] res] eqn:Hh.
  assert (exists svc', b = Some svc' /\ rtc budget_step (gy_budget (lv_gateway g)) svc') as (svc' & -> & Hb).
  { unfold HandleForward in Hh. destruct (check_forward _ _ _ _) as [req| |]; [|naive_solver..].
    destruct (Run _ _ _ _ _ _ _ _ _ _ _ _ _ _) as [[[l1 b1] rs1] res1] eqn:Hr.
    apply Run_budget in Hr as (svc' & -> & Hb). destruct res1; simplify_eq; by eexists. }
  cbv zeta. set (g1 := set_tables _ _).
  assert (same_stores g g1 /\ rtc write_step (lv_tables g) (lv_tables g1) /\
    rtc budget_step (gy_budget (lv_gateway g)) (gy_budget (lv_gateway g1))) as (H1 & H2 & H3)
    by (split; [done|]; split; [apply store_row_steps|exact Hb]).
  destruct res as [[resp|res]| |]; cbn [fst]; [done| |done..].
  destruct (perform_steps en res (stream_of x res) (performed (S <$> en_client en) (acts (stream_of x res))) g1) as [H4 H5].
  split; [eapply same_stores_trans; [exact H1|apply perform_stores]|]. split; etrans; done.
Qed.

(** *** Keys and invites *)

Definition admin_key (hash : string) : APIKey :=
  {| key_UserID := "platform_admin"; key_TeamID := "platform"; key_Role := RolePlatformAdmin; key_Hash := hash |}.

(** The setup exchange: nothing of the keys changes, or a token was open, it
    is consumed, and an administrator's key may have been stored. *)
Lemma serve_setup_effect en g r tid :
  let g' := (serve_setup x en g r tid).1 in
  lv_invites g' = lv_invites g /\ lv_nextInvite g' = lv_nextInvite g /\ lv_tables g' = lv_tables g /\ lv_gateway g' = lv_gateway g /\
  (lv_keys g' = lv_keys g /\ lv_tokens g' = lv_tokens g \/
   exists h tm, lv_tokens g !! h = Some None /\ lv_tokens g' = <[h := Some tm]> (lv_tokens g) /\
     (lv_keys g' = lv_keys g \/ exists hash, lv_keys g' = with_keys (lv_keys g) (insert_key (api_keys (lv_keys g)) (admin_key hash)))).
Proof.
  unfold serve_setup, HandleExchangeSetup. destruct (negb _); [by cbn; auto 10|]. destruct (_ || _); [by cbn; auto 10|].
  set (h := {| h_KeyStore := lv_keys g |}). set (presented := str_drop 7 _).
  destruct (consume_setup_pg h (lv_tokens g) (en_token en).1 (en_token en).2 (en_now en) presented (en_minted' en) eq_refl)
    as [(Hdb & Htok & ->)|(resp & -> & _)]; [|by cbn; auto 10].
  set (t' := <[_ := _]> (lv_tokens g)).
  destruct (en_random en) as [key|]; cbn [with_tokens h_KeyStore h]; [|cbn; split_and!; try done; right; eexists _, _; by eauto].
  destruct (x_gen x (hexEncode key)) as [hash|]; [|cbn; split_and!; try done; right; eexists _, _; by eauto].
  cbn [StoreAPIKey Pg_KeyStore]. unfold storeAPIKey. destruct (exec_ok (en_store en)); cbn; split_and!; try done; right; eexists _, _; eauto 10.
Qed.

(** A branch that writes nothing. *)
Ltac nothing_written H := cbn; split_and!; try done; left; (unfold same_stores; cbn; rewrite ?H; by split_and!) || done.

(** The invite exchange: nothing of keys and invites changes, or an invite
    that was pending is used and its key stored. *)
Lemma serve_exchange_effect en g r body tid :
  let g' := (serve_exchange x en g r body tid).1 in
  lv_tokens g' = lv_tokens g /\ lv_gateway g' = lv_gateway g /\ rtc write_step (lv_tables g) (lv_tables g') /\
  (same_stores g g' \/
   exists h inv tm mid hash, lv_invites g !! h = Some inv /\ redeemable tm inv /\
     lv_invites g' = <[h := used_invite inv tm mid]> (lv_invites g) /\ lv_nextInvite g' = lv_nextInvite g /\
     lv_keys g' = with_keys (lv_keys g) (insert_key (api_keys (lv_keys g)) (issued_key inv hash))).
Proof.
  unfold serve_exchange. set (bd := decoded x (dec_struct exchange_field) zero_exchange body).
  assert (with_keys (lv_keys g) (api_keys (lv_keys g)) = lv_keys g) as Hkeep by (by destruct (lv_keys g)).
  unfold HandleExchangeInvite. destruct (check_exchange _ _ _ _ _) as [[req s]|resp|] eqn:Hc.
  - assert (s = invite_store g) as ->.
    { revert Hc. unfold check_exchange. destruct bd as [?|q]; [by do 2 (intros [_ Hc]%bind_reject_ok; revert Hc)|].
      do 4 (intros [_ Hc]%bind_reject_ok; revert Hc). cbn. by intros [= _ <-]. }
    destruct (en_random en) as [key|]; [|nothing_written Hkeep].
    destruct (x_gen x (hexEncode key)) as [hash|]; [|nothing_written Hkeep].
    change (@ConsumeAndIssueKey _ _ _ ?e ?s ?t ?m ?h) with (Pg_ConsumeAndIssueKey e.2 s t m h).
    destruct (Pg_Consume_cases (en_create en, en_tx en).2 (invite_store g) (sha256Hex (ei_InviteToken req)) (ei_MachineID req) hash)
      as [(inv & Hi & Hr & ->)|[err ->]]; [|nothing_written Hkeep].
    split_and!; [done|done|apply store_audit_steps|]. right. eexists _, inv, _, _, hash. by split_and!.
  - nothing_written Hkeep.
  - nothing_written Hkeep.
Qed.

(** Creating an invite: nothing but the sequence of ids changes, or an invite
    is added for a registered team, with the caller's name. *)
Lemma serve_create_effect en g r body tid :
  let g' := (serve_create x en g r body tid).1 in
  lv_keys g' = lv_keys g /\ lv_tokens g' = lv_tokens g /\ lv_gateway g' = lv_gateway g /\ rtc write_step (lv_tables g) (lv_tables g') /\
  (lv_invites g' = lv_invites g \/
   exists h inv, lv_invites g !! h = None /\ lv_invites g' = <[h := inv]> (lv_invites g) /\ inv_TokenHash inv = h /\ inv_UsedAt inv = None /\
     inv_CreatedBy inv = (if is_empty (GetUserID (Ctx r)) then "platform_admin" else GetUserID (Ctx r)) /\
     isAllowedInviteRole (inv_Role inv) = true /\ TeamRegistered (gy_teams (lv_gateway g)) (inv_TeamID inv) = true).
Proof.
  unfold serve_create. set (bd := decoded x (dec_struct create_field) zero_create body).
  assert (with_keys (lv_keys g) (api_keys (lv_keys g)) = lv_keys g) as Hkeep by (by destruct (lv_keys g)).
  unfold HandleAdminCreateInvite. destruct (check_create _ _ _ _ _) as [[req s]|resp|] eqn:Hc; [|nothing_written Hkeep..].
  apply check_create_ok in Hc as (_ & _ & _ & _ & _ & Hrole & _ & (f & [= <-] & Hteam) & [= <-]).
  destruct (en_random en) as [buf|]; [|nothing_written Hkeep].
  change (@Create _ _ _ ?e ?s ?i) with (Pg_Create e.1 (tx_now e.2) s i). unfold Pg_Create.
  destruct (en_create en); cbn [negb fst snd]; [|nothing_written Hkeep].
  destruct (decide (is_Some (invites (invite_store g) !! sha256Hex (hexEncode buf)))) as [Hi|Hi].
  - rewrite bool_decide_eq_true_2 by done. nothing_written Hkeep.
  - rewrite bool_decide_eq_false_2 by done. cbn -[store_audit]. split_and!; [done|done|done|apply store_audit_steps|].
    right. eexists _, _. split_and!; [|done..|exact Hrole|exact Hteam]. by apply eq_None_not_Some in Hi.
Qed.
End Effects.

(** ** Who can do what *)

Section Authority.
Context {js : JSON} {jd : JSONDecoder} {pgt : PgTypes} {sql : SQLOrder} {bcrypt : Bcrypt} {sha : Sha256}.
Context {cel : CEL} {srt : SortSlice} {rand : Random} (x : Outside).

(** The caller that the middleware lets through to a route outside the public
    paths. *)
Lemma AuthMiddleware_next env s r s' r' : rows env ≡ₚ live_rows (api_keys s) -> AuthMiddleware env s r = (s', Next r') ->
  Path r ∈ skip_paths /\ s' = s /\ r' = r \/
  exists token k, Path r ∉ skip_paths /\ Authorization r = "Bearer " +:+ token /\ HasPrefix token "setup_" = false /\
    s' = (lookupWithBcrypt env s token).1 /\ authentic env s token k /\ r' = with_identity r k.
Proof.
  intros Henv. unfold AuthMiddleware. case_bool_decide as Hp; [intros [= <- <-]; by left|].
  destruct (HasPrefix (Authorization r) "Bearer ") eqn:Hb; cbn [negb]; [|done]. apply HasPrefix_spec in Hb as [token Ht].
  rewrite Ht, TrimPrefix_app. destruct (HasPrefix token "setup_") eqn:Hs; [done|].
  destruct (LookupAPIKey env s token) as [s1 [k| |]] eqn:Hl; [|done..]. intros [= <- <-]. right. exists token, k.
  pose proof (@LookupAPIKey_sound _ _ Pg_KeyStore env s token k Henv) as Ha. cbn [LookupAPIKey Pg_KeyStore] in Hl, Ha.
  rewrite Hl in *. split_and!; try done. by apply Ha.
Qed.

Lemma AuthMiddleware_respond env s r s' st code msg : AuthMiddleware env s r = (s', Respond st code msg) -> s' = s /\ st = 401%Z.
Proof.
  unfold AuthMiddleware. case_bool_decide; [done|]. destruct (negb _); [by intros [= <- <-]|].
  destruct (HasPrefix _ "setup_"); [by intros [= <- <-]|]. cbn [LookupAPIKey Pg_KeyStore]. unfold lookupWithBcrypt, begin_lookup, finish_lookup.
  destruct (cache_hit _ _ _ _); [done|]. destruct (query_ok env); cbn [negb]; [|by intros [= <- <-]].
  destruct (Auth.scan_rows _ _); [done|]. by intros [= <- <-].
Qed.

Definition of_request (en : ReqEnv) (q : HttpRequest) : Request :=
  {| Method := ht_Method q; Path := ht_Path q; Authorization := ht_Authorization q;
     Ctx := (TraceIDMiddleware (en_minted en) (ht_Trace q) Background).1 |}.

(** A request is refused by the authentication, is not routed, is refused by
    the route's guard, or reaches its handler. *)
Lemma serve_cases en g q : rows (en_auth en) ≡ₚ live_rows (api_keys (lv_keys g)) ->
  (ht_Path q ∉ skip_paths /\ exists tid code msg, serve x en g q = (g, denied x tid 401 code msg)) \/
  exists s r, ((ht_Path q ∈ skip_paths /\ s = lv_keys g /\ r = of_request en q) \/
      exists token k, ht_Path q ∉ skip_paths /\ ht_Authorization q = "Bearer " +:+ token /\ HasPrefix token "setup_" = false /\
        s = (lookupWithBcrypt (en_auth en) (lv_keys g) token).1 /\ authentic (en_auth en) (lv_keys g) token k /\
        r = with_identity (of_request en q) k) /\
    match gw_route (ht_Method q) (ht_Path q) with
    | None => serve x en g q = (set_keys g s, x_unrouted x (ht_Method q) (ht_Path q))
    | Some (hd, roles) =>
        (roles <> [] /\ GetRole (Ctx r) ∉ roles /\ exists tid, serve x en g q = (set_keys g s, denied x tid 403 "forbidden" (GetRole (Ctx r)))) \/
        ((roles <> [] -> GetRole (Ctx r) ∈ roles) /\
         exists tid, serve x en g q = serve_handler x hd en (set_keys g s) r q tid)
    end.
Proof.
  intros Henv. unfold serve, of_request.
  destruct (TraceIDMiddleware (en_minted en) (ht_Trace q) Background) as [ctx tid]. cbn [fst].
  set (r0 := {| Method := ht_Method q |}).
  destruct (AuthMiddleware (en_auth en) (lv_keys g) r0) as [s [r|st code msg]] eqn:Ha.
  - right. exists s, r. apply AuthMiddleware_next in Ha; [|done].
    assert (Method r = ht_Method q /\ Path r = ht_Path q) as [-> ->] by (by destruct Ha as [(_ & _ & ->)|(? & ? & _ & _ & _ & _ & _ & ->)]).
    split; [naive_solver|]. destruct (gw_route _ _) as [[hd roles]|]; [|done].
    unfold route_guard. destruct roles as [|a roles]; [right; split; [done|by eexists]|]. unfold RequireRole.
    destruct (role_in _ _) eqn:Hr.
    + right. apply role_in_spec in Hr. split; [done|by eexists].
    + left. split_and!; [done| |by eexists]. intros Hin. apply role_in_spec in Hin. by rewrite Hin in Hr.
  - left. assert (ht_Path q ∉ skip_paths) as Hp.
    { intros Hin. revert Ha. unfold AuthMiddleware. by rewrite bool_decide_eq_true_2. }
    apply AuthMiddleware_respond in Ha as [-> ->]. split; [done|]. eexists _, _, _. by destruct g.
Qed.

(** Looking a key up keeps the rows' keys. *)
Lemma lookup_keeps env s tok h : row_key <$> api_keys (lookupWithBcrypt env s tok).1 !! h = row_key <$> api_keys s !! h.
Proof.
  unfold lookupWithBcrypt, begin_lookup, finish_lookup. destruct (cache_hit _ _ _ _); [done|]. destruct (query_ok env); cbn [negb]; [|done].
  destruct (Auth.scan_rows _ _) as [k|]; [|done]. cbn [fst api_keys].
  destruct (lookup_touch env (key_Hash k) (api_keys s) h) as (f & Hf & ->).
  destruct (api_keys s !! h); [|done]. cbn. f_equal. apply Hf.
Qed.

(** C7: access control of the whole gateway: whatever is asked for outside
    the four public paths, either the request carries a bearer key, not a setup
    token, that the key store vouches for, or the answer is a 401 and nothing
    at all has changed; and a caller whose key is not an administrator's gets
    a 403 from the administrators' route, after which no key, invite, token,
    table or budget has changed. *)
Theorem gateway_access_control en g q :
  rows (en_auth en) ≡ₚ live_rows (api_keys (lv_keys g)) -> ht_Path q ∉ skip_paths ->
  (exists tid code msg, serve x en g q = (g, denied x tid 401 code msg)) \/
  exists token k, ht_Authorization q = "Bearer " +:+ token /\ HasPrefix token "setup_" = false /\
    authentic (en_auth en) (lv_keys g) token k /\
    (ht_Method q = "POST" -> ht_Path q = "/api/v1/admin/invites" -> key_Role k <> RolePlatformAdmin ->
     let g' := (serve x en g q).1 in
     (exists tid, (serve x en g q).2 = denied x tid 403 "forbidden" (key_Role k)) /\
     (forall h, row_key <$> api_keys (lv_keys g') !! h = row_key <$> api_keys (lv_keys g) !! h) /\
     lv_tokens g' = lv_tokens g /\ lv_invites g' = lv_invites g /\ lv_tables g' = lv_tables g /\ lv_gateway g' = lv_gateway g).
Proof.
  intros Henv Hp. destruct (serve_cases en g q Henv) as [[_ Hd]|(s & r & Hr & Hc)]; [by left|]. right.
  destruct Hr as [[Hin _]|(token & k & _ & Ha & Hs & -> & Hk & ->)]; [done|]. exists token, k. split_and!; [done..|].
  intros Hm Hpath Hrole. rewrite Hm, Hpath in Hc. change (gw_route "POST" "/api/v1/admin/invites") with (Some (AdminInvites, [RolePlatformAdmin])) in Hc.
  change (GetRole (Ctx (with_identity _ k))) with (key_Role k) in Hc.
  destruct Hc as [(_ & _ & tid & ->)|[Hin _]]; [|by specialize (Hin ltac:(done)); set_solver].
  cbn zeta. split; [by exists tid|]. split; [|done]. intros h. apply lookup_keeps.
Qed.
End Authority.

(** ** Histories *)

Section History.
Context {js : JSON} {jd : JSONDecoder} {pgt : PgTypes} {sql : SQLOrder} {bcrypt : Bcrypt} {sha : Sha256}.
Context {cel : CEL} {srt : SortSlice} {rand : Random} (x : Outside).

(** The name an invite carries of its creator. *)
Definition creator (k : APIKey) : string := if is_empty (key_UserID k) then "platform_admin" else key_UserID k.

(** Why a key may exist: it was handed out for a setup token, or for an invite
    that an administrator with such a key has created. *)
Inductive authorised (g : Live) : APIKey -> Prop :=
| by_setup hash t tm : lv_tokens g !! t = Some (Some tm) -> authorised g (admin_key hash)
| by_invite t inv admin hash : lv_invites g !! t = Some inv -> is_Some (inv_UsedAt inv) ->
    authorised g admin -> key_Role admin = RolePlatformAdmin -> inv_CreatedBy inv = creator admin ->
    authorised g (issued_key inv hash).

Definition consumed (g : Live) : nat := size (filter (fun kv : string * option Z => is_Some kv.2) (lv_tokens g)).
Definition redeemed (g : Live) : nat := size (filter (fun kv : string * Invite => is_Some (inv_UsedAt kv.2)) (lv_invites g)).

Record chained (g : Live) : Prop := {
  ch_keys h row : api_keys (lv_keys g) !! h = Some row -> authorised g (row_key row);
  ch_cache p e : cache (lv_keys g) !! p = Some e -> authorised g (ce_key e);
  ch_invites t inv : lv_invites g !! t = Some inv ->
    exists admin, authorised g admin /\ key_Role admin = RolePlatformAdmin /\ inv_CreatedBy inv = creator admin;
  ch_count : size (api_keys (lv_keys g)) <= consumed g + redeemed g }.

(** Tokens stay consumed, invites stay what they are. *)
Definition same_invite (i i' : Invite) : Prop :=
  (forall h, issued_key i' h = issued_key i h) /\ inv_CreatedBy i' = inv_CreatedBy i /\ (is_Some (inv_UsedAt i) -> is_Some (inv_UsedAt i')).
Definition grows (g g' : Live) : Prop :=
  (forall t tm, lv_tokens g !! t = Some (Some tm) -> lv_tokens g' !! t = Some (Some tm)) /\
  (forall t inv, lv_invites g !! t = Some inv -> exists inv', lv_invites g' !! t = Some inv' /\ same_invite inv inv').

Lemma authorised_grows g g' k : grows g g' -> authorised g k -> authorised g' k.
Proof.
  intros [Ht Hi]. induction 1 as [hash t tm Htk|t inv admin hash Hinv Hu _ IH Hr Hc].
  - eapply by_setup. by apply Ht.
  - destruct (Hi t inv Hinv) as (inv' & Hinv' & Hk & Hcb & Hus). rewrite <- Hk.
    eapply by_invite; [exact Hinv'|by apply Hus|exact IH|done|congruence].
Qed.

Lemma grows_same g g' : lv_tokens g' = lv_tokens g -> lv_invites g' = lv_invites g -> grows g g'.
Proof. intros Ht Hi. split; [by rewrite Ht|]. rewrite Hi. intros t inv H. exists inv. by split. Qed.

(** A state in which only the cache and the times of last use differ. *)
Lemma chained_lookup g env tok : rows env ≡ₚ live_rows (api_keys (lv_keys g)) -> chained g ->
  chained (set_keys g (lookupWithBcrypt env (lv_keys g) tok).1).
Proof.
  intros Henv [Hk Hc Hi Hn]. set (g' := set_keys _ _). assert (grows g g') as Hg by (by apply grows_same).
  assert (forall h row, api_keys (lv_keys g') !! h = Some row -> exists row0, api_keys (lv_keys g) !! h = Some row0 /\ row_key row0 = row_key row) as Hrow.
  { intros h row Hh. pose proof (lookup_keeps env (lv_keys g) tok h) as He. change (lv_keys g') with (lookupWithBcrypt env (lv_keys g) tok).1 in Hh.
    rewrite Hh in He. destruct (api_keys (lv_keys g) !! h) as [row0|]; [|done]. exists row0. split; [done|]. by injection He. }
  split.
  - intros h row (row0 & H0 & <-)%Hrow. eapply authorised_grows; eauto.
  - intros p e. cbn [g' lv_keys set_keys]. destruct (lookup_effect env (lv_keys g) tok Henv) as [->|(p0 & r & h & Hr & _ & ->)];
      cbn [cache]; [intros ?%Hc; by eapply authorised_grows|].
    destruct (decide (p = p0)) as [->|]; [rewrite lookup_insert_eq; intros [= <-]|rewrite lookup_insert_ne by done; intros ?%Hc];
      eapply authorised_grows; eauto.
  - intros t inv (a & Ha & ?)%Hi. exists a. split; [by eapply authorised_grows|done].
  - cbn [g' lv_keys set_keys]. destruct (lookup_effect env (lv_keys g) tok Henv) as [->|(p0 & r & h & Hr & _ & ->)]; [done|].
    cbn [api_keys]. unfold touch. destruct (exec_ok env); [|done]. by rewrite <- size_dom, dom_alter_L, size_dom.
Qed.

Lemma chained_same g g' : same_stores g g' -> chained g -> chained g'.
Proof.
  intros (Hk & Ht & Hi & _) [H1 H2 H3 H4]. assert (grows g g') as Hg by (by apply grows_same).
  split; rewrite ?Hk, ?Hi; [intros h row ?%H1; by eapply authorised_grows|intros p e ?%H2; by eapply authorised_grows| |].
  - intros t inv (a & Ha & ?)%H3. exists a. split; [by eapply authorised_grows|done].
  - unfold consumed, redeemed in *. by rewrite Ht, Hi.
Qed.

(** Adding a key. *)
Lemma insert_key_size t k : size (insert_key t k) <= S (size t).
Proof. unfold insert_key. destruct (t !! key_Hash k) eqn:H; [lia|]. by rewrite map_size_insert_None. Qed.

Lemma filter_size_flip {A} (P : string * A -> Prop) `{!forall kv, base.Decision (P kv)} (m : gmap string A) k old new :
  m !! k = Some old -> ~ P (k, old) -> P (k, new) -> size (filter P (<[k := new]> m)) = S (size (filter P m)).
Proof.
  intros Hk Hold Hnew. rewrite map_filter_insert_True by done. apply map_size_insert_None. apply map_lookup_filter_None.
  right. intros v Hv. by simplify_eq.
Qed.

Lemma chained_setup g g' h tm keys : chained g -> lv_tokens g !! h = Some None -> lv_tokens g' = <[h := Some tm]> (lv_tokens g) ->
  lv_invites g' = lv_invites g -> lv_keys g' = with_keys (lv_keys g) keys ->
  (keys = api_keys (lv_keys g) \/ exists hash, keys = insert_key (api_keys (lv_keys g)) (admin_key hash)) -> chained g'.
Proof.
  intros [H1 H2 H3 H4] Hopen Ht Hi Hk Hkeys.
  assert (grows g g') as Hg.
  { split; [|rewrite Hi; intros t inv Hinv; exists inv; by split]. intros t tm0 H. rewrite Ht.
    destruct (decide (t = h)) as [->|]; [by rewrite Hopen in H|by rewrite lookup_insert_ne]. }
  split; rewrite ?Hk; cbn [with_keys api_keys cache].
  - intros i row Hrow. destruct Hkeys as [->|[hash ->]]; [eapply authorised_grows; eauto|].
    apply lookup_insert_key in Hrow as [?|(_ & _ & -> & _)]; [eapply authorised_grows; eauto|].
    eapply by_setup. rewrite Ht. apply lookup_insert_eq.
  - intros p e ?%H2. by eapply authorised_grows.
  - rewrite Hi. intros t inv (a & Ha & ?)%H3. exists a. split; [by eapply authorised_grows|done].
  - unfold consumed, redeemed in *. rewrite Hi, Ht.
    rewrite (filter_size_flip _ _ h None) by (try done; by intros [? [=]]).
    destruct Hkeys as [->|[hash ->]]; [lia|]. pose proof (insert_key_size (api_keys (lv_keys g)) (admin_key hash)). lia.
Qed.

Lemma chained_exchange g g' h inv tm mid hash : chained g -> lv_invites g !! h = Some inv -> redeemable tm inv ->
  lv_invites g' = <[h := used_invite inv tm mid]> (lv_invites g) -> lv_tokens g' = lv_tokens g ->
  lv_keys g' = with_keys (lv_keys g) (insert_key (api_keys (lv_keys g)) (issued_key inv hash)) -> chained g'.
Proof.
  intros [H1 H2 H3 H4] Hinv [Hu _] Hi Ht Hk.
  assert (grows g g') as Hg.
  { split; [by rewrite Ht|]. intros t i0 H0. rewrite Hi. destruct (decide (t = h)) as [->|].
    - rewrite lookup_insert_eq. rewrite Hinv in H0. injection H0 as <-. eexists. split; [done|]. split_and!; [done..|]. by intros _; eexists.
    - rewrite lookup_insert_ne by done. exists i0. by split. }
  assert (forall t i', lv_invites g' !! t = Some i' -> exists i0, lv_invites g !! t = Some i0 /\ inv_CreatedBy i' = inv_CreatedBy i0) as Hback.
  { intros t i'. rewrite Hi. destruct (decide (t = h)) as [->|]; [rewrite lookup_insert_eq; intros [= <-]; by exists inv|].
    rewrite lookup_insert_ne by done. intros ?. by exists i'. }
  split; rewrite ?Hk; cbn [with_keys api_keys cache].
  - intros i row [?|(_ & _ & -> & _)]%lookup_insert_key; [eapply authorised_grows; eauto|].
    destruct (H3 h inv Hinv) as (a & Ha & Hr & Hc). change (issued_key inv hash) with (issued_key (used_invite inv tm mid) hash).
    eapply by_invite; [rewrite Hi; apply lookup_insert_eq|by eexists|by eapply authorised_grows|done|exact Hc].
  - intros p e ?%H2. by eapply authorised_grows.
  - intros t i' (i0 & H0 & Hc)%Hback. destruct (H3 t i0 H0) as (a & Ha & Hr & Hc'). exists a.
    split; [by eapply authorised_grows|]. split; [done|congruence].
  - unfold consumed, redeemed in *. rewrite Hi, Ht. rewrite (filter_size_flip _ _ h inv) by (done || (cbn; rewrite Hu; by intros [? [=]]) || by eexists).
    pose proof (insert_key_size (api_keys (lv_keys g)) (issued_key inv hash)). lia.
Qed.

Lemma chained_create g g' h inv admin : chained g -> authorised g admin -> key_Role admin = RolePlatformAdmin ->
  inv_CreatedBy inv = creator admin -> lv_invites g !! h = None -> inv_UsedAt inv = None ->
  lv_invites g' = <[h := inv]> (lv_invites g) -> lv_tokens g' = lv_tokens g -> lv_keys g' = lv_keys g -> chained g'.
Proof.
  intros [H1 H2 H3 H4] Ha Hr Hc Hnone Hu Hi Ht Hk.
  assert (grows g g') as Hg.
  { split; [by rewrite Ht|]. intros t i0 H0. rewrite Hi. rewrite lookup_insert_ne by congruence. exists i0. by split. }
  split; rewrite ?Hk.
  - intros i row ?%H1. by eapply authorised_grows.
  - intros p e ?%H2. by eapply authorised_grows.
  - intros t i'. rewrite Hi. destruct (decide (t = h)) as [->|].
    + rewrite lookup_insert_eq. intros [= <-]. exists admin. split; [by eapply authorised_grows|done].
    + rewrite lookup_insert_ne by done. intros (a & Ha' & ?)%H3. exists a. split; [by eapply authorised_grows|done].
  - unfold consumed, redeemed in *. rewrite Hi, Ht. rewrite map_filter_insert_False by (cbn; rewrite Hu; by intros [? [=]]).
    rewrite map_filter_delete, delete_id; [done|]. apply map_lookup_filter_None. by left.
Qed.

(** What an authenticated caller is vouched for is authorised. *)
Lemma authentic_authorised g env token k : chained g -> authentic env (lv_keys g) token k -> authorised g k.
Proof. intros Hch [_ [(h & r & Hr & _ & <-)|(p & e & He & <- & _)]]; [by eapply ch_keys|by eapply ch_cache]. Qed.

Lemma chained_handler hd roles en g r q tid :
  chained g -> gw_route (ht_Method q) (ht_Path q) = Some (hd, roles) ->
  (hd = AdminInvites -> exists k, authorised g k /\ key_Role k = RolePlatformAdmin /\ GetUserID (Ctx r) = key_UserID k) ->
  chained (serve_handler x hd en g r q tid).1.
Proof.
  intros Hch _ Hadmin. destruct hd; cbn [serve_handler fst]; try exact Hch.
  - destruct (serve_forward_effect x en g r (ht_Body q)) as [Hs _]. by eapply chained_same.
  - destruct (serve_setup_effect x en g r tid) as (Hi & Hn & _ & _ & [[Hk Ht]|(h & tm & Ho & Ht & Hk)]).
    + eapply chained_same; [|exact Hch]. by split_and!.
    + destruct Hk as [Hk|[hash Hk]]; [|by eapply (chained_setup g); eauto].
      apply (chained_setup g _ h tm (api_keys (lv_keys g))); auto. rewrite Hk. by destruct (lv_keys g).
  - destruct (serve_exchange_effect x en g r (ht_Body q) tid) as (Ht & _ & _ & [Hs|(h & inv & tm & mid & hash & Hi & Hr & Hi' & _ & Hk)]);
      [by eapply chained_same|by eapply (chained_exchange g)].
  - destruct (Hadmin eq_refl) as (k & Hk & Hrole & Huser).
    destruct (serve_create_effect x en g r (ht_Body q) tid) as (Hkeys & Ht & _ & _ & [Hi|(h & inv & Hn & Hi & _ & Hu & Hc & _)]).
    + destruct Hch as [H1 H2 H3 H4]. set (g' := (serve_create _ _ _ _ _ _).1) in *. assert (grows g g') as Hg by (by apply grows_same).
      split; rewrite ?Hkeys, ?Hi; [intros ?? ?%H1; by eapply authorised_grows|intros ?? ?%H2; by eapply authorised_grows| |].
      * intros t i (a & Ha & ?)%H3. exists a. split; [by eapply authorised_grows|done].
      * unfold consumed, redeemed in *. by rewrite Ht, Hi.
    + eapply (chained_create g _ h inv k); try done. rewrite Hc, Huser. done.
Qed.

Lemma chained_event g ev : answers_honestly g ev -> chained g -> chained (gw_event x g ev).
Proof.
  intros Hh Hch. destruct ev as [en q|cfg|db order now|env]; cbn [gw_event].
  - cbn in Hh. destruct (serve_cases x en g q Hh) as [(_ & tid & code & msg & ->)|(s & r & Hr & Hc)]; [done|].
    assert (chained (set_keys g s)) as Hch'.
    { destruct Hr as [(_ & -> & _)|(token & k & _ & _ & _ & -> & _)]; [by destruct g|by apply chained_lookup]. }
    destruct (gw_route _ _) as [[hd roles]|] eqn:Hroute; [|by rewrite Hc].
    destruct Hc as [(_ & _ & tid & ->)|(Hrole & tid & ->)]; [done|]. eapply chained_handler; [done..|]. intros ->.
    assert (roles = [RolePlatformAdmin] /\ ht_Path q ∉ skip_paths) as [-> Hp].
    { apply gw_route_admin in Hroute as [-> ->]. split; [done|]. unfold skip_paths. set_solver. }
    destruct Hr as [[? _]|(token & k & _ & _ & _ & -> & Ha & ->)]; [done|]. exists k. split_and!; [|specialize (Hrole ltac:(done)); by apply list_elem_of_singleton in Hrole|done].
    eapply authorised_grows; [|exact (authentic_authorised g _ _ _ Hch Ha)]. by apply grows_same.
  - eapply chained_same; [|exact Hch]. done.
  - unfold sweep. destruct (settler_tick _ _ _ _) as [svc cbs]. by apply (chained_same g).
  - destruct Hch as [H1 H2 H3 H4]. assert (grows g (set_keys g (reap env (lv_keys g)))) as Hg by (by apply grows_same).
    split; cbn [lv_keys set_keys reap with_cache api_keys cache].
    + intros ?? ?%H1. by eapply authorised_grows.
    + intros p e [?%H2 _]%map_lookup_filter_Some. by eapply authorised_grows.
    + intros t i (a & Ha & ?)%H3. exists a. split; [by eapply authorised_grows|done].
    + done.
Qed.

(** C3: the chain of authority: start a gateway on a database without keys and
    invites, and let any requests, reloads, settler and reaper ticks happen in
    any order.  Then every API key in the table and every key in the cache was
    handed out for a setup token that is now consumed, or for an invite that a
    platform administrator whose own key has such an origin has created, with
    the invite's user, team and role; every invite names such an
    administrator; and there are no more keys than consumed setup tokens and
    redeemed invites. *)
Theorem authority_chain g0 g :
  lv_keys g0 = empty_store -> lv_invites g0 = ∅ -> rtc (gw_step x) g0 g ->
  (forall h row, api_keys (lv_keys g) !! h = Some row -> authorised g (row_key row)) /\
  (forall p e, cache (lv_keys g) !! p = Some e -> authorised g (ce_key e)) /\
  (forall t inv, lv_invites g !! t = Some inv ->
     exists admin, authorised g admin /\ key_Role admin = RolePlatformAdmin /\ inv_CreatedBy inv = creator admin) /\
  size (api_keys (lv_keys g)) <= consumed g + redeemed g.
Proof.
  intros Hk Hi Hst. assert (chained g) as []; [|done].
  assert (chained g0) as H0.
  { split; rewrite ?Hk, ?Hi; cbn; [intros ??; by rewrite lookup_empty..|]. rewrite map_size_empty. lia. }
  clear Hk Hi. induction Hst as [|g1 g2 g3 [g ev Hh] _ IH]; [done|]. apply IH. by apply chained_event.
Qed.

(** *** Data *)

Record gw_inv (g : Live) : Prop := {
  gi_tables : tables_ok (lv_tables g);
  gi_budget : map_Forall wf_reservation (table (gy_budget (lv_gateway g)));
  gi_keys h r : api_keys (lv_keys g) !! h = Some r -> key_Hash (row_key r) = h;
  gi_invites t inv : lv_invites g !! t = Some inv -> inv_TokenHash inv = t }.

Lemma budget_step_wf s s' : budget_step s s' -> map_Forall wf_reservation (table s) -> map_Forall wf_reservation (table s').
Proof.
  intros Hst Hw. destruct Hst as [db db' s id now tr te us team cents|rsv db now s res|db order s now age|s t c].
  - unfold Pg_Reserve. destruct (uuid_text tr); [|done]. destruct (_ || _); [done|]. cbn. by apply map_Forall_insert_2.
  - unfold PostAccount. destruct rsv as [id|]; [|done]. destruct (res_Err res).
    + unfold Pg_Release. destruct db; cbn [negb]; [|done]. destruct (table s !! id) as [r|] eqn:Hr; [|done].
      destruct (decide _); [|done]. cbn. apply map_Forall_insert_2; [|done]. destruct (Hw id r Hr) as [Hid _]. split; [done|]. cbn. by eexists.
    + unfold Pg_Commit. destruct (_ || _); [done|]. destruct (table s !! id) as [r|] eqn:Hr; [|done].
      destruct (decide _); [|done]. cbn. apply map_Forall_insert_2; [|done]. destruct (Hw id r Hr) as [Hid _]. split; [done|]. cbn. by split; eexists.
  - unfold Pg_ReleaseExpired. destruct db; cbn [negb]; [|done]. cbn. intros i r (r0 & <- & Hr0)%lookup_fmap_Some.
    specialize (Hw i r0 Hr0). unfold expire. destruct (stale _ r0) eqn:Hs; [|done]. destruct Hw as [Hid Hw]. split; [done|].
    unfold stale in Hs. destruct (r_State r0); try done. cbn. destruct Hw. split; [done|by eexists].
  - done.
Qed.

Lemma gw_inv_parts g g' : gw_inv g -> rtc write_step (lv_tables g) (lv_tables g') ->
  rtc budget_step (gy_budget (lv_gateway g)) (gy_budget (lv_gateway g')) ->
  (forall h r, api_keys (lv_keys g') !! h = Some r -> api_keys (lv_keys g) !! h = Some r \/ key_Hash (row_key r) = h) ->
  (forall t inv, lv_invites g' !! t = Some inv -> lv_invites g !! t = Some inv \/ inv_TokenHash inv = t) -> gw_inv g'.
Proof.
  intros [H1 H2 H3 H4] Ht Hb Hk Hi. split.
  - clear -H1 Ht. induction Ht; eauto using write_step_ok.
  - clear -H2 Hb. induction Hb; eauto using budget_step_wf.
  - intros h r [?|?]%Hk; eauto.
  - intros t inv [?|?]%Hi; eauto.
Qed.

Lemma gw_inv_keys g s : gw_inv g -> (forall h, row_key <$> api_keys s !! h = row_key <$> api_keys (lv_keys g) !! h) -> gw_inv (set_keys g s).
Proof.
  intros [H1 H2 H3 H4] Hs. split; try done. intros h r Hr. cbn [lv_keys set_keys] in Hr. specialize (Hs h). rewrite Hr in Hs.
  destruct (api_keys (lv_keys g) !! h) as [r0|] eqn:H0; [|done]. injection Hs as ->. by apply H3.
Qed.

Lemma gw_inv_handler hd en g r q tid : gw_inv g -> gw_inv (serve_handler x hd en g r q tid).1.
Proof.
  intros Hg. destruct hd; cbn [serve_handler fst]; try exact Hg.
  - destruct (serve_forward_effect x en g r (ht_Body q)) as ((Hk & _ & Hi & _) & Ht & Hb).
    eapply (gw_inv_parts g); [done..| |]; rewrite ?Hk, ?Hi; by left.
  - destruct (serve_setup_effect x en g r tid) as (Hi & _ & Ht & Hgw & Hc).
    eapply (gw_inv_parts g); [done|by rewrite Ht|by rewrite Hgw| |rewrite Hi; by left].
    destruct Hc as [[-> _]|(h & tm & _ & _ & [->|[hash ->]])]; [by left..|].
    intros i row [?|(_ & -> & -> & _)]%lookup_insert_key; [by left|by right].
  - destruct (serve_exchange_effect x en g r (ht_Body q) tid) as (_ & Hgw & Ht & Hc).
    eapply (gw_inv_parts g); [done|done|by rewrite Hgw| |]; destruct Hc as [(Hk & _ & Hi & _)|(h & inv & tm & mid & hash & Hinv & _ & Hi & _ & Hk)];
      rewrite ?Hk, ?Hi; try by left.
    + intros i row [?|(_ & -> & -> & _)]%lookup_insert_key; [by left|by right].
    + intros t i. destruct (decide (t = h)) as [->|]; [rewrite lookup_insert_eq; intros [= <-]|rewrite lookup_insert_ne by done; by left].
      right. by apply (gi_invites g Hg h inv).
  - destruct (serve_create_effect x en g r (ht_Body q) tid) as (Hk & _ & Hgw & Ht & Hc).
    eapply (gw_inv_parts g); [done|done|by rewrite Hgw|rewrite Hk; by left|].
    destruct Hc as [->|(h & inv & _ & -> & Hh & _)]; [by left|].
    intros t i. destruct (decide (t = h)) as [->|]; [rewrite lookup_insert_eq; intros [= <-]; by right|rewrite lookup_insert_ne by done; by left].
Qed.

Lemma gw_inv_event g ev : answers_honestly g ev -> gw_inv g -> gw_inv (gw_event x g ev).
Proof.
  intros Hh Hg. destruct ev as [en q|cfg|db order now|env]; cbn [gw_event].
  - cbn in Hh. destruct (serve_cases x en g q Hh) as [(_ & tid & code & msg & ->)|(s & r & Hr & Hc)]; [done|].
    assert (gw_inv (set_keys g s)) as Hg'.
    { apply gw_inv_keys; [done|]. destruct Hr as [(_ & -> & _)|(token & k & _ & _ & _ & -> & _)]; [done|]. intros h. apply lookup_keeps. }
    destruct (gw_route _ _) as [[hd roles]|] eqn:Hroute; [|by rewrite Hc].
    destruct Hc as [(_ & _ & tid & ->)|(_ & tid & ->)]; [done|]. by apply gw_inv_handler.
  - eapply (gw_inv_parts g); [done|done| |by left|by left]. cbn. unfold set_caps. generalize (gy_budget (lv_gateway g)) as svc.
    induction (Teams (cfg_Identity cfg)) as [|t ts IH]; intros svc; [done|]. cbn [fold_left]. eapply rtc_l; [constructor|apply IH].
  - unfold sweep, settler_tick. destruct (Pg_ReleaseExpired _ _ _ _ _) as [svc ids] eqn:He. cbn iota beta.
    eapply (gw_inv_parts g); [done|done| |by left|by left]. apply rtc_once. cbn. change svc with (svc, ids).1. rewrite <- He. constructor.
  - by apply gw_inv_keys.
Qed.

(** C10: the data of a running gateway stays well-formed: whatever requests,
    reloads and ticks happen, and whatever the database answers, every row of
    the event tables fits its columns, every reservation's fields agree with
    its state, keys are stored under their hash and invites under the hash of
    their token. *)
Theorem gateway_data_invariant g0 g : gw_inv g0 -> rtc (gw_step x) g0 g -> gw_inv g.
Proof. intros H0 Hst. induction Hst as [|g1 g2 g3 [g ev Hh] _ IH]; [done|]. apply IH. by apply gw_inv_event. Qed.
End History.

(** ** A gateway *)

(** Documents one to a line. *)
Fixpoint drop_newlines (s : string) : string :=
  match s with
  | String c s => if Ascii.eqb c newline then drop_newlines s else String c (drop_newlines s)
  | EmptyString => ""
  end.
Lemma drop_newlines_free s : free_of newline s = true -> drop_newlines s = s /\ drop_newlines (s +:+ String newline "") = s.
Proof.
  induction s as [|c s IH]; cbn [free_of]; [done|]. destruct (Ascii.eqb c newline) eqn:Hc; cbn [negb andb]; [done|].
  intros [H1 H2]%IH. change (String c s +:+ ?x) with (String c (s +:+ x)).
  cbn [drop_newlines]. by rewrite Hc, H1, H2.
Qed.
Definition line_json : JSON :=
  {| parseJSON := fun s => @parseJSON coded_json (drop_newlines s); printJSON := @printJSON coded_json;
     parseFloat := @parseFloat coded_json; numberJSON := @numberJSON coded_json;
     printJSON_one_line := @printJSON_one_line coded_json |}.
Definition line_decoder : @JSONDecoder line_json := {| firstJSON := @parseJSON line_json; firstJSON_whole := fun _ _ H => H |}.
Lemma line_json_read_back v : @parseJSON line_json (@printJSON line_json v) = Some v.
Proof.
  destruct (@printJSON_one_line line_json v) as [Hf _]. destruct (drop_newlines_free _ Hf) as [H1 _].
  cbn [parseJSON printJSON line_json] in *. by rewrite H1, coded_json_read_back.
Qed.
Lemma line_json_read_line v : @parseJSON line_json (@encoded line_json v) = Some v.
Proof.
  destruct (@printJSON_one_line line_json v) as [Hf _]. destruct (drop_newlines_free _ Hf) as [_ H2].
  unfold encoded. cbn [parseJSON printJSON line_json] in *. by rewrite H2, coded_json_read_back.
Qed.

Module Sample.
#[export] Existing Instances sample_cel mergeSortSlice sample_sha sample_bcrypt sample_random strict_types merge_order line_json line_decoder.

(** A provider that answers with one frame. *)
Definition provider_text : string := "event: ping" +:+ (nl +:+ ("data: x" +:+ (nl +:+ nl))).
Definition outside : Outside :=
  {| x_overflow := fun _ => 0%Z; x_validURL := fun _ => true; x_upstream := fun _ _ => Response 200 provider_text None; x_quote := fun s => dq +:+ (s +:+ dq);
     x_decodeError := "invalid character"; x_gen := fun c => Some ("$2a$10$" +:+ c); x_jsonb := fun _ => "{}";
     x_unrouted := fun _ _ => Replied 404 ∅ [("404 page not found", None)]; x_metrics := Replied 200 ∅ []; x_uuid := fun _ => "" |}.
(** A request at [t], the database and the random source willing. *)
Definition env_at (t : Z) (key : list Z) (g : Live) : ReqEnv :=
  {| en_now := t; en_minted := sample_trace; en_minted' := "t1"; en_auth := Auth.sample_env t (live_rows (api_keys (lv_keys g)));
     en_store := Auth.sample_env t []; en_token := (true, true); en_create := true; en_tx := tx_ok t; en_random := Some key;
     en_query := true; en_ping := true; en_run := Pipeline.sample_env; en_audit := true; en_routing := true; en_raw := true;
     en_cost := true; en_settle := (true, t); en_client := None; en_cut := [] |}.
Definition asks (m p a b : string) : HttpRequest :=
  {| ht_Method := m; ht_Path := p; ht_Query := []; ht_Authorization := a; ht_Trace := ""; ht_Body := Some b |}.

(** A gateway after its start: no keys, one setup token. *)
Definition booted : Live :=
  {| lv_keys := empty_store; lv_tokens := {[sha256Hex "setup_ab" := None]}; lv_invites := ∅; lv_nextInvite := 1;
     lv_tables := empty_tables;
     lv_gateway := {| gy_view := old_view; gy_budget := NewPgService; gy_teams := {["core"]}; gy_setupToken := None |};
     lv_log := no_log |}.
Definition setup : GwEvent :=
  Arrives (env_at 1 [1; 171]%Z booted) (asks "POST" "/api/v1/lp/exchange-setup" "Bearer setup_ab" "").
Definition with_admin : Live := gw_event outside booted setup.
Definition invite : GwEvent :=
  Arrives (env_at 2 [2; 3]%Z with_admin) (asks "POST" "/api/v1/admin/invites" "Bearer 01ab" (printJSON
    (JObj [("user_id", JStr "bob"); ("team_id", JStr "core"); ("role", JStr "developer"); ("ttl_hours", JInt 1)]))).
Definition with_invite : Live := gw_event outside with_admin invite.
Definition redeem : GwEvent :=
  Arrives (env_at 3 [4]%Z with_invite) (asks "POST" "/api/v1/lp/exchange-invite" "" (printJSON
    (JObj [("invite_token", JStr "0203"); ("machine_id", JStr "box")]))).
Definition with_user : Live := gw_event outside with_invite redeem.

Lemma history : rtc (gw_step outside) booted with_user.
Proof.
  eapply rtc_l; [exact (gw_happens outside booted setup (reflexivity _))|].
  eapply rtc_l; [exact (gw_happens outside with_admin invite (reflexivity _))|].
  eapply rtc_l; [exact (gw_happens outside with_invite redeem (reflexivity _))|apply rtc_refl].
Qed.

(** The key of the invited user opens nothing else. *)
Lemma developer_only env k : authentic env (lv_keys with_user) "04" k -> key_Role k = "developer".
Proof.
  set (ok k := negb (CompareHashAndPassword (key_Hash k) "04") || String.eqb (key_Role k) "developer").
  assert (map_Forall (fun _ r => ok (row_key r) = true) (api_keys (lv_keys with_user))) as Hrows by (apply (bool_decide_unpack _); by vm_compute).
  assert (map_Forall (fun _ e => ok (ce_key e) = true) (cache (lv_keys with_user))) as Hcache by (apply (bool_decide_unpack _); by vm_compute).
  unfold ok in *. intros [Hm [(h & r & Hr & _ & <-)|(p & e & He & <- & _)]];
    [specialize (Hrows h r Hr); cbn beta in Hrows; rewrite Hm in Hrows|specialize (Hcache p e He); cbn beta in Hcache; rewrite Hm in Hcache];
    by apply String.eqb_eq.
Qed.

Definition forbidden : HttpRequest := asks "POST" "/api/v1/admin/invites" "Bearer 04" "".
Lemma gateway_access_control_witness :
  exists tid, (serve outside (env_at 4 [] with_user) with_user forbidden).2 = denied outside tid 403 "forbidden" "developer".
Proof.
  destruct (gateway_access_control outside (env_at 4 [] with_user) with_user forbidden)
    as [(tid & code & msg & He)|(token & k & Ht & _ & Ha & Hf)].
  - reflexivity.
  - unfold skip_paths. cbn. set_solver.
  - exfalso. apply (f_equal (fun p => match p.2 with Replied st _ _ => st | _ => 0%Z end)) in He. unfold denied in He.
    destruct (String.eqb code "panic"); vm_compute in He; discriminate.
  - injection Ht as <-. apply developer_only in Ha as Hrole.
    destruct (Hf eq_refl eq_refl) as [[tid Htid] _]; [by rewrite Hrole|]. exists tid. by rewrite Htid, Hrole.
Defined.

Lemma authority_chain_witness :
  exists row, api_keys (lv_keys with_user) !! "$2a$10$04" = Some row /\ key_UserID (row_key row) = "bob" /\
    authorised with_user (row_key row) /\ (size (api_keys (lv_keys with_user)) <= consumed with_user + redeemed with_user)%nat.
Proof.
  destruct (authority_chain outside booted with_user eq_refl eq_refl history) as (Hk & _ & _ & Hn).
  destruct (api_keys (lv_keys with_user) !! "$2a$10$04") as [row|] eqn:Hr; [|vm_compute in Hr; discriminate].
  exists row. split; [reflexivity|]. split; [|split; [exact (Hk _ _ Hr)|exact Hn]].
  assert ((fun r => key_UserID (row_key r)) <$> api_keys (lv_keys with_user) !! "$2a$10$04" = Some "bob") as Hb by (vm_compute; reflexivity).
  rewrite Hr in Hb. by injection Hb.
Defined.

Lemma gateway_data_invariant_witness : gw_inv with_user.
Proof.
  apply (gateway_data_invariant outside booted with_user); [|exact history]. split.
  - apply empty_tables_ok.
  - apply map_Forall_empty.
  - intros h r Hr. cbn in Hr. by rewrite lookup_empty in Hr.
  - intros t i Hi. cbn in Hi. by rewrite lookup_empty in Hi.
Defined.
End Sample.
