(* ===== verification/EndToEnd.v ===== *)
(** * The programs together

    The commands of the local proxy against the gateway of [Server]: [aicg]
    commands of [Cli] and the daemon of [LocalProxy] send the requests of
    [GwClient] to the whole gateway, middleware, routes, handlers and tables
    included, and read its replies. *)

From Stdlib Require Import Ascii.
From stdpp Require Import sorting base gmap strings fin_maps numbers pretty list.
From S2P Require Import Prelude Postgres GoData Config Policy Routing Budget Cost Edge Auth Handlers Json Stream Provider Pipeline Relay Calendar LocalState Ledger GwClient Reload LocalProxy Stats Cli Storage Dashboard Gateway Server.
Local Open Scope string_scope.

(** ** Requests of the client *)

Lemma query_get_params dim from to :
  let q := (query_param "dim" dim ++ query_param "from" from ++ query_param "to" to)%list in
  query_get "dim" q = dim /\ query_get "from" q = from /\ query_get "to" q = to.
Proof.
  unfold query_param.
  destruct (is_empty dim) eqn:Hd, (is_empty from) eqn:Hf, (is_empty to) eqn:Ht;
    rewrite ?is_empty_true in *; by subst.
Qed.

(** A URL without query and fragment. *)
Lemma of_client_path base q path : q_URL q = base +:+ path -> free_of "#" path = true -> free_of "?" path = true ->
  of_client base q = {| ht_Method := q_Method q; ht_Path := path; ht_Query := q_Query q;
    ht_Authorization := default "" (q_Authorization q); ht_Trace := ""; ht_Body := Some (default "" (q_Body q)) |}.
Proof.
  intros Hu Hh Hq. unfold of_client. rewrite Hu, str_drop_app. apply split_at_None in Hh, Hq. rewrite Hh.
  cbn [fmap option_fmap option_map default from_option id]. rewrite Hq. cbn. by rewrite app_nil_r.
Qed.

(** Hexadecimal text is not a setup token. *)
Lemma hexEncode_not_setup bs : Forall (fun b => 0 <= b < 256)%Z bs -> HasPrefix (hexEncode bs) "setup_" = false.
Proof.
  intros H. destruct bs as [|b bs]; [done|]. apply Forall_cons in H as [Hb _].
  destruct (HasPrefix (hexEncode (b :: bs)) "setup_") eqn:Hp; [|done]. exfalso.
  apply HasPrefix_spec in Hp as [t Ht]. cbn [hexEncode] in Ht. change ("setup_" +:+ t) with (String "s" ("etup_" +:+ t)) in Ht.
  injection Ht as Hs _. assert (0 <= Z.shiftr b 4 < 16)%Z as Hr.
  { rewrite Z.shiftr_div_pow2 by lia. change (2 ^ 4)%Z with 16%Z. split; [apply Z.div_pos; lia|apply Z.div_lt_upper_bound; lia]. }
  apply hexdigit_val in Hr as Hv. rewrite Hs in Hv. change (hexval "s") with 28%Z in Hv. lia.
Qed.

Lemma ParseDate_empty d : four_digit_year d -> is_empty (FormatDate d) = false.
Proof. intros Hd. apply is_empty_false. intros He. pose proof (ParseDate_FormatDate d Hd) as Hp. by rewrite He in Hp. Qed.

Lemma parse_bound_day d : four_digit_year d -> parse_bound (FormatDate d) = Some (Some (d * 86400 * 10 ^ 6)%Z).
Proof. intros Hd. unfold parse_bound. by rewrite ParseDate_empty, ParseDate_FormatDate. Qed.

(** The day of an event. *)
Definition day_of (r : CostRow) : Z := (co_event_at r / (86400 * 10 ^ 6))%Z.
Definition last_days (days today : Z) (r : CostRow) : Prop := (today - days < day_of r <= today)%Z.
#[export] Instance last_days_dec days today r : base.Decision (last_days days today r).
Proof. unfold last_days. apply _. Defined.

(** The half-open range of midnights is a range of whole days. *)
Lemma in_period_days days today r :
  in_period (Some ((today - (days - 1)) * 86400 * 10 ^ 6)%Z) (Some ((today + 1) * 86400 * 10 ^ 6)%Z) r = true <->
  last_days days today r.
Proof.
  unfold in_period, last_days, day_of. rewrite andb_true_iff, Z.leb_le, Z.ltb_lt.
  pose proof (Z.div_mod (co_event_at r) (86400 * 10 ^ 6)). pose proof (Z.mod_pos_bound (co_event_at r) (86400 * 10 ^ 6)). lia.
Qed.

(** A key that no stored or cached hash matches yet. *)
Definition fresh_key {bcrypt : Bcrypt} (st : PgKeyStore) (cleartext hash : string) : Prop :=
  api_keys st !! hash = None /\
  (forall h r, api_keys st !! h = Some r -> CompareHashAndPassword (key_Hash (row_key r)) cleartext = false) /\
  (forall p e, cache st !! p = Some e -> CompareHashAndPassword (key_Hash (ce_key e)) cleartext = false).

(** The freshly issued key is the one that is found. *)
Lemma issued_key_found {bcrypt : Bcrypt} st k cleartext env : fresh_key st cleartext (key_Hash k) ->
  CompareHashAndPassword (key_Hash k) cleartext = true -> query_ok env = true ->
  rows env ≡ₚ live_rows (insert_key (api_keys st) k) ->
  (lookupWithBcrypt env (with_keys st (insert_key (api_keys st) k)) cleartext).2 = Ok k.
Proof.
  intros (Hn & Hf & Hcache) Hc Hq Hr. unfold lookupWithBcrypt, begin_lookup, finish_lookup.
  destruct (cache_hit _ _ _ _) as [k0|] eqn:Hhit.
  { exfalso. apply cache_hit_sound in Hhit as (e & He & _ & <- & Hm). by rewrite (Hcache _ e He) in Hm. }
  rewrite Hq. cbn [negb].
  unfold insert_key in *. rewrite Hn in *.
  assert (forall r, r ∈ rows env -> CompareHashAndPassword (key_Hash (row_key r)) cleartext = true -> row_key r = k) as Honly.
  { intros r. rewrite Hr, elem_of_live_rows. intros [_ [h Hh]] Hm. apply lookup_insert_Some in Hh as [[_ <-]|[_ Hh]]; [done|].
    by rewrite (Hf h r Hh) in Hm. }
  destruct (scan_rows_complete (rows env) cleartext {| row_key := k; last_used_at := None; deleted_at := None |}) as [k' Hk'].
  - rewrite Hr, elem_of_live_rows. split; [done|]. exists (key_Hash k). apply lookup_insert_eq.
  - done.
  - rewrite Hk'. cbn. apply scan_rows_sound in Hk' as (Hm & r & Hin & <-). by rewrite (Honly r).
Qed.

Section Facts.
Context {js : JSON} {jd : JSONDecoder} {lyml : LocalYaml} {pgt : PgTypes} {sql : SQLOrder} {bcrypt : Bcrypt} {sha : Sha256} {srt : SortRows}.
Context {cel : CEL} {srs : SortSlice} {rand : Random}.
Context (x : Outside) (validURL : string -> bool) (m : Machine) (env : nat -> ReqEnv).

(** A call whose reply is one document that the decoder accepts. *)
Lemma call_text {T} gw sent q what check ws (d : decoder T) zero st h text j v :
  validURL (q_URL q) = true -> gw sent q = Replied st h [(text, None)] -> match check with Some want => st = want | None => True end ->
  parseJSON text = Some j -> d j zero = Some v ->
  call validURL gw sent q what check ws d zero = ((sent ++ [q])%list, Ok v).
Proof.
  intros Hv Hg Hc Hp Hd. unfold call, do_request. rewrite Hv, Hg. cbn [negb ReadAll fst].
  assert ((match check with Some want => negb (st =? want)%Z | None => false end) = false) as ->
    by (destruct check; [subst; by rewrite Z.eqb_refl|done]).
  rewrite str_app_nil_r. apply firstJSON_whole in Hp. rewrite Hp. cbn [mbind option_bind]. by rewrite Hd.
Qed.

(** A bearer key that the store knows passes the middleware. *)
Lemma bearer_passes penv s r key k : bool_decide (Path r ∈ skip_paths) = false -> Authorization r = "Bearer " +:+ key ->
  HasPrefix key "setup_" = false -> (lookupWithBcrypt penv s key).2 = Ok k ->
  AuthMiddleware penv s r = ((lookupWithBcrypt penv s key).1, Next (with_identity r k)).
Proof.
  intros Hp Ha Hs Hk. unfold AuthMiddleware. rewrite Hp, Ha, HasPrefix_app, TrimPrefix_app, Hs. cbn [negb LookupAPIKey Pg_KeyStore].
  destruct (lookupWithBcrypt penv s key) as [s' [k'| |]]; cbn in *; by simplify_eq.
Qed.

(** The trace id of a request: the client's, or the one that is minted. *)
Definition request_trace (en : ReqEnv) (q : HttpRequest) : string := if is_empty (ht_Trace q) then en_minted en else ht_Trace q.

(** A client's authenticated request reaches the handler of its route. *)
Lemma serve_bearer en g q key k hd roles : bool_decide (ht_Path q ∈ skip_paths) = false -> ht_Authorization q = "Bearer " +:+ key ->
  HasPrefix key "setup_" = false -> (lookupWithBcrypt (en_auth en) (lv_keys g) key).2 = Ok k ->
  gw_route (ht_Method q) (ht_Path q) = Some (hd, roles) -> (roles = [] \/ key_Role k ∈ roles) ->
  serve x en g q = serve_handler x hd en (set_keys g (lookupWithBcrypt (en_auth en) (lv_keys g) key).1)
                     (with_identity (of_request en q) k) q (request_trace en q).
Proof.
  intros Hp Ha Hs Hk Hr Hrole. unfold serve, of_request, TraceIDMiddleware. fold (request_trace en q). cbn [fst].
  set (r0 := {| Method := ht_Method q |}). rewrite (bearer_passes (en_auth en) (lv_keys g) r0 key k Hp Ha Hs Hk).
  change (Method (with_identity r0 k)) with (ht_Method q). change (Path (with_identity r0 k)) with (ht_Path q). rewrite Hr.
  unfold route_guard, RequireRole. destruct roles as [|a roles]; [done|]. destruct Hrole as [?|Hin]; [done|].
  change (GetRole (Ctx (with_identity r0 k))) with (key_Role k). apply role_in_spec in Hin. by rewrite Hin.
Qed.

(** A request to a public path is not looked at by the authentication. *)
Lemma serve_public en g q hd : ht_Path q ∈ skip_paths -> ht_Trace q = "" -> gw_route (ht_Method q) (ht_Path q) = Some (hd, []) ->
  serve x en g q = serve_handler x hd en g (of_request en q) q (en_minted en).
Proof.
  intros Hp Ht Hr. unfold serve, of_request, TraceIDMiddleware. rewrite Ht. cbn [is_empty fst].
  set (r0 := {| Method := ht_Method q |}). unfold AuthMiddleware. rewrite bool_decide_eq_true_2 by done.
  change (Method r0) with (ht_Method q). change (Path r0) with (ht_Path q). rewrite Hr. cbn [route_guard]. by destruct g.
Qed.

(** The request of an authenticated client to a route of the gateway. *)
Lemma client_bearer c en g q path hd roles k :
  q_URL q = cl_GwURL c +:+ path -> free_of "#" path = true -> free_of "?" path = true ->
  q_Authorization q = Some ("Bearer " +:+ cl_APIKey c) -> bool_decide (path ∈ skip_paths) = false ->
  gw_route (q_Method q) path = Some (hd, roles) -> (roles = [] \/ key_Role k ∈ roles) ->
  HasPrefix (cl_APIKey c) "setup_" = false -> (lookupWithBcrypt (en_auth en) (lv_keys g) (cl_APIKey c)).2 = Ok k ->
  let h := of_client (cl_GwURL c) q in
  ht_Query h = q_Query q /\ ht_Body h = Some (default "" (q_Body q)) /\ ht_Method h = q_Method q /\
  serve x en g h = serve_handler x hd en (set_keys g (lookupWithBcrypt (en_auth en) (lv_keys g) (cl_APIKey c)).1)
                     (with_identity (of_request en h) k) h (en_minted en).
Proof.
  intros Hu Hh Hq Ha Hp Hr Hroles Hs Hk h. unfold h. rewrite (of_client_path _ _ _ Hu Hh Hq). split_and!; [done..|].
  rewrite Ha. cbn [default from_option id]. etrans; [by apply (serve_bearer en g _ (cl_APIKey c) k hd roles)|reflexivity].
Qed.

(** *** The cost summary *)

Lemma serve_summary c en g dim from to k rows :
  HasPrefix (cl_APIKey c) "setup_" = false -> (lookupWithBcrypt (en_auth en) (lv_keys g) (cl_APIKey c)).2 = Ok k ->
  let q := {| q_Method := "GET"; q_URL := cl_GwURL c +:+ "/api/v1/cost/summary";
              q_Query := (query_param "dim" dim ++ query_param "from" from ++ query_param "to" to)%list;
              q_Authorization := Some ("Bearer " +:+ cl_APIKey c); q_JSON := false; q_Body := None |} in
  CostSummary_ServeHTTP (en_query en) (lv_tables g) dim from to = DashRows rows ->
  (serve x en g (of_client (cl_GwURL c) q)).2 = array_reply (en_minted en) (enc_summary <$> rows).
Proof.
  intros Hs Hk q Hrows.
  destruct (client_bearer c en g q "/api/v1/cost/summary" CostSummary_ [] k) as (Hq & _ & _ & ->); try done; [by left|].
  cbn [serve_handler snd]. rewrite Hq. unfold q. cbn [q_Query]. destruct (query_get_params dim from to) as (H1 & H2 & H3).
  cbn zeta in H1, H2, H3. rewrite H1, H2, H3. unfold set_keys at 1. cbn [lv_tables]. by rewrite Hrows.
Qed.

(** C15: [aicg stats --from Nd] (or [Nw]) against the gateway, end to end, for a
    saved key that the gateway's key store accepts, dates with four-digit
    years, sums that fit 64 bits and a reply that is read as it was written:
    the command sends one request, writes nothing, and prints a table with one
    row per team, of exactly that team's cost events of the last N (7N) days,
    today included; at most 100 teams are shown, and those left out cost no
    more than those shown.  With at most 100 teams there is a row for every
    team, and costs, tokens, requests and failures of the rows add up to those
    of the events. *)
Theorem stats_end_to_end v c n w creds g k :
  (c = "d" \/ c = "w")%char -> Atoi v = Some n -> (0 < n)%Z ->
  let days := if Ascii.eqb c "w" then (n * 7)%Z else n in
  let now := today (m_now m) in
  four_digit_year (now - (days - 1)) -> four_digit_year (now + 1) ->
  LoadCredentials (m_home m) (wd_disk w) = Ok creds -> wd_sent w = [] ->
  validURL (cr_GwURL creds +:+ "/api/v1/cost/summary") = true ->
  HasPrefix (cr_APIKey creds) "setup_" = false ->
  (lookupWithBcrypt (en_auth (env 0)) (lv_keys g) (cr_APIKey creds)).2 = Ok k -> en_query (env 0) = true ->
  let evs := filter (last_days days now) (cost_event (lv_tables g)) in
  Forall typed_summary (group_by co_team evs) ->
  (forall rows, rows ⊆+ group_by co_team evs ->
     parseJSON (array_text (enc_summary <$> rows)) = Some (JArr (enc_summary <$> rows))) ->
  exists rows opts w',
    runStats validURL (gateway_of x (cr_GwURL creds) env g) m ["--from"; v +:+ String c ""] w = (w', Ok tt) /\
    wd_out w' = (wd_out w ++ [Text (RenderStatsTable opts (to_client <$> rows))])%list /\
    wd_disk w' = wd_disk w /\ length (wd_sent w') = 1 /\
    NoDup (sr_DimValue <$> rows) /\ (forall r, r ∈ rows -> r = group_row co_team evs (sr_DimValue r) /\ (0 < sr_NRequests r)%Z) /\
    length rows = Nat.min 100 (length (remove_dups (co_team <$> evs))) /\
    (forall r r', r ∈ rows -> r' ∈ group_by co_team evs -> r' ∉ rows -> (sr_CostCents r' <= sr_CostCents r)%Z) /\
    (length (remove_dups (co_team <$> evs)) <= 100 ->
     rows ≡ₚ group_by co_team evs /\
     total sr_CostCents rows = total (fun r => ce_CostCents (co_event r)) evs /\
     total sr_InputTokens rows = total (fun r => ce_InputTokens (co_event r)) evs /\
     total sr_OutputTokens rows = total (fun r => ce_OutputTokens (co_event r)) evs /\
     total sr_NRequests rows = Z.of_nat (length evs) /\ total sr_NFailed rows = total failed evs).
Proof.
  intros Hc Hn Hpos days now Ya Yb Hl Hw Hv Hs Hk Hq evs Hty Hj.
  assert (int64 days) as Hd by (unfold four_digit_year, int64 in *; lia).
  pose proof (stats_relative_options v c n (m_now m) Hc Hn Hpos Hd) as Hopts. fold days now in Hopts.
  destruct (summary_rows_spec co_team evs) as (Hsub & Hlen & Hnd & Hrows & Hcost).
  pose proof (summary_totals co_team evs) as Hsum. set (rows := take 100 _) in *.
  assert (Forall typed_summary rows) as Htyped.
  { apply list.Forall_forall. intros r Hr. rewrite list.Forall_forall in Hty. apply Hty. by eapply elem_of_submseteq. }
  assert (CostSummary_ServeHTTP true (lv_tables g) "team" (FormatDate (now - (days - 1))) (FormatDate (now + 1)) = DashRows rows) as Hserve.
  { unfold CostSummary_ServeHTTP. change (dim_column "team") with (Some co_team). rewrite !parse_bound_day by done.
    unfold summary_query, rows, evs. f_equal. f_equal. f_equal. f_equal. apply list_filter_iff. intros r. apply in_period_days. }
  eexists rows, _, _. split.
  - unfold runStats. rewrite (cmd_bind_ok _ _ w w _) by (unfold lift; by rewrite Hopts).
    rewrite (cmd_bind_ok _ _ w w creds) by (unfold reads; by rewrite Hl).
    rewrite (cmd_bind_ok _ _ w w _) by reflexivity. cbn [so_Dim so_From so_To].
    set (q := {| q_Method := "GET"; q_URL := cr_GwURL creds +:+ "/api/v1/cost/summary";
                 q_Query := (query_param "dim" "team" ++ query_param "from" (FormatDate (now - (days - 1))) ++
                             query_param "to" (FormatDate (now + 1)))%list;
                 q_Authorization := Some ("Bearer " +:+ cr_APIKey creds); q_JSON := false; q_Body := None |}).
    rewrite (cmd_bind_ok _ _ w {| wd_disk := wd_disk w; wd_ledger := wd_ledger w; wd_sent := [q]; wd_out := wd_out w;
                                  wd_writes := wd_writes w |} (to_client <$> rows)).
    + unfold print, say. cbn [wd_disk wd_ledger wd_sent wd_out wd_writes]. reflexivity.
    + unfold net, GetCostSummary. rewrite Hw. cbn [cl_GwURL cl_APIKey NewClient].
      rewrite (call_text (gateway_of x (cr_GwURL creds) env g) [] q _ _ _ _ _ 200 (json_headers (en_minted (env 0)))
        (array_text (enc_summary <$> rows)) (JArr (enc_summary <$> rows)) (to_client <$> rows));
        [done|exact Hv| |done|by apply Hj|by apply summaries_decode].
      unfold gateway_of, served. cbn [served_from length].
      by apply (serve_summary (NewClient (cr_GwURL creds) (cr_APIKey creds) "") (env 0) g "team" (FormatDate (now - (days - 1)))
        (FormatDate (now + 1)) k rows Hs Hk); rewrite Hq.
  - cbn [wd_out wd_disk wd_sent]. done.
Qed.

(** *** Onboarding *)

(** What a login with an invite sends and gets. *)
Definition invite_body (tok : string) : json := JObj [("invite_token", JStr tok); ("machine_id", JStr (computeMachineID m))].
Definition invite_reply (user role team : string) (key : list Z) (tid : string) : json :=
  JObj [("api_key", JStr (hexEncode key)); ("user_id", JStr user); ("role", JStr role); ("team_id", JStr team); ("trace_id", JStr tid)].

Lemma machine_id_present : computeMachineID m <> "".
Proof.
  unfold computeMachineID. intros H. apply (f_equal String.length) in H. by rewrite sha256Hex_length in H.
Qed.

(** The invite exchange is open to everyone and redeems the invite. *)
Lemma serve_exchange_invite base en g row tok key hash :
  lv_invites g !! sha256Hex tok = Some row -> redeemable (tx_now (en_tx en)) row ->
  en_tx en = tx_ok (tx_now (en_tx en)) -> en_random en = Some key -> x_gen x (hexEncode key) = Some hash ->
  tok <> "" -> parseJSON (printJSON (invite_body tok)) = Some (invite_body tok) ->
  let q := {| q_Method := "POST"; q_URL := base +:+ "/api/v1/lp/exchange-invite"; q_Query := []; q_Authorization := None;
              q_JSON := true; q_Body := Some (printJSON (invite_body tok)) |} in
  exists g', serve x en g (of_client base q) = (g', json_reply (en_minted en) 200 (invite_reply (inv_UserID row) (inv_Role row) (inv_TeamID row) key (en_minted' en))) /\
    lv_keys g' = with_keys (lv_keys g) (insert_key (api_keys (lv_keys g)) (issued_key row hash)) /\
    lv_invites g' = <[sha256Hex tok := used_invite row (tx_now (en_tx en)) (computeMachineID m)]> (lv_invites g) /\
    lv_tokens g' = lv_tokens g /\ lv_gateway g' = lv_gateway g.
Proof.
  intros Hi [Hu Hx] He Hr Hg Ht Hb q. rewrite (of_client_path base q "/api/v1/lp/exchange-invite"); [|done..].
  rewrite (serve_public _ _ _ ExchangeInvite_); [|unfold skip_paths; set_solver|done..].
  cbn [serve_handler ht_Body q q_Body]. unfold serve_exchange, decoded, unmarshal. cbn [default from_option id].
  rewrite Hb. cbn [unmarshal_raw mbind option_bind].
  change (dec_struct exchange_field (invite_body tok) zero_exchange) with
    (Some {| ei_InviteToken := tok; ei_MachineID := computeMachineID m |}).
  rewrite bool_decide_eq_true_2 by (by eexists). unfold HandleExchangeInvite, check_exchange.
  pose proof machine_id_present as Hm. apply is_empty_false in Ht, Hm.
  change (Method (of_request en _)) with "POST".
  cbn [negb String.eqb Ascii.eqb Bool.eqb reject mbind outcome_bind ei_InviteToken ei_MachineID]. rewrite Ht, Hm, Hr.
  cbn [reject mbind outcome_bind invite_state h_PgInvites]. rewrite Hg.
  change (@ConsumeAndIssueKey _ _ _ ?e ?s ?t ?m ?h) with (Pg_ConsumeAndIssueKey e.2 s t m h).
  cbn [ei_InviteToken ei_MachineID snd].
  destruct (Pg_Consume_cases (en_tx en) (invite_store g) (sha256Hex tok) (computeMachineID m) hash) as [(inv & Hi' & _ & ->)|[err Herr]].
  - change (invites (invite_store g)) with (lv_invites g) in Hi'. rewrite Hi in Hi'. injection Hi' as <-. eexists. split_and!; reflexivity.
  - exfalso. revert Herr. rewrite He. unfold Pg_ConsumeAndIssueKey. cbn. rewrite Hi, Hu. cbn.
    destruct (Z.ltb_spec (tx_now (en_tx en)) (inv_ExpiresAt row)); [done|lia].
Qed.

Context (hs : list string).
Hypothesis m_home_abs : m_home m = Some (abs_path hs).
Hypothesis home_good : Forall good hs.

(** The key that is drawn during a request, and its bcrypt hash. *)
Definition issues (en : ReqEnv) (key : list Z) (hash : string) : Prop :=
  en_random en = Some key /\ Forall (fun b => 0 <= b < 256)%Z key /\ key <> [] /\
  x_gen x (hexEncode key) = Some hash /\ CompareHashAndPassword hash (hexEncode key) = true.

(** The daemon started after a login passes the gateway's authentication. *)
Definition authenticates (base : string) (g : Live) (d : Daemon) (user team role hash : string) : Prop :=
  forall en body, query_ok (en_auth en) = true -> rows (en_auth en) ≡ₚ live_rows (api_keys (lv_keys g)) ->
    let q := of_client base (forward_request (dm_client d) body) in
    (AuthMiddleware (en_auth en) (lv_keys g) (of_request en q)).2 =
    Next (with_identity (of_request en q) {| key_UserID := user; key_TeamID := team; key_Role := role; key_Hash := hash |}).

Lemma authenticates_fresh base g st k key d : dm_client d = {| cl_GwURL := base; cl_APIKey := hexEncode key |} ->
  lv_keys g = with_keys st (insert_key (api_keys st) k) -> fresh_key st (hexEncode key) (key_Hash k) ->
  CompareHashAndPassword (key_Hash k) (hexEncode key) = true -> Forall (fun b => 0 <= b < 256)%Z key ->
  authenticates base g d (key_UserID k) (key_TeamID k) (key_Role k) (key_Hash k).
Proof.
  intros Hd Hk Hfresh Hcmp Hkey en body Hq Hrows q. unfold q. rewrite (of_client_path base _ "/v1/agent/forward") by (by rewrite ?Hd).
  rewrite Hd. rewrite (bearer_passes _ _ _ (hexEncode key) k); [by destruct k|done|done|by apply hexEncode_not_setup|].
  rewrite Hk in *. by apply issued_key_found.
Qed.

(** [aicg login --invite] with an invite that is pending at the gateway
    succeeds, marks the invite used and saves the credentials of the invited
    user and team; the daemon that [aicg start] runs next authenticates. *)
Lemma invite_login args startArgs f w cfg g row key hash :
  (forall n, m_write m n = (true, Written)) -> readable hs (wd_disk w) -> LoadConfig (m_home m) (wd_disk w) = Ok cfg ->
  wd_sent w = [] -> parseLoginFlags (m_baseURL m) args = Ok f -> lf_inviteToken f <> "" ->
  validURL (lf_gwURL f +:+ "/api/v1/lp/exchange-invite") = true ->
  lv_invites g !! sha256Hex (lf_inviteToken f) = Some row ->
  redeemable (tx_now (en_tx (env 0))) row -> en_tx (env 0) = tx_ok (tx_now (en_tx (env 0))) ->
  issues (env 0) key hash -> fresh_key (lv_keys g) (hexEncode key) hash ->
  parseJSON (printJSON (invite_body (lf_inviteToken f))) = Some (invite_body (lf_inviteToken f)) ->
  parseJSON (encoded (invite_reply (inv_UserID row) (inv_Role row) (inv_TeamID row) key (en_minted' (env 0)))) = Some (invite_reply (inv_UserID row) (inv_Role row) (inv_TeamID row) key (en_minted' (env 0))) ->
  exists w' d g', runLogin validURL (gateway_of x (lf_gwURL f) env g) m args w = (w', Ok tt) /\
    LoadCredentials (m_home m) (wd_disk w') =
      Ok {| cr_GwURL := lf_gwURL f; cr_UserID := inv_UserID row; cr_APIKey := hexEncode key; cr_TeamID := inv_TeamID row |} /\
    g' = served x (lf_gwURL f) env g (wd_sent w') /\
    lv_invites g' !! sha256Hex (lf_inviteToken f) = Some (used_invite row (tx_now (en_tx (env 0))) (computeMachineID m)) /\
    lv_tokens g' = lv_tokens g /\
    start_plan m startArgs w' = Ok d /\
    authenticates (lf_gwURL f) g' d (inv_UserID row) (inv_TeamID row) (inv_Role row) hash.
Proof.
  intros Hw Hr Hcfg Hsent Hf Hi Hv Hrow Hred Htx (Hrnd & Hkey & Hne & Hgen & Hcmp) Hfresh Hbody Hreply.
  set (gw := gateway_of x (lf_gwURL f) env g).
  destruct (serve_exchange_invite (lf_gwURL f) (env 0) g row (lf_inviteToken f) key hash)
    as (g1 & Hserve & Hk1 & Hused & Htok & _); [done..|].
  set (q := {| q_Method := "POST" |}) in Hserve.
  set (c := {| cr_GwURL := lf_gwURL f; cr_UserID := inv_UserID row; cr_APIKey := hexEncode key; cr_TeamID := inv_TeamID row |}).
  set (w1 := {| wd_disk := wd_disk w; wd_ledger := wd_ledger w; wd_sent := [q]; wd_out := wd_out w; wd_writes := wd_writes w |}).
  assert (exists line, exchange validURL gw m f w = (w1, Ok (c, line))) as [line Hex].
  { unfold exchange. assert (is_empty (lf_inviteToken f) = false) as -> by (by apply is_empty_false). cbn [negb].
    eexists. rewrite (cmd_bind_ok _ _ w w1 {| ir_APIKey := hexEncode key; ir_UserID := inv_UserID row; ir_Role := inv_Role row;
                                             ir_TeamID := inv_TeamID row |}); [reflexivity|].
    unfold net, ExchangeInvite. rewrite Hsent. cbn [cl_GwURL NewClient].
    rewrite (call_text gw [] q _ _ _ _ _ 200 (json_headers (en_minted (env 0))) (encoded (invite_reply (inv_UserID row) (inv_Role row) (inv_TeamID row) key (en_minted' (env 0))))
      (invite_reply (inv_UserID row) (inv_Role row) (inv_TeamID row) key (en_minted' (env 0)))
      {| ir_APIKey := hexEncode key; ir_UserID := inv_UserID row; ir_Role := inv_Role row; ir_TeamID := inv_TeamID row |});
      [done|exact Hv| |done|exact Hreply|done].
    unfold gw, gateway_of, served. cbn [served_from length]. by rewrite Hserve. }
  assert (cr_APIKey c <> "") as Hck by (destruct key; [done|discriminate]).
  destruct (runLogin_ok validURL gw m hs m_home_abs home_good args f w w1 c line cfg) as (w' & cfg' & Hrun & Hl & Hc & _ & Hsent'); [done..|].
  destruct (start_plan_ok m startArgs w' c cfg' Hc Hl) as (d & Hd & Hcl).
  exists w', d, g1. split_and!; [done|done| | |done|done|].
  - rewrite Hsent'. unfold served. cbn [served_from wd_sent w1]. by rewrite Hserve.
  - rewrite Hused. apply lookup_insert_eq.
  - by apply (authenticates_fresh (lf_gwURL f) g1 (lv_keys g) (issued_key row hash) key d).
Qed.
(** *** The administrator *)

Definition setup_reply (key : list Z) (tid : string) : json :=
  JObj [("api_key", JStr (hexEncode key)); ("role", JStr RolePlatformAdmin); ("team_id", JStr "platform"); ("trace_id", JStr tid);
        ("user_id", JStr "platform_admin"); ("warning", JStr "store this key securely; it will not be shown again")].

Lemma serve_exchange_setup base en g tok key hash :
  tok <> "" -> lv_tokens g !! sha256Hex tok = Some None -> (en_token en).1 = true -> exec_ok (en_store en) = true -> issues en key hash ->
  let q := {| q_Method := "POST"; q_URL := base +:+ "/api/v1/lp/exchange-setup"; q_Query := [];
              q_Authorization := Some ("Bearer " +:+ tok); q_JSON := true; q_Body := None |} in
  exists g', serve x en g (of_client base q) = (g', json_reply (en_minted en) 200 (setup_reply key (en_minted' en))) /\
    lv_keys g' = with_keys (lv_keys g) (insert_key (api_keys (lv_keys g)) (admin_key hash)) /\
    lv_tokens g' = <[sha256Hex tok := Some (en_now en)]> (lv_tokens g) /\
    lv_invites g' = lv_invites g /\ lv_gateway g' = lv_gateway g.
Proof.
  intros Ht Hopen Hdb Hex (Hrnd & _ & _ & Hgen & _) q. rewrite (of_client_path base q "/api/v1/lp/exchange-setup"); [|done..].
  rewrite (serve_public _ _ _ ExchangeSetup_); [|unfold skip_paths; set_solver|done..]. cbn [serve_handler]. unfold serve_setup, HandleExchangeSetup.
  change (Method (of_request en _)) with "POST". change (Authorization (of_request en _)) with ("Bearer " +:+ tok).
  rewrite HasPrefix_app. change (str_drop 7 ("Bearer " +:+ tok)) with tok.
  assert ((String.length ("Bearer " +:+ tok) <? 8)%nat = false) as -> by (destruct tok; [done|]; cbn; done).
  cbn [negb String.eqb Ascii.eqb Bool.eqb orb]. set (h := {| h_KeyStore := lv_keys g |}).
  destruct (consume_setup_pg h (lv_tokens g) (en_token en).1 (en_token en).2 (en_now en) tok (en_minted' en) eq_refl)
    as [(_ & _ & ->)|(resp & Hc & _)].
  - rewrite Hrnd, Hgen. cbn [StoreAPIKey Pg_KeyStore]. unfold storeAPIKey. rewrite Hex. eexists. split_and!; reflexivity.
  - exfalso. unfold consume_setup, ConsumeToken in Hc. cbn [h h_PgSetupTokens] in Hc. by rewrite Hdb, Hopen, sha256Hex_length in Hc.
Qed.

Lemma served_snoc base g sent q :
  served x base env g (sent ++ [q]) = (serve x (env (length sent)) (served x base env g sent) (of_client base q)).1.
Proof.
  unfold served. enough (forall i g, served_from x base env i g (sent ++ [q]) =
    (serve x (env (i + length sent)) (served_from x base env i g sent) (of_client base q)).1) as H by apply H.
  induction sent as [|q0 sent IH]; intros i g1; cbn [served_from app length]; [by rewrite Nat.add_0_r|].
  rewrite IH. by rewrite Nat.add_succ_comm.
Qed.

(** The first login with the setup token of the gateway's start. *)
Lemma setup_login base tok w cfg g key hash :
  (forall n, m_write m n = (true, Written)) -> readable hs (wd_disk w) -> LoadConfig (m_home m) (wd_disk w) = Ok cfg ->
  wd_sent w = [] -> tok <> "" -> validURL (base +:+ "/api/v1/lp/exchange-setup") = true ->
  lv_tokens g !! sha256Hex tok = Some None -> (en_token (env 0)).1 = true -> exec_ok (en_store (env 0)) = true -> issues (env 0) key hash ->
  parseJSON (encoded (setup_reply key (en_minted' (env 0)))) = Some (setup_reply key (en_minted' (env 0))) ->
  exists w' q, runLogin validURL (gateway_of x base env g) m ["--setup"; tok; "--gateway"; base] w = (w', Ok tt) /\
    LoadCredentials (m_home m) (wd_disk w') =
      Ok {| cr_GwURL := base; cr_UserID := "platform_admin"; cr_APIKey := hexEncode key; cr_TeamID := "" |} /\
    wd_sent w' = [q] /\
    let g' := served x base env g [q] in
    lv_keys g' = with_keys (lv_keys g) (insert_key (api_keys (lv_keys g)) (admin_key hash)) /\
    lv_tokens g' = <[sha256Hex tok := Some (en_now (env 0))]> (lv_tokens g) /\
    lv_invites g' = lv_invites g /\ lv_gateway g' = lv_gateway g.
Proof.
  intros Hw Hr Hcfg Hsent Ht Hv Hopen Hdb Hex Hiss Hj.
  destruct (serve_exchange_setup base (env 0) g tok key hash Ht Hopen Hdb Hex Hiss) as (g1 & Hserve & Hg1).
  set (q := {| q_Method := "POST" |}) in Hserve. apply is_empty_false in Ht as Ht'.
  set (f := {| lf_setupToken := tok; lf_inviteToken := ""; lf_gwURL := base; lf_caPath := "" |}).
  assert (parseLoginFlags (m_baseURL m) ["--setup"; tok; "--gateway"; base] = Ok f) as Hf
    by (unfold parseLoginFlags, f; cbn; by rewrite Ht').
  set (c := {| cr_GwURL := base; cr_UserID := "platform_admin"; cr_APIKey := hexEncode key; cr_TeamID := "" |}).
  set (w1 := {| wd_disk := wd_disk w; wd_ledger := wd_ledger w; wd_sent := [q]; wd_out := wd_out w; wd_writes := wd_writes w |}).
  assert (exists line, exchange validURL (gateway_of x base env g) m f w = (w1, Ok (c, line))) as [line Hexc].
  { unfold exchange. cbn [lf_inviteToken f is_empty negb]. eexists. rewrite (cmd_bind_ok _ _ w w1 (hexEncode key)); [reflexivity|].
    unfold net, ExchangeSetup. rewrite Hsent. cbn [cl_GwURL NewClient lf_gwURL f lf_setupToken].
    rewrite (call_text _ [] q _ _ _ _ _ 200 (json_headers (en_minted (env 0))) (encoded (setup_reply key (en_minted' (env 0))))
      (setup_reply key (en_minted' (env 0))) (hexEncode key)); [done|exact Hv| |done|exact Hj|done].
    unfold gateway_of, served. cbn [served_from length]. by rewrite Hserve. }
  assert (cr_APIKey c <> "") as Hck by (destruct Hiss as (_ & _ & Hne & _); destruct key; [done|discriminate]).
  destruct (runLogin_ok validURL _ m hs m_home_abs home_good _ f w w1 c line cfg Hw Hr Hcfg Hf Hexc Hck)
    as (w' & cfg' & Hrun & Hl & _ & _ & Hs').
  exists w', q. split; [exact Hrun|]. split; [exact Hl|]. split; [by rewrite Hs'|].
  unfold served. cbn [served_from]. by rewrite Hserve.
Qed.

(** What [aicg admin invite] sends and gets. *)
Definition create_body (f : adminInviteFlags) : json :=
  JObj [("role", JStr (af_role f)); ("team_id", JStr (af_team f)); ("ttl_hours", JInt (Z.quot (af_ttl f) Hour)); ("user_id", JStr (af_user f))].
Definition request_id (en : ReqEnv) : string := if is_empty (en_minted en) then en_minted' en else en_minted en.
Definition expiry (en : ReqEnv) (f : adminInviteFlags) : Z := (en_now en + Z.quot (af_ttl f) Hour * Hour)%Z.
Definition create_reply (f : adminInviteFlags) (buf : list Z) (en : ReqEnv) : json :=
  JObj [("invite_token", JStr (hexEncode buf)); ("user_id", JStr (af_user f)); ("team_id", JStr (af_team f)); ("role", JStr (af_role f));
        ("expires_at", JStr (FormatRFC3339Nano (expiry en f))); ("trace_id", JStr (request_id en))].
Definition created (en : ReqEnv) (g : Live) (k : APIKey) (f : adminInviteFlags) (buf : list Z) : Invite :=
  {| inv_ID := lv_nextInvite g; inv_TokenHash := sha256Hex (hexEncode buf); inv_Role := af_role f; inv_TeamID := af_team f;
     inv_UserID := af_user f; inv_CreatedBy := creator k; inv_CreatedAt := tx_now (en_tx en); inv_ExpiresAt := expiry en f;
     inv_UsedAt := None; inv_UsedBy := None; inv_MachineID := None |}.

Lemma serve_create_invite c en g f buf k :
  HasPrefix (cl_APIKey c) "setup_" = false -> (lookupWithBcrypt (en_auth en) (lv_keys g) (cl_APIKey c)).2 = Ok k ->
  key_Role k = RolePlatformAdmin -> af_user f <> "" -> af_team f <> "" -> isAllowedInviteRole (af_role f) = true ->
  (0 < Z.quot (af_ttl f) Hour <= 720)%Z -> int64 (expiry en f) -> TeamRegistered (gy_teams (lv_gateway g)) (af_team f) = true ->
  en_random en = Some buf -> en_create en = true -> lv_invites g !! sha256Hex (hexEncode buf) = None ->
  parseJSON (printJSON (create_body f)) = Some (create_body f) ->
  let q := {| q_Method := "POST"; q_URL := cl_GwURL c +:+ "/api/v1/admin/invites"; q_Query := [];
              q_Authorization := Some ("Bearer " +:+ cl_APIKey c); q_JSON := true; q_Body := Some (printJSON (create_body f)) |} in
  exists g', serve x en g (of_client (cl_GwURL c) q) = (g', json_reply (en_minted en) 201 (create_reply f buf en)) /\
    lv_keys g' = (lookupWithBcrypt (en_auth en) (lv_keys g) (cl_APIKey c)).1 /\ lv_tokens g' = lv_tokens g /\
    lv_invites g' = <[sha256Hex (hexEncode buf) := created en g k f buf]> (lv_invites g).
Proof.
  intros Hs Hk Hrole Hu Ht Ha Httl Hexp Hteam Hrnd Hcr Hnew Hj q.
  destruct (client_bearer c en g q "/api/v1/admin/invites" AdminInvites [RolePlatformAdmin] k) as (_ & Hb & _ & ->); try done.
  { right. rewrite Hrole. by left. }
  change (ht_Body (of_client (cl_GwURL c) q) = Some (printJSON (create_body f))) in Hb.
  cbn [serve_handler]. set (g1 := set_keys g _). set (r := with_identity _ k). unfold serve_create. rewrite Hb.
  rewrite bool_decide_eq_true_2 by (by eexists).
  set (req := {| ci_UserID := af_user f; ci_TeamID := af_team f; ci_Role := af_role f; ci_TTLHours := Z.quot (af_ttl f) Hour |}).
  assert (decoded x (dec_struct create_field) zero_create (Some (printJSON (create_body f))) = inr req) as ->.
  { assert (unmarshal (dec_struct create_field) (printJSON (create_body f)) zero_create = Some req) as Hd.
    { unfold unmarshal. rewrite Hj. lazy -[dec_int Z.quot Hour af_ttl af_role af_team af_user]. rewrite dec_int_int64 by (unfold int64; lia). done. }
    unfold decoded. cbn [default from_option]. unfold id. by rewrite Hd. }
  assert (GetTraceID (Ctx r) = en_minted en /\ GetUserID (Ctx r) = key_UserID k /\ Method r = "POST") as (Htr & Huser & Hm).
  { unfold r, of_request. rewrite (of_client_path _ q "/api/v1/admin/invites") by done. by split_and!. }
  unfold HandleAdminCreateInvite. rewrite Htr, Huser. fold (request_id en).
  assert (check_create (invite_state g1) r true (inr req) (request_id en) = Ok (req, invite_store g1)) as ->.
  { apply check_create_ok. split_and!; try done; [apply Httl..|]. by eexists. }
  rewrite Hrnd. change (@Create _ _ _ ?e ?s ?i) with (Pg_Create e.1 (tx_now e.2) s i). unfold Pg_Create.
  cbn [fst snd inv_TokenHash]. rewrite Hcr. cbn [negb]. change (invites (invite_store g1)) with (lv_invites g).
  rewrite bool_decide_eq_false_2 by (rewrite Hnew; by intros [? ?]).
  assert (int_add (en_now en) (int_mul (ci_TTLHours req) hour) = expiry en f) as Hx.
  { unfold int_add, int_mul. rewrite wrap64_add_r, wrap64_id; done. }
  rewrite Hx. eexists. split; [reflexivity|]. split; [|done].
  change (with_keys (lv_keys g1) (api_keys (lv_keys g1)) = lv_keys g1). by destruct (lv_keys g1).
Qed.

(** An administrator's [aicg admin invite] stores the invite and prints its
    token. *)
Definition invite_line (t : Z) (token : string) : string :=
  "Invite created. Token (single use, expires " +:+ (FormatRFC3339 (t / 10 ^ 9) +:+ ("):" +:+ (String newline "" +:+ token))).

Lemma admin_invite args f w creds g buf k :
  let g1 := served x (cr_GwURL creds) env g (wd_sent w) in let en := env (length (wd_sent w)) in
  parseAdminInviteFlags args = Ok f -> (Hour <= af_ttl f)%Z -> LoadCredentials (m_home m) (wd_disk w) = Ok creds ->
  validURL (cr_GwURL creds +:+ "/api/v1/admin/invites") = true -> HasPrefix (cr_APIKey creds) "setup_" = false ->
  (lookupWithBcrypt (en_auth en) (lv_keys g1) (cr_APIKey creds)).2 = Ok k -> key_Role k = RolePlatformAdmin ->
  isAllowedInviteRole (af_role f) = true -> TeamRegistered (gy_teams (lv_gateway g1)) (af_team f) = true ->
  int64 (expiry en f) -> en_random en = Some buf -> en_create en = true -> lv_invites g1 !! sha256Hex (hexEncode buf) = None ->
  parseJSON (printJSON (create_body f)) = Some (create_body f) ->
  parseJSON (encoded (create_reply f buf en)) = Some (create_reply f buf en) ->
  exists w' q, runAdminInvite validURL (gateway_of x (cr_GwURL creds) env g) m args w = (w', Ok tt) /\
    wd_sent w' = (wd_sent w ++ [q])%list /\ last (wd_out w') = Some (Text (invite_line (expiry en f) (hexEncode buf))) /\
    let g' := served x (cr_GwURL creds) env g (wd_sent w ++ [q]) in
    lv_keys g' = (lookupWithBcrypt (en_auth en) (lv_keys g1) (cr_APIKey creds)).1 /\ lv_tokens g' = lv_tokens g1 /\
    lv_invites g' = <[sha256Hex (hexEncode buf) := created en g1 k f buf]> (lv_invites g1).
Proof.
  intros g1 en Hf Httl Hl Hv Hs Hk Hrole Ha Hteam Hexp Hrnd Hcr Hnew Hb Hj.
  destruct (admin_invite_flags_bounds args f Hf) as (_ & Ht & Hu & _ & Hq & Hq0).
  set (c := NewClient (cr_GwURL creds) (cr_APIKey creds) "").
  destruct (serve_create_invite c en g1 f buf k) as (g' & Hserve & Hg'); try done; [lia|].
  set (q := {| q_Method := "POST" |}) in Hserve. eexists _, q. split.
  - unfold runAdminInvite. rewrite (cmd_bind_ok _ _ w w f) by (unfold lift; by rewrite Hf).
    rewrite (cmd_bind_ok _ _ w w creds) by (unfold reads; by rewrite Hl).
    rewrite (cmd_bind_ok _ _ w w (loadCAPath m w)) by done.
    erewrite cmd_bind_ok; [reflexivity|]. unfold net, CreateInvite. cbn [cl_GwURL cl_APIKey NewClient].
    rewrite (call_text _ (wd_sent w) q _ _ _ _ _ 201 (json_headers (en_minted en)) (encoded (create_reply f buf en))
      (create_reply f buf en) {| ci_InviteToken := hexEncode buf; ci_ExpiresAt := {| gt_sec := expiry en f / 10 ^ 9; gt_off := 0 |} |});
      [reflexivity|exact Hv| |done|exact Hj| ].
    + unfold gateway_of. fold g1 en. change (cr_GwURL creds) with (cl_GwURL c). by rewrite Hserve.
    + assert (parse_time (FormatRFC3339Nano (expiry en f)) = Some {| gt_sec := expiry en f / 10 ^ 9; gt_off := 0 |}) as Hp.
      { apply parse_time_nano. unfold four_digit_year, int64 in *. rewrite Z.div_div by lia. split; [|apply Z.div_lt_upper_bound; lia].
        apply Z.div_le_lower_bound; lia. }
      clear -Hp. clearbody en. lazy -[parse_time FormatRFC3339Nano expiry Z.div Z.pow hexEncode af_role af_team af_user af_ttl request_id].
      rewrite Hp. reflexivity.
  - cbn [wd_sent wd_out]. split; [done|]. split.
    + rewrite last_snoc. do 2 f_equal. unfold invite_line, FormatTime. cbn [gt_sec gt_off ci_ExpiresAt]. by rewrite Z.add_0_r.
    + rewrite served_snoc. fold en g1. change (cr_GwURL creds) with (cl_GwURL c). by rewrite Hserve.
Qed.
End Facts.

(** ** Onboarding *)

Section Onboarding.
Context {bcrypt : Bcrypt}.

(** A key stays fresh when another one is issued or looked up. *)
Lemma fresh_insert st k clear hash : fresh_key st clear hash -> key_Hash k <> hash -> CompareHashAndPassword (key_Hash k) clear = false ->
  fresh_key (with_keys st (insert_key (api_keys st) k)) clear hash.
Proof.
  intros (Hn & Hr & Hc) Hne Hcmp. unfold fresh_key, insert_key. cbn [with_keys api_keys cache].
  destruct (api_keys st !! key_Hash k) eqn:Hk; [by split_and!|]. split_and!; [by rewrite lookup_insert_ne| |done].
  intros h r [[_ <-]|[_ ?]]%lookup_insert_Some; [done|by eapply Hr].
Qed.
Lemma fresh_lookup env st tok clear hash : rows env ≡ₚ live_rows (api_keys st) -> fresh_key st clear hash ->
  fresh_key (lookupWithBcrypt env st tok).1 clear hash.
Proof.
  intros Henv (Hn & Hr & Hc). pose proof (lookup_keeps env st tok) as Hkeep. split; [|split].
  - specialize (Hkeep hash). rewrite Hn in Hkeep. by apply fmap_None in Hkeep.
  - intros h r Hh. specialize (Hkeep h). rewrite Hh in Hkeep. destruct (api_keys st !! h) as [r0|] eqn:H0; [|done].
    injection Hkeep as ->. by eapply Hr.
  - revert Hkeep. unfold lookupWithBcrypt, begin_lookup, finish_lookup. destruct (cache_hit _ _ _ _); [by intros _ p e ?; eapply Hc|].
    destruct (query_ok env); cbn [negb]; [|by intros _ p e ?; eapply Hc]. destruct (Auth.scan_rows _ _) as [k|] eqn:Hk; [|by intros _ p e ?; eapply Hc].
    intros _ p e. cbn [fst cache]. intros [[_ <-]|[_ ?]]%lookup_insert_Some; [|by eapply Hc]. cbn [ce_key].
    apply scan_rows_sound in Hk as (_ & r & Hin & <-). rewrite Henv, elem_of_live_rows in Hin. destruct Hin as [_ [h Hh]]. by eapply Hr.
Qed.

Context {js : JSON} {jd : JSONDecoder} {lyml : LocalYaml} {pgt : PgTypes} {sql : SQLOrder} {sha : Sha256} {srt : SortRows}.
Context {cel : CEL} {srs : SortSlice} {rand : Random} (x : Outside) (validURL : string -> bool).

(** A machine on which files can be written, before it has talked to a
    gateway. *)
Definition new_machine (m : Machine) (w : World) : Prop :=
  exists hs cfg, m_home m = Some (abs_path hs) /\ Forall good hs /\ (forall n, m_write m n = (true, Written)) /\
    readable hs (wd_disk w) /\ LoadConfig (m_home m) (wd_disk w) = Ok cfg /\ wd_sent w = [].
(** A document that is read as it was written, with or without a newline. *)
Definition read_back (j : json) : Prop := parseJSON (printJSON j) = Some j /\ parseJSON (encoded j) = Some j.

Definition invite_args (user team role ttlText : string) : list string :=
  ["--user"; user; "--team"; team; "--role"; role; "--ttl"; ttlText].
Lemma invite_args_parse user team role ttlText ttl :
  ParseDuration ttlText = Some ttl -> (0 < ttl <= 720 * Hour)%Z -> user <> "" -> team <> "" -> role <> "" ->
  parseAdminInviteFlags (invite_args user team role ttlText) =
  Ok {| af_role := role; af_team := team; af_user := user; af_ttl := ttl; af_ttlSet := true |}.
Proof.
  intros Hp Ht Hu Hm Hr. unfold parseAdminInviteFlags. cbn -[ParseDuration Hour]. rewrite Hp. cbn -[Hour].
  apply is_empty_false in Hu, Hm, Hr. rewrite Hu, Hm, Hr. cbn -[Hour].
  destruct (Z.leb_spec ttl 0); [lia|]. by destruct (Z.ltb_spec (720 * Hour) ttl); [lia|].
Qed.

(** C2: onboarding, end to end, from a gateway that has just been started to a
    working proxy.  The administrator's [aicg login --setup] with the open
    setup token succeeds and uses it up; [aicg admin invite] with what that
    login saved succeeds for a registered team and prints a token and its
    expiry; before it expires, [aicg login --invite] with the printed token on
    another machine succeeds and uses it up; and every request of the daemon
    that [aicg start] runs there passes the gateway's authentication with the
    user, team and role of the invite. *)
Theorem onboarding_chain ma mu base (env env' : nat -> ReqEnv) g0 tok user team role ttlText ttl wa wu startArgs keya hasha buf keyu hashu :
  let f := {| af_role := role; af_team := team; af_user := user; af_ttl := ttl; af_ttlSet := true |} in
  new_machine ma wa -> new_machine mu wu -> (forall path, validURL (base +:+ path) = true) ->
  tok <> "" -> lv_tokens g0 !! sha256Hex tok = Some None -> lv_invites g0 !! sha256Hex (hexEncode buf) = None ->
  ParseDuration ttlText = Some ttl -> (Hour <= ttl <= 720 * Hour)%Z -> user <> "" -> team <> "" ->
  isAllowedInviteRole role = true -> TeamRegistered (gy_teams (lv_gateway g0)) team = true ->
  (en_token (env 0)).1 = true -> exec_ok (en_store (env 0)) = true -> issues x (env 0) keya hasha ->
  query_ok (en_auth (env 1)) = true -> rows (en_auth (env 1)) ≡ₚ live_rows (insert_key (api_keys (lv_keys g0)) (admin_key hasha)) ->
  en_create (env 1) = true -> en_random (env 1) = Some buf -> buf <> [] -> int64 (expiry (env 1) f) ->
  en_tx (env' 0) = tx_ok (tx_now (en_tx (env' 0))) -> (tx_now (en_tx (env' O)) < expiry (env 1%nat) f)%Z -> issues x (env' 0) keyu hashu ->
  fresh_key (lv_keys g0) (hexEncode keya) hasha -> fresh_key (lv_keys g0) (hexEncode keyu) hashu ->
  hasha <> hashu -> CompareHashAndPassword hasha (hexEncode keyu) = false ->
  read_back (setup_reply keya (en_minted' (env 0))) -> read_back (create_body f) -> read_back (create_reply f buf (env 1)) ->
  read_back (invite_body mu (hexEncode buf)) -> read_back (invite_reply user role team keyu (en_minted' (env' 0))) ->
  exists w1 w2 w3 d,
    let admins := gateway_of x base env g0 in
    let g2 := served x base env g0 (wd_sent w2) in
    let users := gateway_of x base env' g2 in
    let g3 := served x base env' g2 (wd_sent w3) in
    runLogin validURL admins ma ["--setup"; tok; "--gateway"; base] wa = (w1, Ok tt) /\
    runAdmin validURL admins ma ("invite" :: invite_args user team role ttlText) w1 = (w2, Ok tt) /\
    last (wd_out w2) = Some (Text (invite_line (expiry (env 1) f) (hexEncode buf))) /\
    runLogin validURL users mu ["--invite"; hexEncode buf; "--gateway"; base] wu = (w3, Ok tt) /\
    start_plan mu startArgs w3 = Ok d /\ authenticates base g3 d user team role hashu /\
    lv_tokens g3 !! sha256Hex tok = Some (Some (en_now (env 0))) /\
    (exists row, lv_invites g3 !! sha256Hex (hexEncode buf) = Some row /\ is_Some (inv_UsedAt row)).
Proof.
  intros f (hsa & cfga & Hha & Hga & Hwa & Hra & Hca & Hsa) (hsu & cfgu & Hhu & Hgu & Hwu & Hru & Hcu & Hsu) Hurl Htok Hopen Hnew Hdur Httl
    Huser Hteam Hrole Hreg Hdb Hex Hia Hq1 Hrows1 Hcr Hbuf Hne Hexp Htx Hlate Hiu Hfa Hfu Hab Hcmp J1 J2 J3 J4 J5.
  assert (role <> "") as Hr0 by (by intros ->).
  assert (parseAdminInviteFlags (invite_args user team role ttlText) = Ok f) as Hf by (apply invite_args_parse; auto; unfold Hour in *; lia).
  destruct (setup_login x validURL ma env hsa Hha Hga base tok wa cfga g0 keya hasha) as (w1 & q1 & Hrun1 & Hl1 & Hs1 & Hk1 & Ht1 & Hi1 & Hg1);
    [done..|by apply J1|].
  set (g1 := served x base env g0 [q1]) in *. destruct Hia as (Hra' & Hbytes & Hkne & Hgena & Hcmpa).
  assert ((lookupWithBcrypt (en_auth (env 1)) (lv_keys g1) (hexEncode keya)).2 = Ok (admin_key hasha)) as Hauth
    by (rewrite Hk1; by apply issued_key_found).
  set (c := {| cr_GwURL := base; cr_UserID := "platform_admin"; cr_APIKey := hexEncode keya; cr_TeamID := "" |}) in Hl1.
  destruct (admin_invite x validURL ma env (invite_args user team role ttlText) f w1 c g0 buf (admin_key hasha))
    as (w2 & q2 & Hrun2 & Hs2 & Hout & Hk2 & Ht2 & Hi2); rewrite ?Hs1; cbn [length c cr_GwURL cr_APIKey]; fold g1;
    [done|cbn; lia|done|done|by apply hexEncode_not_setup|done|done|done|by rewrite Hg1|done|done|done|by rewrite Hi1|apply J2|apply J3|].
  rewrite Hs1 in *. cbn [c cr_GwURL cr_APIKey length] in *. fold g1 in Hk2, Ht2, Hi2. set (g2 := served x base env g0 ([q1] ++ [q2])) in *.
  set (row := created (env 1) g1 (admin_key hasha) f buf) in *.
  set (fu := {| lf_setupToken := ""; lf_inviteToken := hexEncode buf; lf_gwURL := base; lf_caPath := "" |}).
  assert (hexEncode buf <> "") as Hhex by (by destruct buf).
  assert (parseLoginFlags (m_baseURL mu) ["--invite"; hexEncode buf; "--gateway"; base] = Ok fu) as Hfu'
    by (unfold parseLoginFlags, fu; cbn -[hexEncode]; apply is_empty_false in Hhex; by rewrite Hhex).
  assert (fresh_key (lv_keys g2) (hexEncode keyu) hashu) as Hfresh2.
  { rewrite Hk2. apply fresh_lookup; rewrite Hk1; [done|]. by apply fresh_insert. }
  destruct (invite_login x validURL mu env' hsu Hhu Hgu ["--invite"; hexEncode buf; "--gateway"; base] startArgs fu wu cfgu g2 row keyu hashu) as (w3 & d & g3 & Hrun3 & _ & Hg3 & Hused & Htok3 & Hd & Hauth3);
    try done; [by rewrite Hi2; cbn; apply lookup_insert_eq|by apply J4|by apply J5|].
  exists w1, w2, w3, d. rewrite Hs2. fold g2. change (lf_gwURL fu) with base in *. rewrite <- Hg3. split_and!; try done.
  - rewrite Htok3, Ht2, Ht1. apply lookup_insert_eq.
  - eexists. split; [exact Hused|by eexists].
Qed.
End Onboarding.

(** ** One request *)

(** The bytes of a reply do not depend on how the network cuts them. *)
Lemma usable_cut sizes s : usable (cut_reader sizes s) = (s, true).
Proof.
  revert s. induction sizes as [|n sizes IH]; intros s; cbn [cut_reader usable]; [by rewrite str_app_nil_r|].
  by rewrite IH, str_take_drop.
Qed.

Section OneRequest.
Context {js : JSON} {jd : JSONDecoder} {lyml : LocalYaml} {pgt : PgTypes} {sql : SQLOrder} {bcrypt : Bcrypt} {sha : Sha256}.
Context {cel : CEL} {srs : SortSlice} {rand : Random} (x : Outside).

(** The rows of a run are not cost events. *)
Lemma store_row_cost en rs t : cost_event (fold_left (store_row en) rs t) = cost_event t.
Proof.
  revert t. induction rs as [|row rs IH]; intros t; [done|]. cbn [fold_left]. rewrite IH.
  destruct row; cbn [store_row]; unfold WriteCtx, Routing_Write, Raw_Write; by repeat case_match.
Qed.

(** The gateway's handler decides to relay a provider's stream. *)
Definition forwards (en : ReqEnv) (g : Live) (r : Request) (body : string) (res : PipelineResult) : Prop :=
  exists l b rows, HandleForward (x_validURL x) (x_upstream x) (x_quote x) (x_decodeError x) (fun _ => gy_view (lv_gateway g)) wireAdapters all_writers
    (v_calc (gy_view (lv_gateway g))) (en_run en) r (Some body) (lv_log g) (Some (gy_budget (lv_gateway g))) = (l, b, rows, Ok (Streaming_ res)).

Lemma forwards_trace en g r body res : forwards en g r body res -> cfg_TraceID (pl_Accounting res) = GetTraceID (Ctx r).
Proof.
  intros (l & b & rs & Hh). unfold HandleForward in Hh. destruct (check_forward _ _ _ _); [|done..].
  destruct (Run _ _ _ _ _ _ _ _ _ _ _ _ _ _) as [[[l1 b1] rs1] [res1| |]] eqn:Hrun; [|done..]. injection Hh as _ _ _ ->.
  by apply Run_labels in Hrun as [-> _].
Qed.

(** The row of the cost table for a request. *)
Definition billed (en : ReqEnv) (ctx : Context) (res : PipelineResult) (success : bool) : CostRow :=
  let r := run_result (stream_of x res) in
  {| co_event_at := micros (en_now en); co_trace := GetTraceID ctx; co_attempt := 1; co_tenant := GetTeamID ctx; co_user := GetUserID ctx;
     co_team := GetTeamID ctx; co_repo := ""; co_task := ""; co_rule := ""; co_event := res_CostEvent r;
     co_latency := env_latency (en_run en); co_success := success; co_errorClass := res_ErrorClass r |}.

Lemma serve_forward_streams en g r body res :
  forwards en g r body res -> en_client en = None -> uuid_shape (GetTraceID (Ctx r)) = true ->
  env_db (en_run en) = true -> table (gy_budget (lv_gateway g)) !! env_id (en_run en) = None -> (en_settle en).1 = true -> en_cost en = true ->
  let run := stream_of x res in
  cost_fits (res_CostEvent (run_result run)) 1 (env_latency (en_run en)) = true ->
  exists g' h, serve_forward x en g r (Some body) = (g', Replied 200 h (cut_reader (en_cut en) (bytes_out (run_pipe run)))) /\
    header_get h "Content-Type" = "text/event-stream" /\
    cost_event (lv_tables g') = (cost_event (lv_tables g) ++
      [billed en (Ctx r) res (match rc_end (pl_Body res) with None => true | Some _ => false end)])%list /\
    table (gy_budget (lv_gateway g')) !! env_id (en_run en) =
      (let rsv := newReservation (env_id (en_run en)) (pg_time (env_now (en_run en))) (GetTraceID (Ctx r)) (GetTeamID (Ctx r)) (GetUserID (Ctx r))
                    (GetTeamID (Ctx r)) 100 in
       Some (match rc_end (pl_Body res) with
             | None => committed rsv (ce_CostCents (res_CostEvent (run_result run))) (pg_time (en_settle en).2)
             | Some _ => settled rsv StateReleased (pg_time (en_settle en).2)
             end)).
Proof.
  intros (l & b & rs & Hh) Hcl Huuid Hdb Hfresh Hset Hcost run Hfits. unfold serve_forward. rewrite Hh. cbv zeta.
  unfold HandleForward in Hh. destruct (check_forward _ _ _ _) as [req| |]; [|done..].
  destruct (Run _ _ _ _ _ _ _ _ _ _ _ _ _ _) as [[[l1 b1] rs1] [res1| |]] eqn:Hrun; [|done..]. injection Hh as -> -> -> ->.
  destruct (Run_labels _ _ _ _ _ _ _ _ _ _ _ _ _ _ _ _ _ _ Hrun) as (H1 & H2 & H3 & H4 & H5 & H6 & H7 & _ & H8 & H9).
  apply Run_ok in Hrun as (dec & m & chain & m2 & chain2 & a & preq & _ & _ & _ & _ & _ & _ & _ & _ & Hpa & (o & alerts & Hrs & [svc1 ->] & Hid)).
  unfold Pg_Reserve in Hrs. rewrite (uuid_canonical _ Huuid), Hdb, Hfresh in Hrs. rewrite bool_decide_eq_false_2 in Hrs by (by intros [? [=]]).
  cbn [negb orb default int4 andb Z.leb Z.ltb] in Hrs. injection Hrs as Hsvc Ho _. subst o. cbn [ID newReservation] in Hid.
  destruct (run_to_end (x_overflow x) (pl_Accounting res) (rc_text (pl_Body res)) (rc_end (pl_Body res))) as (_ & Herr & Hbil & Hsetl).
  fold (stream_of x res) in Herr, Hbil, Hsetl. fold run in Herr, Hbil, Hsetl. rewrite H6 in Hbil. cbn [has_cost all_writers] in Hbil.
  rewrite Hpa, bool_decide_eq_true_2 in Hsetl by (rewrite Hid; by eexists). cbn iota in Hsetl.
  fold run. rewrite Hcl. cbn [fmap option_fmap option_map]. rewrite performed_acts. cbn [enough]. rewrite Hbil, Hsetl. cbn [app fold_left perform].
  eexists _, _. rewrite H8. split; [reflexivity|]. split; [|split].
  - rewrite H9. clear. vm_compute. reflexivity.
  - cbn [set_gateway lv_tables set_tables]. unfold run, stream_of. rewrite run_bills, H6. cbn [has_cost all_writers fold_left].
    unfold store_cost. rewrite H1, H2, H3, H4, H5, H7. unfold PgCost_Write. rewrite uuid_canonical by done. cbn [cw_event cw_success cw_errorClass].
    fold (stream_of x res). fold run. rewrite Hfits, Hcost. cbn [negb fst set_cost cost_event]. by rewrite store_row_cost.
  - cbn [set_gateway lv_gateway with_budget gy_budget set_tables]. rewrite Hid, Hset.
    set (rsv := newReservation _ _ _ _ _ _ _) in *.
    assert (table svc1 !! env_id (en_run en) = Some rsv) as Hrow0 by (rewrite <- Hsvc; cbn; by rewrite lookup_insert_eq).
    cbn [default from_option id]. destruct (PostAccount_row svc1 _ rsv (en_settle en).2 (run_result run) Hrow0) as [Hrow _].
    cbn zeta in Hrow. rewrite Herr in Hrow. etrans; [exact Hrow|]. destruct (rc_end (pl_Body res)); [done|].
    apply cost_fits_cents in Hfits. by rewrite Hfits.
Qed.

(** One request through both programs, whether the provider's stream ends
    normally or breaks off: in the latter case the agent has received the
    provider's bytes and one Anthropic error event, the ledger is unchanged, the
    cost event is stored as failed and the reservation is released. *)
Lemma agent_request_outcome validURL e c io (env : nat -> ReqEnv) g sent l reqBody b j k res fs :
  let g1 := served x (cl_GwURL c) env g sent in let en := env (length sent) in
  let r := with_identity (of_request en (of_client (cl_GwURL c) (forward_request c (printJSON j)))) k in
  let out := run_result (stream_of x res) in
  ReadAll reqBody = (b, None) -> marshal_forward (forward_of e (isStreamRequest b) b) = Some j ->
  validURL (cl_GwURL c +:+ "/v1/agent/forward") = true ->
  HasPrefix (cl_APIKey c) "setup_" = false -> (lookupWithBcrypt (en_auth en) (lv_keys g1) (cl_APIKey c)).2 = Ok k ->
  forwards en (set_keys g1 (lookupWithBcrypt (en_auth en) (lv_keys g1) (cl_APIKey c)).1) r (printJSON j) res ->
  rc_text (pl_Body res) = frames_text fs -> plain_frames fs -> free_of ":" (cfg_EndpointID (pl_Accounting res)) = true ->
  en_client en = None -> uuid_shape (en_minted en) = true ->
  env_db (en_run en) = true -> table (gy_budget (lv_gateway g1)) !! env_id (en_run en) = None -> (en_settle en).1 = true -> en_cost en = true ->
  (forall y, int64 (x_overflow x y)) -> cost_fits (res_CostEvent out) 1 (env_latency (en_run en)) = true -> willing (io 0) ->
  (let payload := match rc_end (pl_Body res) with
                  | None => usage_payload (pl_Accounting res) out
                  | Some m => error_payload (pl_Accounting res) m out
                  end in parseJSON (printJSON payload) = Some payload) ->
  let answer := handleMessages e validURL (gateway_of x (cl_GwURL c) env g) c io "POST" reqBody client l sent in
  let g2 := served x (cl_GwURL c) env g answer.1 in
  let cents := ce_CostCents (res_CostEvent out) in
  answer.1 = (sent ++ [forward_request c (printJSON j)])%list /\
  exists h p' l' row rsv, answer.2 = Some (Answer 200 h p', l') /\
    cost_event (lv_tables g2) = (cost_event (lv_tables g1) ++ [row])%list /\
    table (gy_budget (lv_gateway g2)) !! env_id (en_run en) = Some rsv /\
    co_trace row = en_minted en /\ co_user row = key_UserID k /\ co_team row = key_TeamID k /\ ce_CostCents (co_event row) = cents /\
    TraceID rsv = en_minted en /\ UserID rsv = key_UserID k /\ TeamID rsv = key_TeamID k /\
    match rc_end (pl_Body res) with
    | None =>
        bytes_out p' = frames_text fs /\ co_success row = true /\ r_State rsv = StateCommitted /\ ActualCents rsv = Some cents /\
        exists l1 t, l' = Some l1 /\ ListRecent true l1 1 = Ok [t] /\ tr_TraceID t = en_minted en /\ tr_CostCents t = cents /\
          tr_SessionID t = sessionID e /\ tr_Provider t = cfg_EndpointID (pl_Accounting res) /\ tr_Model t = cfg_Model (pl_Accounting res)
    | Some m =>
        bytes_out p' = frames_text fs +:+ ("event: error" +:+ (nl +:+ ("data: " +:+ (printJSON
          (JObj [("error", JObj [("message", JStr (error_message m (en_minted en))); ("type", JStr "api_error")]);
                 ("type", JStr "error")]) +:+ frame_end)))) /\
        co_success row = false /\ r_State rsv = StateReleased /\ l' = l
    end.
Proof.
  intros g1 en r out Hb Hj Hv Hs Hk Hfw Hfs Hplain Hcolon Hcl Hid Hdb Hfresh Hset Hcost Hov Hfits Hio Hpay answer g2 cents.
  set (q := forward_request c (printJSON j)) in *.
  destruct (client_bearer x c en g1 q "/v1/agent/forward" Forward_ [] k) as (_ & Hbody & _ & Hserve); try done; [by left|].
  change (ht_Body (of_client (cl_GwURL c) q) = Some (printJSON j)) in Hbody. cbn [serve_handler] in Hserve. rewrite Hbody in Hserve.
  fold r in Hserve.
  assert (GetTraceID (Ctx r) = en_minted en) as Htr
    by (unfold r, of_request; rewrite (of_client_path _ q "/v1/agent/forward") by done; done).
  assert (GetUserID (Ctx r) = key_UserID k /\ GetTeamID (Ctx r) = key_TeamID k) as [Huser Hteam] by done.
  destruct (serve_forward_streams en _ r (printJSON j) res Hfw Hcl) as (g' & h & Hfwd & Hct & Hrows & Hrsv);
    [by rewrite Htr|done..|]. rewrite Hfwd in Hserve.
  assert (gateway_of x (cl_GwURL c) env g sent q = Replied 200 h (cut_reader (en_cut en) (bytes_out (run_pipe (stream_of x res))))) as Hgw
    by (unfold gateway_of; fold g1 en; by rewrite Hserve).
  assert (answer = ((sent ++ [q])%list, relayStream e io {| fw_Status := 200; fw_Header := h;
    fw_Body := cut_reader (en_cut en) (bytes_out (run_pipe (stream_of x res))) |} client l)) as Ha
    by (apply (handleMessages_stream e validURL _ c io reqBody b j); rewrite ?Hct; done).
  apply forwards_trace in Hfw as Hctr. rewrite Htr in Hctr.
  unfold g2. rewrite Ha. cbn [fst snd]. split; [done|].
  assert (stream_of x res = run (x_overflow x) (pl_Accounting res) (frames_text fs) (rc_end (pl_Body res)) client) as Hst
    by (unfold stream_of; by rewrite Hfs).
  destruct (relay_run e io (x_overflow x) (pl_Accounting res) fs (rc_end (pl_Body res)) 200 h
    (cut_reader (en_cut en) (bytes_out (run_pipe (stream_of x res)))) l) as (p' & l' & Hrel & Hres);
    [done|done|done|by rewrite usable_cut, Hst|unfold out in Hpay; by rewrite Hst in Hpay|done|].
  rewrite <- Hst in Hres. fold out in Hres. rewrite Hctr in Hres.
  eexists _, p', l', _, _. split; [exact Hrel|].
  rewrite served_snoc. fold g1 en. rewrite Hserve. cbn [fst]. split; [exact Hrows|]. split; [exact Hrsv|].
  cbn [billed co_trace co_user co_team co_event co_success]. rewrite Htr, Huser, Hteam. do 4 (split; [done|]).
  destruct (rc_end (pl_Body res)) as [m|].
  - do 3 (split; [done|]). by destruct Hres as [-> ->].
  - do 3 (split; [done|]). destruct Hres as (-> & l1 & -> & Hl). do 4 (split; [done|]). eexists l1, _. split; [done|]. split; [exact Hl|]. done.
Qed.
(** C1: one request through both programs, for a provider's stream that ends
    normally.  An agent posts a readable body to the local proxy, whose key the
    gateway accepts; the gateway chooses to relay a provider's stream made of
    complete frames, none of them an aicg event, and the agent reads to the
    end.  Suppose the trace id the gateway mints is a canonical UUID, the
    reservation id is unused, the statements for reservation, cost event and
    commit succeed, the cost event fits its columns (the cost an INTEGER), the
    endpoint id has no colon, the proxy can open and write its ledger, the
    conversion of a double to an integer yields a 64-bit integer, and the usage
    event is read back as it was written.  Then the proxy has sent one request;
    the agent has received exactly the provider's bytes, however the network
    cut them; and the local ledger, the gateway's cost table and the budget
    reservation, which is committed, agree: the same trace id, the user and
    team of the key, the cost of the same cost event. *)
Theorem agent_request_end_to_end validURL e c io (env : nat -> ReqEnv) g sent l reqBody b j k res fs :
  let g1 := served x (cl_GwURL c) env g sent in let en := env (length sent) in
  let r := with_identity (of_request en (of_client (cl_GwURL c) (forward_request c (printJSON j)))) k in
  let out := run_result (stream_of x res) in
  ReadAll reqBody = (b, None) -> marshal_forward (forward_of e (isStreamRequest b) b) = Some j ->
  validURL (cl_GwURL c +:+ "/v1/agent/forward") = true ->
  HasPrefix (cl_APIKey c) "setup_" = false -> (lookupWithBcrypt (en_auth en) (lv_keys g1) (cl_APIKey c)).2 = Ok k ->
  forwards en (set_keys g1 (lookupWithBcrypt (en_auth en) (lv_keys g1) (cl_APIKey c)).1) r (printJSON j) res ->
  rc_text (pl_Body res) = frames_text fs -> rc_end (pl_Body res) = None -> plain_frames fs ->
  free_of ":" (cfg_EndpointID (pl_Accounting res)) = true ->
  en_client en = None -> uuid_shape (en_minted en) = true ->
  env_db (en_run en) = true -> table (gy_budget (lv_gateway g1)) !! env_id (en_run en) = None -> (en_settle en).1 = true -> en_cost en = true ->
  (forall y, int64 (x_overflow x y)) -> cost_fits (res_CostEvent out) 1 (env_latency (en_run en)) = true -> willing (io 0) ->
  parseJSON (printJSON (usage_payload (pl_Accounting res) out)) = Some (usage_payload (pl_Accounting res) out) ->
  let answer := handleMessages e validURL (gateway_of x (cl_GwURL c) env g) c io "POST" reqBody client l sent in
  let g2 := served x (cl_GwURL c) env g answer.1 in
  let cents := ce_CostCents (res_CostEvent out) in
  answer.1 = (sent ++ [forward_request c (printJSON j)])%list /\
  exists h p' l1 t row rsv, answer.2 = Some (Answer 200 h p', Some l1) /\ bytes_out p' = frames_text fs /\
    cost_event (lv_tables g2) = (cost_event (lv_tables g1) ++ [row])%list /\
    table (gy_budget (lv_gateway g2)) !! env_id (en_run en) = Some rsv /\ ListRecent true l1 1 = Ok [t] /\
    co_trace row = en_minted en /\ TraceID rsv = en_minted en /\ tr_TraceID t = en_minted en /\
    co_user row = key_UserID k /\ co_team row = key_TeamID k /\ UserID rsv = key_UserID k /\ TeamID rsv = key_TeamID k /\
    co_success row = true /\ r_State rsv = StateCommitted /\
    ce_CostCents (co_event row) = cents /\ ActualCents rsv = Some cents /\ tr_CostCents t = cents /\
    tr_SessionID t = sessionID e /\ tr_Provider t = cfg_EndpointID (pl_Accounting res) /\ tr_Model t = cfg_Model (pl_Accounting res).
Proof.
  intros g1 en r out Hb Hj Hv Hs Hk Hfw Hfs Hend Hplain Hcolon Hcl Hid Hdb Hfresh Hset Hcost Hov Hfits Hio Hpay answer g2 cents.
  destruct (agent_request_outcome validURL e c io env g sent l reqBody b j k res fs) as [Hsent H]; try done; [by rewrite Hend|].
  fold answer in Hsent, H. split; [exact Hsent|]. rewrite Hend in H.
  destruct H as (h & p' & l' & row & rsv & Ha & Hrow & Hrsv & H1 & H2 & H3 & H4 & H5 & H6 & H7 & H8 & H9 & H10 & H11 & l1 & t & -> & Ht).
  exists h, p', l1, t, row, rsv. by destruct Ht as (? & ? & ? & ? & ? & ?).
Qed.
End OneRequest.

(** ** What does not fit together *)

(** The command that the gateway prints for the first login is refused: the
    flags of [aicg login] take their value as the next argument. *)
Lemma bootstrap_hint_refused `{Files} baseURL tok : parseLoginFlags baseURL (tail (bootstrap_hint tok)) = Err NoToken.
Proof. done. Qed.

(** An invite for less than an hour passes the flags and is refused by the
    gateway, since whole hours are sent. *)
Lemma short_ttl_refused {Env S} `{InviteStore Env S} (h : InviteState S) r ttl u t role tid :
  (0 < ttl < Hour)%Z -> Method r = "POST" -> u <> "" -> t <> "" -> isAllowedInviteRole role = true ->
  check_create h r true (inr {| ci_UserID := u; ci_TeamID := t; ci_Role := role; ci_TTLHours := Z.quot ttl Hour |}) tid =
  Err (ErrorResp 400 "bad_request" "ttl_hours must be in (0, 720]" tid).
Proof.
  intros Ht Hp Hu Hm Hrole. apply is_empty_false in Hu, Hm. unfold check_create. rewrite Hp.
  cbn [negb String.eqb Ascii.eqb Bool.eqb reject mbind outcome_bind ci_UserID ci_TeamID ci_Role ci_TTLHours].
  rewrite Hu, Hm, Hrole, Z.quot_small by lia. done.
Qed.

(** The reply to a forwarded request names its trace id twice: the middleware
    sets the header and the handler adds it again. *)
Lemma trace_header_twice tid routed :
  (fold_left header_add [("Content-Type", "text/event-stream"); ("X-AICG-Trace-Id", tid); ("X-AICG-Routed-To", routed)]
     (trace_header tid) : Header) !! CanonicalHeaderKey "X-AICG-Trace-Id" = Some [tid; tid].
Proof. by vm_compute. Qed.

(** ** A gateway and its machines *)

Module Machines.
Import Server.Sample.
#[export] Existing Instances coded_yaml merge_rows.

(** 1970-01-03 *)
Definition machine (home : string) : Machine :=
  {| m_home := Some home; m_baseURL := ""; m_hostname := Some "box"; m_cwd := Some (home +:+ "/shop"); m_pid := 7;
     m_now := 172800; m_os := "linux"; m_arch := "amd64"; m_semver := "0.1.0"; m_gitSHA := "unknown";
     m_write := fun _ => (true, Written); m_open := {| mkdir_ok := true; sql_ok := true; migrate_ok := true |};
     m_query := true; m_listen := true; m_serve := true |}.
Definition ann : Machine := machine "/home/ann".
Definition bob : Machine := machine "/home/bob".
Definition world : World :=
  {| wd_disk := {| files := ∅; unreadable := ∅ |}; wd_ledger := None; wd_sent := []; wd_out := []; wd_writes := 0 |}.
Lemma ann_is_new : new_machine ann world.
Proof. exists ["home"; "ann"], DefaultConfig. split_and!; [done|by repeat constructor|done|unfold readable; set_solver|done|done]. Qed.
Lemma bob_is_new : new_machine bob world.
Proof. exists ["home"; "bob"], DefaultConfig. split_and!; [done|by repeat constructor|done|unfold readable; set_solver|done|done]. Qed.
Lemma all_read_back j : read_back j.
Proof. split; [apply line_json_read_back|apply line_json_read_line]. Qed.

Lemma fresh_empty clear hash : fresh_key empty_store clear hash.
Proof. split_and!; [done|intros h r Hr|intros p r Hr]; cbn in Hr; by rewrite lookup_empty in Hr. Qed.

(** The requests of the two logins and of the invite in between. *)
Definition admin_env (i : nat) : ReqEnv := match i with O => env_at 1 [1; 171]%Z booted | _ => env_at 2 [2; 3]%Z with_admin end.
Definition user_env (_ : nat) : ReqEnv := env_at 3 [4]%Z with_invite.

Lemma onboarding_chain_witness :
  exists w1 w2 w3 d,
    runLogin (fun _ => true) (gateway_of outside "http://gw" admin_env booted) ann ["--setup"; "setup_ab"; "--gateway"; "http://gw"] world = (w1, Ok tt) /\
    last (wd_out w2) = Some (Text (invite_line (2 + 7200 * 10 ^ 9) "0203")) /\
    start_plan bob [] w3 = Ok d /\
    authenticates "http://gw" (served outside "http://gw" user_env (served outside "http://gw" admin_env booted (wd_sent w2)) (wd_sent w3)) d
      "bob" "core" "developer" "$2a$10$04".
Proof.
  destruct (onboarding_chain outside (fun _ => true) ann bob "http://gw" admin_env user_env booted "setup_ab" "bob" "core" "developer" "2h"
    (2 * Hour) world world [] [1; 171]%Z "$2a$10$01ab" [2; 3]%Z [4]%Z "$2a$10$04") as (w1 & w2 & w3 & d & H1 & _ & H3 & _ & H5 & H6 & _).
  - exact ann_is_new.
  - exact bob_is_new.
  - done.
  - done.
  - by vm_compute.
  - by vm_compute.
  - by vm_compute.
  - unfold Hour. lia.
  - done.
  - done.
  - done.
  - by vm_compute.
  - done.
  - done.
  - split_and!; [done|repeat constructor; lia|done|by vm_compute|by vm_compute].
  - done.
  - reflexivity.
  - done.
  - done.
  - done.
  - vm_compute. split; congruence.
  - done.
  - by vm_compute.
  - split_and!; [done|repeat constructor; lia|done|by vm_compute|by vm_compute].
  - apply fresh_empty.
  - apply fresh_empty.
  - done.
  - by vm_compute.
  - apply all_read_back.
  - apply all_read_back.
  - apply all_read_back.
  - apply all_read_back.
  - apply all_read_back.
  - exists w1, w2, w3, d. split; [exact H1|]. split; [exact H3|]. split; [exact H5|exact H6].
Defined.

(** Ann's key, four cost events. *)
Definition keys : PgKeyStore :=
  {| api_keys := {["$2a$10$k0" := {| row_key := sample_key "ann" "k0"; last_used_at := None; deleted_at := None |}]}; cache := ∅ |}.
Definition busy : Live := set_tables (set_keys booted keys) sample_tables.
Definition busy_env (_ : nat) : ReqEnv := env_at 5 [] busy.
Definition creds : Credentials := {| cr_GwURL := "http://gw"; cr_UserID := "ann"; cr_APIKey := "k0"; cr_TeamID := "core" |}.
Definition world_in : World :=
  {| wd_disk := (SaveCredentials (m_home ann) (wd_disk world) true Written creds).1; wd_ledger := None;
     wd_sent := []; wd_out := []; wd_writes := 0 |}.

Lemma stats_end_to_end_witness :
  exists rows opts w',
    runStats (fun _ => true) (gateway_of outside "http://gw" busy_env busy) ann ["--from"; "2d"] world_in = (w', Ok tt) /\
    wd_out w' = [Text (RenderStatsTable opts (to_client <$> rows))] /\
    total sr_CostCents rows = 12%Z /\ total sr_NRequests rows = 4%Z.
Proof.
  destruct (stats_end_to_end outside (fun _ => true) ann busy_env "2" "d" 2 world_in creds busy (sample_key "ann" "k0"))
    as (rows & opts & w' & Hrun & Hout & _ & _ & _ & _ & _ & _ & Htot);
    [by left|done|done|by vm_compute|by vm_compute| |done|done|done|by vm_compute|done| | |].
  - by destruct (LoadCredentials_saved ["home"; "ann"] (wd_disk world) creds
      ltac:(by repeat constructor) ltac:(done) ltac:(set_solver)) as (d & Hs & Hl & _).
  - apply (bool_decide_unpack _). vm_compute. done.
  - intros [|r rows] _; [apply line_json_read_back|apply line_json_read_line].
  - destruct Htot as (_ & Hc & _ & _ & Hn & _); [vm_compute; lia|]. exists rows, opts, w'. split; [exact Hrun|]. split; [exact Hout|]. split; [rewrite Hc; by vm_compute|rewrite Hn; by vm_compute].
Defined.

(** A request of Ann's agent. *)
Definition proxy : LPEnv :=
  {| lp_home := Some "/home/ann"; lp_disk := {| files := ∅; unreadable := ∅ |}; lp_repoRoot := "/home/ann/shop";
     lp_session := {| SessionID := "s1"; PID := 7; StartedAt := 0 |}; lp_os := "linux"; lp_arch := "amd64";
     lp_semver := "0.1.0"; lp_gitSHA := "unknown" |}.
Definition agent : Client := {| cl_GwURL := "http://gw"; cl_APIKey := "k0" |}.
Definition ledger_io (_ : nat) : LedgerIO :=
  {| io_home := Some "/home/ann"; io_open := {| mkdir_ok := true; sql_ok := true; migrate_ok := true |}; io_insert := true |}.
Definition question : json := Transformer.sample_body.
Definition forwarded_json : json :=
  JObj [("envelope", buildEnvelope proxy (printJSON question)); ("wire", JObj [("protocol", JStr "anthropic_messages"); ("stream", JBool false);
    ("body", question)])].
Definition received : Request :=
  with_identity (of_request (busy_env 0) (of_client "http://gw" (forward_request agent (printJSON forwarded_json)))) (sample_key "ann" "k0").
Definition parsed (envelope : json) : Pipeline.ForwardRequest :=
  {| fr_Envelope := Some envelope; fr_Wire := {| wp_Protocol := "anthropic_messages"; wp_Stream := false; wp_Body := Some question |} |}.
Definition ran (envelope : json) :=
  Run (x_validURL outside) (x_upstream outside) (x_quote outside) (x_decodeError outside) (fun _ => old_view) wireAdapters all_writers
    (v_calc old_view) Pipeline.sample_env (Ctx received) (parsed envelope) sample_trace no_log (Some NewPgService).
Definition result : PipelineResult :=
  match (ran JNull).2 with
  | Ok r => r
  | _ => {| StatusCode := 0; Headers := []; pl_Body := {| rc_text := ""; rc_end := None |}; pl_Accounting := Stream.sample_cfg; pl_Reservation := None |}
  end.

Lemma relays : forwards outside (busy_env 0) (set_keys busy (lookupWithBcrypt (en_auth (busy_env 0)) keys "k0").1) received (printJSON forwarded_json) result.
Proof.
  assert (forall envelope, (ran envelope).2 = Ok result) as Hr by (intros envelope; vm_compute; reflexivity).
  pose proof (Hr (buildEnvelope proxy (printJSON question))) as Hres. unfold ran in Hres. unfold forwards, HandleForward.
  assert (check_forward (x_decodeError outside) received (Some (printJSON forwarded_json)) (GetTraceID (Ctx received)) =
    Ok (parsed (buildEnvelope proxy (printJSON question)))) as ->.
  { unfold check_forward, unmarshal. change (negb (String.eqb (Method received) "POST")) with false.
    cbn [reject mbind outcome_bind]. rewrite line_json_read_back. cbn [unmarshal_raw mbind option_bind].
    unfold forwarded_json. generalize (buildEnvelope proxy (printJSON question)). intros envelope. reflexivity. }
  change (GetTraceID (Ctx received)) with sample_trace.
  match goal with |- context [Run ?a ?b ?c ?d ?e ?f ?g ?h ?i ?j ?k ?l ?m ?n] => destruct (Run a b c d e f g h i j k l m n) as [[[l1 b1] rs1] res1] eqn:Hrun end.
  assert (res1 = Ok result) as ->; [|by eexists _, _, _].
  rewrite <- Hres. change res1 with (l1, b1, rs1, res1).2. rewrite <- Hrun. reflexivity.
Qed.

Lemma agent_request_end_to_end_witness :
  let answer := handleMessages proxy (fun _ => true) (gateway_of outside "http://gw" busy_env busy) agent ledger_io "POST"
                  [(printJSON question, None)] client None [] in
  exists h p' l1 t, answer.2 = Some (Answer 200 h p', Some l1) /\ bytes_out p' = provider_text /\
    ListRecent true l1 1 = Ok [t] /\ tr_TraceID t = sample_trace /\
    length (cost_event (lv_tables (served outside "http://gw" busy_env busy answer.1))) = 5.
Proof.
  intros answer.
  assert (printJSON question +:+ "" = printJSON question) as Hnil by apply str_app_nil_r.
  destruct (agent_request_end_to_end outside (fun _ => true) proxy agent ledger_io busy_env busy [] None [(printJSON question, None)]
    (printJSON question) forwarded_json (sample_key "ann" "k0") result ["event: ping" +:+ (nl +:+ "data: x")])
    as (_ & h & p' & l1 & t & row & rsv & Ha & Hb & Hc & _ & Hl & _ & _ & Ht & _).
  - cbn [ReadAll]. by rewrite Hnil.
  - unfold marshal_forward, forward_of. cbn [f_Wire f_Envelope w_Body w_Protocol w_Stream]. rewrite line_json_read_back. cbn [mbind option_bind].
    unfold isStreamRequest, unmarshal. by rewrite line_json_read_back.
  - done.
  - done.
  - by vm_compute.
  - exact relays.
  - by vm_compute.
  - by vm_compute.
  - by repeat constructor.
  - by vm_compute.
  - done.
  - by vm_compute.
  - done.
  - by vm_compute.
  - done.
  - done.
  - intros y. unfold int64. cbn. lia.
  - by vm_compute.
  - repeat split. by eexists.
  - apply line_json_read_back.
  - exists h, p', l1, t. split; [exact Ha|]. split; [exact Hb|]. split; [exact Hl|]. split; [exact Ht|].
    change (cl_GwURL agent) with "http://gw" in Hc. unfold answer. rewrite Hc, length_app. done.
Defined.
End Machines.
