(* ===== verification/Replay.v ===== *)
(** * Replaying a routing decision

    [aicg routingctl replay] over the history of a gateway: a relayed request
    leaves one row in [routing_event], nothing that happens later changes or
    repeats it, and the command finds it by its trace id and reads the member
    out of the JSON text with the hand-written scanner of
    [internal/lp/cli/commands.go]. *)

From Stdlib Require Import Ascii.
From stdpp Require Import sorting base gmap strings fin_maps numbers pretty list.
From S2P Require Import Prelude Postgres GoData Config Policy Routing Budget Cost Edge Auth Handlers Json Stream Provider Pipeline Relay Calendar LocalState Ledger GwClient Reload LocalProxy Stats Cli Storage Dashboard Gateway Server EndToEnd.
Local Open Scope string_scope.

(** ** The scanner on quoted text

    Text cut at its quotes: a key is found where a piece between two quotes is
    the key. *)

Definition quote_char : ascii := "034".
Definition unquoted (s : string) : Prop := free_of quote_char s = true.

Lemma join_with_cons sep s l : l <> [] -> join_with sep (s :: l) = s +:+ String sep (join_with sep l).
Proof. by destruct l. Qed.

(** The pattern cannot start before the first quote. *)
Lemma after_first_skip pat s rest : unquoted s ->
  after_first (String quote_char pat) (s +:+ String quote_char rest) = after_first (String quote_char pat) (String quote_char rest).
Proof.
  unfold unquoted. induction s as [|c s IH]; cbn [free_of]; [done|]. intros [Hc Hs]%andb_true_iff. apply negb_true_iff in Hc.
  change (String c s +:+ ?r) with (String c (s +:+ r)). cbn [after_first].
  assert (HasPrefix (String c (s +:+ String quote_char rest)) (String quote_char pat) = false) as ->; [|by apply IH].
  apply not_true_iff_false. intros [t Ht]%HasPrefix_spec. injection Ht as -> _. by rewrite Ascii.eqb_refl in Hc.
Qed.
Lemma after_first_none pat s : unquoted s -> after_first (String quote_char pat) s = None.
Proof.
  unfold unquoted. induction s as [|c s IH]; cbn [free_of]; [done|]. intros [Hc Hs]%andb_true_iff. apply negb_true_iff in Hc.
  cbn [after_first]. assert (HasPrefix (String c s) (String quote_char pat) = false) as ->; [|by apply IH].
  apply not_true_iff_false. intros [t Ht]%HasPrefix_spec. injection Ht as -> _. by rewrite Ascii.eqb_refl in Hc.
Qed.

Section Scan.
Context (key : string) (Hkey : unquoted key).
Let pat : string := key +:+ quote_mark.

(** At a quote: either the next piece is the key and is closed, or the search
    goes on behind the quote. *)
Lemma after_first_hit rest : after_first (String quote_char pat) (String quote_char (key +:+ String quote_char rest)) = Some rest.
Proof.
  assert (String quote_char (key +:+ String quote_char rest) = String quote_char pat +:+ rest) as ->
    by (unfold pat, quote_mark; cbn; by rewrite str_app_assoc).
  assert (forall s, HasPrefix s (String quote_char pat) = true ->
    after_first (String quote_char pat) s = Some (str_drop (String.length (String quote_char pat)) s)) as H.
  { intros s Hp. by destruct s as [|c s]; cbn [after_first]; rewrite Hp. }
  rewrite H by apply HasPrefix_app. by rewrite str_drop_app.
Qed.
Lemma after_first_miss piece rest : unquoted piece -> piece <> key ->
  after_first (String quote_char pat) (String quote_char (piece +:+ String quote_char rest)) =
  after_first (String quote_char pat) (String quote_char rest).
Proof.
  intros Hp Hne. cbn [after_first].
  assert (HasPrefix (String quote_char (piece +:+ String quote_char rest)) (String quote_char pat) = false) as ->;
    [|by apply after_first_skip].
  apply not_true_iff_false. intros [t Ht]%HasPrefix_spec. unfold pat, quote_mark in Ht.
  change (String quote_char (key +:+ String "034" "") +:+ t) with (String quote_char ((key +:+ String quote_char "") +:+ t)) in Ht.
  rewrite str_app_assoc in Ht. injection Ht as Ht. apply join_inj in Ht as [-> _]; done.
Qed.
Lemma after_first_last piece : unquoted piece -> after_first (String quote_char pat) (String quote_char piece) = None.
Proof.
  intros Hp. cbn [after_first].
  assert (HasPrefix (String quote_char piece) (String quote_char pat) = false) as ->; [|by apply after_first_none].
  apply not_true_iff_false. intros [t Ht]%HasPrefix_spec. unfold pat, quote_mark in Ht.
  change (String quote_char (key +:+ String "034" "") +:+ t) with (String quote_char ((key +:+ String quote_char "") +:+ t)) in Ht.
  rewrite str_app_assoc in Ht. injection Ht as ->. unfold unquoted in Hp. rewrite free_of_app in Hp. cbn in Hp.
  by rewrite andb_false_r in Hp.
Qed.

Lemma after_first_found first pre post : unquoted first -> Forall unquoted pre -> key ∉ pre -> post <> [] ->
  after_first (String quote_char pat) (join_with quote_char (first :: pre ++ key :: post)) = Some (join_with quote_char post).
Proof.
  intros Hf Hpre Hn Hpost. rewrite join_with_cons by (by destruct pre). rewrite after_first_skip by done. clear Hf.
  induction pre as [|p pre IH]; cbn [app].
  - rewrite join_with_cons by done. apply after_first_hit.
  - apply Forall_cons in Hpre as [Hp Hpre]. rewrite not_elem_of_cons in Hn. destruct Hn as [Hne Hn].
    rewrite join_with_cons by (by destruct pre). rewrite after_first_miss by done. by apply IH.
Qed.
Lemma after_first_absent first l : unquoted first -> Forall unquoted l -> key ∉ l ->
  after_first (String quote_char pat) (join_with quote_char (first :: l)) = None.
Proof.
  intros Hf Hl Hn. destruct l as [|p l]; [by apply after_first_none|]. rewrite join_with_cons by done. rewrite after_first_skip by done.
  clear Hf first. revert p Hl Hn. induction l as [|p' l IH]; intros p Hl Hn; apply Forall_cons in Hl as [Hp Hl];
    [by apply after_first_last|].
  rewrite not_elem_of_cons in Hn. destruct Hn as [Hne Hn]. rewrite join_with_cons by done. rewrite after_first_miss by done. by apply IH.
Qed.
End Scan.

(** A value without quotes and escapes ends at the next quote. *)
Lemma quoted_plain s rest : unquoted s -> free_of "\" s = true -> quoted (s +:+ String quote_char rest) = Ok s.
Proof.
  unfold unquoted. induction s as [|c s IH]; cbn [free_of]; [done|]. intros [Hc Hs]%andb_true_iff [Hb Hs']%andb_true_iff.
  apply negb_true_iff in Hc, Hb. change (String c s +:+ ?r) with (String c (s +:+ r)). cbn [quoted]. unfold quote_char in Hc.
  by rewrite Hc, Hb, IH.
Qed.

Lemma extract_found key first pre value post : unquoted key -> unquoted first -> Forall unquoted pre -> key ∉ pre ->
  unquoted value -> free_of "\" value = true -> post <> [] ->
  extractJSONString (join_with quote_char (first :: pre ++ key :: ": " :: value :: post)) key = Ok (Some value).
Proof.
  intros Hk Hf Hpre Hn Hv Hb Hpost. unfold extractJSONString.
  change (quote_mark +:+ (key +:+ quote_mark)) with (String quote_char (key +:+ quote_mark)).
  rewrite after_first_found by done. rewrite join_with_cons by done.
  change (": " +:+ ?r) with (String ":" (String " " r)). cbn -[join_with]. rewrite join_with_cons by done. by rewrite quoted_plain.
Qed.
Lemma extract_absent key first l : unquoted key -> unquoted first -> Forall unquoted l -> key ∉ l ->
  extractJSONString (join_with quote_char (first :: l)) key = Ok None.
Proof.
  intros Hk Hf Hl Hn. unfold extractJSONString.
  change (quote_mark +:+ (key +:+ quote_mark)) with (String quote_char (key +:+ quote_mark)). by rewrite after_first_absent.
Qed.

(** ** The member of a routing row *)

Definition scanned_names : list string := ["endpoint_id"; "EndpointID"; "model"; "Model"].
(** A value without quotes and escapes, and not itself one of the names. *)
Definition plain_value (s : string) : Prop := unquoted s /\ free_of "\" s = true /\ s ∉ scanned_names.
#[export] Instance plain_value_dec s : base.Decision (plain_value s).
Proof. unfold plain_value, unquoted. apply _. Defined.
Definition plain_member (m : Member) : Prop :=
  Forall plain_value [m_URL m; Wire m; m_Model m; VendorID m; TrustTier m; EndpointID m; DataResidency m].

(** The text of a member with plain values as Postgres prints it for JSONB:
    shorter names first, a blank after colon and comma. *)
Definition bool_text (b : bool) : string := if b then "true" else "false".
Definition jsonb_pieces (m : Member) : list string :=
  ["URL"; ": "; m_URL m; ", "; "Wire"; ": "; Wire m; ", "; "Model"; ": "; m_Model m; ", ";
   "Private"; ": " +:+ (bool_text (Private m) +:+ ", "); "VendorID"; ": "; VendorID m; ", ";
   "Streaming"; ": " +:+ (bool_text (m_Streaming m) +:+ ", "); "TrustTier"; ": "; TrustTier m; ", ";
   "EndpointID"; ": "; EndpointID m; ", "; "DataResidency"; ": "; DataResidency m; ", ";
   "OriginalWeight"; ": " +:+ (pretty (OriginalWeight m) +:+ "}")].
Definition jsonb_member (m : Member) : string := join_with quote_char ("{" :: jsonb_pieces m).
Definition prints_members (x : Outside) : Prop := forall m, plain_member m -> x_jsonb x (member_json m) = jsonb_member m.

(** The text of a number has no quotes. *)
Lemma pretty_N_unquoted_go n s : unquoted s -> unquoted (pretty_N_go n s).
Proof.
  revert s. induction (N.lt_wf_0 n) as [n _ IH]. intros s Hs. destruct (decide (n = 0)%N) as [->|Hn]; [done|].
  rewrite pretty_N_go_step by lia. apply IH; [by apply N.div_lt; lia|].
  unfold unquoted in *. cbn [free_of]. rewrite Hs, andb_true_r. apply negb_true_iff.
  assert (n `mod` 10 < 10)%N as Hm by (apply N.mod_lt; lia). revert Hm. generalize (n `mod` 10)%N as d. intros d Hd.
  destruct d as [|p]; [done|]. by do 4 (destruct p as [p|p|]; [| |done] || lia).
Qed.
Lemma pretty_unquoted (z : Z) : unquoted (pretty z).
Proof.
  assert (forall n : N, unquoted (pretty n)) as HN.
  { intros n. unfold pretty, pretty_N. destruct (decide _); [done|]. by apply pretty_N_unquoted_go. }
  unfold pretty, pretty_Z. destruct z as [|p|p]; [done|apply HN|]. apply (HN (N.pos p)).
Qed.

Lemma pieces_unquoted m : plain_member m -> Forall unquoted (jsonb_pieces m).
Proof.
  intros H. unfold plain_member in H. rewrite !Forall_cons in H. destruct H as ((H1 & _) & (H2 & _) & (H3 & _) & (H4 & _) & (H5 & _) & (H6 & _) & (H7 & _) & _).
  unfold jsonb_pieces. repeat (apply Forall_cons; split); try done.
  - by destruct (Private m).
  - by destruct (m_Streaming m).
  - unfold unquoted. rewrite !free_of_app, (pretty_unquoted (OriginalWeight m)). done.
Qed.

(** A name is not among pieces that are values or differ from it. *)
Ltac not_a_piece := repeat (apply not_elem_of_cons; split); try (by intros ?); try apply not_elem_of_nil.

(** The scanner reads the two names it is after, whatever the member is. *)
Lemma parseMemberJSON_member m : plain_member m -> parseMemberJSON (jsonb_member m) = Ok (EndpointID m, m_Model m).
Proof.
  intros Hm. pose proof (pieces_unquoted m Hm) as Hu. unfold plain_member in Hm. rewrite !Forall_cons in Hm.
  destruct Hm as ((_ & _ & N1) & (_ & _ & N2) & (U3 & B3 & N3) & (_ & _ & N4) & (_ & _ & N5) & (U6 & B6 & N6) & (_ & _ & N7) & _).
  assert (forall s, s ∉ scanned_names -> "endpoint_id" <> s /\ "EndpointID" <> s /\ "model" <> s /\ "Model" <> s) as Hne.
  { intros s Hs. split_and!; intros <-; apply Hs; unfold scanned_names; set_solver. }
  apply Hne in N1, N2, N3, N4, N5, N6, N7. destruct_and!.
  assert ("endpoint_id" ∉ jsonb_pieces m) as Ha by (unfold jsonb_pieces; not_a_piece).
  assert ("model" ∉ jsonb_pieces m) as Hb by (unfold jsonb_pieces; not_a_piece).
  assert (extractJSONString (jsonb_member m) "EndpointID" = Ok (Some (EndpointID m))) as He
    by (apply (extract_found "EndpointID" "{" (take 24 (jsonb_pieces m)) (EndpointID m) (drop 27 (jsonb_pieces m)));
        [done|done|by apply Forall_take|cbn; not_a_piece|done|done|done]).
  assert (extractJSONString (jsonb_member m) "Model" = Ok (Some (m_Model m))) as Hmo
    by (apply (extract_found "Model" "{" (take 8 (jsonb_pieces m)) (m_Model m) (drop 11 (jsonb_pieces m)));
        [done|done|by apply Forall_take|cbn; not_a_piece|done|done|done]).
  assert (extractJSONString (jsonb_member m) "endpoint_id" = Ok None) as He' by (by apply extract_absent).
  assert (extractJSONString (jsonb_member m) "model" = Ok None) as Hmo' by (by apply extract_absent).
  unfold parseMemberJSON, extract_either. by rewrite He', Hmo', He, Hmo.
Qed.

(** ** The routing table over time *)

(** One row per trace id: the only attempt that is recorded is the first. *)
Record one_each (t : Tables) : Prop := {
  oe_key : NoDup (routing_key <$> routing_event t);
  oe_first : Forall (fun r => ro_attempt r = 1%Z) (routing_event t) }.
(** Rows are only added. *)
Definition keeps (t t' : Tables) : Prop :=
  (one_each t -> one_each t') /\ exists l, routing_event t' = (routing_event t ++ l)%list.
#[export] Instance keeps_preorder : PreOrder keeps.
Proof.
  split; [intros t; split; [done|exists []; by rewrite app_nil_r]|].
  intros t1 t2 t3 [H1 [l1 E1]] [H2 [l2 E2]]. split; [auto|]. exists (l1 ++ l2)%list. by rewrite E2, E1, app_assoc.
Qed.
Lemma keeps_same t t' : routing_event t' = routing_event t -> keeps t t'.
Proof. intros H. split; [intros [? ?]; split; by rewrite H|]. exists []. by rewrite H, app_nil_r. Qed.
Lemma keeps_fold {A} (f : Tables -> A -> Tables) (P : A -> Prop) l t :
  (forall t a, P a -> keeps t (f t a)) -> Forall P l -> keeps t (fold_left f l t).
Proof.
  intros Hf Hl. revert t. induction Hl as [|a l Ha _ IH]; intros t; [done|]. cbn [fold_left]. etrans; [by apply Hf|apply IH].
Qed.

Lemma filter_none {A} (P : A -> Prop) `{!forall a, base.Decision (P a)} (l : list A) : (forall a, a ∈ l -> ~ P a) -> filter P l = [].
Proof.
  induction l as [|a l IH]; intros Hl; [done|]. rewrite filter_cons_False by (apply Hl; left). apply IH. intros b Hb. apply Hl. by right.
Qed.

(** The rows of one trace id, in a table with one row for it. *)
Lemma rows_of_trace t r : one_each t -> r ∈ routing_event t ->
  filter (fun r' => ro_trace r' = ro_trace r) (routing_event t) = [r].
Proof.
  intros [Hk Hf]. generalize dependent (routing_event t). intros l Hk Hf Hin. induction l as [|a l IH]; [by apply elem_of_nil in Hin|].
  apply Forall_cons in Hf as [Ha Hf]. rewrite fmap_cons, NoDup_cons in Hk. destruct Hk as [Hn Hk].
  assert (forall b, b ∈ l -> ro_trace b <> ro_trace a) as Hother.
  { intros b Hb He. apply Hn. apply list_elem_of_fmap. exists b. split; [|done]. unfold routing_key.
    rewrite list.Forall_forall in Hf. by rewrite He, Ha, (Hf b Hb). }
  apply elem_of_cons in Hin as [->|Hin].
  - rewrite filter_cons_True by done. f_equal. apply filter_none. intros b Hb. by apply Hother.
  - rewrite filter_cons_False by (intros He; by apply (Hother r Hin)). by apply IH.
Qed.

Section History.
Context {js : JSON} {jd : JSONDecoder} {pgt : PgTypes} {sql : SQLOrder} {bcrypt : Bcrypt} {sha : Sha256}.
Context {cel : CEL} {srs : SortSlice} {rand : Random} (x : Outside).

Definition first_attempt (row : PgRow) : Prop := match row with Pipeline.RoutingRow _ _ n _ _ _ _ _ => n = 1%Z | _ => True end.

Lemma store_row_keeps en t row : first_attempt row -> keeps t (store_row en t row).
Proof.
  destruct row as [ev|tr te n dec pool m dg seed|tr te us tea re se]; cbn [first_attempt store_row]; intros Hn.
  - apply keeps_same. unfold WriteCtx. by repeat case_match.
  - unfold Routing_Write. destruct (uuid_text tr) as [u|]; [|by apply keeps_same]. rewrite Hn. cbn [int2 negb andb Z.leb Z.ltb Z.compare].
    case_bool_decide as Hin; [by apply keeps_same|]. destruct (en_routing en); cbn [negb fst]; [|by apply keeps_same].
    split; [|by eexists]. intros [Hk Hf]. split; cbn [routing_event set_routing]; [by apply NoDup_snoc_fmap|by apply Forall_snoc_1].
  - apply keeps_same. unfold Raw_Write. by repeat case_match.
Qed.
Lemma store_cost_keeps en cfg t w : keeps t (store_cost en cfg t w).
Proof. apply keeps_same. unfold store_cost, PgCost_Write. by repeat case_match. Qed.
Lemma store_audit_keeps ok evs t : keeps t (fold_left (PgAudit_Write ok) evs t).
Proof.
  apply (keeps_fold _ (fun _ => True)); [|by apply Forall_true]. intros t' ev _. apply keeps_same.
  unfold PgAudit_Write, WriteCtx. by repeat case_match.
Qed.

Lemma Run_first live adapters pg calc env ctx req tr l b l' b' rows res :
  Run (x_validURL x) (x_upstream x) (x_quote x) (x_decodeError x) live adapters pg calc env ctx req tr l b = (l', b', rows, res) ->
  Forall first_attempt rows.
Proof.
  unfold Run. destruct (Decide _ _) as [dec| |]; [|by intros [= <- <- <- <-]..].
  destruct (BuildChain _ _ _ _ _) as [[|m chain]| |]; [by intros [= <- <- <- <-]| |by intros [= <- <- <- <-]..].
  destruct (Egress_Run _ _ _ _ _ _ _ _ _ _ _ _ _ _ _ _ _) as [l1 [er| |]]; [|by intros [= <- <- <- <-]..].
  destruct b as [svc|]; [destruct (Pg_Reserve _ _ _ _ _ _ _ _ _ _) as [[svc1 []] alerts]|]; intros [= <- <- <- <-];
    destruct (has_audit pg), (has_routing pg), (has_rawstore pg); by repeat constructor.
Qed.

Lemma perform_keeps en res r l g : keeps (lv_tables g) (lv_tables (fold_left (perform en res r) l g)).
Proof.
  revert g. induction l as [|a l IH]; intros g; [done|]. cbn [fold_left]. etrans; [|apply IH]. destruct a; cbn; [done| |done].
  apply (keeps_fold _ (fun _ => True)); [|by apply Forall_true]. intros t w _. apply store_cost_keeps.
Qed.

Lemma serve_forward_keeps en g r body : keeps (lv_tables g) (lv_tables (serve_forward x en g r body).1).
Proof.
  unfold serve_forward. destruct (HandleForward _ _ _ _ _ _ _ _ _ _ _ _ _) as [[[l b] rs] res] eqn:Hh.
  assert (Forall first_attempt rs) as Hrs.
  { unfold HandleForward in Hh. destruct (check_forward _ _ _ _) as [req| |]; [|simplify_eq; by constructor..].
    destruct (Run _ _ _ _ _ _ _ _ _ _ _ _ _ _) as [[[l1 b1] rs1] res1] eqn:Hr. apply Run_first in Hr. destruct res1; by simplify_eq. }
  cbv zeta. set (g1 := set_tables _ _).
  assert (keeps (lv_tables g) (lv_tables g1)) as H1 by (apply (keeps_fold _ first_attempt); [apply store_row_keeps|done]).
  destruct res as [[resp|res]| |]; cbn [fst]; [done| |done..]. etrans; [exact H1|apply perform_keeps].
Qed.

Lemma serve_keeps en g q : rows (en_auth en) ≡ₚ live_rows (api_keys (lv_keys g)) -> keeps (lv_tables g) (lv_tables (serve x en g q).1).
Proof.
  intros Hr. destruct (serve_cases x en g q Hr) as [(_ & tid & code & msg & ->)|(s & r & _ & Hc)]; [done|].
  destruct (gw_route _ _) as [[hd roles]|]; [|by rewrite Hc]. destruct Hc as [(_ & _ & tid & ->)|(_ & tid & ->)]; [done|].
  change (lv_tables g) with (lv_tables (set_keys g s)). generalize (set_keys g s). intros g'.
  destruct hd; cbn [serve_handler fst]; try done.
  - apply serve_forward_keeps.
  - destruct (serve_setup_effect x en g' r tid) as (_ & _ & -> & _). done.
  - unfold serve_exchange. destruct (HandleExchangeInvite _ _ _ _ _ _ _ _ _). apply store_audit_keeps.
  - unfold serve_create. destruct (HandleAdminCreateInvite _ _ _ _ _ _ _ _). apply store_audit_keeps.
Qed.

Lemma history_keeps g g' : rtc (gw_step x) g g' -> keeps (lv_tables g) (lv_tables g').
Proof.
  induction 1 as [|g1 g2 g3 [g ev Hh] _ IH]; [done|]. etrans; [|exact IH]. destruct ev as [en q|cfg|db order now|env]; cbn [gw_event].
  - by apply serve_keeps.
  - done.
  - unfold sweep. by destruct (settler_tick _ _ _ _).
  - done.
Qed.

(** *** The row of a relayed request *)

Lemma Run_row live adapters calc env ctx req tr l b l' b' rows res :
  Run (x_validURL x) (x_upstream x) (x_quote x) (x_decodeError x) live adapters all_writers calc env ctx req tr l b = (l', b', rows, Ok res) ->
  exists ev dec dec' m chain dg seed raw,
    rows = [Pipeline.AuditRow ev; Pipeline.RoutingRow tr (GetTeamID ctx) 1 dec' (cfg_Pool (pl_Accounting res)) m dg seed; raw] /\
    (match raw with Pipeline.RawRow _ _ _ _ _ _ => True | _ => False end) /\
    BuildChain (v_selector (live AtRouting)) (cfg_Pool (pl_Accounting res)) (Some dec) tr 1 = Ok (m :: chain) /\
    cfg_EndpointID (pl_Accounting res) = EndpointID m /\ cfg_Model (pl_Accounting res) = m_Model m.
Proof.
  unfold Run. destruct (Decide _ _) as [dec| |]; [|done..]. set (dec1 := require_capabilities _ _ dec).
  destruct (BuildChain _ _ _ _ _) as [[|m chain]| |] eqn:Hb; [done| |done..].
  destruct (Egress_Run _ _ _ _ _ _ _ _ _ _ _ _ _ _ _ _ _) as [l1 [er| |]]; [|done..].
  destruct b as [svc|]; [destruct (Pg_Reserve _ _ _ _ _ _ _ _ _ _) as [[svc1 []] alerts]|]; intros [= <- <- <- <-];
    by eexists _, dec1, _, m, chain, _, _, _.
Qed.

(** A row that says where a request went. *)
Definition says (v : View) (res : PipelineResult) (row : RoutingRow) : Prop :=
  ro_attempt row = 1%Z /\ ro_pool row = cfg_Pool (pl_Accounting res) /\
  exists m pool dec, ro_member row = Some (member_json m) /\
    EndpointID m = cfg_EndpointID (pl_Accounting res) /\ m_Model m = cfg_Model (pl_Accounting res) /\
    sel_Pools (v_selector v) !! ro_pool row = Some pool /\ eligible (v_selector v) pool dec m.

Lemma forward_row en g r body res :
  forwards x en g r body res -> uuid_shape (GetTraceID (Ctx r)) = true -> en_routing en = true ->
  GetTraceID (Ctx r) ∉ ro_trace <$> routing_event (lv_tables g) ->
  exists row, row ∈ routing_event (lv_tables (serve_forward x en g r (Some body)).1) /\ ro_trace row = GetTraceID (Ctx r) /\
    says (gy_view (lv_gateway g)) res row.
Proof.
  intros (l & b & rs & Hh) Hu Hok Hfresh. unfold serve_forward. rewrite Hh. cbv zeta. set (g1 := set_tables _ _).
  unfold HandleForward in Hh. destruct (check_forward _ _ _ _) as [req| |]; [|done..].
  destruct (Run _ _ _ _ _ _ _ _ _ _ _ _ _ _) as [[[l1 b1] rs1] [res1| |]] eqn:Hrun; [|done..]. injection Hh as -> -> -> ->.
  apply Run_row in Hrun as (ev & dec & dec' & m & chain & dg & seed & raw & -> & Hraw & Hb & He & Hm).
  destruct (BuildChain_eligible _ _ _ _ _ _ Hb) as (pool & Hpool & Hel).
  destruct (perform_keeps en res (stream_of x res) (performed (S <$> en_client en) (acts (stream_of x res))) g1) as [_ [extra Hex]].
  cbn [fst]. rewrite Hex.
  set (t1 := (WriteCtx (en_audit en) (lv_tables g) ev).1).
  assert (routing_event t1 = routing_event (lv_tables g)) as Ht1 by (unfold t1, WriteCtx; by repeat case_match).
  assert (routing_event (lv_tables g1) = routing_event (store_row en t1 (Pipeline.RoutingRow (GetTraceID (Ctx r)) (GetTeamID (Ctx r)) 1 dec'
    (cfg_Pool (pl_Accounting res)) m dg seed))) as Hg1.
  { unfold g1. cbn [set_tables lv_tables fold_left]. destruct raw; try done. cbn [store_row]. unfold Raw_Write. by repeat case_match. }
  assert (bool_decide ((GetTraceID (Ctx r), 1%Z) ∈ routing_key <$> routing_event (lv_tables g)) = false) as Hn.
  { apply bool_decide_eq_false_2. intros (row & [= Hk _] & Hin)%list_elem_of_fmap. apply Hfresh. rewrite Hk. by apply list_elem_of_fmap_2. }
  rewrite Hg1. cbn [store_row]. unfold Routing_Write. rewrite uuid_canonical by done.
  cbn [int2 negb andb Z.leb Z.ltb Z.compare]. rewrite Ht1, Hn, Hok. cbn [negb fst set_routing routing_event].
  eexists. split; [apply elem_of_app; left; apply elem_of_app; right; apply list_elem_of_singleton; reflexivity|].
  split; [done|]. split; [done|]. split; [done|]. exists m, pool, (Some dec). split_and!; try done. by apply Hel; left.
Qed.
End History.

(** ** The query *)

(** A UUID needs no escaping. *)
Lemma uuid_from_free c i s : is_hex c = false -> Ascii.eqb "-" c = false -> uuid_from i s = true -> free_of c s = true.
Proof.
  intros Hc Hd. revert i. induction s as [|a s IH]; intros i; [done|]. cbn [uuid_from free_of]. intros [Ha Hs]%andb_true_iff.
  rewrite (IH _ Hs), andb_true_r. apply negb_true_iff. destruct (Ascii.eqb a c) eqn:He; [|done]. apply Ascii.eqb_eq in He as ->.
  destruct (_ || _); [apply Ascii.eqb_eq in Ha as ->; by rewrite Ascii.eqb_refl in Hd|congruence].
Qed.
Lemma uuid_free c s : is_hex c = false -> Ascii.eqb "-" c = false -> uuid_shape s = true -> free_of c s = true.
Proof. apply uuid_from_free. Qed.

Lemma QueryUnescape_plain s : free_of "%" s = true -> free_of "+" s = true -> QueryUnescape s = Some s.
Proof.
  induction s as [|c s IH]; [done|]. cbn [free_of QueryUnescape]. intros [Hc Hs]%andb_true_iff [Hp Hs']%andb_true_iff.
  apply negb_true_iff in Hc, Hp. by rewrite Hc, Hp, IH.
Qed.

Lemma ParseQuery_trace tid : uuid_shape tid = true -> ParseQuery ("trace_id=" +:+ tid) = [("trace_id", tid)].
Proof.
  intros Hu. unfold ParseQuery. rewrite split_on_free by (rewrite free_of_app; by rewrite (uuid_free "&" tid)).
  cbn [omap list_omap]. unfold query_pair. rewrite free_of_app, (uuid_free ";" tid) by done.
  change ("trace_id=" +:+ tid) with ("trace_id" +:+ String "=" tid). rewrite split_at_join by done.
  cbn [default from_option id]. change (is_empty ("trace_id" +:+ String "=" tid)) with false. cbn [orb negb andb].
  rewrite (QueryUnescape_plain tid) by (by apply uuid_free). done.
Qed.

Lemma of_client_trace base tid auth : uuid_shape tid = true ->
  of_client base {| q_Method := "GET"; q_URL := base +:+ ("/api/v1/routing/events?trace_id=" +:+ tid); q_Query := [];
                    q_Authorization := Some auth; q_JSON := false; q_Body := None |} =
  {| ht_Method := "GET"; ht_Path := "/api/v1/routing/events"; ht_Query := [("trace_id", tid)]; ht_Authorization := auth;
     ht_Trace := ""; ht_Body := Some "" |}.
Proof.
  intros Hu. unfold of_client. cbn [q_URL q_Method q_Query q_Authorization q_Body]. rewrite str_drop_app.
  assert (split_at "#" ("/api/v1/routing/events?trace_id=" +:+ tid) = None) as ->
    by (apply split_at_None; rewrite free_of_app; by rewrite (uuid_free "#" tid)).
  cbn [fmap option_fmap option_map default from_option id].
  change ("/api/v1/routing/events?trace_id=" +:+ tid) with ("/api/v1/routing/events" +:+ String "?" ("trace_id=" +:+ tid)).
  rewrite split_at_join by done. cbn [default from_option id]. by rewrite ParseQuery_trace.
Qed.

(** ** The reply *)

Definition to_event (r : RoutingEventRow) : RoutingEvent :=
  {| re_TraceID := rr_TraceID r; re_AttemptNo := rr_AttemptNo r; re_Pool := rr_Pool r; re_MemberJSON := rr_MemberJSON r |}.
Lemma routing_decodes r : int64 (rr_AttemptNo r) -> dec_struct routing_field (enc_routing r) zero_routing = Some (to_event r).
Proof.
  intros Hr. unfold enc_routing. cbn [dec_struct].
  erewrite (dec_take routing_field); [|reflexivity|cbv beta; rewrite (dec_int_int64 _ _ Hr); reflexivity].
  done.
Qed.

(** ** The command *)

(** The lines of a replay with one event. *)
Definition replay_header : string :=
  "  " +:+ (pad_right 8 "attempt" +:+ (" " +:+ (pad_right 12 "pool" +:+ (" " +:+ (pad_right 24 "endpoint_id" +:+ " model"))))).
Definition replay_line (attempt : Z) (pool endpoint model : string) : string :=
  "  " +:+ (pad_right 8 (pretty attempt) +:+ (" " +:+ (pad_right 12 (truncate pool 12) +:+ (" " +:+
    (pad_right 24 (truncate endpoint 24) +:+ (" " +:+ truncate model 30)))))).
Definition replay_lines (tid : string) (line : string) : list Line :=
  [Text "Routing Replay"; Text ("  trace_id: " +:+ (tid +:+ String newline "")); Text replay_header; Text line].

Section Command.
Context {js : JSON} {jd : JSONDecoder} {lyml : LocalYaml} {pgt : PgTypes} {sql : SQLOrder} {bcrypt : Bcrypt} {sha : Sha256}.
Context {cel : CEL} {srs : SortSlice} {rand : Random}.
Context (x : Outside) (validURL : string -> bool) (m : Machine) (env : nat -> ReqEnv).

(** One stored event is one line. *)
Lemma replay_one tid w creds g k row mem :
  uuid_shape tid = true -> LoadCredentials (m_home m) (wd_disk w) = Ok creds -> wd_sent w = [] ->
  validURL (cr_GwURL creds +:+ ("/api/v1/routing/events?trace_id=" +:+ tid)) = true ->
  HasPrefix (cr_APIKey creds) "setup_" = false ->
  (lookupWithBcrypt (en_auth (env 0)) (lv_keys g) (cr_APIKey creds)).2 = Ok k -> en_query (env 0) = true ->
  filter (fun r => ro_trace r = tid) (routing_event (lv_tables g)) = [row] -> int64 (ro_attempt row) ->
  ro_member row = Some (member_json mem) -> plain_member mem -> prints_members x ->
  (forall r, parseJSON (array_text [enc_routing r]) = Some (JArr [enc_routing r])) ->
  exists w', runRoutingCtl validURL (gateway_of x (cr_GwURL creds) env g) m ["replay"; tid] w = (w', Ok tt) /\
    wd_out w' = (wd_out w ++ replay_lines tid (replay_line (ro_attempt row) (ro_pool row) (EndpointID mem) (m_Model mem)))%list /\
    wd_disk w' = wd_disk w /\ length (wd_sent w') = 1.
Proof.
  intros Hu Hl Hw Hv Hs Hk Hq Hrow Hint Hmem Hplain Hpr Hj.
  set (q := {| q_Method := "GET"; q_URL := cr_GwURL creds +:+ ("/api/v1/routing/events?trace_id=" +:+ tid);
               q_Query := []; q_Authorization := Some ("Bearer " +:+ cr_APIKey creds); q_JSON := false; q_Body := None |}).
  set (out := routing_out (x_jsonb x) row).
  assert ((serve x (env 0) g (of_client (cr_GwURL creds) q)).2 = array_reply (en_minted (env 0)) [enc_routing out]) as Hserve.
  { unfold q. rewrite of_client_trace by done.
    rewrite (serve_bearer x (env 0) g _ (cr_APIKey creds) k RoutingEvents_ []); try done; [|by left].
    cbn [serve_handler snd ht_Query query_get String.eqb Ascii.eqb Bool.eqb lv_tables set_keys].
    unfold RoutingEvents_ServeHTTP. rewrite Hq. destruct tid as [|c tid]; [done|]. cbn [is_empty orb negb]. rewrite Hrow.
    assert (Dashboard.scan_rows [row] = [row]) as -> by (apply Permutation_singleton_r, Dashboard.scan_perm). done. }
  assert (parseMemberJSON (re_MemberJSON (to_event out)) = Ok (EndpointID mem, m_Model mem)) as Hparse.
  { cbn [to_event re_MemberJSON out routing_out rr_MemberJSON]. rewrite Hmem, Hpr by done. by apply parseMemberJSON_member. }
  assert (is_empty tid = false) as Hne by (by destruct tid).
  eexists. split.
  - unfold runRoutingCtl. cbn [replay_loop String.eqb Ascii.eqb Bool.eqb]. rewrite Hne.
    rewrite (cmd_bind_ok _ _ w w creds) by (unfold reads; by rewrite Hl).
    rewrite (cmd_bind_ok _ _ w w _) by reflexivity.
    rewrite (cmd_bind_ok _ _ w {| wd_disk := wd_disk w; wd_ledger := wd_ledger w; wd_sent := [q]; wd_out := wd_out w;
                                  wd_writes := wd_writes w |} [to_event out]).
    + do 3 (erewrite cmd_bind_ok; [|reflexivity]). cbn [event_lines]. erewrite cmd_bind_ok; [reflexivity|].
      unfold event_line. rewrite Hparse. reflexivity.
    + unfold net, GetRoutingEvents. rewrite Hw. cbn [cl_GwURL cl_APIKey NewClient].
      rewrite (call_text validURL (gateway_of x (cr_GwURL creds) env g) [] q _ _ _ _ _ 200 (json_headers (en_minted (env 0)))
        (array_text [enc_routing out]) (JArr [enc_routing out]) [to_event out]); [done|exact Hv|exact Hserve|done|apply Hj|].
      apply dec_slice_arr. constructor; [by apply routing_decodes|constructor].
  - cbn [wd_out wd_disk wd_sent]. split; [|done]. by rewrite <- !app_assoc.
Qed.

Lemma forwards_header en g r body res : forwards x en g r body res ->
  ("X-AICG-Routed-To", cfg_EndpointID (pl_Accounting res) +:+ (":" +:+ cfg_Model (pl_Accounting res))) ∈ Headers res.
Proof.
  intros (l & b & rs & Hh). unfold HandleForward in Hh. destruct (check_forward _ _ _ _); [|done..].
  destruct (Run _ _ _ _ _ _ _ _ _ _ _ _ _ _) as [[[l1 b1] rs1] [res1| |]] eqn:Hrun; [|done..]. injection Hh as _ _ _ ->.
  apply Run_labels in Hrun as (_ & _ & _ & _ & _ & _ & _ & _ & _ & ->). right. right. left.
Qed.

End Command.

(** ** A replay *)

Module Later.
Import Server.Sample EndToEnd.Machines.

(** Postgres' text of a member, read off the document. *)
Definition text_of (j : json) (k : string) : string :=
  match j with JObj fs => match list_find (fun f => f.1 = k) fs with Some (_, (_, JStr s)) => s | _ => "" end | _ => "" end.
Definition flag_of (j : json) (k : string) : bool :=
  match j with JObj fs => match list_find (fun f => f.1 = k) fs with Some (_, (_, JBool b)) => b | _ => false end | _ => false end.
Definition number_of (j : json) (k : string) : Z :=
  match j with JObj fs => match list_find (fun f => f.1 = k) fs with Some (_, (_, JInt z)) => z | _ => 0%Z end | _ => 0%Z end.
Definition member_of (j : json) : Member :=
  {| EndpointID := text_of j "EndpointID"; Wire := text_of j "Wire"; VendorID := text_of j "VendorID"; m_Model := text_of j "Model";
     m_URL := text_of j "URL"; TrustTier := text_of j "TrustTier"; DataResidency := text_of j "DataResidency";
     m_Streaming := flag_of j "Streaming"; Private := flag_of j "Private"; OriginalWeight := number_of j "OriginalWeight" |}.
Definition postgres : Outside :=
  {| x_overflow := x_overflow outside; x_validURL := x_validURL outside; x_upstream := x_upstream outside; x_quote := x_quote outside;
     x_decodeError := x_decodeError outside; x_gen := x_gen outside; x_jsonb := fun j => jsonb_member (member_of j);
     x_unrouted := x_unrouted outside; x_metrics := x_metrics outside; x_uuid := x_uuid outside |}.
Lemma postgres_prints : prints_members postgres.
Proof. intros [] _. reflexivity. Qed.

(** Ann's request, a tick of the reaper, Ann's question. *)
Definition asked : HttpRequest := of_client "http://gw" (forward_request agent (printJSON forwarded_json)).
Definition relayed : Live := (serve postgres (busy_env 0) busy asked).1.
Definition later : Live := gw_event postgres relayed (Reaps (Auth.sample_env 9 [])).
Definition later_env (_ : nat) : ReqEnv := env_at 10 [] later.

Lemma members_plain name pool dec mem : sel_Pools (v_selector (gy_view (lv_gateway busy))) !! name = Some pool ->
  eligible (v_selector (gy_view (lv_gateway busy))) pool dec mem -> plain_member mem.
Proof.
  assert (map_Forall (fun _ pl => Forall (fun pm => forall ep, Routing.Registry (v_selector (gy_view (lv_gateway busy))) !! pm_EndpointID pm = Some ep ->
    plain_member (candidate pm ep)) (Members pl)) (sel_Pools (v_selector (gy_view (lv_gateway busy))))) as Hall.
  { apply map_Forall_singleton. constructor; [|constructor]. intros ep Hep. vm_compute in Hep. injection Hep as <-.
    unfold plain_member. apply (bool_decide_unpack _). by vm_compute. }
  intros Hp ((pm & ep & Hin & Hep & ->) & _). specialize (Hall _ _ Hp). rewrite list.Forall_forall in Hall. by apply Hall.
Qed.

End Later.
